(* ===== verification/_CoqProject ===== *)
-Q . S2P
Prelude.v
Strings.v
Contract.v
StateMachine.v
Validation.v
Providers.v
StoreTraits.v
Runner.v
MemStores.v
FileStores.v
PgStores.v
BackendSim.v
PgRefine.v
Demo.v
PgDemo.v
PgOutbox.v
RunnerLogic.v
RunnerCart.v
Repricing.v
RunnerCheckout.v
Interleave.v
Threads.v
Concurrency.v
Reservations.v
FileRecovery.v
Refinement.v
Outbox.v
Circuit.v
HttpClient.v
PaymentAdapter.v
Ap2.v
Webhooks.v
Facade.v
Consent.v
Workers.v
Frames.v
Adapters.v
Http.v
Signing.v
Signatures.v
SignedHttp.v
JsonValue.v
Config.v
ConfigLogic.v
SocketAddr.v
Server.v
Mcp.v
Discovery.v
Render.v
Routes.v
CartUpdate.v
A2a.v
Router.v
RouterLogic.v
Lifecycle.v
Metrics.v
Transport.v
Telemetry.v
