(* ===== verification/Prelude.v ===== *)
(** * Commerce Orchestrator: verification library (root file)

    A library of definitions translated from the Rust workspace under [src/crates] and of
    theorems about them.  The program is an orchestrator for agent commerce: agents build
    carts, carts are checked out once per idempotency key, payments go through provider
    adapters, events leave through an outbox, and several protocols (REST, UCP, ACP, MCP)
    are thin layers over one facade.

    ** The program and the files that model it

    - [Prelude] (this file): results, the state-and-error monad [ST], its rules [wp],
      machine integers, byte strings, and the tactics and lemmas the rest shares.
    - [Strings]: splitting, trimming, decimal numbers and the other string functions of the
      Rust standard library that the protocol files use.
    - [Contract] ([orchestrator-core]: [contract.rs], [fulfillment.rs], [discount.rs]): the
      data that crosses the boundaries.
    - [StateMachine] ([state_machine.rs]): the cart and checkout transition functions.
    - [Validation] ([validation.rs], [policy.rs]): what is checked before anything happens.
    - [Providers] ([provider-contracts], [provider-mocks]): the provider traits.  A provider
      is a function of the interaction number, so it may answer anything, differently every
      time.
    - [StoreTraits] ([store_traits.rs], [payment_state.rs], [webhooks.rs] and the records of
      the stores): every trait is a class of operations and a class of laws over an
      observation; [Backend] and [BackendLaws] bundle the eleven stores of a runner.
    - [Runner] ([runner.rs]): cart commands, checkout, outbox, payment lifecycle and queries
      as programs over the [World], which is the stores, a counter that numbers
      interactions, and a ghost trace of provider calls.
    - [MemStores] ([runner.rs], [idempotency.rs], [commit.rs], [inventory.rs], [effects.rs],
      [order.rs], [payment_state.rs], [webhooks.rs]): the in-memory stores, with the proof
      that they satisfy the laws.  [Demo]: a concrete deployment the witnesses run on.
    - [FileStores] ([persistence/file_backed.rs]): the file stores, whose writes may fail or
      be torn, with the proof that they satisfy the laws too, for keys without a separator.
    - [PgStores] ([persistence/postgres_backed.rs]): the PostgreSQL stores, as atomic
      statements on tables that may fail, one after the other; [PgOutbox]: the leases of
      its outbox and the races of its event rows.  [PgDemo]: a concrete database.
    - [BackendSim]: when two backends are related, operation by operation, and that the
      runner's programs preserve the relation.  [PgRefine]: the PostgreSQL stores and the
      in-memory stores are so related.  [Refinement]: what follows for whole sessions.
    - [RunnerLogic], [RunnerCart], [Repricing], [RunnerCheckout]: the theorems about the runner.
      [Repricing] says what it means that a cart has the prices, the tax, the discounts and
      the geo mark its providers answered, and that the recalculations make it so.
      [FileRecovery]: what of a checkout survives a restart on the files.
    - [Interleave] ([runner.rs]): the checkout, the cart commands and the payment lifecycle again,
      as programs that stop wherever the code awaits, and the proof that uninterrupted they
      are the operations of [Runner]. [Threads]: pools of such programs, and the rule by which
      an invariant of the steps holds of every run. [Concurrency]: any number of checkouts and
      commands beside each other; [Consent] ([facade.rs: execute_checkout]): the checkouts
      with the guard of strict mode in front of them; [Workers]: workers and producers at the
      outbox.
    - [Reservations] ([inventory.rs]): what checkouts do to the stock.
    - [Outbox] ([outbox_processor.rs]) and [Webhooks] ([webhooks.rs]): processing of the
      outbox and delivery to subscribers.
    - [Circuit], [HttpClient], [PaymentAdapter] ([integration-adapters]: [circuit.rs];
      [client.rs], [auth.rs]; [payment.rs], [error.rs]): how a provider is called.
      [Adapters]: the catalog, pricing, tax, geo, receipt, fulfillment, delegation and
      identity adapters over that client.  [Transport] ([client.rs]): the construction of the
      client, and what its attempts leave in the metrics.
    - [Ap2] ([orchestrator-api]: [ap2_verification.rs]), [Facade] ([facade.rs], [authz.rs],
      [pii.rs]) and [Http] ([orchestrator-http]: [routes/v1.rs], [dto.rs], [auth.rs],
      [error.rs]; [acp_mapping.rs], [authn.rs]): the guards and entry points.  [Frames]: the
      rules by which a program of the runner keeps to a tenant, used from [Facade] up.
    - [Discovery] ([capability.rs], [ucp_mapping.rs], [routes/discovery.rs],
      [routes/health.rs]): the profiles, their versions, the advertised capabilities,
      liveness and readiness.
    - [Render] ([dto.rs], [acp_mapping.rs]): what carts, orders, results
      and fulfillment look like to an agent.  [Routes] ([routes/v1.rs]): the handlers that
      update and show them, the embedded links, catalog, orders and delegation.
      [CartUpdate]: what an update by lines makes of a cart.
    - [Signing] ([orchestrator-api/src/signing.rs]): keys, rings, published keys, the
      signature base, the structured fields and the verification of signed messages;
      [Signatures]: its theorems.  [SignedHttp] ([orchestrator-http/src/signing.rs]): the
      middleware in front of the handlers and behind them.
    - [Config] ([orchestrator-http/src/config.rs]): every section of the configuration, the
      overrides from the environment, and the checks of production; [ConfigLogic]: its
      theorems.  [SocketAddr]: the parser of the standard library for the bind address.
      [Server] ([main.rs], [state.rs], [app.rs]): what the process sets up before it listens,
      and the layers around the handlers.
    - [JsonValue]: JSON values and the accessors of [serde_json::Value].  [Mcp]
      ([orchestrator-mcp]: [jsonrpc.rs], [tools.rs]): the JSON-RPC server, its tools and
      resources, on top of the facade.
    - [A2a] ([routes/a2a.rs], [adapters.rs]): the agent-to-agent transport, its envelopes
      and its message skills.
    - [Router] ([routes/mod.rs], [routes/v1.rs: routes], [app.rs], [observability.rs]): the
      table of routes and the way of a request through the signature gate, the route, the
      caller, the path and the body to its handler.  [RouterLogic]: the theorems about the
      API as a whole.
    - [Lifecycle] ([outbox_processor.rs: run], the end of [main.rs]): the outbox task beside
      the requests, the signal, the drain and the exit, with the time limit of the drain and
      the pause before the exit.
    - [Metrics] ([orchestrator-observability/src/metrics.rs]): the registry and what the
      outbox, the facade and the breaker record in it.  [Telemetry] ([context.rs],
      [audit.rs], [tracing_ext.rs]; [orchestrator-http]: [observability.rs], [signing.rs],
      [error.rs]): what the layers around the handlers count, the id a request carries to
      the services it calls, and the audit sink.

    A handler of [Http] calls the facade, the facade calls the runner, the runner calls
    providers and stores.  An operation of the code that takes [&self] and returns a
    [Result] is a program [S -> result A E * S]: an error keeps the effects made before it,
    as the shared stores do.

    ** What the theorems show

    - Money ([RunnerCheckout]): a checkout makes no payment call, one authorization, or one
      authorization and one capture, and only for a cart that was settled for the request,
      with the prices, tax and discounts the providers answered for it;
      a result is returned again, without effect, for the same key; what the key says after
      every kind of error and what the stores hold; which errors leave the key stuck; what is
      reserved of a cart with two lines of one item ([Reservations]).
    - Races ([Concurrency], [Consent]): checkouts that overlap and are given up half way
      charge a key once, agree on its result and captured exactly when it says so, through
      the facade too, on stores that satisfy the laws and as long as nothing else moves money
      under the key; in strict mode a mandate pays once, whatever keys the requests that
      share it carry; cart commands that overlap lose updates, and a capture that is slow to
      be recorded hides a refund.
    - Carts ([RunnerCart], [Repricing]): the stored carts stay consistent under every command
      and every provider answer, a command touches one cart, what each command edits and how
      it is priced, an item command that fails leaves the snapshots alone, and how a
      failing provider or a late state check leaves a cart.
    - Tenants ([Facade], [Http], [Webhooks]): carts, checkouts and events stay within a
      tenant, with the exact condition on the two cart ids a command can carry, and the
      route that violates it.
    - The API as a whole ([RouterLogic]): only a caller the deployment knows changes the state,
      and whatever a caller sends leaves the carts of other tenants as they were.
    - What agents see ([Render], [Routes], [Discovery]): the entries of a response add up to
      its total, an update leaves exactly the lines it names ([CartUpdate]), a fulfillment
      request is shown back, an embedded link is bound to its cart, a delegated token to its
      caller, and discovery says what is configured.
    - Delivery ([Outbox], [Webhooks], [Lifecycle], [Metrics]): no message is lost unless a store
      fails in its claim, the outbox drains, also after a signal and beside the requests, when
      a message is dead-lettered, how long the process stays after a signal and what it answers
      until then, who is posted to, and that the counters account for the queue.
    - Workers ([Workers]): any number of workers try a message in turn, each attempt once, and
      account for what they took; on files a worker that dies takes its message with it.
    - Calls ([HttpClient], [Circuit], [PaymentAdapter], [Adapters], [Transport]): bounds on
      repetition, when a request may be repeated, idempotency keys on every attempt, which
      service is called with what, a breaker that cannot wedge while no failures are reported
      (and stragglers that keep it open), what certificates a client is
      built with, and that every attempt is counted under the status it ended with.
    - Books ([Telemetry]): from the start of the process on, every request is refused by the
      gate under one cause or counted, errors and signatures belong to counted requests, and
      the calls made for a request carry its id.
    - Stores ([Refinement], [PgOutbox]): a session on files or on PostgreSQL gives the
      results of the same session in memory and the stores hold the same carts, keys, commits,
      reservations, messages, orders and payment states ([files_hold], [postgres_holds], which
      leave out the leases, and keys in flight in the rows), with the exact conditions, and the
      runs that violate them: keys in flight, by which two checkouts that overlap charge twice, and
      concurrent appends on PostgreSQL; outbox messages are exclusive within a lease and come
      back after it, to claims that fall within one further lease.
    - Durability ([FileRecovery]): a result survives a restart, a torn write forgets every
      key, and which tenants' keys the files confuse.
    - Consent ([Ap2], [Facade]): what strict mode accepts, that a mandate is spent once, and
      what that does to retries.
    - Signatures ([Signatures], [SignedHttp]): what is signed verifies, unless the id of the
      key has a semicolon or a quote in it, discovery publishes
      the keys that verify it, a handler runs only for what a key holder signed, responses
      verify from what a client reads off them, and the date that passes as fresh.
    - Start ([ConfigLogic], [Server]): what production requires and that it is closed to
      callers without the secret, that it signs every response, when agents must sign, that
      the environment overrides the file, that a rotation loses no key, and that numbers
      out of range cannot stall the outbox.
    - Agents ([Mcp], [A2a]): responses are well formed, the published schemas are enforced,
      tools keep to the caller's carts, the tools that do not ask who is calling, and that an
      envelope means what the body of the REST route means.

    The theorems about the runner hold for every backend that satisfies the laws (the
    in-memory and the file stores), every provider, clock and id source.  PostgreSQL does
    not satisfy them, since its claim grants a key that is in flight; it gets them where
    [Refinement] relates it to the in-memory stores.

    ** Modelling choices

    Integers are [Z] in the range of their type; [+], [-], [*] and sums on [i64] wrap, as
    the workspace's release profile does.  A Rust [str] is its UTF-8 bytes.  [HashMap]s are
    [gmap]s; where the code iterates one, no statement depends on the order.  Times and
    durations are nanoseconds.  Operations on a store hold its lock for their whole body and
    are atomic; a program runs without another program in between, except in [Interleave],
    [Concurrency], [Consent] and [Workers], where programs stop at every interaction, in
    [Lifecycle], where requests run between the messages of the outbox task, and in [Circuit],
    where the steps of any number of calls interleave. Recursion is structural except for
    [str_trim] (every step strips a byte: the length is fuel enough), the retry loop (fuel is
    the retries left, the code's own counter), and [drain], whose fuel bounds the number of
    batches ([Lifecycle] takes the same loop step by step and proves that it ends).

    A statement of PostgreSQL is atomic and either takes effect or fails with or without
    having taken effect; between two statements of one operation others may run ([PgOutbox]).

    UUIDs, clocks, JSON, file system and database faults, HMAC, Ed25519, P-256, SHA-256,
    base64, JWT and the network belong to other crates: they are arguments of the
    definitions that use them, and their laws (a signature verifies under its key, text
    parses back) are classes that the demos instantiate with concrete functions.  Metrics and
    tracing return nothing to the code: the counters are modelled beside the programs that
    record them ([Metrics], [Transport], [Telemetry]), which are proved to be the programs
    without counters once these are left out.

    ** Not modelled

    What a single handler counts on its own ([Telemetry] takes it as an argument that leaves the
    counters of the layers alone), and the spans, which are written and never read. The
    OpenAPI document, which macros generate from the types. The loop of [axum::serve] and the
    signal handlers. The opening of pools and the migrations: their meaning is that of the SQL
    the database runs. Writes of two tasks to one JSON file that overlap. The mappings of
    [acp_mapping.rs] that only build a command are written out in the handlers that call them.
    Redirects: the client keeps the default policy of [reqwest], which follows them inside one
    send, so the network of [HttpClient] is where a send ends up, and the hosts in between are
    not seen. The delivery of [Webhooks] reads the registrations of the in-memory store; those
    of the files and of PostgreSQL are modelled as stores, and their failures are not in it.
    Programs other than the checkout, the cart commands, the payment lifecycle and the outbox
    step run whole: two of them do not interleave. *)

From Stdlib Require Export ZArith Lia.
From stdpp Require Export base gmap strings list pretty fin_maps.

#[export] Set Warnings "-clear-no-such-hyp".

(** ** Results, options and the state-and-error monad *)

(** Rust's [Result<A, E>]. *)
Inductive result (A E : Type) : Type :=
| Ok (a : A)
| Err (e : E).
Arguments Ok {A E} a.
Arguments Err {A E} e.

Definition is_ok {A E} (r : result A E) : bool :=
  match r with Ok _ => true | Err _ => false end.

(** [Result::map_err], and the conversion the [?] operator applies. *)
Definition map_err {A E F} (f : E -> F) (r : result A E) : result A F :=
  match r with Ok a => Ok a | Err e => Err (f e) end.

(** [?] between results. *)
Definition result_bind {A C E} (r : result A E) (f : A -> result C E) : result C E :=
  match r with Ok a => f a | Err e => Err e end.

(** [Option::ok_or]. *)
Definition ok_or {A E} (o : option A) (e : E) : result A E :=
  match o with Some a => Ok a | None => Err e end.

(** [Option::unwrap_or]. *)
Definition unwrap_or {A} (o : option A) (d : A) : A :=
  match o with Some a => a | None => d end.

(** [a.or_else(|| b)]. *)
Definition or_else {A} (a b : option A) : option A := match a with Some _ => a | None => b end.

(** [Option::is_some_and]. *)
Definition is_some_and {A} (o : option A) (p : A -> bool) : bool :=
  match o with Some a => p a | None => false end.

(** [Option::is_none_or]. *)
Definition is_none_or {A} (o : option A) (p : A -> bool) : bool :=
  match o with Some a => p a | None => true end.

Definition is_some {A} (o : option A) : bool :=
  match o with Some _ => true | None => false end.

(** An [async fn(&self, ..) -> Result<A, E>] that mutates the state [S]: the state
    survives an error return, as the shared stores do in the code. *)
Definition ST (S E A : Type) : Type := S -> result A E * S.

#[export] Instance ST_ret {S E} : MRet (ST S E) := fun A a s => (Ok a, s).
#[export] Instance ST_bind {S E} : MBind (ST S E) := fun A B f m s =>
  match m s with
  | (Ok a, s') => f a s'
  | (Err e, s') => (Err e, s')
  end.

Definition st_fail {S E A} (e : E) : ST S E A := fun s => (Err e, s).
Definition st_lift {S E A} (r : result A E) : ST S E A := fun s => (r, s).
Definition st_gets {S E A} (f : S -> A) : ST S E A := fun s => (Ok (f s), s).

(** [for x in xs { body(x)?; }]. *)
Fixpoint st_iter {S E A} (f : A -> ST S E unit) (xs : list A) : ST S E unit :=
  match xs with
  | [] => mret tt
  | x :: rest => f x ≫= fun _ => st_iter f rest
  end.

(** [match m { Ok(a) => k(a), Err(e) => h(e) }] with the state threaded through. *)
Definition st_catch {S E A B} (m : ST S E A) (k : A -> ST S E B) (h : E -> ST S E B)
  : ST S E B := fun s =>
  match m s with
  | (Ok a, s') => k a s'
  | (Err e, s') => h e s'
  end.

(** [wp m Q s]: running [m] from [s] ends, on every branch, in a result and a state
    that satisfy [Q].  The monad is total, so this is a total-correctness statement. *)
Definition wp {S E A} (m : ST S E A) (Q : result A E -> S -> Prop) (s : S) : Prop :=
  Q (fst (m s)) (snd (m s)).

(** ** Machine integers

    Integers are [Z] values within the range of their Rust type.  The arithmetic
    is that of a release build: the workspace sets no [overflow-checks], so [+],
    [-], [*] and [Iterator::sum] wrap. *)

Definition i64_max : Z := 2 ^ 63 - 1.
Definition i64_min : Z := - 2 ^ 63.
Definition i64_wrap (x : Z) : Z := (x + 2 ^ 63) mod 2 ^ 64 - 2 ^ 63.
Definition i64_add (x y : Z) : Z := i64_wrap (x + y).
Definition i64_sub (x y : Z) : Z := i64_wrap (x - y).
Definition i64_mul (x y : Z) : Z := i64_wrap (x * y).
Definition i64_sum (xs : list Z) : Z := foldl i64_add 0%Z xs.
Definition i64_saturating_add (x y : Z) : Z := Z.max i64_min (Z.min i64_max (x + y)).
Definition u32_max : Z := 2 ^ 32 - 1.
Definition u32_wrap (x : Z) : Z := x mod 2 ^ 32.
Definition u64_max : Z := 2 ^ 64 - 1.
Definition u64_wrap (x : Z) : Z := x mod 2 ^ 64.

Declare Scope orch_scope.
Delimit Scope orch_scope with orch.
Notation "'let?' x ':=' r 'in' k" := (result_bind r (fun x => k))
  (at level 10, x binder, r at level 100, k at level 200,
   format "'[v' 'let?'  x  ':='  r  'in' '/' k ']'") : orch_scope.
Infix "+!" := i64_add (at level 50, left associativity) : orch_scope.
Infix "-!" := i64_sub (at level 50, left associativity) : orch_scope.
Infix "*!" := i64_mul (at level 40, left associativity) : orch_scope.
Open Scope orch_scope.

Definition in_i64 (x : Z) : Prop := (i64_min <= x <= i64_max)%Z.
Definition in_u32 (x : Z) : Prop := (0 <= x <= u32_max)%Z.
Definition in_u64 (x : Z) : Prop := (0 <= x <= u64_max)%Z.

(** ** Strings

    A Rust [str] is its UTF-8 bytes; [String.length] is [str::len]. *)

Definition str_is_empty (s : string) : bool := String.eqb s "".

Definition bytes_to_string (bs : list nat) : string :=
  fold_right (fun b s => String (Ascii.ascii_of_nat b) s) EmptyString bs.

(** UTF-8 encodings of the characters with the Unicode [White_Space] property. *)
Definition white_space : list string :=
  map bytes_to_string
    [ [9]; [10]; [11]; [12]; [13]; [32]; [194; 133]; [194; 160]; [225; 154; 128];
      [226; 128; 128]; [226; 128; 129]; [226; 128; 130]; [226; 128; 131];
      [226; 128; 132]; [226; 128; 133]; [226; 128; 134]; [226; 128; 135];
      [226; 128; 136]; [226; 128; 137]; [226; 128; 138]; [226; 128; 168];
      [226; 128; 169]; [226; 128; 175]; [226; 129; 159]; [227; 128; 128] ].

(** [str::strip_prefix]. *)
Fixpoint strip_prefix (p s : string) : option string :=
  match p, s with
  | EmptyString, _ => Some s
  | String a p', String b s' => if Ascii.eqb a b then strip_prefix p' s' else None
  | String _ _, EmptyString => None
  end.

(** [str::starts_with]. *)
Definition starts_with (p s : string) : bool := is_some (strip_prefix p s).

Definition strip_any (ps : list string) (s : string) : option string :=
  fold_right (fun p acc => match strip_prefix p s with Some r => Some r | None => acc end)
    None ps.

Fixpoint trim_start_fuel (fuel : nat) (ws : list string) (s : string) : string :=
  match fuel with
  | O => s
  | S n => match strip_any ws s with Some r => trim_start_fuel n ws r | None => s end
  end.

(** [str::trim]: every step strips at least one byte, so the length is fuel enough. *)
Definition str_trim (s : string) : string :=
  let l := trim_start_fuel (String.length s) white_space s in
  String.rev (trim_start_fuel (String.length l) (map String.rev white_space) (String.rev l)).

Definition ascii_lower (a : Ascii.ascii) : Ascii.ascii :=
  let n := Ascii.nat_of_ascii a in
  if (65 <=? n) && (n <=? 90) then Ascii.ascii_of_nat (n + 32) else a.

Fixpoint to_ascii_lowercase (s : string) : string :=
  match s with
  | EmptyString => EmptyString
  | String a s' => String (ascii_lower a) (to_ascii_lowercase s')
  end.

Definition eq_ignore_ascii_case (a b : string) : bool :=
  String.eqb (to_ascii_lowercase a) (to_ascii_lowercase b).

(** ** Lists *)

(** [xs.iter_mut().find(p)] followed by an update of the element found. *)
Fixpoint update_first {A} (p : A -> bool) (f : A -> A) (xs : list A) : option (list A) :=
  match xs with
  | [] => None
  | x :: rest =>
      if p x then Some (f x :: rest)
      else match update_first p f rest with Some r => Some (x :: r) | None => None end
  end.

(** [xs.iter().find(p)]. *)
Definition find_first {A} (p : A -> bool) (xs : list A) : option A := List.find p xs.

(** [xs.iter().find_map(f)]. *)
Fixpoint find_map {A B} (f : A -> option B) (xs : list A) : option B :=
  match xs with
  | [] => None
  | x :: rest => match f x with Some b => Some b | None => find_map f rest end
  end.

(** [xs.iter().any(p)], [xs.contains(&x)] and [xs.retain(p)]. *)
Definition any {A} (p : A -> bool) (xs : list A) : bool := existsb p xs.
Definition str_contains (xs : list string) (x : string) : bool := existsb (String.eqb x) xs.
Definition retain {A} (p : A -> bool) (xs : list A) : list A := List.filter p xs.

(** ** Lemmas *)

Lemma find_map_Some {A C} (f : A -> option C) xs c :
  find_map f xs = Some c -> exists x, x ∈ xs /\ f x = Some c.
Proof.
  induction xs as [|x xs IH]; cbn; [done|]. destruct (f x) as [b|] eqn:Hx.
  - intros [= <-]. exists x. split; [apply list_elem_of_here|done].
  - intros H. destruct (IH H) as (y & Hy & Hf). exists y. split; [by apply list_elem_of_further|done].
Qed.

Section monad.
Context {S E : Type}.

Lemma wp_ret {A} (a : A) (Q : result A E -> S -> Prop) s :
  wp (mret a) Q s <-> Q (Ok a) s.
Proof. done. Qed.

Lemma wp_fail {A} (e : E) (Q : result A E -> S -> Prop) s :
  wp (st_fail e) Q s <-> Q (Err e) s.
Proof. done. Qed.

Lemma wp_lift {A} (r : result A E) (Q : result A E -> S -> Prop) s :
  wp (st_lift r) Q s <-> Q r s.
Proof. done. Qed.

Lemma wp_gets {A} (f : S -> A) (Q : result A E -> S -> Prop) s :
  wp (st_gets f) Q s <-> Q (Ok (f s)) s.
Proof. done. Qed.

Lemma wp_bind {A B} (m : ST S E A) (f : A -> ST S E B) Q s :
  wp (m ≫= f) Q s <->
  wp m (fun r s' => match r with Ok a => wp (f a) Q s' | Err e => Q (Err e) s' end) s.
Proof. unfold wp, mbind, ST_bind. by generalize (m s); intros [[] ?]. Qed.

Lemma wp_catch {A B} (m : ST S E A) (k : A -> ST S E B) h Q s :
  wp (st_catch m k h) Q s <->
  wp m (fun r s' => match r with Ok a => wp (k a) Q s' | Err e => wp (h e) Q s' end) s.
Proof. unfold wp, st_catch. by generalize (m s); intros [[] ?]. Qed.

Lemma wp_mono {A} (m : ST S E A) (P Q : result A E -> S -> Prop) s :
  wp m P s -> (forall r s', P r s' -> Q r s') -> wp m Q s.
Proof. unfold wp. auto. Qed.

Lemma wp_run {A} (m : ST S E A) (Q : result A E -> S -> Prop) s r s' :
  wp m Q s -> m s = (r, s') -> Q r s'.
Proof. unfold wp. intros H Hr. by rewrite Hr in H. Qed.

Lemma wp_iter {A} (I : S -> Prop) (f : A -> ST S E unit) xs (Q : result unit E -> S -> Prop) s :
  I s ->
  (forall x s, x ∈ xs -> I s -> wp (f x) (fun r s' =>
     match r with Ok _ => I s' | Err e => Q (Err e) s' end) s) ->
  (forall s, I s -> Q (Ok tt) s) ->
  wp (st_iter f xs) Q s.
Proof.
  revert s. induction xs as [|x xs IH]; intros s HI Hf HQ; simpl; [by apply HQ|].
  apply wp_bind. eapply wp_mono; [apply Hf; [left|done]|].
  intros [a|e] s' H; [|done]. apply IH; [done| |done].
  intros y t Hy. apply Hf. by right.
Qed.
End monad.

Section integers.
Local Open Scope Z_scope.

Lemma i64_wrap_range x : in_i64 (i64_wrap x).
Proof.
  unfold in_i64, i64_wrap, i64_min, i64_max.
  pose proof (Z.mod_pos_bound (x + 2 ^ 63) (2 ^ 64) ltac:(lia)). lia.
Qed.

Lemma i64_wrap_id x : in_i64 x -> i64_wrap x = x.
Proof.
  unfold in_i64, i64_wrap, i64_min, i64_max. intros H.
  rewrite Z.mod_small by lia. lia.
Qed.

(** Wrapping commutes with addition: only the final value matters. *)
Lemma i64_wrap_add_l x y : i64_wrap (i64_wrap x + y) = i64_wrap (x + y).
Proof.
  unfold i64_wrap.
  replace ((x + 2 ^ 63) mod 2 ^ 64 - 2 ^ 63 + y + 2 ^ 63)
    with ((x + 2 ^ 63) mod 2 ^ 64 + y) by lia.
  rewrite Zplus_mod_idemp_l. f_equal. f_equal. lia.
Qed.

Lemma i64_sum_acc xs a : foldl i64_add a xs = i64_wrap (a + foldr Z.add 0 xs)
  \/ xs = [].
Proof.
  revert a. induction xs as [|x xs IH]; intros a; [by right|left; simpl].
  destruct (IH (i64_add a x)) as [-> | ->]; simpl; unfold i64_add.
  - rewrite i64_wrap_add_l. f_equal. lia.
  - f_equal. lia.
Qed.

(** [Iterator::sum] over [i64] is the true sum whenever that sum is representable,
    whatever the intermediate sums were. *)
Lemma i64_sum_exact xs : in_i64 (foldr Z.add 0 xs) -> i64_sum xs = foldr Z.add 0 xs.
Proof.
  intros H. unfold i64_sum. destruct (i64_sum_acc xs 0) as [-> | ->]; [|done].
  by rewrite i64_wrap_id.
Qed.
End integers.

Section lists.
Context {A : Type}.
Implicit Types (xs : list A) (p : A -> bool).

Lemma update_first_None p f xs :
  update_first p f xs = None <-> Forall (fun x => p x = false) xs.
Proof.
  induction xs as [|x xs IH]; simpl; [split; constructor|].
  destruct (p x) eqn:Hp.
  - split; [done|]. intros H. apply Forall_cons in H as [? _]. congruence.
  - rewrite Forall_cons, <- IH. destruct (update_first p f xs); split; intuition congruence.
Qed.

Lemma retain_sublist p xs : retain p xs `sublist_of` xs.
Proof. unfold retain. induction xs; cbn; [done|]. by case_match; constructor. Qed.

(** Exactly one element changes: the first that satisfies [p]. *)
Lemma update_first_Some p f xs ys :
  update_first p f xs = Some ys ->
  exists l x r, xs = l ++ x :: r /\ ys = l ++ f x :: r /\ p x = true
                /\ Forall (fun y => p y = false) l.
Proof.
  revert ys. induction xs as [|x xs IH]; intros ys; simpl; [done|].
  destruct (p x) eqn:Hp; intros H; simplify_eq.
  - exists [], x, xs. auto.
  - destruct (update_first p f xs) as [zs|] eqn:Hu; simplify_eq.
    destruct (IH zs eq_refl) as (l & y & r & -> & -> & ? & ?).
    exists (x :: l), y, r. auto.
Qed.

Lemma existsb_elem p xs : existsb p xs = true <-> exists x, x ∈ xs /\ p x = true.
Proof.
  rewrite existsb_exists. split; intros (x & Hin & Hp); exists x; split; try done.
  - by apply list_elem_of_In.
  - by apply list_elem_of_In in Hin.
Qed.
End lists.

Lemma str_is_empty_spec s : str_is_empty s = true <-> s = "".
Proof. apply String.eqb_eq. Qed.

Lemma str_contains_spec xs x : str_contains xs x = true <-> x ∈ xs.
Proof.
  unfold str_contains. rewrite existsb_elem. split.
  - intros (y & Hy & He). apply String.eqb_eq in He. by subst.
  - intros H. exists x. by rewrite String.eqb_refl.
Qed.

(** [String.append] is [simpl never] under stdpp; its two equations, for rewriting. *)
Lemma str_app_nil_l s : "" +:+ s = s.
Proof. reflexivity. Qed.

Lemma str_app_cons a s t : String a s +:+ t = String a (s +:+ t).
Proof. reflexivity. Qed.

Lemma str_app_assoc (s t u : string) : (s +:+ t) +:+ u = s +:+ t +:+ u.
Proof. induction s as [|a s IH]; [done|]. by rewrite !str_app_cons, IH. Qed.

Lemma strip_prefix_spec p s r : strip_prefix p s = Some r <-> s = p +:+ r.
Proof.
  revert s. induction p as [|a p IH]; intros [|b s]; cbn;
    rewrite ?str_app_nil_l, ?str_app_cons.
  - split; congruence.
  - split; congruence.
  - split; congruence.
  - destruct (Ascii.eqb_spec a b) as [->|Hab].
    + rewrite IH. split; congruence.
    + split; congruence.
Qed.

Lemma eq_ignore_ascii_case_refl s : eq_ignore_ascii_case s s = true.
Proof. apply String.eqb_refl. Qed.

(** ** Automation *)

(** Splits conjunctions, existentials and pairs of equal constructors in the context. *)
Ltac simp :=
  repeat first
    [ progress simplify_eq/=
    | match goal with
      | H : _ /\ _ |- _ => destruct H
      | H : exists _, _ |- _ => destruct H
      | H : (_ && _)%bool = true |- _ => apply andb_prop in H
      end ].

(** Case analysis on the scrutinee of a [match] in the goal. *)
Ltac case_goal :=
  match goal with
  | |- context [match ?x with _ => _ end] =>
      lazymatch x with
      | context [match _ with _ => _ end] => fail
      | _ => destruct x eqn:?
      end
  end.

(** Symbolic execution of the monad: turns a [wp] of a composite program into the
    [wp]s of its parts. *)
Ltac wp_step :=
  first [ rewrite wp_bind | rewrite wp_ret | rewrite wp_fail | rewrite wp_lift
        | rewrite wp_gets | rewrite wp_catch ].
Ltac wp_steps := repeat (wp_step; cbv beta iota).

Create HintDb orch.
#[export] Hint Resolve i64_wrap_range eq_ignore_ascii_case_refl : orch.

(** Refutes a run with the wrong kind of result. *)
Ltac wrong_result H :=
  apply (f_equal (fun x => is_ok (fst x))) in H; vm_compute in H; discriminate H.

