(* ===== verification/Strings.v ===== *)
(** * Text: the [str] methods the parsers use, and what they do to the texts we print

    Searches for one ASCII character, words, integers, joining.  A text of visible ASCII
    survives [str_trim] and is one word; a printed integer parses back to itself. *)

From S2P Require Export Prelude.
From Stdlib Require Import Ascii.

(** ** Definitions *)

(** [str::split_once(c)]; also [str::find(c)] with the two slices around it. *)
Fixpoint split_once (c : ascii) (s : string) : option (string * string) :=
  match s with
  | EmptyString => None
  | String a r =>
      if Ascii.eqb a c then Some ("", r)
      else match split_once c r with Some (x, y) => Some (String a x, y) | None => None end
  end.

(** [str::split(c)]. *)
Fixpoint split (c : ascii) (s : string) : list string :=
  match s with
  | EmptyString => [""]
  | String a r =>
      if Ascii.eqb a c then "" :: split c r
      else match split c r with
           | x :: xs => String a x :: xs
           | [] => [String a ""]
           end
  end.

(** [str::strip_suffix]. *)
Definition strip_suffix (p s : string) : option string :=
  match strip_prefix (String.rev p) (String.rev s) with
  | Some r => Some (String.rev r)
  | None => None
  end.

(** [str::trim_end_matches(c)]. *)
Fixpoint trim_leading (c : ascii) (s : string) : string :=
  match s with
  | String a r => if Ascii.eqb a c then trim_leading c r else s
  | EmptyString => ""
  end.

Definition trim_end_matches (c : ascii) (s : string) : string :=
  String.rev (trim_leading c (String.rev s)).

Definition push_word (cur : string) (ws : list string) : list string :=
  if str_is_empty cur then ws else cur :: ws.

(** [str::split_whitespace]; every step consumes a byte. *)
Fixpoint words_fuel (fuel : nat) (cur s : string) : list string :=
  match fuel with
  | O => push_word cur []
  | S n =>
      match strip_any white_space s with
      | Some r => push_word cur (words_fuel n "" r)
      | None => match s with
                | EmptyString => push_word cur []
                | String a r => words_fuel n (cur +:+ String a "") r
                end
      end
  end.

Definition split_whitespace (s : string) : list string := words_fuel (String.length s) "" s.

(** [[..].join(sep)]. *)
Fixpoint join (sep : string) (xs : list string) : string :=
  match xs with
  | [] => ""
  | [x] => x
  | x :: rest => x +:+ sep +:+ join sep rest
  end.

Fixpoint str_forall (p : ascii -> bool) (s : string) : bool :=
  match s with EmptyString => true | String a r => p a && str_forall p r end.

Definition code (a : ascii) : Z := Z.of_nat (nat_of_ascii a).

(** Visible ASCII. *)
Definition graphic (a : ascii) : bool := ((33 <=? code a) && (code a <? 127))%Z.

(** [str::parse::<i64>]: a sign, at least one digit, every intermediate value in range. *)
Fixpoint parse_i64_digits (neg : bool) (s : string) (acc : Z) : option Z :=
  match s with
  | EmptyString => Some acc
  | String a r =>
      if ((48 <=? code a) && (code a <=? 57))%Z then
        let v := (if neg then acc * 10 - (code a - 48) else acc * 10 + (code a - 48))%Z in
        if ((v <? i64_min) || (i64_max <? v))%Z then None else parse_i64_digits neg r v
      else None
  end.

Definition parse_i64 (s : string) : option Z :=
  let '(neg, digits) :=
    match s with
    | String a r => if Ascii.eqb a "-"%char then (true, r)
                    else if Ascii.eqb a "+"%char then (false, r) else (false, s)
    | EmptyString => (false, s)
    end in
  if str_is_empty digits then None else parse_i64_digits neg digits 0.

(** ** Lemmas *)

Lemma str_app_nil_r (s : string) : s +:+ "" = s.
Proof. induction s as [|a s IH]; [done|]. by rewrite str_app_cons, IH. Qed.

Lemma str_length_app (s t : string) : String.length (s +:+ t) = String.length s + String.length t.
Proof. induction s as [|a s IH]; [done|]. rewrite str_app_cons. cbn. by rewrite IH. Qed.

Lemma str_forall_app p s t : str_forall p (s +:+ t) = str_forall p s && str_forall p t.
Proof. induction s as [|a s IH]; [done|]. rewrite str_app_cons. cbn. by rewrite IH, andb_assoc. Qed.

Lemma str_forall_impl (p q : ascii -> bool) s :
  (forall a, p a = true -> q a = true) -> str_forall p s = true -> str_forall q s = true.
Proof.
  intros Hpq. induction s as [|a s IH]; cbn; [done|]. rewrite !andb_true_iff.
  intros [Ha Hs]. auto.
Qed.

Lemma rev_app_spec (s acc : string) : String.rev_app s acc = String.rev s +:+ acc.
Proof.
  unfold String.rev. revert acc. induction s as [|a s IH]; intros acc; [done|].
  cbn [String.rev_app]. rewrite (IH (String a acc)), (IH (String a "")). by rewrite str_app_assoc.
Qed.

Lemma rev_cons a s : String.rev (String a s) = String.rev s +:+ String a "".
Proof. unfold String.rev. cbn. by rewrite rev_app_spec. Qed.

Lemma rev_append s t : String.rev (s +:+ t) = String.rev t +:+ String.rev s.
Proof.
  induction s as [|a s IH].
  - symmetry. apply str_app_nil_r.
  - by rewrite str_app_cons, !rev_cons, IH, str_app_assoc.
Qed.

Lemma rev_involutive s : String.rev (String.rev s) = s.
Proof. induction s as [|a s IH]; [done|]. by rewrite rev_cons, rev_append, IH. Qed.

Lemma strip_suffix_app p s : strip_suffix p (s +:+ p) = Some s.
Proof.
  unfold strip_suffix. rewrite rev_append, (proj2 (strip_prefix_spec _ _ (String.rev s)) eq_refl).
  by rewrite rev_involutive.
Qed.

Lemma strip_suffix_spec p s t : strip_suffix p s = Some t -> s = t +:+ p.
Proof.
  unfold strip_suffix. destruct (strip_prefix _ _) as [r|] eqn:H; [|done]. intros [= <-].
  apply strip_prefix_spec in H. by rewrite <- (rev_involutive s), H, rev_append, rev_involutive.
Qed.

(** *** Searching a character *)

Definition lacks (c : ascii) (s : string) : bool := str_forall (fun a => negb (Ascii.eqb a c)) s.

Lemma split_once_app c s t : lacks c s = true -> split_once c (s +:+ String c t) = Some (s, t).
Proof.
  induction s as [|a s IH]; rewrite ?str_app_cons, ?str_app_nil_l; cbn.
  - by rewrite Ascii.eqb_refl.
  - destruct (Ascii.eqb a c); [done|]. cbn. intros H. by rewrite IH.
Qed.

Lemma split_once_spec c s x y :
  split_once c s = Some (x, y) -> s = x +:+ String c y /\ lacks c x = true.
Proof.
  revert x y. induction s as [|a s IH]; cbn; [done|]. intros x y.
  destruct (Ascii.eqb_spec a c) as [->|Hne]; [by intros [= <- <-]|].
  destruct (split_once c s) as [[x' y']|]; [|done]. intros [= <- <-].
  destruct (IH _ _ eq_refl) as [-> Hl]. rewrite str_app_cons. split; [done|]. cbn.
  destruct (Ascii.eqb_spec a c); done.
Qed.

Lemma split_once_inj c s t s' t' :
  lacks c s = true -> lacks c s' = true -> s +:+ String c t = s' +:+ String c t' ->
  s = s' /\ t = t'.
Proof.
  intros Hs Hs' He. apply (f_equal (split_once c)) in He.
  rewrite !split_once_app in He by done. by injection He.
Qed.

Lemma split_lacks c s : lacks c s = true -> split c s = [s].
Proof.
  induction s as [|a s IH]; cbn; [done|]. destruct (Ascii.eqb a c); [done|]. cbn.
  intros H. by rewrite IH.
Qed.

Lemma split_app c s t : lacks c s = true -> split c (s +:+ String c t) = s :: split c t.
Proof.
  induction s as [|a s IH]; rewrite ?str_app_cons, ?str_app_nil_l; cbn;
    [by rewrite Ascii.eqb_refl|].
  destruct (Ascii.eqb a c); [done|]. cbn. intros H. by rewrite IH.
Qed.

(** *** White space *)

#[local] Arguments strip_any : simpl never.

Definition starts_graphic (s : string) : bool :=
  match s with String a _ => graphic a | EmptyString => true end.

(** Neither the first nor the last byte is white space or above ASCII. *)
Definition graphic_ends (s : string) : bool := starts_graphic s && starts_graphic (String.rev s).

Lemma strip_any_graphic ws s :
  Forall (fun w => match w with String b _ => graphic b = false | "" => False end) ws ->
  starts_graphic s = true -> strip_any ws s = None.
Proof.
  intros Hws Hs. unfold strip_any. induction Hws as [|w ws Hw _ IH]; cbn; [done|]. rewrite IH.
  destruct w as [|b w]; [done|]. destruct s as [|a s]; cbn; [done|].
  by destruct (Ascii.eqb_spec b a) as [->|]; [cbn in Hs; congruence|].
Qed.

Lemma trim_start_graphic fuel ws s :
  Forall (fun w => match w with String b _ => graphic b = false | "" => False end) ws ->
  starts_graphic s = true -> trim_start_fuel fuel ws s = s.
Proof. destruct fuel; cbn; [done|]. intros Hws Hs. by rewrite strip_any_graphic. Qed.

Lemma white_space_head :
  Forall (fun w => match w with String b _ => graphic b = false | "" => False end) white_space.
Proof. repeat constructor. Qed.

Lemma white_space_tail :
  Forall (fun w => match w with String b _ => graphic b = false | "" => False end)
    (map String.rev white_space).
Proof. repeat constructor. Qed.

Lemma str_trim_graphic s : graphic_ends s = true -> str_trim s = s.
Proof.
  unfold graphic_ends, str_trim. rewrite andb_true_iff. intros [H1 H2].
  rewrite (trim_start_graphic _ white_space) by (done || apply white_space_head).
  rewrite trim_start_graphic by (done || apply white_space_tail). apply rev_involutive.
Qed.

Lemma rev_length s : String.length (String.rev s) = String.length s.
Proof. induction s as [|a s IH]; [done|]. rewrite rev_cons, str_length_app, IH. cbn. lia. Qed.

(** *** Trimming twice *)

Lemma strip_any_cons w ws s :
  strip_any (w :: ws) s = match strip_prefix w s with Some r => Some r | None => strip_any ws s end.
Proof. reflexivity. Qed.

Lemma strip_any_Some ws s r : strip_any ws s = Some r -> exists w, w ∈ ws /\ s = w +:+ r.
Proof.
  induction ws as [|w ws IH]; [done|]. rewrite strip_any_cons.
  destruct (strip_prefix w s) as [r'|] eqn:Hw.
  - intros [= ->]. exists w. split; [left|by apply strip_prefix_spec].
  - intros (w' & Hin & Hs)%IH. exists w'. split; [by right|done].
Qed.

Lemma strip_any_None ws s : strip_any ws s = None <-> Forall (fun w => strip_prefix w s = None) ws.
Proof.
  induction ws as [|w ws IH]; [by split|]. rewrite strip_any_cons, Forall_cons, <- IH.
  destruct (strip_prefix w s); naive_solver.
Qed.

Lemma strip_any_prefix ws s t : strip_any ws (s +:+ t) = None -> strip_any ws s = None.
Proof.
  intros H. destruct (strip_any ws s) as [r|] eqn:Hr; [|done].
  apply strip_any_Some in Hr as (w & Hin & ->). apply strip_any_None in H.
  rewrite Forall_forall in H. specialize (H w Hin). rewrite str_app_assoc in H.
  by rewrite (proj2 (strip_prefix_spec w _ _) eq_refl) in H.
Qed.

Lemma trim_start_stable n ws s : strip_any ws s = None -> trim_start_fuel n ws s = s.
Proof. intros H. destruct n; cbn; [done|]. by rewrite H. Qed.

Lemma trim_start_suffix n ws s : exists w, s = w +:+ trim_start_fuel n ws s.
Proof.
  revert s. induction n as [|n IH]; intros s; cbn; [by exists ""|].
  destruct (strip_any ws s) as [r|] eqn:Hr; [|by exists ""].
  apply strip_any_Some in Hr as (w & _ & ->). destruct (IH r) as [w' Hw'].
  exists (w +:+ w'). by rewrite str_app_assoc, <- Hw'.
Qed.

Lemma trim_start_done n ws s :
  Forall (fun w => w <> "") ws -> String.length s <= n ->
  strip_any ws (trim_start_fuel n ws s) = None.
Proof.
  intros Hws. revert s. induction n as [|n IH]; intros s Hn; cbn.
  - destruct s; [|cbn in Hn; lia]. apply strip_any_None. eapply Forall_impl; [exact Hws|].
    by intros [|].
  - destruct (strip_any ws s) as [r|] eqn:Hr; [|done]. apply IH.
    apply strip_any_Some in Hr as (w & Hin & ->). rewrite str_length_app in Hn.
    rewrite Forall_forall in Hws. specialize (Hws w Hin). destruct w; [done|]. cbn in Hn. lia.
Qed.

Lemma str_trim_twice s : str_trim (str_trim s) = str_trim s.
Proof.
  assert (Forall (fun w => w <> "") white_space) as Hw by by repeat constructor.
  assert (Forall (fun w => w <> "") (map String.rev white_space)) as Hw' by by repeat constructor.
  unfold str_trim at 2 3. set (l := trim_start_fuel _ white_space s).
  set (r := trim_start_fuel _ _ (String.rev l)).
  assert (strip_any white_space l = None) as Hl by by apply trim_start_done.
  assert (strip_any (map String.rev white_space) r = None) as Hr.
  { apply trim_start_done; [done|]. by rewrite rev_length. }
  destruct (trim_start_suffix (String.length l) (map String.rev white_space) (String.rev l))
    as [w Hsuf]. fold r in Hsuf.
  assert (l = String.rev r +:+ String.rev w) as Hl'.
  { by rewrite <- rev_append, <- Hsuf, rev_involutive. }
  unfold str_trim. rewrite (trim_start_stable _ white_space).
  - by rewrite rev_involutive, trim_start_stable.
  - apply (strip_any_prefix _ _ (String.rev w)). by rewrite <- Hl'.
Qed.

Lemma starts_graphic_forall s : str_forall graphic s = true -> starts_graphic s = true.
Proof. destruct s; cbn; [done|]. by rewrite andb_true_iff; intros []. Qed.

Lemma rev_forall p s : str_forall p (String.rev s) = str_forall p s.
Proof.
  induction s as [|a s IH]; [done|]. rewrite rev_cons, str_forall_app, IH. cbn.
  by rewrite andb_true_r, andb_comm.
Qed.

Lemma graphic_ends_forall s : str_forall graphic s = true -> graphic_ends s = true.
Proof.
  intros H. unfold graphic_ends. rewrite starts_graphic_forall by done.
  by rewrite starts_graphic_forall by (by rewrite rev_forall).
Qed.

(** The ends of a text built around others. *)
Lemma graphic_ends_around a b (s : string) :
  graphic a = true -> graphic b = true -> graphic_ends (String a s +:+ String b "") = true.
Proof.
  intros Ha Hb. unfold graphic_ends. rewrite rev_append.
  change (String.rev (String b "")) with (String b ""). rewrite !str_app_cons. cbn.
  by rewrite Ha, Hb.
Qed.

Lemma words_graphic w n cur rest :
  str_forall graphic w = true ->
  words_fuel (String.length w + n) cur (w +:+ rest) = words_fuel n (cur +:+ w) rest.
Proof.
  revert cur. induction w as [|a w IH]; intros cur; cbn; [by rewrite str_app_nil_r|].
  rewrite andb_true_iff. intros [Ha Hw].
  rewrite str_app_cons, strip_any_graphic by (exact Ha || apply white_space_head).
  by rewrite IH, str_app_assoc.
Qed.

Lemma words_space n cur r : words_fuel (S n) cur (String " "%char r) = push_word cur (words_fuel n "" r).
Proof. reflexivity. Qed.

Definition word (w : string) : Prop := w <> "" /\ str_forall graphic w = true.

Lemma push_word_ne w ws : w <> "" -> push_word w ws = w :: ws.
Proof. by destruct w. Qed.

(** Words joined by spaces are split again. *)
Lemma split_whitespace_join ws : Forall word ws -> split_whitespace (join " " ws) = ws.
Proof.
  unfold split_whitespace. induction 1 as [|w ws [Hne Hw] Hws IH]; [done|].
  destruct ws as [|w' ws].
  - cbn [join]. rewrite <- (str_app_nil_r w) at 2. rewrite <- (Nat.add_0_r (String.length w)).
    rewrite words_graphic by done. cbn. by rewrite push_word_ne.
  - change (join " " (w :: w' :: ws)) with (w +:+ String " " (join " " (w' :: ws))).
    rewrite str_length_app, words_graphic by done. cbn [String.length]. rewrite words_space.
    by rewrite IH, push_word_ne.
Qed.

(** *** Integers *)

Lemma pretty_N_char_code d :
  (d < 10)%N -> code (pretty_N_char d) = (48 + Z.of_N d)%Z.
Proof.
  intros Hd. assert (d = 0 \/ d = 1 \/ d = 2 \/ d = 3 \/ d = 4 \/ d = 5 \/ d = 6 \/ d = 7
    \/ d = 8 \/ d = 9)%N by lia. naive_solver.
Qed.

(** Digits of a value that stays in range: the parser has read [x] after them. *)
Lemma parse_digits_go neg x s :
  in_i64 (if neg : bool then - Z.of_N x else Z.of_N x) ->
  parse_i64_digits neg (pretty_N_go x s) 0
  = parse_i64_digits neg s (if neg then - Z.of_N x else Z.of_N x).
Proof.
  revert s. induction (N.lt_wf_0 x) as [x _ IH]; intros s Hx.
  destruct (decide (0 < x)%N) as [Hpos|]; [|replace x with 0%N by lia; by destruct neg].
  assert (x mod 10 < 10)%N as Hd by (apply N.mod_lt; lia).
  assert (x = x / 10 * 10 + x mod 10)%N as Hdiv by (pose proof (N.div_mod x 10); lia).
  assert (x / 10 < x)%N as Hlt by (apply N.div_lt; lia).
  rewrite pretty_N_go_step by done. revert Hd Hdiv Hlt.
  generalize (x / 10)%N (x mod 10)%N. intros q d Hd Hdiv Hlt.
  rewrite IH by (done || (destruct neg; unfold in_i64, i64_min, i64_max in *; lia)).
  cbn [parse_i64_digits]. rewrite pretty_N_char_code by done.
  replace ((48 <=? 48 + Z.of_N d) && (48 + Z.of_N d <=? 57))%Z with true by lia.
  set (v := if neg then _ else _). assert (v = if neg then - Z.of_N x else Z.of_N x)%Z as ->
    by (unfold v; destruct neg; lia).
  unfold in_i64 in Hx.
  by replace (_ || _)%bool with false by lia.
Qed.

Lemma digits_nonempty x s : s <> "" -> pretty_N_go x s <> "".
Proof.
  revert s. induction (N.lt_wf_0 x) as [x _ IH]; intros s Hs.
  destruct (decide (0 < x)%N); [|by replace x with 0%N by lia].
  rewrite pretty_N_go_step by done. apply IH; [apply N.div_lt; lia|done].
Qed.

Lemma digits_forall p x s :
  (forall d, (d < 10)%N -> p (pretty_N_char d) = true) -> str_forall p s = true ->
  str_forall p (pretty_N_go x s) = true.
Proof.
  intros Hp. revert s. induction (N.lt_wf_0 x) as [x _ IH]; intros s Hs.
  destruct (decide (0 < x)%N); [|by replace x with 0%N by lia].
  rewrite pretty_N_go_step by done. apply IH; [apply N.div_lt; lia|]. cbn.
  by rewrite Hp by (apply N.mod_lt; lia).
Qed.

Definition digit (a : ascii) : bool := ((48 <=? code a) && (code a <=? 57))%Z.

Lemma digit_char d : (d < 10)%N -> digit (pretty_N_char d) = true.
Proof. intros Hd. unfold digit. rewrite pretty_N_char_code by done. lia. Qed.

(** The text of a number: digits, at least one. *)
Lemma pretty_N_digits (x : N) : str_forall digit (pretty x) = true /\ pretty x <> "".
Proof.
  unfold pretty, pretty_N. case_decide; [done|]. split; [apply digits_forall; [apply digit_char|done]|].
  rewrite pretty_N_go_step by lia. by apply digits_nonempty.
Qed.

Lemma parse_pretty_N neg (x : N) :
  in_i64 (if neg : bool then - Z.of_N x else Z.of_N x) ->
  parse_i64_digits neg (pretty x) 0 = Some (if neg then - Z.of_N x else Z.of_N x)%Z.
Proof.
  intros Hx. unfold pretty, pretty_N. case_decide as H0; [subst; by destruct neg|].
  by rewrite parse_digits_go.
Qed.

(** A printed integer parses back to itself. *)
Lemma parse_i64_pretty (z : Z) : in_i64 z -> parse_i64 (pretty z) = Some z.
Proof.
  intros Hz. unfold parse_i64. destruct z as [|p|p]; [done| |].
  - change (pretty (Z.pos p)) with (pretty (N.pos p)).
    destruct (pretty_N_digits (N.pos p)) as [Hd Hne].
    destruct (pretty (N.pos p)) as [|a r] eqn:Hp; [done|].
    assert (digit a = true) as Ha by (cbn in Hd; by destruct (digit a)).
    destruct (Ascii.eqb_spec a "-"%char) as [->|]; [done|].
    destruct (Ascii.eqb_spec a "+"%char) as [->|]; [done|].
    change (str_is_empty (String a r)) with false. cbv iota. rewrite <- Hp. by apply (parse_pretty_N false).
  - change (pretty (Z.neg p)) with (String "-"%char (pretty (N.pos p))).
    destruct (pretty_N_digits (N.pos p)) as [_ Hne].
    change (Ascii.eqb "-" "-") with true. cbv beta iota zeta.
    destruct (pretty (N.pos p)) as [|a r] eqn:Hp; [done|]. change (str_is_empty (String a r)) with false. cbv iota. rewrite <- Hp. by apply (parse_pretty_N true).
Qed.
