(* ===== verification/Contract.v ===== *)
(** * Core data model ([crates/orchestrator-core/src]: [contract.rs],
    [fulfillment.rs], [discount.rs])

    The carts, commands, requests and results every component exchanges, with the
    pure operations the crate defines on them.  A struct field [f] of struct [S] is
    the projection [s_f], where [s] abbreviates [S]; enum variants keep their names,
    prefixed where two enums of the crate share one. *)

From S2P Require Export Prelude.

(** ** Identifiers *)

(** [uuid::Uuid]: a 128-bit value. *)
Definition Uuid : Type := N.

Record CartId := MkCartId { cart_uuid : Uuid }.

#[export] Instance CartId_eq_dec : EqDecision CartId.
Proof. solve_decision. Defined.
#[export] Instance CartId_countable : Countable CartId.
Proof. apply (inj_countable' cart_uuid MkCartId). by intros []. Defined.

(** ** Fulfillment *)

Inductive FulfillmentMethodType := Shipping | Pickup.

#[export] Instance FulfillmentMethodType_eq_dec : EqDecision FulfillmentMethodType.
Proof. solve_decision. Defined.

Record PostalAddress := MkPostalAddress {
  pa_extended_address : option string;
  pa_street_address : option string;
  pa_address_locality : option string;
  pa_address_region : option string;
  pa_address_country : option string;
  pa_postal_code : option string;
  pa_first_name : option string;
  pa_last_name : option string;
  pa_phone_number : option string
}.

Inductive FulfillmentDestination :=
| DestShipping (id : string) (address : PostalAddress)
| DestRetail (id name : string) (address : option PostalAddress).

Definition dest_id (d : FulfillmentDestination) : string :=
  match d with DestShipping id _ | DestRetail id _ _ => id end.

Record FulfillmentOption := MkFulfillmentOption {
  fo_id : string;
  fo_title : string;
  fo_description : option string;
  fo_carrier : option string;
  fo_earliest_fulfillment_time : option string;
  fo_latest_fulfillment_time : option string;
  fo_amount_minor : Z
}.

Record FulfillmentGroup := MkFulfillmentGroup {
  fg_id : string;
  fg_line_item_ids : list string;
  fg_options : list FulfillmentOption;
  fg_selected_option_id : option string
}.

Record FulfillmentMethod := MkFulfillmentMethod {
  fm_id : string;
  fm_method_type : FulfillmentMethodType;
  fm_line_item_ids : list string;
  fm_destinations : list FulfillmentDestination;
  fm_selected_destination_id : option string;
  fm_groups : list FulfillmentGroup
}.

Record FulfillmentState := MkFulfillmentState { fs_methods : list FulfillmentMethod }.

Definition default_options_for_method (t : FulfillmentMethodType) : list FulfillmentOption :=
  match t with
  | Shipping =>
      [ MkFulfillmentOption "standard" "Standard Shipping"
          (Some "Arrives in 5-8 business days") None None None 500;
        MkFulfillmentOption "express" "Express Shipping"
          (Some "Arrives in 2-3 business days") None None None 1000 ]
  | Pickup =>
      [ MkFulfillmentOption "in_store" "In-Store Pickup"
          (Some "Ready for pickup today") None None None 0 ]
  end.

(** ** Discounts *)

Record AppliedDiscount := MkAppliedDiscount {
  ad_code : string;
  ad_description : option string;
  ad_amount_minor : Z;
  ad_line_id : option string
}.

Definition total_discount_minor (discounts : list AppliedDiscount) (owed : Z) : Z :=
  let raw := foldl (fun acc amount => i64_saturating_add acc amount) 0%Z
               (map (fun d => Z.max (ad_amount_minor d) 0) discounts) in
  Z.min raw (Z.max owed 0).

(** ** Cart commands *)

Record CreateCartPayload := MkCreateCart {
  cc_merchant_id : string; cc_currency : string; cc_tenant_id : option string }.
Record AddItemPayload := MkAddItem { ai_item_id : string; ai_quantity : Z }.
Record UpdateItemQtyPayload := MkUpdateItemQty { uq_line_id : string; uq_quantity : Z }.
Record RemoveItemPayload := MkRemoveItem { ri_line_id : string }.
Record ApplyAdjustmentPayload := MkApplyAdjustment { aa_code : string }.
Record GetCartPayload := MkGetCart { gc_cart_id : CartId }.
Record StartCheckoutPayload := MkStartCheckout { sc_cart_id : CartId; sc_cart_version : Z }.
Record CancelCartPayload := MkCancelCart { xc_cart_id : CartId }.
Record SetFulfillmentSelectionPayload := MkSetFulfillment {
  sf_method_type : FulfillmentMethodType;
  sf_line_item_ids : list string;
  sf_destination : FulfillmentDestination;
  sf_selected_option_id : option string
}.

Inductive CartCommand :=
| CreateCart (p : CreateCartPayload)
| AddItem (p : AddItemPayload)
| UpdateItemQty (p : UpdateItemQtyPayload)
| RemoveItem (p : RemoveItemPayload)
| ApplyAdjustment (p : ApplyAdjustmentPayload)
| GetCart (p : GetCartPayload)
| StartCheckout (p : StartCheckoutPayload)
| CancelCart (p : CancelCartPayload)
| SetFulfillmentSelection (p : SetFulfillmentSelectionPayload).

Definition with_tenant (tenant_id : string) (c : CartCommand) : CartCommand :=
  match c with
  | CreateCart p =>
      CreateCart (MkCreateCart (cc_merchant_id p) (cc_currency p) (Some tenant_id))
  | _ => c
  end.

(** ** Checkout requests *)

Record CustomerHint := MkCustomerHint {
  ch_email : option string; ch_full_name : option string }.

Record LocationHint := MkLocationHint {
  lh_country_code : option string;
  lh_region : option string;
  lh_postal_code : option string;
  lh_intent : option string
}.

Inductive PaymentMethodType := Ap2 | Mpp.

#[export] Instance PaymentMethodType_eq_dec : EqDecision PaymentMethodType.
Proof. solve_decision. Defined.

Record PaymentIntent := MkPaymentIntent {
  pi_amount_minor : Z;
  pi_token_or_reference : string;
  pi_ap2_consent_proof : option string;
  pi_payment_handler_id : option string;
  pi_payment_method_type : option PaymentMethodType;
  pi_mpp_method : option string;
  pi_mpp_intent : option string
}.

Record CheckoutRequest := MkCheckoutRequest {
  cr_tenant_id : string;
  cr_merchant_id : string;
  cr_cart_id : CartId;
  cr_cart_version : Z;
  cr_currency : string;
  cr_customer : option CustomerHint;
  cr_location : option LocationHint;
  cr_payment_intent : PaymentIntent;
  cr_idempotency_key : string
}.

(** ** The cart *)

Record CartLineProjection := MkCartLine {
  cl_line_id : string;
  cl_item_id : string;
  cl_title : string;
  cl_quantity : Z;
  cl_unit_price_minor : Z;
  cl_total_minor : Z
}.

Inductive CartStatus := Draft | StatusCheckoutReady | StatusCancelled.

#[export] Instance CartStatus_eq_dec : EqDecision CartStatus.
Proof. solve_decision. Defined.

Record CartProjection := MkCart {
  cp_cart_id : CartId;
  cp_version : Z;
  cp_currency : string;
  cp_merchant_id : string;
  cp_tenant_id : option string;
  cp_lines : list CartLineProjection;
  cp_subtotal_minor : Z;
  cp_tax_minor : Z;
  cp_total_minor : Z;
  cp_geo_ok : bool;
  cp_status : CartStatus;
  cp_fulfillment : option FulfillmentState;
  cp_fulfillment_minor : Z;
  cp_adjustment_codes : list string;
  cp_discounts : list AppliedDiscount;
  cp_discount_minor : Z
}.

(** Field assignments [projection.f = v]. *)

Definition cp_set_version (v : Z) (c : CartProjection) : CartProjection :=
  MkCart (cp_cart_id c) v (cp_currency c) (cp_merchant_id c) (cp_tenant_id c) (cp_lines
    c) (cp_subtotal_minor c) (cp_tax_minor c) (cp_total_minor c) (cp_geo_ok c)
    (cp_status c) (cp_fulfillment c) (cp_fulfillment_minor c) (cp_adjustment_codes c)
    (cp_discounts c) (cp_discount_minor c).

Definition cp_set_lines (v : list CartLineProjection) (c : CartProjection) : CartProjection :=
  MkCart (cp_cart_id c) (cp_version c) (cp_currency c) (cp_merchant_id c) (cp_tenant_id
    c) v (cp_subtotal_minor c) (cp_tax_minor c) (cp_total_minor c) (cp_geo_ok c)
    (cp_status c) (cp_fulfillment c) (cp_fulfillment_minor c) (cp_adjustment_codes c)
    (cp_discounts c) (cp_discount_minor c).

Definition cp_set_subtotal_minor (v : Z) (c : CartProjection) : CartProjection :=
  MkCart (cp_cart_id c) (cp_version c) (cp_currency c) (cp_merchant_id c) (cp_tenant_id
    c) (cp_lines c) v (cp_tax_minor c) (cp_total_minor c) (cp_geo_ok c) (cp_status c)
    (cp_fulfillment c) (cp_fulfillment_minor c) (cp_adjustment_codes c) (cp_discounts c)
    (cp_discount_minor c).

Definition cp_set_tax_minor (v : Z) (c : CartProjection) : CartProjection :=
  MkCart (cp_cart_id c) (cp_version c) (cp_currency c) (cp_merchant_id c) (cp_tenant_id
    c) (cp_lines c) (cp_subtotal_minor c) v (cp_total_minor c) (cp_geo_ok c) (cp_status
    c) (cp_fulfillment c) (cp_fulfillment_minor c) (cp_adjustment_codes c) (cp_discounts
    c) (cp_discount_minor c).

Definition cp_set_total_minor (v : Z) (c : CartProjection) : CartProjection :=
  MkCart (cp_cart_id c) (cp_version c) (cp_currency c) (cp_merchant_id c) (cp_tenant_id
    c) (cp_lines c) (cp_subtotal_minor c) (cp_tax_minor c) v (cp_geo_ok c) (cp_status c)
    (cp_fulfillment c) (cp_fulfillment_minor c) (cp_adjustment_codes c) (cp_discounts c)
    (cp_discount_minor c).

Definition cp_set_geo_ok (v : bool) (c : CartProjection) : CartProjection :=
  MkCart (cp_cart_id c) (cp_version c) (cp_currency c) (cp_merchant_id c) (cp_tenant_id
    c) (cp_lines c) (cp_subtotal_minor c) (cp_tax_minor c) (cp_total_minor c) v
    (cp_status c) (cp_fulfillment c) (cp_fulfillment_minor c) (cp_adjustment_codes c)
    (cp_discounts c) (cp_discount_minor c).

Definition cp_set_status (v : CartStatus) (c : CartProjection) : CartProjection :=
  MkCart (cp_cart_id c) (cp_version c) (cp_currency c) (cp_merchant_id c) (cp_tenant_id
    c) (cp_lines c) (cp_subtotal_minor c) (cp_tax_minor c) (cp_total_minor c) (cp_geo_ok
    c) v (cp_fulfillment c) (cp_fulfillment_minor c) (cp_adjustment_codes c)
    (cp_discounts c) (cp_discount_minor c).

Definition cp_set_fulfillment (v : option FulfillmentState) (c : CartProjection) : CartProjection :=
  MkCart (cp_cart_id c) (cp_version c) (cp_currency c) (cp_merchant_id c) (cp_tenant_id
    c) (cp_lines c) (cp_subtotal_minor c) (cp_tax_minor c) (cp_total_minor c) (cp_geo_ok
    c) (cp_status c) v (cp_fulfillment_minor c) (cp_adjustment_codes c) (cp_discounts c)
    (cp_discount_minor c).

Definition cp_set_fulfillment_minor (v : Z) (c : CartProjection) : CartProjection :=
  MkCart (cp_cart_id c) (cp_version c) (cp_currency c) (cp_merchant_id c) (cp_tenant_id
    c) (cp_lines c) (cp_subtotal_minor c) (cp_tax_minor c) (cp_total_minor c) (cp_geo_ok
    c) (cp_status c) (cp_fulfillment c) v (cp_adjustment_codes c) (cp_discounts c)
    (cp_discount_minor c).

Definition cp_set_adjustment_codes (v : list string) (c : CartProjection) : CartProjection :=
  MkCart (cp_cart_id c) (cp_version c) (cp_currency c) (cp_merchant_id c) (cp_tenant_id
    c) (cp_lines c) (cp_subtotal_minor c) (cp_tax_minor c) (cp_total_minor c) (cp_geo_ok
    c) (cp_status c) (cp_fulfillment c) (cp_fulfillment_minor c) v (cp_discounts c)
    (cp_discount_minor c).

Definition cp_set_discounts (v : list AppliedDiscount) (c : CartProjection) : CartProjection :=
  MkCart (cp_cart_id c) (cp_version c) (cp_currency c) (cp_merchant_id c) (cp_tenant_id
    c) (cp_lines c) (cp_subtotal_minor c) (cp_tax_minor c) (cp_total_minor c) (cp_geo_ok
    c) (cp_status c) (cp_fulfillment c) (cp_fulfillment_minor c) (cp_adjustment_codes c)
    v (cp_discount_minor c).

Definition cp_set_discount_minor (v : Z) (c : CartProjection) : CartProjection :=
  MkCart (cp_cart_id c) (cp_version c) (cp_currency c) (cp_merchant_id c) (cp_tenant_id
    c) (cp_lines c) (cp_subtotal_minor c) (cp_tax_minor c) (cp_total_minor c) (cp_geo_ok
    c) (cp_status c) (cp_fulfillment c) (cp_fulfillment_minor c) (cp_adjustment_codes c)
    (cp_discounts c) v.

(** [CartProjection::location_hint]. *)
Definition method_location (m : FulfillmentMethod) : option LocationHint :=
  let selected := fm_selected_destination_id m in
  let found := find_first (fun d => bool_decide (Some (dest_id d) = selected))
                 (fm_destinations m) in
  match (match found with Some d => Some d | None => head (fm_destinations m) end) with
  | None => None
  | Some d =>
      match (match d with DestShipping _ a => Some a | DestRetail _ _ oa => oa end) with
      | None => None
      | Some a =>
          if negb (is_some (pa_address_country a)) && negb (is_some (pa_address_region a))
             && negb (is_some (pa_postal_code a))
          then None
          else Some (MkLocationHint (pa_address_country a) (pa_address_region a)
                       (pa_postal_code a) None)
      end
  end.

Definition location_hint (c : CartProjection) : option LocationHint :=
  match cp_fulfillment c with
  | None => None
  | Some state => find_map method_location (fs_methods state)
  end.

(** ** Results and orders *)

Inductive TransactionStatus :=
| TxnCompleted | TxnRejected | TxnAuthFailed | TxnCommitFailed | TxnTimedOut.

#[export] Instance TransactionStatus_eq_dec : EqDecision TransactionStatus.
Proof. solve_decision. Defined.

Inductive PaymentState :=
| Authorized | Captured | Voided | RefundPending | Refunded | Reconciled | PaymentStateFailed.

#[export] Instance PaymentState_eq_dec : EqDecision PaymentState.
Proof. solve_decision. Defined.

Record TotalsBreakdown := MkTotals {
  tb_subtotal_minor : Z;
  tb_tax_minor : Z;
  tb_discount_minor : Z;
  tb_fulfillment_minor : Z;
  tb_total_minor : Z
}.

Record TransactionResult := MkTransactionResult {
  tr_transaction_id : string;
  tr_status : TransactionStatus;
  tr_totals_breakdown : TotalsBreakdown;
  tr_payment_reference : option string;
  tr_receipt_payload : option string;
  tr_correlation_id : Uuid;
  tr_audit_trail_id : option string;
  tr_payment_state : PaymentState;
  tr_order_id : option string
}.

Record PaymentLifecycleRequest := MkPaymentLifecycleRequest {
  pl_tenant_id : string;
  pl_merchant_id : string;
  pl_transaction_id : string;
  pl_amount_minor : Z;
  pl_idempotency_key : string
}.

Inductive OrderStatus := OrderCreated | FulfillmentPending | Fulfilled | OrderCancelled.

Record OrderEvent := MkOrderEvent {
  oe_id : string; oe_event_type : string; oe_description : string; oe_occurred_at : Z }.

Record OrderAdjustment := MkOrderAdjustment {
  oa_id : string; oa_adjustment_type : string; oa_amount_minor : Z; oa_status : string }.

Record OrderRecord := MkOrder {
  or_order_id : string;
  or_tenant_id : string;
  or_transaction_id : string;
  or_checkout_id : CartId;
  or_status : OrderStatus;
  or_currency : string;
  or_permalink_url : string;
  or_line_items : list CartLineProjection;
  or_totals : TotalsBreakdown;
  or_events : list OrderEvent;
  or_adjustments : list OrderAdjustment;
  or_created_at : Z
}.

(** ** Lemmas *)

(** The specification of [total_discount_minor]: the positive part of every amount. *)
Definition positive_amounts (ds : list AppliedDiscount) : Z :=
  foldr Z.add 0%Z (map (fun d => Z.max (ad_amount_minor d) 0) ds).

Section discounts.
Local Open Scope Z_scope.

Lemma positive_amounts_nonneg ds : 0 <= positive_amounts ds.
Proof.
  unfold positive_amounts. induction ds as [|d ds IH]; cbn in *; lia.
Qed.

(** A saturating left fold of non-negative amounts is the saturated sum. *)
Lemma saturating_fold xs a :
  0 <= a <= i64_max -> Forall (fun x => 0 <= x) xs ->
  foldl (fun acc x => i64_saturating_add acc x) a xs
    = Z.min i64_max (a + foldr Z.add 0 xs).
Proof.
  revert a. induction xs as [|x xs IH]; intros a Ha Hxs; cbn; [lia|].
  apply Forall_cons in Hxs as [Hx Hxs].
  assert (0 <= foldr Z.add 0 xs) as Hs.
  { clear -Hxs. induction Hxs; cbn; lia. }
  unfold i64_saturating_add. pose proof (eq_refl : i64_min = - 2 ^ 63).
  rewrite IH; unfold i64_max in *; lia || done.
Qed.

Lemma total_discount_raw ds :
  foldl (fun acc amount => i64_saturating_add acc amount) 0
    (map (fun d => Z.max (ad_amount_minor d) 0) ds)
  = Z.min i64_max (positive_amounts ds).
Proof.
  rewrite saturating_fold; [done|unfold i64_max; lia|].
  apply Forall_forall. intros x [d [-> _]]%list_elem_of_fmap. lia.
Qed.

Lemma total_discount_bounds ds owed :
  0 <= total_discount_minor ds owed <= Z.max owed 0.
Proof.
  unfold total_discount_minor. rewrite total_discount_raw.
  pose proof (positive_amounts_nonneg ds). unfold i64_max. lia.
Qed.
End discounts.

#[export] Hint Resolve total_discount_bounds positive_amounts_nonneg : orch.

(** ** Decidable equality of the data *)

#[export] Instance PostalAddress_eq_dec : EqDecision PostalAddress.
Proof. solve_decision. Defined.
#[export] Instance FulfillmentDestination_eq_dec : EqDecision FulfillmentDestination.
Proof. solve_decision. Defined.
#[export] Instance FulfillmentOption_eq_dec : EqDecision FulfillmentOption.
Proof. solve_decision. Defined.
#[export] Instance FulfillmentGroup_eq_dec : EqDecision FulfillmentGroup.
Proof. solve_decision. Defined.
#[export] Instance FulfillmentMethod_eq_dec : EqDecision FulfillmentMethod.
Proof. solve_decision. Defined.
#[export] Instance FulfillmentState_eq_dec : EqDecision FulfillmentState.
Proof. solve_decision. Defined.
#[export] Instance AppliedDiscount_eq_dec : EqDecision AppliedDiscount.
Proof. solve_decision. Defined.
#[export] Instance CartLineProjection_eq_dec : EqDecision CartLineProjection.
Proof. solve_decision. Defined.
#[export] Instance CartProjection_eq_dec : EqDecision CartProjection.
Proof. solve_decision. Defined.
#[export] Instance TotalsBreakdown_eq_dec : EqDecision TotalsBreakdown.
Proof. solve_decision. Defined.
#[export] Instance TransactionResult_eq_dec : EqDecision TransactionResult.
Proof. solve_decision. Defined.
#[export] Instance OrderStatus_eq_dec : EqDecision OrderStatus.
Proof. solve_decision. Defined.
#[export] Instance OrderEvent_eq_dec : EqDecision OrderEvent.
Proof. solve_decision. Defined.
#[export] Instance OrderAdjustment_eq_dec : EqDecision OrderAdjustment.
Proof. solve_decision. Defined.
#[export] Instance OrderRecord_eq_dec : EqDecision OrderRecord.
Proof. solve_decision. Defined.
