(* ===== verification/StateMachine.v ===== *)
(** * Cart and checkout state machines ([crates/orchestrator-core/src/state_machine.rs])

    The two transition functions as written, the runs they generate, and the order
    they impose on a checkout. *)

From S2P Require Export Contract.

Inductive CartState :=
| CartCreated | ItemsMutated | Repriced | Retaxed | CartGeoChecked
| CartCheckoutReady | CartCancelled.

#[export] Instance CartState_eq_dec : EqDecision CartState.
Proof. solve_decision. Defined.

Inductive CartEvent :=
| ItemChanged | PricingResolved | CartTaxResolved | CartGeoValidated
| MarkCheckoutReady | CartCancel.

Definition next_cart_state (current : CartState) (event : CartEvent) : option CartState :=
  match current, event with
  | CartCreated, ItemChanged => Some ItemsMutated
  | ItemsMutated, ItemChanged => Some ItemsMutated
  | ItemsMutated, PricingResolved => Some Repriced
  | Repriced, CartTaxResolved => Some Retaxed
  | Retaxed, CartGeoValidated => Some CartGeoChecked
  | CartCreated, MarkCheckoutReady | ItemsMutated, MarkCheckoutReady
  | Repriced, MarkCheckoutReady | Retaxed, MarkCheckoutReady => Some CartCheckoutReady
  | CartGeoChecked, MarkCheckoutReady => Some CartCheckoutReady
  | CartGeoChecked, ItemChanged | CartCheckoutReady, ItemChanged => Some ItemsMutated
  | CartCreated, CartCancel | ItemsMutated, CartCancel | Repriced, CartCancel | Retaxed, CartCancel
  | CartGeoChecked, CartCancel | CartCheckoutReady, CartCancel => Some CartCancelled
  | _, _ => None
  end.

Inductive CheckoutState :=
| Received | Validated | Priced | Taxed | GeoChecked | PaymentAuthorized | Committed
| ReceiptGenerated | Completed | Rejected | AuthFailed | CommitFailed | TimedOut.

#[export] Instance CheckoutState_eq_dec : EqDecision CheckoutState.
Proof. solve_decision. Defined.

Inductive CheckoutEvent :=
| ValidatePassed | PriceResolved | TaxResolved | GeoValidated | EvPaymentAuthorized
| EvCommitted | EvReceiptGenerated | Complete | Reject | PaymentFailed
| EvCommitFailed | Timeout.

Definition next_checkout_state (current : CheckoutState) (event : CheckoutEvent)
  : option CheckoutState :=
  match current, event with
  | Received, ValidatePassed => Some Validated
  | Validated, PriceResolved => Some Priced
  | Priced, TaxResolved => Some Taxed
  | Taxed, GeoValidated => Some GeoChecked
  | GeoChecked, EvPaymentAuthorized => Some PaymentAuthorized
  | PaymentAuthorized, EvCommitted => Some Committed
  | Committed, EvReceiptGenerated => Some ReceiptGenerated
  | ReceiptGenerated, Complete => Some Completed
  | Received, Reject | Validated, Reject | Priced, Reject => Some Rejected
  | GeoChecked, PaymentFailed => Some AuthFailed
  | PaymentAuthorized, EvCommitFailed => Some CommitFailed
  | _, Timeout => Some TimedOut
  | _, _ => None
  end.

Definition terminal_status (state : CheckoutState) : option TransactionStatus :=
  match state with
  | Completed => Some TxnCompleted
  | Rejected => Some TxnRejected
  | AuthFailed => Some TxnAuthFailed
  | CommitFailed => Some TxnCommitFailed
  | TimedOut => Some TxnTimedOut
  | _ => None
  end.

(** ** Runs *)

(** A sequence of events applied from a state; [None] once a transition is refused. *)
Definition run {St Ev} (next : St -> Ev -> option St) (s : St) (es : list Ev) : option St :=
  foldl (fun os e => match os with Some s => next s e | None => None end) (Some s) es.

(** One admissible transition, and its reflexive-transitive closure. *)
Inductive steps {St Ev} (next : St -> Ev -> option St) : St -> list Ev -> St -> Prop :=
| steps_nil s : steps next s [] s
| steps_cons s e s' es s'' :
    next s e = Some s' -> steps next s' es s'' -> steps next s (e :: es) s''.

Definition happy_path : list CheckoutEvent :=
  [ ValidatePassed; PriceResolved; TaxResolved; GeoValidated; EvPaymentAuthorized;
    EvCommitted; EvReceiptGenerated; Complete ].

(** Distance from the start along the happy path. *)
Definition checkout_rank (s : CheckoutState) : nat :=
  match s with
  | Received => 0 | Validated => 1 | Priced => 2 | Taxed => 3 | GeoChecked => 4
  | PaymentAuthorized => 5 | Committed => 6 | ReceiptGenerated => 7 | Completed => 8
  | Rejected | AuthFailed | CommitFailed | TimedOut => 9
  end.

(** ** Lemmas *)

Lemma run_None {St Ev} (next : St -> Ev -> option St) es :
  foldl (fun os e => match os with Some s => next s e | None => None end) None es = None.
Proof. induction es; done. Qed.

(** The executable run and the step relation agree. *)
Lemma run_steps {St Ev} (next : St -> Ev -> option St) s es s' :
  run next s es = Some s' <-> steps next s es s'.
Proof.
  revert s. induction es as [|e es IH]; intros s; unfold run in *; simpl.
  - split; [intros [= ->]; constructor | inversion 1; by subst].
  - destruct (next s e) as [t|] eqn:Ht.
    + rewrite IH. split; [econstructor; eauto | inversion 1; by simplify_eq].
    + rewrite run_None. split; [done | inversion 1; by simplify_eq].
Qed.

Lemma run_cons {St Ev} (next : St -> Ev -> option St) s e es :
  run next s (e :: es) = match next s e with Some t => run next t es | None => None end.
Proof. unfold run. simpl. destruct (next s e); [done|apply run_None]. Qed.

(** Every transition moves the rank strictly forward, except the time-out of a
    checkout that has already failed. *)
Lemma next_checkout_rank s e s' :
  next_checkout_state s e = Some s' ->
  (checkout_rank s < checkout_rank s')%nat \/ (checkout_rank s = 9 /\ s' = TimedOut).
Proof. destruct s, e; simpl; intros; simplify_eq; simpl; try (by left; lia); by right. Qed.

(** From a state on the happy path, the completed checkouts are exactly the ones that
    took the rest of the happy path. *)
Lemma run_to_completed s es :
  run next_checkout_state s es = Some Completed ->
  (checkout_rank s <= 8)%nat /\ es = drop (checkout_rank s) happy_path.
Proof.
  revert s. induction es as [|e es IH]; intros s.
  - unfold run. simpl. intros [= ->]. auto.
  - rewrite run_cons. destruct (next_checkout_state s e) as [t|] eqn:Ht; [|done].
    intros [Hr ->]%IH. destruct s, e; simpl in Ht; simplify_eq; simpl in *; try lia; (split; [lia|done]).
Qed.

(** ** Properties *)

(** A checkout completes exactly when it goes through validation, pricing, tax,
    geo, authorization, commit and receipt, in that order and nothing else. *)
Theorem checkout_completes_only_by_happy_path es :
  run next_checkout_state Received es = Some Completed <-> es = happy_path.
Proof. split; [by intros [_ ->]%run_to_completed | by intros ->]. Qed.
