(* ===== verification/Validation.v ===== *)
(** * Validation and policy ([crates/orchestrator-core/src]: [validation.rs],
    [policy.rs])

    The checks that run before a command or a checkout touches any state.  Errors
    accumulate in the order of the source; each validator is characterised by the
    condition under which it accepts. *)

From S2P Require Export Contract.

Record ValidationResult := MkValidationResult { valid : bool; vr_errors : list string }.

Definition validation_ok : ValidationResult := MkValidationResult true [].
Definition validation_invalid (errors : list string) : ValidationResult :=
  MkValidationResult false errors.

(** [if cond { errors.push(msg) }]. *)
Definition push_if (cond : bool) (msg : string) (errors : list string) : list string :=
  if cond then errors ++ [msg] else errors.

Definition finish (errors : list string) : ValidationResult :=
  match errors with [] => validation_ok | _ => validation_invalid errors end.

(** [currency.is_empty() || currency.len() != 3]. *)
Definition bad_currency (c : string) : bool :=
  str_is_empty c || negb (String.length c =? 3)%nat.

Definition validate_cart_command (cmd : CartCommand) : ValidationResult :=
  finish
    match cmd with
    | CreateCart p =>
        push_if (bad_currency (cc_currency p)) "currency must be 3-letter code"
          (push_if (str_is_empty (cc_merchant_id p)) "merchant_id required" [])
    | AddItem p =>
        push_if (ai_quantity p =? 0)%Z "quantity must be > 0"
          (push_if (str_is_empty (ai_item_id p)) "item_id required" [])
    | UpdateItemQty p => push_if (str_is_empty (uq_line_id p)) "line_id required" []
    | RemoveItem p => push_if (str_is_empty (ri_line_id p)) "line_id required" []
    | GetCart _ | CancelCart _ => []
    | StartCheckout p => push_if (sc_cart_version p =? 0)%Z "cart_version must be > 0" []
    | ApplyAdjustment p => push_if (str_is_empty (aa_code p)) "adjustment code required" []
    | SetFulfillmentSelection p =>
        let errors := push_if (str_is_empty (dest_id (sf_destination p)))
                        "fulfillment destination id required" [] in
        match sf_destination p with
        | DestRetail _ name _ =>
            push_if (str_is_empty (str_trim name)) "retail location name required" errors
        | DestShipping _ _ => errors
        end
    end.

Definition validate_payment_intent (intent : PaymentIntent) (errors : list string)
  : list string :=
  let errors := push_if (pi_amount_minor intent <? 0)%Z "payment amount must be >= 0" errors in
  let errors := push_if (str_is_empty (pi_token_or_reference intent))
                  "payment token_or_reference required" errors in
  let errors := push_if (is_some_and (pi_payment_handler_id intent) str_is_empty)
                  "payment_handler_id cannot be empty" errors in
  let errors := push_if (is_some_and (pi_mpp_method intent) str_is_empty)
                  "mpp_method cannot be empty" errors in
  let errors := push_if (is_some_and (pi_mpp_intent intent) str_is_empty)
                  "mpp_intent cannot be empty" errors in
  if bool_decide (pi_payment_method_type intent = Some Mpp) then
    let errors := push_if (negb (is_some (pi_mpp_method intent)))
                    "mpp_method required for payment_method_type=mpp" errors in
    let errors := push_if (negb (is_some (pi_mpp_intent intent)))
                    "mpp_intent required for payment_method_type=mpp" errors in
    push_if (is_some (pi_ap2_consent_proof intent) || is_some (pi_payment_handler_id intent))
      "ap2_consent_proof and payment_handler_id are not allowed for payment_method_type=mpp"
      errors
  else errors.

Definition validate_checkout_request (req : CheckoutRequest) : ValidationResult :=
  let errors := push_if (str_is_empty (cr_tenant_id req)) "tenant_id required" [] in
  let errors := push_if (str_is_empty (cr_merchant_id req)) "merchant_id required" errors in
  let errors := push_if (bad_currency (cr_currency req))
                  "currency must be 3-letter code" errors in
  let errors := push_if (cr_cart_version req =? 0)%Z "cart_version must be > 0" errors in
  let errors := push_if (str_is_empty (cr_idempotency_key req))
                  "idempotency_key required" errors in
  finish (validate_payment_intent (cr_payment_intent req) errors).

(** ** Policy *)

Record PolicyEngine := MkPolicy {
  max_total_minor : option Z;
  blocked_country_codes : list string;
  require_payment_reference : bool
}.

Definition default_policy : PolicyEngine := MkPolicy None [] true.

Inductive PolicyCheckResult := Allowed | PolicyRejected (errors : list string).

Definition check_checkout (p : PolicyEngine) (req : CheckoutRequest) (total_minor : Z)
  : PolicyCheckResult :=
  let errors :=
    match max_total_minor p with
    | Some max => push_if (max <? total_minor)%Z
        ("total " +:+ pretty total_minor +:+ " exceeds max allowed " +:+ pretty max) []
    | None => []
    end in
  let errors :=
    match cr_location req with
    | Some loc =>
        match lh_country_code loc with
        | Some cc =>
            push_if (any (fun b => eq_ignore_ascii_case b cc) (blocked_country_codes p))
              ("country " +:+ cc +:+ " is not allowed") errors
        | None => errors
        end
    | None => errors
    end in
  let errors := push_if (require_payment_reference p
                         && str_is_empty (pi_token_or_reference (cr_payment_intent req)))
                  "payment token or reference required" errors in
  match errors with [] => Allowed | _ => PolicyRejected errors end.

(** ** Specifications *)

(** A payment intent the orchestrator accepts. *)
Definition payment_intent_ok (i : PaymentIntent) : Prop :=
  (0 <= pi_amount_minor i)%Z
  /\ pi_token_or_reference i <> ""
  /\ pi_payment_handler_id i <> Some ""
  /\ pi_mpp_method i <> Some ""
  /\ pi_mpp_intent i <> Some ""
  /\ (pi_payment_method_type i = Some Mpp ->
      pi_mpp_method i <> None /\ pi_mpp_intent i <> None
      /\ pi_ap2_consent_proof i = None /\ pi_payment_handler_id i = None).

Definition checkout_request_ok (r : CheckoutRequest) : Prop :=
  cr_tenant_id r <> "" /\ cr_merchant_id r <> ""
  /\ String.length (cr_currency r) = 3%nat
  /\ cr_cart_version r <> 0%Z
  /\ cr_idempotency_key r <> ""
  /\ payment_intent_ok (cr_payment_intent r).

(** ** Lemmas *)

Lemma push_if_nil c m es : push_if c m es = [] <-> c = false /\ es = [].
Proof.
  unfold push_if. destruct c; [|naive_solver]. split; [|by intros []].
  intros H. by apply app_eq_nil in H as [_ ?].
Qed.

Lemma finish_valid es : valid (finish es) = true <-> es = [].
Proof. destruct es; simpl; naive_solver. Qed.

Lemma bad_currency_false c : bad_currency c = false <-> String.length c = 3%nat.
Proof.
  unfold bad_currency. rewrite orb_false_iff, negb_false_iff, Nat.eqb_eq.
  split; [by intros [_ ?]|]. intros H. split; [|done]. by destruct c.
Qed.

Lemma str_nonempty s : str_is_empty s = false <-> s <> "".
Proof. unfold str_is_empty. by rewrite String.eqb_neq. Qed.

Lemma some_nonempty o : is_some_and o str_is_empty = false <-> o <> Some "".
Proof.
  destruct o as [s|]; simpl; [|done]. rewrite str_nonempty. naive_solver.
Qed.

Lemma is_some_None {A} (o : option A) : is_some o = false <-> o = None.
Proof. by destruct o. Qed.

Lemma is_some_true {A} (o : option A) : is_some o = true <-> o <> None.
Proof. by destruct o. Qed.

Lemma validate_payment_intent_nil i es :
  validate_payment_intent i es = [] <-> es = [] /\ payment_intent_ok i.
Proof.
  unfold validate_payment_intent, payment_intent_ok. case_bool_decide as Hm;
    rewrite ?push_if_nil, ?orb_false_iff, ?negb_false_iff, ?is_some_None,
      ?is_some_true, ?some_nonempty, ?str_nonempty, ?Z.ltb_ge.
  - naive_solver.
  - naive_solver.
Qed.

Lemma validate_checkout_request_ok req :
  valid (validate_checkout_request req) = true <-> checkout_request_ok req.
Proof.
  unfold validate_checkout_request, checkout_request_ok.
  rewrite finish_valid, validate_payment_intent_nil, !push_if_nil, !str_nonempty,
    bad_currency_false, Z.eqb_neq.
  naive_solver.
Qed.

(** ** Properties *)

(** A checkout request passes validation exactly when tenant, merchant,
    idempotency key and payment token are present, the currency has three bytes, the
    version is not zero, the amount is not negative, and a machine payment names its
    method and intent and carries no AP2 field. *)
Theorem checkout_request_validation req :
  valid (validate_checkout_request req) = true <-> checkout_request_ok req.
Proof. apply validate_checkout_request_ok. Qed.

(** The policy lets a checkout through exactly when the total is within the cap,
    the destination country is not blocked in any letter case, and a payment
    reference is present whenever one is required. *)
Theorem policy_allows_iff p req total :
  check_checkout p req total = Allowed <->
  (forall max, max_total_minor p = Some max -> (total <= max)%Z)
  /\ (forall loc cc b, cr_location req = Some loc -> lh_country_code loc = Some cc ->
        b ∈ blocked_country_codes p -> eq_ignore_ascii_case b cc = false)
  /\ (require_payment_reference p = true ->
      pi_token_or_reference (cr_payment_intent req) <> "").
Proof.
  unfold check_checkout.
  match goal with |- match ?e with _ => _ end = _ <-> _ =>
    assert (match e with [] => Allowed | _ => PolicyRejected e end = Allowed <-> e = []) as ->
      by (destruct e; naive_solver) end.
  rewrite push_if_nil, andb_false_iff, str_nonempty.
  assert (forall (loc : LocationHint) cc, any (fun b => eq_ignore_ascii_case b cc) (blocked_country_codes p)
    = false <-> forall b, b ∈ blocked_country_codes p -> eq_ignore_ascii_case b cc = false)
    as Hany.
  { intros _ cc. unfold any. rewrite <- not_true_iff_false, existsb_elem.
    split; [|intros H (b & Hb & Hc); by rewrite H in Hc].
    intros H b Hb. apply not_true_iff_false. intros Hc. apply H. by exists b. }
  destruct (max_total_minor p) as [mx|], (cr_location req) as [loc|];
    try destruct (lh_country_code loc) as [cc|] eqn:Hcc;
    rewrite ?push_if_nil, ?Z.ltb_ge, ?(Hany loc);
    destruct (require_payment_reference p); naive_solver.
Qed.
