(* ===== verification/Providers.v ===== *)
(** * Provider contracts and mocks ([crates/provider-contracts/src],
    [crates/provider-mocks/src])

    A provider is an external service behind a trait object.  Its methods take, on
    top of their arguments, the number of the interaction they answer: nothing is
    assumed about two calls with the same arguments, so every theorem holds for
    providers whose prices, verdicts and failures change from call to call. *)

From stdpp Require Import sorting.
From S2P Require Export Contract.

(** ** Data and errors *)

Inductive CatalogError := CatalogNotFound (msg : string).
Inductive PricingError := PricingFailed (msg : string).
Inductive TaxError := TaxFailed (msg : string).
Inductive GeoError := GeoFailed (msg : string).
Inductive PaymentError := PaymentAuthFailed (msg : string) | PaymentUnsupported (msg : string).
Inductive ReceiptError := ReceiptFailed (msg : string).
Inductive FulfillmentError := FulfillmentFailed (msg : string).

(** [#[error("fulfillment rating failed: {0}")]]. *)
Definition fulfillment_error_to_string (e : FulfillmentError) : string :=
  match e with FulfillmentFailed msg => "fulfillment rating failed: " +:+ msg end.

Record CatalogItem := MkCatalogItem {
  ci_id : string; ci_title : string; ci_price_minor : Z }.
Record LinePrice := MkLinePrice {
  lp_line_id : string; lp_unit_price_minor : Z; lp_total_minor : Z }.
Record AuthResult := MkAuthResult { authorized : bool; auth_reference : string }.
Record PaymentOperationResult := MkPaymentOperationResult {
  po_success : bool; po_reference : string }.
Record FulfillmentQuoteRequest := MkFulfillmentQuoteRequest {
  fq_method_type : FulfillmentMethodType;
  fq_destination : FulfillmentDestination;
  fq_line_item_ids : list string
}.

(** ** Traits *)

Record CatalogProvider := MkCatalogProvider {
  get_item : nat -> string -> result CatalogItem CatalogError;
  lookup_items : nat -> list string -> result (list CatalogItem) CatalogError;
  search_items : nat -> option string -> result (list CatalogItem) CatalogError
}.

Record PricingProvider := MkPricingProvider {
  resolve_prices : nat -> CartProjection -> result (list LinePrice) PricingError;
  resolve_discounts :
    nat -> CartProjection -> list string -> result (list AppliedDiscount) PricingError
}.

(** The only field of [TaxResult] is [total_tax_minor], of [GeoCheckResult]
    [allowed] and of [ReceiptPayload] [content]: they are the results here. *)
Record ProviderSet := MkProviderSet {
  catalog : CatalogProvider;
  pricing : PricingProvider;
  resolve_tax : nat -> CartProjection -> result Z TaxError;
  geo_check : nat -> CartProjection -> CheckoutRequest -> result bool GeoError;
  authorize : nat -> CheckoutRequest -> result AuthResult PaymentError;
  capture : nat -> PaymentLifecycleRequest -> result PaymentOperationResult PaymentError;
  void : nat -> PaymentLifecycleRequest -> result PaymentOperationResult PaymentError;
  refund : nat -> PaymentLifecycleRequest -> result PaymentOperationResult PaymentError;
  provider_payment_state : nat -> string -> option PaymentState;
  receipt_generate : nat -> CartProjection -> TransactionResult -> result string ReceiptError;
  fulfillment :
    option (nat -> CartProjection -> FulfillmentQuoteRequest
            -> result (list FulfillmentOption) FulfillmentError)
}.

(** The trait's default [lookup_items]: items that cannot be fetched are left out. *)
Definition default_lookup_items (get : string -> result CatalogItem CatalogError)
    (item_ids : list string) : result (list CatalogItem) CatalogError :=
  Ok (foldl (fun items item_id =>
               match get item_id with Ok item => items ++ [item] | Err _ => items end)
        [] item_ids).

Definition default_search_items (query : option string)
  : result (list CatalogItem) CatalogError := Ok [].

(** The trait's default [resolve_discounts] grants nothing. *)
Definition default_resolve_discounts (cart : CartProjection) (codes : list string)
  : result (list AppliedDiscount) PricingError := Ok [].

Definition default_get_payment_state (transaction_id : string) : option PaymentState := None.

(** ** Mocks *)

Definition mock_get_item (items : gmap string CatalogItem) (item_id : string)
  : result CatalogItem CatalogError :=
  ok_or (items !! item_id) (CatalogNotFound item_id).

Definition mock_lookup_items (items : gmap string CatalogItem) (item_ids : list string)
  : result (list CatalogItem) CatalogError :=
  Ok (omap (fun item_id => items !! item_id) item_ids).

(** [str::contains] of a text. *)
Fixpoint str_includes (needle s : string) : bool :=
  starts_with needle s
  || match s with EmptyString => false | String _ rest => str_includes needle rest end.

Definition id_before (a b : CatalogItem) : Prop := String.leb (ci_id a) (ci_id b) = true.

#[export] Instance id_before_dec a b : Decision (id_before a b).
Proof. unfold id_before. apply _. Defined.

(** The items whose id or title has the query in it, whatever the case of its letters, by id. *)
Definition mock_search_items (items : gmap string CatalogItem) (query : option string)
  : result (list CatalogItem) CatalogError :=
  let query := to_ascii_lowercase (unwrap_or query "") in
  Ok (merge_sort id_before
        (List.filter (fun item => str_is_empty query
                                  || str_includes query (to_ascii_lowercase (ci_id item))
                                  || str_includes query (to_ascii_lowercase (ci_title item)))
           (map snd (map_to_list items)))).

Definition mock_authorize (request : CheckoutRequest) : result AuthResult PaymentError :=
  Ok (MkAuthResult true ("mock_" +:+ cr_idempotency_key request)).

Definition mock_capture (request : PaymentLifecycleRequest)
  : result PaymentOperationResult PaymentError :=
  Ok (MkPaymentOperationResult true ("captured_" +:+ pl_transaction_id request)).

Definition mock_void (request : PaymentLifecycleRequest)
  : result PaymentOperationResult PaymentError :=
  Ok (MkPaymentOperationResult true ("voided_" +:+ pl_transaction_id request)).

Definition mock_refund (request : PaymentLifecycleRequest)
  : result PaymentOperationResult PaymentError :=
  Ok (MkPaymentOperationResult true ("refunded_" +:+ pl_transaction_id request)).

Definition mock_resolve_prices (cart : CartProjection) : result (list LinePrice) PricingError :=
  Ok (map (fun line => MkLinePrice (cl_line_id line) (cl_unit_price_minor line)
                         (cl_unit_price_minor line *! cl_quantity line)%Z)
        (cp_lines cart)).

(** Rust's integer division truncates towards zero. *)
Definition mock_resolve_tax (cart : CartProjection) : result Z TaxError :=
  Ok (Z.quot (cp_subtotal_minor cart) 10).

Definition mock_geo_check (cart : CartProjection) (request : CheckoutRequest)
  : result bool GeoError :=
  Ok match cr_location request with
     | Some l => match lh_country_code l with
                 | Some cc => negb (String.eqb cc "ZZ")
                 | None => true
                 end
     | None => true
     end.

(** [uuid_str] is the [Display] of a [Uuid]. *)
Definition mock_receipt (uuid_str : Uuid -> string) (cart : CartProjection)
    (res : TransactionResult) : result string ReceiptError :=
  Ok ("Receipt txn=" +:+ tr_transaction_id res
      +:+ " cart=" +:+ uuid_str (cart_uuid (cp_cart_id cart))
      +:+ " total=" +:+ pretty (tb_total_minor (tr_totals_breakdown res))).

Definition mock_providers (uuid_str : Uuid -> string) (items : gmap string CatalogItem)
  : ProviderSet :=
  {| catalog := {| get_item _ := mock_get_item items;
                   lookup_items _ := mock_lookup_items items;
                   search_items _ := mock_search_items items |};
     pricing := {| resolve_prices _ := mock_resolve_prices;
                   resolve_discounts _ := default_resolve_discounts |};
     resolve_tax _ := mock_resolve_tax;
     geo_check _ := mock_geo_check;
     authorize _ := mock_authorize;
     capture _ := mock_capture;
     void _ := mock_void;
     refund _ := mock_refund;
     provider_payment_state _ := default_get_payment_state;
     receipt_generate _ := mock_receipt uuid_str;
     fulfillment := None |}.

(** ** Lemmas *)

(** The default batch lookup and the mock's own one agree: both drop unknown ids and
    keep the order and the multiplicity of the request. *)
Lemma mock_lookup_is_default items ids :
  mock_lookup_items items ids = default_lookup_items (mock_get_item items) ids.
Proof.
  unfold mock_lookup_items, default_lookup_items. f_equal.
  enough (forall acc, foldl (fun its id => match mock_get_item items id with
    Ok it => its ++ [it] | Err _ => its end) acc ids
    = acc ++ omap (fun id => items !! id) ids) as H by (by rewrite H).
  induction ids as [|i ids IH]; intros acc; simpl; [by rewrite app_nil_r|].
  unfold mock_get_item at 2. destruct (items !! i) as [it|]; simpl; rewrite IH; [|done].
  by rewrite <- app_assoc.
Qed.

#[export] Instance id_before_total : Total id_before.
Proof. intros a b. apply String.leb_total. Qed.

(** The mock's search finds what is in the catalog and matches, and sorts it. *)
Lemma mock_search_finds items query found item :
  mock_search_items items query = Ok found ->
  Sorted.Sorted id_before found
  /\ (item ∈ found <->
       (exists id, items !! id = Some item)
       /\ let q := to_ascii_lowercase (unwrap_or query "") in
          str_is_empty q || str_includes q (to_ascii_lowercase (ci_id item))
          || str_includes q (to_ascii_lowercase (ci_title item)) = true).
Proof.
  intros [= <-]. split; [apply Sorted_merge_sort, _|].
  rewrite merge_sort_Permutation, !list_elem_of_In, filter_In, in_map_iff. cbv zeta.
  apply and_iff_compat_r. split.
  - intros ([id x] & <- & Hin). exists id. by apply list_elem_of_In, elem_of_map_to_list in Hin.
  - intros (id & Hid). exists (id, item). split; [done|].
    by apply list_elem_of_In, elem_of_map_to_list.
Qed.

Example search_ignores_case :
  mock_search_items {[ "sku-1" := MkCatalogItem "sku-1" "Blue Mug" 100;
                       "sku-0" := MkCatalogItem "sku-0" "Mugs" 200;
                       "sku-2" := MkCatalogItem "sku-2" "Plate" 300 ]} (Some "MUG")
  = Ok [MkCatalogItem "sku-0" "Mugs" 200; MkCatalogItem "sku-1" "Blue Mug" 100].
Proof. vm_compute. reflexivity. Qed.
