(* ===== verification/StoreTraits.v ===== *)
(** * Store traits ([crates/orchestrator-runtime/src]: [store_traits.rs],
    [payment_state.rs], [webhooks.rs], and the records of [events.rs],
    [idempotency.rs], [commit.rs], [inventory.rs], [effects.rs])

    The runtime talks to its stores through trait objects.  Each trait is a class of
    operations on a store state, and what the runtime relies on is a second class of
    laws over an observation of that state.  An operation may fail with a
    [StoreError]; the laws say what the state is after a failure too. *)

From S2P Require Export StateMachine.

(** ** Records *)

(** The I/O error a [StoreError] wraps, as its message. *)
Record StoreError := MkStoreError { store_error_msg : string }.

(** A reading of both clocks, in nanoseconds: [chrono::Utc::now] since the epoch and
    [Instant::now]. *)
Record Clock := MkClock { utc_ns : Z; instant_ns : Z }.

(** [chrono::DateTime::timestamp]: whole seconds, rounded down. *)
Definition timestamp (now : Clock) : Z := (utc_ns now / 1000000000)%Z.

Inductive CartStreamEvent :=
| EvCreated (merchant_id currency : string)
| EvItemAdded (line_id item_id : string) (quantity : Z)
| EvItemQtyUpdated (line_id : string) (quantity : Z)
| EvItemRemoved (line_id : string)
| EvAdjustmentApplied (code : string)
| EvFulfillmentSelected (method_type : FulfillmentMethodType)
    (selected_option_id : option string) (amount_minor : Z)
| EvRepriced
| EvRetaxed (tax_minor : Z)
| EvGeoChecked (allowed : bool)
| EvCheckoutReady
| EvCancelled.

Record IdempotencyKey := MkIdempotencyKey {
  ik_tenant_id : string; ik_merchant_id : string; ik_key : string }.

#[export] Instance IdempotencyKey_eq_dec : EqDecision IdempotencyKey.
Proof. solve_decision. Defined.
#[export] Instance IdempotencyKey_countable : Countable IdempotencyKey.
Proof.
  apply (inj_countable' (fun k => (ik_tenant_id k, ik_merchant_id k, ik_key k))
           (fun '(t, m, k) => MkIdempotencyKey t m k)).
  by intros [].
Defined.

Inductive IdempotencyState := InFlight | IdemCompleted (res : TransactionResult).

Record CommitRecord := MkCommitRecord {
  cm_transaction_id : string; cm_cart_id : CartId; cm_payment_reference : option string }.

Inductive ReservationState := Reserved | Expired | Released | Finalized.

#[export] Instance ReservationState_eq_dec : EqDecision ReservationState.
Proof. solve_decision. Defined.

Record ReservationRecord := MkReservation {
  rr_cart_id : CartId;
  rr_sku : string;
  rr_quantity : Z;
  rr_state : ReservationState;
  rr_lease_until : Z
}.

Definition rr_set_state (s : ReservationState) (r : ReservationRecord) : ReservationRecord :=
  MkReservation (rr_cart_id r) (rr_sku r) (rr_quantity r) s (rr_lease_until r).

Record OutboxMessage := MkOutboxMessage {
  om_id : string;
  om_topic : string;
  om_payload : string;
  om_correlation_id : string;
  om_attempts : Z;
  om_tenant_id : option string
}.

Definition om_set_attempts (n : Z) (m : OutboxMessage) : OutboxMessage :=
  MkOutboxMessage (om_id m) (om_topic m) (om_payload m) (om_correlation_id m) n
    (om_tenant_id m).

Record WebhookRegistration := MkWebhook {
  wh_id : string;
  wh_tenant_id : string;
  wh_url : string;
  wh_secret : string;
  wh_event_filter : option (list string);
  wh_active : bool
}.

(** Decidable equality of the records. *)
#[export] Instance CartStreamEvent_eq_dec : EqDecision CartStreamEvent.
Proof. solve_decision. Defined.
#[export] Instance IdempotencyState_eq_dec : EqDecision IdempotencyState.
Proof. solve_decision. Defined.
#[export] Instance CommitRecord_eq_dec : EqDecision CommitRecord.
Proof. solve_decision. Defined.
#[export] Instance OutboxMessage_eq_dec : EqDecision OutboxMessage.
Proof. solve_decision. Defined.
#[export] Instance WebhookRegistration_eq_dec : EqDecision WebhookRegistration.
Proof. solve_decision. Defined.

(** ** Operations *)

Class EventStore (S : Type) := {
  append_cart_event : CartId -> CartStreamEvent -> ST S StoreError unit;
  put_cart_snapshot : CartProjection -> ST S StoreError unit;
  get_cart_snapshot : CartId -> S -> option CartProjection;
  get_cart_state : CartId -> S -> option CartState;
  set_cart_state : CartId -> CartState -> ST S StoreError unit
}.

Class IdempotencyStore (S : Type) := {
  idem_claim : IdempotencyKey -> ST S StoreError (option IdempotencyState);
  idem_complete : IdempotencyKey -> TransactionResult -> ST S StoreError unit;
  idem_release : IdempotencyKey -> ST S StoreError unit
}.

(** [txn] is the transaction id drawn by the store. *)
Class CommitStore (S : Type) := {
  commit : string -> CartId -> option string -> ST S StoreError CommitRecord
}.

(** Durations are nanoseconds. *)
Class ReservationStore (S : Type) := {
  reserve : Clock -> CartId -> string -> Z -> Z -> ST S StoreError unit;
  finalize_cart : CartId -> ST S StoreError unit;
  release_cart : CartId -> ST S StoreError unit;
  sweep_expired : Clock -> ST S StoreError nat;
  by_cart : Clock -> CartId -> S -> list ReservationRecord
}.

Class OutboxStore (S : Type) := {
  enqueue : OutboxMessage -> ST S StoreError unit;
  dequeue : ST S StoreError (option OutboxMessage);
  outbox_len : S -> nat;
  outbox_claim : ST S StoreError (option OutboxMessage);
  outbox_ack : string -> ST S StoreError unit;
  outbox_release : OutboxMessage -> ST S StoreError unit
}.

(** The trait's default bodies of [claim], [ack] and [release]. *)
Definition default_ack {S} (message_id : string) : ST S StoreError unit := mret tt.

Class InboxStore (S : Type) := { accept_once : string -> ST S StoreError bool }.

Class DeadLetterStore (S : Type) := {
  dl_put : OutboxMessage -> ST S StoreError unit;
  dl_len : S -> nat;
  dl_list : S -> list OutboxMessage;
  dl_take : string -> ST S StoreError (option OutboxMessage)
}.

Class OrderStore (S : Type) := {
  order_put : OrderRecord -> ST S StoreError unit;
  order_get : string -> S -> option OrderRecord;
  order_list_by_tenant : string -> S -> result (list OrderRecord) StoreError;
  append_event : string -> OrderEvent -> ST S StoreError (option OrderRecord);
  add_adjustment : string -> OrderAdjustment -> ST S StoreError (option OrderRecord);
  update_status : string -> OrderStatus -> ST S StoreError (option OrderRecord)
}.

Class PaymentStateStore (S : Type) := {
  pay_put : string -> PaymentState -> S -> S;
  pay_get : string -> S -> option PaymentState
}.

Class MandateDedupeStore (S : Type) := {
  record_mandate : Clock -> string -> Z -> ST S StoreError bool
}.

Class WebhookStore (S : Type) := {
  wh_register : WebhookRegistration -> ST S StoreError unit;
  wh_unregister : string -> ST S StoreError bool;
  wh_list_by_tenant : string -> S -> result (list WebhookRegistration) StoreError;
  wh_get : string -> S -> result (option WebhookRegistration) StoreError;
  list_active_for_topic :
    string -> string -> S -> result (list WebhookRegistration) StoreError
}.

(** ** Laws

    Every law gives the observation after the call whatever the call returned: both
    backends of the crate update their table first and only then persist it. *)

Class EventStoreLaws (S : Type) `{EventStore S} := {
  es_events : CartId -> S -> list CartStreamEvent;
  get_snapshot_append c c' e s :
    get_cart_snapshot c (snd (append_cart_event c' e s)) = get_cart_snapshot c s;
  get_state_append c c' e s :
    get_cart_state c (snd (append_cart_event c' e s)) = get_cart_state c s;
  events_append c c' e s :
    es_events c (snd (append_cart_event c' e s))
    = if decide (c = c') then es_events c s ++ [e] else es_events c s;
  get_snapshot_put c p s :
    get_cart_snapshot c (snd (put_cart_snapshot p s))
    = if decide (c = cp_cart_id p) then Some p else get_cart_snapshot c s;
  get_state_put c p s :
    get_cart_state c (snd (put_cart_snapshot p s)) = get_cart_state c s;
  events_put c p s : es_events c (snd (put_cart_snapshot p s)) = es_events c s;
  get_snapshot_set c c' st s :
    get_cart_snapshot c (snd (set_cart_state c' st s)) = get_cart_snapshot c s;
  get_state_set c c' st s :
    get_cart_state c (snd (set_cart_state c' st s))
    = if decide (c = c') then Some st else get_cart_state c s;
  events_set c c' st s : es_events c (snd (set_cart_state c' st s)) = es_events c s
}.

(** [ok] is the set of keys the store keeps apart. *)
Class IdempotencyStoreLaws (S : Type) `{IdempotencyStore S} (ok : IdempotencyKey -> Prop) := {
  idem_lookup : IdempotencyKey -> S -> option IdempotencyState;
  claim_hit k s st : ok k -> idem_lookup k s = Some st -> idem_claim k s = (Ok (Some st), s);
  claim_miss k s r s' :
    ok k -> idem_lookup k s = None -> idem_claim k s = (r, s') ->
    (r = Ok None \/ exists e, r = Err e)
    /\ forall k', ok k' ->
       idem_lookup k' s' = if decide (k' = k) then Some InFlight else idem_lookup k' s;
  complete_lookup k k' res s :
    ok k -> ok k' ->
    idem_lookup k' (snd (idem_complete k res s))
    = if decide (k' = k) then Some (IdemCompleted res) else idem_lookup k' s;
  release_lookup k k' s :
    ok k -> ok k' ->
    idem_lookup k' (snd (idem_release k s))
    = match idem_lookup k' s with
      | Some InFlight => if decide (k' = k) then None else Some InFlight
      | o => o
      end
}.

Class ReservationStoreLaws (S : Type) `{ReservationStore S} := {
  rs_state : CartId -> string -> S -> option (Z * ReservationState);
  reserve_state now c sku q ttl s c' sku' :
    rs_state c' sku' (snd (reserve now c sku q ttl s))
    = if decide (c' = c /\ sku' = sku) then Some (q, Reserved) else rs_state c' sku' s;
  finalize_state c s c' sku :
    rs_state c' sku (snd (finalize_cart c s))
    = if decide (c' = c) then prod_map id (fun _ => Finalized) <$> rs_state c' sku s
      else rs_state c' sku s;
  release_state c s c' sku :
    rs_state c' sku (snd (release_cart c s))
    = if decide (c' = c) then prod_map id (fun _ => Released) <$> rs_state c' sku s
      else rs_state c' sku s
}.

Class OutboxStoreLaws (S : Type) `{OutboxStore S} := {
  ob_queue : S -> list OutboxMessage;
  queue_len s : outbox_len s = length (ob_queue s);
  queue_enqueue m s : ob_queue (snd (enqueue m s)) = ob_queue s ++ [m];
  queue_claim_nil s : ob_queue s = [] -> outbox_claim s = (Ok None, s);
  queue_claim_cons m q s :
    ob_queue s = m :: q ->
    ob_queue (snd (outbox_claim s)) = q
    /\ (fst (outbox_claim s) = Ok (Some m) \/ exists e, fst (outbox_claim s) = Err e);
  queue_ack id s : ob_queue (snd (outbox_ack id s)) = ob_queue s;
  queue_release m s : ob_queue (snd (outbox_release m s)) = ob_queue s ++ [m]
}.

Class DeadLetterStoreLaws (S : Type) `{DeadLetterStore S} := {
  dl_lookup : string -> S -> option OutboxMessage;
  dl_put_lookup m s i :
    dl_lookup i (snd (dl_put m s)) = if decide (i = om_id m) then Some m else dl_lookup i s;
  dl_take_lookup j s i :
    dl_lookup i (snd (dl_take j s)) = if decide (i = j) then None else dl_lookup i s;
  dl_take_result j s :
    fst (dl_take j s) = Ok (dl_lookup j s)
    \/ (dl_lookup j s <> None /\ exists e, fst (dl_take j s) = Err e)
}.

Class OrderStoreLaws (S : Type) `{OrderStore S} := {
  order_put_get o s i :
    order_get i (snd (order_put o s))
    = if decide (i = or_order_id o) then Some o else order_get i s
}.

Class PaymentStateStoreLaws (S : Type) `{PaymentStateStore S} := {
  pay_put_get t st s t' :
    pay_get t' (pay_put t st s) = if decide (t' = t) then Some st else pay_get t' s
}.

Class MandateDedupeStoreLaws (S : Type) `{MandateDedupeStore S} := {
  md_lookup : string -> S -> option Z;
  (** Entries whose expiry has passed are dropped first; an id still present is a replay. *)
  mandate_replay now i e s x :
    md_lookup i s = Some x -> (timestamp now < x)%Z ->
    fst (record_mandate now i e s) = Ok false;
  mandate_fresh now i e s r s' :
    (forall x, md_lookup i s = Some x -> (x <= timestamp now)%Z) ->
    record_mandate now i e s = (r, s') ->
    (r = Ok true \/ exists err, r = Err err) /\ md_lookup i s' = Some e;
  (** Nothing that is alive is dropped. *)
  mandate_keeps now i e j s x :
    md_lookup j s = Some x -> (timestamp now < x)%Z ->
    md_lookup j (snd (record_mandate now i e s)) = Some x
}.

Class WebhookStoreLaws (S : Type) `{WebhookStore S} := {
  active_for_topic tenant topic s rs r :
    list_active_for_topic tenant topic s = Ok rs -> r ∈ rs ->
    wh_active r = true /\ wh_tenant_id r = tenant
    /\ is_none_or (wh_event_filter r) (fun f => str_contains f topic) = true
}.

(** ** The bundle of stores a runner is built with *)

Class Backend := {
  EventS : Type; EventS_ops :: EventStore EventS;
  IdemS : Type; IdemS_ops :: IdempotencyStore IdemS;
  CommitS : Type; CommitS_ops :: CommitStore CommitS;
  ReserveS : Type; ReserveS_ops :: ReservationStore ReserveS;
  OutboxS : Type; OutboxS_ops :: OutboxStore OutboxS;
  InboxS : Type; InboxS_ops :: InboxStore InboxS;
  DeadS : Type; DeadS_ops :: DeadLetterStore DeadS;
  OrderS : Type; OrderS_ops :: OrderStore OrderS;
  PayS : Type; PayS_ops :: PaymentStateStore PayS;
  MandateS : Type; MandateS_ops :: MandateDedupeStore MandateS;
  WebhookS : Type; WebhookS_ops :: WebhookStore WebhookS
}.

Class BackendLaws (B : Backend) := {
  key_ok : IdempotencyKey -> Prop;
  EventS_laws :: EventStoreLaws EventS;
  IdemS_laws :: IdempotencyStoreLaws IdemS key_ok;
  ReserveS_laws :: ReservationStoreLaws ReserveS;
  OutboxS_laws :: OutboxStoreLaws OutboxS;
  DeadS_laws :: DeadLetterStoreLaws DeadS;
  OrderS_laws :: OrderStoreLaws OrderS;
  PayS_laws :: PaymentStateStoreLaws PayS;
  MandateS_laws :: MandateDedupeStoreLaws MandateS;
  WebhookS_laws :: WebhookStoreLaws WebhookS
}.

Create Rewrite HintDb stores.
#[export] Hint Rewrite @get_snapshot_append @get_state_append @events_append
  @get_snapshot_put @get_state_put @events_put @get_snapshot_set @get_state_set @events_set
  @reserve_state @finalize_state @release_state @queue_enqueue @queue_ack @queue_release
  @dl_put_lookup @dl_take_lookup @order_put_get @pay_put_get : stores.
