(* ===== verification/Runner.v ===== *)
(** * The orchestration runner ([crates/orchestrator-runtime/src/runner.rs])

    Cart commands, checkout, payment lifecycle, outbox and reconciliation, as
    programs of a state-and-error monad over the world: the eleven stores the runner
    shares with its clones, and the interaction counter that numbers every answer of
    a provider, a clock or the UUID generator.  [w_trace] is a ghost record of the
    provider calls made; no program reads it.

    Metrics, tracing and latency measurements are left out: they return nothing to
    the code. *)

From Stdlib Require Import Ascii.
From S2P Require Export Providers StoreTraits Validation.

(** ** Errors, providers' trace and the world *)

Inductive RunnerError :=
| MissingCartId
| CartNotFound
| LineNotFound
| FulfillmentOptionNotFound
| FulfillmentQuote (msg : string)
| ValidationFailed (errors : list string)
| AlreadyInFlight
| InvalidStateTransition
| CartVersionConflict (expected current : Z)
| CartTenantMismatch
| GeoBlocked
| AmountMismatch (expected_minor provided_minor : Z)
| UnsupportedCommand
| RunnerStore (e : StoreError)
| RunnerCatalog (e : CatalogError)
| RunnerPricing (e : PricingError)
| RunnerTax (e : TaxError)
| RunnerGeo (e : GeoError)
| RunnerPayment (e : PaymentError)
| RunnerReceipt (e : ReceiptError).

Inductive ProviderCall :=
| CallGetItem (item_id : string)
| CallLookupItems (item_ids : list string)
| CallSearchItems (query : option string)
| CallResolvePrices (cart : CartProjection)
| CallResolveDiscounts (cart : CartProjection) (codes : list string)
| CallResolveTax (cart : CartProjection)
| CallGeoCheck (cart : CartProjection) (req : CheckoutRequest)
| CallAuthorize (req : CheckoutRequest)
| CallCapture (req : PaymentLifecycleRequest)
| CallVoid (req : PaymentLifecycleRequest)
| CallRefund (req : PaymentLifecycleRequest)
| CallPaymentState (transaction_id : string)
| CallReceipt (cart : CartProjection) (res : TransactionResult)
| CallQuoteOptions (cart : CartProjection) (req : FulfillmentQuoteRequest)
| CallDeliver (msg : OutboxMessage).

(** What the process draws from outside the crate: fresh UUIDs, their text form and
    the clocks. *)
Record Env := MkEnv {
  uuid_at : nat -> Uuid;
  uuid_display : Uuid -> string;
  clock_at : nat -> Clock
}.

(** The [Runner] struct without its stores.  A deliverer may hold the runner's own
    webhook store ([webhook_deliverer_for]), so it gets to read it. *)
Record RunnerConfig `{B : Backend} := MkRunner {
  providers : ProviderSet;
  policy : PolicyEngine;
  outbox_deliverer : option (nat -> WebhookS -> OutboxMessage -> result unit string)
}.
Arguments RunnerConfig B : clear implicits.
Arguments MkRunner {B} _ _ _.

(** [with_fulfillment_provider] and [with_outbox_deliverer]. *)
Definition with_fulfillment_provider {B : Backend} quote (r : RunnerConfig B) : RunnerConfig B :=
  let p := providers r in
  MkRunner (MkProviderSet (catalog p) (pricing p) (resolve_tax p) (geo_check p)
              (authorize p) (capture p) (void p) (refund p) (provider_payment_state p)
              (receipt_generate p) (Some quote)) (policy r) (outbox_deliverer r).

Definition with_outbox_deliverer {B : Backend} deliver (r : RunnerConfig B) : RunnerConfig B :=
  MkRunner (providers r) (policy r) (Some deliver).

Record World `{B : Backend} := MkWorld {
  w_events : EventS;
  w_idem : IdemS;
  w_commit : CommitS;
  w_res : ReserveS;
  w_outbox : OutboxS;
  w_inbox : InboxS;
  w_dead : DeadS;
  w_orders : OrderS;
  w_pay : PayS;
  w_mandates : MandateS;
  w_webhooks : WebhookS;
  w_tick : nat;
  w_trace : list ProviderCall
}.
Arguments World B : clear implicits.

Inductive OutboxOutcome := Idle | Delivered | Retrying (attempts : Z) | DeadLettered.

Record PaymentMismatch := MkMismatch {
  mm_transaction_id : string; mm_our_state : PaymentState;
  mm_provider_state : option PaymentState }.

Section setters.
Context {B : Backend}.
Implicit Types w : World B.

Definition set_events v w : World B :=
  MkWorld B v (w_idem w) (w_commit w) (w_res w) (w_outbox w) (w_inbox w) (w_dead w)
    (w_orders w) (w_pay w) (w_mandates w) (w_webhooks w) (w_tick w) (w_trace w).
Definition set_idem v w : World B :=
  MkWorld B (w_events w) v (w_commit w) (w_res w) (w_outbox w) (w_inbox w) (w_dead w)
    (w_orders w) (w_pay w) (w_mandates w) (w_webhooks w) (w_tick w) (w_trace w).
Definition set_commit v w : World B :=
  MkWorld B (w_events w) (w_idem w) v (w_res w) (w_outbox w) (w_inbox w) (w_dead w)
    (w_orders w) (w_pay w) (w_mandates w) (w_webhooks w) (w_tick w) (w_trace w).
Definition set_res v w : World B :=
  MkWorld B (w_events w) (w_idem w) (w_commit w) v (w_outbox w) (w_inbox w) (w_dead w)
    (w_orders w) (w_pay w) (w_mandates w) (w_webhooks w) (w_tick w) (w_trace w).
Definition set_outbox v w : World B :=
  MkWorld B (w_events w) (w_idem w) (w_commit w) (w_res w) v (w_inbox w) (w_dead w)
    (w_orders w) (w_pay w) (w_mandates w) (w_webhooks w) (w_tick w) (w_trace w).
Definition set_inbox v w : World B :=
  MkWorld B (w_events w) (w_idem w) (w_commit w) (w_res w) (w_outbox w) v (w_dead w)
    (w_orders w) (w_pay w) (w_mandates w) (w_webhooks w) (w_tick w) (w_trace w).
Definition set_dead v w : World B :=
  MkWorld B (w_events w) (w_idem w) (w_commit w) (w_res w) (w_outbox w) (w_inbox w) v
    (w_orders w) (w_pay w) (w_mandates w) (w_webhooks w) (w_tick w) (w_trace w).
Definition set_orders v w : World B :=
  MkWorld B (w_events w) (w_idem w) (w_commit w) (w_res w) (w_outbox w) (w_inbox w)
    (w_dead w) v (w_pay w) (w_mandates w) (w_webhooks w) (w_tick w) (w_trace w).
Definition set_pay v w : World B :=
  MkWorld B (w_events w) (w_idem w) (w_commit w) (w_res w) (w_outbox w) (w_inbox w)
    (w_dead w) (w_orders w) v (w_mandates w) (w_webhooks w) (w_tick w) (w_trace w).
Definition set_mandates v w : World B :=
  MkWorld B (w_events w) (w_idem w) (w_commit w) (w_res w) (w_outbox w) (w_inbox w)
    (w_dead w) (w_orders w) (w_pay w) v (w_webhooks w) (w_tick w) (w_trace w).
Definition set_webhooks v w : World B :=
  MkWorld B (w_events w) (w_idem w) (w_commit w) (w_res w) (w_outbox w) (w_inbox w)
    (w_dead w) (w_orders w) (w_pay w) (w_mandates w) v (w_tick w) (w_trace w).
Definition set_tick v w : World B :=
  MkWorld B (w_events w) (w_idem w) (w_commit w) (w_res w) (w_outbox w) (w_inbox w)
    (w_dead w) (w_orders w) (w_pay w) (w_mandates w) (w_webhooks w) v (w_trace w).
Definition set_trace v w : World B :=
  MkWorld B (w_events w) (w_idem w) (w_commit w) (w_res w) (w_outbox w) (w_inbox w)
    (w_dead w) (w_orders w) (w_pay w) (w_mandates w) (w_webhooks w) (w_tick w) v.
End setters.

(** ** Geo request of a cart *)

Definition geo_check_request (cart : CartProjection) : CheckoutRequest :=
  MkCheckoutRequest (unwrap_or (cp_tenant_id cart) "") (cp_merchant_id cart)
    (cp_cart_id cart) (cp_version cart) (cp_currency cart) None (location_hint cart)
    (MkPaymentIntent (cp_total_minor cart) "" None None None None None) "".

(** Fold the provider's prices into the lines: each price updates the first line with
    its id, prices for unknown lines are ignored. *)
Definition apply_price (lines : list CartLineProjection) (priced : LinePrice)
  : list CartLineProjection :=
  unwrap_or
    (update_first (fun l => String.eqb (cl_line_id l) (lp_line_id priced))
       (fun l => MkCartLine (cl_line_id l) (cl_item_id l) (cl_title l) (cl_quantity l)
                   (lp_unit_price_minor priced) (lp_total_minor priced))
       lines)
    lines.

Definition apply_prices (priced : list LinePrice) (c : CartProjection) : CartProjection :=
  let lines := foldl apply_price (cp_lines c) priced in
  cp_set_subtotal_minor (i64_sum (map cl_total_minor lines)) (cp_set_lines lines c).

(** [item:<item_id>:<campaign>] codes name a catalog item. *)
Fixpoint take_until_colon (s : string) : string :=
  match s with
  | EmptyString => EmptyString
  | String a s' => if Ascii.eqb a ":"%char then EmptyString else String a (take_until_colon s')
  end.

Definition adjustment_item (code : string) : option string :=
  match strip_prefix "item:" code with
  | Some rest => let item := take_until_colon rest in
                 if str_is_empty item then None else Some item
  | None => None
  end.

Definition totals_of (cart : CartProjection) : TotalsBreakdown :=
  MkTotals (cp_subtotal_minor cart) (cp_tax_minor cart) (cp_discount_minor cart)
    (cp_fulfillment_minor cart) (cp_total_minor cart).

Section runner.
Context {B : Backend} (env : Env) (self : RunnerConfig B).

Definition M (A : Type) : Type := ST (World B) RunnerError A.

(** *** Primitive interactions *)

(** Run a store operation on its component; [?] turns its error into
    [RunnerError::Store]. *)
Definition on {S A} (get : World B -> S) (set : S -> World B -> World B)
    (op : ST S StoreError A) : M A := fun w =>
  (map_err RunnerStore (fst (op (get w))), set (snd (op (get w))) w).

(** Call a provider: its answer is the one of this interaction. *)
Definition call {A E} (c : ProviderCall) (f : nat -> result A E) (conv : E -> RunnerError)
  : M A := fun w =>
  (map_err conv (f (w_tick w)), set_tick (S (w_tick w)) (set_trace (w_trace w ++ [c]) w)).

Definition new_uuid : M Uuid := fun w =>
  (Ok (uuid_at env (w_tick w)), set_tick (S (w_tick w)) w).

Definition now : M Clock := fun w =>
  (Ok (clock_at env (w_tick w)), set_tick (S (w_tick w)) w).

(** [format!("{prefix}{}", Uuid::new_v4())]. *)
Definition fresh_id (prefix : string) : M string :=
  u ← new_uuid; mret (prefix +:+ uuid_display env u).

Definition pay_state_put (txn : string) (st : PaymentState) : M unit := fun w =>
  (Ok tt, set_pay (pay_put txn st (w_pay w)) w).

Definition on_events {A} : ST EventS StoreError A -> M A := on w_events set_events.

(** *** Pricing, discounts and geo *)

Definition transition_cart (cart_id : CartId) (event : CartEvent) : M unit :=
  current ← st_gets (fun w => get_cart_state cart_id (w_events w));
  current ← st_lift (ok_or current CartNotFound);
  next ← st_lift (ok_or (next_cart_state current event) InvalidStateTransition);
  on_events (set_cart_state cart_id next).

Definition apply_discounts (projection : CartProjection) : M CartProjection :=
  let gross := (cp_subtotal_minor projection +! cp_tax_minor projection
                +! cp_fulfillment_minor projection)%Z in
  match cp_adjustment_codes projection with
  | [] =>
      mret (cp_set_total_minor gross
              (cp_set_discount_minor 0 (cp_set_discounts [] projection)))
  | _ =>
      discounts ← call (CallResolveDiscounts projection (cp_adjustment_codes projection))
        (fun n => resolve_discounts (pricing (providers self)) n projection
                    (cp_adjustment_codes projection)) RunnerPricing;
      let discount := total_discount_minor discounts gross in
      mret (cp_set_total_minor (gross -! discount)%Z
              (cp_set_discounts discounts (cp_set_discount_minor discount projection)))
  end.

Definition check_geo (cart : CartProjection) : M bool :=
  let request := geo_check_request cart in
  call (CallGeoCheck cart request)
    (fun n => geo_check (providers self) n cart request) RunnerGeo.

Definition validate_adjustment (code : string) : M unit :=
  match adjustment_item code with
  | Some item_id =>
      _ ← call (CallGetItem item_id)
            (fun n => get_item (catalog (providers self)) n item_id) RunnerCatalog;
      mret tt
  | None => mret tt
  end.

Definition price_lines (c : CartProjection) : M CartProjection :=
  priced ← call (CallResolvePrices c)
    (fun n => resolve_prices (pricing (providers self)) n c) RunnerPricing;
  mret (apply_prices priced c).

Definition mutate_and_recalculate (cart_id : CartId) (projection : CartProjection)
    (primary_event : CartStreamEvent) : M CartProjection :=
  _ ← transition_cart cart_id ItemChanged;
  _ ← on_events (append_cart_event cart_id primary_event);
  p ← price_lines projection;
  _ ← transition_cart cart_id PricingResolved;
  _ ← on_events (append_cart_event cart_id EvRepriced);
  tax ← call (CallResolveTax p) (fun n => resolve_tax (providers self) n p) RunnerTax;
  p ← apply_discounts (cp_set_tax_minor tax p);
  _ ← transition_cart cart_id CartTaxResolved;
  _ ← on_events (append_cart_event cart_id (EvRetaxed tax));
  geo ← check_geo p;
  let p := cp_set_geo_ok geo p in
  _ ← transition_cart cart_id CartGeoValidated;
  _ ← on_events (append_cart_event cart_id (EvGeoChecked (cp_geo_ok p)));
  _ ← on_events (put_cart_snapshot p);
  mret p.

Definition reprice_for_checkout (cart : CartProjection) : M CartProjection :=
  cart ← price_lines cart;
  tax ← call (CallResolveTax cart) (fun n => resolve_tax (providers self) n cart) RunnerTax;
  apply_discounts (cp_set_tax_minor tax cart).

(** *** Cart commands *)

Definition load_cart (cart_id : CartId) : M CartProjection :=
  snap ← st_gets (fun w => get_cart_snapshot cart_id (w_events w));
  st_lift (ok_or snap CartNotFound).

(** [projection.version += 1] on a [u64]. *)
Definition bump (p : CartProjection) : CartProjection :=
  cp_set_version (u64_wrap (cp_version p + 1)) p.

Definition new_cart (id : CartId) (p : CreateCartPayload) : CartProjection :=
  MkCart id 1 (cc_currency p) (cc_merchant_id p) (cc_tenant_id p) [] 0 0 0 true Draft
    None 0 [] [] 0.

Definition cmd_create_cart (p : CreateCartPayload) : M CartProjection :=
  u ← new_uuid;
  let id := MkCartId u in
  let projection := new_cart id p in
  _ ← on_events (append_cart_event id (EvCreated (cc_merchant_id p) (cc_currency p)));
  _ ← on_events (put_cart_snapshot projection);
  _ ← on_events (set_cart_state id CartCreated);
  mret projection.

Definition cmd_add_item (cart_id : option CartId) (p : AddItemPayload) : M CartProjection :=
  id ← st_lift (ok_or cart_id MissingCartId);
  item ← call (CallGetItem (ai_item_id p))
           (fun n => get_item (catalog (providers self)) n (ai_item_id p)) RunnerCatalog;
  projection ← load_cart id;
  line_id ← fresh_id "li_";
  let line := MkCartLine line_id (ci_id item) (ci_title item) (ai_quantity p)
                (ci_price_minor item) (ci_price_minor item *! ai_quantity p)%Z in
  mutate_and_recalculate id (bump (cp_set_lines (cp_lines projection ++ [line]) projection))
    (EvItemAdded line_id (ai_item_id p) (ai_quantity p)).

Definition cmd_update_item_qty (cart_id : option CartId) (p : UpdateItemQtyPayload)
  : M CartProjection :=
  id ← st_lift (ok_or cart_id MissingCartId);
  projection ← load_cart id;
  lines ← st_lift (ok_or
    (update_first (fun l => String.eqb (cl_line_id l) (uq_line_id p))
       (fun l => MkCartLine (cl_line_id l) (cl_item_id l) (cl_title l) (uq_quantity p)
                   (cl_unit_price_minor l) (cl_unit_price_minor l *! uq_quantity p)%Z)
       (cp_lines projection)) LineNotFound);
  mutate_and_recalculate id (bump (cp_set_lines lines projection))
    (EvItemQtyUpdated (uq_line_id p) (uq_quantity p)).

Definition cmd_remove_item (cart_id : option CartId) (p : RemoveItemPayload)
  : M CartProjection :=
  id ← st_lift (ok_or cart_id MissingCartId);
  projection ← load_cart id;
  let lines := retain (fun l => negb (String.eqb (cl_line_id l) (ri_line_id p)))
                 (cp_lines projection) in
  mutate_and_recalculate id (bump (cp_set_lines lines projection))
    (EvItemRemoved (ri_line_id p)).

Definition cmd_apply_adjustment (cart_id : option CartId) (p : ApplyAdjustmentPayload)
  : M CartProjection :=
  id ← st_lift (ok_or cart_id MissingCartId);
  projection ← load_cart id;
  _ ← validate_adjustment (aa_code p);
  let codes := cp_adjustment_codes projection in
  let codes := if str_contains codes (aa_code p) then codes else codes ++ [aa_code p] in
  mutate_and_recalculate id (bump (cp_set_adjustment_codes codes projection))
    (EvAdjustmentApplied (aa_code p)).

(** The lines a selection covers: all of them by default, else the named ones, which
    must exist. *)
Definition selection_lines (projection : CartProjection) (p : SetFulfillmentSelectionPayload)
  : result (list string) RunnerError :=
  match sf_line_item_ids p with
  | [] => Ok (map cl_line_id (cp_lines projection))
  | ids =>
      if forallb (fun line_id => any (fun l => String.eqb (cl_line_id l) line_id)
                                   (cp_lines projection)) ids
      then Ok ids else Err LineNotFound
  end.

Definition quote_fulfillment (projection : CartProjection)
    (p : SetFulfillmentSelectionPayload) (line_item_ids : list string)
  : M (list FulfillmentOption) :=
  match fulfillment (providers self) with
  | Some quote_options =>
      let quote := MkFulfillmentQuoteRequest (sf_method_type p) (sf_destination p)
                     line_item_ids in
      call (CallQuoteOptions projection quote)
        (fun n => quote_options n projection quote)
        (fun e => FulfillmentQuote (fulfillment_error_to_string e))
  | None => mret (default_options_for_method (sf_method_type p))
  end.

Definition find_option (options : list FulfillmentOption) (selected : string)
  : option FulfillmentOption :=
  find_first (fun o => String.eqb (fo_id o) selected) options.

(** The amount of the selected option; a selection that is not on offer is refused. *)
Definition selected_amount (options : list FulfillmentOption) (selected : option string)
  : result Z RunnerError :=
  match selected with
  | Some id => match find_option options id with
               | Some o => Ok (fo_amount_minor o)
               | None => Err FulfillmentOptionNotFound
               end
  | None => Ok 0%Z
  end.

Definition cmd_set_fulfillment (cart_id : option CartId) (p : SetFulfillmentSelectionPayload)
  : M CartProjection :=
  id ← st_lift (ok_or cart_id MissingCartId);
  projection ← load_cart id;
  line_item_ids ← st_lift (selection_lines projection p);
  options ← quote_fulfillment projection p line_item_ids;
  amount ← st_lift (selected_amount options (sf_selected_option_id p));
  group_id ← fresh_id "fg_";
  method_id ← fresh_id "fm_";
  let group := MkFulfillmentGroup group_id line_item_ids options
                 (sf_selected_option_id p) in
  let method := MkFulfillmentMethod method_id (sf_method_type p) line_item_ids
                  [sf_destination p] (Some (dest_id (sf_destination p))) [group] in
  let state := unwrap_or (cp_fulfillment projection) (MkFulfillmentState []) in
  let methods := retain (fun m => negb (bool_decide (fm_method_type m = sf_method_type p)))
                   (fs_methods state) ++ [method] in
  let projection := cp_set_fulfillment_minor amount
                      (cp_set_fulfillment (Some (MkFulfillmentState methods)) projection) in
  projection ← apply_discounts projection;
  geo ← check_geo projection;
  let projection := bump (cp_set_geo_ok geo projection) in
  _ ← on_events (append_cart_event id
        (EvFulfillmentSelected (sf_method_type p) (sf_selected_option_id p) amount));
  _ ← on_events (put_cart_snapshot projection);
  mret projection.

Definition cmd_start_checkout (p : StartCheckoutPayload) : M CartProjection :=
  projection ← load_cart (sc_cart_id p);
  if negb (cp_version projection =? sc_cart_version p)%Z
  then st_fail (CartVersionConflict (sc_cart_version p) (cp_version projection))
  else
    let projection := bump (cp_set_status StatusCheckoutReady projection) in
    _ ← on_events (append_cart_event (sc_cart_id p) EvCheckoutReady);
    _ ← on_events (put_cart_snapshot projection);
    _ ← transition_cart (sc_cart_id p) MarkCheckoutReady;
    mret projection.

Definition cmd_cancel_cart (p : CancelCartPayload) : M CartProjection :=
  projection ← load_cart (xc_cart_id p);
  let projection := bump (cp_set_status StatusCancelled projection) in
  _ ← on_events (append_cart_event (xc_cart_id p) EvCancelled);
  _ ← on_events (put_cart_snapshot projection);
  _ ← transition_cart (xc_cart_id p) CartCancel;
  mret projection.

Definition dispatch_cart_command (command : CartCommand) (cart_id : option CartId)
  : M CartProjection :=
  let validation := validate_cart_command command in
  if negb (valid validation) then st_fail (ValidationFailed (vr_errors validation))
  else
    match command with
    | CreateCart p => cmd_create_cart p
    | AddItem p => cmd_add_item cart_id p
    | UpdateItemQty p => cmd_update_item_qty cart_id p
    | RemoveItem p => cmd_remove_item cart_id p
    | ApplyAdjustment p => cmd_apply_adjustment cart_id p
    | SetFulfillmentSelection p => cmd_set_fulfillment cart_id p
    | GetCart p => load_cart (gc_cart_id p)
    | StartCheckout p => cmd_start_checkout p
    | CancelCart p => cmd_cancel_cart p
    end.

(** *** Checkout *)

Definition key_of (request : CheckoutRequest) : IdempotencyKey :=
  MkIdempotencyKey (cr_tenant_id request) (cr_merchant_id request)
    (cr_idempotency_key request).

Definition settle_cart_for_checkout (request : CheckoutRequest) : M CartProjection :=
  cart ← load_cart (cr_cart_id request);
  if is_some_and (cp_tenant_id cart) (fun owner => negb (String.eqb owner (cr_tenant_id request)))
  then st_fail CartTenantMismatch
  else if negb (cp_version cart =? cr_cart_version request)%Z
  then st_fail (CartVersionConflict (cr_cart_version request) (cp_version cart))
  else
    cart ← reprice_for_checkout cart;
    geo ← check_geo cart;
    let cart := cp_set_geo_ok geo cart in
    _ ← on_events (put_cart_snapshot cart);
    if negb (cp_geo_ok cart) then st_fail GeoBlocked
    else if negb (pi_amount_minor (cr_payment_intent request) =? cp_total_minor cart)%Z
    then st_fail (AmountMismatch (cp_total_minor cart)
                    (pi_amount_minor (cr_payment_intent request)))
    else mret cart.

Definition reservation_ttl : Z := 300 * 1000000000.

Definition reserve_lines (request : CheckoutRequest) (cart : CartProjection) : M unit :=
  st_iter (fun line =>
      t ← now;
      on w_res set_res (reserve t (cr_cart_id request) (cl_item_id line)
                          (cl_quantity line) reservation_ttl))
    (cp_lines cart).

(** [next_checkout_state(s, e).ok_or(InvalidStateTransition)?]. *)
Definition advance (s : CheckoutState) (e : CheckoutEvent) : M CheckoutState :=
  st_lift (ok_or (next_checkout_state s e) InvalidStateTransition).

(** The common tail of a rejected and of a declined checkout: release the
    reservations, settle the idempotency key, record the payment state. *)
Definition finish_unpaid (request : CheckoutRequest) (res : TransactionResult)
  : M TransactionResult :=
  _ ← on w_res set_res (release_cart (cr_cart_id request));
  _ ← on w_idem set_idem (idem_complete (key_of request) res);
  _ ← pay_state_put (tr_transaction_id res) (tr_payment_state res);
  mret res.

Definition unpaid_result (cart : CartProjection) (txn : string) (status : TransactionStatus)
    (reference : option string) (correlation : Uuid) (audit : option string)
  : TransactionResult :=
  MkTransactionResult txn status (totals_of cart) reference None correlation audit
    PaymentStateFailed None.

Definition reject_checkout (request : CheckoutRequest) (cart : CartProjection)
    (errors : list string) : M TransactionResult :=
  txn ← fresh_id "txn_";
  correlation ← new_uuid;
  finish_unpaid request
    (unpaid_result cart txn TxnRejected None correlation (Some (String.concat ";" errors))).

Definition decline_checkout (request : CheckoutRequest) (cart : CartProjection)
    (reference : string) : M TransactionResult :=
  txn ← fresh_id "txn_";
  correlation ← new_uuid;
  finish_unpaid request
    (unpaid_result cart txn TxnAuthFailed (Some reference) correlation None).

Definition commit_checkout (request : CheckoutRequest) (auth : AuthResult) : M CommitRecord :=
  txn ← fresh_id "txn_";
  on w_commit set_commit (commit txn (cr_cart_id request) (Some (auth_reference auth))).

Definition record_order (request : CheckoutRequest) (cart : CartProjection)
    (committed : CommitRecord) : M string :=
  order_id ← fresh_id "ord_";
  event_id ← fresh_id "evt_";
  occurred_at ← now;
  created_at ← now;
  _ ← on w_orders set_orders (order_put
        (MkOrder order_id (cr_tenant_id request) (cm_transaction_id committed)
           (cr_cart_id request) OrderCreated (cr_currency request)
           ("/orders/" +:+ order_id) (cp_lines cart) (totals_of cart)
           [MkOrderEvent event_id "created" "Order created from committed checkout"
              (utc_ns occurred_at)]
           [] (utc_ns created_at)));
  mret order_id.

(** Everything after the payment was authorized. *)
Definition complete_checkout (request : CheckoutRequest) (cart : CartProjection)
    (st : CheckoutState) (auth : AuthResult) : M TransactionResult :=
  st ← advance st EvPaymentAuthorized;
  committed ← commit_checkout request auth;
  let capture_request := MkPaymentLifecycleRequest (cr_tenant_id request)
        (cr_merchant_id request) (cm_transaction_id committed) (cp_total_minor cart)
        (cr_idempotency_key request) in
  captured ← call (CallCapture capture_request)
    (fun n => capture (providers self) n capture_request) RunnerPayment;
  st ← advance st EvCommitted;
  order_id ← record_order request cart committed;
  st ← advance st EvReceiptGenerated;
  st ← advance st Complete;
  status ← st_lift (ok_or (terminal_status st) InvalidStateTransition);
  correlation ← new_uuid;
  let res := MkTransactionResult (cm_transaction_id committed) status (totals_of cart)
        (cm_payment_reference committed) None correlation None
        (if po_success captured then Captured else PaymentStateFailed) (Some order_id) in
  receipt ← call (CallReceipt cart res)
    (fun n => receipt_generate (providers self) n cart res) RunnerReceipt;
  let res := MkTransactionResult (tr_transaction_id res) (tr_status res)
        (tr_totals_breakdown res) (tr_payment_reference res) (Some receipt)
        (tr_correlation_id res) (tr_audit_trail_id res) (tr_payment_state res)
        (tr_order_id res) in
  _ ← on w_res set_res (finalize_cart (cr_cart_id request));
  msg_id ← fresh_id "msg_";
  _ ← on w_outbox set_outbox (enqueue
        (MkOutboxMessage msg_id "order.created" order_id
           (uuid_display env (tr_correlation_id res)) 0 (Some (cr_tenant_id request))));
  _ ← on w_idem set_idem (idem_complete (key_of request) res);
  _ ← pay_state_put (tr_transaction_id res) (tr_payment_state res);
  mret res.

(** The part of [execute_checkout] that runs once the cart is settled. *)
Definition pay_checkout (request : CheckoutRequest) (cart : CartProjection)
  : M TransactionResult :=
  _ ← reserve_lines request cart;
  st ← advance Received ValidatePassed;
  st ← advance st PriceResolved;
  st ← advance st TaxResolved;
  st ← advance st GeoValidated;
  match check_checkout (policy self) request (cp_total_minor cart) with
  | PolicyRejected errors => reject_checkout request cart errors
  | Allowed =>
      auth ← call (CallAuthorize request)
        (fun n => authorize (providers self) n request) RunnerPayment;
      if negb (authorized auth) then decline_checkout request cart (auth_reference auth)
      else complete_checkout request cart st auth
  end.

Definition execute_checkout (request : CheckoutRequest) : M TransactionResult :=
  let validation := validate_checkout_request request in
  if negb (valid validation) then st_fail (ValidationFailed (vr_errors validation))
  else
    claimed ← on w_idem set_idem (idem_claim (key_of request));
    match claimed with
    | Some InFlight => st_fail AlreadyInFlight
    | Some (IdemCompleted res) => mret res
    | None =>
        st_catch (settle_cart_for_checkout request) (pay_checkout request)
          (fun e => _ ← on w_idem set_idem (idem_release (key_of request)); st_fail e)
    end.

(** *** Outbox and dead letters *)

(** [deliverer.deliver(&msg).await.is_err()]; without a deliverer every attempt fails. *)
Definition delivery_failed (msg : OutboxMessage) : M bool :=
  match outbox_deliverer self with
  | Some deliver => fun w =>
      (Ok (negb (is_ok (deliver (w_tick w) (w_webhooks w) msg))),
       set_tick (S (w_tick w)) (set_trace (w_trace w ++ [CallDeliver msg]) w))
  | None => mret true
  end.

Definition process_outbox_once_reporting (max_attempts : Z) : M OutboxOutcome :=
  claimed ← on w_outbox set_outbox outbox_claim;
  match claimed with
  | None => mret Idle
  | Some msg =>
      failed ← delivery_failed msg;
      if (failed : bool) then
        let msg := om_set_attempts (u32_wrap (om_attempts msg + 1)) msg in
        if (max_attempts <? om_attempts msg)%Z then
          _ ← on w_dead set_dead (dl_put msg);
          _ ← on w_outbox set_outbox (outbox_ack (om_id msg));
          mret DeadLettered
        else
          _ ← on w_outbox set_outbox (outbox_release msg);
          mret (Retrying (om_attempts msg))
      else
        _ ← on w_outbox set_outbox (outbox_ack (om_id msg));
        mret Delivered
  end.

Definition process_outbox_once (max_attempts : Z) : M unit :=
  _ ← process_outbox_once_reporting max_attempts;
  mret tt.

Definition list_dead_letter (w : World B) : list OutboxMessage := dl_list (w_dead w).

Definition replay_from_dead_letter (message_id : string) : M bool :=
  taken ← on w_dead set_dead (dl_take message_id);
  match taken with
  | Some msg => _ ← on w_outbox set_outbox (enqueue (om_set_attempts 0 msg)); mret true
  | None => mret false
  end.

Definition accept_incoming_event_once (message_id : string) : M bool :=
  on w_inbox set_inbox (accept_once message_id).

Definition cart_snapshot (cart_id : CartId) (w : World B) : option CartProjection :=
  get_cart_snapshot cart_id (w_events w).

(** *** Payment lifecycle and reconciliation *)

Definition lifecycle_payment (c : PaymentLifecycleRequest -> ProviderCall)
    (f : nat -> PaymentLifecycleRequest -> result PaymentOperationResult PaymentError)
    (st : PaymentState) (request : PaymentLifecycleRequest) : M PaymentOperationResult :=
  r ← call (c request) (fun n => f n request) RunnerPayment;
  if po_success r
  then _ ← pay_state_put (pl_transaction_id request) st; mret r
  else mret r.

Definition capture_payment := lifecycle_payment CallCapture (capture (providers self)) Captured.
Definition void_payment := lifecycle_payment CallVoid (void (providers self)) Voided.
Definition refund_payment := lifecycle_payment CallRefund (refund (providers self)) Refunded.

(** [self.providers.payment.get_payment_state(txn_id)] cannot fail. *)
Definition ask_payment_state (txn : string) : M (option PaymentState) := fun w =>
  (Ok (provider_payment_state (providers self) (w_tick w) txn),
   set_tick (S (w_tick w)) (set_trace (w_trace w ++ [CallPaymentState txn]) w)).

Fixpoint run_reconciliation (transaction_ids : list string) : M (list PaymentMismatch) :=
  match transaction_ids with
  | [] => mret []
  | txn :: rest =>
      our ← st_gets (fun w => pay_get txn (w_pay w));
      provider ← ask_payment_state txn;
      mismatches ← run_reconciliation rest;
      mret match our, provider with
           | Some our_s, Some prov_s =>
               if bool_decide (our_s = prov_s) then mismatches
               else MkMismatch txn our_s (Some prov_s) :: mismatches
           | _, _ => mismatches
           end
  end.

Definition get_payment_state (txn : string) (w : World B) : option PaymentState :=
  pay_get txn (w_pay w).

(** *** Orders, webhooks, catalog and mandates *)

Definition get_order (order_id : string) (w : World B) : option OrderRecord :=
  order_get order_id (w_orders w).

Definition list_orders (tenant_id : string) : M (list OrderRecord) :=
  fun w => (map_err RunnerStore (order_list_by_tenant tenant_id (w_orders w)), w).

Definition register_webhook (r : WebhookRegistration) : M unit :=
  on w_webhooks set_webhooks (wh_register r).

Definition unregister_webhook (id : string) : M bool :=
  on w_webhooks set_webhooks (wh_unregister id).

Definition list_webhooks (tenant_id : string) : M (list WebhookRegistration) :=
  fun w => (map_err RunnerStore (wh_list_by_tenant tenant_id (w_webhooks w)), w).

Definition lookup_catalog_item (item_id : string) : M CatalogItem :=
  call (CallGetItem item_id) (fun n => get_item (catalog (providers self)) n item_id)
    RunnerCatalog.

Definition lookup_catalog_items (item_ids : list string) : M (list CatalogItem) :=
  call (CallLookupItems item_ids)
    (fun n => lookup_items (catalog (providers self)) n item_ids) RunnerCatalog.

Definition search_catalog_items (query : option string) : M (list CatalogItem) :=
  call (CallSearchItems query)
    (fun n => search_items (catalog (providers self)) n query) RunnerCatalog.

Definition runner_record_mandate (mandate_id : string) (expires_at : Z) : M bool :=
  t ← now;
  on w_mandates set_mandates (record_mandate t mandate_id expires_at).
End runner.

Arguments M {B} A.
