(* ===== verification/MemStores.v ===== *)
(** * In-memory stores ([crates/orchestrator-runtime/src]: [runner.rs],
    [idempotency.rs], [commit.rs], [inventory.rs], [effects.rs], [order.rs],
    [payment_state.rs], [webhooks.rs])

    Each store is a table behind a mutex; an operation holds the lock for its whole
    body, so it is one atomic function on the table.  [HashMap::values] has no
    specified order: the model takes the one of [map_to_list], and no statement
    depends on it.  The stores satisfy the laws of [StoreTraits]. *)

From stdpp Require Import sorting.
From S2P Require Export StoreTraits.

(** [HashMap::values]. *)
Definition values {K V} `{Countable K} (m : gmap K V) : list V := snd <$> map_to_list m.

(** ** Event store *)

Record InMemoryEventStore := MkEventStore {
  cart_events : gmap CartId (list CartStreamEvent);
  cart_snapshots : gmap CartId CartProjection;
  cart_states : gmap CartId CartState
}.

Definition mem_append_cart_event (c : CartId) (e : CartStreamEvent)
  : ST InMemoryEventStore StoreError unit := fun s =>
  (Ok tt, MkEventStore (<[c := unwrap_or (cart_events s !! c) [] ++ [e]]> (cart_events s))
            (cart_snapshots s) (cart_states s)).

Definition mem_put_cart_snapshot (p : CartProjection) : ST InMemoryEventStore StoreError unit :=
  fun s => (Ok tt, MkEventStore (cart_events s) (<[cp_cart_id p := p]> (cart_snapshots s))
                     (cart_states s)).

Definition mem_set_cart_state (c : CartId) (st : CartState)
  : ST InMemoryEventStore StoreError unit := fun s =>
  (Ok tt, MkEventStore (cart_events s) (cart_snapshots s) (<[c := st]> (cart_states s))).

#[export] Instance mem_event_store : EventStore InMemoryEventStore := {
  append_cart_event := mem_append_cart_event;
  put_cart_snapshot := mem_put_cart_snapshot;
  get_cart_snapshot c s := cart_snapshots s !! c;
  get_cart_state c s := cart_states s !! c;
  set_cart_state := mem_set_cart_state
}.

(** ** Idempotency store *)

Record InMemoryIdempotencyStore := MkIdemStore {
  idem_inner : gmap IdempotencyKey IdempotencyState }.

Definition mem_claim (k : IdempotencyKey)
  : ST InMemoryIdempotencyStore StoreError (option IdempotencyState) := fun s =>
  match idem_inner s !! k with
  | Some state => (Ok (Some state), s)
  | None => (Ok None, MkIdemStore (<[k := InFlight]> (idem_inner s)))
  end.

Definition mem_complete (k : IdempotencyKey) (res : TransactionResult)
  : ST InMemoryIdempotencyStore StoreError unit := fun s =>
  (Ok tt, MkIdemStore (<[k := IdemCompleted res]> (idem_inner s))).

Definition mem_release (k : IdempotencyKey) : ST InMemoryIdempotencyStore StoreError unit :=
  fun s => match idem_inner s !! k with
           | Some InFlight => (Ok tt, MkIdemStore (delete k (idem_inner s)))
           | _ => (Ok tt, s)
           end.

#[export] Instance mem_idempotency_store : IdempotencyStore InMemoryIdempotencyStore := {
  idem_claim := mem_claim; idem_complete := mem_complete; idem_release := mem_release }.

(** ** Commit store *)

Record InMemoryCommitStore := MkCommitStore { commit_records : gmap CartId CommitRecord }.

Definition mem_commit (txn : string) (c : CartId) (reference : option string)
  : ST InMemoryCommitStore StoreError CommitRecord := fun s =>
  let record := MkCommitRecord txn c reference in
  (Ok record, MkCommitStore (<[c := record]> (commit_records s))).

#[export] Instance mem_commit_store : CommitStore InMemoryCommitStore := {
  commit := mem_commit }.

(** ** Reservation store *)

Record InMemoryReservationStore := MkReservationStore {
  res_inner : gmap (CartId * string) ReservationRecord }.

Definition mem_reserve (t : Clock) (c : CartId) (sku : string) (quantity ttl : Z)
  : ST InMemoryReservationStore StoreError unit := fun s =>
  let ttl := (ttl / 1000000000 * 1000000000)%Z in
  (Ok tt, MkReservationStore
            (<[(c, sku) := MkReservation c sku quantity Reserved (instant_ns t + ttl)]>
               (res_inner s))).

(** [for record in values_mut().filter(|r| r.cart_id == cart_id) { record.state = st }]. *)
Definition mark_cart (c : CartId) (st : ReservationState) (r : ReservationRecord)
  : ReservationRecord :=
  if bool_decide (rr_cart_id r = c) then rr_set_state st r else r.

Definition mem_finalize_cart (c : CartId) : ST InMemoryReservationStore StoreError unit :=
  fun s => (Ok tt, MkReservationStore (mark_cart c Finalized <$> res_inner s)).

Definition mem_release_cart (c : CartId) : ST InMemoryReservationStore StoreError unit :=
  fun s => (Ok tt, MkReservationStore (mark_cart c Released <$> res_inner s)).

Definition lease_expired (t : Clock) (r : ReservationRecord) : bool :=
  bool_decide (rr_state r = Reserved) && (rr_lease_until r <=? instant_ns t)%Z.

Definition mem_sweep_expired (t : Clock) : ST InMemoryReservationStore StoreError nat := fun s =>
  (Ok (length (List.filter (lease_expired t) (values (res_inner s)))),
   MkReservationStore
     ((fun r => if lease_expired t r then rr_set_state Expired r else r) <$> res_inner s)).

Definition mem_by_cart (c : CartId) (s : InMemoryReservationStore) : list ReservationRecord :=
  List.filter (fun r => bool_decide (rr_cart_id r = c)) (values (res_inner s)).

#[export] Instance mem_reservation_store : ReservationStore InMemoryReservationStore := {
  reserve := mem_reserve;
  finalize_cart := mem_finalize_cart;
  release_cart := mem_release_cart;
  sweep_expired := mem_sweep_expired;
  by_cart _ := mem_by_cart
}.

(** ** Outbox, inbox and dead letters *)

Record Outbox := MkOutbox { ob_inner : list OutboxMessage }.

Definition mem_enqueue (m : OutboxMessage) : ST Outbox StoreError unit := fun s =>
  (Ok tt, MkOutbox (ob_inner s ++ [m])).

Definition mem_dequeue : ST Outbox StoreError (option OutboxMessage) := fun s =>
  match ob_inner s with
  | [] => (Ok None, s)
  | m :: q => (Ok (Some m), MkOutbox q)
  end.

(** [claim], [ack] and [release] are the trait's default bodies. *)
#[export] Instance mem_outbox_store : OutboxStore Outbox := {
  enqueue := mem_enqueue;
  dequeue := mem_dequeue;
  outbox_len s := length (ob_inner s);
  outbox_claim := mem_dequeue;
  outbox_ack := default_ack;
  outbox_release := mem_enqueue
}.

Record InboxDedupe := MkInbox { ib_seen : gset string }.

Definition mem_accept_once (message_id : string) : ST InboxDedupe StoreError bool := fun s =>
  (Ok (bool_decide (message_id ∉ ib_seen s)), MkInbox ({[message_id]} ∪ ib_seen s)).

#[export] Instance mem_inbox_store : InboxStore InboxDedupe := {
  accept_once := mem_accept_once }.

Record DeadLetter := MkDeadLetter { dl_records : gmap string OutboxMessage }.

Definition mem_dl_put (m : OutboxMessage) : ST DeadLetter StoreError unit := fun s =>
  (Ok tt, MkDeadLetter (<[om_id m := m]> (dl_records s))).

Definition mem_dl_take (id : string) : ST DeadLetter StoreError (option OutboxMessage) := fun s =>
  (Ok (dl_records s !! id), MkDeadLetter (delete id (dl_records s))).

#[export] Instance mem_dead_letter_store : DeadLetterStore DeadLetter := {
  dl_put := mem_dl_put;
  dl_len s := size (dl_records s);
  dl_list s := values (dl_records s);
  dl_take := mem_dl_take
}.

(** ** Orders *)

Record InMemoryOrderStore := MkOrderStore { order_records : gmap string OrderRecord }.

Definition mem_order_put (o : OrderRecord) : ST InMemoryOrderStore StoreError unit := fun s =>
  (Ok tt, MkOrderStore (<[or_order_id o := o]> (order_records s))).

(** [orders.sort_by_key(|order| Reverse(order.created_at))]: most recent first. *)
Definition newer (a b : OrderRecord) : Prop := (or_created_at b <= or_created_at a)%Z.

#[export] Instance newer_dec a b : Decision (newer a b) := Z.le_dec _ _.

Definition orders_of (tenant_id : string) (records : gmap string OrderRecord)
  : list OrderRecord :=
  merge_sort newer
    (List.filter (fun r => String.eqb (or_tenant_id r) tenant_id) (values records)).

Definition mem_list_by_tenant (tenant_id : string) (s : InMemoryOrderStore) : list OrderRecord :=
  orders_of tenant_id (order_records s).

Definition mem_order_update (f : OrderRecord -> OrderRecord) (order_id : string)
  : ST InMemoryOrderStore StoreError (option OrderRecord) := fun s =>
  match order_records s !! order_id with
  | Some r => (Ok (Some (f r)), MkOrderStore (<[order_id := f r]> (order_records s)))
  | None => (Ok None, s)
  end.

(** [record.events.push(event)], [record.adjustments.push(adjustment)] and
    [record.status = status]. *)
Definition push_event (e : OrderEvent) (r : OrderRecord) : OrderRecord :=
  MkOrder (or_order_id r) (or_tenant_id r) (or_transaction_id r) (or_checkout_id r)
    (or_status r) (or_currency r) (or_permalink_url r) (or_line_items r) (or_totals r)
    (or_events r ++ [e]) (or_adjustments r) (or_created_at r).

Definition push_adjustment (a : OrderAdjustment) (r : OrderRecord) : OrderRecord :=
  MkOrder (or_order_id r) (or_tenant_id r) (or_transaction_id r) (or_checkout_id r)
    (or_status r) (or_currency r) (or_permalink_url r) (or_line_items r) (or_totals r)
    (or_events r) (or_adjustments r ++ [a]) (or_created_at r).

Definition with_status (st : OrderStatus) (r : OrderRecord) : OrderRecord :=
  MkOrder (or_order_id r) (or_tenant_id r) (or_transaction_id r) (or_checkout_id r)
    st (or_currency r) (or_permalink_url r) (or_line_items r) (or_totals r)
    (or_events r) (or_adjustments r) (or_created_at r).

Definition mem_append_event (order_id : string) (e : OrderEvent) :=
  mem_order_update (push_event e) order_id.

Definition mem_add_adjustment (order_id : string) (a : OrderAdjustment) :=
  mem_order_update (push_adjustment a) order_id.

Definition mem_update_status (order_id : string) (st : OrderStatus) :=
  mem_order_update (with_status st) order_id.

#[export] Instance mem_order_store : OrderStore InMemoryOrderStore := {
  order_put := mem_order_put;
  order_get id s := order_records s !! id;
  order_list_by_tenant t s := Ok (mem_list_by_tenant t s);
  append_event := mem_append_event;
  add_adjustment := mem_add_adjustment;
  update_status := mem_update_status
}.

(** ** Payment states, mandates and webhooks *)

Record InMemoryPaymentStateStore := MkPayStore { pay_inner : gmap string PaymentState }.

#[export] Instance mem_payment_state_store : PaymentStateStore InMemoryPaymentStateStore := {
  pay_put txn st s := MkPayStore (<[txn := st]> (pay_inner s));
  pay_get txn s := pay_inner s !! txn
}.

Record InMemoryMandateDedupeStore := MkMandateStore { md_seen : gmap string Z }.

(** [guard.retain(|_, expiry| *expiry > now)]. *)
Definition live_mandates (t : Clock) (m : gmap string Z) : gmap string Z :=
  filter (fun kv : string * Z => (timestamp t < kv.2)%Z) m.

Definition mem_record_mandate (t : Clock) (mandate_id : string) (expires_at : Z)
  : ST InMemoryMandateDedupeStore StoreError bool := fun s =>
  let live := live_mandates t (md_seen s) in
  match live !! mandate_id with
  | Some _ => (Ok false, MkMandateStore live)
  | None => (Ok true, MkMandateStore (<[mandate_id := expires_at]> live))
  end.

#[export] Instance mem_mandate_store : MandateDedupeStore InMemoryMandateDedupeStore := {
  record_mandate := mem_record_mandate }.

Record InMemoryWebhookStore := MkWebhookStore { wh_records : gmap string WebhookRegistration }.

Definition subscribes (tenant_id topic : string) (r : WebhookRegistration) : bool :=
  wh_active r && String.eqb (wh_tenant_id r) tenant_id
  && is_none_or (wh_event_filter r) (fun f => str_contains f topic).

Definition mem_register (r : WebhookRegistration) : ST InMemoryWebhookStore StoreError unit :=
  fun s => (Ok tt, MkWebhookStore (<[wh_id r := r]> (wh_records s))).

Definition mem_unregister (id : string) : ST InMemoryWebhookStore StoreError bool := fun s =>
  (Ok (is_some (wh_records s !! id)), MkWebhookStore (delete id (wh_records s))).

#[export] Instance mem_webhook_store : WebhookStore InMemoryWebhookStore := {
  wh_register := mem_register;
  wh_unregister := mem_unregister;
  wh_list_by_tenant t s :=
    Ok (List.filter (fun r => String.eqb (wh_tenant_id r) t) (values (wh_records s)));
  wh_get id s := Ok (wh_records s !! id);
  list_active_for_topic t topic s :=
    Ok (List.filter (subscribes t topic) (values (wh_records s)))
}.

#[export] Instance memory_backend : Backend := {
  EventS := InMemoryEventStore; IdemS := InMemoryIdempotencyStore;
  CommitS := InMemoryCommitStore; ReserveS := InMemoryReservationStore;
  OutboxS := Outbox; InboxS := InboxDedupe; DeadS := DeadLetter;
  OrderS := InMemoryOrderStore; PayS := InMemoryPaymentStateStore;
  MandateS := InMemoryMandateDedupeStore; WebhookS := InMemoryWebhookStore
}.

(** ** The laws *)

#[export] Instance mem_event_laws : EventStoreLaws InMemoryEventStore.
Proof.
  refine {| es_events c s := unwrap_or (cart_events s !! c) [] |}.
  all: intros; cbn; rewrite ?lookup_insert; repeat case_decide; simplify_eq; done.
Defined.

#[export] Instance mem_idem_laws :
  IdempotencyStoreLaws InMemoryIdempotencyStore (fun _ => True).
Proof.
  refine {| idem_lookup k s := idem_inner s !! k |}.
  - intros k s st _ H. cbn. unfold mem_claim. by rewrite H.
  - intros k s r s' _ H. cbn. unfold mem_claim. rewrite H. intros [= <- <-].
    split; [by left|]. intros k' _. cbn. rewrite lookup_insert.
    repeat case_decide; simplify_eq; done.
  - intros; cbn. rewrite lookup_insert. repeat case_decide; simplify_eq; done.
  - intros k k' s _ _. cbn. unfold mem_release. destruct (decide (k' = k)) as [->|Hne].
    + by destruct (idem_inner s !! k) as [[]|] eqn:Hk; cbn; rewrite ?lookup_delete_eq, ?Hk.
    + destruct (idem_inner s !! k) as [[]|]; cbn; rewrite ?lookup_delete_ne by done;
        by destruct (idem_inner s !! k') as [[]|].
Defined.

Lemma mark_cart_state c st c' (r : ReservationRecord) :
  rr_cart_id r = c' ->
  rr_cart_id (mark_cart c st r) = c'
  /\ rr_quantity (mark_cart c st r) = rr_quantity r
  /\ rr_state (mark_cart c st r) = if decide (c' = c) then st else rr_state r.
Proof. intros <-. unfold mark_cart. case_bool_decide; case_decide; done. Qed.

(** The state of a reservation filed under its own cart. *)
Definition mem_rs_state (c : CartId) (sku : string) (s : InMemoryReservationStore)
  : option (Z * ReservationState) :=
  match res_inner s !! (c, sku) with
  | Some r => if decide (rr_cart_id r = c) then Some (rr_quantity r, rr_state r) else None
  | None => None
  end.

Lemma mem_rs_mark c st s c' sku :
  mem_rs_state c' sku (MkReservationStore (mark_cart c st <$> res_inner s))
  = if decide (c' = c) then prod_map id (fun _ => st) <$> mem_rs_state c' sku s
    else mem_rs_state c' sku s.
Proof.
  unfold mem_rs_state. cbn. rewrite lookup_fmap.
  destruct (res_inner s !! (c', sku)) as [r|]; cbn; [|by case_decide].
  destruct (decide (rr_cart_id r = c')) as [Hr|Hr].
  - destruct (mark_cart_state c st c' r Hr) as (-> & -> & ->).
    rewrite decide_True by done. by case_decide.
  - rewrite decide_False; [by case_decide|].
    unfold mark_cart. by case_bool_decide.
Qed.

#[export] Instance mem_reservation_laws : ReservationStoreLaws InMemoryReservationStore.
Proof.
  refine {| rs_state := mem_rs_state |}.
  - intros. unfold mem_rs_state. cbn. rewrite lookup_insert.
    repeat case_decide; simplify_eq/=; naive_solver.
  - intros. apply mem_rs_mark.
  - intros. apply mem_rs_mark.
Defined.

#[export] Instance mem_outbox_laws : OutboxStoreLaws Outbox.
Proof.
  refine {| ob_queue := ob_inner |}.
  - done.
  - done.
  - intros s H. cbn. unfold mem_dequeue. by rewrite H.
  - intros m q s H. cbn. unfold mem_dequeue. rewrite H. cbn. auto.
  - done.
  - done.
Defined.

#[export] Instance mem_dead_letter_laws : DeadLetterStoreLaws DeadLetter.
Proof.
  refine {| dl_lookup id s := dl_records s !! id |}.
  - intros; cbn. rewrite lookup_insert. repeat case_decide; by simplify_eq.
  - intros; cbn. rewrite lookup_delete. repeat case_decide; by simplify_eq.
  - intros; cbn. by left.
Defined.

#[export] Instance mem_order_laws : OrderStoreLaws InMemoryOrderStore.
Proof.
  constructor. intros; cbn. rewrite lookup_insert. repeat case_decide; by simplify_eq.
Defined.

#[export] Instance mem_payment_state_laws : PaymentStateStoreLaws InMemoryPaymentStateStore.
Proof.
  constructor. intros; cbn. rewrite lookup_insert. repeat case_decide; by simplify_eq.
Defined.

(** A live mandate stays on record when the dead are dropped and a new one is added. *)
Lemma live_kept t m i j e x :
  m !! j = Some x -> (timestamp t < x)%Z ->
  live_mandates t m !! j = Some x
  /\ (live_mandates t m !! i = None -> <[i := e]> (live_mandates t m) !! j = Some x).
Proof.
  intros Hx Hlt. assert (live_mandates t m !! j = Some x) as Hl by by apply map_lookup_filter_Some_2.
  split; [done|]. intros Hi. rewrite lookup_insert_ne; [done|]. congruence.
Qed.

#[export] Instance mem_mandate_laws : MandateDedupeStoreLaws InMemoryMandateDedupeStore.
Proof.
  refine {| md_lookup id s := md_seen s !! id |}.
  - intros t i e s x Hx Hlt. cbn. unfold mem_record_mandate, live_mandates.
    by rewrite (map_lookup_filter_Some_2 _ _ i x).
  - intros t i e s r s' Hdead. cbn. unfold mem_record_mandate, live_mandates.
    rewrite map_lookup_filter_None_2; [|right; intros x Hx; specialize (Hdead x Hx); cbn; lia].
    intros [= <- <-]. cbn. rewrite lookup_insert_eq. auto.
  - intros t i e j s x Hx Hlt. cbn. unfold mem_record_mandate.
    pose proof (live_kept t (md_seen s) i j e x Hx Hlt) as [Hl Hi].
    destruct (live_mandates t (md_seen s) !! i) eqn:E; cbn; [done|by apply Hi].
Defined.

Lemma subscribes_spec t topic r :
  subscribes t topic r = true <->
  wh_active r = true /\ wh_tenant_id r = t
  /\ is_none_or (wh_event_filter r) (fun f => str_contains f topic) = true.
Proof. unfold subscribes. rewrite !andb_true_iff, String.eqb_eq. tauto. Qed.

#[export] Instance mem_webhook_laws : WebhookStoreLaws InMemoryWebhookStore.
Proof.
  constructor. intros t topic s rs r. cbn. intros [= <-].
  rewrite list_elem_of_In, filter_In. intros [_ H]. by apply subscribes_spec.
Defined.

#[export] Instance memory_laws : BackendLaws memory_backend := { key_ok _ := True }.
