(* ===== verification/FileStores.v ===== *)
(** * The file-backed stores ([crates/orchestrator-runtime/src/persistence/file_backed.rs])

    Each store is a table behind a lock and a JSON file: an operation changes the table
    and then rewrites the whole file.  Writing may fail, before the file is touched or
    after it was truncated; the JSON text of a table is an argument.  One operation at a
    time is modelled: the file is rewritten after the lock was dropped, and two writes that
    overlap are not.  The stores satisfy the laws of [StoreTraits] for keys without a
    separator in their tenant and merchant. *)

From stdpp Require Import sorting.
From S2P Require Export MemStores.

(** ** A table and its file *)

(** [Serialize] and [Deserialize] of the type of a table, as [serde_json] derives them. *)
Class Json (T : Type) := { to_json : T -> result string string; from_json : string -> option T }.

(** How [save_json] fails: with the file as it was, or with [n] bytes of the new text in a
    file that was truncated first. *)
Inductive SaveFault :=
| NotWritten (msg : string)
| Torn (n : nat) (msg : string).

(** [fs_io] numbers the writes of this file; [fault] says which of them fail. *)
Record FileStore (T : Type) := MkFile { fs_table : T; fs_disk : option string; fs_io : nat }.
Arguments MkFile {T} _ _ _.
Arguments fs_table {T} _.
Arguments fs_disk {T} _.
Arguments fs_io {T} _.

Section file.
Context (fault : nat -> option SaveFault).
Context {T : Type} `{Json T}.

Definition set_table (t : T) (s : FileStore T) : FileStore T := MkFile t (fs_disk s) (fs_io s).

(** [save_json] of the table. *)
Definition save : ST (FileStore T) StoreError unit := fun s =>
  match to_json (fs_table s) with
  | Err e => (Err (MkStoreError e), MkFile (fs_table s) (fs_disk s) (S (fs_io s)))
  | Ok data =>
      match fault (fs_io s) with
      | None => (Ok tt, MkFile (fs_table s) (Some data) (S (fs_io s)))
      | Some (NotWritten e) =>
          (Err (MkStoreError e), MkFile (fs_table s) (fs_disk s) (S (fs_io s)))
      | Some (Torn n e) =>
          (Err (MkStoreError e),
           MkFile (fs_table s) (Some (String.substring 0 n data)) (S (fs_io s)))
      end
  end.

(** Change the table, save, answer. *)
Definition persist {A} (f : T -> T) (a : A) : ST (FileStore T) StoreError A := fun s =>
  (save ≫= fun _ => mret a) (set_table (f (fs_table s)) s).

(** [load_json(&path).await.unwrap_or_default()]: no file, an unreadable one and one that
    does not parse all give the default table.  The writes keep their numbers. *)
Definition open_file (default : T) (s : FileStore T) : FileStore T :=
  MkFile (match fs_disk s with Some d => unwrap_or (from_json d) default | None => default end)
    (fs_disk s) (fs_io s).

Lemma persist_table {A} f (a : A) s : fs_table (snd (persist f a s)) = f (fs_table s).
Proof.
  unfold persist, mbind, ST_bind, save. destruct s as [t d n]. cbn.
  destruct (to_json (f t)); [|done]. by destruct (fault n) as [[]|].
Qed.

Lemma persist_result {A} f (a : A) s :
  fst (persist f a s) = Ok a \/ exists e, fst (persist f a s) = Err e.
Proof.
  unfold persist, mbind, ST_bind. destruct (save _) as [[[]|e] u]; [by left|]. right. by eexists.
Qed.

(** A write that was acknowledged is what the file holds. *)
Lemma persist_saved {A} f (a b : A) s :
  fst (persist f a s) = Ok b ->
  exists data, to_json (f (fs_table s)) = Ok data /\ fs_disk (snd (persist f a s)) = Some data.
Proof.
  unfold persist, mbind, ST_bind, save. destruct s as [t d n]. cbn.
  destruct (to_json (f t)) as [data|e]; [|done]. destruct (fault n) as [[]|]; [done..|].
  intros _. by exists data.
Qed.

(** A write that was torn leaves the text it had come to. *)
Lemma persist_torn {A} f (a : A) s data n e :
  to_json (f (fs_table s)) = Ok data -> fault (fs_io s) = Some (Torn n e) ->
  persist f a s
  = (Err (MkStoreError e), MkFile (f (fs_table s)) (Some (String.substring 0 n data)) (S (fs_io s))).
Proof.
  intros Hj Hf. unfold persist, mbind, ST_bind, save. destruct s as [t d m]. cbn in *.
  by rewrite Hj, Hf.
Qed.
(** Opening the file after an acknowledged write, when the text parses back. *)
Lemma open_persisted {A} f (a b : A) default s :
  fst (persist f a s) = Ok b ->
  (forall data, to_json (f (fs_table s)) = Ok data -> from_json data = Some (f (fs_table s))) ->
  fs_table (open_file default (snd (persist f a s))) = f (fs_table s).
Proof.
  intros (data & Hdata & Hdisk)%persist_saved Hjson. unfold open_file. cbn.
  by rewrite Hdisk, (Hjson _ Hdata).
Qed.
End file.

(** ** The stores *)

(** Separator of the composite keys. *)
Definition bar : string := "|".

(** [ReservationDto]: what the file keeps of a reservation. *)
Record ReservationDto := MkReservationDto {
  rd_cart_id : CartId;
  rd_sku : string;
  rd_quantity : Z;
  rd_state : ReservationState;
  rd_lease_until_secs : Z
}.

#[export] Instance ReservationDto_eq_dec : EqDecision ReservationDto.
Proof. solve_decision. Defined.

Definition IdemTable : Type := gmap string IdempotencyState.
Definition ReservationTable : Type := gmap string ReservationDto.
Definition OrderTable : Type := gmap string OrderRecord.

(** The texts of the thirteen tables. *)
Class FileFormat := {
  json_events :: Json (gmap string (list CartStreamEvent));
  json_snapshots :: Json (gmap string CartProjection);
  json_states :: Json (gmap string CartState);
  json_idem :: Json IdemTable;
  json_commits :: Json (gmap string CommitRecord);
  json_reservations :: Json ReservationTable;
  json_outbox :: Json (list OutboxMessage);
  json_inbox :: Json (gset string);
  json_dead_letter :: Json (gmap string OutboxMessage);
  json_orders :: Json OrderTable;
  json_payment_state :: Json (gmap string PaymentState);
  json_mandates :: Json (gmap string Z);
  json_webhooks :: Json (gmap string WebhookRegistration)
}.

Section stores.
Context {format : FileFormat} (fault : string -> nat -> option SaveFault) (uuid_display : Uuid -> string).


Definition cart_id_key (c : CartId) : string := uuid_display (cart_uuid c).

Definition idempotency_key_str (k : IdempotencyKey) : string :=
  ik_tenant_id k +:+ (bar +:+ (ik_merchant_id k +:+ (bar +:+ ik_key k))).

(** *** Events *)

Record FileBackedEventStore := MkFileEvents {
  fe_events : FileStore (gmap string (list CartStreamEvent));
  fe_snapshots : FileStore (gmap string CartProjection);
  fe_states : FileStore (gmap string CartState)
}.

(** Runs an operation of one of the three files. *)
Definition on_file {T A} (get : FileBackedEventStore -> FileStore T)
    (set : FileStore T -> FileBackedEventStore -> FileBackedEventStore)
    (op : ST (FileStore T) StoreError A) : ST FileBackedEventStore StoreError A := fun s =>
  let '(r, f) := op (get s) in (r, set f s).

Definition set_fe_events f s := MkFileEvents f (fe_snapshots s) (fe_states s).
Definition set_fe_snapshots f s := MkFileEvents (fe_events s) f (fe_states s).
Definition set_fe_states f s := MkFileEvents (fe_events s) (fe_snapshots s) f.

Definition file_event_store : EventStore FileBackedEventStore := {|
  append_cart_event c e := on_file fe_events set_fe_events
    (persist (fault "events/cart_events.json")
       (fun m => <[cart_id_key c := unwrap_or (m !! cart_id_key c) [] ++ [e]]> m) tt);
  put_cart_snapshot p := on_file fe_snapshots set_fe_snapshots
    (persist (fault "events/cart_snapshots.json") (<[cart_id_key (cp_cart_id p) := p]>) tt);
  get_cart_snapshot c s := fs_table (fe_snapshots s) !! cart_id_key c;
  get_cart_state c s := fs_table (fe_states s) !! cart_id_key c;
  set_cart_state c st := on_file fe_states set_fe_states
    (persist (fault "events/cart_states.json") (<[cart_id_key c := st]>) tt)
|}.

(** *** Idempotency and commits *)

Definition file_claim (k : IdempotencyKey)
  : ST (FileStore IdemTable) StoreError (option IdempotencyState) := fun s =>
  match fs_table s !! idempotency_key_str k with
  | Some state => (Ok (Some state), s)
  | None => persist (fault "idempotency.json") (<[idempotency_key_str k := InFlight]>) None s
  end.

Definition file_complete (k : IdempotencyKey) (res : TransactionResult)
  : ST (FileStore IdemTable) StoreError unit :=
  persist (fault "idempotency.json") (<[idempotency_key_str k := IdemCompleted res]>) tt.

Definition file_release (k : IdempotencyKey) : ST (FileStore IdemTable) StoreError unit :=
  fun s => match fs_table s !! idempotency_key_str k with
           | Some InFlight =>
               persist (fault "idempotency.json") (delete (idempotency_key_str k)) tt s
           | _ => (Ok tt, s)
           end.

Definition file_idempotency_store : IdempotencyStore (FileStore IdemTable) := {|
  idem_claim := file_claim; idem_complete := file_complete; idem_release := file_release |}.

Definition file_commit_store : CommitStore (FileStore (gmap string CommitRecord)) := {|
  commit txn c reference :=
    let record := MkCommitRecord txn c reference in
    persist (fault "commits.json") (<[cart_id_key c := record]>) record
|}.

(** *** Reservations *)

Definition rd_set_state (st : ReservationState) (d : ReservationDto) : ReservationDto :=
  MkReservationDto (rd_cart_id d) (rd_sku d) (rd_quantity d) st (rd_lease_until_secs d).

(** [ReservationDto::to_record]: the lease is rebuilt from the seconds that remain. *)
Definition to_record (t : Clock) (d : ReservationDto) : ReservationRecord :=
  let remaining := Z.max (rd_lease_until_secs d -! timestamp t)%Z 0 in
  MkReservation (rd_cart_id d) (rd_sku d) (rd_quantity d) (rd_state d)
    (instant_ns t + remaining * 1000000000).

Definition reservation_prefix (c : CartId) : string := cart_id_key c +:+ bar.
Definition reservation_key (c : CartId) (sku : string) : string :=
  cart_id_key c +:+ (bar +:+ sku).

Definition file_reserve (t : Clock) (c : CartId) (sku : string) (quantity ttl : Z)
  : ST (FileStore ReservationTable) StoreError unit :=
  persist (fault "reservations.json") (<[reservation_key c sku :=
    MkReservationDto c sku quantity Reserved (timestamp t +! ttl / 1000000000)%Z]>) tt.

(** [for (k, v) in guard.iter_mut() { if k.starts_with(&prefix) { v.state = st; } }]. *)
Definition mark_prefix (c : CartId) (st : ReservationState) (m : ReservationTable)
  : ReservationTable :=
  map_imap (fun k d => Some (if starts_with (reservation_prefix c) k
                             then rd_set_state st d else d)) m.

Definition dto_expired (t : Clock) (d : ReservationDto) : bool :=
  bool_decide (rd_state d = Reserved) && (rd_lease_until_secs d <=? timestamp t)%Z.

Definition file_sweep_expired (t : Clock) : ST (FileStore ReservationTable) StoreError nat :=
  fun s => persist (fault "reservations.json")
             (fmap (fun d => if dto_expired t d then rd_set_state Expired d else d))
             (length (List.filter (dto_expired t) (values (fs_table s)))) s.

Definition file_reservation_store : ReservationStore (FileStore ReservationTable) := {|
  reserve := file_reserve;
  finalize_cart c := persist (fault "reservations.json") (mark_prefix c Finalized) tt;
  release_cart c := persist (fault "reservations.json") (mark_prefix c Released) tt;
  sweep_expired := file_sweep_expired;
  by_cart t c s :=
    map (fun kd => to_record t (snd kd))
      (List.filter (fun kd : string * ReservationDto => starts_with (reservation_prefix c) (fst kd))
         (map_to_list (fs_table s)))
|}.

(** *** Outbox, inbox and dead letters *)

Definition file_enqueue (m : OutboxMessage) : ST (FileStore (list OutboxMessage)) StoreError unit :=
  persist (fault "outbox.json") (fun q => q ++ [m]) tt.

Definition file_dequeue
  : ST (FileStore (list OutboxMessage)) StoreError (option OutboxMessage) := fun s =>
  match fs_table s with
  | [] => (Ok None, s)
  | m :: q => persist (fault "outbox.json") (fun _ => q) (Some m) s
  end.

(** [claim], [ack] and [release] are the trait's default bodies. *)
Definition file_outbox_store : OutboxStore (FileStore (list OutboxMessage)) := {|
  enqueue := file_enqueue;
  dequeue := file_dequeue;
  outbox_len s := length (fs_table s);
  outbox_claim := file_dequeue;
  outbox_ack := default_ack;
  outbox_release := file_enqueue
|}.

Definition file_inbox_store : InboxStore (FileStore (gset string)) := {|
  accept_once id := fun s =>
    if bool_decide (id ∈ fs_table s) then (Ok false, s)
    else persist (fault "inbox.json") (fun seen => {[id]} ∪ seen) true s
|}.

Definition file_dead_letter_store : DeadLetterStore (FileStore (gmap string OutboxMessage)) := {|
  dl_put m := persist (fault "dead_letter.json") (<[om_id m := m]>) tt;
  dl_len s := size (fs_table s);
  dl_list s := values (fs_table s);
  dl_take id := fun s =>
    match fs_table s !! id with
    | Some m => persist (fault "dead_letter.json") (delete id) (Some m) s
    | None => (Ok None, s)
    end
|}.

(** *** Orders, payment states, mandates and webhooks *)

Definition file_order_update (f : OrderRecord -> OrderRecord) (order_id : string)
  : ST (FileStore OrderTable) StoreError (option OrderRecord) := fun s =>
  match fs_table s !! order_id with
  | Some r => persist (fault "orders.json") (<[order_id := f r]>) (Some (f r)) s
  | None => (Ok None, s)
  end.

Definition file_order_store : OrderStore (FileStore OrderTable) := {|
  order_put o := persist (fault "orders.json") (<[or_order_id o := o]>) tt;
  order_get id s := fs_table s !! id;
  order_list_by_tenant t s := Ok (orders_of t (fs_table s));
  append_event id e := file_order_update (push_event e) id;
  add_adjustment id a := file_order_update (push_adjustment a) id;
  update_status id st := file_order_update (with_status st) id
|}.

(** A failed save of a payment state is printed and dropped. *)
Definition file_payment_state_store : PaymentStateStore (FileStore (gmap string PaymentState)) := {|
  pay_put txn st s := snd (persist (fault "payment_state.json") (<[txn := st]>) tt s);
  pay_get txn s := fs_table s !! txn
|}.

Definition file_record_mandate (t : Clock) (mandate_id : string) (expires_at : Z)
  : ST (FileStore (gmap string Z)) StoreError bool := fun s =>
  let live := live_mandates t (fs_table s) in
  match live !! mandate_id with
  | Some _ => (Ok false, set_table live s)
  | None => persist (fault "mandates.json") (fun _ => <[mandate_id := expires_at]> live) true s
  end.

Definition file_mandate_store : MandateDedupeStore (FileStore (gmap string Z)) := {|
  record_mandate := file_record_mandate |}.

Definition file_webhook_store : WebhookStore (FileStore (gmap string WebhookRegistration)) := {|
  wh_register r := persist (fault "webhooks.json") (<[wh_id r := r]>) tt;
  wh_unregister id := fun s =>
    match fs_table s !! id with
    | Some _ => persist (fault "webhooks.json") (delete id) true s
    | None => (Ok false, s)
    end;
  wh_list_by_tenant t s :=
    Ok (List.filter (fun r => String.eqb (wh_tenant_id r) t) (values (fs_table s)));
  wh_get id s := Ok (fs_table s !! id);
  list_active_for_topic t topic s := Ok (List.filter (subscribes t topic) (values (fs_table s)))
|}.

(** *** [PersistentStores] *)

Definition file_backend : Backend := {|
  EventS_ops := file_event_store; IdemS_ops := file_idempotency_store;
  CommitS_ops := file_commit_store; ReserveS_ops := file_reservation_store;
  OutboxS_ops := file_outbox_store; InboxS_ops := file_inbox_store;
  DeadS_ops := file_dead_letter_store; OrderS_ops := file_order_store;
  PayS_ops := file_payment_state_store; MandateS_ops := file_mandate_store;
  WebhookS_ops := file_webhook_store
|}.
End stores.

(** ** Keys

    A key is made of parts separated by a bar. *)

Definition bar_ascii : Ascii.ascii := Ascii.Ascii false false true true true true true false.

Fixpoint no_bar (s : string) : bool :=
  match s with
  | EmptyString => true
  | String a s => negb (Ascii.eqb a bar_ascii) && no_bar s
  end.

Lemma bar_app_inj a b x y :
  no_bar a = true -> no_bar b = true -> a +:+ (bar +:+ x) = b +:+ (bar +:+ y) -> a = b /\ x = y.
Proof.
  revert b. induction a as [|c a IH]; intros [|d b]; cbn;
    rewrite ?andb_true_iff, ?negb_true_iff, ?str_app_nil_l, ?str_app_cons; intros Ha Hb.
  - by intros [=].
  - intros [=]. subst. by destruct Hb.
  - intros [=]. subst. by destruct Ha.
  - intros [= -> [-> ->]%IH]; by destruct Ha, Hb.
Qed.

(** The keys the file keeps apart. *)
Definition key_without_bar (k : IdempotencyKey) : Prop :=
  no_bar (ik_tenant_id k) = true /\ no_bar (ik_merchant_id k) = true.

Lemma idempotency_key_str_inj k k' :
  key_without_bar k -> key_without_bar k' ->
  idempotency_key_str k = idempotency_key_str k' -> k = k'.
Proof.
  destruct k as [t m k], k' as [t' m' k']. intros [Ht Hm] [Ht' Hm'].
  unfold idempotency_key_str. cbn in *.
  intros [-> H]%bar_app_inj; [|done..]. by apply bar_app_inj in H as [-> ->].
Qed.

Section laws.
Context {format : FileFormat} (fault : string -> nat -> option SaveFault) (uuid_display : Uuid -> string).

(** What the code relies on: [Uuid]'s text names it and is hexadecimal. *)
Context (uuid_inj : Inj eq eq uuid_display).
Context (uuid_no_bar : forall u, no_bar (uuid_display u) = true).

(** Keys on which the composite string is injective. *)
Context (ok : IdempotencyKey -> Prop).
Context (ok_inj : forall k k', ok k -> ok k' ->
  idempotency_key_str k = idempotency_key_str k' -> k = k').

#[local] Instance cart_id_key_inj : Inj eq eq (cart_id_key uuid_display).
Proof. intros [u] [u'] H. f_equal. by apply uuid_inj. Qed.

Lemma insert_cart_key {V} (c c' : CartId) (v : V) (m : gmap string V) :
  (<[cart_id_key uuid_display c := v]> m) !! cart_id_key uuid_display c'
  = if decide (c' = c) then Some v else m !! cart_id_key uuid_display c'.
Proof.
  case_decide as H; [subst; by rewrite lookup_insert_eq|].
  rewrite lookup_insert_ne; [done|]. by intros ->%(inj _).
Qed.

Lemma insert_idem_key {V} k k' (v : V) (m : gmap string V) :
  ok k -> ok k' ->
  (<[idempotency_key_str k := v]> m) !! idempotency_key_str k'
  = if decide (k' = k) then Some v else m !! idempotency_key_str k'.
Proof.
  intros Hk Hk'. case_decide as H; [subst; by rewrite lookup_insert_eq|].
  rewrite lookup_insert_ne; [done|]. intros He. by apply ok_inj in He.
Qed.

Lemma reservation_key_inj c sku c' sku' :
  reservation_key uuid_display c sku = reservation_key uuid_display c' sku' <->
  c = c' /\ sku = sku'.
Proof.
  split; [|by intros [-> ->]]. unfold reservation_key.
  intros [->%(inj _) ->]%bar_app_inj; unfold cart_id_key; auto.
Qed.

Lemma starts_with_key c c' sku :
  starts_with (reservation_prefix uuid_display c) (reservation_key uuid_display c' sku)
  = bool_decide (c' = c).
Proof.
  unfold starts_with, reservation_prefix, reservation_key.
  destruct (strip_prefix _ _) as [r|] eqn:H; symmetry; cbn.
  - apply bool_decide_eq_true. apply strip_prefix_spec in H.
    rewrite str_app_assoc in H. apply bar_app_inj in H as [->%(inj _) _];
      unfold cart_id_key; auto.
  - apply bool_decide_eq_false. intros ->.
    enough (Some sku = None) by done. rewrite <- H. symmetry.
    apply strip_prefix_spec. by rewrite str_app_assoc.
Qed.

Lemma on_file_state {T A} get set (op : ST (FileStore T) StoreError A) s :
  snd (on_file get set op s) = set (snd (op (get s))) s.
Proof. unfold on_file. by destruct (op _). Qed.

(** [file_*_laws]: whatever a save answered, the table was changed first. *)
Ltac file_law :=
  intros; cbn; rewrite ?on_file_state; cbn; rewrite ?persist_table;
  rewrite ?insert_cart_key; repeat case_decide; simplify_eq; try done.

Abbreviation backend := (file_backend fault uuid_display).

Definition file_event_laws : @EventStoreLaws _ (@EventS_ops backend).
Proof.
  refine {| es_events c (s : @EventS backend) :=
              unwrap_or (fs_table (fe_events s) !! cart_id_key uuid_display c) [] |}.
  all: file_law.
Defined.

Definition file_idem_laws : @IdempotencyStoreLaws _ (@IdemS_ops backend) ok.
Proof.
  refine {| idem_lookup k (s : @IdemS backend) := fs_table s !! idempotency_key_str k |}.
  - intros k s st _ H. cbn. unfold file_claim. by rewrite H.
  - intros k s r s' Hk H. cbn. unfold file_claim. rewrite H. intros Hp.
    pose proof (persist_result (fault "idempotency.json") (<[idempotency_key_str k := InFlight]>)
      (@None IdempotencyState) s) as Hr.
    pose proof (persist_table (fault "idempotency.json") (<[idempotency_key_str k := InFlight]>)
      (@None IdempotencyState) s) as Ht.
    rewrite Hp in Hr, Ht. split; [done|]. intros k' Hk'. cbn in Ht. rewrite Ht.
    by apply insert_idem_key.
  - intros k k' res s Hk Hk'. cbn. unfold file_complete. rewrite persist_table.
    by apply insert_idem_key.
  - intros k k' s Hk Hk'. cbn. unfold file_release. destruct (decide (k' = k)) as [->|Hne].
    + destruct (fs_table s !! idempotency_key_str k) as [[]|] eqn:Hl; cbn;
        [|exact Hl|exact Hl].
      rewrite persist_table. apply lookup_delete_eq.
    + assert (idempotency_key_str k <> idempotency_key_str k')
        by (intros He; symmetry in He; by apply Hne, ok_inj).
      replace (match fs_table s !! idempotency_key_str k' with
               | Some InFlight => Some InFlight | o => o end)
        with (fs_table s !! idempotency_key_str k')
        by (by destruct (fs_table s !! idempotency_key_str k') as [[]|]).
      destruct (fs_table s !! idempotency_key_str k) as [[]|]; [|done..].
      rewrite persist_table. by apply lookup_delete_ne.
Defined.

Definition file_rs_state (c : CartId) (sku : string) (s : FileStore ReservationTable)
  : option (Z * ReservationState) :=
  (fun d => (rd_quantity d, rd_state d))
    <$> fs_table s !! reservation_key uuid_display c sku.

Lemma file_rs_mark c st (a : unit) s c' sku :
  file_rs_state c' sku
    (snd (persist (fault "reservations.json") (mark_prefix uuid_display c st) a s))
  = if decide (c' = c) then prod_map id (fun _ => st) <$> file_rs_state c' sku s
    else file_rs_state c' sku s.
Proof.
  unfold file_rs_state. rewrite persist_table. unfold mark_prefix, ReservationTable in *.
  rewrite map_lookup_imap, starts_with_key.
  destruct (fs_table s !! _) as [d|]; cbn; [|by case_decide].
  case_bool_decide; by case_decide.
Qed.

Definition file_reservation_laws : @ReservationStoreLaws _ (@ReserveS_ops backend).
Proof.
  refine {| rs_state := file_rs_state : _ -> _ -> @ReserveS backend -> _ |}.
  - intros t c sku q ttl s c' sku'. unfold file_rs_state. cbn. unfold file_reserve.
    rewrite persist_table. unfold ReservationTable in *. case_decide as H.
    + destruct H as [-> ->]. by rewrite lookup_insert_eq.
    + rewrite lookup_insert_ne; [done|]. rewrite reservation_key_inj. intros [-> ->].
      by apply H.
  - intros c s c' sku. exact (file_rs_mark c Finalized tt s c' sku).
  - intros c s c' sku. exact (file_rs_mark c Released tt s c' sku).
Defined.

Definition file_outbox_laws : @OutboxStoreLaws _ (@OutboxS_ops backend).
Proof.
  refine {| ob_queue (s : @OutboxS backend) := fs_table s |}.
  - done.
  - intros m s. apply persist_table.
  - intros s H. cbn in *. unfold file_dequeue. by rewrite H.
  - intros m q s H. cbn in *. unfold file_dequeue. rewrite H. split; [apply persist_table|].
    apply persist_result.
  - done.
  - intros m s. apply persist_table.
Defined.

Definition file_dead_letter_laws : @DeadLetterStoreLaws _ (@DeadS_ops backend).
Proof.
  refine {| dl_lookup id (s : @DeadS backend) := fs_table s !! id |}.
  - intros m s i. cbn. rewrite persist_table, lookup_insert.
    repeat case_decide; by simplify_eq.
  - intros j s i. cbn. destruct (fs_table s !! j) as [m|] eqn:Hj; cbn.
    + rewrite persist_table, lookup_delete. repeat case_decide; by simplify_eq.
    + by case_decide; simplify_eq.
  - intros j s. cbn. destruct (fs_table s !! j) as [m|] eqn:Hj; cbn; [|by left].
    destruct (persist_result (fault "dead_letter.json") (delete j) (Some m) s) as [H|[e H]]; [by left|].
    right. split; [done|]. by exists e.
Defined.

Definition file_order_laws : @OrderStoreLaws _ (@OrderS_ops backend).
Proof.
  constructor. intros; cbn. rewrite persist_table. unfold OrderTable. rewrite lookup_insert.
  repeat case_decide; by simplify_eq.
Defined.

Definition file_payment_state_laws : @PaymentStateStoreLaws _ (@PayS_ops backend).
Proof.
  constructor. intros; cbn. rewrite persist_table, lookup_insert.
  repeat case_decide; by simplify_eq.
Defined.

Definition file_mandate_laws : @MandateDedupeStoreLaws _ (@MandateS_ops backend).
Proof.
  refine {| md_lookup id (s : @MandateS backend) := fs_table s !! id |}.
  - intros t i e s x Hx Hlt. cbn. unfold file_record_mandate, live_mandates.
    by rewrite (map_lookup_filter_Some_2 _ _ i x).
  - intros t i e s r s' Hdead. cbn. unfold file_record_mandate, live_mandates.
    rewrite map_lookup_filter_None_2; [|right; intros x Hx; specialize (Hdead x Hx); cbn; lia].
    intros Hp. pose proof (persist_result (fault "mandates.json")
      (fun _ => <[i := e]> (live_mandates t (fs_table s))) true s) as Hr.
    pose proof (persist_table (fault "mandates.json")
      (fun _ => <[i := e]> (live_mandates t (fs_table s))) true s) as Ht.
    unfold live_mandates in Hr, Ht. rewrite Hp in Hr, Ht. cbn in Ht.
    split; [done|]. by rewrite Ht, lookup_insert_eq.
  - intros t i e j s x Hx Hlt. cbn. unfold file_record_mandate.
    pose proof (live_kept t (fs_table s) i j e x Hx Hlt) as [Hl Hi].
    destruct (live_mandates t (fs_table s) !! i) eqn:E; cbn; [done|].
    rewrite persist_table. by apply Hi.
Defined.

Definition file_webhook_laws : @WebhookStoreLaws _ (@WebhookS_ops backend).
Proof.
  constructor. intros t topic s rs r. cbn. intros [= <-].
  rewrite list_elem_of_In, filter_In. intros [_ H]. by apply subscribes_spec.
Defined.

Definition file_laws : BackendLaws backend := {|
  key_ok := ok;
  EventS_laws := file_event_laws; IdemS_laws := file_idem_laws;
  ReserveS_laws := file_reservation_laws; OutboxS_laws := file_outbox_laws;
  DeadS_laws := file_dead_letter_laws; OrderS_laws := file_order_laws;
  PayS_laws := file_payment_state_laws; MandateS_laws := file_mandate_laws;
  WebhookS_laws := file_webhook_laws
|}.
End laws.
