(* ===== verification/PgStores.v ===== *)
(** * The PostgreSQL stores ([crates/orchestrator-runtime/src/persistence/postgres_backed.rs],
    [migrations/*.sql])

    A table of the migrations is a finite map from its primary key to a row; a statement
    of the code is a function on that map, atomic as the database makes it.  Any statement
    may fail, before it ran or after, when only its answer is lost.  JSON values, their
    conversions, [now()] and the jsonb operator [@>] belong to other programs and are
    arguments. *)

From stdpp Require Import sorting.
From S2P Require Export FileStores.

(** ** Statements *)

(** How a statement fails: it did not run, or it ran and the connection broke. *)
Inductive QueryFault :=
| NotRun (msg : string)
| AnswerLost (msg : string).

(** [pg_io] numbers the statements sent to this table; [fault] says which of them fail. *)
Record PgTable (R : Type) := MkPg { pg_rows : R; pg_io : nat }.
Arguments MkPg {R} _ _.
Arguments pg_rows {R} _.
Arguments pg_io {R} _.

Section statements.
Context (fault : nat -> option QueryFault).
Context {R : Type}.

(** [query(..).execute(..).await.map_err(store_other)]; the statement gets its number. *)
Definition exec_at {A} (stmt : nat -> R -> A * R) : ST (PgTable R) StoreError A := fun s =>
  let '(a, rows) := stmt (pg_io s) (pg_rows s) in
  match fault (pg_io s) with
  | None => (Ok a, MkPg rows (S (pg_io s)))
  | Some (NotRun e) => (Err (MkStoreError e), MkPg (pg_rows s) (S (pg_io s)))
  | Some (AnswerLost e) => (Err (MkStoreError e), MkPg rows (S (pg_io s)))
  end.

Definition exec {A} (stmt : R -> A * R) : ST (PgTable R) StoreError A :=
  exec_at (fun _ => stmt).

(** A read whose error is dropped, [.await.ok()?] or [.unwrap_or_default()]: it fails when
    the statement that would be sent next does. *)
Definition peek {A} (f : R -> A) (s : PgTable R) : option A :=
  match fault (pg_io s) with None => Some (f (pg_rows s)) | Some _ => None end.
End statements.

(** [INSERT .. ON CONFLICT DO UPDATE], [INSERT .. ON CONFLICT DO NOTHING] with the number of
    rows affected, [SELECT .. WHERE key = $1], [DELETE .. RETURNING] and [UPDATE]. *)
Definition sql_upsert {V} (k : string) (v : V) (rows : gmap string V) : unit * gmap string V :=
  (tt, <[k := v]> rows).

Definition sql_insert_new {V} (k : string) (v : V) (rows : gmap string V)
  : nat * gmap string V :=
  match rows !! k with Some _ => (0, rows) | None => (1, <[k := v]> rows) end.

Definition sql_select {V} (k : string) (rows : gmap string V) : option V * gmap string V :=
  (rows !! k, rows).

Definition sql_delete {V} (k : string) (rows : gmap string V) : option V * gmap string V :=
  (rows !! k, delete k rows).

Definition sql_update {V} (k : string) (v : V) (rows : gmap string V) : unit * gmap string V :=
  (tt, match rows !! k with Some _ => <[k := v]> rows | None => rows end).

(** ** JSON values *)

(** [serde_json::to_value] and [from_value] at a type. *)
Class JsonValue (J T : Type) := {
  to_value : T -> result J string; from_value : J -> result T string }.

(** The types kept in [JSONB] columns. *)
Class PgFormat (J : Type) := {
  jv_events :: JsonValue J (list CartStreamEvent);
  jv_snapshot :: JsonValue J CartProjection;
  jv_state :: JsonValue J CartState;
  jv_idem :: JsonValue J IdempotencyState;
  jv_commit :: JsonValue J CommitRecord;
  jv_reservation :: JsonValue J ReservationDto;
  jv_message :: JsonValue J OutboxMessage;
  jv_order :: JsonValue J OrderRecord;
  jv_payment :: JsonValue J PaymentState;
  jv_filter :: JsonValue J (list string)
}.

(** [to_json_value] and [from_json_value]. *)
Definition to_json_value {S J T} `{JsonValue J T} (x : T) : ST S StoreError J :=
  st_lift (map_err MkStoreError (to_value x)).

Definition from_json_value {S J T} `{JsonValue J T} (j : J) : ST S StoreError T :=
  st_lift (map_err MkStoreError (from_value j)).

(** [row.map(|r| from_json_value(..)).transpose()]. *)
Definition from_json_row {S J T} `{JsonValue J T} (row : option J) : ST S StoreError (option T) :=
  match row with
  | Some j => x ← from_json_value j; mret (Some x)
  | None => mret None
  end.

(** [serde_json::from_value(..).ok()]. *)
Definition from_value_ok {J T} `{JsonValue J T} (j : J) : option T :=
  match from_value j with Ok x => Some x | Err _ => None end.

(** ** The stores *)

Section stores.
Context {J : Type} `{EqDecision J} {format : PgFormat J}.
Context (fault : string -> nat -> option QueryFault) (uuid_display : Uuid -> string).

Abbreviation Table := (PgTable (gmap string J)).

(** *** Events *)

Record PostgresEventStore := MkPgEvents {
  pe_events : Table; pe_snapshots : Table; pe_states : Table }.

(** Runs a statement on one of the three tables. *)
Definition on_table {A} (get : PostgresEventStore -> Table)
    (set : Table -> PostgresEventStore -> PostgresEventStore) (op : ST Table StoreError A)
  : ST PostgresEventStore StoreError A := fun s =>
  let '(r, t) := op (get s) in (r, set t s).

Definition set_pe_events t s := MkPgEvents t (pe_snapshots s) (pe_states s).
Definition set_pe_snapshots t s := MkPgEvents (pe_events s) t (pe_states s).
Definition set_pe_states t s := MkPgEvents (pe_events s) (pe_snapshots s) t.

(** [append_cart_event] is two statements: it reads the whole list ... *)
Definition pg_read_events (c : CartId) : ST Table StoreError (list CartStreamEvent) :=
  existing ← exec (fault "cart_events") (sql_select (cart_id_key uuid_display c));
  match existing with Some row => from_json_value row | None => mret [] end.

(** ... and writes it back with the event at its end. *)
Definition pg_write_events (c : CartId) (events : list CartStreamEvent) : ST Table StoreError unit :=
  value ← to_json_value events;
  exec (fault "cart_events") (sql_upsert (cart_id_key uuid_display c) value).

Definition pg_append_cart_event (c : CartId) (e : CartStreamEvent) : ST Table StoreError unit :=
  events ← pg_read_events c;
  pg_write_events c (events ++ [e]).

(** Serialise and upsert: what [put_cart_snapshot], [set_cart_state], [commit], [reserve],
    [complete] and the [put]s do. *)
Definition pg_put {T} `{JsonValue J T} (table key : string) (x : T) : ST Table StoreError unit :=
  value ← to_json_value x;
  exec (fault table) (sql_upsert key value).

(** A lookup whose errors are all answered with [None]. *)
Definition pg_get {T} `{JsonValue J T} (table key : string) (s : Table) : option T :=
  row ← peek (fault table) (fun rows => rows !! key) s;
  row ≫= from_value_ok.

Definition pg_event_store : EventStore PostgresEventStore := {|
  append_cart_event c e := on_table pe_events set_pe_events (pg_append_cart_event c e);
  put_cart_snapshot p := on_table pe_snapshots set_pe_snapshots
    (pg_put "cart_snapshots" (cart_id_key uuid_display (cp_cart_id p)) p);
  get_cart_snapshot c s := pg_get "cart_snapshots" (cart_id_key uuid_display c) (pe_snapshots s);
  get_cart_state c s := pg_get "cart_states" (cart_id_key uuid_display c) (pe_states s);
  set_cart_state c st := on_table pe_states set_pe_states
    (pg_put "cart_states" (cart_id_key uuid_display c) st)
|}.

(** *** Idempotency and commits *)

(** The transaction of [claim]: it inserts unless there is a row, and reads the row there is
    then.  A row that says [InFlight] reads the same whoever inserted it. *)
Definition sql_claim (key : string) (in_flight : J) (rows : gmap string J)
  : option J * gmap string J :=
  let rows := snd (sql_insert_new key in_flight rows) in sql_select key rows.

Definition pg_claim (k : IdempotencyKey) : ST Table StoreError (option IdempotencyState) :=
  in_flight ← to_json_value InFlight;
  row ← exec (fault "idempotency") (sql_claim (idempotency_key_str k) in_flight);
  row ← st_lift (ok_or row (MkStoreError "no rows returned"));
  state ← from_json_value row;
  mret (match state with InFlight => None | IdemCompleted _ => Some state end).

(** [DELETE FROM idempotency WHERE idempotency_key = $1 AND state = $2]. *)
Definition sql_delete_if (key : string) (v : J) (rows : gmap string J) : unit * gmap string J :=
  (tt, if bool_decide (rows !! key = Some v) then delete key rows else rows).

Definition pg_release (k : IdempotencyKey) : ST Table StoreError unit :=
  in_flight ← to_json_value InFlight;
  exec (fault "idempotency") (sql_delete_if (idempotency_key_str k) in_flight).

Definition pg_idempotency_store : IdempotencyStore Table := {|
  idem_claim := pg_claim;
  idem_complete k res := pg_put "idempotency" (idempotency_key_str k) (IdemCompleted res);
  idem_release := pg_release
|}.

Definition pg_commit_store : CommitStore Table := {|
  commit txn c reference :=
    let record := MkCommitRecord txn c reference in
    _ ← pg_put "commits" (cart_id_key uuid_display c) record; mret record
|}.

(** *** Reservations *)

(** [SELECT .. WHERE reservation_key LIKE $1] with the pattern [<uuid>|%]: the text of a
    uuid holds no wildcard. *)
Definition sql_select_like (prefix : string) (rows : gmap string J)
  : list (string * J) * gmap string J :=
  (List.filter (fun kv => starts_with prefix (fst kv)) (map_to_list rows), rows).

(** The body of the loop of [update_reservations_for_cart]: a record that does not parse
    ends it. *)
Definition pg_mark (st : ReservationState) (row : string * J) : ST Table StoreError unit :=
  dto ← from_json_value (snd row);
  value ← to_json_value (rd_set_state st dto);
  exec (fault "reservations") (sql_update (fst row) value).

Definition update_reservations_for_cart (c : CartId) (st : ReservationState)
  : ST Table StoreError unit :=
  rows ← exec (fault "reservations") (sql_select_like (reservation_prefix uuid_display c));
  st_iter (pg_mark st) rows.

(** One row of [sweep_expired]; [n] is [updated] so far. *)
Definition pg_sweep_row (t : Clock) (n : nat) (row : string * J) : ST Table StoreError nat :=
  dto ← from_json_value (snd row);
  if dto_expired t dto then
    value ← to_json_value (rd_set_state Expired dto);
    _ ← exec (fault "reservations") (sql_update (fst row) value);
    mret (S n)
  else mret n.

Fixpoint pg_sweep_rows (t : Clock) (n : nat) (rows : list (string * J))
  : ST Table StoreError nat :=
  match rows with
  | [] => mret n
  | row :: rest => n ← pg_sweep_row t n row; pg_sweep_rows t n rest
  end.

Definition pg_sweep_expired (t : Clock) : ST Table StoreError nat :=
  rows ← exec (fault "reservations") (fun rows => (map_to_list rows, rows));
  pg_sweep_rows t 0 rows.

Definition pg_reservation_store : ReservationStore Table := {|
  reserve t c sku quantity ttl :=
    pg_put "reservations" (reservation_key uuid_display c sku)
      (MkReservationDto c sku quantity Reserved (timestamp t +! ttl / 1000000000)%Z);
  finalize_cart c := update_reservations_for_cart c Finalized;
  release_cart c := update_reservations_for_cart c Released;
  sweep_expired := pg_sweep_expired;
  by_cart t c s :=
    map (to_record t) (omap (fun kv => from_value_ok (snd kv))
      (unwrap_or (peek (fault "reservations")
         (fun rows => fst (sql_select_like (reservation_prefix uuid_display c) rows)) s) []))
|}.

(** *** Outbox *)

Record OutboxRow := MkOutboxRow {
  ox_message_id : string; ox_message : J; ox_locked_until : option Z }.

(** The rows in the order of [seq], which a new row takes the end of. *)
Abbreviation OutboxTable := (PgTable (list OutboxRow)).

(** [now()] at the statement of a number, in nanoseconds. *)
Context (db_now : nat -> Z).

Definition OUTBOX_LEASE : Z := 60 * 1000000000.

Definition has_id (id : string) (row : OutboxRow) : bool := String.eqb (ox_message_id row) id.

Definition put_row (id : string) (value : J) (row : OutboxRow) : OutboxRow :=
  MkOutboxRow id value None.

(** [INSERT .. ON CONFLICT (message_id) DO UPDATE SET message = .., locked_until = NULL]. *)
Definition sql_enqueue (id : string) (value : J) (rows : list OutboxRow)
  : unit * list OutboxRow :=
  (tt, match update_first (has_id id) (put_row id value) rows with
       | Some rows => rows
       | None => rows ++ [MkOutboxRow id value None]
       end).

(** [locked_until IS NULL OR locked_until < now()]. *)
Definition claimable (t : Z) (row : OutboxRow) : bool :=
  is_none_or (ox_locked_until row) (fun until => until <? t)%Z.

Definition lock_row (t : Z) (row : OutboxRow) : OutboxRow :=
  MkOutboxRow (ox_message_id row) (ox_message row) (Some (t + OUTBOX_LEASE)%Z).

(** [OUTBOX_CLAIM_SQL]: leases the first row nobody holds. *)
Definition sql_claim_row (t : Z) (rows : list OutboxRow) : option J * list OutboxRow :=
  match update_first (claimable t) (lock_row t) rows with
  | Some rows' => (ox_message <$> find_first (claimable t) rows, rows')
  | None => (None, rows)
  end.

(** [OUTBOX_ACK_SQL] and [OUTBOX_RELEASE_SQL], which answers the number of rows. *)
Definition sql_ack (id : string) (rows : list OutboxRow) : unit * list OutboxRow :=
  (tt, retain (fun row => negb (has_id id row)) rows).

Definition sql_release (id : string) (value : J) (rows : list OutboxRow)
  : nat * list OutboxRow :=
  match update_first (has_id id) (put_row id value) rows with
  | Some rows => (1, rows)
  | None => (0, rows)
  end.

Definition sql_dequeue (rows : list OutboxRow) : option J * list OutboxRow :=
  match rows with
  | [] => (None, [])
  | row :: rest => (Some (ox_message row), rest)
  end.

Definition pg_enqueue (m : OutboxMessage) : ST OutboxTable StoreError unit :=
  value ← to_json_value m;
  exec (fault "outbox") (sql_enqueue (om_id m) value).

Definition pg_dequeue : ST OutboxTable StoreError (option OutboxMessage) :=
  row ← exec (fault "outbox") sql_dequeue;
  from_json_row row.

Definition pg_outbox_claim : ST OutboxTable StoreError (option OutboxMessage) :=
  row ← exec_at (fault "outbox") (fun n => sql_claim_row (db_now n));
  from_json_row row.

Definition pg_outbox_ack (id : string) : ST OutboxTable StoreError unit :=
  exec (fault "outbox") (sql_ack id).

Definition pg_outbox_release (m : OutboxMessage) : ST OutboxTable StoreError unit :=
  value ← to_json_value m;
  affected ← exec (fault "outbox") (sql_release (om_id m) value);
  if (affected =? 0)%nat then pg_enqueue m else mret tt.

Definition pg_outbox_store : OutboxStore OutboxTable := {|
  enqueue := pg_enqueue;
  dequeue := pg_dequeue;
  outbox_len s := unwrap_or (peek (fault "outbox") length s) 0;
  outbox_claim := pg_outbox_claim;
  outbox_ack := pg_outbox_ack;
  outbox_release := pg_outbox_release
|}.

(** *** Inbox and dead letters *)

Definition pg_inbox_store : InboxStore (PgTable (gmap string unit)) := {|
  accept_once id :=
    affected ← exec (fault "inbox_dedupe") (sql_insert_new id tt);
    mret (affected =? 1)%nat
|}.

Definition pg_dead_letter_store : DeadLetterStore Table := {|
  dl_put m := pg_put "dead_letter" (om_id m) m;
  dl_len s := unwrap_or (peek (fault "dead_letter") size s) 0;
  dl_list s := omap from_value_ok (unwrap_or (peek (fault "dead_letter") values s) []);
  dl_take id :=
    row ← exec (fault "dead_letter") (sql_delete id);
    from_json_row row
|}.

(** *** Orders, payment states and mandates *)

(** [append_event], [add_adjustment] and [update_status] read the order and put it back; an
    order that cannot be read is answered like one that does not exist. *)
Definition pg_order_update (f : OrderRecord -> OrderRecord) (order_id : string)
  : ST Table StoreError (option OrderRecord) := fun s =>
  match pg_get "orders" order_id s with
  | Some record =>
      (_ ← pg_put "orders" (or_order_id record) (f record); mret (Some (f record))) s
  | None => (Ok None, s)
  end.

Definition pg_list_orders (tenant_id : string) (s : Table) : result (list OrderRecord) StoreError :=
  match fault "orders" (pg_io s) with
  | Some (NotRun e) | Some (AnswerLost e) => Err (MkStoreError e)
  | None =>
      Ok (merge_sort newer
            (List.filter (fun r => String.eqb (or_tenant_id r) tenant_id)
               (omap from_value_ok (values (pg_rows s)))))
  end.

Definition pg_order_store : OrderStore Table := {|
  order_put o := pg_put "orders" (or_order_id o) o;
  order_get id s := pg_get "orders" id s;
  order_list_by_tenant := pg_list_orders;
  append_event id e := pg_order_update (push_event e) id;
  add_adjustment id a := pg_order_update (push_adjustment a) id;
  update_status id st := pg_order_update (with_status st) id
|}.

(** A state that does not serialise is stored as [null], and a failed statement is dropped. *)
Definition pg_payment_state_store (null : J) : PaymentStateStore Table := {|
  pay_put txn st s :=
    let value := match to_value st with Ok v => v | Err _ => null end in
    snd (exec (fault "payment_state") (sql_upsert txn value) s);
  pay_get txn s := pg_get "payment_state" txn s
|}.

(** [DELETE FROM mandate_dedupe WHERE expires_at <= $1], then the insertion. *)
Definition pg_record_mandate (t : Clock) (mandate_id : string) (expires_at : Z)
  : ST (PgTable (gmap string Z)) StoreError bool :=
  _ ← exec (fault "mandate_dedupe") (fun rows => (tt, live_mandates t rows));
  affected ← exec (fault "mandate_dedupe") (sql_insert_new mandate_id expires_at);
  mret (affected =? 1)%nat.

Definition pg_mandate_store : MandateDedupeStore (PgTable (gmap string Z)) := {|
  record_mandate := pg_record_mandate |}.

(** *** Webhooks *)

Record WebhookRow := MkWebhookRow {
  wr_id : string;
  wr_tenant_id : string;
  wr_url : string;
  wr_secret : string;
  wr_event_filter : option J;
  wr_active : bool
}.

Abbreviation WebhookTable := (PgTable (gmap string WebhookRow)).

(** [serde_json::Value::is_null], and [event_filter @> to_jsonb($1::text)]. *)
Context (is_null : J -> bool) (contains_text : J -> string -> bool).

Definition row_to_registration (row : WebhookRow) : result WebhookRegistration StoreError :=
  let built f := MkWebhook (wr_id row) (wr_tenant_id row) (wr_url row) (wr_secret row) f
                   (wr_active row) in
  match wr_event_filter row with
  | Some v => if is_null v then Ok (built None)
              else map_err MkStoreError
                     (match from_value v with Ok f => Ok (built (Some f)) | Err e => Err e end)
  | None => Ok (built None)
  end.

(** [rows.iter().map(row_to_registration).collect()]. *)
Fixpoint collect_rows (rows : list WebhookRow) : result (list WebhookRegistration) StoreError :=
  match rows with
  | [] => Ok []
  | row :: rest =>
      match row_to_registration row with
      | Err e => Err e
      | Ok r => match collect_rows rest with Ok rs => Ok (r :: rs) | Err e => Err e end
      end
  end.

Definition pg_register (r : WebhookRegistration) : ST WebhookTable StoreError unit :=
  event_filter ← match wh_event_filter r with
                 | Some f => v ← to_json_value f; mret (Some v)
                 | None => mret None
                 end;
  exec (fault "webhooks") (sql_upsert (wh_id r)
    (MkWebhookRow (wh_id r) (wh_tenant_id r) (wh_url r) (wh_secret r) event_filter
       (wh_active r))).

(** A [SELECT] over the webhooks, then the conversion of its rows. *)
Definition pg_webhooks (p : WebhookRow -> bool) (s : WebhookTable)
  : result (list WebhookRegistration) StoreError :=
  match fault "webhooks" (pg_io s) with
  | Some (NotRun e) | Some (AnswerLost e) => Err (MkStoreError e)
  | None => collect_rows (List.filter p (values (pg_rows s)))
  end.

Definition row_subscribes (tenant_id topic : string) (row : WebhookRow) : bool :=
  wr_active row && String.eqb (wr_tenant_id row) tenant_id
  && is_none_or (wr_event_filter row) (fun f => contains_text f topic).

Definition pg_webhook_store : WebhookStore WebhookTable := {|
  wh_register := pg_register;
  wh_unregister id :=
    removed ← exec (fault "webhooks") (sql_delete id);
    mret (is_some removed);
  wh_list_by_tenant t := pg_webhooks (fun row => String.eqb (wr_tenant_id row) t);
  wh_get id s :=
    match pg_webhooks (fun row => String.eqb (wr_id row) id) s with
    | Ok rs => Ok (head rs)
    | Err e => Err e
    end;
  list_active_for_topic t topic := pg_webhooks (row_subscribes t topic)
|}.

(** *** [PostgresStores] *)

Definition pg_backend (null : J) : Backend := {|
  EventS_ops := pg_event_store; IdemS_ops := pg_idempotency_store;
  CommitS_ops := pg_commit_store; ReserveS_ops := pg_reservation_store;
  OutboxS_ops := pg_outbox_store; InboxS_ops := pg_inbox_store;
  DeadS_ops := pg_dead_letter_store; OrderS_ops := pg_order_store;
  PayS_ops := pg_payment_state_store null; MandateS_ops := pg_mandate_store;
  WebhookS_ops := pg_webhook_store
|}.
End stores.
