(* ===== verification/BackendSim.v ===== *)
(** * Refinement between backends

    A relation between the stores of two backends that every operation respects lifts to
    the whole runner: cart commands and checkouts return the same results, make the same
    provider calls and end in related worlds.  One proof per program of [Runner], none of
    which looks into a store. *)

From S2P Require Export Runner.

Create HintDb rel.

(** Run from related states, both operations answer the same and end related. *)
Definition sim_op {S1 S2 E A} (R : S1 -> S2 -> Prop) (m1 : ST S1 E A) (m2 : ST S2 E A)
    (s1 : S1) (s2 : S2) : Prop :=
  fst (m1 s1) = fst (m2 s2) /\ R (snd (m1 s1)) (snd (m2 s2)).

(** [B2] implements [B1].  [key_kept] are the keys [B2] keeps apart; a claim may ask more
    of the state of [B1]. *)
Class BackendSim (B1 B2 : Backend) := {
  key_kept : IdempotencyKey -> Prop;
  claimable_key : IdempotencyKey -> @IdemS B1 -> Prop;
  events_sim : @EventS B1 -> @EventS B2 -> Prop;
  idem_sim : @IdemS B1 -> @IdemS B2 -> Prop;
  commit_sim : @CommitS B1 -> @CommitS B2 -> Prop;
  res_sim : @ReserveS B1 -> @ReserveS B2 -> Prop;
  outbox_sim : @OutboxS B1 -> @OutboxS B2 -> Prop;
  orders_sim : @OrderS B1 -> @OrderS B2 -> Prop;
  pay_sim : @PayS B1 -> @PayS B2 -> Prop;
  append_sim c e s1 s2 : events_sim s1 s2 ->
    sim_op events_sim (append_cart_event c e) (append_cart_event c e) s1 s2;
  put_snapshot_sim p s1 s2 : events_sim s1 s2 ->
    sim_op events_sim (put_cart_snapshot p) (put_cart_snapshot p) s1 s2;
  set_state_sim c st s1 s2 : events_sim s1 s2 ->
    sim_op events_sim (set_cart_state c st) (set_cart_state c st) s1 s2;
  snapshot_sim c s1 s2 : events_sim s1 s2 -> get_cart_snapshot c s1 = get_cart_snapshot c s2;
  state_sim c s1 s2 : events_sim s1 s2 -> get_cart_state c s1 = get_cart_state c s2;
  claim_sim k s1 s2 : key_kept k -> claimable_key k s1 -> idem_sim s1 s2 ->
    sim_op idem_sim (idem_claim k) (idem_claim k) s1 s2;
  complete_sim k res s1 s2 : key_kept k -> idem_sim s1 s2 ->
    sim_op idem_sim (idem_complete k res) (idem_complete k res) s1 s2;
  idem_release_sim k s1 s2 : key_kept k -> idem_sim s1 s2 ->
    sim_op idem_sim (idem_release k) (idem_release k) s1 s2;
  commit_op_sim txn c ref s1 s2 : commit_sim s1 s2 ->
    sim_op commit_sim (commit txn c ref) (commit txn c ref) s1 s2;
  reserve_sim t c sku q ttl s1 s2 : res_sim s1 s2 ->
    sim_op res_sim (reserve t c sku q ttl) (reserve t c sku q ttl) s1 s2;
  finalize_sim c s1 s2 : res_sim s1 s2 ->
    sim_op res_sim (finalize_cart c) (finalize_cart c) s1 s2;
  release_cart_sim c s1 s2 : res_sim s1 s2 ->
    sim_op res_sim (release_cart c) (release_cart c) s1 s2;
  enqueue_sim m s1 s2 : outbox_sim s1 s2 -> sim_op outbox_sim (enqueue m) (enqueue m) s1 s2;
  order_put_sim o s1 s2 : orders_sim s1 s2 ->
    sim_op orders_sim (order_put o) (order_put o) s1 s2;
  order_get_sim id s1 s2 : orders_sim s1 s2 -> order_get id s1 = order_get id s2;
  pay_put_sim txn st s1 s2 : pay_sim s1 s2 -> pay_sim (pay_put txn st s1) (pay_put txn st s2);
  pay_get_sim txn s1 s2 : pay_sim s1 s2 -> pay_get txn s1 = pay_get txn s2
}.

(** Worlds with related stores, the same clock and the same calls made. *)
Record world_sim {B1 B2 : Backend} {R : BackendSim B1 B2} (w1 : World B1) (w2 : World B2)
  : Prop := {
  ws_events : events_sim (w_events w1) (w_events w2);
  ws_idem : idem_sim (w_idem w1) (w_idem w2);
  ws_commit : commit_sim (w_commit w1) (w_commit w2);
  ws_res : res_sim (w_res w1) (w_res w2);
  ws_outbox : outbox_sim (w_outbox w1) (w_outbox w2);
  ws_orders : orders_sim (w_orders w1) (w_orders w2);
  ws_pay : pay_sim (w_pay w1) (w_pay w2);
  ws_tick : w_tick w1 = w_tick w2;
  ws_trace : w_trace w1 = w_trace w2
}.

Section simulation.
Context {B1 B2 : Backend} {R : BackendSim B1 B2} (env : Env).
Context (self1 : RunnerConfig B1) (self2 : RunnerConfig B2).
Context (same_providers : providers self1 = providers self2).
Context (same_policy : policy self1 = policy self2).

Definition rel {A} (m1 : M (B:=B1) A) (m2 : M (B:=B2) A) : Prop :=
  forall w1 w2, world_sim w1 w2 -> sim_op world_sim m1 m2 w1 w2.

(** ** Rules of the monad *)

Lemma rel_ret {A} (a : A) : rel (mret a) (mret a).
Proof. by split. Qed.

Lemma rel_fail {A} e : rel (A:=A) (st_fail e) (st_fail e).
Proof. by split. Qed.

Lemma rel_lift {A} (r : result A RunnerError) : rel (st_lift r) (st_lift r).
Proof. by split. Qed.

Lemma sim_bind {A C} (m1 : M (B:=B1) A) m2 (f1 : A -> M (B:=B1) C) f2 w1 w2 :
  sim_op world_sim m1 m2 w1 w2 -> (forall a, rel (f1 a) (f2 a)) ->
  sim_op world_sim (m1 ≫= f1) (m2 ≫= f2) w1 w2.
Proof.
  intros [Hr Hs] Hf. unfold sim_op, mbind, ST_bind in *.
  destruct (m1 w1) as [[a|e] v1], (m2 w2) as [r2 v2]; cbn in *; subst; [by apply Hf|done].
Qed.

Lemma rel_bind {A C} (m1 : M (B:=B1) A) m2 (f1 : A -> M (B:=B1) C) f2 :
  rel m1 m2 -> (forall a, rel (f1 a) (f2 a)) -> rel (m1 ≫= f1) (m2 ≫= f2).
Proof. intros Hm Hf w1 w2 Hw. apply sim_bind; auto. Qed.

Lemma rel_catch {A C} (m1 : M (B:=B1) A) m2 (k1 : A -> M (B:=B1) C) k2 h1 h2 :
  rel m1 m2 -> (forall a, rel (k1 a) (k2 a)) -> (forall e, rel (h1 e) (h2 e)) ->
  rel (st_catch m1 k1 h1) (st_catch m2 k2 h2).
Proof.
  intros Hm Hk Hh w1 w2 Hw. specialize (Hm w1 w2 Hw). unfold sim_op, st_catch in *.
  destruct (m1 w1) as [[a|e] v1], (m2 w2) as [r2 v2], Hm; cbn in *; subst;
    [by apply Hk|by apply Hh].
Qed.

Lemma rel_iter {A} (f1 : A -> M (B:=B1) unit) f2 xs :
  (forall x, rel (f1 x) (f2 x)) -> rel (st_iter f1 xs) (st_iter f2 xs).
Proof. intros Hf. induction xs; cbn; [apply rel_ret|by apply rel_bind]. Qed.

(** ** Interactions *)

Lemma rel_call {A E} c (f1 f2 : nat -> result A E) conv :
  (forall n, f1 n = f2 n) -> rel (call c f1 conv) (call c f2 conv).
Proof.
  intros Hf w1 w2 []. unfold sim_op, call. cbn. rewrite Hf.
  split; [by rewrite ws_tick0|]. constructor; cbn; congruence.
Qed.

Lemma rel_new_uuid : rel (new_uuid env) (new_uuid env).
Proof.
  intros w1 w2 []. unfold sim_op, new_uuid. cbn. rewrite ws_tick0.
  split; [done|]. by constructor; cbn.
Qed.

Lemma rel_now : rel (now env) (now env).
Proof.
  intros w1 w2 []. unfold sim_op, now. cbn. rewrite ws_tick0.
  split; [done|]. by constructor; cbn.
Qed.

Lemma rel_fresh_id prefix : rel (fresh_id env prefix) (fresh_id env prefix).
Proof. apply rel_bind; [apply rel_new_uuid|]. intros. apply rel_ret. Qed.

Lemma rel_pay_put txn st : rel (pay_state_put txn st) (pay_state_put txn st).
Proof.
  intros w1 w2 []. unfold sim_op, pay_state_put. cbn. split; [done|].
  constructor; cbn; auto using pay_put_sim.
Qed.

Lemma rel_snapshot c :
  rel (st_gets (fun w => get_cart_snapshot c (w_events w)))
      (st_gets (fun w => get_cart_snapshot c (w_events w))).
Proof.
  intros w1 w2 Hw. split; [|done]. cbn. do 2 f_equal. apply snapshot_sim, Hw.
Qed.

Lemma rel_cart_state c :
  rel (st_gets (fun w => get_cart_state c (w_events w)))
      (st_gets (fun w => get_cart_state c (w_events w))).
Proof. intros w1 w2 Hw. split; [|done]. cbn. do 2 f_equal. apply state_sim, Hw. Qed.

(** An operation of one store. *)
Lemma rel_on {S1 S2 A} (P : S1 -> S2 -> Prop) get1 get2 set1 set2
    (op1 : ST S1 StoreError A) (op2 : ST S2 StoreError A) :
  (forall s1 s2, P s1 s2 -> sim_op P op1 op2 s1 s2) ->
  (forall w1 w2, world_sim w1 w2 -> P (get1 w1) (get2 w2)) ->
  (forall w1 w2 s1 s2, world_sim w1 w2 -> P s1 s2 -> world_sim (set1 s1 w1) (set2 s2 w2)) ->
  rel (on get1 set1 op1) (on get2 set2 op2).
Proof.
  intros Hop Hget Hset w1 w2 Hw. destruct (Hop _ _ (Hget _ _ Hw)) as [Hr Hs].
  split; unfold on; cbn; [by rewrite Hr|auto].
Qed.

Ltac rel_store :=
  eapply rel_on;
    [|intros ? ? []; eassumption|intros ? ? ? ? [] ?; constructor; cbn; eassumption].

Lemma rel_append c e : rel (on_events (append_cart_event c e)) (on_events (append_cart_event c e)).
Proof. rel_store. apply append_sim. Qed.

Lemma rel_put_snapshot p : rel (on_events (put_cart_snapshot p)) (on_events (put_cart_snapshot p)).
Proof. rel_store. apply put_snapshot_sim. Qed.

Lemma rel_set_state c st : rel (on_events (set_cart_state c st)) (on_events (set_cart_state c st)).
Proof. rel_store. apply set_state_sim. Qed.

Lemma rel_complete k res : key_kept k ->
  rel (on w_idem set_idem (idem_complete k res)) (on w_idem set_idem (idem_complete k res)).
Proof. intros Hk. rel_store. intros s1 s2. by apply complete_sim. Qed.

Lemma rel_idem_release k : key_kept k ->
  rel (on w_idem set_idem (idem_release k)) (on w_idem set_idem (idem_release k)).
Proof. intros Hk. rel_store. intros s1 s2. by apply idem_release_sim. Qed.

Lemma rel_commit txn c ref :
  rel (on w_commit set_commit (commit txn c ref)) (on w_commit set_commit (commit txn c ref)).
Proof. rel_store. apply commit_op_sim. Qed.

Lemma rel_reserve t c sku q ttl :
  rel (on w_res set_res (reserve t c sku q ttl)) (on w_res set_res (reserve t c sku q ttl)).
Proof. rel_store. apply reserve_sim. Qed.

Lemma rel_finalize c :
  rel (on w_res set_res (finalize_cart c)) (on w_res set_res (finalize_cart c)).
Proof. rel_store. apply finalize_sim. Qed.

Lemma rel_release_cart c :
  rel (on w_res set_res (release_cart c)) (on w_res set_res (release_cart c)).
Proof. rel_store. apply release_cart_sim. Qed.

Lemma rel_enqueue m : rel (on w_outbox set_outbox (enqueue m)) (on w_outbox set_outbox (enqueue m)).
Proof. rel_store. apply enqueue_sim. Qed.

Lemma rel_order_put o : rel (on w_orders set_orders (order_put o)) (on w_orders set_orders (order_put o)).
Proof. rel_store. apply order_put_sim. Qed.

(** ** The programs of the runner *)

#[local] Hint Resolve rel_ret rel_fail rel_lift rel_new_uuid rel_now rel_fresh_id rel_pay_put
  rel_snapshot rel_cart_state rel_append rel_put_snapshot rel_set_state rel_commit rel_reserve
  rel_finalize rel_release_cart rel_enqueue rel_order_put : rel.

(** Takes a program apart: binds, choices, provider calls, and programs already related. *)
Ltac rel_step :=
  match goal with
  | |- rel (_ ≫= _) (_ ≫= _) => apply rel_bind; [|intros ?]
  | |- rel (call _ _ _) (call _ _ _) => apply rel_call; intros ?; congruence
  | |- rel (st_iter _ _) (st_iter _ _) => apply rel_iter; intros ?
  | |- rel (if ?b then _ else _) _ => destruct b
  | |- rel (match ?x with _ => _ end) _ => destruct x
  | |- _ => solve [eauto with rel]
  end.
Ltac rel_steps := repeat (cbv zeta beta; rel_step).

Lemma rel_transition c e : rel (transition_cart c e) (transition_cart c e).
Proof. unfold transition_cart. rel_steps. Qed.

Lemma rel_load c : rel (load_cart c) (load_cart c).
Proof. unfold load_cart. rel_steps. Qed.
#[local] Hint Resolve rel_transition rel_load : rel.

Lemma rel_discounts p : rel (apply_discounts self1 p) (apply_discounts self2 p).
Proof. unfold apply_discounts. rewrite same_providers. rel_steps. Qed.

Lemma rel_check_geo p : rel (check_geo self1 p) (check_geo self2 p).
Proof. unfold check_geo. rewrite same_providers. rel_steps. Qed.

Lemma rel_price_lines p : rel (price_lines self1 p) (price_lines self2 p).
Proof. unfold price_lines. rewrite same_providers. rel_steps. Qed.

Lemma rel_adjustment code : rel (validate_adjustment self1 code) (validate_adjustment self2 code).
Proof. unfold validate_adjustment. rewrite same_providers. rel_steps. Qed.
#[local] Hint Resolve rel_discounts rel_check_geo rel_price_lines rel_adjustment : rel.

Lemma rel_mutate c p e : rel (mutate_and_recalculate self1 c p e) (mutate_and_recalculate self2 c p e).
Proof. unfold mutate_and_recalculate. rewrite same_providers. rel_steps. Qed.

Lemma rel_reprice p : rel (reprice_for_checkout self1 p) (reprice_for_checkout self2 p).
Proof. unfold reprice_for_checkout. rewrite same_providers. rel_steps. Qed.

Lemma rel_quote p q ids : rel (quote_fulfillment self1 p q ids) (quote_fulfillment self2 p q ids).
Proof. unfold quote_fulfillment. rewrite same_providers. rel_steps. Qed.
#[local] Hint Resolve rel_mutate rel_reprice rel_quote : rel.

(** Every cart command. *)
Lemma rel_dispatch cmd id :
  rel (dispatch_cart_command env self1 cmd id) (dispatch_cart_command env self2 cmd id).
Proof.
  unfold dispatch_cart_command. destruct (negb _); [apply rel_fail|].
  destruct cmd; unfold cmd_create_cart, cmd_add_item, cmd_update_item_qty, cmd_remove_item,
    cmd_apply_adjustment, cmd_set_fulfillment, cmd_start_checkout, cmd_cancel_cart;
    rewrite ?same_providers; rel_steps.
Qed.

Section checkout.
Context (req : CheckoutRequest) (kept : key_kept (key_of req)).

Lemma rel_settle : rel (settle_cart_for_checkout self1 req) (settle_cart_for_checkout self2 req).
Proof. unfold settle_cart_for_checkout. rel_steps. Qed.

Lemma rel_finish res : rel (finish_unpaid req res) (finish_unpaid req res).
Proof. unfold finish_unpaid. pose proof (rel_complete _ res kept). rel_steps. Qed.
#[local] Hint Resolve rel_finish : rel.

Lemma rel_complete_checkout cart st auth :
  rel (complete_checkout env self1 req cart st auth) (complete_checkout env self2 req cart st auth).
Proof.
  unfold complete_checkout, advance, commit_checkout, record_order. rewrite same_providers.
  pose proof (fun res => rel_complete _ res kept). rel_steps.
Qed.
#[local] Hint Resolve rel_complete_checkout : rel.

Lemma rel_pay_checkout cart : rel (pay_checkout env self1 req cart) (pay_checkout env self2 req cart).
Proof.
  unfold pay_checkout, advance, reserve_lines, reject_checkout, decline_checkout.
  rewrite same_policy, same_providers. rel_steps.
Qed.

(** A checkout whose key the first backend lets be claimed. *)
Lemma sim_checkout w1 w2 :
  world_sim w1 w2 -> claimable_key (key_of req) (w_idem w1) ->
  sim_op world_sim (execute_checkout env self1 req) (execute_checkout env self2 req) w1 w2.
Proof.
  intros Hw Hc. unfold execute_checkout. destruct (negb _); [by apply rel_fail|].
  apply sim_bind.
  - destruct (claim_sim _ _ _ kept Hc (ws_idem _ _ Hw)) as [Hr Hs].
    split; unfold on; cbn; [by rewrite Hr|]. destruct Hw. by constructor.
  - intros [[|res]|]; [apply rel_fail|apply rel_ret|].
    apply rel_catch; [apply rel_settle|apply rel_pay_checkout|]. intros e.
    apply rel_bind; [by apply rel_idem_release|intros; apply rel_fail].
Qed.
End checkout.

(** ** Sessions *)

(** What a client sends, one request after the other. *)
Inductive Request :=
| Command (cmd : CartCommand) (id : option CartId)
| Checkout (req : CheckoutRequest).

Definition Response : Type :=
  result CartProjection RunnerError + result TransactionResult RunnerError.

Definition serve {B : Backend} (self : RunnerConfig B) (q : Request) (w : World B)
  : Response * World B :=
  match q with
  | Command cmd id => let '(r, v) := dispatch_cart_command env self cmd id w in (inl r, v)
  | Checkout req => let '(r, v) := execute_checkout env self req w in (inr r, v)
  end.

Fixpoint session {B : Backend} (self : RunnerConfig B) (qs : list Request) (w : World B)
  : list Response * World B :=
  match qs with
  | [] => ([], w)
  | q :: qs => let '(r, v) := serve self q w in
               let '(rs, v) := session self qs v in (r :: rs, v)
  end.

(** No checkout of the session claims a key it may not. *)
Fixpoint session_claims (qs : list Request) (w : World B1) : Prop :=
  match qs with
  | [] => True
  | q :: qs =>
      match q with
      | Command _ _ => True
      | Checkout req => key_kept (key_of req) /\ claimable_key (key_of req) (w_idem w)
      end /\ session_claims qs (snd (serve self1 q w))
  end.

Lemma sim_serve q w1 w2 :
  world_sim w1 w2 ->
  match q with
  | Command _ _ => True
  | Checkout req => key_kept (key_of req) /\ claimable_key (key_of req) (w_idem w1)
  end ->
  fst (serve self1 q w1) = fst (serve self2 q w2)
  /\ world_sim (snd (serve self1 q w1)) (snd (serve self2 q w2)).
Proof.
  intros Hw Hq. destruct q as [cmd id|req]; cbn.
  - destruct (rel_dispatch cmd id w1 w2 Hw) as [Hr Hs].
    destruct (dispatch_cart_command env self1 _ _ _), (dispatch_cart_command env self2 _ _ _).
    cbn in *. by subst.
  - destruct Hq as [Hk Hc]. destruct (sim_checkout req Hk w1 w2 Hw Hc) as [Hr Hs].
    destruct (execute_checkout env self1 _ _), (execute_checkout env self2 _ _).
    cbn in *. by subst.
Qed.

Lemma sim_session qs w1 w2 :
  world_sim w1 w2 -> session_claims qs w1 ->
  fst (session self1 qs w1) = fst (session self2 qs w2)
  /\ world_sim (snd (session self1 qs w1)) (snd (session self2 qs w2)).
Proof.
  revert w1 w2. induction qs as [|q qs IH]; intros w1 w2 Hw Hq; [done|].
  destruct Hq as [Hq Hqs]. destruct (sim_serve q w1 w2 Hw Hq) as [Hr Hs]. cbn.
  destruct (serve self1 q w1) as [r1 v1], (serve self2 q w2) as [r2 v2]. cbn in *. subst.
  destruct (IH _ _ Hs Hqs) as [Hrs Hss].
  destruct (session self1 qs v1), (session self2 qs v2). cbn in *. by subst.
Qed.
End simulation.

(** ** Lawful backends

    Two lawful backends whose operations succeed cannot be told apart by what the laws let
    one observe. *)

(** No operation of a checkout or a cart command fails. *)
Class Healthy (B : Backend) : Prop := {
  append_ok c e (s : EventS) : fst (append_cart_event c e s) = Ok tt;
  put_snapshot_ok p (s : EventS) : fst (put_cart_snapshot p s) = Ok tt;
  set_state_ok c st (s : EventS) : fst (set_cart_state c st s) = Ok tt;
  claim_ok k (s : IdemS) : is_ok (fst (idem_claim k s)) = true;
  complete_ok k res (s : IdemS) : fst (idem_complete k res s) = Ok tt;
  idem_release_ok k (s : IdemS) : fst (idem_release k s) = Ok tt;
  commit_ok txn c ref (s : CommitS) : fst (commit txn c ref s) = Ok (MkCommitRecord txn c ref);
  reserve_ok t c sku q ttl (s : ReserveS) : fst (reserve t c sku q ttl s) = Ok tt;
  finalize_ok c (s : ReserveS) : fst (finalize_cart c s) = Ok tt;
  release_cart_ok c (s : ReserveS) : fst (release_cart c s) = Ok tt;
  enqueue_ok m (s : OutboxS) : fst (enqueue m s) = Ok tt;
  order_put_ok o (s : OrderS) : fst (order_put o s) = Ok tt
}.

Section lawful.
Context {B1 B2 : Backend} {L1 : BackendLaws B1} {L2 : BackendLaws B2}.
Context {H1 : Healthy B1} {H2 : Healthy B2}.

(** Commits are written and never read: what both stores then hold is said by the caller. *)
Context (same_commits : @CommitS B1 -> @CommitS B2 -> Prop).
Context (same_commits_commit : forall txn c ref s1 s2, same_commits s1 s2 ->
  same_commits (snd (commit txn c ref s1)) (snd (commit txn c ref s2))).

Definition same_carts (s1 : @EventS B1) (s2 : @EventS B2) : Prop :=
  forall c, get_cart_snapshot c s1 = get_cart_snapshot c s2
    /\ get_cart_state c s1 = get_cart_state c s2 /\ es_events c s1 = es_events c s2.

Definition both_ok (k : IdempotencyKey) : Prop :=
  @key_ok B1 L1 k /\ @key_ok B2 L2 k.

Definition same_keys (s1 : @IdemS B1) (s2 : @IdemS B2) : Prop :=
  forall k, both_ok k -> idem_lookup k s1 = idem_lookup k s2.

Definition same_stock (s1 : @ReserveS B1) (s2 : @ReserveS B2) : Prop :=
  forall c sku, rs_state c sku s1 = rs_state c sku s2.

Lemma same_keys_claim k s1 s2 :
  both_ok k -> same_keys s1 s2 -> sim_op same_keys (idem_claim k) (idem_claim k) s1 s2.
Proof.
  intros [Hk1 Hk2] Hs. pose proof (Hs k (conj Hk1 Hk2)) as Hl. unfold sim_op.
  destruct (idem_lookup k s1) as [st|] eqn:E1; symmetry in Hl.
  { by rewrite (claim_hit _ _ _ Hk1 E1), (claim_hit _ _ _ Hk2 Hl). }
  pose proof (claim_ok (B:=B1) k s1) as Ho1. pose proof (claim_ok (B:=B2) k s2) as Ho2.
  destruct (idem_claim k s1) as [r1 t1] eqn:C1, (idem_claim k s2) as [r2 t2] eqn:C2.
  destruct (claim_miss _ _ _ _ Hk1 E1 C1) as [[->|[? ->]] Hi1]; [|done].
  destruct (claim_miss _ _ _ _ Hk2 Hl C2) as [[->|[? ->]] Hi2]; [|done].
  split; [done|]. intros k' Hk'. cbn. rewrite Hi1, Hi2 by apply Hk'.
  case_decide; [done|by apply Hs].
Qed.

(** Both answers succeed, and the laws say what is observed afterwards. *)
Ltac lawful :=
  intros; split;
  [rewrite ?append_ok, ?put_snapshot_ok, ?set_state_ok, ?complete_ok, ?idem_release_ok,
     ?commit_ok, ?reserve_ok, ?finalize_ok, ?release_cart_ok, ?enqueue_ok, ?order_put_ok;
   reflexivity|].

Ltac lawful_carts :=
  lawful; intros d;
  match goal with H : same_carts _ _ |- _ => destruct (H d) as (? & ? & ?) end;
  autorewrite with stores; try exact _; repeat case_decide; repeat split; congruence.

Ltac lawful_stock :=
  lawful; intros d sku';
  match goal with H : same_stock _ _ |- _ => pose proof (H d sku') end;
  autorewrite with stores; try exact _; repeat case_decide; congruence.

Definition lawful_sim : BackendSim B1 B2.
Proof.
  refine {|
    key_kept := both_ok; claimable_key _ _ := True; events_sim := same_carts;
    idem_sim := same_keys; commit_sim := same_commits; res_sim := same_stock;
    outbox_sim s1 s2 := ob_queue s1 = ob_queue s2;
    orders_sim s1 s2 := forall id, order_get id s1 = order_get id s2;
    pay_sim s1 s2 := forall txn, pay_get txn s1 = pay_get txn s2 |}.
  1-3: lawful_carts.
  1-2: by intros c s1 s2 Hs; destruct (Hs c) as (? & ? & ?).
  - intros. by apply same_keys_claim.
  - intros k res s1 s2 [Hk1 Hk2] Hs. lawful. intros k' [Hk1' Hk2'].
    rewrite !complete_lookup by done. case_decide; [done|]. by apply Hs.
  - intros k s1 s2 [Hk1 Hk2] Hs. lawful. intros k' Hk'.
    pose proof (Hs k' Hk') as Hl. destruct Hk'. rewrite !release_lookup by done.
    by rewrite Hl.
  - lawful. by apply same_commits_commit.
  - lawful_stock.
  - lawful_stock.
  - lawful_stock.
  - lawful. rewrite !queue_enqueue. congruence.
  - lawful. intros i. rewrite !order_put_get. by case_decide.
  - done.
  - intros txn st s1 s2 Hs t. rewrite !pay_put_get. by case_decide.
  - done.
Defined.
End lawful.
