(* ===== verification/PgRefine.v ===== *)
(** * What the PostgreSQL stores implement

    While the database answers and the JSON conversions lose nothing, a checkout or a cart
    command on the PostgreSQL stores does what it does on the in-memory stores, with one
    exception: [claim] cannot tell a key that another request holds in flight from a key
    that is free. *)

From S2P Require Export PgStores BackendSim.

(** Every statement is answered. *)
Definition db_up : string -> nat -> option QueryFault := fun _ _ => None.

(** [to_value] succeeds and [from_value] undoes it. *)
Class Lossless (J T : Type) `{JsonValue J T} : Prop :=
  lossless (x : T) : exists j, to_value x = Ok j /\ from_value j = Ok x.

Class LosslessFormat (J : Type) `{PgFormat J} : Prop := {
  ll_events :: Lossless J (list CartStreamEvent);
  ll_snapshot :: Lossless J CartProjection;
  ll_state :: Lossless J CartState;
  ll_idem :: Lossless J IdempotencyState;
  ll_commit :: Lossless J CommitRecord;
  ll_reservation :: Lossless J ReservationDto;
  ll_message :: Lossless J OutboxMessage;
  ll_order :: Lossless J OrderRecord;
  ll_payment :: Lossless J PaymentState
}.

(** ** Rows and the values they hold *)

Section rows.
Context {J : Type}.

(** The row a value is stored as. *)
Definition stored {T} `{JsonValue J T} (x : option T) (row : option J) : Prop :=
  match x, row with
  | Some x, Some j => to_value x = Ok j
  | None, None => True
  | _, _ => False
  end.

Context {T : Type} `{Lossless J T}.

Lemma from_to (x : T) j : to_value x = Ok j -> from_value j = Ok x.
Proof. destruct (lossless x) as (i & Hi & Hf). rewrite Hi. by intros [= <-]. Qed.

Lemma to_value_inj (x y : T) j : to_value x = Ok j -> to_value y = Ok j -> x = y.
Proof. intros Hx%from_to Hy%from_to. congruence. Qed.

Lemma stored_from (x : option T) row : stored x row -> row ≫= from_value_ok = x.
Proof.
  destruct x as [x|], row as [j|]; cbn; try done. intros Hj%from_to.
  unfold from_value_ok. by rewrite Hj.
Qed.

(** A table that holds a map, at the keys that satisfy [P]. *)
Definition holds {K} `{Countable K} (P : K -> Prop) (key : K -> string) (m : gmap K T)
    (rows : gmap string J) : Prop :=
  forall k, P k -> stored (m !! k) (rows !! key k).

Context {K : Type} `{Countable K} (P : K -> Prop) (key : K -> string).
Context (key_inj : forall k k', P k -> P k' -> key k = key k' -> k = k').

Lemma holds_insert k (x : T) j m rows :
  P k -> to_value x = Ok j -> holds P key m rows ->
  holds P key (<[k := x]> m) (<[key k := j]> rows).
Proof.
  intros Hk Hj Hm k' Hk'. destruct (decide (k' = k)) as [->|Hne].
  - by rewrite !lookup_insert_eq.
  - rewrite !lookup_insert_ne; [by apply Hm| |by intros ->].
    intros He. by apply Hne, eq_sym, key_inj.
Qed.
End rows.

(** ** Statements that are answered *)

#[local] Arguments exec : simpl never.

Section up.
Context {J : Type} `{EqDecision J} {format : PgFormat J}.

Lemma exec_up {R A} t (stmt : R -> A * R) s :
  exec (db_up t) stmt s
  = (Ok (fst (stmt (pg_rows s))), MkPg (snd (stmt (pg_rows s))) (S (pg_io s))).
Proof. unfold exec, exec_at. by destruct (stmt _). Qed.

Lemma put_up {T} `{JsonValue J T} t key (x : T) j s :
  to_value x = Ok j ->
  pg_put db_up t key x s = (Ok tt, MkPg (<[key := j]> (pg_rows s)) (S (pg_io s))).
Proof.
  intros Hj. unfold pg_put, to_json_value, mbind, ST_bind, st_lift. rewrite Hj.
  exact (exec_up t (sql_upsert key j) s).
Qed.

Lemma get_up {T} `{Lossless J T} t key s (x : option T) :
  stored x (pg_rows s !! key) -> pg_get db_up t key s = x.
Proof. intros Hx. unfold pg_get, peek. cbn. by apply stored_from. Qed.
End up.

(** ** The stores *)

Section stores.
Context {J : Type} `{EqDecision J} {format : PgFormat J} {ll : LosslessFormat J}.
Context (uuid_display : Uuid -> string) (uuid_inj : Inj eq eq uuid_display).
Context (uuid_no_bar : forall u, no_bar (uuid_display u) = true).

Abbreviation Table := (PgTable (gmap string J)).
Abbreviation cart_key := (cart_id_key uuid_display).
Abbreviation stock_key := (reservation_key uuid_display).

Definition always {K : Type} (k : K) : Prop := True.

Lemma cart_key_inj c c' : cart_key c = cart_key c' -> c = c'.
Proof. destruct c, c'. intros H%uuid_inj. cbn in H. congruence. Qed.

(** *** Events *)

Record events_held (s1 : InMemoryEventStore) (s2 : PostgresEventStore (J:=J)) : Prop := {
  eh_events : holds always cart_key (cart_events s1) (pg_rows (pe_events s2));
  eh_snapshots : holds always cart_key (cart_snapshots s1) (pg_rows (pe_snapshots s2));
  eh_states : holds always cart_key (cart_states s1) (pg_rows (pe_states s2))
}.

Abbreviation pg_events := (pg_event_store db_up uuid_display).

Lemma pg_append_up c e s1 t :
  holds always cart_key (cart_events s1) (pg_rows t) ->
  exists j n, to_value (unwrap_or (cart_events s1 !! c) [] ++ [e]) = Ok j
    /\ pg_append_cart_event db_up uuid_display c e t
       = (Ok tt, MkPg (<[cart_key c := j]> (pg_rows t)) n).
Proof.
  intros Hh. destruct (lossless (unwrap_or (cart_events s1 !! c) [] ++ [e])) as (j & Hj & _).
  exists j. unfold pg_append_cart_event, pg_read_events, pg_write_events, to_json_value,
    from_json_value, mbind, ST_bind, st_lift. rewrite exec_up. cbn [sql_select fst snd pg_rows pg_io].
  specialize (Hh c I). destruct (cart_events s1 !! c) as [es|], (pg_rows t !! cart_key c) as [row|];
    try done; cbn in Hh, Hj |- *.
  - rewrite (from_to _ _ Hh). cbn. rewrite Hj. cbn. rewrite exec_up. cbn. eauto.
  - rewrite Hj. cbn. rewrite exec_up. cbn. eauto.
Qed.

Lemma pg_append_sim c e s1 s2 : events_held s1 s2 ->
  sim_op events_held (mem_append_cart_event c e)
    (@append_cart_event _ pg_events c e) s1 s2.
Proof.
  intros [He Hs Ht]. unfold sim_op. cbn. unfold on_table.
  destruct (pg_append_up c e s1 _ He) as (j & n & Hj & ->). split; [done|].
  constructor; try done. cbn. apply holds_insert; [|done..]. intros ????. apply cart_key_inj.
Qed.

Lemma pg_put_snapshot_sim p s1 s2 : events_held s1 s2 ->
  sim_op events_held (mem_put_cart_snapshot p) (@put_cart_snapshot _ pg_events p) s1 s2.
Proof.
  intros [He Hs Ht]. unfold sim_op. cbn. unfold on_table.
  destruct (lossless p) as (j & Hj & _). rewrite (put_up _ _ _ _ _ Hj). split; [done|].
  constructor; try done. cbn. apply holds_insert; [|done..]. intros ????. apply cart_key_inj.
Qed.

Lemma pg_set_state_sim c st s1 s2 : events_held s1 s2 ->
  sim_op events_held (mem_set_cart_state c st) (@set_cart_state _ pg_events c st) s1 s2.
Proof.
  intros [He Hs Ht]. unfold sim_op. cbn. unfold on_table.
  destruct (lossless st) as (j & Hj & _). rewrite (put_up _ _ _ _ _ Hj). split; [done|].
  constructor; try done. cbn. apply holds_insert; [|done..]. intros ????. apply cart_key_inj.
Qed.

(** *** Keys *)

(** A row that says in flight may stand for a free key: [claim] treats it as one. *)
Definition key_held (x : option IdempotencyState) (row : option J) : Prop :=
  stored x row \/ x = None /\ exists j, row = Some j /\ to_value InFlight = Ok j.

Definition keys_held (s1 : InMemoryIdempotencyStore) (s2 : Table) : Prop :=
  forall k, key_without_bar k ->
    key_held (idem_inner s1 !! k) (pg_rows s2 !! idempotency_key_str k).

Lemma keys_held_insert k st j s1 s2 n :
  key_without_bar k -> to_value st = Ok j -> keys_held s1 s2 ->
  keys_held (MkIdemStore (<[k := st]> (idem_inner s1)))
    (MkPg (<[idempotency_key_str k := j]> (pg_rows s2)) n).
Proof.
  intros Hk Hj Hs k' Hk'. cbn. destruct (decide (k' = k)) as [->|Hne].
  - rewrite !lookup_insert_eq. by left.
  - rewrite !lookup_insert_ne; [by apply Hs| |by intros ->].
    intros He. by apply Hne, eq_sym, idempotency_key_str_inj.
Qed.

Lemma pg_claim_sim k s1 s2 :
  key_without_bar k -> idem_inner s1 !! k <> Some InFlight -> keys_held s1 s2 ->
  sim_op keys_held (mem_claim k) (pg_claim db_up k) s1 s2.
Proof.
  intros Hk Hfree Hs. destruct (lossless InFlight) as (fl & Hfl & _).
  unfold sim_op, pg_claim, mem_claim, to_json_value, mbind, ST_bind, st_lift. rewrite Hfl.
  cbn [map_err]. rewrite exec_up. unfold sql_claim, sql_insert_new. pose proof (Hs k Hk) as Hrow.
  destruct (idem_inner s1 !! k) as [[|res]|] eqn:E1, (pg_rows s2 !! idempotency_key_str k) as [j|] eqn:E2;
    try done; try (by destruct Hrow as [[]|[? (? & ? & ?)]]); cbn.
  - destruct Hrow as [Hj|[? _]]; [|done]. rewrite E2. cbn. unfold from_json_value, st_lift.
    rewrite (from_to _ _ Hj). cbn. split; [done|]. done.
  - destruct Hrow as [[]|[_ (j' & [= <-] & Hj)]].
    rewrite E2. cbn. unfold from_json_value, st_lift. rewrite (from_to _ _ Hj). cbn.
    split; [done|]. intros k' Hk'. cbn. destruct (decide (k' = k)) as [->|Hne].
    + rewrite lookup_insert_eq, E2. by left.
    + rewrite lookup_insert_ne by done. by apply Hs.
  - rewrite lookup_insert_eq. cbn. unfold from_json_value, st_lift. rewrite (from_to _ _ Hfl).
    cbn. split; [done|]. by apply keys_held_insert.
Qed.

Lemma pg_complete_sim k res s1 s2 :
  key_without_bar k -> keys_held s1 s2 ->
  sim_op keys_held (mem_complete k res)
    (pg_put db_up "idempotency" (idempotency_key_str k) (IdemCompleted res)) s1 s2.
Proof.
  intros Hk Hs. destruct (lossless (IdemCompleted res)) as (j & Hj & _).
  unfold sim_op. rewrite (put_up _ _ _ _ _ Hj). cbn. split; [done|].
  by apply keys_held_insert.
Qed.

Lemma pg_release_sim k s1 s2 :
  key_without_bar k -> keys_held s1 s2 ->
  sim_op keys_held (mem_release k) (pg_release db_up k) s1 s2.
Proof.
  intros Hk Hs. destruct (lossless InFlight) as (fl & Hfl & _).
  unfold sim_op, pg_release, to_json_value, mbind, ST_bind, st_lift. rewrite Hfl. cbn [map_err].
  rewrite exec_up. unfold sql_delete_if. cbn. unfold mem_release. pose proof (Hs k Hk) as Hrow.
  assert (forall m, (forall k', k' <> k -> m !! k' = idem_inner s1 !! k') -> m !! k = None ->
    keys_held (MkIdemStore m) (MkPg (delete (idempotency_key_str k) (pg_rows s2)) (S (pg_io s2))))
    as Hdel.
  { intros m Hm Hn k' Hk'. cbn. destruct (decide (k' = k)) as [->|Hne].
    - rewrite Hn, lookup_delete_eq. by left.
    - rewrite Hm, lookup_delete_ne by (done || intros He; by apply Hne, eq_sym, idempotency_key_str_inj).
      by apply Hs. }
  case_bool_decide as Hd.
  - assert (idem_inner s1 !! k = Some InFlight \/ idem_inner s1 !! k = None) as [E|E].
    { rewrite Hd in Hrow. destruct Hrow as [Hst|[-> _]]; [|by right].
      destruct (idem_inner s1 !! k) as [st|]; [left|by right].
      f_equal. by eapply to_value_inj. }
    + rewrite E. split; [done|]. apply Hdel; [|by rewrite lookup_delete_eq].
      intros k' Hne. by rewrite lookup_delete_ne.
    + rewrite E. split; [done|]. destruct s1 as [m]. by apply Hdel.
  - assert (idem_inner s1 !! k <> Some InFlight) as Hne.
    { intros E. apply Hd. rewrite E in Hrow. destruct Hrow as [Hst|[? _]]; [|done].
      destruct (pg_rows s2 !! _); cbn in Hst; [congruence|done]. }
    destruct (idem_inner s1 !! k) as [[]|]; split; done.
Qed.

(** *** Commits *)

Definition commits_held (s1 : InMemoryCommitStore) (s2 : Table) : Prop :=
  holds always cart_key (commit_records s1) (pg_rows s2).

Lemma pg_commit_sim txn c ref s1 s2 :
  commits_held s1 s2 ->
  sim_op commits_held (mem_commit txn c ref)
    (@commit _ (pg_commit_store db_up uuid_display) txn c ref) s1 s2.
Proof.
  intros Hs. destruct (lossless (MkCommitRecord txn c ref)) as (j & Hj & _).
  unfold sim_op. cbn. unfold mbind, ST_bind. rewrite (put_up _ _ _ _ _ Hj). split; [done|].
  apply holds_insert; [|done..]. intros ????. apply cart_key_inj.
Qed.

(** *** Stock *)

Definition same_line (r : ReservationRecord) (d : ReservationDto) (c : CartId) : Prop :=
  rr_cart_id r = c /\ rr_quantity r = rd_quantity d /\ rr_state r = rd_state d.

(** The row of a reservation; the lease is kept by another clock and is not compared. *)
Definition line_held (c : CartId) (r : option ReservationRecord) (row : option J) : Prop :=
  match r, row with
  | Some r, Some j => exists d, to_value d = Ok j /\ same_line r d c
  | None, None => True
  | _, _ => False
  end.

(** Every row is a reservation of the other store. *)
Record stock_held (s1 : InMemoryReservationStore) (s2 : Table) : Prop := {
  sh_line : forall c sku, line_held c (res_inner s1 !! (c, sku)) (pg_rows s2 !! stock_key c sku);
  sh_key : forall key j, pg_rows s2 !! key = Some j -> exists c sku, key = stock_key c sku
}.

Lemma stock_key_eq c sku c' sku' : stock_key c sku = stock_key c' sku' <-> c = c' /\ sku = sku'.
Proof. by apply reservation_key_inj. Qed.

Lemma pg_reserve_sim t c sku q ttl s1 s2 :
  stock_held s1 s2 ->
  sim_op stock_held (mem_reserve t c sku q ttl)
    (@reserve _ (pg_reservation_store db_up uuid_display) t c sku q ttl) s1 s2.
Proof.
  intros [Hl Hk]. unfold sim_op. cbn.
  destruct (lossless (MkReservationDto c sku q Reserved (timestamp t +! ttl / 1000000000)%Z))
    as (j & Hj & _). rewrite (put_up _ _ _ _ _ Hj). split; [done|]. constructor; cbn.
  - intros c' sku'. destruct (decide (c' = c /\ sku' = sku)) as [[-> ->]|Hne].
    + rewrite !lookup_insert_eq. by eexists.
    + rewrite !lookup_insert_ne; [apply Hl| |naive_solver].
      rewrite stock_key_eq. naive_solver.
  - intros key j'. rewrite lookup_insert_Some. intros [[<- _]|[_ Hj']]; [by eauto|by eapply Hk].
Qed.

(** The loop of [update_reservations_for_cart] over rows of distinct keys. *)
Lemma pg_mark_rows st rows s :
  NoDup rows.*1 ->
  (forall key j, (key, j) ∈ rows -> pg_rows s !! key = Some j) ->
  (forall key j, (key, j) ∈ rows -> exists d : ReservationDto, to_value d = Ok j) ->
  exists s', st_iter (pg_mark db_up st) rows s = (Ok tt, s')
    /\ (forall key, key ∉ rows.*1 -> pg_rows s' !! key = pg_rows s !! key)
    /\ forall key j, (key, j) ∈ rows -> exists d j', to_value d = Ok j
         /\ to_value (rd_set_state st d) = Ok j' /\ pg_rows s' !! key = Some j'.
Proof.
  revert s. induction rows as [|[key j] rows IH]; intros s Hnd Hrow Hd.
  { exists s. split; [done|]. split; [done|]. intros ?? []%elem_of_nil. }
  apply NoDup_cons in Hnd as [Hnew Hnd].
  destruct (Hd key j (list_elem_of_here _ _)) as [d Hj].
  destruct (lossless (rd_set_state st d)) as (j' & Hj' & _).
  set (s1 := MkPg (<[key := j']> (pg_rows s)) (S (pg_io s))).
  assert (pg_mark db_up st (key, j) s = (Ok tt, s1)) as Hstep.
  { unfold pg_mark, to_json_value, from_json_value, mbind, ST_bind, st_lift. cbn.
    rewrite (from_to _ _ Hj). cbn. rewrite Hj'. cbn. rewrite exec_up. cbn.
    by rewrite (Hrow key j (list_elem_of_here _ _)). }
  destruct (IH s1) as (s' & Hrun & Hkeep & Hset); [done| | |].
  - intros k i Hi. cbn. rewrite lookup_insert_ne; [by apply Hrow; right|].
    intros <-. apply Hnew. apply list_elem_of_fmap. by exists (key, i).
  - intros k i Hi. apply (Hd k). by right.
  - exists s'. split; [|split].
    + cbn [st_iter]. unfold mbind, ST_bind. by rewrite Hstep.
    + intros k Hk. cbn in Hk. apply not_elem_of_cons in Hk as [Hne Hk].
      rewrite Hkeep by done. cbn. by rewrite lookup_insert_ne.
    + intros k i [[= -> ->]|Hi]%elem_of_cons; [|by apply Hset].
      exists d, j'. split_and!; try done. rewrite Hkeep by done. by apply lookup_insert_eq.
Qed.

Lemma filter_fst_nodup {A B} (p : A * B -> bool) (l : list (A * B)) :
  NoDup l.*1 -> NoDup (List.filter p l).*1.
Proof.
  induction l as [|x l IH]; cbn; [done|]. intros [Hx Hl]%NoDup_cons.
  destruct (p x); cbn; [|by apply IH]. apply NoDup_cons. split; [|by apply IH].
  intros (y & Hy & Hin)%list_elem_of_fmap. apply Hx, list_elem_of_fmap. exists y. split; [done|].
  apply list_elem_of_In in Hin. apply list_elem_of_In. by apply filter_In in Hin as [].
Qed.

Lemma elem_of_like prefix (rows : gmap string J) key j :
  (key, j) ∈ fst (sql_select_like prefix rows)
  <-> rows !! key = Some j /\ starts_with prefix key = true.
Proof.
  unfold sql_select_like. cbn. rewrite list_elem_of_In, filter_In, <- list_elem_of_In.
  by rewrite elem_of_map_to_list.
Qed.

Lemma update_reservations_up c st s1 s2 :
  stock_held s1 s2 ->
  exists s', update_reservations_for_cart db_up uuid_display c st s2 = (Ok tt, s')
    /\ forall key, match pg_rows s2 !! key with
                    | Some j => exists d : ReservationDto, to_value d = Ok j
                        /\ exists j', pg_rows s' !! key = Some j'
                        /\ to_value (if starts_with (reservation_prefix uuid_display c) key
                                      then rd_set_state st d else d) = Ok j'
                    | None => pg_rows s' !! key = None
                    end.
Proof.
  intros [Hl Hk]. set (prefix := reservation_prefix uuid_display c).
  set (rows := fst (sql_select_like prefix (pg_rows s2))).
  set (s := MkPg (pg_rows s2) (S (pg_io s2))).
  assert (forall key j, pg_rows s2 !! key = Some j -> exists d : ReservationDto, to_value d = Ok j)
    as Hdto.
  { intros key j Hj. destruct (Hk key j Hj) as (c' & sku & ->). specialize (Hl c' sku).
    rewrite Hj in Hl. destruct (res_inner s1 !! _); [|done]. destruct Hl as (d & Hd & _). by exists d. }
  destruct (pg_mark_rows st rows s) as (s' & Hrun & Hkeep & Hset).
  - apply filter_fst_nodup, NoDup_fst_map_to_list.
  - by intros key j [Hj _]%elem_of_like.
  - intros key j [Hj _]%elem_of_like. by eapply Hdto.
  - exists s'. split.
    { unfold update_reservations_for_cart, mbind, ST_bind. by rewrite exec_up. }
    intros key. destruct (pg_rows s2 !! key) as [j|] eqn:Hj.
    + destruct (starts_with prefix key) eqn:Hp.
      * destruct (Hset key j) as (d & j' & Hd & Hj' & Hrow); [by apply elem_of_like|].
        exists d. split; [done|]. by exists j'.
      * destruct (Hdto _ _ Hj) as [d Hd]. exists d. split; [done|]. exists j.
        rewrite Hkeep; [done|]. intros (y & -> & Hin)%list_elem_of_fmap. destruct y as [k i].
        apply elem_of_like in Hin as [_ Hin]. cbn in Hp. congruence.
    + rewrite Hkeep; [done|]. intros (y & -> & Hin)%list_elem_of_fmap. destruct y as [k i].
      apply elem_of_like in Hin as [Hin _]. cbn in Hj. congruence.
Qed.

Lemma pg_mark_sim c st s1 s2 :
  stock_held s1 s2 ->
  sim_op (E:=StoreError) stock_held
    (fun s => (Ok tt, MkReservationStore (mark_cart c st <$> res_inner s)))
    (update_reservations_for_cart db_up uuid_display c st) s1 s2.
Proof.
  intros Hs. destruct (update_reservations_up c st s1 s2 Hs) as (s' & Hrun & Hrows).
  destruct Hs as [Hl Hk]. unfold sim_op. rewrite Hrun. split; [done|]. constructor; cbn.
  - intros c' sku. specialize (Hl c' sku). specialize (Hrows (stock_key c' sku)).
    rewrite lookup_fmap. rewrite (starts_with_key uuid_display uuid_inj uuid_no_bar) in Hrows.
    destruct (res_inner s1 !! (c', sku)) as [r|], (pg_rows s2 !! stock_key c' sku) as [j|];
      try done; cbn in Hl |- *; [|by rewrite Hrows].
    destruct Hl as (d & Hd & Hc & Hq & Hst), Hrows as (d' & Hd' & j' & -> & Hj').
    pose proof (to_value_inj _ _ _ Hd Hd') as <-.
    exists (if bool_decide (c' = c) then rd_set_state st d else d). split; [done|].
    unfold mark_cart. rewrite Hc. case_bool_decide; by split_and!.
  - intros key j Hj. specialize (Hrows key).
    destruct (pg_rows s2 !! key) as [i|] eqn:Hi; [by eapply Hk|congruence].
Qed.

(** *** Outbox *)

(** The message last queued under an id. *)
Fixpoint last_with (id : string) (q : list OutboxMessage) : option OutboxMessage :=
  match q with
  | [] => None
  | m :: q => match last_with id q with
              | Some m => Some m
              | None => if String.eqb (om_id m) id then Some m else None
              end
  end.

Definition row_message (id : string) (rows : list (OutboxRow (J:=J))) : option J :=
  ox_message <$> find_first (has_id id) rows.

(** Both queues hold the same message under every id. *)
Definition queue_held (s1 : Outbox) (s2 : PgTable (list (OutboxRow (J:=J)))) : Prop :=
  forall id, stored (last_with id (ob_inner s1)) (row_message id (pg_rows s2)).

Lemma last_with_app id q m :
  last_with id (q ++ [m]) = if String.eqb (om_id m) id then Some m else last_with id q.
Proof. induction q as [|x q IH]; cbn; [done|]. rewrite IH. by destruct (_ =? _)%string. Qed.

Lemma row_message_enqueue id id' v rows :
  row_message id (snd (sql_enqueue id' v rows))
  = if String.eqb id' id then Some v else row_message id rows.
Proof.
  unfold row_message, sql_enqueue, find_first. cbn.
  induction rows as [|row rows IH]; cbn [update_first].
  - cbn. unfold has_id. cbn. by destruct (_ =? _)%string.
  - destruct (has_id id' row) eqn:Hr; cbn.
    + unfold has_id in *. cbn. apply String.eqb_eq in Hr. subst.
      by destruct (_ =? _)%string.
    + destruct (update_first _ _ rows) as [rows'|]; cbn in IH |- *;
        (destruct (has_id id row) eqn:Hi; [|by rewrite IH]); unfold has_id in *;
        apply String.eqb_eq in Hi; subst;
        (destruct (String.eqb_spec id' (ox_message_id row)) as [->|]; [|done]);
        by rewrite String.eqb_refl in Hr.
Qed.

Lemma pg_enqueue_sim m s1 s2 :
  queue_held s1 s2 -> sim_op queue_held (mem_enqueue m) (pg_enqueue db_up m) s1 s2.
Proof.
  intros Hs. destruct (lossless m) as (j & Hj & _).
  unfold sim_op, pg_enqueue, to_json_value, mbind, ST_bind, st_lift. rewrite Hj. cbn [map_err].
  rewrite exec_up. split; [done|]. intros id. cbn [ob_inner mem_enqueue snd pg_rows].
  rewrite last_with_app, row_message_enqueue. by destruct (_ =? _)%string.
Qed.

(** *** Orders and payment states *)

Definition orders_held (s1 : InMemoryOrderStore) (s2 : Table) : Prop :=
  holds always id (order_records s1) (pg_rows s2).

Definition payments_held (s1 : InMemoryPaymentStateStore) (s2 : Table) : Prop :=
  holds always id (pay_inner s1) (pg_rows s2).

Lemma pg_order_put_sim o s1 s2 :
  orders_held s1 s2 ->
  sim_op orders_held (mem_order_put o) (pg_put db_up "orders" (or_order_id o) o) s1 s2.
Proof.
  intros Hs. destruct (lossless o) as (j & Hj & _). unfold sim_op.
  rewrite (put_up _ _ _ _ _ Hj). split; [done|].
  apply (holds_insert always id (fun _ _ _ _ H => H)); done.
Qed.

Lemma pg_pay_put_sim null txn st s1 s2 :
  payments_held s1 s2 ->
  payments_held (MkPayStore (<[txn := st]> (pay_inner s1)))
    (@pay_put _ (pg_payment_state_store db_up null) txn st s2).
Proof.
  intros Hs. destruct (lossless st) as (j & Hj & _). cbn. rewrite Hj, exec_up. cbn.
  apply (holds_insert always id (fun _ _ _ _ H => H)); done.
Qed.

(** *** The backend *)

Context (db_now : nat -> Z) (is_null : J -> bool) (contains_text : J -> string -> bool) (null : J).

Abbreviation postgres := (pg_backend db_up uuid_display db_now is_null contains_text null).

(** The in-memory stores, with the keys in flight left out of the claims. *)
Definition pg_sim : BackendSim memory_backend postgres.
Proof.
  refine {|
    key_kept := key_without_bar;
    claimable_key k (s : @IdemS memory_backend) := idem_inner s !! k <> Some InFlight;
    events_sim := events_held : @EventS memory_backend -> @EventS postgres -> Prop;
    idem_sim := keys_held : @IdemS memory_backend -> @IdemS postgres -> Prop;
    commit_sim := commits_held : @CommitS memory_backend -> @CommitS postgres -> Prop;
    res_sim := stock_held : @ReserveS memory_backend -> @ReserveS postgres -> Prop;
    outbox_sim := queue_held : @OutboxS memory_backend -> @OutboxS postgres -> Prop;
    orders_sim := orders_held : @OrderS memory_backend -> @OrderS postgres -> Prop;
    pay_sim := payments_held : @PayS memory_backend -> @PayS postgres -> Prop |}.
  - exact pg_append_sim.
  - exact pg_put_snapshot_sim.
  - exact pg_set_state_sim.
  - intros c s1 s2 [_ Hs _]. symmetry. by apply get_up, Hs.
  - intros c s1 s2 [_ _ Hs]. symmetry. by apply get_up, Hs.
  - exact pg_claim_sim.
  - exact pg_complete_sim.
  - exact pg_release_sim.
  - exact pg_commit_sim.
  - exact pg_reserve_sim.
  - intros c. exact (pg_mark_sim c Finalized).
  - intros c. exact (pg_mark_sim c Released).
  - exact pg_enqueue_sim.
  - exact pg_order_put_sim.
  - intros id s1 s2 Hs. symmetry. apply get_up. exact (Hs id I).
  - exact (pg_pay_put_sim null).
  - intros txn s1 s2 Hs. symmetry. apply get_up. exact (Hs txn I).
Defined.
End stores.
