(* ===== verification/Demo.v ===== *)
(** * A concrete deployment: in-memory stores and mock providers

    The environment, catalog and runner the witnesses evaluate the model on.  It is
    the configuration of the repository's quick start: [InMemory*] stores and the
    providers of [provider-mocks]. *)

From S2P Require Export Runner MemStores.

Definition demo_env : Env :=
  MkEnv (fun n => N.of_nat n) (fun u => pretty u)
    (fun n => MkClock (Z.of_nat n * 1000000000) (Z.of_nat n * 1000000000)).

Definition demo_items : gmap string CatalogItem :=
  {[ "sku" := MkCatalogItem "sku" "Widget" 1000 ]}.

Definition demo_runner : RunnerConfig memory_backend :=
  MkRunner (mock_providers (fun u => pretty u) demo_items) default_policy None.

Definition empty_world : World memory_backend :=
  MkWorld memory_backend (MkEventStore ∅ ∅ ∅) (MkIdemStore ∅) (MkCommitStore ∅)
    (MkReservationStore ∅) (MkOutbox []) (MkInbox ∅) (MkDeadLetter ∅) (MkOrderStore ∅)
    (MkPayStore ∅) (MkMandateStore ∅) (MkWebhookStore ∅) 0 [].

(** Replaces one provider of the demo runner. *)
Definition with_tax (f : nat -> CartProjection -> result Z TaxError)
    (r : RunnerConfig memory_backend) : RunnerConfig memory_backend :=
  let p := providers r in
  MkRunner (MkProviderSet (catalog p) (pricing p) f (geo_check p) (authorize p) (capture p)
              (void p) (refund p) (provider_payment_state p) (receipt_generate p)
              (fulfillment p)) (policy r) (outbox_deliverer r).

Definition with_authorize (f : nat -> CheckoutRequest -> result AuthResult PaymentError)
    (r : RunnerConfig memory_backend) : RunnerConfig memory_backend :=
  let p := providers r in
  MkRunner (MkProviderSet (catalog p) (pricing p) (resolve_tax p) (geo_check p) f (capture p)
              (void p) (refund p) (provider_payment_state p) (receipt_generate p)
              (fulfillment p)) (policy r) (outbox_deliverer r).

(** The cart every demo uses: the first id drawn, two widgets, owned by tenant [t1]. *)
Definition demo_cart : CartId := MkCartId 0%N.

Definition created_world : World memory_backend :=
  snd (dispatch_cart_command demo_env demo_runner
         (CreateCart (MkCreateCart "m1" "USD" (Some "t1"))) None empty_world).

Definition filled_world : World memory_backend :=
  snd (dispatch_cart_command demo_env demo_runner (AddItem (MkAddItem "sku" 2))
         (Some demo_cart) created_world).

Definition cancelled_world : World memory_backend :=
  snd (dispatch_cart_command demo_env demo_runner (CancelCart (MkCancelCart demo_cart)) None
         filled_world).

(** A checkout request for version [v] of the demo cart. *)
Definition demo_request (v amount : Z) (key : string) : CheckoutRequest :=
  MkCheckoutRequest "t1" "m1" demo_cart v "USD" None None
    (MkPaymentIntent amount "tok" None None None None None) key.

Example filled_total :
  cp_total_minor <$> get_cart_snapshot demo_cart (w_events filled_world) = Some 2200%Z.
Proof. vm_compute. reflexivity. Qed.
