(* ===== verification/PgDemo.v ===== *)
(** * A PostgreSQL deployment to run the model on

    JSON values that remember what they were made from, empty tables and a runner of the
    mock providers. *)

From S2P Require Export PgRefine Demo.

(** JSON values that remember what they were made from. *)
Inductive Doc :=
| DNull
| DEvents (x : list CartStreamEvent)
| DSnapshot (x : CartProjection)
| DState (x : CartState)
| DIdem (x : IdempotencyState)
| DCommit (x : CommitRecord)
| DReservation (x : ReservationDto)
| DMessage (x : OutboxMessage)
| DOrder (x : OrderRecord)
| DPayment (x : PaymentState)
| DFilter (x : list string).

#[export] Instance Doc_eq_dec : EqDecision Doc.
Proof. solve_decision. Defined.

Definition doc {T} (inj : T -> Doc) (proj : Doc -> option T) : JsonValue Doc T := {|
  to_value x := Ok (inj x); from_value j := ok_or (proj j) "invalid type" |}.

#[export] Instance doc_format : PgFormat Doc := {|
  jv_events := doc DEvents (fun j => match j with DEvents x => Some x | _ => None end);
  jv_snapshot := doc DSnapshot (fun j => match j with DSnapshot x => Some x | _ => None end);
  jv_state := doc DState (fun j => match j with DState x => Some x | _ => None end);
  jv_idem := doc DIdem (fun j => match j with DIdem x => Some x | _ => None end);
  jv_commit := doc DCommit (fun j => match j with DCommit x => Some x | _ => None end);
  jv_reservation :=
    doc DReservation (fun j => match j with DReservation x => Some x | _ => None end);
  jv_message := doc DMessage (fun j => match j with DMessage x => Some x | _ => None end);
  jv_order := doc DOrder (fun j => match j with DOrder x => Some x | _ => None end);
  jv_payment := doc DPayment (fun j => match j with DPayment x => Some x | _ => None end);
  jv_filter := doc DFilter (fun j => match j with DFilter x => Some x | _ => None end)
|}.

#[export] Instance doc_lossless : LosslessFormat Doc.
Proof. constructor; intros x; eexists; by split. Qed.

Abbreviation demo_postgres :=
  (pg_backend db_up (fun u => pretty u) (fun n => Z.of_nat n)
     (fun j => match j with DNull => true | _ => false end)
     (fun j t => match j with DFilter x => bool_decide (t ∈ x) | _ => false end) DNull).

Definition empty_table {T} : PgTable (gmap string T) := MkPg ∅ 0.

Definition empty_postgres : World demo_postgres :=
  MkWorld demo_postgres (MkPgEvents empty_table empty_table empty_table) empty_table empty_table
    empty_table (MkPg [] 0) empty_table empty_table empty_table empty_table empty_table
    empty_table 0 [].

(** A runner of the mock providers for any backend; [receipts] says when they work. *)
Definition mock_runner (B : Backend) (receipts : nat -> bool) : RunnerConfig B :=
  let p := mock_providers (fun u => pretty u) demo_items in
  MkRunner (MkProviderSet (catalog p) (pricing p) (resolve_tax p) (geo_check p) (authorize p)
              (capture p) (void p) (refund p) (provider_payment_state p)
              (fun n cart res => if receipts n then receipt_generate p n cart res
                            else Err (ReceiptFailed "timeout"))
              (fulfillment p)) default_policy None.
