(* ===== verification/PgOutbox.v ===== *)
(** * The PostgreSQL outbox under failures, and two appends at once

    Workers share the [outbox] table by leases: a claimed row stays until it is acknowledged
    and is offered again when its lease is over.  The statements of a run may fail in any
    way unless a theorem says otherwise. *)

From S2P Require Import PgDemo.

#[local] Arguments exec : simpl never.
#[local] Arguments exec_at : simpl never.

Section queue.
Context {J : Type} `{EqDecision J} {format : PgFormat J} {ll : LosslessFormat J}.
Context (fault : string -> nat -> option QueryFault) (db_now : nat -> Z).

Abbreviation Row := (OutboxRow (J:=J)).
Abbreviation Queue := (PgTable (list Row)).
Implicit Types (s : Queue) (rows : list Row) (m : OutboxMessage).

(** ** Runs *)

Inductive QueueOp :=
| OpEnqueue (m : OutboxMessage)
| OpClaim
| OpAck (id : string)
| OpRelease (m : OutboxMessage).

(** One operation of some worker; its answer is not looked at. *)
Definition queue_step (op : QueueOp) (s : Queue) : Queue :=
  match op with
  | OpEnqueue m => snd (pg_enqueue fault m s)
  | OpClaim => snd (pg_outbox_claim fault db_now s)
  | OpAck id => snd (pg_outbox_ack fault id s)
  | OpRelease m => snd (pg_outbox_release fault m s)
  end.

Definition queue_run (ops : list QueueOp) (s : Queue) : Queue :=
  fold_left (fun s op => queue_step op s) ops s.

(** What the statements of an operation do to the rows; [n] is their number. *)
Inductive queue_stmt (n : nat) (rows : list Row) : QueueOp -> list Row -> Prop :=
| StmtEnqueue m j : to_value m = Ok j ->
    queue_stmt n rows (OpEnqueue m) (snd (sql_enqueue (om_id m) j rows))
| StmtClaim : queue_stmt n rows OpClaim (snd (sql_claim_row (db_now n) rows))
| StmtAck id : queue_stmt n rows (OpAck id) (snd (sql_ack id rows))
| StmtRelease m j : to_value m = Ok j ->
    queue_stmt n rows (OpRelease m) (snd (sql_release (om_id m) j rows))
| StmtPutBack m j : to_value m = Ok j ->
    queue_stmt n rows (OpRelease m) (snd (sql_enqueue (om_id m) j rows)).

Section invariants.
Context (P : nat -> list Row -> Prop) (grows : forall n rows, P n rows -> P (S n) rows).

Lemma exec_at_keeps {A} (stmt : nat -> list Row -> A * list Row) s :
  P (pg_io s) (pg_rows s) -> P (S (pg_io s)) (snd (stmt (pg_io s) (pg_rows s))) ->
  P (pg_io (snd (exec_at (fault "outbox") stmt s))) (pg_rows (snd (exec_at (fault "outbox") stmt s))).
Proof.
  intros H1 H2. unfold exec_at. destruct (stmt _ _) as [a rows]. cbn in H2.
  by destruct (fault _ _) as [[]|]; cbn; auto.
Qed.

Lemma enqueue_keeps op m s :
  (forall j, to_value m = Ok j -> forall n rows, P n rows ->
     P (S n) (snd (sql_enqueue (om_id m) j rows))) ->
  P (pg_io s) (pg_rows s) ->
  op = snd (pg_enqueue fault m s) -> P (pg_io op) (pg_rows op).
Proof.
  intros Hk Hp ->. unfold pg_enqueue, to_json_value, mbind, ST_bind, st_lift.
  destruct (to_value m) as [j|e] eqn:Hj; cbn; [|done]. by apply exec_at_keeps; auto.
Qed.

(** A predicate every statement of an operation keeps is kept by the operation. *)
Lemma queue_step_keeps op s :
  (forall n rows rows', queue_stmt n rows op rows' -> P n rows -> P (S n) rows') ->
  P (pg_io s) (pg_rows s) -> P (pg_io (queue_step op s)) (pg_rows (queue_step op s)).
Proof.
  intros Hk Hp. destruct op as [m| |id|m]; cbn [queue_step].
  - eapply enqueue_keeps; [|exact Hp|reflexivity]. intros. eapply Hk; [by constructor|done].
  - unfold pg_outbox_claim, mbind, ST_bind.
    pose proof (exec_at_keeps (fun n => sql_claim_row (db_now n)) s Hp
      (Hk _ _ _ (StmtClaim _ _) Hp)) as H.
    destruct (exec_at _ _ s) as [[[j|]|e] t]; cbn in *; try done.
    unfold from_json_value, mbind, ST_bind, st_lift. by destruct (from_value j).
  - apply exec_at_keeps; [done|]. by apply (Hk _ _ _ (StmtAck _ _ id)).
  - unfold pg_outbox_release, to_json_value, mbind, ST_bind, st_lift.
    destruct (to_value m) as [j|e] eqn:Hj; cbn; [|done].
    pose proof (exec_at_keeps (fun _ => sql_release (om_id m) j) s Hp
      (Hk _ _ _ (StmtRelease _ _ m j Hj) Hp)) as H.
    unfold exec. destruct (exec_at _ _ s) as [[n|e] t]; cbn in *; [|done].
    destruct (n =? 0)%nat; [|done].
    eapply enqueue_keeps; [|exact H|reflexivity].
    intros j' Hj' n' rows Hp'. eapply Hk; [by apply StmtPutBack|done].
Qed.

Lemma queue_run_keeps ops s :
  (forall op n rows rows', op ∈ ops -> queue_stmt n rows op rows' -> P n rows -> P (S n) rows') ->
  P (pg_io s) (pg_rows s) -> P (pg_io (queue_run ops s)) (pg_rows (queue_run ops s)).
Proof.
  revert s. induction ops as [|op ops IH]; intros s Hk Hp; [done|]. cbn. apply IH.
  - intros op' n rows rows' Hin. apply Hk. by right.
  - apply queue_step_keeps; [|done]. intros n rows rows'. apply Hk. by left.
Qed.
End invariants.

(** ** What one statement changes *)

Definition ids (rows : list Row) : list string := ox_message_id <$> rows.

(** The messages an operation writes, and the id an acknowledgement removes. *)
Definition writes (op : QueueOp) (m : OutboxMessage) : Prop := op = OpEnqueue m \/ op = OpRelease m.

Inductive row_change (n : nat) : QueueOp -> list Row -> list Row -> Prop :=
| Unchanged op rows : (forall id, op <> OpAck id) -> row_change n op rows rows
| Locked l x r : claimable (db_now n) x = true ->
    row_change n OpClaim (l ++ x :: r) (l ++ lock_row (db_now n) x :: r)
| Written op m j l x r : writes op m -> to_value m = Ok j -> ox_message_id x = om_id m ->
    row_change n op (l ++ x :: r) (l ++ MkOutboxRow (om_id m) j None :: r)
| Added op m j rows : writes op m -> to_value m = Ok j -> om_id m ∉ ids rows ->
    row_change n op rows (rows ++ [MkOutboxRow (om_id m) j None])
| Removed id rows :
    row_change n (OpAck id) rows (retain (fun row => negb (has_id id row)) rows).

Lemma has_id_eq id (x : Row) : has_id id x = true <-> ox_message_id x = id.
Proof. apply String.eqb_eq. Qed.

Lemma not_has_id id rows : Forall (fun x => has_id id x = false) rows <-> id ∉ ids rows.
Proof.
  unfold ids. rewrite list_elem_of_fmap, Forall_forall. split.
  - intros Hf (x & -> & Hx). apply Hf, not_true_iff_false in Hx. by apply Hx, has_id_eq.
  - intros Hi x Hx. apply not_true_iff_false. rewrite has_id_eq. intros <-. eauto.
Qed.

(** [sql_enqueue] and [sql_release] share the rewriting of a row. *)
Lemma put_row_change n op m j rows rows' :
  writes op m -> to_value m = Ok j ->
  update_first (has_id (om_id m)) (put_row (om_id m) j) rows = Some rows' ->
  row_change n op rows rows'.
Proof.
  intros Hw Hj (l & x & r & -> & -> & Hx%has_id_eq & _)%update_first_Some.
  by eapply Written.
Qed.

Lemma queue_stmt_change n op rows rows' :
  queue_stmt n rows op rows' -> row_change n op rows rows'.
Proof.
  assert (forall op m j, writes op m -> to_value m = Ok j ->
    row_change n op rows (snd (sql_enqueue (om_id m) j rows))) as Hput.
  { intros o m j Hw Hj. unfold sql_enqueue.
    destruct (update_first _ _ _) as [ys|] eqn:Hu; cbn; [by eapply put_row_change|].
    apply update_first_None, not_has_id in Hu. by apply Added. }
  intros []; try (apply Hput; [unfold writes; auto|done]); [| |].
  - unfold sql_claim_row. destruct (update_first _ _ _) as [ys|] eqn:Hu; cbn; [|by apply Unchanged].
    apply update_first_Some in Hu as (l & x & r & -> & -> & ? & _). by apply Locked.
  - apply Removed.
  - unfold sql_release. destruct (update_first _ _ _) as [ys|] eqn:Hu; cbn; [|by apply Unchanged].
    by eapply put_row_change; [right|..].
Qed.

Lemma ids_replace l x y r :
  ox_message_id y = ox_message_id x -> ids (l ++ y :: r) = ids (l ++ x :: r).
Proof. intros He. unfold ids. by rewrite !fmap_app, !fmap_cons, He. Qed.

(** ** The invariant of the table *)

(** The primary key, rows that hold the message they are named after, and leases made by
    earlier statements. *)
Definition row_ok (n : nat) (x : Row) : Prop :=
  (exists m, from_value (ox_message x) = Ok m /\ om_id m = ox_message_id x)
  /\ forall until, ox_locked_until x = Some until ->
      exists i, (i < n)%nat /\ until = (db_now i + OUTBOX_LEASE)%Z.

Definition queue_ok (n : nat) (rows : list Row) : Prop :=
  NoDup (ids rows) /\ Forall (row_ok n) rows.

Lemma row_ok_mono n n' x : (n <= n')%nat -> row_ok n x -> row_ok n' x.
Proof.
  intros Hn [Hm Hl]. split; [done|]. intros u Hu. destruct (Hl u Hu) as (i & Hi & He).
  exists i. split; [lia|done].
Qed.

Lemma queue_ok_mono n rows : queue_ok n rows -> queue_ok (S n) rows.
Proof.
  intros [Hd Hr]. split; [done|]. eapply Forall_impl; [exact Hr|].
  intros x. apply row_ok_mono. lia.
Qed.

Lemma new_row_ok n m j : to_value m = Ok j -> row_ok n (MkOutboxRow (om_id m) j None).
Proof. intros Hj. split; [exists m; split; [exact (from_to _ _ Hj)|done]|done]. Qed.

Lemma change_keeps_ok n op rows rows' :
  row_change n op rows rows' -> queue_ok n rows -> queue_ok (S n) rows'.
Proof.
  intros Hc Hok%queue_ok_mono. pose proof Hok as [Hd Hr].
  destruct Hc as [|l x r Hx|op m j l x r _ Hj Hx|op m j rows _ Hj Hi|id rows]; [done|..].
  - split; [by rewrite (ids_replace l x)|]. revert Hr. rewrite !Forall_app, !Forall_cons.
    intros (? & [Hm _] & ?). split_and!; [done| |done]. split; [done|].
    intros u [= <-]. exists n. split; [lia|done].
  - split; [by rewrite (ids_replace l x)|]. revert Hr. rewrite !Forall_app, !Forall_cons.
    intros (? & _ & ?). split_and!; [done|by apply new_row_ok|done].
  - split; [|apply Forall_app; split; [done|apply Forall_singleton; by apply new_row_ok]].
    unfold ids in *. rewrite fmap_app. apply NoDup_app. split_and!; [done| |apply NoDup_singleton].
    intros x Hx ->%list_elem_of_singleton. by apply Hi.
  - split; [eapply sublist_NoDup; [exact Hd|apply fmap_sublist, retain_sublist]|].
    rewrite Forall_forall in Hr |- *. intros x Hx. eapply Hr, elem_of_sublist, retain_sublist.
    exact Hx.
Qed.

(** A statement that cannot fail its own way: what the table may become. *)
Definition good (s : Queue) : Prop := queue_ok (pg_io s) (pg_rows s).

Lemma run_keeps_good ops s : good s -> good (queue_run ops s).
Proof.
  apply queue_run_keeps; [apply queue_ok_mono|].
  intros op n rows rows' _ Hc%queue_stmt_change. by apply (change_keeps_ok _ op).
Qed.

(** Two rows with one id are the same. *)
Lemma nodup_ids rows x y :
  NoDup (ids rows) -> x ∈ rows -> y ∈ rows -> ox_message_id x = ox_message_id y -> x = y.
Proof.
  unfold ids. induction rows as [|z rows IH]; cbn; [by intros _ ?%elem_of_nil|].
  rewrite NoDup_cons, list_elem_of_fmap. intros [Hz Hd] Hx Hy He.
  apply elem_of_cons in Hx as [-> |Hx], Hy as [-> |Hy]; [done| | |by apply IH].
  - destruct Hz. by exists y.
  - destruct Hz. by exists x.
Qed.

(** ** Leases *)

(** The row of a message is locked until [u]. *)
Definition leased (id : string) (u : Z) (rows : list Row) : Prop :=
  exists x, x ∈ rows /\ ox_message_id x = id /\ ox_locked_until x = Some u.

(** An operation another message is about, or a claim. *)
Definition op_id (op : QueueOp) : option string :=
  match op with
  | OpEnqueue m | OpRelease m => Some (om_id m)
  | OpClaim => None
  | OpAck id => Some id
  end.

Lemma writes_id op m : writes op m -> op_id op = Some (om_id m).
Proof. by intros [-> | ->]. Qed.

Lemma elem_of_middle {A} (a x y : A) l r :
  a <> x -> a ∈ l ++ x :: r -> a ∈ l ++ y :: r.
Proof. rewrite !elem_of_app, !elem_of_cons. tauto. Qed.

Lemma change_keeps_lease id u n op rows rows' :
  (db_now n <= u)%Z -> op_id op <> Some id ->
  row_change n op rows rows' -> leased id u rows -> leased id u rows'.
Proof.
  intros Hn Hop Hc (a & Ha & Hid & Hu). exists a. split; [|done].
  destruct Hc as [|l x r Hx|op m j l x r Hw Hj Hx|op m j rows Hw Hj Hi|id' rows]; [done|..].
  - apply (elem_of_middle _ x); [|done]. intros ->. unfold claimable in Hx. rewrite Hu in Hx.
    cbn in Hx. lia.
  - apply (elem_of_middle _ x); [|done]. intros ->. apply Hop. rewrite (writes_id _ _ Hw).
    congruence.
  - apply elem_of_app. by left.
  - apply list_elem_of_In, filter_In. split; [by apply list_elem_of_In|].
    apply negb_true_iff, not_true_iff_false. rewrite has_id_eq. cbn in Hop. congruence.
Qed.

(** What a claim that answers with a message did. *)
Lemma claim_leases s m s' :
  good s -> pg_outbox_claim fault db_now s = (Ok (Some m), s') ->
  exists l x r, pg_rows s = l ++ x :: r /\ claimable (db_now (pg_io s)) x = true
    /\ from_value (ox_message x) = Ok m /\ om_id m = ox_message_id x
    /\ s' = MkPg (l ++ lock_row (db_now (pg_io s)) x :: r) (S (pg_io s)).
Proof.
  intros [_ Hok]. unfold pg_outbox_claim, exec_at, sql_claim_row, mbind, ST_bind.
  destruct (update_first _ _ _) as [ys|] eqn:Hu; cbn;
    [|by destruct (fault _ _) as [[]|]; cbn; intros [=]].
  pose proof (update_first_Some _ _ _ _ Hu) as (l & x & r & Hrows & -> & Hx & Hl).
  assert (find_first (claimable (db_now (pg_io s))) (pg_rows s) = Some x) as ->.
  { rewrite Hrows. clear -Hx Hl. induction Hl as [|y l Hy]; cbn; [by rewrite Hx|by rewrite Hy]. }
  destruct (fault _ _) as [[]|]; cbn; [by intros [=]..|].
  unfold from_json_value, mbind, ST_bind, st_lift.
  destruct (from_value (ox_message x)) as [m'|] eqn:Hm; cbn; intros [=]; subst.
  rewrite Hrows, Forall_app, Forall_cons in Hok. destruct Hok as (_ & [(m' & Hm' & Hid) _] & _).
  exists l, x, r. split_and!; try done. congruence.
Qed.

(** A lease outlives a run, if the clock does not pass its end. *)
Lemma run_keeps_lease id u ops s :
  Forall (fun op => op_id op <> Some id) ops -> leased id u (pg_rows s) ->
  (forall n, (pg_io s <= n < pg_io (queue_run ops s))%nat -> (db_now n <= u)%Z) ->
  leased id u (pg_rows (queue_run ops s)) /\ (pg_io s <= pg_io (queue_run ops s))%nat.
Proof.
  intros Hops Hl.
  apply (queue_run_keeps (fun n rows =>
    (forall i, (pg_io s <= i < n)%nat -> (db_now i <= u)%Z) ->
    leased id u rows /\ (pg_io s <= n)%nat)).
  - intros n rows Hp Hc. destruct Hp as [? ?]; [|split; [done|lia]]. intros i Hi. apply Hc. lia.
  - intros op n rows rows' Hop Hs%queue_stmt_change Hp Hc.
    destruct Hp as [Hr Hn]; [intros i Hi; apply Hc; lia|]. split; [|lia].
    rewrite Forall_forall in Hops.
    apply (change_keeps_lease id u n op rows); [apply Hc; lia|by apply Hops|done..].
  - by split.
Qed.

(** C28: no message is handed out to two workers within one lease: between two claims that
    answer with the same message it was enqueued again, released or acknowledged, or the
    clock of the database passed the end of the lease.  Statements may fail at will. *)
Theorem lease_excludes s m s1 ops m' s2 :
  good s -> pg_outbox_claim fault db_now s = (Ok (Some m), s1) ->
  Forall (fun op => op_id op <> Some (om_id m)) ops ->
  (forall n, (pg_io s < n <= pg_io (queue_run ops s1))%nat ->
     (db_now n <= db_now (pg_io s) + OUTBOX_LEASE)%Z) ->
  pg_outbox_claim fault db_now (queue_run ops s1) = (Ok (Some m'), s2) ->
  om_id m' <> om_id m.
Proof.
  intros Hok Hc Hops Hclock Hc' Heq.
  destruct (claim_leases _ _ _ Hok Hc) as (l & x & r & Hrows & Hx & Hm & Hid & ->).
  set (s1 := MkPg _ _) in *. assert (good s1) as Hok1.
  { split; cbn; [rewrite (ids_replace l x), <- Hrows by done; apply Hok|].
    destruct (change_keeps_ok _ _ _ _ (Locked (pg_io s) l x r Hx)) as [_ Hr]; [|exact Hr].
    rewrite <- Hrows. exact Hok. }
  destruct (run_keeps_lease (om_id m) (db_now (pg_io s) + OUTBOX_LEASE) ops s1) as [Hl Hn];
    [done| |intros n Hn; apply Hclock; change (pg_io s1) with (S (pg_io s)) in Hn; lia|].
  { exists (lock_row (db_now (pg_io s)) x). split; [|done].
    apply elem_of_app. right. by left. }
  destruct (claim_leases _ _ _ (run_keeps_good ops s1 Hok1) Hc')
    as (l' & y & r' & Hrows' & Hy & _ & Hid' & _).
  destruct Hl as (a & Ha & Haid & Hau). rewrite Hrows' in Ha.
  assert (a = y) as ->.
  { destruct (run_keeps_good ops s1 Hok1) as [Hd _]. rewrite Hrows' in Hd.
    eapply (nodup_ids _ _ _ Hd); [done| |congruence]. apply elem_of_app. right. by left. }
  unfold claimable in Hy. rewrite Hau in Hy. cbn in Hy.
  change (pg_io s1) with (S (pg_io s)) in Hn.
  specialize (Hclock (pg_io (queue_run ops s1))). lia.
Qed.

(** ** Nothing is lost *)

Lemma change_keeps_id id n op rows rows' :
  op <> OpAck id -> row_change n op rows rows' -> id ∈ ids rows -> id ∈ ids rows'.
Proof.
  intros Hop Hc Hi. destruct Hc as [|l x r Hx|op m j l x r _ _ Hx|op m j rows _ _ _|id' rows]; [done|..].
  - by rewrite (ids_replace l x).
  - by rewrite (ids_replace l x).
  - unfold ids. rewrite fmap_app. apply elem_of_app. by left.
  - unfold ids in *. apply list_elem_of_fmap in Hi as (x & -> & Hx). apply list_elem_of_fmap.
    exists x. split; [done|]. apply list_elem_of_In, filter_In.
    split; [by apply list_elem_of_In|]. apply negb_true_iff, not_true_iff_false.
    rewrite has_id_eq. congruence.
Qed.

Lemma run_keeps_id id ops s :
  OpAck id ∉ ops -> id ∈ ids (pg_rows s) -> id ∈ ids (pg_rows (queue_run ops s)).
Proof.
  intros Hops. apply (queue_run_keeps (fun _ rows => id ∈ ids rows)); [done|].
  intros op n rows rows' Hin Hs%queue_stmt_change. eapply change_keeps_id; [|exact Hs].
  by intros ->.
Qed.

Lemma enqueue_stores m s s1 :
  good s -> pg_enqueue fault m s = (Ok tt, s1) -> good s1 /\ om_id m ∈ ids (pg_rows s1).
Proof.
  intros Hok Hrun. assert (s1 = queue_run [OpEnqueue m] s) as Hs1 by (cbn; by rewrite Hrun).
  split; [rewrite Hs1; by apply run_keeps_good|]. revert Hrun.
  unfold pg_enqueue, to_json_value, mbind, ST_bind, st_lift.
  destruct (to_value m) as [j|] eqn:Hj; cbn; [|by intros [=]].
  unfold exec, exec_at. destruct (fault _ _) as [[]|]; destruct (sql_enqueue _ _ _) as [[] ys] eqn:Hq;
    intros [= <-]. cbn. unfold sql_enqueue in Hq. injection Hq as <-.
  destruct (update_first _ _ _) as [zs|] eqn:Hu.
  - apply update_first_Some in Hu as (l & x & r & _ & -> & _).
    unfold ids. rewrite fmap_app. apply elem_of_app. right. by left.
  - unfold ids. rewrite fmap_app. apply elem_of_app. right. by left.
Qed.

(** What the claims of a run answer, in order. *)
Fixpoint handed_out (ops : list QueueOp) (s : Queue)
  : list (result (option OutboxMessage) StoreError) :=
  match ops with
  | [] => []
  | op :: ops =>
      match op with OpClaim => [fst (pg_outbox_claim fault db_now s)] | _ => [] end
      ++ handed_out ops (queue_step op s)
  end.

Definition is_claim (op : QueueOp) : bool := match op with OpClaim => true | _ => false end.
Definition claims_in (ops : list QueueOp) : nat := length (List.filter is_claim ops).

(** Operations that put no row in front of those of [old]: claims, acknowledgements of other
    messages, and messages that are new.  A release is none: it offers an older row again. *)
Definition lets_pass (id : string) (old : list string) (op : QueueOp) : Prop :=
  match op with
  | OpClaim => True
  | OpAck id' => id' <> id
  | OpEnqueue m => om_id m ∉ old
  | OpRelease _ => False
  end.

(** A claim passes over the rows in lease and takes the next. *)
Lemma claim_takes l x r s :
  pg_rows s = l ++ x :: r -> row_ok (pg_io s) x -> fault "outbox" (pg_io s) = None ->
  Forall (fun y => claimable (db_now (pg_io s)) y = false) l ->
  claimable (db_now (pg_io s)) x = true ->
  exists m, om_id m = ox_message_id x
    /\ pg_outbox_claim fault db_now s
       = (Ok (Some m), MkPg ((l ++ [lock_row (db_now (pg_io s)) x]) ++ r) (S (pg_io s))).
Proof.
  intros Hrows [(m & Hm & Hid) _] Hup Hl Hx. exists m. split; [done|].
  assert (update_first (claimable (db_now (pg_io s))) (lock_row (db_now (pg_io s))) (pg_rows s)
          = Some (l ++ lock_row (db_now (pg_io s)) x :: r)) as Hu.
  { rewrite Hrows. clear -Hx Hl. induction Hl as [|y l Hy _ IH]; cbn; [by rewrite Hx|].
    by rewrite Hy, IH. }
  assert (find_first (claimable (db_now (pg_io s))) (pg_rows s) = Some x) as Hf.
  { rewrite Hrows. clear -Hx Hl. induction Hl as [|y l Hy]; cbn; [by rewrite Hx|by rewrite Hy]. }
  unfold pg_outbox_claim, exec_at, sql_claim_row, mbind, ST_bind. rewrite Hu, Hf, Hup. cbn.
  unfold from_json_value, mbind, ST_bind, st_lift. rewrite Hm. cbn. by rewrite <- app_assoc.
Qed.

Section waiting.
Context (start : nat).

(** Offered whenever it is asked for from [start] on; in a lease taken since then. *)
Definition offered (x : Row) : Prop :=
  forall i, (start <= i)%nat -> claimable (db_now i) x = true.
Definition relocked (n : nat) (x : Row) : Prop :=
  exists i, (start <= i < n)%nat /\ ox_locked_until x = Some (db_now i + OUTBOX_LEASE)%Z.

(** [k] rows of a list are still to be handed out. *)
Inductive waiting (n : nat) : list Row -> nat -> Prop :=
| waiting_nil : waiting n [] 0
| waiting_done x l k : relocked n x -> waiting n l k -> waiting n (x :: l) k
| waiting_next x l k : offered x -> row_ok n x -> waiting n l k -> waiting n (x :: l) (S k).

Lemma waiting_later n l k : waiting n l k -> waiting (S n) l k.
Proof.
  induction 1 as [|x l k (i & Hi & Hx) _ IH|x l k Hx Hr _ IH]; [constructor|..].
  - apply waiting_done; [|done]. exists i. split; [lia|done].
  - apply waiting_next; [done| |done]. eapply row_ok_mono; [|done]. lia.
Qed.

Lemma waiting_bound n l k : waiting n l k -> (k <= length l)%nat.
Proof. induction 1; cbn; lia. Qed.

Lemma waiting_retain p n l k :
  waiting n l k -> exists k', (k' <= k)%nat /\ waiting n (retain p l) k'.
Proof.
  unfold retain. induction 1 as [|x l k Hx _ (k' & Hk & IH)|x l k Hx Hr _ (k' & Hk & IH)]; cbn.
  - exists O. split; [done|constructor].
  - exists k'. split; [done|]. destruct (p x); [by constructor|done].
  - destruct (p x); [exists (S k')|exists k']; (split; [lia|]); [by constructor|done].
Qed.

(** While no lease ends, the first row on offer is the first that waits. *)
Lemma waiting_claim n l k :
  waiting n l k -> (start <= n)%nat ->
  (forall i, (start <= i < n)%nat -> (db_now n <= db_now i + OUTBOX_LEASE)%Z) ->
  match k with
  | O => Forall (fun y => claimable (db_now n) y = false) l
  | S k => exists l1 y l2, l = l1 ++ y :: l2
      /\ Forall (fun y => claimable (db_now n) y = false) l1
      /\ claimable (db_now n) y = true /\ row_ok n y
      /\ waiting (S n) (l1 ++ lock_row (db_now n) y :: l2) k
  end.
Proof.
  intros Hw Hn Hclock. induction Hw as [|x l k (i & Hi & Hx) _ IH|x l k Hx Hr Hw _]; [done| |].
  - assert (claimable (db_now n) x = false) as Hf.
    { unfold claimable. rewrite Hx. cbn. specialize (Hclock i Hi). lia. }
    destruct k as [|k]; [by constructor|]. destruct IH as (l1 & y & l2 & -> & Hl1 & Hy & Hr & Hw).
    exists (x :: l1), y, l2. do 2 (split; [by constructor|]). do 2 (split; [done|]).
    apply waiting_done; [|done]. exists i. split; [lia|done].
  - exists [], x, l. split; [done|]. split; [constructor|]. split; [by apply Hx|]. split; [done|].
    apply waiting_done; [exists n; split; [lia|done]|by apply waiting_later].
Qed.

Context (Hup : forall i, (start <= i)%nat -> fault "outbox" i = None).

Lemma retain_middle id (l r : list Row) x :
  ox_message_id x <> id ->
  retain (fun row => negb (has_id id row)) (l ++ x :: r)
  = retain (fun row => negb (has_id id row)) l ++ x :: retain (fun row => negb (has_id id row)) r.
Proof.
  intros Hx. unfold retain. rewrite List.filter_app. cbn.
  destruct (has_id id x) eqn:Hh; [by apply has_id_eq in Hh|done].
Qed.

Lemma ids_retain p (l : list Row) id : id ∈ ids (retain p l) -> id ∈ ids l.
Proof.
  unfold ids. rewrite !list_elem_of_fmap. intros (x & -> & Hx). exists x. split; [done|].
  eapply elem_of_sublist; [exact Hx|apply retain_sublist].
Qed.

(** A message that is new is put behind the rows that were there. *)
Lemma enqueue_behind id j (l r : list Row) x :
  id ∉ ids l -> ox_message_id x <> id ->
  exists r', snd (sql_enqueue id j (l ++ x :: r)) = l ++ x :: r'.
Proof.
  intros Hl Hx. unfold sql_enqueue. cbn.
  assert (update_first (has_id id) (put_row id j) (l ++ x :: r)
    = match update_first (has_id id) (put_row id j) r with
      | Some r' => Some (l ++ x :: r')
      | None => None
      end) as ->.
  { apply not_has_id in Hl. induction Hl as [|y l Hy _ IH]; cbn.
    - destruct (has_id id x) eqn:Hh; [by apply has_id_eq in Hh|]. by destruct (update_first _ _ r).
    - rewrite Hy, IH. by destruct (update_first _ _ r). }
  destruct (update_first _ _ r) as [r'|]; [by exists r'|].
  eexists. by rewrite <- app_assoc.
Qed.

(** With enough claims the turn of a row comes. *)
Lemma turn_comes old ops : forall l k x r s,
  pg_rows s = l ++ x :: r -> waiting (pg_io s) l k -> offered x -> row_ok (pg_io s) x ->
  (start <= pg_io s)%nat -> (k < claims_in ops)%nat ->
  Forall (lets_pass (ox_message_id x) old) ops ->
  (forall id, id ∈ ids l -> id ∈ old) -> ox_message_id x ∈ old ->
  (forall i j, (start <= i <= j)%nat -> (j < pg_io s + length ops)%nat ->
     (db_now j <= db_now i + OUTBOX_LEASE)%Z) ->
  exists m, Ok (Some m) ∈ handed_out ops s /\ om_id m = ox_message_id x.
Proof.
  induction ops as [|op ops IH]; intros l k x r s Hrows Hw Hx Hr Hs Hk Hops Hl Hold Hclock;
    [cbn in Hk; lia|].
  apply Forall_cons in Hops as [Hop Hops]. cbn [length] in Hclock.
  destruct op as [m| |id|m]; cbn [lets_pass] in Hop; [| | |done]; cbn [handed_out].
  - assert (exists r' n, queue_step (OpEnqueue m) s = MkPg (l ++ x :: r') n
      /\ (pg_io s <= n <= S (pg_io s))%nat) as (r' & n & -> & Hn).
    { cbn. unfold pg_enqueue, to_json_value, mbind, ST_bind, st_lift.
      destruct (to_value m) as [j|e]; cbn; [|exists r, (pg_io s); split; [|lia]; by destruct s; cbn in *; subst].
      unfold exec, exec_at. rewrite Hup, Hrows by done.
      destruct (enqueue_behind (om_id m) j l r x) as [r' Hr']; [by intros ?%Hl|by intros He; apply Hop; rewrite <- He|].
      exists r', (S (pg_io s)). split; [|lia]. destruct (sql_enqueue _ _ _) as [[] rows].
      cbn in Hr'. by subst. }
    cbn [app]. apply (IH l k x r'); cbn [pg_rows pg_io]; try done; [| |lia|].
    + destruct (decide (n = pg_io s)) as [->|]; [done|]. replace n with (S (pg_io s)) by lia.
      by apply waiting_later.
    + eapply row_ok_mono; [|exact Hr]. lia.
    + intros i j Hi Hj. apply Hclock; lia.
  - pose proof (waiting_claim _ _ _ Hw Hs) as Hc.
    destruct k as [|k].
    + destruct (claim_takes l x r s) as (m & Hid & Hrun);
        [done|done|by apply Hup|apply Hc; intros i Hi; apply Hclock; lia|by apply Hx|].
      exists m. split; [|done]. rewrite Hrun. by left.
    + destruct Hc as (l1 & y & l2 & -> & Hl1 & Hy & Hry & Hw'); [intros i Hi; apply Hclock; lia|].
      destruct (claim_takes l1 y (l2 ++ x :: r) s) as (m & _ & Hrun);
        [by rewrite Hrows, <- app_assoc|done|by apply Hup|done|done|].
      cbn [queue_step]. rewrite Hrun. cbn [snd].
      destruct (IH (l1 ++ lock_row (db_now (pg_io s)) y :: l2) k x r
        (MkPg ((l1 ++ [lock_row (db_now (pg_io s)) y]) ++ l2 ++ x :: r) (S (pg_io s))))
        as (m' & Hin & Hid); cbn [pg_rows pg_io]; try done.
      * by rewrite <- !app_assoc.
      * eapply row_ok_mono; [|exact Hr]. lia.
      * lia.
      * unfold claims_in in *. cbn in Hk. lia.
      * intros id Hid. apply Hl. by rewrite (ids_replace l1 y (lock_row (db_now (pg_io s)) y) l2 eq_refl) in Hid.
      * intros i j Hi Hj. apply Hclock; lia.
      * exists m'. split; [by right|done].
  - assert (queue_step (OpAck id) s = MkPg (retain (fun row => negb (has_id id row)) (pg_rows s))
      (S (pg_io s))) as ->.
    { cbn. unfold pg_outbox_ack, exec, exec_at. by rewrite Hup by done. }
    rewrite Hrows, retain_middle by congruence.
    destruct (waiting_retain (fun row => negb (has_id id row)) _ _ _ Hw) as (k' & Hk' & Hw').
    cbn [app]. eapply (IH _ k' x); cbn [pg_rows pg_io]; try done.
    + by apply waiting_later.
    + eapply row_ok_mono; [|exact Hr]. lia.
    + lia.
    + unfold claims_in in *. cbn in Hk. lia.
    + intros id' Hid%ids_retain. by apply Hl.
    + intros i j Hi Hj. apply Hclock; lia.
Qed.
End waiting.

(** C29: a message that was enqueued is handed out until it is acknowledged: after any run
    of claims, releases and failures without its acknowledgement, once the leases of the
    run are over and the database answers, as many claims as there are rows hand it out.  They
    may come from any number of workers, with acknowledgements of other messages and new
    messages in between, but within one lease and without a release in between: a lease that
    ends and a release offer an older row again, and the oldest is always taken first. *)
Theorem unacknowledged_message_returns m s s1 ops s2 ops' :
  good s -> pg_enqueue fault m s = (Ok tt, s1) -> OpAck (om_id m) ∉ ops ->
  queue_run ops s1 = s2 ->
  (forall i, (pg_io s2 <= i)%nat -> fault "outbox" i = None) ->
  (forall i j, (i < pg_io s2 <= j)%nat -> (db_now i + OUTBOX_LEASE < db_now j)%Z) ->
  Forall (lets_pass (om_id m) (ids (pg_rows s2))) ops' ->
  (length (pg_rows s2) <= claims_in ops')%nat ->
  (forall i j, (pg_io s2 <= i <= j)%nat -> (j < pg_io s2 + length ops')%nat ->
     (db_now j <= db_now i + OUTBOX_LEASE)%Z) ->
  exists m', Ok (Some m') ∈ handed_out ops' s2 /\ om_id m' = om_id m.
Proof.
  intros Hok Hrun Hops <- Hup Hrest Hpass Hmany Hclock.
  destruct (enqueue_stores _ _ _ Hok Hrun) as [Hok1 Hin].
  apply (run_keeps_id _ _ _ Hops) in Hin.
  destruct (run_keeps_good ops s1 Hok1) as [_ Hrows]. set (s2 := queue_run ops s1) in *.
  assert (Forall (offered (pg_io s2)) (pg_rows s2)) as Hoff.
  { eapply Forall_impl; [exact Hrows|]. intros x [_ Hl] i Hi. unfold claimable.
    destruct (ox_locked_until x) as [u|]; [|done]. cbn.
    destruct (Hl u eq_refl) as (k & Hk & ->). apply Z.ltb_lt, Hrest. lia. }
  assert (forall l, Forall (offered (pg_io s2)) l -> Forall (row_ok (pg_io s2)) l ->
    waiting (pg_io s2) (pg_io s2) l (length l)) as Hwait.
  { intros l Hl. induction Hl; [constructor|]. intros [? ?]%Forall_cons. by constructor; auto. }
  apply list_elem_of_fmap in Hin as (x & Hx & (l & r & Hsplit)%list_elem_of_split).
  rewrite Hsplit in Hoff, Hrows. apply Forall_app in Hoff as [Hol [Hox _]%Forall_cons].
  apply Forall_app in Hrows as [Hrl [Hrx _]%Forall_cons]. rewrite Hx in Hpass |- *.
  eapply (turn_comes (pg_io s2) Hup (ids (pg_rows s2)) ops' l (length l) x r); try done.
  - by apply Hwait.
  - rewrite Hsplit, length_app in Hmany. cbn in Hmany. lia.
  - intros id Hid. rewrite Hsplit. unfold ids in *. rewrite fmap_app. apply elem_of_app. by left.
  - rewrite Hsplit. unfold ids. rewrite fmap_app. apply elem_of_app. right. by left.
Qed.
End queue.

(** ** Two appends at once *)

Section appends.
Context {J : Type} `{EqDecision J} {format : PgFormat J} {ll : LosslessFormat J}.
Context (fault : string -> nat -> option QueryFault) (uuid_display : Uuid -> string).

Abbreviation read := (pg_read_events fault uuid_display).
Abbreviation write := (pg_write_events fault uuid_display).

Lemma write_result c es (t t' : PgTable (gmap string J)) :
  write c es t = (Ok tt, t') ->
  exists j, to_value es = Ok j /\ pg_rows t' = <[cart_id_key uuid_display c := j]> (pg_rows t).
Proof.
  unfold pg_write_events, to_json_value, mbind, ST_bind, st_lift.
  destruct (to_value es) as [j|] eqn:Hj; cbn; [|by intros [=]].
  unfold exec, exec_at. cbn. destruct (fault _ _) as [[]|]; intros [= <-]. by exists j.
Qed.

Lemma read_result c es (t t' : PgTable (gmap string J)) :
  read c t = (Ok es, t') ->
  match pg_rows t !! cart_id_key uuid_display c with
  | Some j => from_value j = Ok es
  | None => es = []
  end /\ pg_rows t' = pg_rows t.
Proof.
  unfold pg_read_events, mbind, ST_bind, exec, exec_at. cbn.
  destruct (fault _ _) as [[]|]; cbn; [by intros [=]..|].
  destruct (pg_rows t !! _) as [j|]; cbn; [|by intros [= <- <-]].
  unfold from_json_value, st_lift. destruct (from_value j); cbn; by intros [= <- <-].
Qed.

(** Two requests that append an event to the same cart on PostgreSQL at the same time
    can both succeed and leave only one event: when both read the list before either writes
    it back, the second write replaces the first. *)
Theorem concurrent_appends_lose_event c e1 e2 es es' es'' (t t1 t2 t3 t4 t5 : PgTable (gmap string J)) :
  read c t = (Ok es, t1) -> read c t1 = (Ok es', t2) ->
  write c (es ++ [e1]) t2 = (Ok tt, t3) -> write c (es' ++ [e2]) t3 = (Ok tt, t4) ->
  read c t4 = (Ok es'', t5) ->
  es'' = es ++ [e2].
Proof.
  intros [H1 E1]%read_result [H2 E2]%read_result (j1 & _ & E3)%write_result
    (j2 & Hj & E4)%write_result [H5 _]%read_result.
  rewrite E4, lookup_insert_eq, (from_to _ _ Hj) in H5. injection H5 as <-.
  rewrite E1 in H2. destruct (pg_rows t !! _); congruence.
Qed.
End appends.

(** ** Witnesses *)

Definition demo_message (id : string) : OutboxMessage :=
  MkOutboxMessage id "order.created" "{}" "c1" 0 None.

Definition empty_queue : PgTable (list (OutboxRow (J:=Doc))) := MkPg [] 0.

Lemma empty_queue_good db_now : good db_now empty_queue.
Proof. split; constructor. Qed.

(** Two messages wait; the clock stands still. *)
Definition two_waiting := queue_run db_up (fun _ => 0%Z)
  [OpEnqueue (demo_message "m1"); OpEnqueue (demo_message "m2")] empty_queue.

Abbreviation claim_now := (pg_outbox_claim (J:=Doc) db_up (fun _ => 0%Z)).

Lemma lease_excludes_witness :
  let s1 := snd (claim_now two_waiting) in
  exists m' s2, claim_now two_waiting = (Ok (Some (demo_message "m1")), s1)
    /\ claim_now s1 = (Ok (Some m'), s2) /\ om_id m' <> "m1".
Proof.
  intros s1. exists (demo_message "m2"), (snd (claim_now s1)).
  assert (claim_now two_waiting = (Ok (Some (demo_message "m1")), s1)) as H1
    by (vm_compute; reflexivity).
  assert (claim_now s1 = (Ok (Some (demo_message "m2")), snd (claim_now s1))) as H2
    by (vm_compute; reflexivity).
  split; [exact H1|]. split; [exact H2|].
  refine (lease_excludes db_up (fun _ => 0%Z) two_waiting (demo_message "m1") s1 []
    (demo_message "m2") _ _ H1 _ _ H2).
  - apply run_keeps_good, empty_queue_good.
  - constructor.
  - intros n _. vm_compute. discriminate.
Defined.

(** The worker that claimed the message died: the answer to its claim never came. *)
Definition worker_died : string -> nat -> option QueryFault := fun _ n =>
  if (n =? 1)%nat then Some (AnswerLost "connection reset") else None.

(** Two minutes pass before the third statement. *)
Definition later : nat -> Z := fun n => if (n <? 2)%nat then 0%Z else (120 * 1000000000)%Z.

Lemma unacknowledged_message_returns_witness :
  exists m' s2, Ok (Some m') ∈ handed_out worker_died later [OpClaim] s2
    /\ om_id m' = "m1".
Proof.
  destruct (pg_enqueue worker_died (demo_message "m1") empty_queue) as [[[]|] s1] eqn:H1;
    [|wrong_result H1].
  pose (s2 := queue_run worker_died later [OpClaim] s1).
  assert (pg_io s2 = 2 /\ length (pg_rows s2) = 1) as [Hio Hlen].
  { apply (f_equal snd) in H1. cbn [snd] in H1. unfold s2. subst s1. split; vm_compute; reflexivity. }
  destruct (unacknowledged_message_returns worker_died later (demo_message "m1") empty_queue s1
    [OpClaim] s2 [OpClaim]) as (m' & Hin & Hid).
  - apply empty_queue_good.
  - exact H1.
  - by intros [=]%list_elem_of_singleton.
  - reflexivity.
  - rewrite Hio. intros [|[|i]] Hi; [lia|lia|reflexivity].
  - rewrite Hio. intros [|[|i]] [|[|j]] Hij; try lia; reflexivity.
  - repeat constructor.
  - rewrite Hlen. reflexivity.
  - rewrite Hio. cbn [length]. intros i j Hij Hj. replace i with j by lia. unfold OUTBOX_LEASE. lia.
  - exists m', s2. split; [exact Hin|exact Hid].
Defined.

(** Two requests create the same cart. *)
Lemma concurrent_appends_lose_event_witness :
  let read := pg_read_events (J:=Doc) db_up (fun u => pretty u) demo_cart in
  let write := pg_write_events (J:=Doc) db_up (fun u => pretty u) demo_cart in
  let t1 := snd (read empty_table) in
  let t2 := snd (read t1) in
  let t3 := snd (write [EvCreated "m1" "USD"] t2) in
  let t4 := snd (write [EvRepriced] t3) in
  fst (read t4) = Ok [EvRepriced].
Proof.
  intros read write t1 t2 t3 t4. destruct (read t4) as [[es|] t5] eqn:H; [|wrong_result H].
  cbn [fst]. f_equal.
  refine (@concurrent_appends_lose_event Doc doc_format doc_lossless db_up (fun u => pretty u)
    demo_cart (EvCreated "m1" "USD") EvRepriced [] [] es empty_table t1 t2 t3 t4 t5 _ _ _ _ H);
    vm_compute; reflexivity.
Defined.
