(* ===== verification/RunnerLogic.v ===== *)
(** * Reasoning about runner programs

    The [wp] rules of the runner's primitive interactions, the ghost trace of payment
    calls, and the footprints: which stores each part of the runner can touch. *)

From S2P Require Export Runner.

(** The calls that move money. *)
Definition is_payment (c : ProviderCall) : bool :=
  match c with
  | CallAuthorize _ | CallCapture _ | CallVoid _ | CallRefund _ => true
  | _ => false
  end.

Definition payments {B : Backend} (w : World B) : list ProviderCall :=
  List.filter is_payment (w_trace w).

(** A cart whose money adds up: the subtotal is the sum of the line totals, and the
    total is what is owed less a discount that was clamped to it. *)
Definition cart_gross (p : CartProjection) : Z :=
  (cp_subtotal_minor p +! cp_tax_minor p +! cp_fulfillment_minor p)%Z.

Record cart_consistent (p : CartProjection) : Prop := {
  cc_subtotal : cp_subtotal_minor p = i64_sum (map cl_total_minor (cp_lines p));
  cc_discount : cp_discount_minor p = total_discount_minor (cp_discounts p) (cart_gross p);
  cc_total : cp_total_minor p = (cart_gross p -! cp_discount_minor p)%Z;
  cc_codes : cp_adjustment_codes p = [] -> cp_discounts p = []
}.

(** What a repricing leaves alone. *)
Definition line_key (l : CartLineProjection) : string * string * string * Z :=
  (cl_line_id l, cl_item_id l, cl_title l, cl_quantity l).

Record same_order (p q : CartProjection) : Prop := {
  so_cart_id : cp_cart_id q = cp_cart_id p;
  so_version : cp_version q = cp_version p;
  so_currency : cp_currency q = cp_currency p;
  so_merchant : cp_merchant_id q = cp_merchant_id p;
  so_tenant : cp_tenant_id q = cp_tenant_id p;
  so_lines : map line_key (cp_lines q) = map line_key (cp_lines p);
  so_status : cp_status q = cp_status p;
  so_fulfillment : cp_fulfillment q = cp_fulfillment p;
  so_fulfillment_minor : cp_fulfillment_minor q = cp_fulfillment_minor p;
  so_codes : cp_adjustment_codes q = cp_adjustment_codes p
}.

(** ** Rules of the primitives *)

Section rules.
Context {B : Backend} (env : Env) (self : RunnerConfig B).
Implicit Types w : World B.

Lemma wp_on {S A} (get : World B -> S) set (op : ST S StoreError A) Q w :
  wp (on get set op) Q w <->
  Q (map_err RunnerStore (fst (op (get w)))) (set (snd (op (get w))) w).
Proof. done. Qed.

Lemma wp_on_events {A} (op : ST EventS StoreError A) Q w :
  wp (on_events op) Q w <->
  Q (map_err RunnerStore (fst (op (w_events w)))) (set_events (snd (op (w_events w))) w).
Proof. done. Qed.

Lemma wp_call {A E} c (f : nat -> result A E) conv Q w :
  wp (call c f conv) Q w <->
  Q (map_err conv (f (w_tick w))) (set_tick (S (w_tick w)) (set_trace (w_trace w ++ [c]) w)).
Proof. done. Qed.

Lemma wp_new_uuid Q w :
  wp (new_uuid env) Q w <-> Q (Ok (uuid_at env (w_tick w))) (set_tick (S (w_tick w)) w).
Proof. done. Qed.

Lemma wp_now Q w :
  wp (now env) Q w <-> Q (Ok (clock_at env (w_tick w))) (set_tick (S (w_tick w)) w).
Proof. done. Qed.

Lemma wp_fresh_id prefix Q w :
  wp (fresh_id env prefix) Q w <->
  Q (Ok (prefix +:+ uuid_display env (uuid_at env (w_tick w)))) (set_tick (S (w_tick w)) w).
Proof. done. Qed.

Lemma wp_pay_state_put txn st Q w :
  wp (pay_state_put txn st) Q w <-> Q (Ok tt) (set_pay (pay_put txn st (w_pay w)) w).
Proof. done. Qed.

Lemma wp_load_cart c Q w :
  wp (load_cart c) Q w <->
  Q (ok_or (get_cart_snapshot c (w_events w)) CartNotFound) w.
Proof. done. Qed.

Lemma payments_call c n w :
  payments (set_tick n (set_trace (w_trace w ++ [c]) w))
  = payments w ++ (if is_payment c then [c] else []).
Proof. unfold payments. cbn. rewrite List.filter_app. cbn. by case_match. Qed.
End rules.

(** Steps through a monadic program; a [match] on an interaction's answer is split,
    and the failing branch comes second. *)
Ltac wp_prim :=
  first [ wp_step | rewrite wp_on_events | rewrite wp_on | rewrite wp_call
        | rewrite wp_fresh_id | rewrite wp_new_uuid | rewrite wp_now
        | rewrite wp_pay_state_put | rewrite wp_load_cart ].
Ltac wp_prims := repeat (wp_prim; cbv beta iota).

(** Splits the answer of the interaction the goal is waiting for. *)
Ltac wp_split :=
  match goal with
  | |- context [map_err _ ?r] => destruct r eqn:?; cbn [map_err]
  | |- context [ok_or ?o _] => destruct o eqn:?; cbn [ok_or]
  end.

(** Uses a specification lemma for the program the goal is about to run. *)
Ltac wp_use lem := eapply wp_mono; [apply lem | cbv beta].

(** ** Footprints *)

(** Only the carts (and the interaction counter) may differ, and no call moved money. *)
Record only_carts {B : Backend} (w w' : World B) : Prop := {
  oc_idem : w_idem w' = w_idem w;
  oc_commit : w_commit w' = w_commit w;
  oc_res : w_res w' = w_res w;
  oc_outbox : w_outbox w' = w_outbox w;
  oc_inbox : w_inbox w' = w_inbox w;
  oc_dead : w_dead w' = w_dead w;
  oc_orders : w_orders w' = w_orders w;
  oc_pay : w_pay w' = w_pay w;
  oc_mandates : w_mandates w' = w_mandates w;
  oc_webhooks : w_webhooks w' = w_webhooks w;
  oc_payments : payments w' = payments w
}.

(** Nothing changed but the interaction counter and the record of non-payment calls. *)
Definition quiet {B : Backend} (w w' : World B) : Prop :=
  only_carts w w' /\ w_events w' = w_events w.

#[export] Instance only_carts_preorder {B : Backend} : PreOrder (@only_carts B).
Proof. split; [by constructor|]. intros x y z [] []. constructor; congruence. Qed.

#[export] Instance quiet_preorder {B : Backend} : PreOrder (@quiet B).
Proof.
  split; [by split|]. intros x y z [? E] [? F]. split; [by etrans|]. by rewrite F.
Qed.

Section footprints.
Context {B : Backend}.
Implicit Types w v : World B.

Lemma only_carts_events w v e : only_carts w v -> only_carts w (set_events e v).
Proof. intros []. by constructor. Qed.

Lemma only_carts_call w v c :
  is_payment c = false ->
  only_carts w v -> only_carts w (set_tick (S (w_tick v)) (set_trace (w_trace v ++ [c]) v)).
Proof.
  intros Hc []. constructor; try done. rewrite payments_call, Hc. by rewrite app_nil_r.
Qed.

Lemma only_carts_tick w v n : only_carts w v -> only_carts w (set_tick n v).
Proof. intros []. by constructor. Qed.

Lemma quiet_call w v c :
  is_payment c = false ->
  quiet w v -> quiet w (set_tick (S (w_tick v)) (set_trace (w_trace v ++ [c]) v)).
Proof. intros ? []. split; [by apply only_carts_call|done]. Qed.

Lemma quiet_tick w v n : quiet w v -> quiet w (set_tick n v).
Proof. intros []. split; [by apply only_carts_tick|done]. Qed.

Lemma quiet_only_carts w v u : only_carts w v -> quiet v u -> only_carts w u.
Proof. intros ? []. by etrans. Qed.

Lemma quiet_refl w : quiet w w.
Proof. done. Qed.

Lemma quiet_trans w v u : quiet w v -> quiet v u -> quiet w u.
Proof. apply quiet_preorder. Qed.

Lemma only_carts_trans w v u : only_carts w v -> only_carts v u -> only_carts w u.
Proof. apply only_carts_preorder. Qed.

Lemma only_carts_refl w : only_carts w w.
Proof. done. Qed.
End footprints.

#[export] Hint Resolve quiet_refl only_carts_refl quiet_tick quiet_call only_carts_tick
  only_carts_events only_carts_call : orch.
#[export] Hint Extern 1 (is_payment _ = false) => reflexivity : orch.
#[export] Hint Extern 5 (quiet ?x ?z) =>
  match goal with H : quiet ?y z |- _ => apply (quiet_trans x y z); [|exact H] end : orch.
#[export] Hint Extern 5 (only_carts ?x ?z) =>
  match goal with
  | H : quiet ?y z |- _ => apply (quiet_only_carts x y z); [|exact H]
  | H : only_carts ?y z |- _ => apply (only_carts_trans x y z); [|exact H]
  end : orch.

(** ** Repricing *)

Section repricing.
Context {B : Backend} (self : RunnerConfig B).
Implicit Types w : World B.

Lemma apply_price_key lines priced :
  map line_key (apply_price lines priced) = map line_key lines.
Proof.
  unfold apply_price. destruct (update_first _ _ lines) as [ys|] eqn:Hu; [|done].
  apply update_first_Some in Hu as (l & x & r & -> & -> & _). cbn.
  by rewrite !map_app.
Qed.

Lemma apply_prices_key priced p :
  map line_key (cp_lines (apply_prices priced p)) = map line_key (cp_lines p).
Proof.
  unfold apply_prices. cbn. generalize (cp_lines p).
  induction priced as [|x xs IH]; intros lines; [done|]. cbn.
  by rewrite IH, apply_price_key.
Qed.

Lemma apply_prices_same priced p : same_order p (apply_prices priced p).
Proof. constructor; try done. apply apply_prices_key. Qed.

Lemma same_order_trans p q r : same_order p q -> same_order q r -> same_order p r.
Proof. intros [] []. constructor; congruence. Qed.

Lemma same_order_apply_tax p prices t :
  same_order p (cp_set_tax_minor t (apply_prices prices p)).
Proof. destruct (apply_prices_same prices p). by constructor. Qed.

Lemma same_order_geo p q g : same_order p q -> same_order p (cp_set_geo_ok g q).
Proof. intros []. by constructor. Qed.

Lemma consistent_geo p g : cart_consistent p -> cart_consistent (cp_set_geo_ok g p).
Proof. intros []. by constructor. Qed.

Lemma consistent_bump p : cart_consistent p -> cart_consistent (bump p).
Proof. intros []. by constructor. Qed.

Lemma consistent_status p st : cart_consistent p -> cart_consistent (cp_set_status st p).
Proof. intros []. by constructor. Qed.

(** The discount of no discount, on a gross that is the result of an [i64] sum. *)
Lemma no_discount (x y : Z) :
  total_discount_minor [] (x +! y)%Z = 0%Z /\ ((x +! y) -! 0)%Z = (x +! y)%Z.
Proof.
  split.
  - unfold total_discount_minor. cbn. lia.
  - unfold i64_sub. rewrite Z.sub_0_r. apply i64_wrap_id, i64_wrap_range.
Qed.

Lemma apply_discounts_spec p w :
  wp (apply_discounts self p) (fun r w' =>
    quiet w w'
    /\ match r with
       | Ok q => same_order p q /\ cp_tax_minor q = cp_tax_minor p
                 /\ (cp_subtotal_minor p = i64_sum (map cl_total_minor (cp_lines p)) ->
                     cart_consistent q)
       | Err e => exists e', e = RunnerPricing e'
       end) w.
Proof.
  unfold apply_discounts. destruct (cp_adjustment_codes p) as [|c cs] eqn:Hc.
  - wp_prims. split; [done|]. split; [by constructor|]. split; [done|]. intros Hs.
    destruct (no_discount (cp_subtotal_minor p +! cp_tax_minor p)%Z
                (cp_fulfillment_minor p)) as [Hd Ht].
    constructor; unfold cart_gross; cbn; rewrite ?Hd, ?Ht; done.
  - wp_prims. wp_split; wp_prims; (split; [auto with orch|]); [|by eexists].
    split; [by constructor|]. split; [done|]. intros Hs.
    constructor; cbn; try done. by rewrite Hc.
Qed.

Lemma check_geo_spec p w :
  wp (check_geo self p) (fun r w' => quiet w w'
    /\ match r with Ok _ => True | Err e => exists e', e = RunnerGeo e' end) w.
Proof.
  unfold check_geo. wp_prims. wp_split; (split; [auto with orch|]); [done|by eexists].
Qed.

Lemma price_lines_spec p w :
  wp (price_lines self p) (fun r w' => quiet w w'
    /\ match r with
       | Ok q => exists prices, q = apply_prices prices p
       | Err e => exists e', e = RunnerPricing e'
       end) w.
Proof.
  unfold price_lines. wp_prims. wp_split; wp_prims; (split; [auto with orch|]); by eexists.
Qed.

(** The money of a repriced cart adds up, whatever the providers answered. *)
Lemma reprice_for_checkout_spec p w :
  wp (reprice_for_checkout self p) (fun r w' => quiet w w'
    /\ match r with
       | Ok q => same_order p q /\ cart_consistent q
       | Err e => (exists e', e = RunnerPricing e') \/ (exists e', e = RunnerTax e')
       end) w.
Proof.
  unfold reprice_for_checkout. wp_prims. wp_use price_lines_spec.
  intros [q|e] w1 [Hq1 Hr]; [|eauto]. destruct Hr as [prices ->].
  wp_prims. wp_split; wp_prims; [|split; [eauto with orch|eauto]].
  wp_use apply_discounts_spec. intros [q|e] w2 [Hq2 Hr]; (split; [eauto with orch|]);
    [|by left]. destruct Hr as (Hs & _ & Hc). split; [|by apply Hc].
  eapply same_order_trans; [|done]. apply same_order_apply_tax.
Qed.
End repricing.

#[export] Hint Resolve consistent_geo consistent_bump consistent_status : orch.
