(* ===== verification/RunnerCart.v ===== *)
(** * Cart commands: what each does to the cart store

    The nine commands of [dispatch_cart_command], proved against the laws of the
    event store: which cart changes, what its new snapshot, state and event log are,
    and that a failed command never stores a half-recalculated cart. *)

From S2P Require Export RunnerLogic Demo.

(** Every cart other than [c] is as before. *)
Record others_kept {S} `{EventStoreLaws S} (c : CartId) (s s' : S) : Prop := {
  ok_snapshot c' : c' <> c -> get_cart_snapshot c' s' = get_cart_snapshot c' s;
  ok_state c' : c' <> c -> get_cart_state c' s' = get_cart_state c' s;
  ok_events c' : c' <> c -> es_events c' s' = es_events c' s
}.

#[export] Instance others_kept_preorder {S} `{EventStoreLaws S} c : PreOrder (others_kept (S:=S) c).
Proof.
  split; [by constructor|]. intros x y z [] [].
  constructor; intros d Hd; [rewrite ok_snapshot1, ok_snapshot0
    | rewrite ok_state1, ok_state0 | rewrite ok_events1, ok_events0]; done.
Qed.

(** The stored carts are filed under their own id and their money adds up. *)
Definition snapshots_ok {S} `{EventStore S} (s : S) : Prop :=
  forall c p, get_cart_snapshot c s = Some p -> cp_cart_id p = c /\ cart_consistent p.

Section event_store.
Context {S : Type} `{EventStoreLaws S}.
Implicit Types s : S.

Lemma others_append c e s : others_kept c s (snd (append_cart_event c e s)).
Proof. constructor; intros d Hd; autorewrite with stores; try done. by rewrite decide_False. Qed.

Lemma others_put p s : others_kept (cp_cart_id p) s (snd (put_cart_snapshot p s)).
Proof. constructor; intros d Hd; autorewrite with stores; try done. by rewrite decide_False. Qed.

Lemma others_set c st s : others_kept c s (snd (set_cart_state c st s)).
Proof. constructor; intros d Hd; autorewrite with stores; try done. by rewrite decide_False. Qed.

Lemma snapshots_ok_same s s' :
  (forall c, get_cart_snapshot c s' = get_cart_snapshot c s) ->
  snapshots_ok s -> snapshots_ok s'.
Proof. intros Hs Hok c p. rewrite Hs. apply Hok. Qed.

Lemma snapshots_ok_append c e s :
  snapshots_ok s -> snapshots_ok (snd (append_cart_event c e s)).
Proof. apply snapshots_ok_same. intros d. by autorewrite with stores. Qed.

Lemma snapshots_ok_set c st s : snapshots_ok s -> snapshots_ok (snd (set_cart_state c st s)).
Proof. apply snapshots_ok_same. intros d. by autorewrite with stores. Qed.

Lemma snapshots_ok_put p s :
  cart_consistent p -> snapshots_ok s -> snapshots_ok (snd (put_cart_snapshot p s)).
Proof.
  intros Hp Hok c q. rewrite get_snapshot_put.
  case_decide as Hc; [intros [= <-]; by subst|apply Hok].
Qed.
End event_store.

#[export] Hint Resolve snapshots_ok_append snapshots_ok_set snapshots_ok_put : orch.

Section recalculation.
Context {B : Backend} {L : BackendLaws B} (env : Env) (self : RunnerConfig B).
Implicit Types w v : World B.

Lemma wp_transition c ev (Q : result unit RunnerError -> World B -> Prop) w :
  wp (transition_cart c ev) Q w <->
  match get_cart_state c (w_events w) with
  | None => Q (Err CartNotFound) w
  | Some st =>
      match next_cart_state st ev with
      | None => Q (Err InvalidStateTransition) w
      | Some st' =>
          Q (map_err RunnerStore (fst (set_cart_state c st' (w_events w))))
            (set_events (snd (set_cart_state c st' (w_events w))) w)
      end
  end.
Proof.
  unfold transition_cart. wp_prims. destruct (get_cart_state c (w_events w)) as [st|];
    cbn [ok_or]; [|done]. wp_prims. destruct (next_cart_state st ev); cbn [ok_or]; [|done].
  by wp_prims.
Qed.

(** Part way through a recalculation of cart [c]: the log has grown by [evs], and no
    snapshot has been stored yet. *)
Record in_progress (c : CartId) (evs : list CartStreamEvent) (w v : World B) : Prop := {
  ip_carts : only_carts w v;
  ip_others : others_kept c (w_events w) (w_events v);
  ip_snapshot : get_cart_snapshot c (w_events v) = get_cart_snapshot c (w_events w);
  ip_events : es_events c (w_events v) = es_events c (w_events w) ++ evs
}.

Lemma in_progress_start c w : in_progress c [] w w.
Proof. constructor; try done. by rewrite app_nil_r. Qed.

Lemma in_progress_quiet c evs w v u :
  in_progress c evs w v -> quiet v u -> in_progress c evs w u.
Proof. intros [] [Hq He]. constructor; rewrite ?He; try done. by etrans. Qed.

Lemma in_progress_ok c evs w v :
  in_progress c evs w v -> snapshots_ok (w_events w) -> snapshots_ok (w_events v).
Proof.
  intros [_ [Hs _ _] Hc _]. apply snapshots_ok_same. intros d.
  destruct (decide (d = c)) as [->|]; auto.
Qed.

Lemma step_append c e evs (Q : result unit RunnerError -> World B -> Prop) w v :
  in_progress c evs w v ->
  (forall se u, in_progress c (evs ++ [e]) w u -> Q (Err (RunnerStore se)) u) ->
  (forall u, in_progress c (evs ++ [e]) w u -> get_cart_state c (w_events u)
      = get_cart_state c (w_events v) -> Q (Ok tt) u) ->
  wp (on_events (append_cart_event c e)) Q v.
Proof.
  intros [Hc Ho Hs He] Herr Hok. rewrite wp_on_events.
  set (u := set_events _ v).
  assert (in_progress c (evs ++ [e]) w u) as Hu.
  { constructor; cbn.
    - by apply only_carts_events.
    - etrans; [done|apply others_append].
    - by rewrite get_snapshot_append.
    - rewrite events_append, decide_True by done. by rewrite He, app_assoc. }
  destruct (fst _) as [[]|se]; cbn; [|by apply Herr].
  apply Hok; [done|]. cbn. by rewrite get_state_append.
Qed.

Lemma step_transition c ev evs (Q : result unit RunnerError -> World B -> Prop) w v :
  in_progress c evs w v ->
  (forall e u, in_progress c evs w u ->
     e = CartNotFound \/ e = InvalidStateTransition \/ (exists se, e = RunnerStore se) ->
     Q (Err e) u) ->
  (forall st st' u, in_progress c evs w u -> get_cart_state c (w_events v) = Some st ->
     next_cart_state st ev = Some st' ->
     get_cart_state c (w_events u) = Some st' -> Q (Ok tt) u) ->
  wp (transition_cart c ev) Q v.
Proof.
  intros Hp Herr Hok. rewrite wp_transition.
  destruct (get_cart_state c (w_events v)) as [st|] eqn:Hst; [|apply Herr; auto].
  destruct (next_cart_state st ev) as [st'|] eqn:Hn; [|apply Herr; eauto].
  set (u := set_events _ v).
  assert (in_progress c evs w u) as Hu.
  { destruct Hp as [Hc Ho Hs He]. constructor; cbn.
    - by apply only_carts_events.
    - etrans; [done|apply others_set].
    - by rewrite get_snapshot_set.
    - by rewrite events_set. }
  destruct (fst _) as [[]|se]; cbn; [|apply Herr; eauto].
  eapply Hok; try done. cbn. by rewrite get_state_set, decide_True.
Qed.

(** The snapshot was replaced by a consistent cart, or left alone. *)
Definition snapshot_step (c : CartId) (w v : World B) : Prop :=
  get_cart_snapshot c (w_events v) = get_cart_snapshot c (w_events w)
  \/ exists q, cp_cart_id q = c /\ cart_consistent q
               /\ get_cart_snapshot c (w_events v) = Some q.

(** What a command on cart [c] may do to the world, whatever it returns. *)
Record cart_step (c : CartId) (w v : World B) : Prop := {
  cs_carts : only_carts w v;
  cs_others : others_kept c (w_events w) (w_events v);
  cs_snapshot : snapshot_step c w v
}.

Lemma in_progress_step c evs w v : in_progress c evs w v -> cart_step c w v.
Proof. intros []. constructor; try done. by left. Qed.

Lemma cart_step_ok c w v :
  cart_step c w v -> snapshots_ok (w_events w) -> snapshots_ok (w_events v).
Proof.
  intros [_ [Hs _ _] Hc] Hok d p. destruct (decide (d = c)) as [->|Hd].
  - destruct Hc as [->|(q & Hq & Hcons & ->)]; [apply Hok|]. intros [= <-]. done.
  - rewrite Hs by done. apply Hok.
Qed.

(** Storing the recalculated cart ends the command. *)
Lemma step_put c p evs (Q : result unit RunnerError -> World B -> Prop) w v :
  in_progress c evs w v -> cp_cart_id p = c -> cart_consistent p ->
  (forall r u, cart_step c w u ->
     get_cart_snapshot c (w_events u) = Some p ->
     get_cart_state c (w_events u) = get_cart_state c (w_events v) ->
     es_events c (w_events u) = es_events c (w_events w) ++ evs ->
     r = Ok tt \/ (exists se, r = Err (RunnerStore se)) -> Q r u) ->
  wp (on_events (put_cart_snapshot p)) Q v.
Proof.
  intros [Hc Ho Hs He] Hid Hcons HQ. rewrite wp_on_events.
  assert (get_cart_snapshot c (snd (put_cart_snapshot p (w_events v))) = Some p) as Hp.
  { by rewrite get_snapshot_put, decide_True. }
  apply HQ; cbn; try done.
  - constructor; cbn.
    + by apply only_carts_events.
    + etrans; [done|]. rewrite <- Hid. apply others_put.
    + right. eauto.
  - by rewrite get_state_put.
  - by rewrite events_put.
  - destruct (fst _) as [[]|se]; [by left|]. right. by eexists.
Qed.
End recalculation.

#[export] Hint Resolve in_progress_start in_progress_step : orch.
#[export] Hint Extern 4 (in_progress _ _ _ _) => eapply in_progress_quiet; [|eassumption] : orch.

Section commands.
Context {B : Backend} {L : BackendLaws B} (env : Env) (self : RunnerConfig B).
Implicit Types w v : World B.

(** The three events a recalculation logs after the one of the command. *)
Definition recalculated (p : CartProjection) : list CartStreamEvent :=
  [EvRepriced; EvRetaxed (cp_tax_minor p); EvGeoChecked (cp_geo_ok p)].

Definition store_failure (e : RunnerError) : Prop := exists se, e = RunnerStore se.

(** Where a provider's failure leaves the state machine of the cart. *)
Definition stuck_after (e : RunnerError) (c : CartId) (v : World B) : Prop :=
  match e with
  | RunnerTax _ => get_cart_state c (w_events v) = Some Repriced
  | RunnerGeo _ => get_cart_state c (w_events v) = Some Retaxed
  | _ => True
  end.

(** A recalculation of [c] that failed with [e] in [v]. *)
Definition recalculation_failed (c : CartId) (w v : World B) (e : RunnerError) : Prop :=
  cart_step c w v
  /\ (store_failure e
      \/ get_cart_snapshot c (w_events v) = get_cart_snapshot c (w_events w))
  /\ stuck_after e c v.

Lemma in_progress_failed c evs e w v :
  in_progress c evs w v -> stuck_after e c v -> recalculation_failed c w v e.
Proof.
  intros Hp ?. split; [eauto with orch|]. split; [|done]. right. by eapply ip_snapshot.
Qed.

Lemma append_failed c evs se w v :
  in_progress c evs w v -> recalculation_failed c w v (RunnerStore se).
Proof. intros. by eapply in_progress_failed. Qed.

Lemma transition_failed c evs e w v :
  in_progress c evs w v ->
  e = CartNotFound \/ e = InvalidStateTransition \/ (exists se, e = RunnerStore se) ->
  recalculation_failed c w v e.
Proof. intros ? [->|[->|[se ->]]]; by eapply in_progress_failed. Qed.

Lemma pricing_failed c evs e w v :
  in_progress c evs w v -> (exists e', e = RunnerPricing e') -> recalculation_failed c w v e.
Proof. intros ? [? ->]. by eapply in_progress_failed. Qed.

Hint Resolve append_failed transition_failed pricing_failed : orch.

(** The second half of a recalculation: from the tax on. *)
Lemma recalculate_tail_spec c p evs w v :
  cp_cart_id p = c ->
  in_progress c evs w v ->
  get_cart_state c (w_events v) = Some Repriced ->
  cp_subtotal_minor p = i64_sum (map cl_total_minor (cp_lines p)) ->
  wp (tax ← call (CallResolveTax p) (fun n => resolve_tax (providers self) n p) RunnerTax;
      q ← apply_discounts self (cp_set_tax_minor tax p);
      _ ← transition_cart c CartTaxResolved;
      _ ← on_events (append_cart_event c (EvRetaxed tax));
      geo ← check_geo self q;
      let q := cp_set_geo_ok geo q in
      _ ← transition_cart c CartGeoValidated;
      _ ← on_events (append_cart_event c (EvGeoChecked (cp_geo_ok q)));
      _ ← on_events (put_cart_snapshot q);
      mret q)
    (fun r u =>
       match r with
       | Ok q => cart_step c w u /\ same_order (cp_set_tax_minor (cp_tax_minor q) p) q
                 /\ get_cart_snapshot c (w_events u) = Some q
                 /\ get_cart_state c (w_events u) = Some CartGeoChecked
                 /\ es_events c (w_events u) = es_events c (w_events w) ++ evs
                      ++ [EvRetaxed (cp_tax_minor q); EvGeoChecked (cp_geo_ok q)]
       | Err e => recalculation_failed c w u e
       end) v.
Proof.
  intros Hid Hp Hst Hsub. wp_step. rewrite wp_call. cbv beta iota.
  assert (forall k, in_progress c evs w (set_tick (S (w_tick v))
    (set_trace (w_trace v ++ [CallResolveTax k]) v))) as Hp5.
  { intros k. eapply in_progress_quiet; [exact Hp|auto with orch]. }
  wp_split; [|by eapply in_progress_failed]. wp_step. wp_use apply_discounts_spec.
  intros [q|e] v6 [Hq6 Hr]; [|eauto with orch]. destruct Hr as (Hs & Htax & Hcons).
  specialize (in_progress_quiet _ _ _ _ _ (Hp5 _) Hq6) as Hp6.
  wp_step. eapply step_transition; [done|eauto with orch|].
  intros st7 st7' v7 Hp7 _ Hn7 Hst7. wp_step. eapply step_append; [done|eauto with orch|].
  intros v8 Hp8 Hst8. wp_step. wp_use check_geo_spec.
  intros [g|e] v9 [Hq9 Hr]; specialize (in_progress_quiet _ _ _ _ _ Hp8 Hq9) as Hp9.
  2:{ destruct Hr as [e' ->]. eapply in_progress_failed; [done|]. cbn.
      destruct Hq9 as [_ ->]. destruct st7; simplify_eq/=; congruence. }
  wp_step. eapply step_transition; [done|eauto with orch|].
  intros st st' v10 Hp10 _ Hn Hst10. wp_step. eapply step_append; [done|eauto with orch|].
  intros v11 Hp11 Hst11. wp_step. cbn in Htax.
  eapply step_put; [done|by cbn; rewrite (so_cart_id _ _ Hs)|by apply consistent_geo, Hcons|].
  intros r u Hstep Hsnap Hstu Hev [-> | [se ->]]; wp_steps.
  - split; [done|]. cbn. rewrite Htax. split; [by apply same_order_geo|]. split; [done|].
    split; [destruct st; simplify_eq/=; congruence|]. by rewrite Hev, <- !app_assoc.
  - split; [done|]. split; [left; by eexists|done].
Qed.

Lemma mutate_and_recalculate_spec c p ev w :
  cp_cart_id p = c ->
  wp (mutate_and_recalculate self c p ev) (fun r v =>
    match r with
    | Ok q => cart_step c w v /\ same_order p q
              /\ get_cart_snapshot c (w_events v) = Some q
              /\ get_cart_state c (w_events v) = Some CartGeoChecked
              /\ es_events c (w_events v) = es_events c (w_events w) ++ ev :: recalculated q
    | Err e => recalculation_failed c w v e
    end) w.
Proof.
  intros Hid. unfold mutate_and_recalculate.
  wp_step. eapply step_transition; [apply in_progress_start|eauto with orch|].
  intros _ _ v1 Hp1 _ _ _. wp_step. eapply step_append; [done|eauto with orch|].
  intros v2 Hp2 _. wp_step. wp_use price_lines_spec.
  intros [q|e] v3 [Hq Hr]; [|eauto with orch]. destruct Hr as [prices ->].
  specialize (in_progress_quiet _ _ _ _ _ Hp2 Hq) as Hp3.
  wp_step. eapply step_transition; [done|eauto with orch|].
  intros st st' v4 Hp4 _ Hn Hst. wp_step. eapply step_append; [done|eauto with orch|].
  intros v5 Hp5 Hst5. eapply wp_mono.
  { apply recalculate_tail_spec; [exact Hid|exact Hp5| |done].
    destruct st; simplify_eq/=; congruence. }
  intros [q|e] u Hu; [|done]. destruct Hu as (Hstep & Hs & Hsnap & Hstu & Hev).
  split; [done|]. split; [|by rewrite Hev, <- app_assoc].
  eapply same_order_trans; [apply same_order_apply_tax|done].
Qed.

(** *** The item commands *)

Definition is_item_command (cmd : CartCommand) : bool :=
  match cmd with
  | AddItem _ | UpdateItemQty _ | RemoveItem _ | ApplyAdjustment _ => true
  | _ => false
  end.

(** The part of a cart an item command edits, its event, and the effect. *)
Definition item_effect (cmd : CartCommand) (p q : CartProjection) (ev : CartStreamEvent)
  : Prop :=
  match cmd with
  | AddItem a =>
      exists line_id n item,
        get_item (catalog (providers self)) n (ai_item_id a) = Ok item
        /\ map line_key (cp_lines q)
           = map line_key (cp_lines p) ++ [(line_id, ci_id item, ci_title item, ai_quantity a)]
        /\ cp_adjustment_codes q = cp_adjustment_codes p
        /\ ev = EvItemAdded line_id (ai_item_id a) (ai_quantity a)
  | UpdateItemQty a =>
      (exists l x r,
        map line_key (cp_lines p) = l ++ x :: r
        /\ map line_key (cp_lines q) = l ++ (x.1, uq_quantity a) :: r
        /\ x.1.1.1 = uq_line_id a /\ Forall (fun y => y.1.1.1 <> uq_line_id a) l)
      /\ cp_adjustment_codes q = cp_adjustment_codes p
      /\ ev = EvItemQtyUpdated (uq_line_id a) (uq_quantity a)
  | RemoveItem a =>
      map line_key (cp_lines q)
      = List.filter (fun k => negb (String.eqb k.1.1.1 (ri_line_id a)))
          (map line_key (cp_lines p))
      /\ cp_adjustment_codes q = cp_adjustment_codes p
      /\ ev = EvItemRemoved (ri_line_id a)
  | ApplyAdjustment a =>
      map line_key (cp_lines q) = map line_key (cp_lines p)
      /\ cp_adjustment_codes q
         = (if decide (aa_code a ∈ cp_adjustment_codes p) then cp_adjustment_codes p
            else cp_adjustment_codes p ++ [aa_code a])
      /\ ev = EvAdjustmentApplied (aa_code a)
  | _ => False
  end.

(** An item command on a stored cart: it recalculates an edited copy of the cart. *)
Definition item_post (cmd : CartCommand) (c : CartId) (w : World B)
    (r : result CartProjection RunnerError) (v : World B) : Prop :=
  match r with
  | Ok q =>
      exists p ev,
        get_cart_snapshot c (w_events w) = Some p
        /\ item_effect cmd p q ev
        /\ same_order (cp_set_lines (cp_lines q)
             (cp_set_adjustment_codes (cp_adjustment_codes q) (bump p))) q
        /\ cart_step c w v
        /\ get_cart_snapshot c (w_events v) = Some q
        /\ get_cart_state c (w_events v) = Some CartGeoChecked
        /\ es_events c (w_events v) = es_events c (w_events w) ++ ev :: recalculated q
  | Err e => recalculation_failed c w v e
  end.

(** The recalculation of an edited cart, whatever quiet steps came first. *)
Lemma recalculate_edited cmd c p p' ev w v :
  quiet w v ->
  get_cart_snapshot c (w_events w) = Some p -> cp_cart_id p = c ->
  same_order (cp_set_lines (cp_lines p') (cp_set_adjustment_codes (cp_adjustment_codes p') p)) p' ->
  (forall q, same_order (bump p') q -> item_effect cmd p q ev) ->
  wp (mutate_and_recalculate self c (bump p') ev) (item_post cmd c w) v.
Proof.
  intros Hq Hsnap Hid Hsame Heff. pose proof Hq as [_ He].
  eapply wp_mono; [apply mutate_and_recalculate_spec; cbn; by rewrite (so_cart_id _ _ Hsame)|].
  intros [q|e] u; cbn.
  - intros (Hstep & Hs & Hrest). rewrite He in Hrest.
    exists p, ev. split; [done|]. split; [by apply Heff|]. split; [|split; [|done]].
    + destruct Hs, Hsame. constructor; cbn in *; congruence.
    + destruct Hstep as [? Ho Hc]. constructor; [|by rewrite <- He|].
      * destruct Hq. by etrans.
      * unfold snapshot_step in *. by rewrite <- He.
  - unfold recalculation_failed. rewrite <- He. intros ([? Ho Hc] & ?).
    split; [|done]. constructor; [|by rewrite <- He|].
    + destruct Hq. by etrans.
    + unfold snapshot_step in *. by rewrite <- He.
Qed.

Lemma quiet_failed c e w v :
  quiet w v -> stuck_after e c v -> recalculation_failed c w v e.
Proof. intros Hq. eapply in_progress_failed. eapply in_progress_quiet; [|done]. auto with orch. Qed.

Lemma quiet_post cmd c e w v :
  quiet w v -> stuck_after e c v -> item_post cmd c w (Err e) v.
Proof. apply quiet_failed. Qed.

Hint Resolve quiet_post : orch.
Hint Extern 1 (stuck_after _ _ _) => exact I : orch.

(** Loads the cart, which is filed under its id. *)
Ltac load Hok p Hp Hid :=
  wp_step; rewrite wp_load_cart;
  match goal with |- context [get_cart_snapshot ?c ?e] =>
    destruct (get_cart_snapshot c e) as [p|] eqn:Hp; cbn [ok_or]; [|by eauto with orch];
    destruct (Hok _ _ Hp) as [Hid _]
  end.

Lemma cmd_add_item_spec a c w :
  snapshots_ok (w_events w) ->
  wp (cmd_add_item env self (Some c) a) (item_post (AddItem a) c w) w.
Proof.
  intros Hok. unfold cmd_add_item. wp_prims. cbn [ok_or].
  wp_step. rewrite wp_call. cbv beta iota. wp_split; [|by eauto with orch].
  load Hok p Hp Hid. wp_prims.
  eapply recalculate_edited; [by auto with orch|exact Hp|done|by constructor|].
  intros q Hs. pose proof (so_lines _ _ Hs) as Hl. cbn in Hl. rewrite map_app in Hl.
  eexists _, _, _. split; [done|]. split; [exact Hl|]. split; [apply Hs|done].
Qed.

Lemma cmd_update_item_qty_spec a c w :
  snapshots_ok (w_events w) ->
  wp (cmd_update_item_qty self (Some c) a) (item_post (UpdateItemQty a) c w) w.
Proof.
  intros Hok. unfold cmd_update_item_qty. wp_prims. cbn [ok_or].
  load Hok p Hp Hid. wp_prims. destruct (update_first _ _ _) as [ls|] eqn:Hu; cbn [ok_or];
    [|by eauto with orch].
  eapply recalculate_edited; [by auto with orch|exact Hp|done|by constructor|].
  intros q Hs. pose proof (so_lines _ _ Hs) as Hl. cbn in Hl.
  split; [|split; [apply Hs|done]].
  apply update_first_Some in Hu as (l & x & r & -> & -> & Hx & Hne).
  exists (map line_key l), (line_key x), (map line_key r).
  rewrite Hl, !map_app. do 2 (split; [done|]). apply String.eqb_eq in Hx.
  split; [done|]. apply Forall_fmap. eapply Forall_impl; [exact Hne|].
  cbn. by intros y ?%String.eqb_neq.
Qed.

Lemma filter_map_line (f : string -> bool) ls :
  map line_key (List.filter (fun l => f (cl_line_id l)) ls)
  = List.filter (fun k => f k.1.1.1) (map line_key ls).
Proof. induction ls as [|l ls IH]; [done|]. cbn. destruct (f _); cbn; by rewrite IH. Qed.

Lemma cmd_remove_item_spec a c w :
  snapshots_ok (w_events w) ->
  wp (cmd_remove_item self (Some c) a) (item_post (RemoveItem a) c w) w.
Proof.
  intros Hok. unfold cmd_remove_item. wp_prims. cbn [ok_or].
  load Hok p Hp Hid.
  eapply recalculate_edited; [by auto with orch|exact Hp|done|by constructor|].
  intros q Hs. pose proof (so_lines _ _ Hs) as Hl. cbn in Hl.
  split; [|split; [apply Hs|done]]. rewrite Hl.
  apply (filter_map_line (fun i => negb (String.eqb i (ri_line_id a)))).
Qed.

Lemma cmd_apply_adjustment_spec a c w :
  snapshots_ok (w_events w) ->
  wp (cmd_apply_adjustment self (Some c) a) (item_post (ApplyAdjustment a) c w) w.
Proof.
  intros Hok. unfold cmd_apply_adjustment, validate_adjustment. wp_prims. cbn [ok_or].
  load Hok p Hp Hid. wp_step.
  assert (forall v, quiet w v ->
    wp (let codes := cp_adjustment_codes p in
        let codes := if str_contains codes (aa_code a) then codes else codes ++ [aa_code a] in
        mutate_and_recalculate self c (bump (cp_set_adjustment_codes codes p))
          (EvAdjustmentApplied (aa_code a))) (item_post (ApplyAdjustment a) c w) v) as Hrec.
  { intros v Hq. eapply recalculate_edited; [done|exact Hp|done|by constructor|].
    intros q Hs. pose proof (so_codes _ _ Hs) as Hl. cbn in Hl.
    split; [apply Hs|]. split; [|done]. rewrite Hl.
    destruct (str_contains _ _) eqn:Hc; case_decide as Hd; try done.
    - by apply str_contains_spec in Hc.
    - apply str_contains_spec in Hd. by rewrite Hd in Hc. }
  destruct (adjustment_item (aa_code a)) as [item|]; [|wp_prims; by apply Hrec].
  wp_step. rewrite wp_call. cbv beta iota. wp_split; [|by eauto with orch].
  wp_prims. apply Hrec. auto with orch.
Qed.

Lemma item_command_spec cmd c w :
  is_item_command cmd = true -> snapshots_ok (w_events w) ->
  wp (dispatch_cart_command env self cmd (Some c)) (item_post cmd c w) w.
Proof.
  intros Hcmd Hok. unfold dispatch_cart_command.
  destruct (negb _); [wp_prims; by eauto with orch|].
  destruct cmd; try done; [by apply cmd_add_item_spec | by apply cmd_update_item_qty_spec
    | by apply cmd_remove_item_spec | by apply cmd_apply_adjustment_spec].
Qed.

(** *** The other commands *)

Lemma cart_step_set_state c st w v :
  cart_step c w v ->
  cart_step c w (set_events (snd (set_cart_state c st (w_events v))) v).
Proof.
  intros [Hc Ho Hs]. constructor; cbn.
  - by apply only_carts_events.
  - etrans; [done|apply others_set].
  - unfold snapshot_step in *. cbn. by rewrite get_snapshot_set.
Qed.

Lemma cart_step_transition c ev w v :
  cart_step c w v -> wp (transition_cart c ev) (fun _ u => cart_step c w u) v.
Proof.
  intros Hs. apply wp_transition. destruct (get_cart_state _ _) as [st|]; [|done].
  destruct (next_cart_state st ev); [|done]. by apply cart_step_set_state.
Qed.

Lemma quiet_cart_step c w v : quiet w v -> cart_step c w v.
Proof. intros. eapply in_progress_step, in_progress_quiet; [|done]. auto with orch. Qed.

Hint Resolve quiet_cart_step cart_step_transition : orch.

(** Logging an event and storing a cart, after quiet steps. *)
Lemma log_and_put {A} c p ev (k : M A) (Q : result A RunnerError -> World B -> Prop) w v :
  quiet w v -> cp_cart_id p = c -> cart_consistent p ->
  (forall se u, cart_step c w u -> Q (Err (RunnerStore se)) u) ->
  (forall u, cart_step c w u -> get_cart_snapshot c (w_events u) = Some p ->
     get_cart_state c (w_events u) = get_cart_state c (w_events w) ->
     es_events c (w_events u) = es_events c (w_events w) ++ [ev] ->
     wp k Q u) ->
  wp (_ ← on_events (append_cart_event c ev); _ ← on_events (put_cart_snapshot p); k) Q v.
Proof.
  intros Hq Hid Hcons Herr Hok. pose proof Hq as [_ He]. wp_step.
  eapply step_append; [eapply in_progress_quiet; [apply in_progress_start|exact Hq]| |].
  { intros se u Hu. apply Herr. eauto with orch. }
  cbn. intros u Hu Hstu. wp_step. eapply step_put; [done|done|done|].
  intros r x Hx Hsnap Hst Hev [->|[se ->]]; [|by apply Herr].
  apply Hok; try done. by rewrite Hst, Hstu, He.
Qed.

Definition set_fulfillment_post (p : SetFulfillmentSelectionPayload) (c : CartId) w
    (r : result CartProjection RunnerError) (v : World B) : Prop :=
  cart_step c w v
  /\ match r with
     | Ok q =>
         exists old options method,
           get_cart_snapshot c (w_events w) = Some old
           /\ cp_fulfillment q = Some (MkFulfillmentState
                (retain (fun m => negb (bool_decide (fm_method_type m = sf_method_type p)))
                   (fs_methods (unwrap_or (cp_fulfillment old) (MkFulfillmentState [])))
                 ++ [method]))
           /\ fm_method_type method = sf_method_type p
           /\ selected_amount options (sf_selected_option_id p) = Ok (cp_fulfillment_minor q)
           /\ same_order (cp_set_fulfillment_minor (cp_fulfillment_minor q)
                (cp_set_fulfillment (cp_fulfillment q) (bump old))) q
           /\ get_cart_snapshot c (w_events v) = Some q
           /\ get_cart_state c (w_events v) = get_cart_state c (w_events w)
     | Err e => store_failure e
                \/ get_cart_snapshot c (w_events v) = get_cart_snapshot c (w_events w)
     end.

Lemma quiet_ful p c e w v : quiet w v -> set_fulfillment_post p c w (Err e) v.
Proof.
  intros Hq. split; [by auto with orch|]. right. destruct Hq as [_ Hv]. by rewrite Hv.
Qed.

Hint Resolve quiet_ful : orch.

Lemma quote_fulfillment_spec p sel ids w :
  wp (quote_fulfillment self p sel ids) (fun _ v => quiet w v) w.
Proof.
  unfold quote_fulfillment. destruct (fulfillment _); wp_prims; auto with orch.
Qed.

Lemma cmd_set_fulfillment_spec a c w :
  snapshots_ok (w_events w) ->
  wp (cmd_set_fulfillment env self (Some c) a) (set_fulfillment_post a c w) w.
Proof.
  intros Hok. unfold cmd_set_fulfillment. wp_prims. cbn [ok_or]. load Hok p Hp Hid.
  wp_prims. destruct (selection_lines p a) as [ids|]; [|by eauto with orch].
  wp_step. wp_use quote_fulfillment_spec. intros [options|e] v1 Hq1; [|by eauto with orch].
  wp_prims. destruct (selected_amount options _) as [amount|] eqn:Ha; [|by eauto with orch].
  wp_prims. wp_use apply_discounts_spec.
  intros [q|e] v2 [Hq2 Hr]; [|by eauto 6 with orch]. destruct Hr as (Hs & _ & Hcons).
  wp_step. wp_use check_geo_spec. intros [g|e] v3 [Hq3 _]; [|by eauto 7 with orch].
  eapply (log_and_put _ _ _ _ _ w); [by eauto 7 with orch|cbn; by rewrite (so_cart_id _ _ Hs)| | |].
  - apply consistent_bump, consistent_geo, Hcons. cbn. by destruct (Hok _ _ Hp) as [_ []].
  - intros se u Hu. split; [done|]. left. by eexists.
  - intros u Hu Hsnap Hst _. wp_prims. split; [done|]. eexists p, options, _.
    split; [done|]. cbn. split; [rewrite (so_fulfillment _ _ Hs); reflexivity|].
    split; [done|]. rewrite (so_fulfillment_minor _ _ Hs).
    split; [done|]. split; [|exact (conj Hsnap Hst)].
    destruct Hs. constructor; cbn in *; congruence.
Qed.

(** Starting a checkout and cancelling store the cart before the state machine is
    asked: on success the cart has its new status and state. *)
Definition status_post (st : CartStatus) (mst : CartState) (ev : CartStreamEvent)
    (c : CartId) w (r : result CartProjection RunnerError) (v : World B) : Prop :=
  cart_step c w v
  /\ match r with
     | Ok q => exists p, get_cart_snapshot c (w_events w) = Some p
               /\ q = bump (cp_set_status st p)
               /\ get_cart_snapshot c (w_events v) = Some q
               /\ get_cart_state c (w_events v) = Some mst
               /\ es_events c (w_events v) = es_events c (w_events w) ++ [ev]
     | Err _ => True
     end.

Lemma quiet_status st mst ev c e w v : quiet w v -> status_post st mst ev c w (Err e) v.
Proof. split; [by auto with orch|done]. Qed.

Hint Resolve quiet_status : orch.

Lemma set_status_spec st mst ev mev c p w :
  snapshots_ok (w_events w) ->
  get_cart_snapshot c (w_events w) = Some p ->
  (forall s s', next_cart_state s mev = Some s' -> s' = mst) ->
  wp (let projection := bump (cp_set_status st p) in
      _ ← on_events (append_cart_event c ev);
      _ ← on_events (put_cart_snapshot projection);
      _ ← transition_cart c mev;
      mret projection) (status_post st mst ev c w) w.
Proof.
  intros Hok Hp Hmst. destruct (Hok _ _ Hp) as [Hid Hcons].
  eapply (log_and_put _ _ _ _ _ w); [done|done|by auto with orch|by intros; split|].
  intros u Hu Hsnap Hst Hev. wp_step. apply wp_transition.
  destruct (get_cart_state c (w_events u)) as [s|]; [|by split].
  destruct (next_cart_state s mev) as [s'|] eqn:Hn; [|by split].
  pose proof (cart_step_set_state _ s' _ _ Hu) as Hu'.
  destruct (fst _) as [[]|se]; cbn; (split; [done|]); [|done].
  exists p. do 2 (split; [done|]). cbn.
  rewrite get_snapshot_set, get_state_set, events_set, decide_True by done.
  split; [done|]. split; [|done]. f_equal. by eapply Hmst.
Qed.

Lemma cmd_start_checkout_spec a w :
  snapshots_ok (w_events w) ->
  wp (cmd_start_checkout a)
    (fun r v => status_post StatusCheckoutReady CartCheckoutReady EvCheckoutReady
                  (sc_cart_id a) w r v
       /\ forall q, r = Ok q -> cp_version q = u64_wrap (sc_cart_version a + 1)) w.
Proof.
  intros Hok. unfold cmd_start_checkout. wp_step. rewrite wp_load_cart.
  destruct (get_cart_snapshot _ _) as [p|] eqn:Hp; cbn [ok_or]; [|split; [by eauto with orch|done]].
  destruct (Z.eqb_spec (cp_version p) (sc_cart_version a)) as [Hv|Hv]; cbn [negb];
    [|wp_prims; split; [by eauto with orch|done]].
  eapply wp_mono; [apply (set_status_spec _ CartCheckoutReady _ _ _ _ _ Hok Hp)|].
  { by intros [] s' [= <-]. }
  intros r v Hr. split; [done|]. intros q ->. destruct Hr as [_ (p' & Hp' & -> & _)].
  simplify_eq. cbn. by rewrite Hv.
Qed.

Lemma cmd_cancel_cart_spec a w :
  snapshots_ok (w_events w) ->
  wp (cmd_cancel_cart a)
    (status_post StatusCancelled CartCancelled EvCancelled (xc_cart_id a) w) w.
Proof.
  intros Hok. unfold cmd_cancel_cart. wp_step. rewrite wp_load_cart.
  destruct (get_cart_snapshot _ _) as [p|] eqn:Hp; cbn [ok_or]; [|by eauto with orch].
  apply set_status_spec; try done. by intros [] s' [= <-].
Qed.

Lemma cmd_create_cart_spec a w :
  let c := MkCartId (uuid_at env (w_tick w)) in
  wp (cmd_create_cart env a) (fun r v =>
    cart_step c w v
    /\ match r with
       | Ok q => q = new_cart c a /\ get_cart_snapshot c (w_events v) = Some q
                 /\ get_cart_state c (w_events v) = Some CartCreated
       | Err e => store_failure e
       end) w.
Proof.
  intros c. unfold cmd_create_cart. wp_step. rewrite wp_new_uuid. cbv beta iota.
  eapply (log_and_put _ _ _ _ _ w); [by auto with orch|done|by constructor| |].
  { intros se u Hu. split; [done|]. by eexists. }
  intros u Hu Hsnap Hst Hev. wp_step. rewrite wp_on_events.
  pose proof (cart_step_set_state _ CartCreated _ _ Hu) as Hu'.
  destruct (fst _) as [[]|se]; cbn [map_err]; wp_prims; (split; [done|]); [|by eexists].
  split; [done|]. cbn. rewrite get_snapshot_set, get_state_set, decide_True by done. done.
Qed.

(** The one cart a command may change. *)
Definition command_cart (cmd : CartCommand) (id : option CartId) (w : World B)
  : option CartId :=
  match cmd with
  | CreateCart _ => Some (MkCartId (uuid_at env (w_tick w)))
  | GetCart _ => None
  | StartCheckout p => Some (sc_cart_id p)
  | CancelCart p => Some (xc_cart_id p)
  | _ => id
  end.

(** Whatever a command returns, it touches at most that cart. *)
Lemma dispatch_cart_step cmd id w :
  snapshots_ok (w_events w) ->
  wp (dispatch_cart_command env self cmd id) (fun _ v =>
    match command_cart cmd id w with
    | Some c => cart_step c w v
    | None => quiet w v
    end) w.
Proof.
  intros Hok. destruct (is_item_command cmd) eqn:Hi.
  - destruct id as [c|].
    + eapply wp_mono; [by apply item_command_spec|]. intros r v Hr.
      destruct cmd; try done; destruct r; destruct Hr as [??]; simp; done.
    + unfold dispatch_cart_command. destruct (negb _); [by destruct cmd; wp_prims|].
      destruct cmd; try done; by wp_prims.
  - unfold dispatch_cart_command. destruct (negb _).
    { destruct cmd, id; wp_prims; cbn; auto with orch. }
    destruct cmd; try done; cbn [command_cart].
    + eapply wp_mono; [apply cmd_create_cart_spec|]. by intros r v [].
    + eapply wp_mono; [by apply cmd_start_checkout_spec|]. by intros r v [[] _].
    + eapply wp_mono; [by apply cmd_cancel_cart_spec|]. by intros r v [].
    + destruct id; [|by wp_prims].
      eapply wp_mono; [by apply cmd_set_fulfillment_spec|]. by intros r v [].
Qed.
End commands.

(** ** Stuck carts *)

Section stuck.
Context {B : Backend} {L : BackendLaws B} (env : Env) (self : RunnerConfig B).
Implicit Types w v : World B.

(** A state the machine leaves by no [ItemChanged]. *)
Definition refuses_items (w : World B) (c : CartId) : Prop :=
  exists st, get_cart_state c (w_events w) = Some st /\ next_cart_state st ItemChanged = None.

Definition fails {A} (r : result A RunnerError) (v : World B) : Prop := exists e, r = Err e.

Lemma mutate_refused c p ev w v :
  refuses_items w c -> quiet w v -> wp (mutate_and_recalculate self c p ev) fails v.
Proof.
  intros (st & Hst & Hn) [_ He]. unfold mutate_and_recalculate. wp_step.
  apply wp_transition. rewrite He, Hst, Hn. by eexists.
Qed.

Lemma item_command_refused cmd c w :
  is_item_command cmd = true -> refuses_items w c ->
  wp (dispatch_cart_command env self cmd (Some c)) fails w.
Proof.
  intros Hi Hst. unfold dispatch_cart_command.
  assert (forall A (e : RunnerError) v, fails (A:=A) (Err e) v) as Hf by (by eexists).
  destruct (negb _); [by wp_prims; eauto|].
  destruct cmd; try done; cbn;
    unfold cmd_add_item, cmd_update_item_qty, cmd_remove_item, cmd_apply_adjustment,
      validate_adjustment; wp_prims; cbn [ok_or]; wp_step.
  - rewrite wp_call. cbv beta iota. wp_split; [|done]. wp_prims. wp_split; [|done].
    wp_prims. eapply mutate_refused; [done|auto with orch].
  - rewrite wp_load_cart. wp_split; [|done]. wp_prims.
    destruct (update_first _ _ _); cbn [ok_or]; [|done]. by eapply mutate_refused.
  - rewrite wp_load_cart. wp_split; [|done]. by eapply mutate_refused.
  - rewrite wp_load_cart. wp_split; [|done]. wp_step.
    destruct (adjustment_item _); [|by wp_prims; eapply mutate_refused].
    wp_step. rewrite wp_call. cbv beta iota. wp_split; [|done].
    wp_prims. eapply mutate_refused; [done|auto with orch].
Qed.
End stuck.

(** ** Properties *)

Section properties.
Context {B : Backend} {L : BackendLaws B} (env : Env) (self : RunnerConfig B).
Implicit Types w v : World B.

(** C11: whatever a cart command returns, the stored carts stay well formed (filed
    under their id, subtotal the sum of the lines, discount clamped to what is
    owed, total the difference), no store but the carts' changes, no payment is
    made, and every cart but the one addressed keeps its snapshot, state and log. *)
Theorem cart_commands_preserve_carts cmd id w r v :
  snapshots_ok (w_events w) ->
  dispatch_cart_command env self cmd id w = (r, v) ->
  snapshots_ok (w_events v) /\ only_carts w v
  /\ forall c, command_cart env cmd id w <> Some c ->
       get_cart_snapshot c (w_events v) = get_cart_snapshot c (w_events w)
       /\ get_cart_state c (w_events v) = get_cart_state c (w_events w)
       /\ es_events c (w_events v) = es_events c (w_events w).
Proof.
  intros Hok Hrun. pose proof (wp_run _ _ _ _ _ (dispatch_cart_step env self cmd id w Hok) Hrun)
    as Hs. cbv beta in Hs. destruct (command_cart env cmd id w) as [d|].
  - split; [by eapply cart_step_ok|]. destruct Hs as [? [] _]. split; [done|].
    intros c Hc. assert (c <> d) by congruence. auto.
  - destruct Hs as [? ->]. done.
Qed.

(** C9: an item command that fails leaves the carts as they were.  Whatever the error, nothing but
    carts is touched and every other cart keeps its snapshot, state and log; and unless it was the
    store itself that failed, the cart of the command keeps its snapshot too: no line, price or
    version of it changes.  Its state and its log may have moved on. *)
Theorem failed_item_command_keeps_carts cmd c w e v :
  is_item_command cmd = true -> snapshots_ok (w_events w) ->
  dispatch_cart_command env self cmd (Some c) w = (Err e, v) ->
  only_carts w v
  /\ (forall d, d <> c -> get_cart_snapshot d (w_events v) = get_cart_snapshot d (w_events w)
        /\ get_cart_state d (w_events v) = get_cart_state d (w_events w)
        /\ es_events d (w_events v) = es_events d (w_events w))
  /\ (store_failure e
      \/ forall d, get_cart_snapshot d (w_events v) = get_cart_snapshot d (w_events w)).
Proof.
  intros Hi Hok Hrun.
  destruct (wp_run _ _ _ _ _ (item_command_spec env self cmd c w Hi Hok) Hrun)
    as ([Hc [Ho Hs He] _] & Hs' & _).
  split; [done|]. split; [by auto|]. destruct Hs' as [Hs'|Hs']; [by left|right].
  intros d. destruct (decide (d = c)) as [->|]; auto.
Qed.

(** A tax or geo provider that fails during an item command leaves the cart's
    state machine between two stages, and from then on every item command on that
    cart fails, with providers that answer again. *)
Theorem provider_failure_wedges_cart cmd c w e v cmd' self' r v' :
  is_item_command cmd = true -> snapshots_ok (w_events w) ->
  dispatch_cart_command env self cmd (Some c) w = (Err e, v) ->
  (exists te, e = RunnerTax te) \/ (exists ge, e = RunnerGeo ge) ->
  is_item_command cmd' = true ->
  dispatch_cart_command env self' cmd' (Some c) v = (r, v') ->
  exists e', r = Err e'.
Proof.
  intros Hi Hok Hrun He Hi' Hrun'.
  destruct (wp_run _ _ _ _ _ (item_command_spec env self cmd c w Hi Hok) Hrun)
    as (_ & _ & Hst).
  eapply (wp_run _ fails); [|done]. apply item_command_refused; [done|].
  destruct He as [[te ->]|[ge ->]]; by eexists.
Qed.

(** A fulfillment selection replaces the method of its type, charges the amount
    of the option it names among those on offer (nothing when it names none), and
    leaves lines, codes and the state machine alone.  The charge is the one of this
    selection only: the methods of the other type stay in the cart uncharged. *)
Theorem set_fulfillment_charges_selection a c w q v :
  snapshots_ok (w_events w) ->
  dispatch_cart_command env self (SetFulfillmentSelection a) (Some c) w = (Ok q, v) ->
  exists old options method,
    get_cart_snapshot c (w_events w) = Some old
    /\ cp_fulfillment q = Some (MkFulfillmentState
         (retain (fun m => negb (bool_decide (fm_method_type m = sf_method_type a)))
            (fs_methods (unwrap_or (cp_fulfillment old) (MkFulfillmentState [])))
          ++ [method]))
    /\ fm_method_type method = sf_method_type a
    /\ selected_amount options (sf_selected_option_id a) = Ok (cp_fulfillment_minor q)
    /\ cart_consistent q
    /\ same_order (cp_set_fulfillment_minor (cp_fulfillment_minor q)
         (cp_set_fulfillment (cp_fulfillment q) (bump old))) q
    /\ get_cart_snapshot c (w_events v) = Some q
    /\ get_cart_state c (w_events v) = get_cart_state c (w_events w).
Proof.
  intros Hok. unfold dispatch_cart_command. destruct (negb _); [done|]. intros Hrun.
  destruct (wp_run _ _ _ _ _ (cmd_set_fulfillment_spec env self a c w Hok) Hrun)
    as (Hstep & old & options & method & Hold & Hf & Hm & Ha & Hs & Hq & Hst).
  exists old, options, method. do 4 (split; [done|]). split; [|done].
  by apply (cart_step_ok _ _ _ Hstep Hok c q).
Qed.

(** Starting a checkout succeeds only for the version of the stored cart, and
    then marks the cart and its state machine ready, raises the version and logs
    the event. *)
Theorem start_checkout_checks_version a id w q v :
  snapshots_ok (w_events w) ->
  dispatch_cart_command env self (StartCheckout a) id w = (Ok q, v) ->
  exists p,
    get_cart_snapshot (sc_cart_id a) (w_events w) = Some p
    /\ cp_version p = sc_cart_version a
    /\ q = bump (cp_set_status StatusCheckoutReady p)
    /\ get_cart_snapshot (sc_cart_id a) (w_events v) = Some q
    /\ get_cart_state (sc_cart_id a) (w_events v) = Some CartCheckoutReady
    /\ es_events (sc_cart_id a) (w_events v)
       = es_events (sc_cart_id a) (w_events w) ++ [EvCheckoutReady].
Proof.
  intros Hok. unfold dispatch_cart_command. destruct (negb _); [done|]. intros Hrun.
  destruct (wp_run _ _ _ _ _ (cmd_start_checkout_spec a w Hok) Hrun)
    as [[_ (p & Hp & -> & Hq & Hrest)] _].
  exists p. split; [done|]. split; [|done].
  revert Hrun. unfold cmd_start_checkout, mbind, ST_bind, load_cart, st_gets, st_lift. cbn.
  unfold mbind, ST_bind. cbn. rewrite Hp. cbn.
  destruct (Z.eqb_spec (cp_version p) (sc_cart_version a)); done.
Qed.
End properties.

(** A fact of the in-memory stores, whose operations never fail. *)
Section in_memory.
Context (env : Env) (self : RunnerConfig memory_backend).

(** Starting the checkout of a cancelled cart reports an invalid transition,
    and has by then stored the cart as ready for checkout under a new version. *)
Theorem start_checkout_revives_cancelled_cart a id (w : World memory_backend) p r v :
  sc_cart_version a <> 0%Z ->
  get_cart_snapshot (sc_cart_id a) (w_events w) = Some p ->
  cp_cart_id p = sc_cart_id a -> cp_version p = sc_cart_version a ->
  get_cart_state (sc_cart_id a) (w_events w) = Some CartCancelled ->
  dispatch_cart_command env self (StartCheckout a) id w = (r, v) ->
  r = Err InvalidStateTransition
  /\ get_cart_snapshot (sc_cart_id a) (w_events v)
     = Some (bump (cp_set_status StatusCheckoutReady p)).
Proof.
  intros Hv Hp Hid Hver Hst. apply Z.eqb_neq in Hv.
  assert (wp (dispatch_cart_command env self (StartCheckout a) id) (fun r v =>
    r = Err InvalidStateTransition /\ get_cart_snapshot (sc_cart_id a) (w_events v)
      = Some (bump (cp_set_status StatusCheckoutReady p))) w) as H.
  { unfold dispatch_cart_command, validate_cart_command, push_if. rewrite Hv.
    cbn [finish valid validation_ok negb]. unfold cmd_start_checkout.
    wp_step. rewrite wp_load_cart. replace (ok_or _ _) with (@Ok _ RunnerError p); [|symmetry; exact (f_equal (fun o => ok_or o CartNotFound) Hp)].
    rewrite Hver, Z.eqb_refl. cbn [negb]. wp_step. rewrite wp_on_events. cbn.
    wp_step. rewrite wp_on_events. cbn. wp_step. rewrite wp_transition. cbn.
    cbn in Hst. rewrite Hst. cbn. split; [done|]. rewrite Hid. apply lookup_insert_eq. }
  apply (wp_run _ _ _ _ _ H).
Qed.
End in_memory.

(** ** Witnesses *)

Lemma dispatch_keeps_ok {B : Backend} {L : BackendLaws B} env (self : RunnerConfig B) cmd id w :
  snapshots_ok (w_events w) ->
  snapshots_ok (w_events (snd (dispatch_cart_command env self cmd id w))).
Proof.
  intros Hok. pose proof (dispatch_cart_step env self cmd id w Hok) as Hs. unfold wp in Hs.
  destruct (command_cart env cmd id w); [by eapply cart_step_ok|]. by destruct Hs as [_ ->].
Qed.

Lemma empty_world_ok : snapshots_ok (w_events empty_world).
Proof. intros c p. cbn. by rewrite lookup_empty. Qed.

Lemma created_world_ok : snapshots_ok (w_events created_world).
Proof. exact (dispatch_keeps_ok _ _ _ _ _ empty_world_ok). Qed.

Lemma filled_world_ok : snapshots_ok (w_events filled_world).
Proof. exact (dispatch_keeps_ok _ _ _ _ _ created_world_ok). Qed.

Lemma cancelled_world_ok : snapshots_ok (w_events cancelled_world).
Proof. exact (dispatch_keeps_ok _ _ _ _ _ filled_world_ok). Qed.

(** The result of a demo command, and the world after it. *)
Definition demo_dispatch cmd (w : World memory_backend) :=
  dispatch_cart_command demo_env demo_runner cmd (Some demo_cart) w.

Lemma run_pair {A C} (x : A * C) : x = (fst x, snd x).
Proof. by destruct x. Qed.

Lemma cart_commands_preserve_carts_witness :
  snapshots_ok (w_events (snd (demo_dispatch (AddItem (MkAddItem "sku" 3)) filled_world)))
  /\ is_ok (fst (demo_dispatch (AddItem (MkAddItem "sku" 3)) filled_world)) = true.
Proof.
  split; [|vm_compute; reflexivity].
  exact (proj1 (cart_commands_preserve_carts _ _ _ _ _ _ _ filled_world_ok (run_pair _))).
Defined.

Lemma failed_item_command_keeps_carts_witness :
  exists e v, demo_dispatch (AddItem (MkAddItem "missing" 1)) filled_world = (Err e, v)
    /\ (store_failure e
        \/ forall d, get_cart_snapshot d (w_events v)
                     = get_cart_snapshot d (w_events filled_world)).
Proof.
  destruct (demo_dispatch (AddItem (MkAddItem "missing" 1)) filled_world) as [[q|e] v] eqn:H;
    [wrong_result H|].
  exists e, v. split; [done|].
  exact (proj2 (proj2 (failed_item_command_keeps_carts demo_env demo_runner
    (AddItem (MkAddItem "missing" 1)) demo_cart _ _ _ eq_refl filled_world_ok H))).
Defined.

(** The tax provider fails once and then answers again. *)
Definition tax_down : RunnerConfig memory_backend :=
  with_tax (fun _ _ => Err (TaxFailed "timeout")) demo_runner.

Lemma provider_failure_wedges_cart_witness :
  exists v e',
    dispatch_cart_command demo_env tax_down (AddItem (MkAddItem "sku" 1)) (Some demo_cart)
      filled_world = (Err (RunnerTax (TaxFailed "timeout")), v)
    /\ fst (demo_dispatch (AddItem (MkAddItem "sku" 1)) v) = Err e'.
Proof.
  destruct (dispatch_cart_command demo_env tax_down (AddItem (MkAddItem "sku" 1))
    (Some demo_cart) filled_world) as [r v] eqn:H.
  assert (r = Err (RunnerTax (TaxFailed "timeout"))) as ->.
  { apply (f_equal fst) in H. cbn [fst] in H. rewrite <- H. vm_compute. reflexivity. }
  destruct (provider_failure_wedges_cart demo_env tax_down (AddItem (MkAddItem "sku" 1)) demo_cart
    _ _ _ (AddItem (MkAddItem "sku" 1)) demo_runner _ _ eq_refl filled_world_ok H (or_introl (ex_intro _ _ eq_refl)) eq_refl
    (run_pair (demo_dispatch (AddItem (MkAddItem "sku" 1)) v))) as [e' He'].
  exists v, e'. split; [done|exact He'].
Defined.

Definition demo_address : PostalAddress :=
  MkPostalAddress None None None None (Some "FR") None None None None.

Definition demo_selection : SetFulfillmentSelectionPayload :=
  MkSetFulfillment Shipping [] (DestShipping "d1" demo_address) (Some "express").

Lemma set_fulfillment_charges_selection_witness :
  exists q v, demo_dispatch (SetFulfillmentSelection demo_selection) filled_world = (Ok q, v)
              /\ cp_fulfillment_minor q = 1000%Z /\ cart_consistent q.
Proof.
  destruct (demo_dispatch (SetFulfillmentSelection demo_selection) filled_world)
    as [[q|e] v] eqn:H; [|wrong_result H].
  exists q, v. split; [done|]. split.
  - apply (f_equal (fun x => match fst x with
      Ok q => cp_fulfillment_minor q | Err _ => 0%Z end)) in H.
    cbn [fst] in H. rewrite <- H. vm_compute. reflexivity.
  - destruct (set_fulfillment_charges_selection _ _ _ _ _ _ _ filled_world_ok H)
      as (? & ? & ? & _ & _ & _ & _ & Hc & _). exact Hc.
Defined.

Lemma start_checkout_checks_version_witness :
  exists q v, demo_dispatch (StartCheckout (MkStartCheckout demo_cart 2)) filled_world = (Ok q, v)
              /\ get_cart_state demo_cart (w_events v) = Some CartCheckoutReady.
Proof.
  destruct (demo_dispatch (StartCheckout (MkStartCheckout demo_cart 2)) filled_world)
    as [[q|e] v] eqn:H; [|wrong_result H].
  exists q, v. split; [done|].
  destruct (start_checkout_checks_version _ _ _ _ _ _ _ filled_world_ok H)
    as (? & _ & _ & _ & _ & Hs & _). exact Hs.
Defined.

Lemma start_checkout_revives_cancelled_cart_witness :
  exists p, get_cart_snapshot demo_cart (w_events cancelled_world) = Some p
    /\ get_cart_snapshot demo_cart (w_events (snd
         (demo_dispatch (StartCheckout (MkStartCheckout demo_cart 3)) cancelled_world)))
       = Some (bump (cp_set_status StatusCheckoutReady p)).
Proof.
  destruct (get_cart_snapshot demo_cart (w_events cancelled_world)) as [p|] eqn:Hp;
    [|apply (f_equal is_some) in Hp; vm_compute in Hp; discriminate Hp].
  exists p. split; [done|].
  assert (cp_version p = 3%Z) as Hv.
  { apply (f_equal (fun o => unwrap_or (cp_version <$> o) 0%Z)) in Hp.
    cbn in Hp. rewrite <- Hp. vm_compute. reflexivity. }
  refine (proj2 (start_checkout_revives_cancelled_cart demo_env demo_runner
    (MkStartCheckout demo_cart 3) (Some demo_cart) cancelled_world p _ _
    ltac:(discriminate) Hp (proj1 (cancelled_world_ok _ _ Hp)) Hv _ (run_pair _))).
  vm_compute. reflexivity.
Defined.
