(* ===== verification/Repricing.v ===== *)
(** * What a price is made of ([orchestrator-runtime/src/runner.rs]: [reprice_for_checkout],
    [mutate_and_recalculate])

    The specification of a repriced cart, by the answers of the providers and without the code's
    own functions, and the proof that both ways of repricing meet it.  An answer counts only if it
    was asked for in between two points of the run. *)

From S2P Require Export RunnerCart.

(** ** The specification *)

(** The price a list of answers names for a line: the last one with its id. *)
Definition named_price (prices : list LinePrice) (id : string) : option LinePrice :=
  last (List.filter (fun x => String.eqb id (lp_line_id x)) prices).

Definition with_price (price : option LinePrice) (l : CartLineProjection) : CartLineProjection :=
  match price with
  | Some x => MkCartLine (cl_line_id l) (cl_item_id l) (cl_title l) (cl_quantity l)
                (lp_unit_price_minor x) (lp_total_minor x)
  | None => l
  end.

(** Every line has the price named for it, and keeps the one it had when none is; of two lines with
    one id only the first is repriced. *)
Fixpoint priced_lines (prices : list LinePrice) (seen : list string)
    (ls : list CartLineProjection) : list CartLineProjection :=
  match ls with
  | [] => []
  | l :: rest =>
      (if decide (cl_line_id l ∈ seen) then l
       else with_price (named_price prices (cl_line_id l)) l)
      :: priced_lines prices (cl_line_id l :: seen) rest
  end.

(** [q] is [p] with the prices, the tax and the discounts that the providers answered between the
    interactions [lo] and [hi], each asked with what was known before. *)
Record repriced (P : ProviderSet) (lo hi : nat) (p q : CartProjection) : Prop := {
  re_prices : exists n prices, (lo <= n < hi)%nat
    /\ resolve_prices (pricing P) n p = Ok prices
    /\ cp_lines q = priced_lines prices [] (cp_lines p);
  re_tax : exists n asked, (lo <= n < hi)%nat
    /\ resolve_tax P n asked = Ok (cp_tax_minor q)
    /\ same_order p asked /\ cp_lines asked = cp_lines q
    /\ cp_subtotal_minor asked = cp_subtotal_minor q;
  re_discounts :
    match cp_adjustment_codes p with
    | [] => cp_discounts q = []
    | codes => exists n asked, (lo <= n < hi)%nat
        /\ resolve_discounts (pricing P) n asked codes = Ok (cp_discounts q)
        /\ same_order p asked /\ cp_lines asked = cp_lines q
        /\ cp_subtotal_minor asked = cp_subtotal_minor q /\ cp_tax_minor asked = cp_tax_minor q
    end
}.

(** The geo provider was asked about the cart as it is, and answered as it says. *)
Definition geo_answered (P : ProviderSet) (lo hi : nat) (q : CartProjection) : Prop :=
  exists n asked, (lo <= n < hi)%nat
    /\ geo_check P n asked (geo_check_request asked) = Ok (cp_geo_ok q)
    /\ same_order asked q /\ cp_lines asked = cp_lines q /\ cp_total_minor asked = cp_total_minor q.

(** What an item command asks to be changed, before any answer about prices: a new line for the item
    as the catalog describes it, another quantity for the first line of an id, the lines of an id
    gone, one more code. *)
Definition edited (P : ProviderSet) (lo hi : nat) (cmd : CartCommand) (p e : CartProjection)
  : Prop :=
  match cmd with
  | AddItem a => exists n item line_id, (lo <= n < hi)%nat
      /\ get_item (catalog P) n (ai_item_id a) = Ok item
      /\ e = bump (cp_set_lines (cp_lines p ++
               [MkCartLine line_id (ci_id item) (ci_title item) (ai_quantity a)
                  (ci_price_minor item) (ci_price_minor item *! ai_quantity a)%Z]) p)
  | UpdateItemQty a => exists before l after,
      cp_lines p = before ++ l :: after /\ cl_line_id l = uq_line_id a
      /\ Forall (fun y => cl_line_id y <> uq_line_id a) before
      /\ e = bump (cp_set_lines (before ++
               MkCartLine (cl_line_id l) (cl_item_id l) (cl_title l) (uq_quantity a)
                 (cl_unit_price_minor l) (cl_unit_price_minor l *! uq_quantity a)%Z :: after) p)
  | RemoveItem a =>
      e = bump (cp_set_lines
                  (base.filter (fun l => cl_line_id l <> ri_line_id a) (cp_lines p)) p)
  | ApplyAdjustment a =>
      match adjustment_item (aa_code a) with
      | Some id => exists n item, (lo <= n < hi)%nat /\ get_item (catalog P) n id = Ok item
      | None => True
      end
      /\ e = bump (cp_set_adjustment_codes
           (if decide (aa_code a ∈ cp_adjustment_codes p) then cp_adjustment_codes p
            else cp_adjustment_codes p ++ [aa_code a]) p)
  | _ => False
  end.

Lemma repriced_within P lo hi lo' hi' p q :
  (lo' <= lo)%nat -> (hi <= hi')%nat -> repriced P lo hi p q -> repriced P lo' hi' p q.
Proof.
  intros Hl Hh [(n & x & Hn & H) (n2 & x2 & Hn2 & H2) H3]. split.
  - exists n, x. split; [lia|done].
  - exists n2, x2. split; [lia|done].
  - destruct (cp_adjustment_codes p); [done|]. destruct H3 as (n3 & x3 & Hn3 & H3).
    exists n3, x3. split; [lia|done].
Qed.

Lemma geo_within P lo hi lo' hi' q :
  (lo' <= lo)%nat -> (hi <= hi')%nat -> geo_answered P lo hi q -> geo_answered P lo' hi' q.
Proof. intros Hl Hh (n & x & Hn & H). exists n, x. split; [lia|done]. Qed.

Lemma repriced_geo P lo hi p q g : repriced P lo hi p q -> repriced P lo hi p (cp_set_geo_ok g q).
Proof. by intros []. Qed.

(** ** Applying the prices one after the other *)

Lemma named_price_snoc prices x id :
  named_price (prices ++ [x]) id
  = if String.eqb id (lp_line_id x) then Some x else named_price prices id.
Proof.
  unfold named_price. rewrite List.filter_app. cbn. destruct (String.eqb _ _).
  - by rewrite last_snoc.
  - by rewrite app_nil_r.
Qed.

Lemma with_price_id o l : cl_line_id (with_price o l) = cl_line_id l.
Proof. by destruct o. Qed.

Lemma priced_lines_none seen ls : priced_lines [] seen ls = ls.
Proof.
  revert seen. induction ls as [|l ls IH]; intros seen; [done|]. cbn. rewrite IH.
  by case_decide.
Qed.

Lemma priced_lines_seen prices x seen ls :
  lp_line_id x ∈ seen -> priced_lines (prices ++ [x]) seen ls = priced_lines prices seen ls.
Proof.
  revert seen. induction ls as [|l ls IH]; intros seen Hx; [done|]. cbn.
  rewrite IH by (by right). f_equal. case_decide as Hl; [done|].
  rewrite named_price_snoc. destruct (String.eqb_spec (cl_line_id l) (lp_line_id x)); congruence.
Qed.

Lemma apply_price_next prices x seen ls :
  lp_line_id x ∉ seen ->
  apply_price (priced_lines prices seen ls) x = priced_lines (prices ++ [x]) seen ls.
Proof.
  unfold apply_price. revert seen.
  induction ls as [|l ls IH]; intros seen Hx; [done|]. cbn.
  assert (cl_line_id (if decide (cl_line_id l ∈ seen) then l
    else with_price (named_price prices (cl_line_id l)) l) = cl_line_id l) as Hid
    by (case_decide; [done|apply with_price_id]).
  rewrite Hid, named_price_snoc. destruct (String.eqb_spec (cl_line_id l) (lp_line_id x)) as [He|He].
  - cbn. rewrite (priced_lines_seen prices x) by (rewrite He; by left).
    case_decide as Hl; [congruence|]. by destruct (named_price prices _).
  - specialize (IH (cl_line_id l :: seen)). rewrite <- IH by set_solver.
    by destruct (update_first _ _ (priced_lines prices _ ls)).
Qed.

Lemma apply_prices_lines prices p :
  cp_lines (apply_prices prices p) = priced_lines prices [] (cp_lines p).
Proof.
  unfold apply_prices. cbn. induction prices as [|x prices IH] using rev_ind.
  - by rewrite priced_lines_none.
  - rewrite foldl_app, IH. cbn. apply apply_price_next. by intros []%elem_of_nil.
Qed.

(** ** Both ways of repricing *)

(** A program that answered took every one of its steps. *)
Lemma bind_answered {S E A C} (m : ST S E A) (f : A -> ST S E C) w c v :
  (m ≫= f) w = (Ok c, v) -> exists a u, m w = (Ok a, u) /\ f a u = (Ok c, v).
Proof. unfold mbind, ST_bind. destruct (m w) as [[a|e] u]; [eauto|done]. Qed.

Section programs.
Context {B : Backend} (env : Env) (self : RunnerConfig B).
Implicit Types w v : World B.

Lemma call_answered {A E} c (f : nat -> result A E) conv w a v :
  call (B:=B) c f conv w = (Ok a, v) -> f (w_tick w) = Ok a /\ w_tick v = S (w_tick w).
Proof.
  unfold call. cbn. destruct (f (w_tick w)) as [x|e]; cbn; intros H; [|done].
  by injection H as -> <-.
Qed.

Lemma call_events {A E} c (f : nat -> result A E) conv w a v :
  call (B:=B) c f conv w = (Ok a, v) -> w_events v = w_events w.
Proof. unfold call. cbn. destruct (f (w_tick w)) as [x|e]; cbn; intros H; by inversion H. Qed.

Lemma events_answered {A} (op : ST EventS StoreError A) w a v :
  on_events (B:=B) op w = (Ok a, v) -> w_tick v = w_tick w.
Proof. unfold on_events, on. cbn. intros H. by injection H as _ <-. Qed.

Lemma transition_answered c e w a v :
  transition_cart (B:=B) c e w = (Ok a, v) -> w_tick v = w_tick w.
Proof.
  intros H. pose proof (proj1 (wp_transition c e (fun _ v => w_tick v = w_tick w) w)) as Hw.
  assert (wp (transition_cart c e) (fun _ v => w_tick v = w_tick w) w) as Hp.
  { apply wp_transition. repeat case_match; done. }
  unfold wp in Hp. by rewrite H in Hp.
Qed.

Lemma prices_answered p w q v :
  price_lines self p w = (Ok q, v) ->
  w_tick v = S (w_tick w)
  /\ exists prices, resolve_prices (pricing (providers self)) (w_tick w) p = Ok prices
       /\ q = apply_prices prices p.
Proof.
  intros (prices & u & Hc & [= <- <-])%bind_answered.
  apply call_answered in Hc as [Hp Ht]. eauto.
Qed.

Lemma discounts_answered p w q v :
  apply_discounts self p w = (Ok q, v) ->
  (w_tick w <= w_tick v <= S (w_tick w))%nat /\ same_order p q /\ cp_lines q = cp_lines p
  /\ cp_subtotal_minor q = cp_subtotal_minor p /\ cp_tax_minor q = cp_tax_minor p
  /\ match cp_adjustment_codes p with
     | [] => cp_discounts q = []
     | codes => (w_tick w < w_tick v)%nat
         /\ resolve_discounts (pricing (providers self)) (w_tick w) p codes = Ok (cp_discounts q)
     end.
Proof.
  unfold apply_discounts. destruct (cp_adjustment_codes p) as [|c cs] eqn:Hc.
  - intros [= <- <-]. split; [lia|]. split; [by constructor|done].
  - intros (ds & u & H & [= <- <-])%bind_answered. apply call_answered in H as [Hd Ht].
    split; [lia|]. split; [by constructor|]. do 3 (split; [done|]). split; [lia|done].
Qed.

Lemma geo_is_answered p w g v :
  check_geo self p w = (Ok g, v) ->
  w_tick v = S (w_tick w) /\ geo_answered (providers self) (w_tick w) (w_tick v) (cp_set_geo_ok g p).
Proof.
  intros [Hg Ht]%call_answered. split; [done|]. exists (w_tick w), p. split; [lia|].
  split; [done|]. split; [by constructor|done].
Qed.

(** From the answers on: prices, then the tax, then the discounts. *)
Lemma answers_reprice p prices n t q u v :
  resolve_prices (pricing (providers self)) n p = Ok prices -> (n < w_tick u)%nat ->
  (n <= t < w_tick u)%nat ->
  (exists tax, resolve_tax (providers self) t (apply_prices prices p) = Ok tax
     /\ apply_discounts self (cp_set_tax_minor tax (apply_prices prices p)) u = (Ok q, v)) ->
  (w_tick u <= w_tick v <= S (w_tick u))%nat /\ repriced (providers self) n (w_tick v) p q.
Proof.
  intros Hp Hn Ht (tax & Htax & Hd). apply discounts_answered in Hd as (Hv & Hs & Hl & Hsub & Htx & Hd).
  split; [done|]. cbn in Hl, Hsub, Htx, Hd. pose proof (same_order_apply_tax p prices tax) as Hsame.
  split.
  - exists n, prices. split; [lia|]. split; [done|]. by rewrite Hl, <- apply_prices_lines.
  - exists t, (apply_prices prices p). split; [lia|]. split; [congruence|].
    split; [apply apply_prices_same|done].
  - assert (cp_adjustment_codes (apply_prices prices p) = cp_adjustment_codes p) as He by done.
    cbn in He. destruct (cp_adjustment_codes p); [done|]. destruct Hd as [Hlt Hd].
    exists (w_tick u), (cp_set_tax_minor tax (apply_prices prices p)).
    split; [lia|]. done.
Qed.

Lemma reprice_answered p w q v :
  reprice_for_checkout self p w = (Ok q, v) ->
  (w_tick w <= w_tick v <= w_tick w + 3)%nat /\ repriced (providers self) (w_tick w) (w_tick v) p q.
Proof.
  intros (x & u1 & Hp & (tax & u2 & Ht & Hd)%bind_answered)%bind_answered.
  apply prices_answered in Hp as [T1 (prices & Hp & ->)]. apply call_answered in Ht as [Ht T2].
  destruct (answers_reprice p prices (w_tick w) (w_tick u1) q u2 v Hp) as [Hv Hr]; [lia|lia|eauto|].
  split; [lia|done].
Qed.

Lemma load_answered c w p v :
  load_cart (B:=B) c w = (Ok p, v) -> get_cart_snapshot c (w_events w) = Some p /\ v = w.
Proof.
  intros H.
  assert (wp (load_cart (B:=B) c) (fun r u => forall p, r = Ok p ->
    get_cart_snapshot c (w_events w) = Some p /\ u = w) w) as Hw
    by (rewrite wp_load_cart; destruct (get_cart_snapshot _ _); cbn; [by intros ? [= <-]|done]).
  unfold wp in Hw. rewrite H in Hw. by apply Hw.
Qed.

(** A settled cart is the stored one as the providers answered in the first four interactions. *)
Lemma settle_answered req w cart v :
  settle_cart_for_checkout self req w = (Ok cart, v) ->
  exists stored, get_cart_snapshot (cr_cart_id req) (w_events w) = Some stored
    /\ repriced (providers self) (w_tick w) (w_tick w + 4) stored cart
    /\ geo_answered (providers self) (w_tick w) (w_tick w + 4) cart.
Proof.
  intros (p & u & [Hs ->]%load_answered & H)%bind_answered.
  exists p. split; [done|]. destruct (is_some_and _ _); [done|]. destruct (negb _); [done|].
  apply bind_answered in H as (q & u1 & [T1 Hr]%reprice_answered &
    (g & u2 & [T2 Hg]%geo_is_answered & (? & u3 & T3%events_answered & H)%bind_answered)%bind_answered).
  destruct (negb _); [done|]. destruct (negb _); [done|]. injection H as <- <-.
  split; [apply repriced_geo; eapply repriced_within; [| |exact Hr]; lia|].
  eapply geo_within; [| |exact Hg]; lia.
Qed.

Lemma mutate_answered c p e w q v :
  mutate_and_recalculate self c p e w = (Ok q, v) ->
  (w_tick w <= w_tick v)%nat /\ repriced (providers self) (w_tick w) (w_tick v) p q
  /\ geo_answered (providers self) (w_tick w) (w_tick v) q.
Proof.
  intros (? & u1 & T1%transition_answered & (? & u2 & T2%events_answered & (x & u3 & Hp &
    (? & u4 & T4%transition_answered & (? & u5 & T5%events_answered & (tax & u6 & Ht &
    (y & u7 & Hd & (? & u8 & T8%transition_answered & (? & u9 & T9%events_answered &
    (g & u10 & Hg & (? & u11 & T11%transition_answered & (? & u12 & T12%events_answered &
    (? & u13 & T13%events_answered & [= <- <-])%bind_answered)%bind_answered)%bind_answered
    )%bind_answered)%bind_answered)%bind_answered)%bind_answered)%bind_answered)%bind_answered
    )%bind_answered)%bind_answered)%bind_answered)%bind_answered.
  apply prices_answered in Hp as [T3 (prices & Hp & ->)]. apply call_answered in Ht as [Ht T6].
  destruct (answers_reprice p prices (w_tick u2) (w_tick u5) y u6 u7 Hp) as [T7 Hr]; [lia|lia|eauto|].
  apply geo_is_answered in Hg as [T10 Hg]. split; [lia|]. split.
  - apply repriced_geo. eapply repriced_within; [| |exact Hr]; lia.
  - eapply geo_within; [| |exact Hg]; lia.
Qed.

(** *** Item commands *)

Definition recalculated_from w (cmd : CartCommand) (c : CartId) (q : CartProjection) v : Prop :=
  exists p e, get_cart_snapshot c (w_events w) = Some p
    /\ edited (providers self) (w_tick w) (w_tick v) cmd p e
    /\ repriced (providers self) (w_tick w) (w_tick v) e q
    /\ geo_answered (providers self) (w_tick w) (w_tick v) q.

Lemma recalculated_mutate w cmd c p e ev u q v :
  get_cart_snapshot c (w_events w) = Some p -> (w_tick w <= w_tick u)%nat ->
  edited (providers self) (w_tick w) (w_tick u) cmd p e ->
  mutate_and_recalculate self c e ev u = (Ok q, v) -> recalculated_from w cmd c q v.
Proof.
  intros Hp Hu He (Hv & Hr & Hg)%mutate_answered. exists p, e. split; [done|]. split.
  - destruct cmd; try done; cbn in *.
    + destruct He as (n & item & id & ? & ?). exists n, item, id. split; [lia|done].
    + destruct (adjustment_item _); [|done]. destruct He as [(n & item & ? & ?) ?].
      split; [|done]. exists n, item. split; [lia|done].
  - split; [eapply repriced_within; [| |exact Hr]; lia|eapply geo_within; [| |exact Hg]; lia].
Qed.

Lemma fresh_id_answered prefix w (a : string) v :
  fresh_id (B:=B) env prefix w = (Ok a, v) ->
  (w_tick w <= w_tick v)%nat.
Proof.
  unfold fresh_id. intros (u & x & H & Hx)%bind_answered. cbn in *. unfold new_uuid in H.
  injection H as <- <-. injection Hx as <- <-. cbn. lia.
Qed.

Lemma add_item_answered c a w q v :
  cmd_add_item env self (Some c) a w = (Ok q, v) -> recalculated_from w (AddItem a) c q v.
Proof.
  intros (? & ? & [= <- <-] & (item & u1 & Hc & (p & u2 & [Hp ->]%load_answered &
    (id & u3 & T3%fresh_id_answered & H)%bind_answered)%bind_answered)%bind_answered)%bind_answered.
  rewrite (call_events _ _ _ _ _ _ Hc) in Hp. apply call_answered in Hc as [Hi T1].
  eapply recalculated_mutate; [exact Hp| | |exact H]; [lia|].
  exists (w_tick w), item, id. split; [lia|done].
Qed.

Lemma update_qty_answered c a w q v :
  cmd_update_item_qty self (Some c) a w = (Ok q, v) ->
  recalculated_from w (UpdateItemQty a) c q v.
Proof.
  intros (? & ? & [= <- <-] & (p & u2 & [Hp ->]%load_answered &
    (ls & u3 & Hu & H)%bind_answered)%bind_answered)%bind_answered.
  destruct (update_first _ _ _) as [ls'|] eqn:Hf; [|done]. injection Hu as <- <-.
  apply update_first_Some in Hf as (before & l & after & Hp' & -> & Hl%String.eqb_eq & Hb).
  eapply recalculated_mutate; [exact Hp|done| |exact H].
  exists before, l, after. do 2 (split; [done|]). split; [|done].
  eapply Forall_impl; [exact Hb|]. by intros y ?%String.eqb_neq.
Qed.

Lemma remove_item_answered c a w q v :
  cmd_remove_item self (Some c) a w = (Ok q, v) -> recalculated_from w (RemoveItem a) c q v.
Proof.
  intros (? & ? & [= <- <-] & (p & u2 & [Hp ->]%load_answered & H)%bind_answered)%bind_answered.
  eapply recalculated_mutate; [exact Hp|done| |exact H]. cbn. do 2 f_equal.
  unfold retain. clear H. induction (cp_lines p) as [|l ls IH]; [done|].
  rewrite filter_cons, <- IH. cbn.
  destruct (String.eqb_spec (cl_line_id l) (ri_line_id a)); cbn; by case_decide.
Qed.

Lemma adjustment_answered c a w q v :
  cmd_apply_adjustment self (Some c) a w = (Ok q, v) ->
  recalculated_from w (ApplyAdjustment a) c q v.
Proof.
  intros (? & ? & [= <- <-] & (p & u2 & [Hp ->]%load_answered & (? & u3 & Ha & H)%bind_answered
    )%bind_answered)%bind_answered.
  assert ((w_tick w <= w_tick u3)%nat /\ match adjustment_item (aa_code a) with
    | Some id => exists n item, (w_tick w <= n < w_tick u3)%nat
        /\ get_item (catalog (providers self)) n id = Ok item
    | None => True end) as [T3 Hc].
  { unfold validate_adjustment in Ha. destruct (adjustment_item _) as [id|]; [|by injection Ha as _ <-].
    apply bind_answered in Ha as (item & y & [Hi Tx]%call_answered & [= _ <-]).
    split; [lia|]. exists (w_tick w), item. split; [lia|done]. }
  eapply recalculated_mutate; [exact Hp|done| |exact H]. split; [done|].
  do 2 f_equal. destruct (str_contains _ _) eqn:Hs; case_decide as Hd; try done.
  - by apply str_contains_spec in Hs.
  - apply str_contains_spec in Hd. by rewrite Hs in Hd.
Qed.
End programs.

(** ** The property *)

Section properties.
Context {B : Backend} {L : BackendLaws B} (env : Env) (self : RunnerConfig B).
Implicit Types w v : World B.

Lemma item_command_answered cmd c w q v :
  is_item_command cmd = true -> dispatch_cart_command env self cmd (Some c) w = (Ok q, v) ->
  recalculated_from self w cmd c q v.
Proof.
  intros Hi. unfold dispatch_cart_command. destruct (negb _); [done|].
  destruct cmd; try done; [apply add_item_answered|apply update_qty_answered
    |apply remove_item_answered|apply adjustment_answered].
Qed.

(** C12: a successful item command edits exactly the lines or codes it names, with the item as the
    catalog answered it, raises the version by one and leaves the rest of the order alone.  The
    edited cart is then repriced: every line has the price the pricing provider answered for it,
    tax and discounts are what the providers answered for these lines, the geo mark is the geo
    provider's answer, all of them asked by this command, and the money adds up.  That cart is
    stored, in state [GeoChecked], and the log has its event followed by the three of the
    recalculation. *)
Theorem item_command_recalculates cmd c w q v :
  is_item_command cmd = true -> snapshots_ok (w_events w) ->
  dispatch_cart_command env self cmd (Some c) w = (Ok q, v) ->
  exists p e ev,
    get_cart_snapshot c (w_events w) = Some p
    /\ edited (providers self) (w_tick w) (w_tick v) cmd p e
    /\ repriced (providers self) (w_tick w) (w_tick v) e q
    /\ geo_answered (providers self) (w_tick w) (w_tick v) q
    /\ item_effect self cmd p q ev
    /\ cp_version q = u64_wrap (cp_version p + 1)
    /\ same_order (cp_set_lines (cp_lines q)
         (cp_set_adjustment_codes (cp_adjustment_codes q) (bump p))) q
    /\ cart_consistent q
    /\ get_cart_snapshot c (w_events v) = Some q
    /\ get_cart_state c (w_events v) = Some CartGeoChecked
    /\ es_events c (w_events v) = es_events c (w_events w) ++ ev :: recalculated q.
Proof.
  intros Hi Hok Hrun. destruct (item_command_answered _ _ _ _ _ Hi Hrun)
    as (p & e & Hp & He & Hr & Hg).
  destruct (wp_run _ _ _ _ _ (item_command_spec env self cmd c w Hi Hok) Hrun)
    as (p' & ev & Hp' & Heff & Hs & Hstep & Hq & Hrest).
  rewrite Hp in Hp'. injection Hp' as <-.
  exists p, e, ev. do 5 (split; [done|]). split; [apply (so_version _ _ Hs)|].
  split; [done|]. split; [|done].
  by apply (cart_step_ok _ _ _ Hstep Hok c q).
Qed.
End properties.

Lemma item_command_recalculates_witness :
  exists q v, demo_dispatch (RemoveItem (MkRemoveItem "li_2")) filled_world = (Ok q, v)
              /\ cart_consistent q.
Proof.
  destruct (demo_dispatch (RemoveItem (MkRemoveItem "li_2")) filled_world) as [[q|e] v] eqn:H;
    [|wrong_result H].
  exists q, v. split; [done|].
  destruct (item_command_recalculates demo_env demo_runner (RemoveItem (MkRemoveItem "li_2"))
    demo_cart _ _ _ eq_refl filled_world_ok H)
    as (p & e & ev & _ & _ & _ & _ & _ & _ & _ & Hc & _). exact Hc.
Defined.
