(* ===== verification/RunnerCheckout.v ===== *)
(** * Checkout: settlement, payment and idempotency

    [execute_checkout] in three parts, as the code runs it: the cart is settled
    (repriced, checked against the request), then paid, and the outcome is filed
    under the idempotency key of the request. *)

From S2P Require Export Repricing.

(** ** Settlement *)

(** What the cart that is about to be charged has been checked for. *)
Record settled (req : CheckoutRequest) (stored cart : CartProjection) : Prop := {
  se_same : same_order stored cart;
  se_tenant : cp_tenant_id cart = None \/ cp_tenant_id cart = Some (cr_tenant_id req);
  se_version : cp_version cart = cr_cart_version req;
  se_geo : cp_geo_ok cart = true;
  se_amount : pi_amount_minor (cr_payment_intent req) = cp_total_minor cart;
  se_consistent : cart_consistent cart
}.

(** The errors of a settlement: none comes from the payment, nor from the state machine. *)
Definition settle_error (e : RunnerError) : Prop :=
  match e with
  | InvalidStateTransition | RunnerPayment _ | RunnerReceipt _ => False
  | _ => True
  end.

(** The errors of the payment of a settled cart. *)
Definition pay_error (e : RunnerError) : Prop :=
  match e with
  | RunnerStore _ | RunnerPayment _ | RunnerReceipt _ => True
  | _ => False
  end.

Section settlement.
Context {B : Backend} {L : BackendLaws B} (env : Env) (self : RunnerConfig B).
Implicit Types w v : World B.

Definition settle_post (req : CheckoutRequest) w (r : result CartProjection RunnerError) v
  : Prop :=
  cart_step (cr_cart_id req) w v
  /\ get_cart_state (cr_cart_id req) (w_events v) = get_cart_state (cr_cart_id req) (w_events w)
  /\ es_events (cr_cart_id req) (w_events v) = es_events (cr_cart_id req) (w_events w)
  /\ match r with
     | Ok cart =>
         (exists stored, get_cart_snapshot (cr_cart_id req) (w_events w) = Some stored
                         /\ settled req stored cart)
         /\ get_cart_snapshot (cr_cart_id req) (w_events v) = Some cart
         /\ (forall stored, get_cart_snapshot (cr_cart_id req) (w_events w) = Some stored ->
               repriced (providers self) (w_tick w) (w_tick w + 4) stored cart)
         /\ geo_answered (providers self) (w_tick w) (w_tick w + 4) cart
     | Err e => settle_error e
     end.

(** What the stores say of it; what the providers say is [settle_answered]. *)
Definition settle_stored (req : CheckoutRequest) w (r : result CartProjection RunnerError) v
  : Prop :=
  cart_step (cr_cart_id req) w v
  /\ get_cart_state (cr_cart_id req) (w_events v) = get_cart_state (cr_cart_id req) (w_events w)
  /\ es_events (cr_cart_id req) (w_events v) = es_events (cr_cart_id req) (w_events w)
  /\ match r with
     | Ok cart =>
         (exists stored, get_cart_snapshot (cr_cart_id req) (w_events w) = Some stored
                         /\ settled req stored cart)
         /\ get_cart_snapshot (cr_cart_id req) (w_events v) = Some cart
     | Err e => settle_error e
     end.

Lemma quiet_settle req w e v :
  quiet w v -> settle_error e -> settle_stored req w (Err e) v.
Proof.
  intros Hq He. pose proof Hq as [_ Hv]. split; [by apply quiet_cart_step|]. by rewrite Hv.
Qed.

Lemma settle_stored_spec req w :
  snapshots_ok (w_events w) ->
  wp (settle_cart_for_checkout self req) (settle_stored req w) w.
Proof.
  intros Hok. unfold settle_cart_for_checkout. wp_step. rewrite wp_load_cart.
  destruct (get_cart_snapshot _ _) as [p|] eqn:Hp; cbn [ok_or]; [|by apply quiet_settle].
  destruct (Hok _ _ Hp) as [Hid _].
  destruct (is_some_and _ _) eqn:Ht; [by wp_prims; apply quiet_settle|].
  destruct (Z.eqb_spec (cp_version p) (cr_cart_version req)) as [Hv|]; cbn [negb];
    [|by wp_prims; apply quiet_settle].
  wp_step. wp_use reprice_for_checkout_spec. intros [q|e] v1 [Hq1 Hr].
  2:{ apply quiet_settle; [done|]. by destruct Hr as [[? ->]|[? ->]]. }
  destruct Hr as [Hs Hc]. wp_step. wp_use check_geo_spec.
  intros [g|e] v2 [Hq2 Hr].
  2:{ apply quiet_settle; [eauto with orch|]. by destruct Hr as [? ->]. }
  assert (in_progress (cr_cart_id req) [] w v2) as Hip.
  { eapply in_progress_quiet; [apply in_progress_start|]. eauto with orch. }
  wp_step. eapply step_put; [exact Hip|cbn; by rewrite (so_cart_id _ _ Hs)|by apply consistent_geo|].
  intros r v3 Hstep Hsnap Hst Hev Hr3. rewrite app_nil_r in Hev.
  assert (get_cart_state (cr_cart_id req) (w_events v2)
          = get_cart_state (cr_cart_id req) (w_events w)) as Hst2.
  { assert (quiet w v2) as [_ ->] by eauto with orch. done. }
  assert (forall e, settle_error e -> settle_stored req w (Err e) v3) as Herr.
  { intros e He. split; [done|]. by rewrite Hst, Hst2. }
  destruct Hr3 as [->|[se ->]]; [|by apply Herr].
  destruct g; cbn [cp_geo_ok cp_set_geo_ok negb]; [|wp_prims; by apply Herr].
  cbn [cp_total_minor cp_set_geo_ok].
  destruct (Z.eqb_spec (pi_amount_minor (cr_payment_intent req)) (cp_total_minor q)) as [Ha|];
    cbn [negb]; wp_prims; [|by apply Herr].
  split; [done|]. rewrite Hst, Hst2. do 2 (split; [done|]). split; [|done].
  exists p. split; [done|]. constructor; cbn; auto using same_order_geo, consistent_geo.
  - rewrite (so_tenant _ _ Hs). destruct (cp_tenant_id p) as [t|]; [right|by left].
    cbn in Ht. apply negb_false_iff, String.eqb_eq in Ht. by subst.
  - by rewrite (so_version _ _ Hs).
Qed.

Lemma settle_spec req w :
  snapshots_ok (w_events w) ->
  wp (settle_cart_for_checkout self req) (settle_post req w) w.
Proof.
  intros Hok. pose proof (settle_stored_spec req w Hok) as H. unfold wp in *.
  destruct (settle_cart_for_checkout self req w) as [[cart|e] v] eqn:Hrun; [|exact H].
  destruct H as (Hc & Hs & He & Hst & Hsnap). do 4 (split; [done|]). split; [done|].
  destruct (settle_answered _ _ _ _ _ Hrun) as (stored & Hl & Hr & Hg). split; [|done].
  intros ? Hl'. rewrite Hl in Hl'. by injection Hl' as <-.
Qed.
End settlement.

(** ** Payment *)

(** The capture request for a committed transaction. *)
Definition capture_of (req : CheckoutRequest) (cart : CartProjection) (txn : string)
  : PaymentLifecycleRequest :=
  MkPaymentLifecycleRequest (cr_tenant_id req) (cr_merchant_id req) txn (cp_total_minor cart)
    (cr_idempotency_key req).

(** The payment calls of one checkout, in order, against what it returned. *)
Inductive charged (pol : PolicyEngine) (req : CheckoutRequest) (cart : CartProjection)
    (r : result TransactionResult RunnerError) : list ProviderCall -> Prop :=
| charged_none :
    (forall res, r = Ok res -> tr_status res = TxnRejected) -> charged pol req cart r []
| charged_authorized :
    check_checkout pol req (cp_total_minor cart) = Allowed ->
    (forall res, r = Ok res -> tr_status res = TxnAuthFailed) ->
    charged pol req cart r [CallAuthorize req]
| charged_captured txn :
    check_checkout pol req (cp_total_minor cart) = Allowed ->
    (forall res, r = Ok res -> tr_status res = TxnCompleted) ->
    charged pol req cart r [CallAuthorize req; CallCapture (capture_of req cart txn)].

(** What a checkout leaves in the stores when it completes. *)
Record completed_effects {B : Backend} {L : BackendLaws B} (env : Env)
    (req : CheckoutRequest) (cart : CartProjection) (res : TransactionResult)
    (w v : World B) : Prop := {
  ce_order : exists oid o,
    tr_order_id res = Some oid /\ order_get oid (w_orders v) = Some o
    /\ or_tenant_id o = cr_tenant_id req /\ or_transaction_id o = tr_transaction_id res
    /\ or_checkout_id o = cr_cart_id req /\ or_line_items o = cp_lines cart
    /\ or_totals o = totals_of cart /\ or_status o = OrderCreated;
  ce_outbox : exists oid mid,
    tr_order_id res = Some oid
    /\ ob_queue (w_outbox v) = ob_queue (w_outbox w)
         ++ [MkOutboxMessage mid "order.created" oid
               (uuid_display env (tr_correlation_id res)) 0 (Some (cr_tenant_id req))];
  ce_reservations : forall l, l ∈ cp_lines cart ->
    exists q, rs_state (cr_cart_id req) (cl_item_id l) (w_res v) = Some (q, Finalized);
  ce_totals : tr_totals_breakdown res = totals_of cart;
  ce_receipt : tr_receipt_payload res <> None
}.

Lemma completed_effects_base {B : Backend} {L : BackendLaws B} env req cart res (u w v : World B) :
  w_outbox u = w_outbox w ->
  completed_effects env req cart res u v -> completed_effects env req cart res w v.
Proof. intros E []. rewrite E in *. by constructor. Qed.

(** What a rejected or declined one leaves: the stock is released, nothing is ordered. *)
Record unpaid_effects {B : Backend} {L : BackendLaws B}
    (req : CheckoutRequest) (cart : CartProjection) (res : TransactionResult)
    (w v : World B) : Prop := {
  ue_orders : w_orders v = w_orders w;
  ue_outbox : w_outbox v = w_outbox w;
  ue_reservations : forall l, l ∈ cp_lines cart ->
    exists q, rs_state (cr_cart_id req) (cl_item_id l) (w_res v) = Some (q, Released);
  ue_totals : tr_totals_breakdown res = totals_of cart;
  ue_state : tr_payment_state res = PaymentStateFailed;
  ue_order : tr_order_id res = None
}.

Lemma unpaid_effects_base {B : Backend} {L : BackendLaws B} req cart res (u w v : World B) :
  w_outbox u = w_outbox w -> w_orders u = w_orders w ->
  unpaid_effects req cart res u v -> unpaid_effects req cart res w v.
Proof. intros E F []. rewrite E, F in *. by constructor. Qed.

Section payment.
Context {B : Backend} {L : BackendLaws B} (env : Env) (self : RunnerConfig B).
Implicit Types w v : World B.

(** The stock of a cart after its lines were reserved. *)
Definition lines_in (st : ReservationState) (c : CartId) (ls : list CartLineProjection)
    (s : ReserveS) : Prop :=
  forall l, l ∈ ls -> exists q, rs_state c (cl_item_id l) s = Some (q, st).

Lemma lines_in_reserve now c l ls ttl s :
  lines_in Reserved c ls s ->
  lines_in Reserved c (ls ++ [l])
    (snd (reserve now c (cl_item_id l) (cl_quantity l) ttl s)).
Proof.
  intros Hls k [Hk|Hk%list_elem_of_singleton]%elem_of_app; rewrite reserve_state;
    case_decide as Hd; try by eexists.
  - by apply Hls.
  - subst. naive_solver.
Qed.

Lemma lines_in_finalize c ls s :
  lines_in Reserved c ls s -> lines_in Finalized c ls (snd (finalize_cart c s)).
Proof.
  intros Hls l Hl. rewrite finalize_state, decide_True by done.
  destruct (Hls l Hl) as [q ->]. by eexists.
Qed.

Lemma lines_in_release c ls s :
  lines_in Reserved c ls s -> lines_in Released c ls (snd (release_cart c s)).
Proof.
  intros Hls l Hl. rewrite release_state, decide_True by done.
  destruct (Hls l Hl) as [q ->]. by eexists.
Qed.

Lemma reserve_lines_spec req cart w :
  wp (reserve_lines env req cart) (fun r v =>
    (exists s n, v = set_res s (set_tick n w))
    /\ match r with
       | Ok _ => lines_in Reserved (cr_cart_id req) (cp_lines cart) (w_res v)
       | Err e => store_failure e
       end) w.
Proof.
  unfold reserve_lines.
  enough (forall todo before v, (exists s n, v = set_res s (set_tick n w)) ->
    lines_in Reserved (cr_cart_id req) before (w_res v) ->
    wp (st_iter (fun line => t ← now env; on w_res set_res
          (reserve t (cr_cart_id req) (cl_item_id line) (cl_quantity line) reservation_ttl)) todo)
      (fun r v => (exists s n, v = set_res s (set_tick n w)) /\ match r with
         | Ok _ => lines_in Reserved (cr_cart_id req) (before ++ todo) (w_res v)
         | Err e => store_failure e end) v) as H.
  { apply (H (cp_lines cart) []); [by exists (w_res w), (w_tick w); destruct w|].
    intros l Hl. by apply elem_of_nil in Hl. }
  induction todo as [|l todo IH]; intros before v (s & n & ->) Hb; cbn [st_iter].
  { wp_prims. rewrite app_nil_r. eauto. }
  wp_prims. destruct (fst _) as [[]|e]; cbn [map_err]; [|split; by eauto; by eexists].
  assert (before ++ l :: todo = (before ++ [l]) ++ todo) as -> by by rewrite <- app_assoc.
  apply IH; [by eauto|]. by apply lines_in_reserve.
Qed.

(** The outcome of paying for a settled cart. *)
Record pay_post (req : CheckoutRequest) (cart : CartProjection) (w : World B)
    (r : result TransactionResult RunnerError) (v : World B) : Prop := {
  pp_events : w_events v = w_events w;
  pp_mandates : w_mandates v = w_mandates w;
  pp_charged : exists calls,
    payments v = payments w ++ calls /\ charged (policy self) req cart r calls;
  pp_result :
    match r with
    | Ok res =>
        w_idem v = snd (idem_complete (key_of req) res (w_idem w))
        /\ pay_get (tr_transaction_id res) (w_pay v) = Some (tr_payment_state res)
        /\ ((tr_status res = TxnCompleted /\ completed_effects env req cart res w v)
            \/ (tr_status res <> TxnCompleted /\ unpaid_effects req cart res w v))
    | Err e =>
        pay_error e
        /\ (w_idem v = w_idem w
            \/ (store_failure e
                /\ exists res, w_idem v = snd (idem_complete (key_of req) res (w_idem w))))
    end;
  pp_saved : forall res, r = Ok res -> fst (idem_complete (key_of req) res (w_idem w)) = Ok tt
}.

(** After some calls were made and neither the carts nor the key were touched. *)
Record paying (calls : list ProviderCall) (w v : World B) : Prop := {
  pg_events : w_events v = w_events w;
  pg_idem : w_idem v = w_idem w;
  pg_mandates : w_mandates v = w_mandates w;
  pg_calls : payments v = payments w ++ calls
}.

Lemma paying_err req cart calls w e v :
  paying calls w v -> charged (policy self) req cart (Err e) calls ->
  pay_error e -> pay_post req cart w (Err e) v.
Proof. intros [] ??. constructor; [eauto..|done]. Qed.

(** Stores that a checkout writes besides the carts and the keys. *)
Lemma paying_store calls w v x y z t :
  paying calls w v ->
  paying calls w (set_tick t (set_res x (set_outbox y (set_orders z v)))).
Proof. intros []. by constructor. Qed.

Lemma paying_call c calls w v :
  paying calls w v ->
  paying (calls ++ if is_payment c then [c] else []) w
    (set_tick (S (w_tick v)) (set_trace (w_trace v ++ [c]) v)).
Proof. intros [He Hi Hm Hc]. constructor; try done. by rewrite payments_call, Hc, app_assoc. Qed.

Lemma finish_unpaid_spec req cart res calls w v :
  paying calls w v ->
  (forall r, (forall res', r = Ok res' -> tr_status res' = tr_status res) ->
     charged (policy self) req cart r calls) ->
  w_orders v = w_orders w -> w_outbox v = w_outbox w ->
  lines_in Reserved (cr_cart_id req) (cp_lines cart) (w_res v) ->
  tr_status res <> TxnCompleted -> tr_totals_breakdown res = totals_of cart ->
  tr_payment_state res = PaymentStateFailed -> tr_order_id res = None ->
  wp (finish_unpaid req res) (pay_post req cart w) v.
Proof.
  intros [He Hi Hm Hc] Hch Ho Hq Hl Hs Ht Hp Hn. unfold finish_unpaid.
  wp_prims. destruct (fst (release_cart _ _)) as [[]|se]; cbn [map_err];
    [|constructor; [done|done|eexists; split; [exact Hc|by apply Hch]|split; [done|by left]|done]].
  wp_prims. destruct (fst (idem_complete _ _ _)) as [[]|se] eqn:Hf; cbn [map_err].
  2:{ constructor; [done|done|eexists; split; [exact Hc|by apply Hch]| |done].
      split; [done|]. right. split; [by eexists|]. exists res. cbn. by rewrite Hi. }
  wp_prims. constructor; [done|done| | |by intros ? [= <-]; rewrite <- Hi].
  - eexists. split; [exact Hc|]. apply Hch. by intros ? [= <-].
  - cbn. rewrite Hi. split; [done|]. rewrite pay_put_get, decide_True by done.
    split; [done|]. right. split; [done|]. constructor; cbn; try done.
    by apply lines_in_release.
Qed.

(** The tail of a completed checkout: receipt, stock, outbox, key, payment state. *)
Lemma deliver_receipt_spec req cart txn oid res0 w v :
  (forall r, (forall res, r = Ok res -> tr_status res = TxnCompleted) ->
    charged (policy self) req cart r [CallAuthorize req; CallCapture (capture_of req cart txn)]) ->
  paying [CallAuthorize req; CallCapture (capture_of req cart txn)] w v ->
  tr_status res0 = TxnCompleted -> tr_totals_breakdown res0 = totals_of cart ->
  tr_order_id res0 = Some oid ->
  w_outbox v = w_outbox w ->
  lines_in Reserved (cr_cart_id req) (cp_lines cart) (w_res v) ->
  (exists o, order_get oid (w_orders v) = Some o
     /\ or_tenant_id o = cr_tenant_id req /\ or_transaction_id o = tr_transaction_id res0
     /\ or_checkout_id o = cr_cart_id req /\ or_line_items o = cp_lines cart
     /\ or_totals o = totals_of cart /\ or_status o = OrderCreated) ->
  wp (receipt ← call (CallReceipt cart res0)
        (fun n => receipt_generate (providers self) n cart res0) RunnerReceipt;
      let res := MkTransactionResult (tr_transaction_id res0) (tr_status res0)
            (tr_totals_breakdown res0) (tr_payment_reference res0) (Some receipt)
            (tr_correlation_id res0) (tr_audit_trail_id res0) (tr_payment_state res0)
            (tr_order_id res0) in
      _ ← on w_res set_res (finalize_cart (cr_cart_id req));
      msg_id ← fresh_id env "msg_";
      _ ← on w_outbox set_outbox (enqueue
            (MkOutboxMessage msg_id "order.created" oid
               (uuid_display env (tr_correlation_id res)) 0 (Some (cr_tenant_id req))));
      _ ← on w_idem set_idem (idem_complete (key_of req) res);
      _ ← pay_state_put (tr_transaction_id res) (tr_payment_state res);
      mret res) (pay_post req cart w) v.
Proof.
  intros Hch Hp Hstat Htot Hoid Hq Hl Hord.
  apply (paying_call (CallReceipt cart res0)) in Hp. cbn [is_payment] in Hp.
  rewrite app_nil_r in Hp. wp_step. rewrite wp_call. cbv beta iota.
  set (u := set_tick _ (set_trace _ v)) in *.
  assert (Hfail : forall e, charged (policy self) req cart (Err e) [CallAuthorize req;
    CallCapture (capture_of req cart txn)]) by (intros e; by apply Hch).
  wp_split; [|by eapply paying_err]. clear Heqr. destruct Hp as [He Hi Hm Hc].
  wp_prims. destruct (fst (finalize_cart _ _)) as [[]|se]; cbn [map_err];
    [|by eapply paying_err; [constructor; eassumption|..]].
  wp_prims. destruct (fst (enqueue _ _)) as [[]|se]; cbn [map_err];
    [|by eapply paying_err; [constructor; eassumption|..]].
  wp_prims. destruct (fst (idem_complete _ _ _)) as [[]|se] eqn:Hf; cbn [map_err].
  2:{ constructor; [exact He|exact Hm|by eauto| |done]. split; [done|right].
      split; [by eexists|]. eexists. cbn. by rewrite <- Hi. }
  wp_prims. constructor; [exact He|exact Hm| | |by intros ? [= <-]; rewrite <- Hi].
  - eexists. split; [exact Hc|]. apply Hch. by intros ? [= <-].
  - cbn. split; [by rewrite <- Hi|]. rewrite pay_put_get, decide_True by done.
    split; [done|]. left. split; [done|]. destruct Hord as [o Ho]. constructor; cbn.
    + by exists oid, o.
    + do 2 eexists. split; [done|]. by rewrite queue_enqueue, Hq.
    + by apply lines_in_finalize.
    + done.
    + done.
Qed.

Lemma record_order_spec req cart committed v :
  wp (record_order env req cart committed) (fun r u =>
    (exists s n, u = set_orders s (set_tick n v))
    /\ match r with
       | Ok oid => exists o, order_get oid (w_orders u) = Some o
           /\ or_tenant_id o = cr_tenant_id req
           /\ or_transaction_id o = cm_transaction_id committed
           /\ or_checkout_id o = cr_cart_id req /\ or_line_items o = cp_lines cart
           /\ or_totals o = totals_of cart /\ or_status o = OrderCreated
       | Err e => store_failure e
       end) v.
Proof.
  unfold record_order. wp_prims. destruct (fst (order_put _ _)) as [[]|se]; cbn [map_err].
  - wp_prims. split; [by eauto|]. eexists. cbn. rewrite order_put_get, decide_True by done.
    split; [done|]. done.
  - split; [by eauto|by eexists].
Qed.

Lemma complete_checkout_spec req cart auth w v :
  check_checkout (policy self) req (cp_total_minor cart) = Allowed ->
  paying [CallAuthorize req] w v ->
  w_outbox v = w_outbox w ->
  lines_in Reserved (cr_cart_id req) (cp_lines cart) (w_res v) ->
  wp (complete_checkout env self req cart GeoChecked auth) (pay_post req cart w) v.
Proof.
  intros Hpol Hp Hq Hl. unfold complete_checkout, advance.
  assert (Hfail : forall e, charged (policy self) req cart (Err e) [CallAuthorize req])
    by (intros e; by apply charged_authorized).
  wp_step. rewrite wp_lift. cbn [ok_or next_checkout_state]. wp_step.
  unfold commit_checkout. wp_step. rewrite wp_fresh_id. cbv beta iota. rewrite wp_on.
  set (txn := "txn_" +:+ _). set (v1 := set_commit _ _).
  assert (paying [CallAuthorize req] w v1) as Hp1 by (destruct Hp; by constructor).
  destruct (fst (commit _ _ _ _)) as [cm|se]; cbn [map_err]; [|by eapply paying_err].
  wp_step. rewrite wp_call. cbv beta iota.
  change (MkPaymentLifecycleRequest _ _ _ _ _) with (capture_of req cart (cm_transaction_id cm)).
  apply (paying_call (CallCapture (capture_of req cart (cm_transaction_id cm)))) in Hp1.
  set (v2 := set_tick _ (set_trace _ v1)) in *. cbn [is_payment app] in Hp1.
  assert (Hcap : forall r, (forall res, r = Ok res -> tr_status res = TxnCompleted) ->
    charged (policy self) req cart r
      [CallAuthorize req; CallCapture (capture_of req cart (cm_transaction_id cm))])
    by (intros r; by apply charged_captured).
  wp_split; [|by eapply paying_err; [exact Hp1|by apply Hcap|]].
  clear Heqr. wp_step. rewrite wp_lift. cbn [ok_or next_checkout_state].
  wp_step. wp_use record_order_spec. intros [oid|e] u [(s & n & ->) Hr].
  2:{ destruct Hr as [se ->]. eapply paying_err; [|by apply Hcap|done].
      destruct Hp1. by constructor. }
  wp_step. rewrite wp_lift. cbn [ok_or next_checkout_state].
  wp_step. rewrite wp_lift. cbn [ok_or next_checkout_state].
  wp_step. rewrite wp_lift. cbn [ok_or terminal_status].
  wp_step. rewrite wp_new_uuid. cbv beta iota.
  eapply deliver_receipt_spec; [exact Hcap| | | | | | |exact Hr]; try done.
  destruct Hp1. by constructor.
Qed.

Lemma pay_checkout_spec req cart w :
  wp (pay_checkout env self req cart) (pay_post req cart w) w.
Proof.
  unfold pay_checkout, advance. wp_step. wp_use reserve_lines_spec.
  intros r v [(s & n & ->) Hr].
  assert (forall calls, calls = [] -> paying calls w (set_res s (set_tick n w))) as Hp.
  { intros ? ->. constructor; try done. by rewrite app_nil_r. }
  destruct r as [[]|e].
  2:{ destruct Hr as [se ->]. eapply paying_err; [by apply Hp|by constructor|done]. }
  do 4 (wp_step; rewrite wp_lift; cbn [ok_or next_checkout_state]).
  destruct (check_checkout _ _ _) as [|errors] eqn:Hpol.
  - wp_step. rewrite wp_call. cbv beta iota.
    specialize (paying_call (CallAuthorize req) _ _ _ (Hp [] eq_refl)) as Hp1.
    cbn [is_payment app] in Hp1. set (v1 := set_tick _ (set_trace _ _)) in *.
    assert (Hau : forall r, (forall res, r = Ok res -> tr_status res = TxnAuthFailed) ->
      charged (policy self) req cart r [CallAuthorize req])
      by (intros r; by apply charged_authorized).
    wp_split; [|by eapply paying_err; [exact Hp1|by apply Hau|]].
    destruct (authorized a); cbn [negb]; [by apply complete_checkout_spec|].
    unfold decline_checkout. wp_step. rewrite wp_fresh_id. cbv beta iota.
    wp_step. rewrite wp_new_uuid. cbv beta iota.
    eapply finish_unpaid_spec; [destruct Hp1; by constructor|exact Hau|..]; done.
  - unfold reject_checkout. wp_step. rewrite wp_fresh_id. cbv beta iota.
    wp_step. rewrite wp_new_uuid. cbv beta iota.
    eapply (finish_unpaid_spec _ _ _ []); [|intros r; by constructor|..]; try done.
    destruct (Hp [] eq_refl). by constructor.
Qed.
End payment.

(** ** The whole checkout *)

Section execution.
Context {B : Backend} {L : BackendLaws B} (env : Env) (self : RunnerConfig B).
Implicit Types w v : World B.

Lemma set_idem_same w : set_idem (w_idem w) w = w.
Proof. by destruct w. Qed.

Lemma valid_request req :
  valid (validate_checkout_request req) = true <-> checkout_request_ok req.
Proof. apply validate_checkout_request_ok. Qed.

(** The key decides which of the three paths a valid request takes. *)
Lemma wp_execute req (Q : result TransactionResult RunnerError -> World B -> Prop) w :
  key_ok (key_of req) ->
  (~ checkout_request_ok req -> forall es, Q (Err (ValidationFailed es)) w) ->
  (idem_lookup (key_of req) (w_idem w) = Some InFlight -> Q (Err AlreadyInFlight) w) ->
  (forall res, idem_lookup (key_of req) (w_idem w) = Some (IdemCompleted res) -> Q (Ok res) w) ->
  (forall i, checkout_request_ok req ->
     idem_lookup (key_of req) (w_idem w) = None ->
     (forall k, key_ok k -> idem_lookup k i
        = if decide (k = key_of req) then Some InFlight else idem_lookup k (w_idem w)) ->
     (forall se, Q (Err (RunnerStore se)) (set_idem i w))
     /\ wp (settle_cart_for_checkout self req) (fun r v =>
          match r with
          | Ok cart => wp (pay_checkout env self req cart) Q v
          | Err e => forall e', e' = e \/ store_failure e' ->
              Q (Err e') (set_idem (snd (idem_release (key_of req) (w_idem v))) v)
          end) (set_idem i w)) ->
  wp (execute_checkout env self req) Q w.
Proof.
  intros Hk Hbad Hfl Hcp Hnew. unfold execute_checkout.
  destruct (valid (validate_checkout_request req)) eqn:Hval; cbn [negb].
  2:{ wp_prims. apply Hbad. by rewrite <- valid_request, Hval. }
  apply valid_request in Hval. wp_step. rewrite wp_on.
  destruct (idem_lookup (key_of req) (w_idem w)) as [[|res]|] eqn:Hl.
  - rewrite (claim_hit _ _ _ Hk Hl). cbn. rewrite set_idem_same. by apply Hfl.
  - rewrite (claim_hit _ _ _ Hk Hl). cbn. rewrite set_idem_same. by apply Hcp.
  - destruct (idem_claim (key_of req) (w_idem w)) as [r i] eqn:Hc.
    destruct (claim_miss _ _ _ _ Hk Hl Hc) as [Hr Hi].
    destruct (Hnew i Hval eq_refl Hi) as [Hse Hgo]. cbn.
    destruct Hr as [->|[se ->]]; [|apply Hse]. cbn. rewrite wp_catch.
    eapply wp_mono; [exact Hgo|]. intros [cart|e] v Hv; [done|].
    wp_step. rewrite wp_on. destruct (fst _) as [[]|se]; cbn [map_err]; [wp_prims|];
      apply Hv; [by left|right; by eexists].
Qed.

(** The request is valid, its key was free, and [i] is the store once it is claimed. *)
Definition claimed (req : CheckoutRequest) w (i : IdemS) : Prop :=
  checkout_request_ok req /\ idem_lookup (key_of req) (w_idem w) = None
  /\ forall k, key_ok k ->
     idem_lookup k i = if decide (k = key_of req) then Some InFlight
                       else idem_lookup k (w_idem w).

(** Every way a checkout can end. *)
Inductive checkout_outcome (req : CheckoutRequest) (w : World B)
  : result TransactionResult RunnerError -> World B -> Prop :=
| out_invalid es :
    ~ checkout_request_ok req -> checkout_outcome req w (Err (ValidationFailed es)) w
| out_in_flight :
    idem_lookup (key_of req) (w_idem w) = Some InFlight ->
    checkout_outcome req w (Err AlreadyInFlight) w
| out_replayed res :
    idem_lookup (key_of req) (w_idem w) = Some (IdemCompleted res) ->
    checkout_outcome req w (Ok res) w
| out_unclaimed i se :
    claimed req w i -> checkout_outcome req w (Err (RunnerStore se)) (set_idem i w)
| out_unsettled i e e' v :
    claimed req w i -> settle_post self req (set_idem i w) (Err e) v ->
    e' = e \/ store_failure e' ->
    checkout_outcome req w (Err e') (set_idem (snd (idem_release (key_of req) (w_idem v))) v)
| out_paid i cart v r u :
    claimed req w i -> settle_post self req (set_idem i w) (Ok cart) v ->
    pay_post env self req cart v r u -> checkout_outcome req w r u.

Lemma execute_checkout_outcome req w r v :
  key_ok (key_of req) -> snapshots_ok (w_events w) ->
  execute_checkout env self req w = (r, v) -> checkout_outcome req w r v.
Proof.
  intros Hk Hok Hrun. eapply (wp_run _ (checkout_outcome req w)); [|exact Hrun].
  apply wp_execute; [done|eauto using checkout_outcome..|].
  intros i Hval Hl Hi. assert (claimed req w i) as Hc by done.
  split; [eauto using checkout_outcome|]. wp_use settle_spec; [done|].
  intros [cart|e] u Hu; [|eauto using checkout_outcome].
  wp_use pay_checkout_spec. eauto using checkout_outcome.
Qed.

Lemma replay_completed req w res :
  key_ok (key_of req) -> checkout_request_ok req ->
  idem_lookup (key_of req) (w_idem w) = Some (IdemCompleted res) ->
  execute_checkout env self req w = (Ok res, w).
Proof.
  intros Hk Hval%valid_request Hl. unfold execute_checkout. rewrite Hval. cbn [negb].
  unfold mbind, ST_bind, on. rewrite (claim_hit _ _ _ Hk Hl). cbn. by rewrite set_idem_same.
Qed.

Lemma refuse_in_flight req w :
  key_ok (key_of req) -> checkout_request_ok req ->
  idem_lookup (key_of req) (w_idem w) = Some InFlight ->
  execute_checkout env self req w = (Err AlreadyInFlight, w).
Proof.
  intros Hk Hval%valid_request Hl. unfold execute_checkout. rewrite Hval. cbn [negb].
  unfold mbind, ST_bind, on. rewrite (claim_hit _ _ _ Hk Hl). cbn. by rewrite set_idem_same.
Qed.

(** A checkout that returned a result was valid, and its key holds the result. *)
Lemma completed_key req w res v :
  key_ok (key_of req) -> snapshots_ok (w_events w) ->
  execute_checkout env self req w = (Ok res, v) ->
  checkout_request_ok req /\ idem_lookup (key_of req) (w_idem v) = Some (IdemCompleted res).
Proof.
  intros Hk Hok Hrun. split.
  { apply valid_request. unfold execute_checkout in Hrun. by destruct (valid _). }
  apply (execute_checkout_outcome _ _ _ _ Hk Hok) in Hrun.
  remember (Ok res) as r eqn:Hr.
  destruct Hrun as [| |res' Hl| | |i cart u r z Hc Hs Hp]; simplify_eq; [done|].
  destruct (pp_result _ _ _ _ _ _ _ Hp) as [-> _].
  by rewrite complete_lookup, decide_True.
Qed.

(** A checkout never touches the mandates on record. *)
Lemma execute_checkout_mandates req w r v :
  key_ok (key_of req) -> snapshots_ok (w_events w) ->
  execute_checkout env self req w = (r, v) -> w_mandates v = w_mandates w.
Proof.
  intros Hk Hok Hrun. destruct (execute_checkout_outcome _ _ _ _ Hk Hok Hrun)
    as [| | | |i e e' u _ [[Hm _ _] _]|i cart u r' z _ [[Hm _ _] _] Hp]; try done;
    apply oc_mandates in Hm; [done|]. by rewrite (pp_mandates _ _ _ _ _ _ _ Hp), Hm.
Qed.

(** The settlement of a claimed request leaves the claim alone. *)
Lemma settle_post_idem req i w r v :
  settle_post self req (set_idem i w) r v -> w_idem v = i /\ payments v = payments w.
Proof. intros [[[] _ _] _]. done. Qed.
End execution.

(** ** Properties *)

Section properties.
Context {B : Backend} {L : BackendLaws B} (env : Env) (self : RunnerConfig B).
Implicit Types w v : World B.

(** C1: a checkout moves money only for the settled cart.  Whatever happens and
    whatever the providers answer, the payment calls it makes are none, one
    authorization, or one authorization followed by one capture; when there is any,
    the request is valid and its key was free, and the cart is the stored one at the
    requested version, recorded for the requesting tenant or for none.  Its prices,
    tax and discounts are what the providers answered in the first four interactions
    of this checkout, the geo provider then allowed it, the policy allows it, its
    money adds up, the authorized amount is its total, and the captured amount is
    its total too. *)
Theorem checkout_charges_settled_cart req w r v :
  key_ok (key_of req) -> snapshots_ok (w_events w) ->
  execute_checkout env self req w = (r, v) ->
  exists calls, payments v = payments w ++ calls
    /\ (calls = []
        \/ checkout_request_ok req /\ idem_lookup (key_of req) (w_idem w) = None
           /\ exists stored cart,
                get_cart_snapshot (cr_cart_id req) (w_events w) = Some stored
                /\ settled req stored cart
                /\ repriced (providers self) (w_tick w) (w_tick w + 4) stored cart
                /\ geo_answered (providers self) (w_tick w) (w_tick w + 4) cart
                /\ check_checkout (policy self) req (cp_total_minor cart) = Allowed
                /\ charged (policy self) req cart r calls).
Proof.
  intros Hk Hok Hrun. destruct (execute_checkout_outcome _ _ _ _ _ _ Hk Hok Hrun)
    as [| | | |i e e' u Hc Hs|i cart u r' z Hc Hs Hp].
  1-4: by exists []; rewrite app_nil_r; auto.
  - exists []. rewrite app_nil_r. split; [|by left]. by apply settle_post_idem in Hs as [_ ?].
  - destruct (pp_charged _ _ _ _ _ _ _ Hp) as (calls & Hcalls & Hch).
    exists calls. apply settle_post_idem in Hs as Hs'. destruct Hs' as [_ Hpay].
    split; [by rewrite Hcalls, Hpay|].
    destruct Hs as (_ & _ & _ & (stored & Hst & Hset) & _ & Hre & Hgeo), Hc as (? & ? & _).
    specialize (Hre _ Hst). inversion Hch; [by left|right..]; subst; by eauto 12.
Qed.

(** C2: a retry with the key of a checkout that returned a result returns the same
    result, however often it is sent, with any providers and any clock, and
    changes nothing at all. *)
Theorem checkout_retry_is_idempotent req w res v env' self' :
  key_ok (key_of req) -> snapshots_ok (w_events w) ->
  execute_checkout env self req w = (Ok res, v) ->
  execute_checkout env' self' req v = (Ok res, v).
Proof.
  intros Hk Hok Hrun. destruct (completed_key _ _ _ _ _ _ Hk Hok Hrun) as [Hval Hl].
  by apply replay_completed.
Qed.

(** C3: what the key of a fresh request says once the checkout is over.  A result
    was returned: the key holds it.  The payment or the receipt provider failed: the
    key stays marked in flight.  A store failed: the key may be in any of these states
    or free.  Any other error: the key is free again.  Whenever the key is free, no
    payment was made and no order, message or reservation was written.  The keys of
    other requests never change. *)
Theorem checkout_key_lifecycle req w r v :
  key_ok (key_of req) -> snapshots_ok (w_events w) -> checkout_request_ok req ->
  idem_lookup (key_of req) (w_idem w) = None ->
  execute_checkout env self req w = (r, v) ->
  match r with
  | Ok res => idem_lookup (key_of req) (w_idem v) = Some (IdemCompleted res)
  | Err (RunnerPayment _) | Err (RunnerReceipt _) =>
      idem_lookup (key_of req) (w_idem v) = Some InFlight
  | Err (RunnerStore _) => True
  | Err _ => idem_lookup (key_of req) (w_idem v) = None
  end
  /\ (idem_lookup (key_of req) (w_idem v) = None ->
       payments v = payments w /\ w_outbox v = w_outbox w /\ w_orders v = w_orders w
       /\ w_res v = w_res w)
  /\ forall k, key_ok k -> k <> key_of req ->
       idem_lookup k (w_idem v) = idem_lookup k (w_idem w).
Proof.
  intros Hk Hok Hval Hl Hrun. apply (execute_checkout_outcome _ _ _ _ _ _ Hk Hok) in Hrun.
  destruct Hrun as [| | |i se Hc|i e e' u Hc Hs He|i cart u r z Hc Hs Hp]; try done;
    [by rewrite Hl in *..| | |]; destruct Hc as (_ & _ & Hi).
  - split; [done|]. cbn. rewrite Hi, decide_True by done. split; [done|].
    intros k Hk' Hne. by rewrite Hi, decide_False.
  - pose proof Hs as [[[] _ _] Hs']. destruct Hs' as (_ & _ & Hse). cbn in *. subst i.
    assert (forall k, key_ok k -> idem_lookup k (snd (idem_release (key_of req) (w_idem u)))
      = idem_lookup k (w_idem w)) as Hall.
    { intros k Hk'. rewrite release_lookup, Hi by done.
      destruct (decide (k = key_of req)) as [->|]; [by rewrite Hl|].
      by destruct (idem_lookup k (w_idem w)) as [[]|]. }
    split; [|by auto]. rewrite Hall, Hl by done.
    destruct He as [->|[se ->]]; [|done]. by destruct e.
  - apply settle_post_idem in Hs as [Hs Hpay]. pose proof (pp_result _ _ _ _ _ _ _ Hp) as Hres.
    assert (forall k res, key_ok k ->
      idem_lookup k (snd (idem_complete (key_of req) res (w_idem u)))
      = if decide (k = key_of req) then Some (IdemCompleted res) else idem_lookup k (w_idem w))
      as Hall.
    { intros k res Hk'. rewrite complete_lookup, Hs, Hi by done. by case_decide. }
    destruct r as [res|e]; [destruct Hres as [-> _]|destruct Hres as [He [->|[[se ->] [res ->]]]]].
    + rewrite (Hall _ _ Hk), decide_True by done. split; [done|]. split; [done|].
      intros k Hk' Hne. by rewrite Hall, decide_False.
    + rewrite Hs, Hi, decide_True by done. split; [by destruct e|]. split; [done|].
      intros k Hk' Hne. by rewrite Hi, decide_False.
    + split; [done|]. rewrite (Hall _ _ Hk), decide_True by done. split; [done|].
      intros k Hk' Hne. by rewrite Hall, decide_False.
Qed.

(** C6: what a fresh checkout that returns a result has done.  A completed one has
    stored an order for the tenant with the lines and totals of the settled cart,
    queued one [order.created] message for it after the ones already queued,
    finalized the stock of every line, attached a receipt and recorded the payment
    state; a rejected or declined one has released the stock and recorded the
    failed payment, and ordered and queued nothing. *)
Theorem checkout_effects req w res v :
  key_ok (key_of req) -> snapshots_ok (w_events w) ->
  idem_lookup (key_of req) (w_idem w) = None ->
  execute_checkout env self req w = (Ok res, v) ->
  exists stored cart,
    get_cart_snapshot (cr_cart_id req) (w_events w) = Some stored
    /\ settled req stored cart
    /\ get_cart_snapshot (cr_cart_id req) (w_events v) = Some cart
    /\ pay_get (tr_transaction_id res) (w_pay v) = Some (tr_payment_state res)
    /\ ((tr_status res = TxnCompleted /\ completed_effects env req cart res w v)
        \/ (tr_status res <> TxnCompleted /\ unpaid_effects req cart res w v)).
Proof.
  intros Hk Hok Hl Hrun. apply (execute_checkout_outcome _ _ _ _ _ _ Hk Hok) in Hrun.
  remember (Ok res) as r eqn:Hr.
  destruct Hrun as [| |res' Hl'| | |i cart u r z Hc Hs Hp]; simplify_eq.
  destruct Hs as ([Hcarts _ _] & _ & _ & (stored & Hst & Hset) & Hsnap & _).
  destruct (pp_result _ _ _ _ _ _ _ Hp) as (_ & Hpay & Heff).
  exists stored, cart. rewrite (pp_events _ _ _ _ _ _ _ Hp). do 4 (split; [done|]).
  destruct Heff as [[? He]|[? He]]; [left|right]; (split; [done|]).
  - eapply completed_effects_base; [apply (oc_outbox _ _ Hcarts)|done].
  - eapply unpaid_effects_base; [apply (oc_outbox _ _ Hcarts)|apply (oc_orders _ _ Hcarts)|done].
Qed.

(** A checkout changes no stored cart but the one it is for, keeps the stored
    carts well formed, and does not touch their state machines and logs. *)
Theorem checkout_preserves_carts req w r v :
  key_ok (key_of req) -> snapshots_ok (w_events w) ->
  execute_checkout env self req w = (r, v) ->
  snapshots_ok (w_events v)
  /\ (forall c, c <> cr_cart_id req ->
        get_cart_snapshot c (w_events v) = get_cart_snapshot c (w_events w))
  /\ forall c, get_cart_state c (w_events v) = get_cart_state c (w_events w)
             /\ es_events c (w_events v) = es_events c (w_events w).
Proof.
  intros Hk Hok Hrun. apply (execute_checkout_outcome _ _ _ _ _ _ Hk Hok) in Hrun.
  assert (forall i u x, settle_post self req (set_idem i w) x u ->
    snapshots_ok (w_events u)
    /\ (forall c, c <> cr_cart_id req ->
        get_cart_snapshot c (w_events u) = get_cart_snapshot c (w_events w))
    /\ forall c, get_cart_state c (w_events u) = get_cart_state c (w_events w)
             /\ es_events c (w_events u) = es_events c (w_events w)) as Hset.
  { intros i u x (Hstep & Hst & Hev & _). split; [by eapply cart_step_ok|].
    destruct Hstep as [_ [Hsn Hss Hse] _]. split; [done|]. intros c.
    destruct (decide (c = cr_cart_id req)) as [->|]; [done|]. auto. }
  destruct Hrun as [| | |i se Hc|i e e' u Hc Hs He|i cart u r z Hc Hs Hp]; try done;
    [exact (Hset _ _ _ Hs)|]. rewrite (pp_events _ _ _ _ _ _ _ Hp). exact (Hset _ _ _ Hs).
Qed.

(** The checkout's own state machine never gets in its way: no checkout returns
    [InvalidStateTransition]. *)
Theorem checkout_never_invalid_transition req w v :
  key_ok (key_of req) -> snapshots_ok (w_events w) ->
  execute_checkout env self req w <> (Err InvalidStateTransition, v).
Proof.
  intros Hk Hok Hrun. apply (execute_checkout_outcome _ _ _ _ _ _ Hk Hok) in Hrun.
  remember (Err InvalidStateTransition) as r eqn:Hr.
  destruct Hrun as [| | | |i e e' u Hc Hs [->|[se ->]]|i cart u r z Hc Hs Hp]; simplify_eq.
  - by destruct Hs as (_ & _ & _ & []).
  - by destruct (pp_result _ _ _ _ _ _ _ Hp) as [[] _].
Qed.

(** An error of the payment or of the receipt provider leaves the key of the
    request in flight for good: every retry is refused as a duplicate in flight,
    although the payment may have been captured. *)
Theorem payment_error_wedges_key req w e v env' self' :
  key_ok (key_of req) -> snapshots_ok (w_events w) ->
  execute_checkout env self req w = (Err e, v) ->
  (exists pe, e = RunnerPayment pe) \/ (exists re, e = RunnerReceipt re) ->
  execute_checkout env' self' req v = (Err AlreadyInFlight, v).
Proof.
  intros Hk Hok Hrun He. apply (execute_checkout_outcome _ _ _ _ _ _ Hk Hok) in Hrun.
  assert (settle_error e -> False) as Hse by (by destruct He as [[? ->]|[? ->]]).
  assert (store_failure e -> False) as Hsf
    by (by destruct He as [[? ->]|[? ->]]; intros [? ?]).
  remember (Err e) as r eqn:Hr.
  destruct Hrun as [| | |i se Hc|i e' e'' u Hc Hs He'|i cart u r z Hc Hs Hp]; simplify_eq;
    try (by destruct He as [[]|[]]).
  - destruct He' as [->|?]; [|done]. destruct Hs as (_ & _ & _ & []%Hse).
  - destruct Hc as (Hval & _ & Hi). apply settle_post_idem in Hs as [Hs _].
    destruct (pp_result _ _ _ _ _ _ _ Hp) as [_ [Hidem|[[]%Hsf _]]].
    apply refuse_in_flight; [done..|]. by rewrite Hidem, Hs, Hi, decide_True.
Qed.
End properties.

(** ** What the cart's status does not protect *)

Definition is_capture (c : ProviderCall) : bool :=
  match c with CallCapture _ => true | _ => false end.

(** The demo checkout of version [v] under a key. *)
Definition demo_checkout (v amount : Z) (key : string) (w : World memory_backend) :=
  execute_checkout demo_env demo_runner (demo_request v amount key) w.

(** A completed checkout does not consume the cart: the same version of the same
    cart, sent under another idempotency key, completes and is captured again. *)
Theorem cart_charged_once_per_key :
  match demo_checkout 2 2200 "k1" filled_world with
  | (Ok r1, v1) =>
      match demo_checkout 2 2200 "k2" v1 with
      | (Ok r2, v2) =>
          tr_status r1 = TxnCompleted /\ tr_status r2 = TxnCompleted
          /\ tr_transaction_id r1 <> tr_transaction_id r2
          /\ length (List.filter is_capture (payments v2)) = 2
      | _ => False
      end
  | _ => False
  end.
Proof. vm_compute. repeat split. discriminate. Qed.

(** A cancelled cart can be checked out: the checkout looks at its version and
    tenant and at neither its status nor its state. *)
Theorem cancelled_cart_can_be_charged :
  get_cart_state demo_cart (w_events cancelled_world) = Some CartCancelled
  /\ (cp_status <$> get_cart_snapshot demo_cart (w_events cancelled_world)) = Some StatusCancelled
  /\ match demo_checkout 3 2200 "k1" cancelled_world with
     | (Ok res, v) => tr_status res = TxnCompleted /\ tr_payment_state res = Captured
                      /\ length (List.filter is_capture (payments v)) = 1
     | _ => False
     end.
Proof. vm_compute. repeat split. Qed.

(** ** Witnesses *)

(** The in-memory store keeps every two keys apart. *)
Lemma demo_key k : @key_ok _ memory_laws k.
Proof. exact I. Qed.

Definition paid_world : World memory_backend := snd (demo_checkout 2 2200 "k1" filled_world).

Lemma checkout_charges_settled_cart_witness :
  exists calls, payments paid_world = payments filled_world ++ calls /\ length calls = 2.
Proof.
  destruct (demo_checkout 2 2200 "k1" filled_world) as [r v] eqn:H.
  destruct (checkout_charges_settled_cart demo_env demo_runner (demo_request 2 2200 "k1")
    filled_world r v (demo_key _) filled_world_ok H) as (calls & Hc & _).
  assert (paid_world = v) as Hv by (unfold paid_world; by rewrite H).
  exists calls. rewrite Hv. split; [exact Hc|].
  apply (f_equal (@length _)) in Hc. rewrite length_app, <- Hv in Hc.
  assert (length (payments paid_world) = 2 /\ length (payments filled_world) = 0) as [E1 E2]
    by (split; vm_compute; reflexivity).
  rewrite E1, E2 in Hc. symmetry. exact Hc.
Defined.

Lemma checkout_retry_is_idempotent_witness :
  exists res, demo_checkout 2 2200 "k1" filled_world = (Ok res, paid_world)
    /\ execute_checkout demo_env tax_down (demo_request 2 2200 "k1") paid_world
       = (Ok res, paid_world).
Proof.
  destruct (demo_checkout 2 2200 "k1" filled_world) as [[res|e] v] eqn:H; [|wrong_result H].
  assert (paid_world = v) as -> by (unfold paid_world; by rewrite H).
  exists res. split; [done|].
  exact (checkout_retry_is_idempotent demo_env demo_runner _ _ _ _ demo_env tax_down (demo_key _)
    filled_world_ok H).
Defined.

Lemma demo_request_ok v amount key :
  v <> 0%Z -> (0 <= amount)%Z -> key <> "" -> checkout_request_ok (demo_request v amount key).
Proof. intros. repeat split; cbn; try done; lia. Qed.

Lemma checkout_key_lifecycle_witness :
  idem_lookup (key_of (demo_request 9 2200 "k1"))
    (w_idem (snd (demo_checkout 9 2200 "k1" filled_world))) = None
  /\ is_ok (fst (demo_checkout 9 2200 "k1" filled_world)) = false.
Proof.
  destruct (checkout_key_lifecycle demo_env demo_runner (demo_request 9 2200 "k1") filled_world
    _ _ (demo_key _) filled_world_ok (demo_request_ok 9 2200 "k1" ltac:(lia) ltac:(lia) ltac:(done))
    eq_refl (run_pair _)) as [H _].
  split; vm_compute; reflexivity.
Defined.

Lemma checkout_effects_witness :
  exists res, demo_checkout 2 2200 "k1" filled_world = (Ok res, paid_world)
    /\ exists cart, get_cart_snapshot demo_cart (w_events paid_world) = Some cart
                    /\ tr_totals_breakdown res = totals_of cart.
Proof.
  destruct (demo_checkout 2 2200 "k1" filled_world) as [[res|e] v] eqn:H; [|wrong_result H].
  assert (paid_world = v) as -> by (unfold paid_world; by rewrite H).
  exists res. split; [done|].
  destruct (checkout_effects demo_env demo_runner _ _ _ _ (demo_key _) filled_world_ok eq_refl H)
    as (stored & cart & _ & _ & Hsnap & _ & Heff).
  exists cart. split; [exact Hsnap|].
  destruct Heff as [[_ []]|[_ []]]; assumption.
Defined.

Lemma checkout_preserves_carts_witness : snapshots_ok (w_events paid_world).
Proof.
  exact (proj1 (checkout_preserves_carts demo_env demo_runner (demo_request 2 2200 "k1")
    filled_world _ _ (demo_key _) filled_world_ok (run_pair _))).
Defined.

Lemma checkout_never_invalid_transition_witness :
  fst (demo_checkout 2 2200 "k1" filled_world) <> Err InvalidStateTransition.
Proof.
  intros H. destruct (demo_checkout 2 2200 "k1" filled_world) as [r v] eqn:Hr.
  cbn in H. subst r.
  exact (checkout_never_invalid_transition demo_env demo_runner (demo_request 2 2200 "k1")
    filled_world v (demo_key _) filled_world_ok Hr).
Defined.

(** The payment provider times out. *)
Definition payment_down : RunnerConfig memory_backend :=
  with_authorize (fun _ _ => Err (PaymentAuthFailed "timeout")) demo_runner.

Lemma payment_error_wedges_key_witness :
  exists v,
    execute_checkout demo_env payment_down (demo_request 2 2200 "k1") filled_world
      = (Err (RunnerPayment (PaymentAuthFailed "timeout")), v)
    /\ demo_checkout 2 2200 "k1" v = (Err AlreadyInFlight, v).
Proof.
  destruct (execute_checkout demo_env payment_down (demo_request 2 2200 "k1") filled_world)
    as [r v] eqn:H.
  assert (r = Err (RunnerPayment (PaymentAuthFailed "timeout"))) as ->.
  { apply (f_equal fst) in H. cbn [fst] in H. rewrite <- H. vm_compute. reflexivity. }
  exists v. split; [done|].
  exact (payment_error_wedges_key demo_env payment_down _ _ _ _ demo_env demo_runner (demo_key _)
    filled_world_ok H (or_introl (ex_intro _ _ eq_refl))).
Defined.
