(* ===== verification/Interleave.v ===== *)
(** * Requests as sequences of atomic steps ([orchestrator-runtime/src/runner.rs])

    [Runner.v] runs an operation of the runner from its start to its end.  In the process many
    requests run at once, and a request can lose the processor wherever the code awaits: at a store
    operation, which takes the lock of its store and gives it back, and at a call of a provider.
    Here the checkout and the cart commands are programs that stop after every one of these, with
    the same text as in [Runner.v], and each is proved to do what it does there when nothing comes
    in between. *)

From stdpp Require Export relations.
From S2P Require Export RunnerCheckout.

(** ** Programs *)

(** A request is over, or it takes a step on the world and goes on as what it saw there says. *)
Inductive Prog (B : Backend) (E A : Type) : Type :=
| Done (r : result A E)
| Act (upd : World B -> World B) (next : World B -> Prog B E A).
Arguments Done {B E A} _.
Arguments Act {B E A} _ _.

Section programs.
Context {B : Backend} {E : Type}.
Implicit Types w : World B.

(** One interaction, without a break. *)
Definition act {A} (m : ST (World B) E A) : Prog B E A :=
  Act (fun w => snd (m w)) (fun w => Done (fst (m w))).

Fixpoint prog_bind {A C} (f : A -> Prog B E C) (p : Prog B E A) : Prog B E C :=
  match p with
  | Done (Ok a) => f a
  | Done (Err e) => Done (Err e)
  | Act upd next => Act upd (fun w => prog_bind f (next w))
  end.

#[export] Instance Prog_ret : MRet (Prog B E) := fun A a => Done (Ok a).
#[export] Instance Prog_bind : MBind (Prog B E) := fun A C f p => prog_bind f p.

(** [match p { Ok(a) => k(a), Err(e) => h(e) }]. *)
Fixpoint prog_catch {A C} (p : Prog B E A) (k : A -> Prog B E C) (h : E -> Prog B E C)
  : Prog B E C :=
  match p with
  | Done (Ok a) => k a
  | Done (Err e) => h e
  | Act upd next => Act upd (fun w => prog_catch (next w) k h)
  end.

Fixpoint prog_iter {A} (f : A -> Prog B E unit) (xs : list A) : Prog B E unit :=
  match xs with
  | [] => mret tt
  | x :: rest => f x ≫= fun _ => prog_iter f rest
  end.

(** [p.await.map_err(f)]. *)
Fixpoint prog_map_err {F A} (f : E -> F) (p : Prog B E A) : Prog B F A :=
  match p with
  | Done r => Done (map_err f r)
  | Act upd next => Act upd (fun w => prog_map_err f (next w))
  end.

(** A request that has the process to itself. *)
Fixpoint prog_run {A} (p : Prog B E A) (w : World B) : result A E * World B :=
  match p with
  | Done r => (r, w)
  | Act upd next => prog_run (next w) (upd w)
  end.

(** ** A program that does what an operation of the runner does *)

Definition runs_as {A} (p : Prog B E A) (m : ST (World B) E A) : Prop :=
  forall w, prog_run p w = m w.

Lemma runs_act {A} (m : ST (World B) E A) : runs_as (act m) m.
Proof. intros w. cbn. by destruct (m w). Qed.

Lemma runs_done {A} (r : result A E) : runs_as (Done r) (st_lift r).
Proof. done. Qed.

Lemma runs_fail {A} e : runs_as (A:=A) (Done (Err e)) (st_fail e).
Proof. done. Qed.

Lemma runs_ret {A} (a : A) : runs_as (mret a) (mret a).
Proof. done. Qed.

Lemma prog_run_bind {A C} (f : A -> Prog B E C) (p : Prog B E A) w :
  prog_run (p ≫= f) w
  = match prog_run p w with (Ok a, v) => prog_run (f a) v | (Err e, v) => (Err e, v) end.
Proof.
  unfold mbind, Prog_bind. revert w. induction p as [[a|e]|upd next IH]; intros w; [done..|].
  cbn. apply IH.
Qed.

Lemma runs_bind {A C} p m (f : A -> Prog B E C) (g : A -> ST (World B) E C) :
  runs_as p m -> (forall a, runs_as (f a) (g a)) -> runs_as (p ≫= f) (m ≫= g).
Proof.
  intros Hp Hf w. rewrite prog_run_bind, Hp. unfold mbind, ST_bind.
  destruct (m w) as [[a|e] v]; [apply Hf|done].
Qed.

Lemma runs_catch {A C} p m (k : A -> Prog B E C) h k' h' :
  runs_as p m -> (forall a, runs_as (k a) (k' a)) -> (forall e, runs_as (h e) (h' e)) ->
  runs_as (prog_catch p k h) (st_catch m k' h').
Proof.
  intros Hp Hk Hh w. unfold st_catch. rewrite <- Hp. clear Hp. revert w.
  induction p as [[a|e]|upd next IH]; intros w; cbn; [apply Hk|apply Hh|apply IH].
Qed.

Lemma runs_iter {A} (f : A -> Prog B E unit) g xs :
  (forall x, runs_as (f x) (g x)) -> runs_as (prog_iter f xs) (st_iter g xs).
Proof. intros Hf. induction xs as [|x xs IH]; [done|]. by apply runs_bind. Qed.
End programs.

Lemma prog_run_map_err {B : Backend} {E F A} (f : E -> F) (p : Prog B E A) w :
  prog_run (prog_map_err f p) w = (map_err f (fst (prog_run p w)), snd (prog_run p w)).
Proof. revert w. induction p as [r|upd next IH]; intros w; cbn; [done|apply IH]. Qed.


(** Follows the two texts side by side. *)
Create HintDb runs.
#[export] Hint Resolve runs_act runs_done runs_fail runs_ret : runs.
Ltac runs :=
  repeat (cbv zeta beta; intros; first
    [ solve [auto with runs] | apply runs_bind | apply runs_catch | apply runs_iter
    | case_match ]).

(** ** The operations of the runner, stopping at every interaction *)

Section operations.
Context {B : Backend} (env : Env) (self : RunnerConfig B).

Definition transition_cart_prog (cart_id : CartId) (event : CartEvent) : Prog B RunnerError unit :=
  current ← act (st_gets (fun w => get_cart_state cart_id (w_events w)));
  current ← Done (ok_or current CartNotFound);
  next ← Done (ok_or (next_cart_state current event) InvalidStateTransition);
  act (on_events (set_cart_state cart_id next)).

Definition mutate_and_recalculate_prog (cart_id : CartId) (projection : CartProjection)
    (primary_event : CartStreamEvent) : Prog B RunnerError CartProjection :=
  _ ← transition_cart_prog cart_id ItemChanged;
  _ ← act (on_events (append_cart_event cart_id primary_event));
  p ← act (price_lines self projection);
  _ ← transition_cart_prog cart_id PricingResolved;
  _ ← act (on_events (append_cart_event cart_id EvRepriced));
  tax ← act (call (CallResolveTax p) (fun n => resolve_tax (providers self) n p) RunnerTax);
  p ← act (apply_discounts self (cp_set_tax_minor tax p));
  _ ← transition_cart_prog cart_id CartTaxResolved;
  _ ← act (on_events (append_cart_event cart_id (EvRetaxed tax)));
  geo ← act (check_geo self p);
  let p := cp_set_geo_ok geo p in
  _ ← transition_cart_prog cart_id CartGeoValidated;
  _ ← act (on_events (append_cart_event cart_id (EvGeoChecked (cp_geo_ok p))));
  _ ← act (on_events (put_cart_snapshot p));
  mret p.

Definition reprice_for_checkout_prog (cart : CartProjection) : Prog B RunnerError CartProjection :=
  cart ← act (price_lines self cart);
  tax ← act (call (CallResolveTax cart) (fun n => resolve_tax (providers self) n cart) RunnerTax);
  act (apply_discounts self (cp_set_tax_minor tax cart)).

(** *** Cart commands *)

Definition cmd_create_cart_prog (p : CreateCartPayload) : Prog B RunnerError CartProjection :=
  u ← act (new_uuid env);
  let id := MkCartId u in
  let projection := new_cart id p in
  _ ← act (on_events (append_cart_event id (EvCreated (cc_merchant_id p) (cc_currency p))));
  _ ← act (on_events (put_cart_snapshot projection));
  _ ← act (on_events (set_cart_state id CartCreated));
  mret projection.

Definition cmd_add_item_prog (cart_id : option CartId) (p : AddItemPayload)
  : Prog B RunnerError CartProjection :=
  id ← Done (ok_or cart_id MissingCartId);
  item ← act (call (CallGetItem (ai_item_id p))
           (fun n => get_item (catalog (providers self)) n (ai_item_id p)) RunnerCatalog);
  projection ← act (load_cart id);
  line_id ← act (fresh_id env "li_");
  let line := MkCartLine line_id (ci_id item) (ci_title item) (ai_quantity p)
                (ci_price_minor item) (ci_price_minor item *! ai_quantity p)%Z in
  mutate_and_recalculate_prog id
    (bump (cp_set_lines (cp_lines projection ++ [line]) projection))
    (EvItemAdded line_id (ai_item_id p) (ai_quantity p)).

Definition cmd_update_item_qty_prog (cart_id : option CartId) (p : UpdateItemQtyPayload)
  : Prog B RunnerError CartProjection :=
  id ← Done (ok_or cart_id MissingCartId);
  projection ← act (load_cart id);
  lines ← Done (ok_or
    (update_first (fun l => String.eqb (cl_line_id l) (uq_line_id p))
       (fun l => MkCartLine (cl_line_id l) (cl_item_id l) (cl_title l) (uq_quantity p)
                   (cl_unit_price_minor l) (cl_unit_price_minor l *! uq_quantity p)%Z)
       (cp_lines projection)) LineNotFound);
  mutate_and_recalculate_prog id (bump (cp_set_lines lines projection))
    (EvItemQtyUpdated (uq_line_id p) (uq_quantity p)).

Definition cmd_remove_item_prog (cart_id : option CartId) (p : RemoveItemPayload)
  : Prog B RunnerError CartProjection :=
  id ← Done (ok_or cart_id MissingCartId);
  projection ← act (load_cart id);
  let lines := retain (fun l => negb (String.eqb (cl_line_id l) (ri_line_id p)))
                 (cp_lines projection) in
  mutate_and_recalculate_prog id (bump (cp_set_lines lines projection))
    (EvItemRemoved (ri_line_id p)).

Definition cmd_apply_adjustment_prog (cart_id : option CartId) (p : ApplyAdjustmentPayload)
  : Prog B RunnerError CartProjection :=
  id ← Done (ok_or cart_id MissingCartId);
  projection ← act (load_cart id);
  _ ← act (validate_adjustment self (aa_code p));
  let codes := cp_adjustment_codes projection in
  let codes := if str_contains codes (aa_code p) then codes else codes ++ [aa_code p] in
  mutate_and_recalculate_prog id (bump (cp_set_adjustment_codes codes projection))
    (EvAdjustmentApplied (aa_code p)).

Definition cmd_set_fulfillment_prog (cart_id : option CartId)
    (p : SetFulfillmentSelectionPayload) : Prog B RunnerError CartProjection :=
  id ← Done (ok_or cart_id MissingCartId);
  projection ← act (load_cart id);
  line_item_ids ← Done (selection_lines projection p);
  options ← act (quote_fulfillment self projection p line_item_ids);
  amount ← Done (selected_amount options (sf_selected_option_id p));
  group_id ← act (fresh_id env "fg_");
  method_id ← act (fresh_id env "fm_");
  let group := MkFulfillmentGroup group_id line_item_ids options
                 (sf_selected_option_id p) in
  let method := MkFulfillmentMethod method_id (sf_method_type p) line_item_ids
                  [sf_destination p] (Some (dest_id (sf_destination p))) [group] in
  let state := unwrap_or (cp_fulfillment projection) (MkFulfillmentState []) in
  let methods := retain (fun m => negb (bool_decide (fm_method_type m = sf_method_type p)))
                   (fs_methods state) ++ [method] in
  let projection := cp_set_fulfillment_minor amount
                      (cp_set_fulfillment (Some (MkFulfillmentState methods)) projection) in
  projection ← act (apply_discounts self projection);
  geo ← act (check_geo self projection);
  let projection := bump (cp_set_geo_ok geo projection) in
  _ ← act (on_events (append_cart_event id
        (EvFulfillmentSelected (sf_method_type p) (sf_selected_option_id p) amount)));
  _ ← act (on_events (put_cart_snapshot projection));
  mret projection.

Definition cmd_start_checkout_prog (p : StartCheckoutPayload) : Prog B RunnerError CartProjection :=
  projection ← act (load_cart (sc_cart_id p));
  if negb (cp_version projection =? sc_cart_version p)%Z
  then Done (Err (CartVersionConflict (sc_cart_version p) (cp_version projection)))
  else
    let projection := bump (cp_set_status StatusCheckoutReady projection) in
    _ ← act (on_events (append_cart_event (sc_cart_id p) EvCheckoutReady));
    _ ← act (on_events (put_cart_snapshot projection));
    _ ← transition_cart_prog (sc_cart_id p) MarkCheckoutReady;
    mret projection.

Definition cmd_cancel_cart_prog (p : CancelCartPayload) : Prog B RunnerError CartProjection :=
  projection ← act (load_cart (xc_cart_id p));
  let projection := bump (cp_set_status StatusCancelled projection) in
  _ ← act (on_events (append_cart_event (xc_cart_id p) EvCancelled));
  _ ← act (on_events (put_cart_snapshot projection));
  _ ← transition_cart_prog (xc_cart_id p) CartCancel;
  mret projection.

Definition dispatch_cart_command_prog (command : CartCommand) (cart_id : option CartId)
  : Prog B RunnerError CartProjection :=
  let validation := validate_cart_command command in
  if negb (valid validation) then Done (Err (ValidationFailed (vr_errors validation)))
  else
    match command with
    | CreateCart p => cmd_create_cart_prog p
    | AddItem p => cmd_add_item_prog cart_id p
    | UpdateItemQty p => cmd_update_item_qty_prog cart_id p
    | RemoveItem p => cmd_remove_item_prog cart_id p
    | ApplyAdjustment p => cmd_apply_adjustment_prog cart_id p
    | SetFulfillmentSelection p => cmd_set_fulfillment_prog cart_id p
    | GetCart p => act (load_cart (gc_cart_id p))
    | StartCheckout p => cmd_start_checkout_prog p
    | CancelCart p => cmd_cancel_cart_prog p
    end.

(** *** Checkout *)

Definition settle_cart_for_checkout_prog (request : CheckoutRequest) : Prog B RunnerError CartProjection :=
  cart ← act (load_cart (cr_cart_id request));
  if is_some_and (cp_tenant_id cart) (fun owner => negb (String.eqb owner (cr_tenant_id request)))
  then Done (Err CartTenantMismatch)
  else if negb (cp_version cart =? cr_cart_version request)%Z
  then Done (Err (CartVersionConflict (cr_cart_version request) (cp_version cart)))
  else
    cart ← reprice_for_checkout_prog cart;
    geo ← act (check_geo self cart);
    let cart := cp_set_geo_ok geo cart in
    _ ← act (on_events (put_cart_snapshot cart));
    if negb (cp_geo_ok cart) then Done (Err GeoBlocked)
    else if negb (pi_amount_minor (cr_payment_intent request) =? cp_total_minor cart)%Z
    then Done (Err (AmountMismatch (cp_total_minor cart)
                      (pi_amount_minor (cr_payment_intent request))))
    else mret cart.

Definition reserve_lines_prog (request : CheckoutRequest) (cart : CartProjection)
  : Prog B RunnerError unit :=
  prog_iter (fun line =>
      t ← act (now env);
      act (on w_res set_res (reserve t (cr_cart_id request) (cl_item_id line)
                               (cl_quantity line) reservation_ttl)))
    (cp_lines cart).

Definition finish_unpaid_prog (request : CheckoutRequest) (res : TransactionResult)
  : Prog B RunnerError TransactionResult :=
  _ ← act (on w_res set_res (release_cart (cr_cart_id request)));
  _ ← act (on w_idem set_idem (idem_complete (key_of request) res));
  _ ← act (pay_state_put (tr_transaction_id res) (tr_payment_state res));
  mret res.

Definition reject_checkout_prog (request : CheckoutRequest) (cart : CartProjection)
    (errors : list string) : Prog B RunnerError TransactionResult :=
  txn ← act (fresh_id env "txn_");
  correlation ← act (new_uuid env);
  finish_unpaid_prog request
    (unpaid_result cart txn TxnRejected None correlation (Some (String.concat ";" errors))).

Definition decline_checkout_prog (request : CheckoutRequest) (cart : CartProjection)
    (reference : string) : Prog B RunnerError TransactionResult :=
  txn ← act (fresh_id env "txn_");
  correlation ← act (new_uuid env);
  finish_unpaid_prog request
    (unpaid_result cart txn TxnAuthFailed (Some reference) correlation None).

Definition commit_checkout_prog (request : CheckoutRequest) (auth : AuthResult)
  : Prog B RunnerError CommitRecord :=
  txn ← act (fresh_id env "txn_");
  act (on w_commit set_commit (commit txn (cr_cart_id request) (Some (auth_reference auth)))).

Definition record_order_prog (request : CheckoutRequest) (cart : CartProjection)
    (committed : CommitRecord) : Prog B RunnerError string :=
  order_id ← act (fresh_id env "ord_");
  event_id ← act (fresh_id env "evt_");
  occurred_at ← act (now env);
  created_at ← act (now env);
  _ ← act (on w_orders set_orders (order_put
        (MkOrder order_id (cr_tenant_id request) (cm_transaction_id committed)
           (cr_cart_id request) OrderCreated (cr_currency request)
           ("/orders/" +:+ order_id) (cp_lines cart) (totals_of cart)
           [MkOrderEvent event_id "created" "Order created from committed checkout"
              (utc_ns occurred_at)]
           [] (utc_ns created_at))));
  mret order_id.

Definition complete_checkout_prog (request : CheckoutRequest) (cart : CartProjection)
    (st : CheckoutState) (auth : AuthResult) : Prog B RunnerError TransactionResult :=
  st ← Done (ok_or (next_checkout_state st EvPaymentAuthorized) InvalidStateTransition);
  committed ← commit_checkout_prog request auth;
  let capture_request := MkPaymentLifecycleRequest (cr_tenant_id request)
        (cr_merchant_id request) (cm_transaction_id committed) (cp_total_minor cart)
        (cr_idempotency_key request) in
  captured ← act (call (CallCapture capture_request)
    (fun n => capture (providers self) n capture_request) RunnerPayment);
  st ← Done (ok_or (next_checkout_state st EvCommitted) InvalidStateTransition);
  order_id ← record_order_prog request cart committed;
  st ← Done (ok_or (next_checkout_state st EvReceiptGenerated) InvalidStateTransition);
  st ← Done (ok_or (next_checkout_state st Complete) InvalidStateTransition);
  status ← Done (ok_or (terminal_status st) InvalidStateTransition);
  correlation ← act (new_uuid env);
  let res := MkTransactionResult (cm_transaction_id committed) status (totals_of cart)
        (cm_payment_reference committed) None correlation None
        (if po_success captured then Captured else PaymentStateFailed) (Some order_id) in
  receipt ← act (call (CallReceipt cart res)
    (fun n => receipt_generate (providers self) n cart res) RunnerReceipt);
  let res := MkTransactionResult (tr_transaction_id res) (tr_status res)
        (tr_totals_breakdown res) (tr_payment_reference res) (Some receipt)
        (tr_correlation_id res) (tr_audit_trail_id res) (tr_payment_state res)
        (tr_order_id res) in
  _ ← act (on w_res set_res (finalize_cart (cr_cart_id request)));
  msg_id ← act (fresh_id env "msg_");
  _ ← act (on w_outbox set_outbox (enqueue
        (MkOutboxMessage msg_id "order.created" order_id
           (uuid_display env (tr_correlation_id res)) 0 (Some (cr_tenant_id request)))));
  _ ← act (on w_idem set_idem (idem_complete (key_of request) res));
  _ ← act (pay_state_put (tr_transaction_id res) (tr_payment_state res));
  mret res.

Definition pay_checkout_prog (request : CheckoutRequest) (cart : CartProjection)
  : Prog B RunnerError TransactionResult :=
  _ ← reserve_lines_prog request cart;
  st ← Done (ok_or (next_checkout_state Received ValidatePassed) InvalidStateTransition);
  st ← Done (ok_or (next_checkout_state st PriceResolved) InvalidStateTransition);
  st ← Done (ok_or (next_checkout_state st TaxResolved) InvalidStateTransition);
  st ← Done (ok_or (next_checkout_state st GeoValidated) InvalidStateTransition);
  match check_checkout (policy self) request (cp_total_minor cart) with
  | PolicyRejected errors => reject_checkout_prog request cart errors
  | Allowed =>
      auth ← act (call (CallAuthorize request)
        (fun n => authorize (providers self) n request) RunnerPayment);
      if negb (authorized auth) then decline_checkout_prog request cart (auth_reference auth)
      else complete_checkout_prog request cart st auth
  end.

Definition execute_checkout_prog (request : CheckoutRequest) : Prog B RunnerError TransactionResult :=
  let validation := validate_checkout_request request in
  if negb (valid validation) then Done (Err (ValidationFailed (vr_errors validation)))
  else
    claimed ← act (on w_idem set_idem (idem_claim (key_of request)));
    match claimed with
    | Some InFlight => Done (Err AlreadyInFlight)
    | Some (IdemCompleted res) => mret res
    | None =>
        prog_catch (settle_cart_for_checkout_prog request) (pay_checkout_prog request)
          (fun e => _ ← act (on w_idem set_idem (idem_release (key_of request))); Done (Err e))
    end.

(** *** On their own they are the operations of [Runner.v] *)

Lemma runs_transition_cart c e :
  runs_as (transition_cart_prog c e) (transition_cart c e).
Proof. unfold transition_cart_prog, transition_cart. runs. Qed.
#[local] Hint Resolve runs_transition_cart : runs.

Lemma runs_mutate c p e :
  runs_as (mutate_and_recalculate_prog c p e) (mutate_and_recalculate self c p e).
Proof. unfold mutate_and_recalculate_prog, mutate_and_recalculate. runs. Qed.
#[local] Hint Resolve runs_mutate : runs.

Lemma runs_dispatch command cart_id :
  runs_as (dispatch_cart_command_prog command cart_id)
    (dispatch_cart_command env self command cart_id).
Proof.
  unfold dispatch_cart_command_prog, dispatch_cart_command. case_match; [runs|].
  destruct command; unfold cmd_create_cart_prog, cmd_create_cart, cmd_add_item_prog, cmd_add_item,
    cmd_update_item_qty_prog, cmd_update_item_qty, cmd_remove_item_prog, cmd_remove_item,
    cmd_apply_adjustment_prog, cmd_apply_adjustment, cmd_set_fulfillment_prog,
    cmd_set_fulfillment, cmd_start_checkout_prog, cmd_start_checkout, cmd_cancel_cart_prog,
    cmd_cancel_cart; runs.
Qed.

Lemma runs_settle req :
  runs_as (settle_cart_for_checkout_prog req) (settle_cart_for_checkout self req).
Proof.
  unfold settle_cart_for_checkout_prog, settle_cart_for_checkout, reprice_for_checkout_prog,
    reprice_for_checkout. runs.
Qed.

Lemma runs_finish_unpaid req res :
  runs_as (finish_unpaid_prog req res) (finish_unpaid req res).
Proof. unfold finish_unpaid_prog, finish_unpaid. runs. Qed.
#[local] Hint Resolve runs_settle runs_finish_unpaid : runs.

Lemma runs_complete req cart st auth :
  runs_as (complete_checkout_prog req cart st auth) (complete_checkout env self req cart st auth).
Proof.
  unfold complete_checkout_prog, complete_checkout, commit_checkout_prog, commit_checkout,
    record_order_prog, record_order, advance. runs.
Qed.
#[local] Hint Resolve runs_complete : runs.

Lemma runs_pay req cart :
  runs_as (pay_checkout_prog req cart) (pay_checkout env self req cart).
Proof.
  unfold pay_checkout_prog, pay_checkout, reserve_lines_prog, reserve_lines, reject_checkout_prog,
    reject_checkout, decline_checkout_prog, decline_checkout, advance. runs.
Qed.
#[local] Hint Resolve runs_pay : runs.

Lemma runs_execute_checkout req :
  runs_as (execute_checkout_prog req) (execute_checkout env self req).
Proof. unfold execute_checkout_prog, execute_checkout. runs. Qed.

(** ** The payment lifecycle *)

Definition lifecycle_payment_prog (c : PaymentLifecycleRequest -> ProviderCall)
    (f : nat -> PaymentLifecycleRequest -> result PaymentOperationResult PaymentError)
    (st : PaymentState) (request : PaymentLifecycleRequest)
  : Prog B RunnerError PaymentOperationResult :=
  r ← act (call (c request) (fun n => f n request) RunnerPayment);
  if po_success r
  then _ ← act (pay_state_put (pl_transaction_id request) st); mret r
  else mret r.

Definition capture_payment_prog := lifecycle_payment_prog CallCapture (capture (providers self)) Captured.
Definition void_payment_prog := lifecycle_payment_prog CallVoid (void (providers self)) Voided.
Definition refund_payment_prog := lifecycle_payment_prog CallRefund (refund (providers self)) Refunded.

Lemma runs_lifecycle c f st req :
  runs_as (lifecycle_payment_prog c f st req) (lifecycle_payment c f st req).
Proof. unfold lifecycle_payment_prog, lifecycle_payment. runs. Qed.
End operations.
