(* ===== verification/Threads.v ===== *)
(** * Requests beside each other ([orchestrator-runtime/src/runner.rs])

    The rules by which any number of the programs of [Interleave.v] run at once: they arrive, step
    in any order beside whatever else the process does, and may be given up half way, as the server
    does with the request of a client that went away.  A proof about them watches some part of the
    world; this file says what a watcher has to see to, and which programs it need not look into. *)

From S2P Require Export Interleave.

(** ** Watching the world *)

Definition pays (c : ProviderCall) : bool :=
  match c with CallAuthorize _ | CallCapture _ => true | _ => false end.

(** The world after a provider was called. *)
Definition called {B : Backend} (c : ProviderCall) (w : World B) : World B :=
  set_tick (S (w_tick w)) (set_trace (w_trace w ++ [c]) w).

(** [R w v]: the watcher may see the world go from [w] to [v].  It watches keys, mandates and
    payments at most. *)
Class Watch {B : Backend} (R : World B -> World B -> Prop) := {
  watch_preorder :: PreOrder R;
  watch_same w v :
    w_idem v = w_idem w -> w_mandates v = w_mandates w -> w_trace v = w_trace w -> R w v;
  watch_call c w : pays c = false -> R w (called c w)
}.

Section watched.
Context {B : Backend} (R : World B -> World B -> Prop).

(** An interaction the watcher may see. *)
Definition leaves {E A} (m : ST (World B) E A) : Prop := forall w, R w (snd (m w)).

(** A program of such interactions only. *)
Fixpoint apart {E A} (p : Prog B E A) : Prop :=
  match p with
  | Done _ => True
  | Act upd next => forall w, R w (upd w) /\ apart (next w)
  end.

Lemma apart_act {E A} (m : ST (World B) E A) : leaves m -> apart (act m).
Proof. intros H w. by split. Qed.

Lemma apart_bind {E A C} (f : A -> Prog B E C) p :
  apart p -> (forall a, apart (f a)) -> apart (p ≫= f).
Proof.
  unfold mbind, Prog_bind. intros Hp Hf. induction p as [[a|e]|upd next IH]; cbn in *; try done.
  intros w. destruct (Hp w) as [Ha Hn]. split; [done|auto].
Qed.

Lemma apart_catch {E A C} (p : Prog B E A) (f : A -> Prog B E C) h :
  apart p -> (forall a, apart (f a)) -> (forall e, apart (h e)) -> apart (prog_catch p f h).
Proof.
  intros Hp Hf Hh. induction p as [[a|e]|upd next IH]; cbn in *; try done.
  intros w. destruct (Hp w) as [Ha Hn]. split; [done|auto].
Qed.

Lemma apart_iter {E A} (f : A -> Prog B E unit) xs :
  (forall x, apart (f x)) -> apart (prog_iter f xs).
Proof. intros Hf. induction xs as [|x xs IH]; [done|]. by apply apart_bind. Qed.

Lemma apart_map_err {E F A} (f : E -> F) (p : Prog B E A) : apart p -> apart (prog_map_err f p).
Proof.
  induction p as [r|upd next IH]; cbn; [done|]. intros Hp w. destruct (Hp w) as [? Hn].
  split; [done|by apply IH].
Qed.

Context {W : Watch R}.

Lemma leaves_ret {E A} (a : A) : leaves (E:=E) (mret a).
Proof. intros w. reflexivity. Qed.

Lemma leaves_lift {E A} (r : result A E) : leaves (st_lift r).
Proof. intros w. reflexivity. Qed.

Lemma leaves_gets {E A} (f : World B -> A) : leaves (E:=E) (st_gets f).
Proof. intros w. reflexivity. Qed.

Lemma leaves_bind {E A C} (m : ST (World B) E A) (f : A -> ST (World B) E C) :
  leaves m -> (forall a, leaves (f a)) -> leaves (m ≫= f).
Proof.
  intros Hm Hf w. unfold mbind, ST_bind. specialize (Hm w).
  destruct (m w) as [[a|e] v]; [|done]. etrans; [exact Hm|apply Hf].
Qed.

Lemma leaves_call {A E} c (f : nat -> result A E) conv : pays c = false -> leaves (call c f conv).
Proof. intros Hc w. by apply watch_call. Qed.

Lemma leaves_on {S A} (get : World B -> S) set (op : ST S StoreError A) :
  (forall s w, w_idem (set s w) = w_idem w) -> (forall s w, w_mandates (set s w) = w_mandates w) ->
  (forall s w, w_trace (set s w) = w_trace w) -> leaves (on get set op).
Proof. intros Hi Hm Ht w. apply watch_same; [apply Hi|apply Hm|apply Ht]. Qed.

Lemma leaves_uuid env : leaves (new_uuid env).
Proof. intros w. by apply watch_same. Qed.

Lemma leaves_now env : leaves (now env).
Proof. intros w. by apply watch_same. Qed.

Lemma leaves_pay_state txn st : leaves (pay_state_put txn st).
Proof. intros w. by apply watch_same. Qed.
End watched.

Create HintDb apart.
#[export] Hint Resolve leaves_ret leaves_lift leaves_gets leaves_uuid leaves_now leaves_pay_state
  : apart.
#[export] Hint Extern 1 (Watch _) => exact _ : apart.
#[export] Hint Extern 1 (leaves _ (on _ _ _)) => apply leaves_on; [exact _|reflexivity..] : apart.
#[export] Hint Extern 1 (leaves _ (on_events _)) => apply leaves_on; [exact _|reflexivity..] : apart.
#[export] Hint Extern 1 (leaves _ (call _ _ _)) => apply leaves_call; [exact _|reflexivity] : apart.
Ltac leaves :=
  repeat (cbv zeta beta; intros; first
    [ solve [auto with apart] | apply leaves_bind; [exact _|..] | case_match ]).

(** Follows a program that the watcher need not look into. *)
Ltac apart :=
  repeat (cbv zeta beta; intros; first
    [ exact I | solve [auto with apart] | apply apart_bind | apply apart_catch | apply apart_iter
    | apply apart_act; solve [leaves] | case_match ]).

(** ** Programs that neither pay nor name a key *)

Section programs.
Context {B : Backend} (R : World B -> World B -> Prop) {W : Watch R} (env : Env)
  (self : RunnerConfig B).

Lemma leaves_load c : leaves R (load_cart c).
Proof. unfold load_cart. leaves. Qed.

Lemma leaves_price c : leaves R (price_lines self c).
Proof. unfold price_lines. leaves. Qed.

Lemma leaves_discounts c : leaves R (apply_discounts self c).
Proof. unfold apply_discounts. leaves. Qed.

Lemma leaves_geo c : leaves R (check_geo self c).
Proof. unfold check_geo. leaves. Qed.

Lemma leaves_fresh prefix : leaves R (fresh_id env prefix).
Proof. unfold fresh_id. leaves. Qed.

Lemma leaves_adjustment code : leaves R (validate_adjustment self code).
Proof. unfold validate_adjustment. leaves. Qed.

Lemma leaves_quote c p ids : leaves R (quote_fulfillment self c p ids).
Proof. unfold quote_fulfillment. leaves. Qed.
#[local] Hint Resolve leaves_load leaves_price leaves_discounts leaves_geo leaves_fresh
  leaves_adjustment leaves_quote : apart.

Lemma apart_transition c e : apart R (transition_cart_prog c e).
Proof. unfold transition_cart_prog. apart. Qed.
#[local] Hint Resolve apart_transition : apart.

Lemma apart_mutate c p e : apart R (mutate_and_recalculate_prog self c p e).
Proof. unfold mutate_and_recalculate_prog. apart. Qed.
#[local] Hint Resolve apart_mutate : apart.

(** No cart command has a part in a key, a mandate or a payment. *)
Lemma apart_dispatch command cart_id : apart R (dispatch_cart_command_prog env self command cart_id).
Proof.
  unfold dispatch_cart_command_prog. case_match; [apart|].
  destruct command; unfold cmd_create_cart_prog, cmd_add_item_prog, cmd_update_item_qty_prog,
    cmd_remove_item_prog, cmd_apply_adjustment_prog, cmd_set_fulfillment_prog,
    cmd_start_checkout_prog, cmd_cancel_cart_prog; apart.
Qed.

Lemma apart_settle req : apart R (settle_cart_for_checkout_prog self req).
Proof. unfold settle_cart_for_checkout_prog, reprice_for_checkout_prog. apart. Qed.

Lemma apart_reserve req cart : apart R (reserve_lines_prog env req cart).
Proof. unfold reserve_lines_prog. apart. Qed.

Lemma apart_commit req auth : apart R (commit_checkout_prog env req auth).
Proof. unfold commit_checkout_prog. apart. Qed.

Lemma apart_order req cart c : apart R (record_order_prog env req cart c).
Proof. unfold record_order_prog. apart. Qed.
End programs.
#[export] Hint Resolve leaves_load leaves_price leaves_discounts leaves_geo leaves_fresh
  leaves_adjustment leaves_quote apart_transition apart_mutate apart_dispatch apart_settle
  apart_reserve apart_commit apart_order : apart.

(** ** Adding up over views *)

Fixpoint weigh {L : Type} (f : L -> nat) (ls : list L) : nat :=
  match ls with [] => 0 | l :: ls => f l + weigh f ls end.

Lemma weigh_app {L} (f : L -> nat) ls ls' : weigh f (ls ++ ls') = (weigh f ls + weigh f ls')%nat.
Proof. induction ls as [|l ls IH]; cbn; [done|]. rewrite IH. lia. Qed.

Lemma weigh_insert {L} (f : L -> nat) ls i l l' :
  ls !! i = Some l -> (weigh f (<[i := l']> ls) + f l = weigh f ls + f l')%nat.
Proof.
  revert i. induction ls as [|l0 ls IH]; intros [|i] Hi; try done.
  - injection Hi as ->. cbn. lia.
  - change (<[S i := l']> (l0 :: ls)) with (l0 :: <[i := l']> ls). cbn [weigh].
    specialize (IH i Hi). lia.
Qed.

Lemma weigh_one {L} (f : L -> nat) ls i l : ls !! i = Some l -> (f l <= weigh f ls)%nat.
Proof.
  revert i. induction ls as [|l0 ls IH]; intros [|i] Hi; try done; cbn.
  - injection Hi as ->. lia.
  - specialize (IH i Hi). lia.
Qed.

Lemma weigh_two {L} (f : L -> nat) ls i j l l' :
  ls !! i = Some l -> ls !! j = Some l' -> i <> j -> (f l + f l' <= weigh f ls)%nat.
Proof.
  revert i j. induction ls as [|l0 ls IH]; intros [|i] [|j] Hi Hj Hne; try done; cbn.
  - injection Hi as ->. pose proof (weigh_one f ls j l' Hj). lia.
  - injection Hj as ->. pose proof (weigh_one f ls i l Hi). lia.
  - specialize (IH i j Hi Hj ltac:(congruence)). lia.
Qed.

(** ** Programs that keep to the moves of a view *)

Section within.
Context {B : Backend} {L : Type} (move : World B -> World B -> L -> L -> Prop).

(** What a request knows of the world moves with every step it takes, and what it holds in the end
    fits its answer. *)
Fixpoint within {E A} (Q : result A E -> L -> Prop) (l : L) (p : Prog B E A) : Prop :=
  match p with
  | Done r => Q r l
  | Act upd next => forall w, exists l', move w (upd w) l l' /\ within Q l' (next w)
  end.

Lemma within_mono {E A} (P Q : result A E -> L -> Prop) p :
  (forall r l, P r l -> Q r l) -> forall l, within P l p -> within Q l p.
Proof.
  intros H. induction p as [r|upd next IH]; intros l; cbn; [auto|].
  intros Hp w. destruct (Hp w) as (l' & Hm & Hs). eauto.
Qed.

Lemma within_bind {E A C} Q (f : A -> Prog B E C) p l :
  within (fun r l => match r with Ok a => within Q l (f a) | Err e => Q (Err e) l end) l p ->
  within Q l (p ≫= f).
Proof.
  unfold mbind, Prog_bind. revert l. induction p as [[a|e]|upd next IH]; intros l; cbn; try done.
  intros Hp w. destruct (Hp w) as (l' & Hm & Hs). eauto.
Qed.

Lemma within_catch {E A C} Q (p : Prog B E A) (f : A -> Prog B E C) h l :
  within (fun r l => match r with Ok a => within Q l (f a) | Err e => within Q l (h e) end) l p ->
  within Q l (prog_catch p f h).
Proof.
  revert l. induction p as [[a|e]|upd next IH]; intros l; cbn; try done.
  intros Hp w. destruct (Hp w) as (l' & Hm & Hs). eauto.
Qed.

Lemma within_map_err {E F A} (f : E -> F) (P : result A E -> L -> Prop)
    (Q : result A F -> L -> Prop) p l :
  (forall r l, P r l -> Q (map_err f r) l) -> within P l p -> within Q l (prog_map_err f p).
Proof.
  intros HPQ. revert l. induction p as [r|upd next IH]; intros l; cbn; [apply HPQ|].
  intros Hp w. destruct (Hp w) as (l' & Hm & Hs). eauto.
Qed.

(** One interaction, by what it does to the view in each case. *)
Lemma within_act {E A C} Q (m : ST (World B) E A) (f : A -> Prog B E C) l :
  (forall w, exists l', move w (snd (m w)) l l'
     /\ match fst (m w) with Ok a => within Q l' (f a) | Err e => Q (Err e) l' end) ->
  within Q l (act m ≫= f).
Proof.
  intros H w. destruct (H w) as (l' & Hm & Hn). exists l'. split; [done|].
  cbn. by destruct (fst (m w)).
Qed.

Context (R : World B -> World B -> Prop) (unmoved : forall w v l, R w v -> move w v l l).

Lemma within_apart {E A} (Q : result A E -> L -> Prop) l p :
  apart R p -> (forall r, Q r l) -> within Q l p.
Proof.
  intros Hp HQ. induction p as [r|upd next IH]; cbn in *; [done|].
  intros w. destruct (Hp w) as [Ha Hn]. exists l. split; [by apply unmoved|auto].
Qed.

Lemma within_then {E A C} (Q : result C E -> L -> Prop) (f : A -> Prog B E C) p l :
  apart R p -> (forall e, Q (Err e) l) -> (forall a, within Q l (f a)) ->
  within Q l (p ≫= f).
Proof. intros Hp He Hf. apply within_bind, within_apart; [done|]. by intros [a|e]. Qed.
End within.

(** ** Any number of them *)

(** The first steps of a program, and the rest. *)
Fixpoint prog_steps {B : Backend} {E A} (n : nat) (p : Prog B E A) (w : World B)
  : Prog B E A * World B :=
  match n, p with
  | S n, Act upd next => prog_steps n (next w) (upd w)
  | _, _ => (p, w)
  end.

(** The answer of a program that is over. *)
Definition outcome {B : Backend} {E A} (p : Prog B E A) : option (result A E) :=
  match p with Done r => Some r | _ => None end.

(** A request and the rest of its program, none once it was dropped. *)
Definition PoolThread (B : Backend) (Q E A : Type) : Type := Q * option (Prog B E A).
Abbreviation Thread B E := (PoolThread B CheckoutRequest E TransactionResult).

Section threads.
Context {B : Backend} {Q E A : Type} (start : Q -> Prog B E A)
  (admits : Q -> Prop) (other : World B -> World B -> Prop).
Implicit Types (w v : World B) (ts : list (PoolThread B Q E A)).

(** One moves, while the rest of the process does what [other] allows. *)
Inductive thread_step : list (PoolThread B Q E A) * World B -> list (PoolThread B Q E A) * World B -> Prop :=
| pool_arrive ts w req :
    admits req -> thread_step (ts, w) (ts ++ [(req, Some (start req))], w)
| pool_run ts w i req upd next :
    ts !! i = Some (req, Some (Act upd next)) ->
    thread_step (ts, w) (<[i := (req, Some (next w))]> ts, upd w)
| pool_drop ts w i req p :
    ts !! i = Some (req, p) -> thread_step (ts, w) (<[i := (req, None)]> ts, w)
| pool_other ts w v : other w v -> thread_step (ts, w) (ts, v).

(** One of them runs for a while. *)
Lemma thread_runs n ts i req p w :
  ts !! i = Some (req, Some p) ->
  rtc thread_step (ts, w)
    (<[i := (req, Some (fst (prog_steps n p w)))]> ts, snd (prog_steps n p w)).
Proof.
  revert ts p w. induction n as [|n IH]; intros ts p w Hi; [by cbn; rewrite list_insert_id|].
  destruct p as [r|upd next]; [by cbn; rewrite list_insert_id|]. cbn [prog_steps].
  eapply rtc_l; [by eapply pool_run|].
  specialize (IH (<[i := (req, Some (next w))]> ts) (next w) (upd w)).
  rewrite list_insert_insert_eq in IH. apply IH. apply list_lookup_insert_eq.
  by eapply lookup_lt_Some.
Qed.

(** Every thread has a view [L] of its own, which also a dropped one leaves behind; a step of one
    moves its view and keeps the invariant that ties all views to the world. *)
Lemma threads_invariant_lost {L : Type} (fresh : Q -> L)
    (view : Q -> L -> Prog B E A -> Prop)
    (lost : Q -> L -> Prop) (gone : Q -> L -> L) (inv : list L -> World B -> Prop) :
  (forall req, admits req -> view req (fresh req) (start req)) ->
  (forall ls w req, inv ls w -> admits req -> inv (ls ++ [fresh req]) w) ->
  (forall ls w i l req upd next, inv ls w -> ls !! i = Some l -> view req l (Act upd next) ->
     exists l', view req l' (next w) /\ inv (<[i := l']> ls) (upd w)) ->
  (forall ls w i l req, inv ls w -> ls !! i = Some l -> inv (<[i := gone req l]> ls) w) ->
  (forall req l p, view req l p -> lost req (gone req l)) ->
  (forall req l, lost req l -> lost req (gone req l)) ->
  (forall ls w v, inv ls w -> other w v -> inv ls v) ->
  forall s s', rtc thread_step s s' ->
  let ok s := exists ls, inv ls (snd s)
    /\ Forall2 (fun t l => match snd t with
                           | Some p => view (fst t) l p
                           | None => lost (fst t) l end) (fst s) ls
  in ok s -> ok s'.
Proof.
  intros Hstart Harr Hrun Hdrop Hlost Hlost' Hother s s' Hs ok. induction Hs as [|s1 s2 s3 H1 _ IH]; [done|].
  intros (ls & Hinv & Hts). apply IH. clear IH.
  destruct H1 as [ts w req Ha|ts w i req upd next Hi|ts w i req p Hi|ts w v Hwv]; cbn [fst snd] in *.
  - exists (ls ++ [fresh req]). split; [by apply Harr|]. apply Forall2_app; [done|].
    constructor; [|done]. by apply Hstart.
  - destruct (Forall2_lookup_l _ _ _ _ _ Hts Hi) as (l & Hl & Ht). cbn in Ht.
    destruct (Hrun _ _ _ _ _ _ _ Hinv Hl Ht) as (l' & Hv & Hinv').
    exists (<[i := l']> ls). split; [done|]. by apply Forall2_insert.
  - destruct (Forall2_lookup_l _ _ _ _ _ Hts Hi) as (l & Hl & Ht).
    exists (<[i := gone req l]> ls). split; [by eapply Hdrop|]. apply Forall2_insert; [done|].
    cbn. destruct p; cbn in Ht; eauto.
  - exists ls. split; [by eapply Hother|done].
Qed.

(** The same, where nothing is asked of the dropped ones. *)
Lemma threads_invariant {L : Type} (fresh : Q -> L)
    (view : Q -> L -> Prog B E A -> Prop)
    (gone : Q -> L -> L) (inv : list L -> World B -> Prop) :
  (forall req, admits req -> view req (fresh req) (start req)) ->
  (forall ls w req, inv ls w -> admits req -> inv (ls ++ [fresh req]) w) ->
  (forall ls w i l req upd next, inv ls w -> ls !! i = Some l -> view req l (Act upd next) ->
     exists l', view req l' (next w) /\ inv (<[i := l']> ls) (upd w)) ->
  (forall ls w i l req, inv ls w -> ls !! i = Some l -> inv (<[i := gone req l]> ls) w) ->
  (forall ls w v, inv ls w -> other w v -> inv ls v) ->
  forall s s', rtc thread_step s s' ->
  let ok s := exists ls, inv ls (snd s)
    /\ Forall2 (fun t l => match snd t with Some p => view (fst t) l p | None => True end) (fst s) ls
  in ok s -> ok s'.
Proof. intros. by eapply (threads_invariant_lost _ _ (fun _ _ => True)). Qed.
End threads.
