(* ===== verification/Concurrency.v ===== *)
(** * Checkouts beside each other ([orchestrator-runtime/src/runner.rs]: [execute_checkout])

    Any number of checkouts run at once, in any order of their steps, beside whatever else the
    process does, and any of them may be given up half way, as the server does with the request of
    a client that went away.  What holds the charges of one idempotency key apart is the store that
    claims it, and the proof is that of a lock: a checkout is free, holds the key with what it has
    paid so far, or has settled it, and a step of one keeps what the others rely on. *)

From S2P Require Export Threads.

(** ** What is watched: the key, and the payment calls made under it *)

Definition authorizes (k : IdempotencyKey) (c : ProviderCall) : bool :=
  match c with CallAuthorize r => bool_decide (key_of r = k) | _ => false end.

Definition captures (k : IdempotencyKey) (c : ProviderCall) : bool :=
  match c with
  | CallCapture r => bool_decide (MkIdempotencyKey (pl_tenant_id r) (pl_merchant_id r)
                                    (pl_idempotency_key r) = k)
  | _ => false
  end.

Section watch.
Context {B : Backend} {L : BackendLaws B} (k : IdempotencyKey).
Implicit Types w v : World B.

(** Authorizations and captures under the key. *)
Definition paid w : nat * nat :=
  (length (List.filter (authorizes k) (w_trace w)), length (List.filter (captures k) (w_trace w))).

Definition held w : option IdempotencyState := idem_lookup k (w_idem w).

(** A step that is none of the key's. *)
Definition aside w v : Prop := held v = held w /\ paid v = paid w.

Lemma aside_refl w : aside w w.
Proof. done. Qed.


Lemma paid_call c w :
  paid (called c w)
  = ((fst (paid w) + if authorizes k c then 1 else 0)%nat,
     (snd (paid w) + if captures k c then 1 else 0)%nat).
Proof.
  unfold paid. cbn. rewrite !List.filter_app, !length_app. cbn.
  by destruct (authorizes k c), (captures k c).
Qed.

Lemma aside_call c w :
  authorizes k c = false -> captures k c = false -> aside w (called c w).
Proof.
  intros Ha Hc. split; [done|]. rewrite paid_call, Ha, Hc, !Nat.add_0_r. by destruct (paid w).
Qed.

#[export] Instance aside_watch : Watch aside.
Proof.
  split.
  - split; [by intros w|]. intros u v w [H1 H2] [H3 H4]. split; congruence.
  - intros w v Hi _ Ht. unfold aside, held, paid. by rewrite Hi, Ht.
  - intros c w Hc. by apply aside_call; destruct c.
Qed.

(** ** A checkout's own view *)

Inductive Local :=
| Free
| Holds (p : nat * nat)
| Settled (res : TransactionResult).

Definition knows (l : Local) w : Prop :=
  match l with
  | Free => True
  | Holds p => held w = Some InFlight /\ paid w = p
  | Settled res => held w = Some (IdemCompleted res)
  end.

(** What was paid by the time a result settles its key: a completed checkout was authorized and
    captured once, any other captured nothing. *)
Definition accounts (res : TransactionResult) (p : nat * nat) : Prop :=
  match tr_status res with TxnCompleted => p = (1, 1)%nat | _ => snd p = 0%nat end.

(** The moves a step may make. *)
Inductive move (w v : World B) : Local -> Local -> Prop :=
| move_aside l : aside w v -> move w v l l
| move_claim : held w = None -> held v = Some InFlight -> paid v = paid w ->
    move w v Free (Holds (0, 0))
| move_seize : held w = None -> held v = Some InFlight -> paid v = paid w -> move w v Free Free
| move_find res : held w = Some (IdemCompleted res) -> aside w v -> move w v Free (Settled res)
| move_pay p q : held v = held w -> paid v = q -> (fst q <= 1)%nat -> (snd q <= 1)%nat ->
    move w v (Holds p) (Holds q)
| move_release : held v = None -> paid v = paid w -> move w v (Holds (0, 0)) Free
| move_settle p res : held v = Some (IdemCompleted res) -> paid v = paid w -> accounts res p ->
    move w v (Holds p) (Settled res).

(** A program keeps to the moves from a view on, whatever comes in between, as long as it leaves
    the view true, and ends as [Q] says. *)
Fixpoint safe {E A} (Q : result A E -> Local -> Prop) (l : Local) (p : Prog B E A) : Prop :=
  match p with
  | Done r => Q r l
  | Act upd next => forall w, knows l w -> (held w = None -> paid w = (0, 0)) ->
      exists l', move w (upd w) l l' /\ safe Q l' (next w)
  end.

Lemma safe_mono {E A} (P Q : result A E -> Local -> Prop) p :
  (forall r l, P r l -> Q r l) -> forall l, safe P l p -> safe Q l p.
Proof.
  intros H. induction p as [r|upd next IH]; intros l; cbn; [auto|].
  intros Hp w Hk Hn. destruct (Hp w Hk Hn) as (l' & Hm & Hs). eauto.
Qed.

Lemma safe_bind {E A C} Q (f : A -> Prog B E C) p l :
  safe (fun r l => match r with Ok a => safe Q l (f a) | Err e => Q (Err e) l end) l p ->
  safe Q l (p ≫= f).
Proof.
  unfold mbind, Prog_bind. revert l. induction p as [[a|e]|upd next IH]; intros l; cbn; try done.
  intros Hp w Hk Hn. destruct (Hp w Hk Hn) as (l' & Hm & Hs). eauto.
Qed.

Lemma safe_catch {E A C} Q (p : Prog B E A) (f : A -> Prog B E C) h l :
  safe (fun r l => match r with Ok a => safe Q l (f a) | Err e => safe Q l (h e) end) l p ->
  safe Q l (prog_catch p f h).
Proof.
  revert l. induction p as [[a|e]|upd next IH]; intros l; cbn; try done.
  intros Hp w Hk Hn. destruct (Hp w Hk Hn) as (l' & Hm & Hs). eauto.
Qed.

Lemma safe_apart {E A} (Q : result A E -> Local -> Prop) l p :
  apart aside p -> (forall r, Q r l) -> safe Q l p.
Proof.
  intros Hp HQ. induction p as [r|upd next IH]; cbn in *; [done|].
  intros w _ _. destruct (Hp w) as [Ha Hn]. exists l. split; [by constructor|auto].
Qed.

Lemma safe_map_err {E F A} (f : E -> F) (P : result A E -> Local -> Prop)
    (Q : result A F -> Local -> Prop) p l :
  (forall r l, P r l -> Q (map_err f r) l) -> safe P l p -> safe Q l (prog_map_err f p).
Proof.
  intros HPQ. revert l. induction p as [r|upd next IH]; intros l; cbn; [apply HPQ|].
  intros Hp w Hk Hn. destruct (Hp w Hk Hn) as (l' & Hm & Hs). eauto.
Qed.
End watch.
Arguments safe {B L} k {E A} _ _ _.

(** A checkout that answers with a result has settled the key with it. *)
Definition ends {E} (r : result TransactionResult E) (l : Local) : Prop :=
  match r with Ok res => l = Settled res | Err _ => True end.

Section programs.
Context {B : Backend} {L : BackendLaws B} (env : Env) (self : RunnerConfig B)
  (k : IdempotencyKey).

(** ** The checkout keeps to the moves *)

Lemma safe_then {E A} (f : A -> Prog B E TransactionResult) p l :
  apart (aside k) p -> (forall a, safe k ends l (f a)) -> safe k ends l (p ≫= f).
Proof.
  intros Hp Hf. apply safe_bind, safe_apart; [done|]. by intros [a|e]; [apply Hf|].
Qed.

Context (Hk : key_ok k).

Section own_key.
Context (req : CheckoutRequest) (Hreq : key_of req = k).

Lemma safe_complete_key res p (f : unit -> Prog B RunnerError TransactionResult) :
  accounts res p -> (forall u, safe k ends (Settled res) (f u)) ->
  safe k ends (Holds p) (act (on w_idem set_idem (idem_complete (key_of req) res)) ≫= f).
Proof.
  intros Hacc Hf. apply safe_bind. intros w Hw _. exists (Settled res). split.
  - apply move_settle; [|done..]. unfold held. cbn.
    by rewrite (complete_lookup (key_of req)), decide_True by (by rewrite ?Hreq).
  - cbn. destruct (map_err _ _) as [u|e]; [apply Hf|done].
Qed.

Lemma safe_settled res (p : Prog B RunnerError unit) :
  apart (aside k) p -> safe k ends (Settled res) (p ≫= fun _ : unit => mret res).
Proof. intros Hp. by apply safe_then. Qed.

Lemma safe_finish_unpaid res p :
  accounts res p -> safe k ends (Holds p) (finish_unpaid_prog req res).
Proof.
  intros Hacc. apply safe_then; [apart|]. intros _. apply safe_complete_key; [done|]. intros _.
  apply safe_settled. apart.
Qed.

Lemma safe_call {A E} c (f : nat -> result A E) conv p q
    (g : A -> Prog B RunnerError TransactionResult) :
  (forall w, paid k w = p -> paid k (called c w) = q) ->
  (fst q <= 1)%nat -> (snd q <= 1)%nat -> (forall a, safe k ends (Holds q) (g a)) ->
  safe k ends (Holds p) (act (call c f conv) ≫= g).
Proof.
  intros Hc H1 H2 Hg. apply safe_bind. intros w [Hh Hp] _. exists (Holds q). split.
  - apply move_pay; [done| |done..]. by apply Hc.
  - cbn. destruct (map_err _ _) as [a|e]; [apply Hg|done].
Qed.

Lemma authorize_counts w :
  paid k w = (0, 0)%nat ->
  paid k (called (CallAuthorize req) w) = (1, 0)%nat.
Proof. intros Hp. rewrite paid_call, Hp. cbn. by rewrite bool_decide_true. Qed.

Lemma capture_counts txn total w :
  paid k w = (1, 0)%nat ->
  paid k (called (CallCapture (MkPaymentLifecycleRequest (cr_tenant_id req) (cr_merchant_id req)
    txn total (cr_idempotency_key req))) w) = (1, 1)%nat.
Proof. intros Hp. rewrite paid_call, Hp. cbn. by rewrite bool_decide_true. Qed.

Lemma safe_lift {A} (r : result A RunnerError) (f : A -> Prog B RunnerError TransactionResult) l :
  (forall a, r = Ok a -> safe k ends l (f a)) -> safe k ends l (Done r ≫= f).
Proof. intros H. destruct r as [a|e]; [by apply H|done]. Qed.

Lemma safe_complete cart st auth :
  safe k ends (Holds (1, 0)%nat) (complete_checkout_prog env self req cart st auth).
Proof.
  unfold complete_checkout_prog. do 2 (apply safe_then; [apart|intros ?]).
  eapply safe_call; [apply capture_counts|cbn; lia..|]. intros captured.
  do 3 (apply safe_then; [apart|intros ?]). apply safe_lift. intros st' Hst.
  apply safe_lift. intros status Hstatus. do 4 (apply safe_then; [apart|intros ?]).
  apply safe_then; [apart|intros _].
  apply safe_complete_key; [|intros _; apply safe_settled; apart].
  unfold accounts. cbn [tr_status].
  assert (status = TxnCompleted) as ->; [|done].
  destruct a3; cbn in Hst; try discriminate; injection Hst as <-; by injection Hstatus.
Qed.

Lemma safe_pay cart : safe k ends (Holds (0, 0)%nat) (pay_checkout_prog env self req cart).
Proof.
  unfold pay_checkout_prog. do 5 (apply safe_then; [apart|intros ?]). case_match.
  - eapply safe_call; [apply authorize_counts|cbn; lia..|]. intros auth. case_match.
    + do 2 (apply safe_then; [apart|intros ?]). by apply safe_finish_unpaid.
    + apply safe_complete.
  - do 2 (apply safe_then; [apart|intros ?]). by apply safe_finish_unpaid.
Qed.

Lemma safe_checkout : safe k ends Free (execute_checkout_prog env self req).
Proof.
  unfold execute_checkout_prog. case_match; [exact I|]. apply safe_bind.
  intros w _ _. cbn [act on]. unfold on.
  destruct (idem_lookup k (w_idem w)) as [[|res]|] eqn:Hl.
  - exists Free. rewrite Hreq, (claim_hit _ _ _ Hk Hl). cbn. split; [|done]. apply move_aside. rewrite set_idem_same.
    apply aside_refl.
  - exists (Settled res). rewrite Hreq, (claim_hit _ _ _ Hk Hl). cbn. split; [|done].
    apply move_find; [done|]. rewrite set_idem_same. apply aside_refl.
  - rewrite Hreq. destruct (idem_claim k (w_idem w)) as [r i] eqn:Hc.
    destruct (claim_miss _ _ _ _ Hk Hl Hc) as [Hr Hi]. specialize (Hi k Hk).
    rewrite decide_True in Hi by done. cbn [fst snd]. destruct Hr as [->|[e ->]].
    + exists (Holds (0, 0)%nat). cbn [safe map_err]. split; [by apply move_claim|].
      apply safe_catch, safe_apart; [apart|]. intros [cart|e]; [apply safe_pay|].
      intros u [Hu Hp] _. exists Free. split; [|by destruct (map_err _ _)].
      apply move_release; [|done]. unfold held in *. cbn.
      by rewrite release_lookup, Hu, decide_True by done.
    + exists Free. cbn. split; [by apply move_seize|done].
Qed.
End own_key.

(** A checkout under another key has no part in this one. *)
Section other_key.
Context (req : CheckoutRequest) (Hne : key_of req <> k) (Hreq : key_ok (key_of req)).

Lemma leaves_claim : leaves (aside k) (on (B:=B) w_idem set_idem (idem_claim (key_of req))).
Proof.
  intros w. split; [|done]. unfold held. cbn.
  destruct (idem_lookup (key_of req) (w_idem w)) as [st|] eqn:Hl;
    [by rewrite (claim_hit _ _ _ Hreq Hl)|].
  destruct (idem_claim (key_of req) (w_idem w)) as [r i] eqn:Hc.
  destruct (claim_miss _ _ _ _ Hreq Hl Hc) as [_ Hi]. cbn. by rewrite (Hi k Hk), decide_False.
Qed.

Lemma leaves_complete res :
  leaves (aside k) (on (B:=B) w_idem set_idem (idem_complete (key_of req) res)).
Proof.
  intros w. split; [|done]. unfold held. cbn.
  by rewrite (complete_lookup (key_of req)), decide_False.
Qed.

Lemma leaves_release : leaves (aside k) (on (B:=B) w_idem set_idem (idem_release (key_of req))).
Proof.
  intros w. split; [|done]. unfold held. cbn. rewrite (release_lookup (key_of req)) by done.
  by destruct (idem_lookup k (w_idem w)) as [[]|]; rewrite ?decide_False.
Qed.

Lemma leaves_authorize {A E} (f : nat -> result A E) conv :
  leaves (aside (B:=B) k) (call (CallAuthorize req) f conv).
Proof. intros w. apply aside_call; [by apply bool_decide_eq_false|done]. Qed.

Lemma leaves_capture {A E} (f : nat -> result A E) conv txn total :
  leaves (aside (B:=B) k) (call (CallCapture (MkPaymentLifecycleRequest (cr_tenant_id req)
    (cr_merchant_id req) txn total (cr_idempotency_key req))) f conv).
Proof. intros w. apply aside_call; [done|by apply bool_decide_eq_false]. Qed.
#[local] Hint Resolve leaves_claim leaves_complete leaves_release leaves_authorize leaves_capture
  : apart.

Lemma apart_unpaid res : apart (aside k) (finish_unpaid_prog (B:=B) req res).
Proof. unfold finish_unpaid_prog. apart. Qed.

Lemma apart_complete cart st auth : apart (aside k) (complete_checkout_prog env self req cart st auth).
Proof. unfold complete_checkout_prog. apart. Qed.
#[local] Hint Resolve apart_unpaid apart_complete : apart.

Lemma apart_pay cart : apart (aside k) (pay_checkout_prog env self req cart).
Proof. unfold pay_checkout_prog, reject_checkout_prog, decline_checkout_prog. apart. Qed.
#[local] Hint Resolve apart_pay : apart.

Lemma apart_checkout : apart (aside k) (execute_checkout_prog env self req).
Proof. unfold execute_checkout_prog. apart. Qed.
End other_key.
End programs.

(** ** Any number of checkouts *)

(** The programs that keep to the moves of their own key and leave the others alone. *)
Definition keeps_keys {B : Backend} {L : BackendLaws B} {E}
    (start : CheckoutRequest -> Prog B E TransactionResult) : Prop :=
  forall k req, key_ok k -> key_ok (key_of req) ->
    if decide (key_of req = k) then safe k ends Free (start req) else apart (aside k) (start req).

Lemma checkout_keeps_keys {B : Backend} {L : BackendLaws B} env (self : RunnerConfig B) :
  keeps_keys (execute_checkout_prog env self).
Proof. intros k req Hk Hreq. case_decide; [by apply safe_checkout|by apply apart_checkout]. Qed.

Section pool.
Context {B : Backend} {L : BackendLaws B} {E : Type}
  (start : CheckoutRequest -> Prog B E TransactionResult).
Implicit Types (w v : World B) (ts : list (Thread B E)).

(** What the rest of the process may do in between: anything but claim, settle or release keys,
    authorize or capture. *)
Definition leaves_keys w v : Prop := forall k, key_ok k -> aside k w v.

Definition checkouts_step : relation (list (Thread B E) * World B) :=
  thread_step start (fun req => key_ok (key_of req)) leaves_keys.

(** Some request came under the key and was answered with the result. *)
Definition answered ts (k : IdempotencyKey) (res : TransactionResult) : Prop :=
  exists i req, ts !! i = Some (req, Some (Done (Ok res))) /\ key_of req = k.

(** *** The invariant of one key *)

Definition view (k : IdempotencyKey) (req : CheckoutRequest) (l : Local)
    (p : Prog B E TransactionResult) : Prop :=
  if decide (key_of req = k) then safe k ends l p else apart (aside k) p /\ l = Free.

(** Who may stand where, given the state of the key. *)
Definition key_inv (k : IdempotencyKey) (ls : list Local) w : Prop :=
  match held k w with
  | None => paid k w = (0, 0)%nat /\ forall i l, ls !! i = Some l -> l = Free
  | Some InFlight =>
      ((fst (paid k w) <= 1)%nat /\ (snd (paid k w) <= 1)%nat)
      /\ (forall i l, ls !! i = Some l -> l = Free \/ l = Holds (paid k w))
      /\ (forall i j p q, ls !! i = Some (Holds p) -> ls !! j = Some (Holds q) -> i = j)
  | Some (IdemCompleted res) =>
      ((fst (paid k w) <= 1)%nat /\ (snd (paid k w) <= 1)%nat /\ accounts res (paid k w))
      /\ forall i l, ls !! i = Some l -> l = Free \/ l = Settled res
  end.

Definition pool_ok (k : IdempotencyKey) (s : list (Thread B E) * World B) : Prop :=
  exists ls, key_inv k ls (snd s)
    /\ Forall2 (fun t l => match snd t with Some p => view k (fst t) l p | None => True end)
         (fst s) ls.

Lemma key_inv_knows k ls w i l : key_inv k ls w -> ls !! i = Some l -> knows k l w.
Proof.
  unfold key_inv, knows. intros H Hl. destruct (held k w) as [[|res]|] eqn:Hh.
  - destruct H as (_ & Hls & _). by destruct (Hls i l Hl) as [->| ->].
  - destruct H as (_ & Hls). by destruct (Hls i l Hl) as [->| ->].
  - destruct H as (_ & Hls). by rewrite (Hls i l Hl).
Qed.

Lemma key_inv_aside k ls w v : aside k w v -> key_inv k ls w -> key_inv k ls v.
Proof. unfold key_inv. intros [-> ->]. done. Qed.

(** Only one holds the key. *)
Lemma holder_alone k ls w i p :
  key_inv k ls w -> ls !! i = Some (Holds p) ->
  held k w = Some InFlight /\ paid k w = p /\ (fst p <= 1)%nat /\ (snd p <= 1)%nat
  /\ forall j l, ls !! j = Some l -> j <> i -> l = Free.
Proof.
  unfold key_inv. intros H Hi. destruct (held k w) as [[|res]|].
  - destruct H as (Hb & Hls & Hu). destruct (Hls i _ Hi) as [?|[= ->]]; [done|].
    split; [done|]. split; [done|]. split; [by apply Hb|]. split; [by apply Hb|].
    intros j l Hj Hne. destruct (Hls j l Hj) as [?| ->]; [done|]. by destruct (Hne (Hu _ _ _ _ Hj Hi)).
  - destruct H as (_ & Hls). by destruct (Hls i _ Hi).
  - destruct H as (_ & Hls). by specialize (Hls i _ Hi).
Qed.

Lemma insert_cases (ls : list Local) (i j : nat) (l l' : Local) :
  <[i := l']> ls !! j = Some l -> (j = i /\ l = l') \/ (j <> i /\ ls !! j = Some l).
Proof.
  intros [(-> & -> & _)|[Hne H]]%list_lookup_insert_Some; [by left|right]. by split; [intros ->|].
Qed.

Lemma key_inv_free k ls w : key_inv k ls w -> held k w = None ->
  paid k w = (0, 0)%nat /\ forall i l, ls !! i = Some l -> l = Free.
Proof. unfold key_inv. by intros H Hh; rewrite Hh in H. Qed.

(** A step by the rules of one keeps the invariant of all. *)
Lemma key_inv_move k ls w v i l l' :
  key_inv k ls w -> ls !! i = Some l -> move k w v l l' -> key_inv k (<[i := l']> ls) v.
Proof.
  intros H Hi Hm. destruct Hm as [l Ha|Hw Hv Hp|Hw Hv Hp|res Hw Ha|p q Hv <- H1 H2|Hv Hp|p res Hv Hp Hacc].
  - rewrite list_insert_id by done. by eapply key_inv_aside.
  - destruct (key_inv_free _ _ _ H Hw) as [Hp0 Hls]. unfold key_inv. rewrite Hv, Hp, Hp0.
    split; [cbn; lia|]. split.
    + intros j l [[-> ->]|[_ Hj]]%insert_cases; [by right|left; eauto].
    + intros j j' p q [[-> _]|[_ Hj]]%insert_cases [[-> _]|[_ Hj']]%insert_cases; [done| | |];
        by (apply Hls in Hj || apply Hls in Hj').
  - rewrite list_insert_id by done. destruct (key_inv_free _ _ _ H Hw) as [Hp0 Hls].
    unfold key_inv. rewrite Hv, Hp, Hp0. split; [cbn; lia|]. split; [left; eauto|].
    intros j j' p q Hj. by apply Hls in Hj.
  - apply (key_inv_aside _ _ _ _ Ha) in H. destruct Ha as [Hh _]. unfold key_inv in *.
    rewrite Hh, Hw in *. destruct H as [Hb Hls]. split; [done|].
    intros j l [[-> ->]|[_ Hj]]%insert_cases; [by right|eauto].
  - destruct (holder_alone _ _ _ _ _ H Hi) as (Hh & _ & _ & _ & Ho). unfold key_inv.
    rewrite Hv, Hh. split; [done|]. split.
    + intros j l [[-> ->]|[Hne Hj]]%insert_cases; [by right|left; eauto].
    + intros j j' p' q' [[-> _]|[Hn Hj]]%insert_cases [[-> _]|[Hn' Hj']]%insert_cases; [done| | |];
        by (apply Ho in Hj || apply Ho in Hj').
  - destruct (holder_alone _ _ _ _ _ H Hi) as (Hh & Hp0 & _ & _ & Ho). unfold key_inv.
    rewrite Hv, Hp. split; [done|]. intros j l [[-> ->]|[Hne Hj]]%insert_cases; eauto.
  - destruct (holder_alone _ _ _ _ _ H Hi) as (Hh & Hp0 & H1 & H2 & Ho). unfold key_inv.
    rewrite Hv, Hp, Hp0. split; [done|].
    intros j l [[-> ->]|[Hne Hj]]%insert_cases; [by right|left; eauto].
Qed.

Lemma key_inv_drop k ls w i : key_inv k ls w -> key_inv k (<[i := Free]> ls) w.
Proof.
  unfold key_inv. intros H. destruct (held k w) as [[|res]|].
  - destruct H as (Hb & Hls & Hu). split; [done|]. split.
    + intros j l [[-> ->]|[_ Hj]]%insert_cases; [by left|eauto].
    + intros j j' p q [[_ ?]|[_ Hj]]%insert_cases [[_ ?]|[_ Hj']]%insert_cases; try done. eauto.
  - destruct H as (Hb & Hls). split; [done|].
    intros j l [[-> ->]|[_ Hj]]%insert_cases; [by left|eauto].
  - destruct H as (Hb & Hls). split; [done|].
    intros j l [[-> ->]|[_ Hj]]%insert_cases; eauto.
Qed.

Lemma key_inv_arrive k ls w : key_inv k ls w -> key_inv k (ls ++ [Free]) w.
Proof.
  assert (forall i l, (ls ++ [Free]) !! i = Some l -> l = Free \/ ls !! i = Some l) as Hc.
  { intros i l [?|[_ Hl]]%lookup_app_Some; [by right|]. left.
    by apply list_lookup_singleton_Some in Hl as [_ <-]. }
  unfold key_inv. intros H. destruct (held k w) as [[|res]|].
  - destruct H as (Hb & Hls & Hu). split; [done|]. split.
    + intros i l [->|Hl]%Hc; [by left|eauto].
    + intros i j p q [?|Hl]%Hc [?|Hl']%Hc; try done. eauto.
  - destruct H as (Hb & Hls). split; [done|]. intros i l [->|Hl]%Hc; [by left|eauto].
  - destruct H as (Hb & Hls). split; [done|]. intros i l [->|Hl]%Hc; eauto.
Qed.

Lemma pool_steps_ok k s s' :
  keeps_keys start -> key_ok k -> rtc checkouts_step s s' -> pool_ok k s -> pool_ok k s'.
Proof.
  intros Hkeeps Hk Hs. refine (threads_invariant _ _ _ (fun _ => Free) (view k) (fun _ _ => Free) (key_inv k)
    _ _ _ _ _ _ _ Hs).
  - intros req Hreq. unfold view. specialize (Hkeeps k req Hk Hreq). by case_decide.
  - intros. by apply key_inv_arrive.
  - intros ls w i l req upd next Hinv Hl Hv. cut (exists l', move k w (upd w) l l'
        /\ view k req l' (next w)).
    { intros (l' & Hm & ?). exists l'. split; [done|]. by eapply key_inv_move. }
    unfold view in *. case_decide as Hreq.
    + destruct (Hv w) as (l' & ? & ?); [by eapply key_inv_knows|..]; [|by eexists].
      intros Hn. by apply (key_inv_free _ _ _ Hinv Hn).
    + destruct Hv as [Hap ->]. destruct (Hap w) as [Ha Hn]. exists Free.
      split; [by apply move_aside|done].
  - intros. by eapply key_inv_drop.
  - intros ls w v Hinv Hwv. by eapply key_inv_aside; [apply Hwv|].
Qed.

Lemma pool_start k w : held k w = None -> paid k w = (0, 0)%nat -> pool_ok k ([], w).
Proof.
  intros Hh Hp. exists []. split; [|constructor]. unfold key_inv. cbn [snd]. by rewrite Hh.
Qed.

Lemma pool_ok_paid k ts w :
  pool_ok k (ts, w) -> (fst (paid k w) <= 1)%nat /\ (snd (paid k w) <= 1)%nat.
Proof.
  intros (ls & H & _). unfold key_inv in H. cbn [snd] in H.
  destruct (held k w) as [[|res]|]; [by destruct H|by destruct H as [(? & ? & _) _]|].
  destruct H as [-> _]. cbn. lia.
Qed.

Lemma pool_ok_answered k ts w res :
  pool_ok k (ts, w) -> answered ts k res ->
  held k w = Some (IdemCompleted res) /\ accounts res (paid k w).
Proof.
  intros (ls & H & Hts) (i & req & Hi & Hreq). cbn [fst snd] in *.
  destruct (Forall2_lookup_l _ _ _ _ _ Hts Hi) as (l & Hl & Ht). cbn in Ht.
  unfold view in Ht. rewrite decide_True in Ht by done. cbn in Ht. subst l.
  pose proof (key_inv_knows _ _ _ _ _ H Hl) as Hh. cbn in Hh. split; [done|].
  unfold key_inv in H. rewrite Hh in H. by destruct H as [(_ & _ & ?) _].
Qed.

(** Checkouts at once charge a key once and answer with one result. *)
Lemma checkouts_charge_once k w0 w ts :
  keeps_keys start -> key_ok k -> held k w0 = None -> paid k w0 = (0, 0)%nat ->
  rtc checkouts_step ([], w0) (ts, w) ->
  (fst (paid k w) <= 1)%nat /\ (snd (paid k w) <= 1)%nat
  /\ (forall r1 r2, answered ts k r1 -> answered ts k r2 -> r1 = r2)
  /\ (forall r, answered ts k r ->
       (tr_status r = TxnCompleted -> paid k w = (1, 1)%nat)
       /\ (tr_status r <> TxnCompleted -> snd (paid k w) = 0%nat)).
Proof.
  intros Hkeeps Hk Hh Hp Hs.
  assert (pool_ok k (ts, w)) as H
    by (eapply pool_steps_ok; [exact Hkeeps|exact Hk|exact Hs|by apply pool_start]).
  destruct (pool_ok_paid _ _ _ H) as [Ha Hc]. split; [done|]. split; [done|].
  split.
  - intros r1 r2 [H1 _]%(pool_ok_answered _ _ _ _ H) [H2 _]%(pool_ok_answered _ _ _ _ H). congruence.
  - intros r [_ Hr]%(pool_ok_answered _ _ _ _ H). unfold accounts in Hr. by destruct (tr_status r).
Qed.
End pool.

(** The steps of a cart command are steps of the rest of the process. *)
Lemma command_steps_leave_keys {B : Backend} {L : BackendLaws B} env (self : RunnerConfig B)
  command cart_id n (w : World B) :
  leaves_keys w (snd (prog_steps n (dispatch_cart_command_prog env self command cart_id) w)).
Proof.
  intros k Hk. pose proof (apart_dispatch (aside k) env self command cart_id) as Hp. revert w Hp.
  generalize (dispatch_cart_command_prog env self command cart_id) as p.
  induction n as [|n IH]; intros p w Hp; [by destruct p|]. destruct p as [r|upd next]; [done|].
  cbn in *. destruct (Hp w) as [[H1 H2] Hn]. destruct (IH _ (upd w) Hn) as [H3 H4].
  split; congruence.
Qed.

(** ** Properties *)

(** C4: checkouts that run at once charge a key once, on the stores that satisfy the laws: those in
    memory and on files, the latter for keys without a separator.  (On PostgreSQL they do not,
    see [Refinement.postgres_race_charges_twice].)  However any number of checkouts, under any keys,
    arrive, interleave at their awaits and are dropped half way, and whatever the rest of the process
    does in between, as long as it leaves the keys, the authorizations and the captures to the
    checkouts (a later capture through the payment routes is outside of it): under a key that was free there is at most one authorization and at most one
    capture, all who are answered under it are answered with one and the same result, and when they
    are answered it was captured exactly if the result says so. *)
Theorem concurrent_checkouts_charge_once {B : Backend} {L : BackendLaws B} env (self : RunnerConfig B)
  k (w0 w : World B) ts :
  key_ok k -> held k w0 = None -> paid k w0 = (0, 0)%nat ->
  rtc (checkouts_step (execute_checkout_prog env self)) ([], w0) (ts, w) ->
  (fst (paid k w) <= 1)%nat /\ (snd (paid k w) <= 1)%nat
  /\ (forall r1 r2, answered ts k r1 -> answered ts k r2 -> r1 = r2)
  /\ (forall r, answered ts k r ->
       (tr_status r = TxnCompleted -> paid k w = (1, 1)%nat)
       /\ (tr_status r <> TxnCompleted -> snd (paid k w) = 0%nat)).
Proof.
  intros Hk Hh Hp Hs. eapply checkouts_charge_once; eauto using checkout_keeps_keys.
Qed.

(** The programs are the operations of the runner, taken apart: a checkout or a cart command
    whose steps nothing interrupts gives the result and leaves the state of the operation. *)
Theorem uninterrupted_programs_are_operations {B : Backend} env (self : RunnerConfig B) req command
  cart_id (w : World B) :
  prog_run (execute_checkout_prog env self req) w = execute_checkout env self req w
  /\ prog_run (dispatch_cart_command_prog env self command cart_id) w
     = dispatch_cart_command env self command cart_id w.
Proof. split; [apply runs_execute_checkout|apply runs_dispatch]. Qed.

(** The first of two commands that add an item loads the cart; the second one runs; the first one
    goes on. *)
Definition overtaken : result CartProjection RunnerError * result CartProjection RunnerError
    * World memory_backend :=
  let add n := dispatch_cart_command_prog demo_env demo_runner (AddItem (MkAddItem "sku" n))
                 (Some demo_cart) in
  let '(p, w) := prog_steps 3 (add 3%Z) filled_world in
  let '(r2, w) := prog_run (add 5%Z) w in
  let '(r1, w) := prog_run p w in
  (r1, r2, w).

(** Nothing holds two commands on one cart apart: when the second runs between the load and the
    store of the first, both are answered with success and with one version, the log holds both,
    and the line of the second is gone from the cart. *)
Theorem concurrent_commands_lose_update :
  match overtaken with
  | (Ok q1, Ok q2, w) =>
      cp_version q1 = 3%Z /\ cp_version q2 = 3%Z
      /\ map cl_quantity (cp_lines q2) = [2; 5]%Z
      /\ get_cart_snapshot demo_cart (w_events w) = Some q1
      /\ map cl_quantity (cp_lines q1) = [2; 3]%Z
  | _ => False
  end.
Proof. vm_compute. repeat split. Qed.

(** A capture is answered by the provider; a refund of the transaction runs; the capture goes on. *)
Definition refund_between : option PaymentState * list ProviderCall :=
  let req := MkPaymentLifecycleRequest "t1" "m1" "txn" 100 "k" in
  let '(p, w) := prog_steps 1 (capture_payment_prog demo_runner req) empty_world in
  let '(_, w) := prog_run (refund_payment_prog demo_runner req) w in
  let '(_, w) := prog_run p w in
  (get_payment_state "txn" w, w_trace w).

(** The state on record is that of the operation that wrote last, not of the one the provider did
    last: after a capture and a refund of one transaction the money is back and the record says
    captured. *)
Theorem late_capture_overwrites_refund :
  let req := MkPaymentLifecycleRequest "t1" "m1" "txn" 100 "k" in
  refund_between = (Some Captured, [CallCapture req; CallRefund req]).
Proof. vm_compute. reflexivity. Qed.

(** ** Witnesses *)

(** Two checkouts of one request: the first loses the processor after its claim, the second is
    refused, the first goes on to its end. *)
Definition racing : CheckoutRequest := demo_request 2 2200 "k1".
Definition racer : Prog memory_backend RunnerError TransactionResult :=
  execute_checkout_prog demo_env demo_runner racing.
Definition first_half := prog_steps 2 racer filled_world.
Definition second_run := prog_steps 40 racer (snd first_half).
Definition first_run := prog_steps 40 (fst first_half) (snd second_run).

Lemma race :
  rtc (checkouts_step (execute_checkout_prog demo_env demo_runner)) ([], filled_world)
    ([(racing, Some (fst first_run)); (racing, Some (fst second_run))], snd first_run).
Proof.
  eapply rtc_l; [by apply (pool_arrive _ _ _ [] _ racing)|].
  eapply rtc_l; [by apply (pool_arrive _ _ _ [_] _ racing)|].
  pose (start := [(racing, Some racer); (racing, Some racer)]).
  etrans; [exact (thread_runs _ _ _ 2 start 0 racing racer filled_world eq_refl)|].
  etrans; [exact (thread_runs _ _ _ 40 [(racing, Some (fst first_half)); (racing, Some racer)]
    1 racing racer (snd first_half) eq_refl)|].
  exact (thread_runs _ _ _ 40 [(racing, Some (fst first_half));
    (racing, Some (fst second_run))] 0 racing (fst first_half) (snd second_run) eq_refl).
Qed.

Lemma concurrent_checkouts_charge_once_witness :
  paid (key_of racing) (snd first_run) = (1, 1)%nat
  /\ (snd (paid (key_of racing) (snd first_run)) <= 1)%nat
  /\ outcome (fst second_run) = Some (Err AlreadyInFlight).
Proof.
  split; [vm_compute; reflexivity|]. split; [|vm_compute; reflexivity].
  refine (proj1 (proj2 (concurrent_checkouts_charge_once demo_env demo_runner (key_of racing)
    filled_world _ _ I _ _ race))); vm_compute; reflexivity.
Defined.
