(* ===== verification/Reservations.v ===== *)
(** * What a checkout does to the stock ([orchestrator-runtime/src/inventory.rs], and the
    reservations of [runner.rs])

    A reservation is filed under the cart and the item.  A checkout reserves the lines of its cart
    one after the other, and finalizes or releases what is filed under the cart. *)

From S2P Require Export RunnerCheckout.

(** The last line for an item. *)
Definition last_line (sku : string) (ls : list CartLineProjection) : option CartLineProjection :=
  last (List.filter (fun l => String.eqb (cl_item_id l) sku) ls).

Lemma last_line_snoc sku ls l :
  last_line sku (ls ++ [l])
  = if String.eqb (cl_item_id l) sku then Some l else last_line sku ls.
Proof.
  unfold last_line. rewrite List.filter_app. cbn.
  destruct (String.eqb _ _); [apply last_snoc|by rewrite app_nil_r].
Qed.

Section reservations.
Context {B : Backend} {L : BackendLaws B} (env : Env).
Implicit Types w v : World B.

(** The stock after the lines [ls] of a cart were reserved on top of [s]. *)
Definition stock_after (c : CartId) (ls : list CartLineProjection) (s s' : ReserveS) : Prop :=
  forall c' sku, rs_state c' sku s'
  = if decide (c' = c) then
      match last_line sku ls with
      | Some l => Some (cl_quantity l, Reserved)
      | None => rs_state c' sku s
      end
    else rs_state c' sku s.

Lemma stock_after_snoc now c ls l ttl s s' :
  stock_after c ls s s' ->
  stock_after c (ls ++ [l]) s (snd (reserve now c (cl_item_id l) (cl_quantity l) ttl s')).
Proof.
  intros H c' sku. rewrite reserve_state, (H c' sku), last_line_snoc.
  destruct (String.eqb_spec (cl_item_id l) sku) as [<-|Hne].
  - case_decide as H1; case_decide as H2; naive_solver.
  - rewrite decide_False by naive_solver. done.
Qed.

Lemma reserve_lines_stock req cart w :
  wp (reserve_lines env req cart) (fun r v => is_ok r = true ->
    stock_after (cr_cart_id req) (cp_lines cart) (w_res w) (w_res v)) w.
Proof.
  unfold reserve_lines.
  enough (forall todo before v, stock_after (cr_cart_id req) before (w_res w) (w_res v) ->
    wp (st_iter (fun line => t ← now env; on w_res set_res
          (reserve t (cr_cart_id req) (cl_item_id line) (cl_quantity line) reservation_ttl)) todo)
      (fun r v => is_ok r = true ->
         stock_after (cr_cart_id req) (before ++ todo) (w_res w) (w_res v)) v) as H.
  { apply (H (cp_lines cart) []). intros c' sku. by case_decide. }
  induction todo as [|l todo IH]; intros before v Hb; cbn [st_iter].
  { wp_prims. by rewrite app_nil_r. }
  wp_prims. destruct (fst _) as [[]|e]; cbn [map_err]; [|done].
  assert (before ++ l :: todo = (before ++ [l]) ++ todo) as -> by by rewrite <- app_assoc.
  apply IH. by apply stock_after_snoc.
Qed.
End reservations.

(** ** Properties *)

(** A checkout reserves, of every item in its cart, the quantity of the last line for it: the
    stock of two lines of one item is not added up.  Nothing else in the stock changes. *)
Theorem reserved_quantity_is_the_last_lines {B : Backend} {L : BackendLaws B} env req cart
  (w v : World B) r :
  reserve_lines env req cart w = (r, v) -> is_ok r = true ->
  forall c sku, rs_state c sku (w_res v)
  = if decide (c = cr_cart_id req) then
      match last_line sku (cp_lines cart) with
      | Some l => Some (cl_quantity l, Reserved)
      | None => rs_state c sku (w_res w)
      end
    else rs_state c sku (w_res w).
Proof. intros H. exact (wp_run _ _ _ _ _ (reserve_lines_stock env req cart w) H). Qed.

(** The demo cart with a second line of the same item, three of them on top of the two. *)
Definition two_lines_world : World memory_backend :=
  snd (dispatch_cart_command demo_env demo_runner (AddItem (MkAddItem "sku" 3))
         (Some demo_cart) filled_world).

Theorem two_lines_finalize_one :
  match demo_checkout 3 5500 "k1" two_lines_world with
  | (Ok res, v) =>
      tr_status res = TxnCompleted
      /\ (map cl_quantity ∘ cp_lines <$> get_cart_snapshot demo_cart (w_events v)) = Some [2; 3]%Z
      /\ rs_state demo_cart "sku" (w_res v) = Some (3%Z, Finalized)
  | _ => False
  end.
Proof. vm_compute. repeat split. Qed.

(** A checkout releases whatever is filed under its cart: when a second checkout of a cart is
    declined, the stock the first one sold is released, although its order stands. *)
Theorem declined_checkout_releases_sold_stock :
  let declining := with_authorize (fun _ _ => Ok (MkAuthResult false "no")) demo_runner in
  match demo_checkout 2 2200 "k1" filled_world with
  | (Ok r1, v1) =>
      match execute_checkout demo_env declining (demo_request 2 2200 "k2") v1 with
      | (Ok r2, v2) =>
          tr_status r1 = TxnCompleted /\ rs_state demo_cart "sku" (w_res v1) = Some (2%Z, Finalized)
          /\ tr_status r2 = TxnAuthFailed
          /\ rs_state demo_cart "sku" (w_res v2) = Some (2%Z, Released)
          /\ (or_status <$> (tr_order_id r1 ≫= fun id => order_get id (w_orders v2)))
             = Some OrderCreated
      | _ => False
      end
  | _ => False
  end.
Proof. vm_compute. repeat split. Qed.

(** ** Witness *)

Definition pair_cart : CartProjection :=
  cp_set_lines [MkCartLine "li_1" "sku" "Widget" 2 1000 2000; MkCartLine "li_2" "sku" "Widget" 3 1000 3000]
    (new_cart demo_cart (MkCreateCart "m1" "USD" None)).

Lemma reserved_quantity_is_the_last_lines_witness :
  let run := reserve_lines demo_env (demo_request 3 5500 "k1") pair_cart empty_world in
  rs_state demo_cart "sku" (w_res (snd run)) = Some (3%Z, Reserved).
Proof.
  intros run.
  refine (eq_trans (reserved_quantity_is_the_last_lines demo_env (demo_request 3 5500 "k1") pair_cart
    empty_world (snd run) (fst run) (surjective_pairing run) eq_refl demo_cart "sku") _).
  vm_compute. reflexivity.
Defined.
