(* ===== verification/FileRecovery.v ===== *)
(** * The file backend across a restart ([file_backed.rs], [Runner::new_persistent])

    What of a checkout survives when the process is started again on the same
    directory, and what the composite keys of the idempotency file confuse. *)

From S2P Require Export FileStores RunnerCheckout.
From S2P Require Import Demo.

(** ** Opening the directory again *)

Section restart.
Context {format : FileFormat} (fault : string -> nat -> option SaveFault) (uuid_display : Uuid -> string).

Abbreviation files := (file_backend fault uuid_display).

(** [open_persistent_stores] on the files a world leaves behind. *)
Definition open_event_store (s : FileBackedEventStore) : FileBackedEventStore :=
  MkFileEvents (open_file ∅ (fe_events s)) (open_file ∅ (fe_snapshots s))
    (open_file ∅ (fe_states s)).

Definition open_persistent_stores (w : World files) : World files :=
  MkWorld files (open_event_store (w_events w)) (open_file (T:=IdemTable) ∅ (w_idem w))
    (open_file ∅ (w_commit w)) (open_file (T:=ReservationTable) ∅ (w_res w))
    (open_file [] (w_outbox w)) (open_file ∅ (w_inbox w)) (open_file ∅ (w_dead w))
    (open_file (T:=OrderTable) ∅ (w_orders w)) (open_file ∅ (w_pay w))
    (open_file ∅ (w_mandates w)) (open_file ∅ (w_webhooks w)) (w_tick w) (w_trace w).
End restart.

(** ** Properties *)

Section properties.
Context {format : FileFormat} (fault : string -> nat -> option SaveFault) (uuid_display : Uuid -> string).
Context (uuid_inj : Inj eq eq uuid_display).
Context (uuid_no_bar : forall u, no_bar (uuid_display u) = true).

Abbreviation files := (file_backend fault uuid_display).

(** The table of the idempotency file. *)
Definition idem_table (w : World files) : IdemTable := fs_table (w_idem w).

Definition laws_without_bar : BackendLaws files :=
  file_laws fault uuid_display uuid_inj uuid_no_bar key_without_bar idempotency_key_str_inj.

(** A single key is kept apart from itself whatever it contains. *)
Definition laws_of_key (k0 : IdempotencyKey) : BackendLaws files :=
  file_laws fault uuid_display uuid_inj uuid_no_bar (fun k => k = k0)
    (fun k k' H H' _ => eq_trans H (eq_sym H')).

(** A key whose string is filed with a result gets that result. *)
Lemma replay_by_string (env : Env) (self : RunnerConfig files) req w res :
  checkout_request_ok req ->
  idem_table w !! idempotency_key_str (key_of req) = Some (IdemCompleted res) ->
  execute_checkout env self req w = (Ok res, w).
Proof.
  intros Hval Hl. exact (@replay_completed _ (laws_of_key (key_of req)) env self req w res
    eq_refl Hval Hl).
Qed.

(** C39: a checkout that succeeded survives a restart: if its key, which has no separator in it,
    was not on record before, then on the files opened again its retry returns the same result
    and changes nothing, provided the text of the table of keys parses back to that table.  This
    is said of the checkout that did the work: a retry that was answered from memory writes
    nothing, so when the write of the result had failed the files still say in flight. *)
Theorem restart_keeps_result (env env' : Env) (self self' : RunnerConfig files) req w res v :
  key_without_bar (key_of req) -> snapshots_ok (w_events w) ->
  idem_table w !! idempotency_key_str (key_of req) = None ->
  execute_checkout env self req w = (Ok res, v) ->
  (forall data, to_json (idem_table v) = Ok data -> from_json data = Some (idem_table v)) ->
  let v' := open_persistent_stores fault uuid_display v in
  execute_checkout env' self' req v' = (Ok res, v').
Proof.
  intros Hk Hok Hfresh Hrun Hjson v'.
  destruct (@completed_key _ laws_without_bar _ _ _ _ _ _ Hk Hok Hrun) as [Hval Hl].
  apply (@execute_checkout_outcome _ laws_without_bar) in Hrun; [|done..].
  remember (Ok res) as r eqn:Hr.
  destruct Hrun as [| |res' Hl'| | |i cart u r z Hc Hs Hp]; simplify_eq.
  { cbn in Hl'. unfold idem_table in Hfresh. congruence. }
  destruct (pp_result _ _ _ _ _ _ _ Hp) as [Hidem _].
  pose proof (pp_saved _ _ _ _ _ _ _ Hp _ eq_refl) as Hsave.
  apply replay_by_string; [done|]. unfold v', idem_table, open_persistent_stores in *.
  cbn [w_idem]. rewrite Hidem in *. cbn in Hsave, Hjson |- *. unfold file_complete in *.
  rewrite persist_table in Hjson. pose proof (open_persisted _ _ _ _ ∅ _ Hsave Hjson) as Hopen.
  etransitivity; [exact (f_equal (lookup (idempotency_key_str (key_of req))) Hopen)|].
  apply lookup_insert_eq.
Qed.

(** When the write of a checkout's claim is torn, so that the file no longer parses,
    the checkout fails with the store's error and makes no provider call, and after a
    restart no key at all is on record: every earlier checkout, the completed ones
    included, may be executed and charged again under its own key. *)
Theorem torn_write_forgets_every_key (env : Env) (self : RunnerConfig files) req w data n e :
  checkout_request_ok req ->
  idem_table w !! idempotency_key_str (key_of req) = None ->
  to_json (<[idempotency_key_str (key_of req) := InFlight]> (idem_table w)) = Ok data ->
  fault "idempotency.json" (fs_io (w_idem w)) = Some (Torn n e) ->
  @from_json IdemTable _ (String.substring 0 n data) = None ->
  exists v, execute_checkout env self req w = (Err (RunnerStore (MkStoreError e)), v)
    /\ w_trace v = w_trace w
    /\ forall k, idem_table (open_persistent_stores fault uuid_display v)
                  !! idempotency_key_str k = None.
Proof.
  intros Hval%valid_request Hfresh Hjson Hfault Hparse.
  pose proof (persist_torn (fault "idempotency.json") (T:=IdemTable) _ (@None IdempotencyState) _ _ _ _ Hjson Hfault)
    as Hclaim.
  eexists. split; [|split].
  - unfold execute_checkout. rewrite Hval. cbn [negb]. unfold mbind, ST_bind, on. cbn.
    unfold file_claim. unfold idem_table in Hfresh. rewrite Hfresh, Hclaim. cbn. reflexivity.
  - done.
  - intros k. unfold idem_table, open_persistent_stores, open_file. cbn. rewrite Hparse. done.
Qed.

(** Two tenants whose names differ in where the separator falls share their keys:
    when a checkout of tenant [t|x] succeeded, a checkout of tenant [t] for merchant
    [x|y] under the same idempotency key is answered with its result, is not paid and
    changes nothing. *)
Theorem tenants_share_results (env env' : Env) (self self' : RunnerConfig files)
    req req' w res v t x y :
  cr_tenant_id req = t +:+ (bar +:+ x) -> cr_merchant_id req = y ->
  cr_tenant_id req' = t -> cr_merchant_id req' = x +:+ (bar +:+ y) ->
  cr_idempotency_key req' = cr_idempotency_key req -> checkout_request_ok req' ->
  snapshots_ok (w_events w) ->
  execute_checkout env self req w = (Ok res, v) ->
  execute_checkout env' self' req' v = (Ok res, v).
Proof.
  intros Ht Hm Ht' Hm' Hk Hval Hok Hrun.
  destruct (@completed_key _ (laws_of_key (key_of req)) _ _ _ _ _ _ eq_refl Hok Hrun) as [_ Hl].
  apply replay_by_string; [done|].
  replace (idempotency_key_str (key_of req')) with (idempotency_key_str (key_of req));
    [exact Hl|].
  unfold idempotency_key_str, key_of. cbn. rewrite Ht, Hm, Ht', Hm', Hk.
  by rewrite !str_app_assoc.
Qed.
End properties.

(** ** Witnesses *)

Lemma pretty_no_bar u : no_bar (pretty (u : N)) = true.
Proof.
  unfold pretty, pretty_N. case_decide; [done|].
  assert (forall s, no_bar s = true -> no_bar (pretty_N_go u s) = true) as Hgo; [|by apply Hgo].
  induction (N.lt_wf_0 u) as [u _ IH]. intros s Hs.
  destruct (decide (0 < u)%N) as [Hu|Hu].
  - rewrite pretty_N_go_step by done. destruct (decide (u / 10 = 0)%N) as [->|].
    + rewrite pretty_N_go_0. cbn. rewrite Hs. unfold pretty_N_char. by repeat case_match.
    + apply IH; [apply N.div_lt; lia|lia|]. cbn. rewrite Hs.
      unfold pretty_N_char. by repeat case_match.
  - replace u with 0%N by lia. by rewrite pretty_N_go_0.
Qed.

(** A format whose table of keys parses back to [saved], and no other table does. *)
Definition unread {T} : Json T := {| to_json _ := Ok "{}"; from_json _ := None |}.

Definition demo_format (saved : IdemTable) : FileFormat := {|
  json_events := unread; json_snapshots := unread; json_states := unread;
  json_idem := {| to_json _ := Ok "{}";
                  from_json d := if String.eqb d "{}" then Some saved else None |};
  json_commits := unread; json_reservations := unread; json_outbox := unread;
  json_inbox := unread; json_dead_letter := unread; json_orders := unread;
  json_payment_state := unread; json_mandates := unread; json_webhooks := unread
|}.

Section demo.
Context (saved : IdemTable) (fault : string -> nat -> option SaveFault).

Abbreviation demo_files := (@file_backend (demo_format saved) fault (fun u => pretty u)).

Definition demo_file_laws : BackendLaws demo_files :=
  @laws_without_bar (demo_format saved) fault (fun u => pretty u) _ pretty_no_bar.

Definition new_file {T} (t : T) : FileStore T := MkFile t None 0.

Definition empty_files : World demo_files :=
  MkWorld demo_files (MkFileEvents (new_file ∅) (new_file ∅) (new_file ∅)) (new_file (∅ : IdemTable))
    (new_file ∅) (new_file (∅ : ReservationTable)) (new_file []) (new_file ∅) (new_file ∅)
    (new_file (∅ : OrderTable)) (new_file ∅) (new_file ∅) (new_file ∅) 0 [].

Definition demo_file_runner : RunnerConfig demo_files :=
  MkRunner (mock_providers (fun u => pretty u) demo_items) default_policy None.

(** The demo cart on files, and its checkout for a tenant and a merchant. *)
Definition filled_files : World demo_files :=
  snd (dispatch_cart_command demo_env demo_file_runner (AddItem (MkAddItem "sku" 2))
         (Some demo_cart)
         (snd (dispatch_cart_command demo_env demo_file_runner
                 (CreateCart (MkCreateCart "c" "USD" None)) None empty_files))).

Definition file_request (tenant merchant key : string) : CheckoutRequest :=
  MkCheckoutRequest tenant merchant demo_cart 2 "USD" None None
    (MkPaymentIntent 2200 "tok" None None None None None) key.

Definition file_checkout tenant merchant key (w : World demo_files) :=
  execute_checkout demo_env demo_file_runner (file_request tenant merchant key) w.

Lemma filled_files_ok : snapshots_ok (w_events filled_files).
Proof.
  apply (@dispatch_keeps_ok _ demo_file_laws), (@dispatch_keeps_ok _ demo_file_laws).
  intros c p [=].
Qed.
End demo.

Definition no_fault : string -> nat -> option SaveFault := fun _ _ => None.

Example file_checkout_succeeds :
  is_ok (fst (file_checkout ∅ no_fault "t1" "c" "k1" (filled_files ∅ no_fault))) = true.
Proof. vm_compute. reflexivity. Qed.

(** The keys on file once the demo checkout is over. *)
Definition paid_keys : IdemTable :=
  idem_table no_fault (fun u => pretty u)
    (snd (file_checkout ∅ no_fault "t1" "c" "k1" (filled_files ∅ no_fault))).

Lemma restart_keeps_result_witness :
  exists res v, file_checkout paid_keys no_fault "t1" "c" "k1" (filled_files paid_keys no_fault)
                = (Ok res, v)
    /\ let v' := open_persistent_stores no_fault (fun u => pretty u) v in
       file_checkout paid_keys no_fault "t1" "c" "k1" v' = (Ok res, v').
Proof.
  destruct (file_checkout paid_keys no_fault "t1" "c" "k1" (filled_files paid_keys no_fault))
    as [[res|e] v] eqn:H; [|wrong_result H].
  exists res, v. split; [reflexivity|].
  refine (@restart_keeps_result (demo_format paid_keys) no_fault (fun u => pretty u) _
    pretty_no_bar demo_env demo_env (demo_file_runner paid_keys no_fault)
    (demo_file_runner paid_keys no_fault) (file_request "t1" "c" "k1") _ res v
    (conj eq_refl eq_refl) (filled_files_ok paid_keys no_fault) _ H _).
  - vm_compute. reflexivity.
  - intros data [= <-]. change (Some paid_keys = Some (idem_table no_fault (fun u => pretty u) v)). f_equal.
    apply (f_equal (fun x => idem_table no_fault (fun u => pretty u) (snd x))) in H.
    refine (eq_trans _ H). vm_compute. reflexivity.
Defined.

Lemma tenants_share_results_witness :
  exists res v, file_checkout ∅ no_fault "a|b" "c" "k1" (filled_files ∅ no_fault) = (Ok res, v)
    /\ file_checkout ∅ no_fault "a" "b|c" "k1" v = (Ok res, v).
Proof.
  destruct (file_checkout ∅ no_fault "a|b" "c" "k1" (filled_files ∅ no_fault))
    as [[res|e] v] eqn:H; [|wrong_result H].
  exists res, v. split; [reflexivity|].
  refine (@tenants_share_results (demo_format ∅) no_fault (fun u => pretty u) _ pretty_no_bar
    demo_env demo_env (demo_file_runner ∅ no_fault) (demo_file_runner ∅ no_fault)
    (file_request "a|b" "c" "k1") (file_request "a" "b|c" "k1") _ res v "a" "b" "c"
    eq_refl eq_refl eq_refl eq_refl eq_refl _ (filled_files_ok ∅ no_fault) H).
  repeat split; cbn; try done; lia.
Defined.

(** Every write of the keys is torn after one byte. *)
Definition torn_keys : string -> nat -> option SaveFault := fun path _ =>
  if String.eqb path "idempotency.json" then Some (Torn 1 "disk full") else None.

Lemma torn_write_forgets_every_key_witness :
  exists v, file_checkout ∅ torn_keys "t1" "c" "k1" (filled_files ∅ torn_keys)
            = (Err (RunnerStore (MkStoreError "disk full")), v).
Proof.
  destruct (@torn_write_forgets_every_key (demo_format ∅) torn_keys (fun u => pretty u)
    demo_env (demo_file_runner ∅ torn_keys) (file_request "t1" "c" "k1")
    (filled_files ∅ torn_keys) "{}" 1 "disk full") as (v & H & _).
  - repeat split; cbn; try done; lia.
  - vm_compute. reflexivity.
  - reflexivity.
  - reflexivity.
  - reflexivity.
  - by exists v.
Defined.
