(* ===== verification/Refinement.v ===== *)
(** * The file and the PostgreSQL stores against the in-memory ones

    Whole sessions of commands and checkouts on the persistent backends answer what they
    answer in memory; and what a checkout does on PostgreSQL when its key is in flight. *)

From S2P Require Export PgRefine FileRecovery.
From S2P Require Import PgDemo Concurrency.

(** ** Healthy backends *)

#[export] Instance memory_healthy : Healthy memory_backend.
Proof.
  constructor; try done; intros k s; cbn; [unfold mem_claim|unfold mem_release];
    by destruct (_ !! _) as [[]|].
Qed.

(** The texts of the tables a checkout or a command writes are always produced. *)
Class WritableFormat `{FileFormat} : Prop := {
  wf_events (t : gmap string (list CartStreamEvent)) : is_ok (to_json t) = true;
  wf_snapshots (t : gmap string CartProjection) : is_ok (to_json t) = true;
  wf_states (t : gmap string CartState) : is_ok (to_json t) = true;
  wf_idem (t : IdemTable) : is_ok (to_json t) = true;
  wf_commits (t : gmap string CommitRecord) : is_ok (to_json t) = true;
  wf_reservations (t : ReservationTable) : is_ok (to_json t) = true;
  wf_outbox (t : list OutboxMessage) : is_ok (to_json t) = true;
  wf_orders (t : OrderTable) : is_ok (to_json t) = true
}.

Lemma persist_writes {T A} `{Json T} path f (a : A) (s : FileStore T) :
  is_ok (to_json (f (fs_table s))) = true -> fst (persist (no_fault path) f a s) = Ok a.
Proof.
  unfold persist, mbind, ST_bind, save. cbn. by destruct (to_json (f (fs_table s))).
Qed.

Section files.
Context {format : FileFormat} {writable : WritableFormat} (uuid_display : Uuid -> string).
Context (uuid_inj : Inj eq eq uuid_display).
Context (uuid_no_bar : forall u, no_bar (uuid_display u) = true).

Abbreviation files := (file_backend no_fault uuid_display).

Lemma on_file_result {T A} get set (op : ST (FileStore T) StoreError A) s :
  fst (on_file get set op s) = fst (op (get s)).
Proof. unfold on_file. by destruct (op _). Qed.

Lemma files_healthy : Healthy files.
Proof.
  destruct writable. constructor; intros; cbn; rewrite ?on_file_result;
    try (by apply persist_writes).
  - unfold file_claim. destruct (_ !! _); [done|]. by rewrite persist_writes.
  - unfold file_release. destruct (_ !! _) as [[]|]; [by apply persist_writes|done..].
Qed.

(** The files hold what the in-memory stores do, in every table that a command or a checkout
    writes; the leases of reservations are kept by different clocks and not compared. *)
Record files_hold (w1 : World memory_backend) (w2 : World files) : Prop := {
  fh_events c : unwrap_or (cart_events (w_events w1) !! c) []
    = unwrap_or (fs_table (fe_events (w_events w2)) !! cart_id_key uuid_display c) [];
  fh_snapshots c : cart_snapshots (w_events w1) !! c
    = fs_table (fe_snapshots (w_events w2)) !! cart_id_key uuid_display c;
  fh_states c : cart_states (w_events w1) !! c
    = fs_table (fe_states (w_events w2)) !! cart_id_key uuid_display c;
  fh_keys k : key_without_bar k ->
    idem_inner (w_idem w1) !! k = fs_table (w_idem w2) !! idempotency_key_str k;
  fh_commits c : commit_records (w_commit w1) !! c
    = fs_table (w_commit w2) !! cart_id_key uuid_display c;
  fh_stock c sku :
    mem_rs_state c sku (w_res w1)
    = (fun d => (rd_quantity d, rd_state d))
        <$> fs_table (w_res w2) !! reservation_key uuid_display c sku;
  fh_outbox : ob_inner (w_outbox w1) = fs_table (w_outbox w2);
  fh_orders id : order_records (w_orders w1) !! id = fs_table (w_orders w2) !! id;
  fh_payments txn : pay_inner (w_pay w1) !! txn = fs_table (w_pay w2) !! txn;
  fh_tick : w_tick w1 = w_tick w2;
  fh_trace : w_trace w1 = w_trace w2
}.

Definition files_commits (s1 : @CommitS memory_backend) (s2 : @CommitS files) : Prop :=
  forall c, commit_records s1 !! c = fs_table s2 !! cart_id_key uuid_display c.

Lemma files_commits_commit txn c ref (s1 : @CommitS memory_backend) (s2 : @CommitS files) :
  files_commits s1 s2 ->
  files_commits (snd (commit txn c ref s1)) (snd (commit txn c ref s2)).
Proof.
  intros Hs d. cbn. rewrite persist_table. specialize (Hs d).
  destruct (decide (d = c)) as [->|Hne]; [by rewrite !lookup_insert_eq|].
  rewrite !lookup_insert_ne; [done| |by intros ->].
  intros He. apply Hne. destruct c, d. apply uuid_inj in He. cbn in He. congruence.
Qed.

(** Memory and files, related by what can be observed of them and by their commits. *)
Definition files_sim : BackendSim memory_backend files :=
  @lawful_sim _ _ memory_laws (laws_without_bar no_fault uuid_display uuid_inj uuid_no_bar)
    memory_healthy files_healthy files_commits files_commits_commit.

Lemma files_hold_sim w1 w2 : files_hold w1 w2 <-> @world_sim _ _ files_sim w1 w2.
Proof.
  split.
  - intros [Hev Hsn Hst Hk Hc Hr Ho Hor Hp Ht Htr]. constructor.
    + intros c. split; [exact (Hsn c)|]. split; [exact (Hst c)|]. exact (Hev c).
    + intros k [_ Hk']. exact (Hk k Hk').
    + exact Hc.
    + exact Hr.
    + exact Ho.
    + exact Hor.
    + exact Hp.
    + exact Ht.
    + exact Htr.
  - intros [He Hk Hc Hr Ho Hor Hp Ht Htr]. constructor.
    1-3: intros c; destruct (He c) as (Hsn & Hst & Hev); assumption.
    + intros k Hk'. exact (Hk k (conj I Hk')).
    + exact Hc.
    + exact Hr.
    + exact Ho.
    + exact Hor.
    + exact Hp.
    + exact Ht.
    + exact Htr.
Qed.

(** Requests whose tenant and merchant hold no separator. *)
Definition without_bar (q : Request) : Prop :=
  match q with
  | Command _ _ => True
  | Checkout req => key_without_bar (key_of req)
  end.

End files.

(** ** PostgreSQL *)

Section postgres.
Context {J : Type} `{EqDecision J} {format : PgFormat J}.
Context (uuid_display : Uuid -> string) (db_now : nat -> Z).
Context (is_null : J -> bool) (contains_text : J -> string -> bool) (null : J).

Section lossless.
Context {ll : LosslessFormat J} (uuid_inj : Inj eq eq uuid_display).
Context (uuid_no_bar : forall u, no_bar (uuid_display u) = true).

Abbreviation postgres := (pg_backend db_up uuid_display db_now is_null contains_text null).
Abbreviation postgres_sim :=
  (pg_sim uuid_display uuid_inj uuid_no_bar db_now is_null contains_text null).

(** The rows hold what the in-memory stores do, in every table that a command or a checkout
    writes.  A row of a key in flight may stand for a key the in-memory stores hold as free; the
    outbox is compared id by id, and leases are not compared. *)
Record postgres_holds (w1 : World memory_backend) (w2 : World postgres) : Prop := {
  ph_events : events_held uuid_display (w_events w1) (w_events w2);
  ph_keys : keys_held (w_idem w1) (w_idem w2);
  ph_commits : commits_held uuid_display (w_commit w1) (w_commit w2);
  ph_stock : stock_held uuid_display (w_res w1) (w_res w2);
  ph_outbox : queue_held (w_outbox w1) (w_outbox w2);
  ph_orders : orders_held (w_orders w1) (w_orders w2);
  ph_payments : payments_held (w_pay w1) (w_pay w2);
  ph_tick : w_tick w1 = w_tick w2;
  ph_trace : w_trace w1 = w_trace w2
}.

Lemma postgres_holds_sim w1 w2 : postgres_holds w1 w2 <-> @world_sim _ _ postgres_sim w1 w2.
Proof. split; intros []; by constructor. Qed.

(** No checkout of the session names a tenant or merchant with a separator, nor meets a key that
    the in-memory stores hold in flight when its turn comes. *)
Fixpoint no_key_in_flight (env : Env) (self : RunnerConfig memory_backend) (qs : list Request)
    (w : World memory_backend) : Prop :=
  match qs with
  | [] => True
  | q :: qs =>
      match q with
      | Command _ _ => True
      | Checkout req => key_without_bar (key_of req)
          /\ idem_inner (w_idem w) !! key_of req <> Some InFlight
      end /\ no_key_in_flight env self qs (snd (serve env self q w))
  end.

(** C27: on PostgreSQL, as long as the database answers and the JSON conversions of the stored
    records lose nothing, a session whose checkouts name no tenant or merchant with a separator
    and meet no key that the in-memory stores hold in flight gives the same results and makes
    the same provider calls as on the in-memory stores, and the rows go on holding what the
    in-memory stores do: carts, commits, reserved quantities, messages by id, orders, payment
    states and keys.  The in-memory stores may hold as free a key whose row says in flight, so
    this is also what PostgreSQL does with the keys of checkouts that are still running or have
    crashed. *)
Theorem postgres_refines_memory (env : Env) (self1 : RunnerConfig memory_backend)
    (self2 : RunnerConfig postgres) qs w1 w2 rs v1 :
  providers self1 = providers self2 -> policy self1 = policy self2 ->
  postgres_holds w1 w2 -> no_key_in_flight env self1 qs w1 ->
  session env self1 qs w1 = (rs, v1) ->
  exists v2, session env self2 qs w2 = (rs, v2) /\ postgres_holds v1 v2.
Proof.
  intros Hp Hpol Hw%postgres_holds_sim Hqs Hrun.
  assert (@session_claims _ _ postgres_sim env self1 qs w1) as Hcl.
  { clear Hrun Hw. revert w1 Hqs. induction qs as [|q qs IH]; intros w1 Hqs; [done|].
    destruct Hqs as [Hq Hqs]. split; [by destruct q|by apply IH]. }
  destruct (@sim_session _ _ postgres_sim env self1 self2 Hp Hpol qs w1 w2 Hw Hcl) as [Hr Hs].
  rewrite Hrun in Hr, Hs. exists (snd (session env self2 qs w2)). cbn in Hr.
  split; [by rewrite Hr; apply surjective_pairing|]. by apply postgres_holds_sim.
Qed.
End lossless.

Context (fault : string -> nat -> option QueryFault).
Abbreviation postgres := (pg_backend fault uuid_display db_now is_null contains_text null).

(** The [idempotency] table, and the world without the row of a key. *)
Definition idem_rows (w : World postgres) : PgTable (gmap string J) := w_idem w.

Definition without_row (k : IdempotencyKey) (w : World postgres) : World postgres :=
  set_idem (MkPg (delete (idempotency_key_str k) (pg_rows (idem_rows w))) (pg_io (idem_rows w)) :
    @IdemS postgres) w.

(** On PostgreSQL a checkout whose key another request holds in flight is not refused:
    it runs exactly as if the key were free, whatever the database, the providers and the
    clock do afterwards. *)
Theorem postgres_runs_in_flight_key (env : Env) (self : RunnerConfig postgres) req w j :
  checkout_request_ok req -> to_value InFlight = Ok j ->
  pg_rows (idem_rows w) !! idempotency_key_str (key_of req) = Some j ->
  fault "idempotency" (pg_io (idem_rows w)) = None ->
  execute_checkout env self req w
  = execute_checkout env self req (without_row (key_of req) w).
Proof.
  intros Hval%valid_request Hj Hrow Hup. unfold execute_checkout. rewrite Hval. cbn [negb].
  assert (on w_idem set_idem (idem_claim (key_of req)) w
          = on w_idem set_idem (idem_claim (key_of req)) (without_row (key_of req) w)) as Hc.
  { destruct w as [ev idem cm rs ob ib dl od pay md tr kc fr].
    unfold idem_rows, without_row in *. cbn in *. destruct idem as [rows io]. cbn in *.
    unfold on. cbn. unfold pg_claim, to_json_value, mbind, ST_bind, st_lift. rewrite Hj. cbn.
    unfold exec, exec_at, sql_claim, sql_insert_new. cbn.
    rewrite !Hup, Hrow, lookup_delete_eq. cbn.
    rewrite lookup_insert_eq, insert_delete_eq, Hrow, insert_id by done. done. }
  unfold mbind, ST_bind. by rewrite Hc.
Qed.
End postgres.

(** ** Concrete sessions *)

(** A cart is made, filled and paid, paid again under the same key, and cancelled. *)
Definition demo_session : list Request :=
  [Command (CreateCart (MkCreateCart "m1" "USD" (Some "t1"))) None;
   Command (AddItem (MkAddItem "sku" 2)) (Some demo_cart);
   Checkout (demo_request 2 2200 "k1");
   Checkout (demo_request 2 2200 "k1");
   Command (CancelCart (MkCancelCart demo_cart)) None].


(** The tables that hold the empty in-memory stores. *)
Lemma empty_postgres_sim :
  postgres_holds (fun u => pretty u) (fun n => Z.of_nat n)
    (fun j => match j with DNull => true | _ => false end)
    (fun j t => match j with DFilter x => bool_decide (t ∈ x) | _ => false end) DNull
    empty_world empty_postgres.
Proof.
  constructor; try exact I; try reflexivity; cbn.
  - constructor; intros k _; cbn; by rewrite !lookup_empty.
  - intros k Hk. left. cbn. by rewrite !lookup_empty.
  - intros k _. cbn. by rewrite !lookup_empty.
  - constructor; [intros c sku; cbn; by rewrite !lookup_empty|].
    intros key j. cbn. by rewrite lookup_empty.
  - intros k. exact I.
  - intros k _. cbn. by rewrite !lookup_empty.
  - intros k _. cbn. by rewrite !lookup_empty.
Qed.

Lemma postgres_refines_memory_witness :
  let self B := mock_runner B (fun _ => true) in
  exists rs v1 v2,
    session demo_env (self _) demo_session empty_world = (rs, v1)
    /\ session demo_env (self demo_postgres) demo_session empty_postgres = (rs, v2)
    /\ w_trace v2 = w_trace v1.
Proof.
  intros self. destruct (session demo_env (self _) demo_session empty_world) as [rs v1] eqn:H.
  destruct (@postgres_refines_memory Doc _ doc_format (fun u => pretty u) (fun n => Z.of_nat n)
    (fun j => match j with DNull => true | _ => false end)
    (fun j t => match j with DFilter x => bool_decide (t ∈ x) | _ => false end) DNull
    doc_lossless _ pretty_no_bar demo_env (self _) (self _) demo_session empty_world
    empty_postgres rs v1) as (v2 & H2 & Hv).
  - reflexivity.
  - reflexivity.
  - exact empty_postgres_sim.
  - cbn -[serve]. repeat split; vm_compute; intros [=].
  - exact H.
  - exists rs, v1, v2. split; [reflexivity|]. split; [exact H2|].
    symmetry. exact (ph_trace _ _ _ _ _ _ _ Hv).
Defined.

(** The demo cart on PostgreSQL, and its checkout with a receipt provider that works or not. *)
Definition filled_postgres : World demo_postgres :=
  snd (session demo_env (mock_runner demo_postgres (fun _ => true)) (take 2 demo_session)
         empty_postgres).

Definition postgres_checkout (receipts : bool) (w : World demo_postgres) :=
  execute_checkout demo_env (mock_runner demo_postgres (fun _ => receipts))
    (demo_request 2 2200 "k1") w.

(** The first attempt fails after the capture and leaves its key in flight. *)
Definition wedged_postgres : World demo_postgres := snd (postgres_checkout false filled_postgres).

Lemma postgres_runs_in_flight_key_witness :
  postgres_checkout true wedged_postgres
  = postgres_checkout true
      (without_row (fun u => pretty u) (fun n => Z.of_nat n)
         (fun j => match j with DNull => true | _ => false end)
         (fun j t => match j with DFilter x => bool_decide (t ∈ x) | _ => false end) DNull
         db_up (key_of (demo_request 2 2200 "k1")) wedged_postgres).
Proof.
  apply (@postgres_runs_in_flight_key Doc _ doc_format _ _ _ _ _ _ _ _ _ _ (DIdem InFlight)).
  - repeat split; cbn; try done; lia.
  - done.
  - vm_compute. reflexivity.
  - done.
Defined.

(** On PostgreSQL the retry of a checkout that failed after its capture charges the
    customer a second time, under the same idempotency key: the receipt provider fails
    once, the client sends the request again, and two payments are captured. *)
Theorem postgres_charges_retry_twice :
  match postgres_checkout false filled_postgres with
  | (Err (RunnerReceipt _), v) =>
      match postgres_checkout true v with
      | (Ok res, v') =>
          tr_payment_state res = Captured
          /\ length (List.filter is_capture (payments v)) = 1
          /\ length (List.filter is_capture (payments v')) = 2
      | _ => False
      end
  | _ => False
  end.
Proof. vm_compute. repeat split. Qed.

(** Two replicas, or two requests on one, take the same checkout at once: the second comes in when
    the first has claimed the key, the first goes on when the second is done. *)
Definition postgres_racer : Prog demo_postgres RunnerError TransactionResult :=
  execute_checkout_prog demo_env (mock_runner demo_postgres (fun _ => true))
    (demo_request 2 2200 "k1").
Definition postgres_first := prog_steps 1 postgres_racer filled_postgres.
Definition postgres_second := prog_steps 40 postgres_racer (snd postgres_first).
Definition postgres_last := prog_steps 40 (fst postgres_first) (snd postgres_second).

(** On PostgreSQL two checkouts with one key that overlap both run: with every store and provider
    up, both are answered with a completed and captured result, under two transactions, and the
    customer is authorized and captured twice under the one key.  On the stores that satisfy the
    laws the second is refused ([Concurrency.concurrent_checkouts_charge_once]). *)
Theorem postgres_race_charges_twice :
  match outcome (fst postgres_second), outcome (fst postgres_last) with
  | Some (Ok r2), Some (Ok r1) =>
      tr_status r1 = TxnCompleted /\ tr_payment_state r1 = Captured
      /\ tr_status r2 = TxnCompleted /\ tr_payment_state r2 = Captured
      /\ String.eqb (tr_transaction_id r1) (tr_transaction_id r2) = false
      /\ paid (key_of (demo_request 2 2200 "k1")) (snd postgres_last) = (2, 2)
  | _, _ => False
  end.
Proof. vm_compute. repeat split. Qed.
