(* ===== verification/Outbox.v ===== *)
(** * Outbox processing and dead letters ([runner.rs], [outbox_processor.rs])

    One step of the outbox takes the oldest message, delivers it, and acknowledges,
    retries or dead-letters it.  The processor runs steps in batches, pausing after a
    failed delivery, and drains on shutdown.  [tokio::time::sleep] has no effect on
    the stores: the pauses are returned as a list of durations in nanoseconds. *)

From S2P Require Export RunnerCart.

Record OutboxProcessorConfig := MkOutboxConfig {
  interval : Z;
  batch_size : nat;
  max_attempts : Z;
  drain_timeout : Z;
  retry_backoff : Z;
  max_retry_backoff : Z
}.

Definition default_outbox_config : OutboxProcessorConfig :=
  MkOutboxConfig (500 * 1000000) 32 5 (10 * 1000000000) (500 * 1000000) (30 * 1000000000).

(** [Duration::MAX] in nanoseconds: [u64::MAX] seconds and 999,999,999 ns. *)
Definition duration_max : Z := u64_max * 1000000000 + 999999999.

(** [Duration::saturating_mul]. *)
Definition duration_saturating_mul (d : Z) (factor : Z) : Z := Z.min duration_max (d * factor).

(** [1u32 << attempts.saturating_sub(1).min(16)] times the base, capped. *)
Definition retry_delay (config : OutboxProcessorConfig) (attempts : Z) : Z :=
  let factor := u32_wrap (Z.shiftl 1 (Z.min (Z.max (attempts - 1) 0) 16)) in
  Z.min (duration_saturating_mul (retry_backoff config) factor) (max_retry_backoff config).

Section processor.
Context {B : Backend} (env : Env) (self : RunnerConfig B) (config : OutboxProcessorConfig).

Definition runner_outbox_len (w : World B) : nat := outbox_len (w_outbox w).
Definition dead_letter_len (w : World B) : nat := dl_len (w_dead w).

(** The loop of [process_batch]: messages handled, pauses taken, final world. *)
Fixpoint batch_loop (n : nat) (w : World B) : nat * list Z * World B :=
  match n with
  | O => (0, [], w)
  | S n =>
      if (runner_outbox_len w =? 0)%nat then (0, [], w)
      else
        match process_outbox_once_reporting self (max_attempts config) w with
        | (Ok Idle, w) => (0, [], w)
        | (Ok Delivered, w) | (Ok DeadLettered, w) =>
            let '(handled, pauses, w) := batch_loop n w in (S handled, pauses, w)
        | (Ok (Retrying attempts), w) =>
            let '(handled, pauses, w) := batch_loop n w in
            (S handled, retry_delay config attempts :: pauses, w)
        | (Err _, w) => (0, [], w)
        end
  end.

Definition process_batch (w : World B) : nat * list Z * World B :=
  batch_loop (batch_size config) w.

(** [drain]: batches until one handles nothing or the deadline passes.  The fuel
    bounds the number of batches. *)
Fixpoint drain_loop (fuel : nat) (deadline : Z) (w : World B) : nat * World B :=
  match fuel with
  | O => (0, w)
  | S fuel =>
      let t := instant_ns (clock_at env (w_tick w)) in
      let w := set_tick (S (w_tick w)) w in
      if (t <? deadline)%Z then
        let '(processed, _, w) := process_batch w in
        if (processed =? 0)%nat then (0, w)
        else let '(handled, w) := drain_loop fuel deadline w in (processed + handled, w)
      else (0, w)
  end.

Definition drain (fuel : nat) (w : World B) : nat * World B :=
  drain_loop fuel (instant_ns (clock_at env (w_tick w)) + drain_timeout config)
    (set_tick (S (w_tick w)) w).
End processor.

(** ** One step *)

(** The stores an outbox step never touches. *)
Record only_outbox {B : Backend} (w v : World B) : Prop := {
  oo_events : w_events v = w_events w;
  oo_idem : w_idem v = w_idem w;
  oo_commit : w_commit v = w_commit w;
  oo_res : w_res v = w_res w;
  oo_inbox : w_inbox v = w_inbox w;
  oo_orders : w_orders v = w_orders w;
  oo_pay : w_pay v = w_pay w;
  oo_mandates : w_mandates v = w_mandates w;
  oo_webhooks : w_webhooks v = w_webhooks w;
  oo_payments : payments v = payments w
}.

Section step.
Context {B : Backend} {L : BackendLaws B} (self : RunnerConfig B).
Implicit Types w v : World B.

Definition same_dead w v : Prop := forall i, dl_lookup i (w_dead v) = dl_lookup i (w_dead w).

(** The deliverer accepted [m] at the interaction this step used. *)
Definition accepts w (m : OutboxMessage) : bool :=
  match outbox_deliverer self with
  | Some deliver => is_ok (deliver (w_tick w) (w_webhooks w) m)
  | None => false
  end.

Definition retried (m : OutboxMessage) : OutboxMessage :=
  om_set_attempts (u32_wrap (om_attempts m + 1)) m.

(** What a step that returned [Ok] did with the head of the queue. *)
Definition step_post (max : Z) w (o : OutboxOutcome) v : Prop :=
  match ob_queue (w_outbox w) with
  | [] => o = Idle /\ ob_queue (w_outbox v) = [] /\ same_dead w v
  | m :: q =>
      if accepts w m
      then o = Delivered /\ ob_queue (w_outbox v) = q /\ same_dead w v
      else if (max <? om_attempts (retried m))%Z
      then o = DeadLettered /\ ob_queue (w_outbox v) = q
           /\ forall i, dl_lookup i (w_dead v)
              = if decide (i = om_id m) then Some (retried m) else dl_lookup i (w_dead w)
      else o = Retrying (om_attempts (retried m))
           /\ ob_queue (w_outbox v) = q ++ [retried m] /\ same_dead w v
  end.

(** The claim failed: the deliverer was not asked, and the head of the queue is gone from it. *)
Definition claim_lost w v : Prop :=
  exists m q, ob_queue (w_outbox w) = m :: q /\ ob_queue (w_outbox v) = q /\ same_dead w v
    /\ w_trace v = w_trace w.

Definition step_result (max : Z) w (r : result OutboxOutcome RunnerError) v : Prop :=
  match r with
  | Ok o => step_post max w o v
  | Err e => store_failure e /\ (claim_lost w v \/ exists o, step_post max w o v)
  end.

Lemma step_result_err max w se o v :
  step_post max w o v -> step_result max w (Err (RunnerStore se)) v.
Proof. intros H. split; [by eexists|]. right. by exists o. Qed.

Lemma delivery_failed_spec m w :
  wp (delivery_failed self m) (fun r v =>
    r = Ok (negb (accepts w m)) /\ (exists n tr, v = set_tick n (set_trace tr w))
    /\ payments v = payments w) w.
Proof.
  unfold delivery_failed, accepts. destruct (outbox_deliverer self) as [f|].
  - split; [done|]. split; [by eexists _, _|].
    unfold payments. cbn. rewrite List.filter_app. by rewrite app_nil_r.
  - split; [done|]. split; [|done]. exists (w_tick w), (w_trace w). by destruct w.
Qed.

Lemma step_post_cons max w m q :
  ob_queue (w_outbox w) = m :: q ->
  step_post max w = fun o v =>
      if accepts w m
      then o = Delivered /\ ob_queue (w_outbox v) = q /\ same_dead w v
      else if (max <? om_attempts (retried m))%Z
      then o = DeadLettered /\ ob_queue (w_outbox v) = q
           /\ forall i, dl_lookup i (w_dead v)
              = if decide (i = om_id m) then Some (retried m) else dl_lookup i (w_dead w)
      else o = Retrying (om_attempts (retried m))
           /\ ob_queue (w_outbox v) = q ++ [retried m] /\ same_dead w v.
Proof. intros Hq. unfold step_post. by rewrite Hq. Qed.

Lemma outbox_step_spec max w :
  wp (process_outbox_once_reporting self max) (fun r v =>
    only_outbox w v /\ step_result max w r v) w.
Proof.
  unfold process_outbox_once_reporting. wp_step. rewrite wp_on.
  destruct (ob_queue (w_outbox w)) as [|m q] eqn:Hq.
  { rewrite (queue_claim_nil _ Hq). cbn. split; [by constructor|].
    unfold step_result, step_post. rewrite Hq. done. }
  destruct (queue_claim_cons _ _ _ Hq) as [Hcq [->|[se ->]]]; cbn [map_err].
  2:{ split; [by constructor|]. split; [by eexists|]. left. by exists m, q. }
  pose proof (step_post_cons max w m q Hq) as Hpost.
  set (w1 := set_outbox _ w).
  wp_step. wp_use delivery_failed_spec. intros r v (-> & (n & tr & ->) & Hpay).
  change (accepts w1 m) with (accepts w m). change (payments w1) with (payments w) in Hpay.
  destruct (accepts w m); cbn [negb].
  - wp_step. rewrite wp_on. set (u := set_outbox (snd _) _).
    assert (step_post max w Delivered u) as Hu
      by (rewrite Hpost; cbn; by rewrite queue_ack).
    destruct (fst _) as [[]|se]; cbn [map_err]; wp_prims;
      (split; [by constructor|]); [done|by eapply step_result_err].
  - change (om_set_attempts (u32_wrap (om_attempts m + 1)) m) with (retried m).
    destruct (max <? _)%Z.
    + assert (forall y : OutboxS, ob_queue y = q -> step_post max w DeadLettered
        (set_outbox y (set_dead (snd (dl_put (retried m) (w_dead w)))
           (set_tick n (set_trace tr w1))))) as Hu.
      { intros y Hy. rewrite Hpost. cbn. split; [done|]. split; [done|]. intros i.
        by rewrite dl_put_lookup. }
      wp_step. rewrite wp_on. destruct (fst (dl_put _ _)) as [[]|se]; cbn [map_err]; wp_prims.
      * destruct (fst _) as [[]|se]; cbn [map_err]; wp_prims; (split; [by constructor|]);
          [|eapply step_result_err]; apply Hu; by rewrite queue_ack.
      * split; [by constructor|]. eapply step_result_err. exact (Hu _ Hcq).
    + wp_step. rewrite wp_on. set (u := set_outbox (snd _) _).
      assert (step_post max w (Retrying (om_attempts (retried m))) u) as Hu
        by (rewrite Hpost; cbn; by rewrite queue_release, Hcq).
      destruct (fst _) as [[]|se]; cbn [map_err]; wp_prims;
        (split; [by constructor|]); [done|by eapply step_result_err].
Qed.
End step.

(** ** Termination, on stores whose operations do not fail *)

Section in_memory.
Context (self : RunnerConfig memory_backend).
Implicit Types w v : World memory_backend.

Lemma mem_queue w :
  @ob_queue OutboxS _ (@OutboxS_laws memory_backend memory_laws) (w_outbox w)
  = ob_inner (w_outbox w).
Proof. done. Qed.

Lemma mem_step max w :
  exists o v, process_outbox_once_reporting self max w = (Ok o, v)
    /\ only_outbox w v /\ step_post self max w o v.
Proof.
  assert (exists o, fst (process_outbox_once_reporting self max w) = Ok o) as [o Ho].
  { unfold process_outbox_once_reporting, mbind, ST_bind, on. cbn.
    destruct (mem_dequeue (w_outbox w)) as [[[m|]|e] q] eqn:Hd; cbn; try by eexists.
    - destruct (delivery_failed self m (set_outbox (q : OutboxS (Backend:=memory_backend)) w)) as [[[]|e] v] eqn:Hf; cbn.
      + destruct (max <? _)%Z; cbn; by eexists.
      + by eexists.
      + unfold delivery_failed in Hf. by destruct (outbox_deliverer self).
    - unfold mem_dequeue in Hd. by destruct (ob_inner (w_outbox w)). }
  pose proof (outbox_step_spec self max w) as H. unfold wp in H. rewrite Ho in H.
  exists o, (snd (process_outbox_once_reporting self max w)).
  split; [|done]. rewrite <- Ho. by destruct (process_outbox_once_reporting self max w).
Qed.

(** Deliveries a message may still cost before it leaves the queue. *)
Definition budget (max : Z) (m : OutboxMessage) : nat :=
  if (max <? om_attempts m)%Z then 1 else Z.to_nat (max + 1 - om_attempts m).

Definition queue_budget (max : Z) (q : list OutboxMessage) : nat :=
  foldr Nat.add 0 (map (budget max) q).

Lemma queue_budget_app max p q :
  queue_budget max (p ++ q) = queue_budget max p + queue_budget max q.
Proof. unfold queue_budget. induction p; cbn; lia. Qed.

Lemma queue_budget_cons max m q :
  queue_budget max (m :: q) = budget max m + queue_budget max q.
Proof. done. Qed.

Definition attempts_ok (q : list OutboxMessage) : Prop :=
  Forall (fun m => 0 <= om_attempts m < u32_max)%Z q.

Lemma budget_pos max m : (0 < budget max m)%nat.
Proof. unfold budget. destruct (Z.ltb_spec max (om_attempts m)); lia. Qed.

Lemma retried_attempts m :
  (0 <= om_attempts m < u32_max)%Z -> om_attempts (retried m) = (om_attempts m + 1)%Z.
Proof.
  intros H. cbn. unfold u32_wrap. apply Z.mod_small. unfold u32_max in H. lia.
Qed.

Lemma retried_count k m :
  (0 <= k < u32_max)%Z -> retried (om_set_attempts k m) = om_set_attempts (k + 1) m.
Proof.
  intros H. unfold retried, om_set_attempts at 1. cbn. unfold u32_wrap.
  rewrite Z.mod_small by (unfold u32_max in H; lia). done.
Qed.

Lemma step_budget max w o v :
  (max < u32_max)%Z -> attempts_ok (ob_inner (w_outbox w)) ->
  ob_inner (w_outbox w) <> [] -> step_post self max w o v ->
  o <> Idle /\ attempts_ok (ob_inner (w_outbox v))
  /\ (queue_budget max (ob_inner (w_outbox v)) < queue_budget max (ob_inner (w_outbox w)))%nat.
Proof.
  intros Hmax Hok Hne. unfold step_post. rewrite (mem_queue w), <- (mem_queue v).
  destruct (ob_inner (w_outbox w)) as [|m q]; [done|].
  apply Forall_cons in Hok as [Hm Hq]. pose proof (budget_pos max m) as Hb.
  destruct (accepts self w m); [intros (-> & -> & _); split; [done|]; split; [done|];
    rewrite queue_budget_cons; lia|].
  rewrite retried_attempts by done.
  destruct (Z.ltb_spec max (om_attempts m + 1)) as [Hlt|Hle].
  - intros (-> & -> & _). split; [done|]. split; [done|].
    rewrite queue_budget_cons. lia.
  - intros (-> & -> & _). split; [done|]. split.
    + apply Forall_app. split; [done|]. apply Forall_singleton.
      rewrite retried_attempts by done. lia.
    + rewrite queue_budget_app, !queue_budget_cons.
      unfold budget. rewrite retried_attempts by done.
      destruct (Z.ltb_spec max (om_attempts m + 1)), (Z.ltb_spec max (om_attempts m)); cbn; lia.
Qed.

Lemma batch_loop_empties config n w :
  (max_attempts config < u32_max)%Z -> attempts_ok (ob_inner (w_outbox w)) ->
  (queue_budget (max_attempts config) (ob_inner (w_outbox w)) <= n)%nat ->
  ob_inner (w_outbox (snd (batch_loop self config n w))) = [].
Proof.
  intros Hmax. revert w. induction n as [|n IH]; intros w Hok Hn; cbn.
  - destruct (ob_inner (w_outbox w)) as [|m q]; [done|]. cbn in Hn.
    pose proof (budget_pos (max_attempts config) m). lia.
  - unfold runner_outbox_len. cbn.
    destruct (Nat.eqb_spec (length (ob_inner (w_outbox w))) 0) as [Hl|Hl].
    { by apply length_zero_iff_nil in Hl. }
    destruct (mem_step (max_attempts config) w) as (o & v & -> & _ & Hp).
    assert (ob_inner (w_outbox w) <> []) as Hne by (by intros E; rewrite E in Hl).
    destruct (step_budget _ _ _ _ Hmax Hok Hne Hp) as (Ho & Hok' & Hlt).
    specialize (IH v Hok' ltac:(lia)). revert IH.
    destruct o; [done|..]; by destruct (batch_loop self config n v) as [[h p] u].
Qed.
End in_memory.

(** Iterated steps. *)
Fixpoint steps_of {B : Backend} (self : RunnerConfig B) (max : Z) (n : nat) (w : World B)
  : World B :=
  match n with
  | O => w
  | S n => snd (process_outbox_once_reporting self max (steps_of self max n w))
  end.

Section replay.
Context {B : Backend} {L : BackendLaws B}.
Implicit Types w v : World B.

Lemma replay_spec id w :
  wp (replay_from_dead_letter id) (fun r v => forall b, r = Ok b ->
    only_outbox w v
    /\ (forall i, dl_lookup i (w_dead v)
          = if decide (i = id) then None else dl_lookup i (w_dead w))
    /\ match dl_lookup id (w_dead w) with
       | Some m => b = true
           /\ ob_queue (w_outbox v) = ob_queue (w_outbox w) ++ [om_set_attempts 0 m]
       | None => b = false /\ ob_queue (w_outbox v) = ob_queue (w_outbox w)
       end) w.
Proof.
  unfold replay_from_dead_letter. wp_step. rewrite wp_on.
  destruct (dl_take_result id (w_dead w)) as [->|[_ [e ->]]]; cbn [map_err]; [|done].
  destruct (dl_lookup id (w_dead w)) as [m|]; wp_prims.
  - destruct (fst _) as [[]|se]; cbn [map_err]; [wp_prims|done].
    intros b' [= <-]. split; [by constructor|]. split; [intros i; apply dl_take_lookup|].
    split; [done|]. cbn. by rewrite queue_enqueue.
  - intros b' [= <-]. split; [by constructor|]. split; [intros i; apply dl_take_lookup|]. done.
Qed.
End replay.

(** ** Properties *)

Section properties.
Context {B : Backend} {L : BackendLaws B} (self : RunnerConfig B).
Implicit Types w v : World B.


(** Replaying a dead letter moves exactly that message back to the end of the
    outbox with its attempts reset, and reports an id that is not there. *)
Theorem replay_moves_message id w b v :
  replay_from_dead_letter id w = (Ok b, v) ->
  only_outbox w v
  /\ (forall i, dl_lookup i (w_dead v) = if decide (i = id) then None else dl_lookup i (w_dead w))
  /\ match dl_lookup id (w_dead w) with
     | Some m => b = true
                 /\ ob_queue (w_outbox v) = ob_queue (w_outbox w) ++ [om_set_attempts 0 m]
     | None => b = false /\ ob_queue (w_outbox v) = ob_queue (w_outbox w)
     end.
Proof. intros H. exact (wp_run _ _ _ _ _ (replay_spec id w) H b eq_refl). Qed.
End properties.

(** The outbox always drains.  Whatever the deliverer answers, on stores that do
    not fail, a batch as large as the attempts the queued messages have left empties
    the queue: each message is delivered or dead-lettered. *)
Theorem batch_empties_outbox (self : RunnerConfig memory_backend) config w :
  (max_attempts config < u32_max)%Z -> attempts_ok (ob_inner (w_outbox w)) ->
  (queue_budget (max_attempts config) (ob_inner (w_outbox w)) <= batch_size config)%nat ->
  ob_inner (w_outbox (snd (process_batch self config w))) = [].
Proof. apply batch_loop_empties. Qed.

(** A message that cannot be delivered is tried once more than the limit says:
    after [max] failed attempts it is still queued, and only the next failure
    dead-letters it, with [max + 1] attempts on record. *)
Theorem dead_letter_after_max_plus_one (self : RunnerConfig memory_backend) max m w :
  (0 <= max < u32_max)%Z -> om_attempts m = 0%Z ->
  ob_inner (w_outbox w) = [m] -> (forall w m, accepts self w m = false) ->
  (forall k, (k <= Z.to_nat max)%nat ->
    ob_inner (w_outbox (steps_of self max k w)) = [om_set_attempts (Z.of_nat k) m])
  /\ ob_inner (w_outbox (steps_of self max (S (Z.to_nat max)) w)) = []
  /\ dl_records (w_dead (steps_of self max (S (Z.to_nat max)) w)) !! om_id m
     = Some (om_set_attempts (max + 1) m).
Proof.
  intros Hmax Hm Hq Hacc.
  assert (forall k, (k <= Z.to_nat max)%nat ->
    ob_inner (w_outbox (steps_of self max k w)) = [om_set_attempts (Z.of_nat k) m]) as Hk.
  { induction k as [|k IH]; intros Hle; [cbn [steps_of]; rewrite Hq; destruct m; cbn in *; by subst|].
    specialize (IH ltac:(lia)). cbn [steps_of].
    destruct (mem_step self max (steps_of self max k w)) as (o & v & -> & _ & Hp).
    unfold step_post in Hp. rewrite mem_queue, IH, Hacc, retried_attempts in Hp
      by (cbn; unfold u32_max in *; lia).
    cbn [om_attempts om_set_attempts] in Hp.
    destruct (Z.ltb_spec max (Z.of_nat k + 1)) as [?|?]; [lia|].
    destruct Hp as (_ & Hv & _). rewrite mem_queue in Hv. cbn [snd]. rewrite Hv.
    rewrite retried_count by lia. cbn. do 2 f_equal. lia. }
  split; [exact Hk|]. cbn [steps_of].
  destruct (mem_step self max (steps_of self max (Z.to_nat max) w)) as (o & v & -> & _ & Hp).
  unfold step_post in Hp. rewrite mem_queue, Hk, Hacc, retried_attempts in Hp
    by (cbn; unfold u32_max in *; lia).
  cbn [om_attempts om_set_attempts] in Hp. rewrite Z2Nat.id in Hp by lia.
  destruct (Z.ltb_spec max (max + 1)) as [_|?]; [|lia].
  destruct Hp as (_ & Hv & Hd). rewrite mem_queue in Hv. split; [exact Hv|].
  specialize (Hd (om_id m)). rewrite decide_True in Hd by done.
  etrans; [exact Hd|]. rewrite retried_count by lia. do 2 f_equal.
Qed.

(** The pause after a failed delivery never exceeds the configured ceiling, never
    shrinks as attempts grow, and is at least the base delay when the ceiling allows
    it. *)
Theorem retry_delay_bounds config a b :
  (0 <= retry_backoff config <= duration_max)%Z ->
  (0 <= max_retry_backoff config)%Z -> (0 <= a <= b)%Z ->
  (0 <= retry_delay config a <= max_retry_backoff config)%Z
  /\ (retry_delay config a <= retry_delay config b)%Z
  /\ (Z.min (retry_backoff config) (max_retry_backoff config) <= retry_delay config a)%Z.
Proof.
  intros Hr Hm Hab. unfold retry_delay, duration_saturating_mul.
  assert (forall x, (0 <= x)%Z ->
    u32_wrap (Z.shiftl 1 (Z.min (Z.max (x - 1) 0) 16)) = (2 ^ Z.min (Z.max (x - 1) 0) 16)%Z) as Hf.
  { intros x Hx. rewrite Z.shiftl_1_l. apply Z.mod_small.
    pose proof (Z.pow_le_mono_r 2 (Z.min (Z.max (x - 1) 0) 16) 16). lia. }
  rewrite !Hf by lia.
  pose proof (Z.pow_le_mono_r 2 (Z.min (Z.max (a - 1) 0) 16) (Z.min (Z.max (b - 1) 0) 16)) as Hmono.
  pose proof (Z.pow_pos_nonneg 2 (Z.min (Z.max (a - 1) 0) 16)) as Hpos.
  assert (0 <= duration_max)%Z by (unfold duration_max, u64_max; lia).
  set (fa := (2 ^ Z.min (Z.max (a - 1) 0) 16)%Z) in *.
  set (fb := (2 ^ Z.min (Z.max (b - 1) 0) 16)%Z) in *.
  assert (1 <= fa <= fb)%Z by lia. nia.
Qed.

(** ** Witnesses *)

Definition demo_message : OutboxMessage :=
  MkOutboxMessage "msg_1" "order.created" "ord_1" "c" 0 (Some "t1").

Definition queued_world : World memory_backend :=
  set_outbox (MkOutbox [demo_message] : OutboxS (Backend:=memory_backend)) empty_world.

(** The demo runner has no deliverer, so every delivery fails. *)
Definition buried_world : World memory_backend := steps_of demo_runner 2 3 queued_world.

Definition accepting_runner : RunnerConfig memory_backend :=
  with_outbox_deliverer (fun _ _ _ => Ok tt) demo_runner.


Lemma replay_moves_message_witness :
  exists v, replay_from_dead_letter "msg_1" buried_world = (Ok true, v)
            /\ dl_lookup "msg_1" (w_dead v) = None.
Proof.
  destruct (replay_from_dead_letter "msg_1" buried_world) as [r v] eqn:H.
  assert (r = Ok true) as ->.
  { apply (f_equal fst) in H. cbn [fst] in H. rewrite <- H. vm_compute. reflexivity. }
  exists v. split; [done|].
  destruct (replay_moves_message "msg_1" buried_world true v H) as (_ & Hd & _).
  exact (Hd "msg_1").
Defined.

Lemma batch_empties_outbox_witness :
  ob_inner (w_outbox (snd (process_batch demo_runner default_outbox_config queued_world))) = [].
Proof.
  apply batch_empties_outbox; [reflexivity| |vm_compute; lia].
  repeat constructor; vm_compute; congruence.
Defined.

Lemma dead_letter_after_max_plus_one_witness :
  dl_records (w_dead buried_world) !! "msg_1" = Some (om_set_attempts 3 demo_message).
Proof.
  refine (proj2 (proj2 (dead_letter_after_max_plus_one demo_runner 2 demo_message queued_world
    _ eq_refl eq_refl _))); [vm_compute; split; congruence|]. reflexivity.
Defined.

Lemma retry_delay_bounds_witness :
  (0 <= retry_delay default_outbox_config 3 <= max_retry_backoff default_outbox_config)%Z.
Proof.
  assert (0 <= retry_backoff default_outbox_config <= duration_max)%Z as H1
    by (cbn [retry_backoff default_outbox_config]; unfold duration_max, u64_max; lia).
  assert (0 <= max_retry_backoff default_outbox_config)%Z as H2
    by (cbn [max_retry_backoff default_outbox_config]; lia).
  exact (proj1 (retry_delay_bounds default_outbox_config 3 4 H1 H2 ltac:(lia))).
Defined.
