(* ===== verification/Circuit.v ===== *)
(** * Circuit breaker ([crates/integration-adapters/src/circuit.rs])

    A breaker is one state behind a mutex; every method locks, reads the monotonic
    clock and updates the state, so it is a function of the state and of the instant.
    Instants and durations are nanoseconds ([Instant] addition is taken as exact). *)

From S2P Require Export Prelude.

Inductive AdapterError :=
| AdHttp (msg : string)
| AdTimeout (after : Z)
| AdStatus (status : Z) (body : string)
| AdJson (msg : string)
| AdCircuitOpen (provider : string)
| AdConfig (msg : string).

Inductive CircuitState := StClosed | StOpen | StHalfOpen.

Definition as_metric (s : CircuitState) : Z :=
  match s with StClosed => 0 | StHalfOpen => 1 | StOpen => 2 end.

Record CircuitBreakerConfig := MkBreakerConfig {
  cb_enabled : bool;
  failure_threshold : Z;
  open_duration : Z;
  probe_timeout : Z
}.

Definition default_breaker_config : CircuitBreakerConfig :=
  MkBreakerConfig true 5 (30 * 1000000000) (60 * 1000000000).

Inductive Internal :=
| Closed (consecutive_failures : Z)
| Open (until : Z)
| HalfOpen (until : Z).

Definition u32_saturating_add (x y : Z) : Z := Z.min u32_max (x + y).

Section breaker.
Context (provider : string) (config : CircuitBreakerConfig).

Definition breaker_new : Internal := Closed 0.

Definition breaker_state (now : Z) (s : Internal) : CircuitState :=
  match s with
  | Closed _ => StClosed
  | HalfOpen _ => StHalfOpen
  | Open until => if (until <=? now)%Z then StHalfOpen else StOpen
  end.

Definition acquire (now : Z) (s : Internal) : result unit AdapterError * Internal :=
  if negb (cb_enabled config) then (Ok tt, s)
  else
    match s with
    | Closed _ => (Ok tt, s)
    | HalfOpen until =>
        if (until <=? now)%Z then (Ok tt, HalfOpen (now + probe_timeout config))
        else (Err (AdCircuitOpen provider), s)
    | Open until =>
        if (until <=? now)%Z then (Ok tt, HalfOpen (now + probe_timeout config))
        else (Err (AdCircuitOpen provider), s)
    end.

Definition on_success (s : Internal) : Internal :=
  if negb (cb_enabled config) then s else Closed 0.

Definition on_failure (now : Z) (s : Internal) : Internal :=
  if negb (cb_enabled config) then s
  else
    match s with
    | HalfOpen _ | Open _ => Open (now + open_duration config)
    | Closed consecutive_failures =>
        let failures := u32_saturating_add consecutive_failures 1 in
        if (failure_threshold config <=? failures)%Z then Open (now + open_duration config)
        else Closed failures
    end.
End breaker.

(** [error.is_connect() || error.is_timeout() || error.is_request()]. *)
Record TransportError := MkTransportError {
  is_connect : bool; is_timeout : bool; is_request : bool; te_msg : string }.

Definition transport_failure_counts (e : TransportError) : bool :=
  is_connect e || is_timeout e || is_request e.

Definition status_counts_as_failure (status : Z) : bool :=
  (status =? 408)%Z || (status =? 429)%Z || ((500 <=? status) && (status <=? 599))%Z.

(** ** Runs of a breaker *)

(** One call on the breaker, at an instant. *)
Inductive BreakerOp := OpAcquire | OpSuccess | OpFailure.

Definition breaker_step (p : string) (cfg : CircuitBreakerConfig) (now : Z) (op : BreakerOp)
    (s : Internal) : Internal :=
  match op with
  | OpAcquire => snd (acquire p cfg now s)
  | OpSuccess => on_success cfg s
  | OpFailure => on_failure cfg now s
  end.

(** The states a breaker can be in at an instant, after any interleaving of calls by
    any number of threads: the clock never goes back. *)
Inductive reachable (p : string) (cfg : CircuitBreakerConfig) : Z -> Internal -> Prop :=
| reach_new t : reachable p cfg t breaker_new
| reach_wait t t' s : (t <= t')%Z -> reachable p cfg t s -> reachable p cfg t' s
| reach_step t op s : reachable p cfg t s -> reachable p cfg t (breaker_step p cfg t op s).

(** When the breaker next admits a call. *)
Definition blocked_until (s : Internal) : option Z :=
  match s with Closed _ => None | Open u | HalfOpen u => Some u end.

Section lemmas.
Context (p : string) (cfg : CircuitBreakerConfig).
Local Open Scope Z_scope.

Definition breaker_inv (t : Z) (s : Internal) : Prop :=
  match s with
  | Closed k => 0 <= k <= u32_max /\ (k = 0 \/ k < failure_threshold cfg)
  | Open u => u <= t + open_duration cfg
  | HalfOpen u => u <= t + probe_timeout cfg
  end.

Lemma breaker_step_inv t op s : breaker_inv t s -> breaker_inv t (breaker_step p cfg t op s).
Proof.
  intros Hs. destruct op; cbn; unfold acquire, on_success, on_failure;
    destruct (cb_enabled cfg); cbn [negb snd]; try done.
  - destruct s as [k|u|u]; cbn in *; [done| |]; destruct (Z.leb_spec u t); cbn; lia.
  - cbn. unfold u32_max. lia.
  - destruct s as [k|u|u]; cbn in *; try lia.
    destruct (Z.leb_spec (failure_threshold cfg) (u32_saturating_add k 1)); cbn; [lia|].
    unfold u32_saturating_add, u32_max in *. lia.
Qed.

Lemma reachable_inv t s : reachable p cfg t s -> breaker_inv t s.
Proof.
  induction 1 as [t|t t' s Ht _ IH|t op s _ IH].
  - cbn. unfold u32_max. lia.
  - destruct s; cbn in *; lia.
  - by apply breaker_step_inv.
Qed.

Lemma acquire_after s t :
  (forall u, blocked_until s = Some u -> u <= t) -> fst (acquire p cfg t s) = Ok tt.
Proof.
  intros Hs. unfold acquire. destruct (cb_enabled cfg); [|done]. cbn [negb].
  destruct s as [k|u|u]; [done|..]; destruct (Z.leb_spec u t); try done;
    specialize (Hs u eq_refl); lia.
Qed.

(** Calls at their instants, one after the other. *)
Definition calls_run (calls : list (Z * BreakerOp)) (s : Internal) : Internal :=
  fold_left (fun s call => breaker_step p cfg (fst call) (snd call) s) calls s.

(** A call among them asked to be let through, and was. *)
Definition some_admitted (calls : list (Z * BreakerOp)) (s : Internal) : Prop :=
  exists before now after, calls = before ++ (now, OpAcquire) :: after
    /\ fst (acquire p cfg now (calls_run before s)) = Ok tt.

(** Without a failure nothing is blocked longer than it was, until a call is admitted. *)
Lemma blocked_no_longer bound calls s :
  Forall (fun call => snd call <> OpFailure) calls ->
  (forall u, blocked_until s = Some u -> u <= bound) ->
  some_admitted calls s \/ forall u, blocked_until (calls_run calls s) = Some u -> u <= bound.
Proof.
  intros Hf. revert s. induction Hf as [|[now op] calls Hop _ IH]; intros s Hs; [by right|].
  assert (forall s', breaker_step p cfg now op s = s' ->
    some_admitted calls s' -> some_admitted ((now, op) :: calls) s) as Hlater.
  { intros s' <- (before & n & after & -> & Ha). exists ((now, op) :: before), n, after. done. }
  destruct op; [| |done].
  - destruct (acquire p cfg now s) as [[[]|e] s'] eqn:Ha.
    { left. exists [], now, calls. split; [done|]. cbn. by rewrite Ha. }
    assert (s' = s) as ->.
    { revert Ha. unfold acquire. destruct (negb _); [done|].
      destruct s; [done|..]; destruct (_ <=? _); congruence. }
    assert (breaker_step p cfg now OpAcquire s = s) as He by (cbn; by rewrite Ha).
    destruct (IH s Hs) as [H|H]; [left; by eapply Hlater|right].
    cbn [calls_run fold_left fst snd]. by rewrite He.
  - destruct (IH (on_success cfg s)) as [H|H]; [|left; by eapply Hlater|by right].
    unfold on_success. by destruct (negb _).
Qed.
End lemmas.

(** ** Properties *)

(** C40: the breaker cannot wedge.  However calls of any number of threads were interleaved up to
    [t], and whether or not their outcomes were ever reported: of the calls that ask to be let
    through from then on one is admitted, at the latest the one that asks one open window or one
    probe window later, as long as no failure is reported in between.  Calls that are refused and
    successes that are reported in between do not push the moment back; a failure does, by a whole
    window, also when it is that of a call from before the circuit opened. *)
Theorem breaker_never_wedges p cfg t s calls t' :
  reachable p cfg t s -> Forall (fun call => snd call <> OpFailure) calls ->
  (t + Z.max (open_duration cfg) (probe_timeout cfg) <= t')%Z ->
  some_admitted p cfg (calls ++ [(t', OpAcquire)]) s.
Proof.
  intros Hr Hf Ht.
  destruct (blocked_no_longer p cfg t' calls s Hf) as [(before & n & after & -> & Ha)|Hb].
  - intros u Hu. apply reachable_inv in Hr. destruct s; simplify_eq/=; lia.
  - exists before, n, (after ++ [(t', OpAcquire)]). split; [by rewrite <- app_assoc|done].
  - exists calls, t', []. split; [done|]. by apply acquire_after.
Qed.

(** A failure reported late pushes the moment back: refused at 1, with stragglers failing at 29
    and at 58, a call is still refused at 87, more than an open window after the first refusal. *)
Theorem stragglers_keep_the_circuit_open :
  let cfg := MkBreakerConfig true 1 30 1 in
  let s := calls_run "tax" cfg [(0, OpFailure); (1, OpAcquire); (29, OpFailure); (58, OpFailure)]%Z
             breaker_new in
  fst (acquire "tax" cfg 1 (on_failure cfg 0 breaker_new)) = Err (AdCircuitOpen "tax")
  /\ fst (acquire "tax" cfg 87 s) = Err (AdCircuitOpen "tax").
Proof. done. Qed.

(** A closed circuit admits every call and counts consecutive failures; it opens
    with the failure that reaches the threshold and not before, and one success
    starts the count again. *)
Theorem breaker_opens_at_threshold p cfg k :
  cb_enabled cfg = true -> (1 <= failure_threshold cfg <= u32_max)%Z ->
  (0 <= k)%Z ->
  let s := Nat.iter (Z.to_nat k) (on_failure cfg 0%Z) breaker_new in
  ((k < failure_threshold cfg)%Z ->
     s = Closed k /\ (forall now, acquire p cfg now s = (Ok tt, s)) /\ on_success cfg s = Closed 0)
  /\ (k = failure_threshold cfg -> s = Open (open_duration cfg)).
Proof.
  intros He Ht Hk. cbv zeta.
  assert (forall n, (Z.of_nat n < failure_threshold cfg)%Z ->
    Nat.iter n (on_failure cfg 0%Z) breaker_new = Closed (Z.of_nat n)) as Hn.
  { induction n as [|n IH]; intros Hn; [done|]. cbn [Nat.iter nat_rect].
    change (nat_rect _ _ _ n) with (Nat.iter n (on_failure cfg 0%Z) breaker_new).
    rewrite IH by lia. unfold on_failure. rewrite He. cbn [negb].
    unfold u32_saturating_add. rewrite Z.min_r by lia.
    destruct (Z.leb_spec (failure_threshold cfg) (Z.of_nat n + 1)); [lia|]. f_equal. lia. }
  split.
  - intros Hlt. rewrite Hn, Z2Nat.id by lia. split; [done|].
    unfold acquire, on_success. by rewrite He.
  - intros ->. replace (Z.to_nat (failure_threshold cfg))
      with (S (Z.to_nat (failure_threshold cfg - 1))) by lia.
    cbn [Nat.iter nat_rect].
    change (nat_rect _ _ _ ?n) with (Nat.iter n (on_failure cfg 0%Z) breaker_new).
    rewrite Hn, Z2Nat.id by lia. unfold on_failure. rewrite He. cbn [negb].
    unfold u32_saturating_add. rewrite Z.min_r by lia.
    destruct (Z.leb_spec (failure_threshold cfg) (failure_threshold cfg - 1 + 1)); [done|lia].
Qed.

(** When an open window has elapsed exactly one probe goes through: the call that
    is admitted makes every other call until the probe window ends fail, unless the
    probe settles; a failed probe opens the circuit for a full window and a
    successful one closes it. *)
Theorem breaker_admits_one_probe p cfg u t s' t' :
  cb_enabled cfg = true -> (u <= t)%Z ->
  acquire p cfg t (Open u) = (Ok tt, s') ->
  (t <= t' < t + probe_timeout cfg)%Z ->
  acquire p cfg t' s' = (Err (AdCircuitOpen p), s')
  /\ on_failure cfg t' s' = Open (t' + open_duration cfg)
  /\ on_success cfg s' = Closed 0.
Proof.
  intros He Hu Ha Ht. unfold acquire, on_failure, on_success in *. rewrite He in *. cbn [negb] in *.
  destruct (Z.leb_spec u t); [|lia]. injection Ha as <-.
  destruct (Z.leb_spec (t + probe_timeout cfg) t'); [lia|done].
Qed.

(** ** Witnesses *)

(** Open after a failure at 0; refused at 1; admitted a minute later. *)
Lemma breaker_never_wedges_witness :
  some_admitted "tax" default_breaker_config
    [(1, OpAcquire); (60000000000, OpAcquire)]%Z
    (breaker_step "tax" default_breaker_config 0 OpFailure breaker_new).
Proof.
  apply (breaker_never_wedges "tax" default_breaker_config 0%Z _ [(1, OpAcquire)]%Z 60000000000).
  - apply reach_step, reach_new.
  - repeat constructor. discriminate.
  - cbn. lia.
Defined.

Lemma breaker_opens_at_threshold_witness :
  Nat.iter 5 (on_failure default_breaker_config 0%Z) breaker_new = Open (30 * 1000000000).
Proof.
  refine (proj2 (breaker_opens_at_threshold "tax" default_breaker_config 5 eq_refl _ _) eq_refl);
    cbn; unfold u32_max; lia.
Defined.

Lemma breaker_admits_one_probe_witness :
  acquire "tax" default_breaker_config 11 (HalfOpen (10 + 60 * 1000000000))
  = (Err (AdCircuitOpen "tax"), HalfOpen (10 + 60 * 1000000000)).
Proof.
  refine (proj1 (breaker_admits_one_probe "tax" default_breaker_config 5 10 _ 11 eq_refl _ eq_refl _));
    cbn; lia.
Defined.
