(* ===== verification/HttpClient.v ===== *)
(** * Outbound HTTP client and payment adapter ([crates/integration-adapters/src]:
    [client.rs], [auth.rs], [payment.rs], the error conversions of [error.rs])

    The retry loop around one logical request: breaker, credentials, send, retry
    decision and pause.  What travels on the wire is outside the crate: the answer to
    a request is a parameter, as are JSON, form and base64 encodings.  [h_sent] is a
    ghost record of the requests sent and their outcomes; no program reads it. *)

From Stdlib Require Import Ascii.
From S2P Require Export Circuit Providers.

(** ** Requests and answers *)

Record HttpRequest := MkHttpRequest {
  rq_method : string;
  rq_url : string;
  rq_headers : list (string * string);
  rq_body : option string
}.

(** [RequestBuilder::header]. *)
Definition header (name value : string) (r : HttpRequest) : HttpRequest :=
  MkHttpRequest (rq_method r) (rq_url r) (rq_headers r ++ [(name, value)]) (rq_body r).

Definition bearer_auth (token : string) : HttpRequest -> HttpRequest :=
  header "Authorization" ("Bearer " +:+ token).

Record Response := MkResponse {
  rs_status : Z;
  rs_retry_after : option string;
  rs_body : option string   (** [None] when the body cannot be read *)
}.

Inductive SendOutcome :=
| GotResponse (r : Response)
| SendFailed (e : TransportError).

(** [StatusCode::is_success]. *)
Definition status_is_success (status : Z) : bool := ((200 <=? status) && (status <=? 299))%Z.

Definition status_is_retryable (status : Z) : bool :=
  existsb (Z.eqb status) [408; 425; 429; 500; 502; 503; 504]%Z.

(** ** Parsing of [Retry-After] *)

Definition digit_value (a : ascii) : option Z :=
  let n := Z.of_nat (nat_of_ascii a) in
  if ((48 <=? n) && (n <=? 57))%Z then Some (n - 48)%Z else None.

Fixpoint parse_digits (s : string) (acc : Z) : option Z :=
  match s with
  | EmptyString => Some acc
  | String a s' =>
      match digit_value a with
      | Some d => let v := (acc * 10 + d)%Z in
                  if (u64_max <? v)%Z then None else parse_digits s' v
      | None => None
      end
  end.

(** [str::parse::<u64>]: an optional plus sign and at least one digit. *)
Definition parse_u64 (s : string) : option Z :=
  let digits := match s with
                | String a s' => if Ascii.eqb a "+"%char then s' else s
                | EmptyString => s
                end in
  if str_is_empty digits then None else parse_digits digits 0.

(** Durations are milliseconds in this file. *)
Definition MAX_RETRY_AFTER : Z := 30 * 1000.

Definition retry_after_delay (r : Response) : option Z :=
  match rs_retry_after r with
  | None => None
  | Some raw =>
      match parse_u64 (str_trim raw) with
      | None => None
      | Some seconds => Some (Z.min (seconds * 1000) MAX_RETRY_AFTER)
      end
  end.

(** ** Credentials *)

Inductive OAuth2ClientAuth := Basic | RequestBody.

Definition parse_client_auth (value : string) : result OAuth2ClientAuth string :=
  let v := to_ascii_lowercase (str_trim value) in
  if String.eqb v "basic" then Ok Basic
  else if String.eqb v "body" || String.eqb v "request_body" || String.eqb v "post"
  then Ok RequestBody
  else Err ("unsupported oauth client auth '" +:+ v +:+ "' (expected basic or body)").

Record OAuth2ClientCredentials := MkOAuth2 {
  oa_token_url : string;
  oa_client_id : string;
  oa_client_secret : string;
  oa_scope : option string;
  oa_client_auth : OAuth2ClientAuth
}.

Record CachedToken := MkCachedToken {
  ct_access_token : string; ct_expires_at : option Z (** nanoseconds *) }.

Definition TOKEN_EXPIRY_SKEW : Z := 60 * 1000000000.

Definition is_usable (now : Z) (t : CachedToken) : bool :=
  match ct_expires_at t with
  | None => true
  | Some at_ => (now + TOKEN_EXPIRY_SKEW <? at_)%Z
  end.

Inductive OutboundAuth :=
| AuthNone
| Bearer (token : string)
| ApiKey (name value : string)
| OAuth2 (credentials : OAuth2ClientCredentials).

(** [TlsConfig]: PEM text. *)
Record TlsConfig := MkTls { client_identity_pem : option string; ca_bundle_pem : option string }.

Record ClientConfig := MkClientConfig {
  cc_connect_timeout : Z;
  cc_timeout : Z;
  max_retries : Z;
  retry_backoff_ms : Z;
  cc_auth : OutboundAuth;
  cc_tls : TlsConfig;
  circuit_breaker : option (string * CircuitBreakerConfig)
}.

Record RequestOptions := MkRequestOptions {
  correlation_id : option string;
  idempotency_key : option string;
  extra_headers : list (string * string)
}.

Definition no_options : RequestOptions := MkRequestOptions None None [].

(** The breaker and the token cache that clones of an adapter share, and the ghost
    records: requests sent with their outcomes, and pauses taken. *)
Record HttpState := MkHttpState {
  h_breaker : Internal;
  h_token : option CachedToken;
  h_tick : nat;
  h_sent : list (HttpRequest * SendOutcome);
  h_pauses : list Z
}.

(** What the client draws from outside: the network, the clocks and the codecs. *)
Record Net := MkNet {
  net_send : nat -> HttpRequest -> SendOutcome;
  net_now : nat -> Z;
  net_nanos : nat -> Z;   (** [subsec_nanos] of the wall clock *)
  form_encode : list (string * string) -> string;
  base64 : string -> string;
  parse_token : string -> result (string * option Z) string;
  ambient_correlation : option string   (** [current_correlation_id()] *)
}.

Inductive RetryPolicy := Idempotent | NonIdempotent.

Definition allows_status_retry (p : RetryPolicy) (status : Z) : bool :=
  match p with Idempotent => status_is_retryable status | NonIdempotent => false end.

Definition allows_transport_retry (p : RetryPolicy) (e : TransportError) : bool :=
  match p with Idempotent => true | NonIdempotent => is_connect e end.

(** [u64::saturating_mul] and [2u64.saturating_pow]. *)
Definition u64_saturating_mul (x y : Z) : Z := Z.min u64_max (x * y).
Definition u64_saturating_pow2 (n : Z) : Z := Z.min u64_max (2 ^ n).

Definition backoff_delay (config : ClientConfig) (nanos : Z) (attempt : Z) : Z :=
  let base := u64_saturating_mul (retry_backoff_ms config) (u64_saturating_pow2 attempt) in
  let half := (base / 2)%Z in
  let jitter := if (half =? 0)%Z then 0%Z else (nanos mod (half + 1))%Z in
  (half + jitter)%Z.

Section client.
Context (net : Net) (config : ClientConfig).

Definition H (A : Type) : Type := ST HttpState AdapterError A.

Definition h_now : H Z := fun s =>
  (Ok (net_now net (h_tick s)),
   MkHttpState (h_breaker s) (h_token s) (S (h_tick s)) (h_sent s) (h_pauses s)).

Definition set_token (t : CachedToken) : H unit := fun s =>
  (Ok tt, MkHttpState (h_breaker s) (Some t) (h_tick s) (h_sent s) (h_pauses s)).

(** A token request; it is not part of [h_sent]. *)
Definition send_token (r : HttpRequest) : H SendOutcome := fun s =>
  (Ok (net_send net (h_tick s) r),
   MkHttpState (h_breaker s) (h_token s) (S (h_tick s)) (h_sent s) (h_pauses s)).

Definition send (r : HttpRequest) : H SendOutcome := fun s =>
  let o := net_send net (h_tick s) r in
  (Ok o, MkHttpState (h_breaker s) (h_token s) (S (h_tick s)) (h_sent s ++ [(r, o)])
           (h_pauses s)).

(** [tokio::time::sleep(retry_after.unwrap_or_else(|| backoff_delay(..)))]. *)
Definition pause (retry_after : option Z) (attempt : Z) : H unit := fun s =>
  let d := match retry_after with
           | Some d => d
           | None => backoff_delay config (net_nanos net (h_tick s)) attempt
           end in
  (Ok tt, MkHttpState (h_breaker s) (h_token s) (S (h_tick s)) (h_sent s) (h_pauses s ++ [d])).

Definition on_breaker (f : string -> CircuitBreakerConfig -> Z -> Internal
                           -> result unit AdapterError * Internal) : H unit :=
  match circuit_breaker config with
  | None => mret tt
  | Some (provider, cfg) => fun s =>
      let '(r, b) := f provider cfg (net_now net (h_tick s)) (h_breaker s) in
      (r, MkHttpState b (h_token s) (S (h_tick s)) (h_sent s) (h_pauses s))
  end.

Definition breaker_acquire : H unit := on_breaker acquire.
Definition breaker_success : H unit :=
  on_breaker (fun _ cfg _ b => (Ok tt, on_success cfg b)).
Definition breaker_failure : H unit :=
  on_breaker (fun _ cfg now b => (Ok tt, on_failure cfg now b)).

(** [OAuth2TokenSource::mint]. *)
Definition mint (c : OAuth2ClientCredentials) : H CachedToken :=
  let form := [("grant_type", "client_credentials")]
              ++ match oa_scope c with Some s => [("scope", s)] | None => [] end
              ++ match oa_client_auth c with
                 | RequestBody => [("client_id", oa_client_id c);
                                   ("client_secret", oa_client_secret c)]
                 | Basic => []
                 end in
  let request := MkHttpRequest "POST" (oa_token_url c)
                   [("Content-Type", "application/x-www-form-urlencoded")]
                   (Some (form_encode net form)) in
  let request := match oa_client_auth c with
                 | Basic => header "Authorization"
                     ("Basic " +:+ base64 net (oa_client_id c +:+ ":" +:+ oa_client_secret c))
                     request
                 | RequestBody => request
                 end in
  outcome ← send_token request;
  match outcome with
  | SendFailed e => st_fail (AdConfig
      ("oauth token request to " +:+ oa_token_url c +:+ " failed: " +:+ te_msg e))
  | GotResponse r =>
      if negb (status_is_success (rs_status r)) then st_fail (AdConfig
        ("oauth token endpoint " +:+ oa_token_url c +:+ " returned status "
         +:+ pretty (rs_status r)))
      else
        match match rs_body r with
              | Some b => parse_token net b
              | None => Err "body"
              end with
        | Err e => st_fail (AdConfig ("oauth token response was not valid JSON: " +:+ e))
        | Ok (token, expires_in) =>
            if str_is_empty token then st_fail (AdConfig
              "oauth token response contained an empty access_token")
            else
              now ← h_now;
              mret (MkCachedToken token
                      ((fun secs => now + secs * 1000000000)%Z <$> expires_in))
        end
  end.

(** [access_token]: the lock is free between the two looks at the cache only for
    other tasks; one task sees the same token twice. *)
Definition access_token (c : OAuth2ClientCredentials) : H string :=
  now ← h_now;
  cached ← st_gets h_token;
  match cached with
  | Some t => if is_usable now t then mret (ct_access_token t)
              else minted ← mint c; _ ← set_token minted; mret (ct_access_token minted)
  | None => minted ← mint c; _ ← set_token minted; mret (ct_access_token minted)
  end.

(** [OutboundAuth::apply]. *)
Definition apply_auth (request : HttpRequest) : H HttpRequest :=
  match cc_auth config with
  | AuthNone => mret request
  | Bearer token => mret (bearer_auth token request)
  | ApiKey name value => mret (header name value request)
  | OAuth2 c => token ← access_token c; mret (bearer_auth token request)
  end.

(** The request of every attempt, before the credentials. *)
Definition attempt_request (options : RequestOptions) (base : HttpRequest) : HttpRequest :=
  let r := base in
  let cid := match correlation_id options with
             | Some cid => Some cid | None => ambient_correlation net end in
  let r := match cid with
           | Some cid => header "X-Correlation-ID" cid r | None => r end in
  let r := match idempotency_key options with
           | Some key => header "Idempotency-Key" key r | None => r end in
  foldl (fun r h => header h.1 h.2 r) r (extra_headers options).

(** What one answer means: return it, give up, or try again. *)
Inductive Verdict :=
| Return (r : Response)
| Stop (e : AdapterError)
| Again (e : AdapterError) (retry_after : option Z).

Definition judge (policy : RetryPolicy) (outcome : SendOutcome) : H Verdict :=
  match outcome with
  | GotResponse response =>
      let status := rs_status response in
      _ ← (if status_is_success status || negb (status_counts_as_failure status)
           then breaker_success else breaker_failure);
      if status_is_success status then mret (Return response)
      else
        let e := AdStatus status (unwrap_or (rs_body response) "") in
        mret (if allows_status_retry policy status
              then Again e (retry_after_delay response) else Stop e)
  | SendFailed err =>
      _ ← (if transport_failure_counts err then breaker_failure else mret tt);
      let e := if is_timeout err then AdTimeout (cc_timeout config) else AdHttp (te_msg err) in
      mret (if allows_transport_retry policy err then Again e None else Stop e)
  end.

(** [for attempt in 0..=config.max_retries]: [remaining] is the number of attempts after
    this one. *)
Fixpoint attempt_loop (policy : RetryPolicy) (request : HttpRequest) (attempt : Z) (remaining : nat)
  : H Response :=
  _ ← breaker_acquire;
  authed ← st_catch (apply_auth request) mret
             (fun e => _ ← breaker_failure; st_fail e);
  outcome ← send authed;
  verdict ← judge policy outcome;
  match verdict with
  | Return r => mret r
  | Stop e => st_fail e
  | Again e retry_after =>
      match remaining with
      | O => st_fail e
      | S remaining =>
          _ ← pause retry_after attempt;
          attempt_loop policy request (attempt + 1) remaining
      end
  end.

Definition execute_with_retry (policy : RetryPolicy) (options : RequestOptions)
    (base : HttpRequest) : H Response :=
  attempt_loop policy (attempt_request options base) 0 (Z.to_nat (max_retries config)).

Definition get_with_retry (url : string) (cid : option string) : H Response :=
  execute_with_retry Idempotent (MkRequestOptions cid None [])
    (MkHttpRequest "GET" url [] None).

(** [body] is the JSON text of the payload. *)
Definition post_json (url body : string) (options : RequestOptions) : H Response :=
  let policy := if is_some (idempotency_key options) then Idempotent else NonIdempotent in
  execute_with_retry policy options
    (MkHttpRequest "POST" url [("Content-Type", "application/json")] (Some body)).

Definition post_json_with_retry (url body : string) (cid : option string) : H Response :=
  post_json url body (MkRequestOptions cid None []).

Definition post_json_with_retry_with_headers (url body : string) (cid : option string)
    (headers : list (string * string)) : H Response :=
  post_json url body (MkRequestOptions cid None headers).
End client.

(** ** The retry loop *)

Section loop.
Context (net : Net) (config : ClientConfig).
Implicit Types s t : HttpState.

(** Nothing was sent. *)
Definition unsent s t : Prop := h_sent t = h_sent s /\ h_pauses t = h_pauses s.

Lemma on_breaker_unsent f s : wp (on_breaker net config f) (fun _ t => unsent s t) s.
Proof.
  unfold on_breaker. destruct (circuit_breaker config) as [[p cfg]|]; [|done].
  unfold wp. destruct (f p cfg _ _) as [r b]. done.
Qed.

Lemma mint_unsent c s : wp (mint net c) (fun _ t => unsent s t) s.
Proof.
  unfold mint. wp_step. unfold send_token, wp at 1. cbn [fst snd].
  destruct (net_send _ _ _) as [r|e]; [|done].
  destruct (status_is_success _); cbn [negb]; [|done].
  destruct (match rs_body r with Some _ => _ | None => _ end) as [[token ex]|e]; [|done].
  by destruct (str_is_empty token).
Qed.

Lemma access_token_unsent c s : wp (access_token net c) (fun _ t => unsent s t) s.
Proof.
  unfold access_token. wp_step. unfold h_now, wp at 1. cbn [fst snd].
  set (s1 := MkHttpState _ _ _ _ _).
  assert (wp (minted ← mint net c; _ ← set_token minted; mret (ct_access_token minted))
    (fun _ t => unsent s t) s1) as Hm.
  { wp_step. eapply wp_mono; [apply mint_unsent|]. by intros [m|e] t Ht. }
  wp_steps. destruct (h_token s1) as [t|]; [|exact Hm]. by destruct (is_usable _ t).
Qed.

Lemma apply_auth_unsent r s : wp (apply_auth net config r) (fun _ t => unsent s t) s.
Proof.
  unfold apply_auth. destruct (cc_auth config); try done.
  wp_step. eapply wp_mono; [apply access_token_unsent|]. by intros [x|e] t Ht.
Qed.

(** Headers are only ever appended to a request. *)
Definition extends (r q : HttpRequest) : Prop :=
  rq_method q = rq_method r /\ rq_url q = rq_url r /\ rq_body q = rq_body r
  /\ exists hs, rq_headers q = rq_headers r ++ hs.

Lemma extends_refl r : extends r r.
Proof. repeat split. exists []. by rewrite app_nil_r. Qed.

Lemma extends_header n v r q : extends r q -> extends r (header n v q).
Proof.
  intros (? & ? & ? & hs & Hh). repeat split; try done.
  exists (hs ++ [(n, v)]). cbn. by rewrite Hh, app_assoc.
Qed.

Lemma apply_auth_extends r s :
  wp (apply_auth net config r) (fun x t => match x with Ok q => extends r q | Err _ => True end) s.
Proof.
  unfold apply_auth, bearer_auth. pose proof (extends_refl r).
  destruct (cc_auth config); try by (unfold wp; cbn; auto using extends_header).
  wp_step. unfold wp. destruct (access_token _ _ _) as [[x|e] t]; cbn; [|done].
  auto using extends_header.
Qed.

(** What the retry policy lets happen after an attempt. *)
Definition may_repeat (policy : RetryPolicy) (o : SendOutcome) : bool :=
  match o with
  | GotResponse r => negb (status_is_success (rs_status r))
                     && allows_status_retry policy (rs_status r)
  | SendFailed e => allows_transport_retry policy e
  end.

Definition delivered (o : SendOutcome) : bool :=
  match o with GotResponse r => status_is_success (rs_status r) | SendFailed _ => false end.

Lemma judge_spec policy o s :
  wp (judge net config policy o) (fun x t => unsent s t
    /\ match x with
       | Ok (Return r) => o = GotResponse r /\ delivered o = true
       | Ok (Stop _) => may_repeat policy o = false /\ delivered o = false
       | Ok (Again _ _) => may_repeat policy o = true /\ delivered o = false
       | Err _ => False
       end) s.
Proof.
  assert (forall f, (forall p c n b, fst (f p c n b) = Ok tt) ->
    wp (on_breaker net config f) (fun x t => x = Ok tt /\ unsent s t) s) as Hb.
  { intros f Hf. unfold on_breaker. destruct (circuit_breaker config) as [[p cfg]|]; [|done].
    unfold wp. specialize (Hf p cfg (net_now net (h_tick s)) (h_breaker s)).
    destruct (f p cfg _ _) as [r b]. done. }
  unfold judge. destruct o as [r|e]; wp_step; cbn [delivered may_repeat].
  - eapply wp_mono with (P := fun x t => x = Ok tt /\ unsent s t).
    { by destruct (_ || _); apply Hb. }
    intros x t [-> Ht]. destruct (status_is_success (rs_status r)); wp_steps; [done|].
    by destruct (allows_status_retry _ _).
  - eapply wp_mono with (P := fun x t => x = Ok tt /\ unsent s t).
    { by destruct (transport_failure_counts _); [apply Hb|]. }
    intros x t [-> Ht]. wp_steps. by destruct (allows_transport_retry _ _).
Qed.

(** The requests of one logical call: every one but the last may be repeated under
    the policy, all carry what the first attempt carried. *)
Definition attempts_ok (policy : RetryPolicy) (request : HttpRequest) (remaining : nat)
    (reqs : list (HttpRequest * SendOutcome)) : Prop :=
  length reqs <= S remaining
  /\ Forall (fun x => extends request x.1) reqs
  /\ forall before x after, reqs = before ++ x :: after -> after <> [] ->
       may_repeat policy x.2 = true /\ delivered x.2 = false.

Definition loop_post policy request remaining s
    (r : result Response AdapterError) t : Prop :=
  exists reqs, h_sent t = h_sent s ++ reqs /\ attempts_ok policy request remaining reqs
    /\ match r with
       | Ok resp => exists before q, reqs = before ++ [(q, GotResponse resp)]
                                     /\ status_is_success (rs_status resp) = true
       | Err _ => Forall (fun x => delivered x.2 = false) reqs
       end.

Lemma loop_nothing policy request remaining s e t :
  unsent s t -> loop_post policy request remaining s (Err e) t.
Proof.
  intros [Ht _]. exists []. rewrite app_nil_r. split; [done|]. split; [|done].
  split; [cbn; lia|]. split; [done|]. by intros [].
Qed.

Lemma attempts_ok_single policy request remaining q o :
  extends request q -> attempts_ok policy request remaining [(q, o)].
Proof.
  intros Hq. split; [cbn; lia|]. split; [by apply Forall_singleton|].
  intros [|y [|]] x after Heq Hne; cbn in Heq; simplify_eq.
Qed.

Lemma attempts_ok_cons policy request remaining q o reqs :
  extends request q -> may_repeat policy o = true -> delivered o = false ->
  attempts_ok policy request remaining reqs ->
  attempts_ok policy request (S remaining) ((q, o) :: reqs).
Proof.
  intros Hq Hm Hd (Hl & Hx & Hr). split; [cbn; lia|]. split; [by constructor|].
  intros [|y before] x after Heq Hne; cbn in Heq; simplify_eq; [done|]. by eapply Hr.
Qed.

Lemma attempt_loop_spec policy request remaining attempt s :
  wp (attempt_loop net config policy request attempt remaining)
    (loop_post policy request remaining s) s.
Proof.
  revert attempt s. induction remaining as [|n IH]; intros attempt s; cbn [attempt_loop].
  all: wp_step; eapply wp_mono; [apply on_breaker_unsent|];
    intros [[]|e] s1 Hs1; [|by apply loop_nothing].
  all: wp_step; wp_step; unfold wp at 1;
    pose proof (apply_auth_unsent request s1) as Hu; pose proof (apply_auth_extends request s1) as Hx;
    unfold wp in Hu, Hx; destruct (apply_auth net config request s1) as [[q|e] s2];
    cbn [fst snd] in *.
  2,4: wp_step; eapply wp_mono; [apply on_breaker_unsent|]; intros x s3 Hs3;
    assert (unsent s s3) by (unfold unsent in *; intuition congruence);
    destruct x; by apply loop_nothing.
  all: wp_step; wp_step; unfold send, wp at 1; cbn [fst snd]; set (o := net_send _ _ _);
    wp_step; eapply wp_mono; [apply judge_spec|]; cbv beta; intros x s3 [[Hsent _] Hv];
    cbn [h_sent] in Hsent;
    assert (h_sent s3 = h_sent s ++ [(q, o)]) as Hs3
      by (unfold unsent in *; intuition congruence);
    clearbody o; destruct x as [[r|e|e ra]|]; [| | |done]; wp_steps.
  all: try (exists [(q, o)]; split; [done|]; split; [by apply attempts_ok_single|]).
  1,4: destruct Hv as [-> Hd]; exists [], q; done.
  1-3: destruct Hv as [_ ?]; by apply Forall_singleton.
  unfold pause, wp at 1. cbn [fst snd]. eapply wp_mono; [apply IH|].
  intros r t (reqs & Ht & Hok & Hr). cbn [h_sent] in Ht.
  exists ((q, o) :: reqs). rewrite Ht, Hs3, <- app_assoc. split; [done|].
  destruct Hv as [Hm Hd]. split; [by apply attempts_ok_cons|]. destruct r as [resp|e'].
  - destruct Hr as (before & q' & -> & Hst). by exists ((q, o) :: before), q'.
  - by constructor.
Qed.
End loop.

(** ** Properties *)

(** A request without an idempotency key is not repeated once the provider may
    have seen it.  Whatever the network does, every attempt of one keyless POST but
    the last failed to connect, so at most one reached the provider. *)
Theorem keyless_post_reaches_provider_once net config url body options s r t :
  idempotency_key options = None ->
  post_json net config url body options s = (r, t) ->
  exists reqs, h_sent t = h_sent s ++ reqs
    /\ forall before x after, reqs = before ++ x :: after -> after <> [] ->
         exists e, x.2 = SendFailed e /\ is_connect e = true.
Proof.
  intros Hk Hrun. unfold post_json in Hrun. rewrite Hk in Hrun.
  destruct (wp_run _ _ _ _ _ (attempt_loop_spec _ _ _ _ _ _ _) Hrun)
    as (reqs & Hs & (_ & _ & Hr) & _).
  exists reqs. split; [done|]. intros before x after Hx Hne.
  destruct (Hr _ _ _ Hx Hne) as [Hm _]. destruct (x.2) as [resp|e]; cbn in Hm.
  - by rewrite andb_false_r in Hm.
  - by exists e.
Qed.

(** Every logical request is sent at most [max_retries + 1] times, each time with
    the method, url, body and headers of the first attempt (only credentials are
    added); it is repeated only after an answer its policy allows, a success is
    returned at once, and an error is returned only when no attempt succeeded. *)
Theorem retry_loop_bounds net config policy options base s r t :
  execute_with_retry net config policy options base s = (r, t) ->
  exists reqs, h_sent t = h_sent s ++ reqs
    /\ attempts_ok policy (attempt_request net options base) (Z.to_nat (max_retries config)) reqs
    /\ match r with
       | Ok resp => exists before q, reqs = before ++ [(q, GotResponse resp)]
                                     /\ status_is_success (rs_status resp) = true
       | Err _ => Forall (fun x => delivered x.2 = false) reqs
       end.
Proof. intros Hrun. exact (wp_run _ _ _ _ _ (attempt_loop_spec _ _ _ _ _ _ _) Hrun). Qed.

(** The pause before attempt [n + 1] lies between half of the exponential base
    and the whole of it, for every clock reading. *)
Theorem backoff_delay_bounds config nanos attempt :
  (0 <= retry_backoff_ms config)%Z -> (0 <= attempt)%Z ->
  let base := u64_saturating_mul (retry_backoff_ms config) (u64_saturating_pow2 attempt) in
  (base / 2 <= backoff_delay config nanos attempt <= base)%Z
  /\ (base <= u64_max)%Z.
Proof.
  intros Hr Ha base. subst base. unfold backoff_delay.
  set (base := u64_saturating_mul _ _).
  assert (0 <= base <= u64_max)%Z.
  { subst base. unfold u64_saturating_mul, u64_saturating_pow2, u64_max.
    pose proof (Z.pow_nonneg 2 attempt). nia. }
  assert (2 * (base / 2) <= base)%Z by (pose proof (Z.mul_div_le base 2); lia).
  assert (0 <= base / 2)%Z by (apply Z.div_pos; lia).
  split; [|lia]. destruct (Z.eqb_spec (base / 2) 0); [lia|].
  pose proof (Z.mod_pos_bound nanos (base / 2 + 1)). lia.
Qed.

(** ** Witnesses *)

(** A provider that answers 503 once and then 200, and one that refuses one connection. *)
Definition flaky_net (first : SendOutcome) : Net :=
  MkNet (fun n _ => if (n =? 0)%nat then first else GotResponse (MkResponse 200 None (Some "{}")))
    (fun n => Z.of_nat n) (fun n => Z.of_nat n) (fun _ => "") (fun s => s)
    (fun _ => Err "no token") None.

Definition refused : SendOutcome :=
  SendFailed (MkTransportError true false false "connection refused").

Definition busy : SendOutcome := GotResponse (MkResponse 503 None None).

Definition demo_client : ClientConfig :=
  MkClientConfig 5000 30000 3 100 AuthNone (MkTls None None) None.

Definition fresh_http : HttpState := MkHttpState (Closed 0) None 0 [] [].

Lemma keyless_post_reaches_provider_once_witness :
  exists r t, post_json (flaky_net refused) demo_client "u" "b" no_options fresh_http = (r, t)
    /\ length (h_sent t) = 2
    /\ exists reqs, h_sent t = reqs
         /\ forall before x after, reqs = before ++ x :: after -> after <> [] ->
              exists e, x.2 = SendFailed e /\ is_connect e = true.
Proof.
  destruct (post_json (flaky_net refused) demo_client "u" "b" no_options fresh_http)
    as [r t] eqn:H.
  exists r, t. split; [done|]. split.
  - apply (f_equal (fun x => length (h_sent (snd x)))) in H. vm_compute in H.
    cbn [snd] in H. symmetry. exact H.
  - exact (keyless_post_reaches_provider_once _ _ _ _ no_options fresh_http r t eq_refl H).
Defined.

Lemma retry_loop_bounds_witness :
  exists resp t, get_with_retry (flaky_net busy) demo_client "u" None fresh_http = (Ok resp, t)
    /\ rs_status resp = 200%Z /\ length (h_sent t) = 2 /\ length (h_sent t) <= 4.
Proof.
  destruct (get_with_retry (flaky_net busy) demo_client "u" None fresh_http) as [r t] eqn:H.
  destruct (retry_loop_bounds _ _ _ _ _ fresh_http r t H) as (reqs & Hs & (Hl & _) & _).
  assert (length (h_sent t) <= 4) as Hle by (rewrite Hs; exact Hl).
  clear Hs Hl. vm_compute in H. injection H as <- <-. eexists _, _. split; [reflexivity|].
  split; [reflexivity|]. split; [reflexivity|exact Hle].
Defined.

Lemma backoff_delay_bounds_witness :
  (200 <= backoff_delay demo_client 123456 2 <= 400)%Z.
Proof.
  refine (proj1 (backoff_delay_bounds demo_client 123456 2 _ _)); cbn; lia.
Defined.
