(* ===== verification/PaymentAdapter.v ===== *)
(** * HTTP payment adapter ([crates/integration-adapters/src/payment.rs], [error.rs])

    The [PaymentProvider] a deployment talks to a real payment service with: each
    operation is one logical request of [HttpClient].  JSON texts are produced and
    parsed outside the crate. *)

From Stdlib Require Import Ascii.
From S2P Require Export HttpClient.

(** [str::trim_end_matches('/')], on the reversed string. *)
Fixpoint trim_slashes (s : string) : string :=
  match s with
  | String a s' => if Ascii.eqb a "/"%char then trim_slashes s' else s
  | EmptyString => EmptyString
  end.

Definition trim_end_slashes (s : string) : string := String.rev (trim_slashes (String.rev s)).

Record Codec := MkCodec {
  json_checkout : CheckoutRequest -> string;
  json_lifecycle : PaymentLifecycleRequest -> string;
  parse_auth : string -> result (bool * string) string;
  parse_operation : string -> result (bool * string) string;
  parse_state : string -> result string string;
  duration_debug : Z -> string
}.

(** [PaymentStateDto::to_payment_state]. *)
Definition to_payment_state (state : string) : option PaymentState :=
  if String.eqb state "authorized" then Some Authorized
  else if String.eqb state "captured" then Some Captured
  else if String.eqb state "voided" then Some Voided
  else if String.eqb state "refund_pending" || String.eqb state "refundpending"
  then Some RefundPending
  else if String.eqb state "refunded" then Some Refunded
  else if String.eqb state "reconciled" then Some Reconciled
  else if String.eqb state "failed" then Some PaymentStateFailed
  else None.

Definition mpp_headers (request : CheckoutRequest) : list (string * string) :=
  let intent := cr_payment_intent request in
  if negb (bool_decide (pi_payment_method_type intent = Some Mpp)) then []
  else [("X-Payment-Method", "mpp")]
       ++ match pi_mpp_method intent with Some m => [("X-Mpp-Method", m)] | None => [] end
       ++ match pi_mpp_intent intent with Some i => [("X-Mpp-Intent", i)] | None => [] end.

Section adapter.
Context (net : Net) (codec : Codec) (config : ClientConfig) (base_url : string).

(** The [#[error]] texts. *)
Definition adapter_error_to_string (e : AdapterError) : string :=
  match e with
  | AdHttp m => "HTTP request failed: " +:+ m
  | AdTimeout d => "timeout after " +:+ duration_debug codec d
  | AdStatus st body => "unexpected response status " +:+ pretty st +:+ ": " +:+ body
  | AdJson m => "invalid JSON: " +:+ m
  | AdCircuitOpen p => "circuit open for provider " +:+ p +:+ ": not attempting call"
  | AdConfig m => "configuration error: " +:+ m
  end.

(** [impl From<AdapterError> for PaymentError]. *)
Definition to_payment_error (e : AdapterError) : PaymentError :=
  PaymentAuthFailed (adapter_error_to_string e).

Definition payment_url (path : string) : string := trim_end_slashes base_url +:+ "/" +:+ path.

(** [.await.map_err(PaymentError::from)?]. *)
Definition convert {A} (m : ST HttpState AdapterError A) : ST HttpState PaymentError A :=
  fun s => (map_err to_payment_error (fst (m s)), snd (m s)).

(** [resp.json().await]. *)
Definition response_json {A} (parse : string -> result A string) (r : Response)
  : result A string :=
  match rs_body r with Some b => parse b | None => Err "error decoding response body" end.

Definition adapter_authorize (request : CheckoutRequest) : ST HttpState PaymentError AuthResult :=
  resp ← convert (post_json net config (payment_url "authorize") (json_checkout codec request)
            (MkRequestOptions None (Some (cr_idempotency_key request)) (mpp_headers request)));
  match response_json (parse_auth codec) resp with
  | Ok (a, r) => mret (MkAuthResult a r)
  | Err e => st_fail (PaymentAuthFailed ("invalid authorize response: " +:+ e))
  end.

Definition adapter_lifecycle (op : string) (request : PaymentLifecycleRequest)
  : ST HttpState PaymentError PaymentOperationResult :=
  resp ← convert (post_json net config (payment_url op) (json_lifecycle codec request)
            (MkRequestOptions None (Some (pl_idempotency_key request)) []));
  match response_json (parse_operation codec) resp with
  | Ok (ok, r) => mret (MkPaymentOperationResult ok r)
  | Err e => st_fail (PaymentUnsupported ("invalid " +:+ op +:+ " response: " +:+ e))
  end.

Definition adapter_capture := adapter_lifecycle "capture".
Definition adapter_void := adapter_lifecycle "void".
Definition adapter_refund := adapter_lifecycle "refund".

Definition adapter_payment_state (transaction_id : string)
  : ST HttpState PaymentError (option PaymentState) := fun s =>
  match get_with_retry net config (payment_url ("state/" +:+ transaction_id)) None s with
  | (Err _, s) => (Ok None, s)
  | (Ok resp, s) =>
      (Ok (if (rs_status resp =? 404)%Z then None
           else if negb (status_is_success (rs_status resp)) then None
           else match response_json (parse_state codec) resp with
                | Ok st => to_payment_state st
                | Err _ => None
                end), s)
  end.
End adapter.

(** ** Lemmas *)

Lemma headers_fold hs r :
  rq_headers (foldl (fun r h => header h.1 h.2 r) r hs) = rq_headers r ++ hs
  /\ rq_method (foldl (fun r h => header h.1 h.2 r) r hs) = rq_method r
  /\ rq_url (foldl (fun r h => header h.1 h.2 r) r hs) = rq_url r
  /\ rq_body (foldl (fun r h => header h.1 h.2 r) r hs) = rq_body r.
Proof.
  revert r. induction hs as [|[n v] hs IH]; intros r; cbn; [by rewrite app_nil_r|].
  destruct (IH (header n v r)) as (-> & -> & -> & ->). cbn. by rewrite <- app_assoc.
Qed.

(** The attempts of one keyed POST. *)
Definition keyed_posts (url body key : string) (hs : list (string * string)) (limit : nat)
    (reqs : list (HttpRequest * SendOutcome)) : Prop :=
  length reqs <= limit
  /\ Forall (fun x => rq_method x.1 = "POST" /\ rq_url x.1 = url /\ rq_body x.1 = Some body
                      /\ ("Idempotency-Key", key) ∈ rq_headers x.1
                      /\ forall h, h ∈ hs -> h ∈ rq_headers x.1) reqs.

Lemma keyed_post_spec net config url body key hs s :
  wp (post_json net config url body (MkRequestOptions None (Some key) hs)) (fun _ t =>
    exists reqs, h_sent t = h_sent s ++ reqs
      /\ keyed_posts url body key hs (S (Z.to_nat (max_retries config))) reqs) s.
Proof.
  eapply wp_mono; [apply attempt_loop_spec|]. intros r t (reqs & Hs & (Hl & Hx & _) & _).
  exists reqs. split; [done|]. split; [done|]. eapply Forall_impl; [exact Hx|].
  intros [q o] (Hm & Hu & Hb & ext & Hh). cbn [fst] in *. revert Hm Hu Hb Hh.
  unfold attempt_request. cbn [correlation_id idempotency_key extra_headers].
  match goal with |- context [foldl _ ?r hs] => destruct (headers_fold hs r) as (-> & -> & -> & ->) end.
  assert (forall b : HttpRequest, rq_method (header "Idempotency-Key" key b) = rq_method b) as E by done.
  destruct (ambient_correlation net); cbn; intros -> -> -> ->;
    (repeat split; [set_solver|]; set_solver).
Qed.

(** ** Properties *)

(** Every attempt of an authorization carries the idempotency key of the checkout
    (and the machine-payment headers when there are any), goes to the authorize
    endpoint with the same body, and there are at most [max_retries + 1] of them: the
    provider can tell a retry from a second payment. *)
Theorem authorize_attempts_carry_key net codec config base_url req s r t :
  adapter_authorize net codec config base_url req s = (r, t) ->
  exists reqs, h_sent t = h_sent s ++ reqs
    /\ keyed_posts (payment_url base_url "authorize") (json_checkout codec req)
         (cr_idempotency_key req) (mpp_headers req) (S (Z.to_nat (max_retries config))) reqs.
Proof.
  intros Hrun. eapply (wp_run _ (fun _ t => exists reqs, h_sent t = h_sent s ++ reqs /\ _));
    [|exact Hrun].
  unfold adapter_authorize. wp_step. unfold convert, wp at 1. cbn [fst snd].
  pose proof (keyed_post_spec net config (payment_url base_url "authorize")
    (json_checkout codec req) (cr_idempotency_key req) (mpp_headers req) s) as Hp.
  unfold wp in Hp. destruct (post_json _ _ _ _ _ s) as [[resp|e] u]; cbn [fst snd map_err] in *;
    [|exact Hp].
  destruct (response_json _ resp) as [[a b]|e]; exact Hp.
Qed.

(** The same holds of every capture, void and refund. *)
Theorem lifecycle_attempts_carry_key net codec config base_url op req s r t :
  adapter_lifecycle net codec config base_url op req s = (r, t) ->
  exists reqs, h_sent t = h_sent s ++ reqs
    /\ keyed_posts (payment_url base_url op) (json_lifecycle codec req)
         (pl_idempotency_key req) [] (S (Z.to_nat (max_retries config))) reqs.
Proof.
  intros Hrun. eapply (wp_run _ (fun _ t => exists reqs, h_sent t = h_sent s ++ reqs /\ _));
    [|exact Hrun].
  unfold adapter_lifecycle. wp_step. unfold convert, wp at 1. cbn [fst snd].
  pose proof (keyed_post_spec net config (payment_url base_url op)
    (json_lifecycle codec req) (pl_idempotency_key req) [] s) as Hp.
  unfold wp in Hp. destruct (post_json _ _ _ _ _ s) as [[resp|e] u]; cbn [fst snd map_err] in *;
    [|exact Hp].
  destruct (response_json _ resp) as [[a b]|e]; exact Hp.
Qed.

(** ** Witnesses *)

Definition demo_codec : Codec :=
  MkCodec cr_idempotency_key pl_idempotency_key (fun _ => Ok (true, "auth_1"))
    (fun _ => Ok (true, "op_1")) (fun b => Ok b) (fun d => pretty d).

Definition keyed_request : CheckoutRequest :=
  MkCheckoutRequest "t1" "m1" (MkCartId 0%N) 1 "USD" None None
    (MkPaymentIntent 100 "tok" None None None None None) "k1".

Lemma authorize_attempts_carry_key_witness :
  exists t reqs,
    adapter_authorize (flaky_net busy) demo_codec demo_client "http://pay/" keyed_request fresh_http
      = (Ok (MkAuthResult true "auth_1"), t)
    /\ h_sent t = reqs /\ keyed_posts "http://pay/authorize" "k1" "k1" [] 4 reqs.
Proof.
  destruct (adapter_authorize (flaky_net busy) demo_codec demo_client "http://pay/" keyed_request
    fresh_http) as [r t] eqn:H.
  destruct (authorize_attempts_carry_key _ _ _ _ _ fresh_http r t H) as (reqs & Hs & Hk).
  exists t, reqs. vm_compute in H. injection H as <- <-. split; [reflexivity|].
  split; [exact Hs|exact Hk].
Defined.

Lemma lifecycle_attempts_carry_key_witness :
  exists t reqs,
    adapter_capture (flaky_net busy) demo_codec demo_client "http://pay"
      (MkPaymentLifecycleRequest "t1" "m1" "txn" 100 "k2") fresh_http
      = (Ok (MkPaymentOperationResult true "op_1"), t)
    /\ h_sent t = reqs /\ keyed_posts "http://pay/capture" "k2" "k2" [] 4 reqs.
Proof.
  destruct (adapter_capture (flaky_net busy) demo_codec demo_client "http://pay"
    (MkPaymentLifecycleRequest "t1" "m1" "txn" 100 "k2") fresh_http) as [r t] eqn:H.
  destruct (lifecycle_attempts_carry_key _ _ _ _ "capture" _ fresh_http r t H)
    as (reqs & Hs & Hk).
  exists t, reqs. vm_compute in H. injection H as <- <-. split; [reflexivity|].
  split; [exact Hs|exact Hk].
Defined.
