(* ===== verification/Ap2.v ===== *)
(** * AP2 mandate verification ([crates/orchestrator-api/src/ap2_verification.rs])

    Strict verification of the consent proof a checkout carries.  JSON parsing
    ([serde_json]) and the [AP2_TRUSTED_ISSUERS] variable are outside the crate; the
    system clock is read once per mandate checked. *)

From Stdlib Require Import Ascii.
From S2P Require Export Contract StoreTraits.

Record OpenMandate := MkOpenMandate {
  om_vct : string;
  om_issuer : string;
  om_subject : string;
  om_mandate_id : string;
  om_issued_at : Z;
  om_expires_at : Z;
  om_signature : string;
  om_cnf : option string;
  om_max_amount_minor : option Z;
  om_currency : option string
}.

Record ConsentProof := MkConsentProof {
  vct : option string;
  issuer : string;
  subject : string;
  mandate_id : string;
  payment_handler_id : string;
  issued_at : Z;
  expires_at : Z;
  signature : string;
  nonce : option string;
  open_mandate : option OpenMandate;
  checkout_hash : option string;
  max_amount_minor : option Z;
  currency : option string
}.

Record Ap2MandateRecord := MkMandateRecord { mr_mandate_id : string; mr_expires_at : Z }.

Definition str_in (s : string) (xs : list string) : bool := existsb (String.eqb s) xs.

Definition is_supported_closed_vct (v : string) : bool :=
  str_in v ["mandate.payment.1"; "mandate.checkout.1"; "mandate.checkout.closed.1"].

Definition is_supported_open_vct (v : string) : bool :=
  str_in v ["mandate.checkout.open.1"; "mandate.payment.open.1"; "mandate.payment.open"].

Definition blank (s : string) : bool := str_is_empty (str_trim s).

(** [value.split(',')], trimmed, without the empty pieces. *)
Fixpoint split_commas (s acc : string) : list string :=
  match s with
  | EmptyString => [String.rev acc]
  | String a s' =>
      if Ascii.eqb a ","%char then String.rev acc :: split_commas s' EmptyString
      else split_commas s' (String a acc)
  end.

Definition trusted_issuers_from_env (var : option string) : list string :=
  match var with
  | None => []
  | Some value =>
      List.filter (fun s => negb (str_is_empty s)) (map str_trim (split_commas value EmptyString))
  end.

(** [None]: the system clock is before the epoch. *)
Definition now_unix_timestamp (t : Clock) : option Z :=
  if (utc_ns t <? 0)%Z then None else Some (timestamp t).

Definition ap2 (msg : string) : string := "AP2 strict mode: " +:+ msg.

Definition require (ok : bool) (msg : string) : result unit string :=
  if ok then Ok tt else Err (ap2 msg).

(** Sequencing of [?]. *)
Definition and_then (r : result unit string) (k : result unit string) : result unit string :=
  match r with Ok _ => k | Err e => Err e end.

Infix ">>!" := and_then (at level 60, right associativity) : orch_scope.

Definition validate_party_fields (t : Clock) (issuer subject mandate_id signature handler : string)
    (issued_at expires_at : Z) (trusted_issuers : list string) : result unit string :=
  require (negb (blank issuer)) "consent proof issuer is required"
  >>! require (match trusted_issuers with
               | [] => true
               | _ => any (fun allowed => eq_ignore_ascii_case allowed (str_trim issuer))
                        trusted_issuers
               end) ("consent proof issuer '" +:+ issuer +:+ "' is not trusted")
  >>! require (negb (blank subject)) "consent proof subject is required"
  >>! require (negb (blank mandate_id)) "consent proof mandate_id is required"
  >>! require (negb (blank signature)) "consent proof signature is required"
  >>! require (negb (blank handler)) "consent proof payment_handler_id is required"
  >>! require (0 <? issued_at)%Z "consent proof issued_at must be a unix timestamp"
  >>! require (issued_at <? expires_at)%Z "consent proof expires_at must be after issued_at"
  >>! match now_unix_timestamp t with
      | None => Err (ap2 "system clock is invalid")
      | Some now => require (now <? expires_at)%Z "consent proof has expired"
      end.

Definition validate_open_mandate (t : Clock) (open : OpenMandate) (closed : ConsentProof)
    (request : CheckoutRequest) (trusted_issuers : list string) : result unit string :=
  require (is_supported_open_vct (om_vct open))
    ("unsupported open mandate vct '" +:+ om_vct open +:+ "'")
  >>! require (negb (blank (unwrap_or (om_cnf open) "")))
        "open mandate cnf (agent key binding) is required for HNP"
  >>! validate_party_fields t (om_issuer open) (om_subject open) (om_mandate_id open)
        (om_signature open) (payment_handler_id closed) (om_issued_at open) (om_expires_at open)
        trusted_issuers
  >>! (let max := unwrap_or (match om_max_amount_minor open with
                             | Some m => Some m | None => max_amount_minor closed end) i64_max in
       require (pi_amount_minor (cr_payment_intent request) <=? max)%Z
         "closed mandate amount exceeds open mandate max_amount_minor")
  >>! match (match om_currency open with Some c => Some c | None => currency closed end) with
      | Some c => require (eq_ignore_ascii_case c (cr_currency request))
                    "open mandate currency constraint not satisfied"
      | None => Ok tt
      end.

(** [ConsentProof::validate]; [t1] is the clock at the closed mandate, [t2] at the
    open one. *)
Definition validate_proof (t1 t2 : Clock) (p : ConsentProof) (request : CheckoutRequest)
    (trusted_issuers : list string) : result unit string :=
  match vct p with
  | None => Ok tt
  | Some v =>
      require (is_supported_closed_vct v || is_supported_open_vct v)
        ("unsupported mandate vct '" +:+ v +:+ "'")
      >>! require (negb (is_supported_open_vct v && negb (is_some (open_mandate p))))
            "open mandate alone cannot authorize checkout; closed mandate required"
  end
  >>! validate_party_fields t1 (issuer p) (subject p) (mandate_id p) (signature p)
        (payment_handler_id p) (issued_at p) (expires_at p) trusted_issuers
  >>! require (String.eqb (payment_handler_id p)
                 (unwrap_or (pi_payment_handler_id (cr_payment_intent request)) ""))
        "consent proof payment_handler_id must match request payment_handler_id"
  >>! match open_mandate p with
      | Some open => validate_open_mandate t2 open p request trusted_issuers
      | None =>
          match max_amount_minor p with
          | Some max => require (pi_amount_minor (cr_payment_intent request) <=? max)%Z
                          "payment amount exceeds mandate max_amount_minor"
          | None => Ok tt
          end
      end
  >>! match currency p with
      | Some c => require (eq_ignore_ascii_case c (cr_currency request))
                    "mandate currency does not match checkout currency"
      | None => Ok tt
      end.

Section verification.
Context (parse_proof : string -> option ConsentProof) (trusted : list string).

(** [ap2_consent_proof.as_deref().filter(|s| !s.trim().is_empty())]. *)
Definition consent_text (request : CheckoutRequest) : option string :=
  match pi_ap2_consent_proof (cr_payment_intent request) with
  | Some s => if blank s then None else Some s
  | None => None
  end.

Definition handler_of (request : CheckoutRequest) : option string :=
  match pi_payment_handler_id (cr_payment_intent request) with
  | Some s => if str_is_empty s then None else Some s
  | None => None
  end.

Definition parse_error : string :=
  ap2 ("ap2_consent_proof must be JSON with issuer, subject, mandate_id, payment_handler_id, "
       +:+ "issued_at, expires_at, and signature").

Definition verify_ap2_strict (t1 t2 : Clock) (request : CheckoutRequest) : result unit string :=
  match consent_text request with
  | None => Err (ap2 "ap2_consent_proof is required")
  | Some proof =>
      require (is_some (handler_of request)) "payment_handler_id is required"
      >>! match parse_proof proof with
          | None => Err parse_error
          | Some parsed => validate_proof t1 t2 parsed request trusted
          end
  end.

Definition extract_ap2_mandate_record (request : CheckoutRequest)
  : result Ap2MandateRecord string :=
  match consent_text request with
  | None => Err (ap2 "ap2_consent_proof is required")
  | Some proof =>
      match parse_proof proof with
      | None => Err parse_error
      | Some parsed => Ok (MkMandateRecord (mandate_id parsed) (expires_at parsed))
      end
  end.
End verification.

(** ** What an accepted proof means *)

(** A party's half of a mandate that the verifier accepts at [t]. *)
Definition party_ok (t : Clock) (issuer subject id signature handler : string)
    (issued_at expires_at : Z) (trusted : list string) : Prop :=
  blank issuer = false /\ blank subject = false /\ blank id = false
  /\ blank signature = false /\ blank handler = false
  /\ (trusted = [] \/ exists a, a ∈ trusted /\ eq_ignore_ascii_case a (str_trim issuer) = true)
  /\ (0 < issued_at < expires_at)%Z
  /\ (0 <= utc_ns t)%Z /\ (timestamp t < expires_at)%Z.

Definition amount_within (request : CheckoutRequest) (max : option Z) : Prop :=
  (pi_amount_minor (cr_payment_intent request) <= unwrap_or max i64_max)%Z.

Definition currency_allows (request : CheckoutRequest) (c : option string) : Prop :=
  forall v, c = Some v -> eq_ignore_ascii_case v (cr_currency request) = true.

(** The types of mandate, closed and open. *)
Definition closed_types : list string :=
  ["mandate.payment.1"; "mandate.checkout.1"; "mandate.checkout.closed.1"].
Definition open_types : list string :=
  ["mandate.checkout.open.1"; "mandate.payment.open.1"; "mandate.payment.open"].

Definition open_ok (t : Clock) (o : OpenMandate) (p : ConsentProof) (request : CheckoutRequest)
    (trusted : list string) : Prop :=
  om_vct o ∈ open_types
  /\ blank (unwrap_or (om_cnf o) "") = false
  /\ party_ok t (om_issuer o) (om_subject o) (om_mandate_id o) (om_signature o)
       (payment_handler_id p) (om_issued_at o) (om_expires_at o) trusted
  /\ amount_within request
       (match om_max_amount_minor o with Some m => Some m | None => max_amount_minor p end)
  /\ currency_allows request
       (match om_currency o with Some c => Some c | None => currency p end).

Definition proof_ok (t1 t2 : Clock) (p : ConsentProof) (request : CheckoutRequest)
    (trusted : list string) : Prop :=
  (forall v, vct p = Some v ->
     (v ∈ closed_types \/ v ∈ open_types) /\ (v ∈ open_types -> open_mandate p <> None))
  /\ party_ok t1 (issuer p) (subject p) (mandate_id p) (signature p) (payment_handler_id p)
       (issued_at p) (expires_at p) trusted
  /\ pi_payment_handler_id (cr_payment_intent request) = Some (payment_handler_id p)
  /\ match open_mandate p with
     | Some o => open_ok t2 o p request trusted
     | None => forall m, max_amount_minor p = Some m ->
                 (pi_amount_minor (cr_payment_intent request) <= m)%Z
     end
  /\ currency_allows request (currency p).

Lemma and_then_Ok r k : (r >>! k) = Ok tt <-> r = Ok tt /\ k = Ok tt.
Proof. destruct r as [[]|e]; cbn; naive_solver. Qed.

Lemma require_Ok ok msg : require ok msg = Ok tt <-> ok = true.
Proof. unfold require. destruct ok; naive_solver. Qed.

Lemma party_fields_iff t i s m g h a b trusted :
  validate_party_fields t i s m g h a b trusted = Ok tt <-> party_ok t i s m g h a b trusted.
Proof.
  unfold validate_party_fields, party_ok. rewrite !and_then_Ok, !require_Ok, !negb_true_iff, !Z.ltb_lt.
  assert ((match trusted with [] => true | _ => any (fun x => eq_ignore_ascii_case x (str_trim i)) trusted end)
    = true <-> (trusted = [] \/ exists x, x ∈ trusted /\ eq_ignore_ascii_case x (str_trim i) = true)) as ->.
  { destruct trusted as [|x l]; [naive_solver|]. unfold any. rewrite existsb_elem. naive_solver. }
  assert (match now_unix_timestamp t with
      | None => Err (ap2 "system clock is invalid")
      | Some now => require (now <? b)%Z "consent proof has expired"
      end = Ok tt <-> (0 <= utc_ns t)%Z /\ (timestamp t < b)%Z) as ->; [|naive_solver].
  unfold now_unix_timestamp. destruct (Z.ltb_spec (utc_ns t) 0).
  - split; [done|intros [? _]; lia].
  - rewrite require_Ok, Z.ltb_lt. split; [intros; split; [lia|done]|by intros [_ ?]].
Qed.

Lemma currency_iff request c msg :
  match c with Some v => require (eq_ignore_ascii_case v (cr_currency request)) msg | None => Ok tt end
  = Ok tt <-> currency_allows request c.
Proof. unfold currency_allows. destruct c; [rewrite require_Ok|]; naive_solver. Qed.

Lemma open_type_iff v : is_supported_open_vct v = true <-> v ∈ open_types.
Proof. exact (str_contains_spec open_types v). Qed.

Lemma closed_type_iff v : is_supported_closed_vct v = true <-> v ∈ closed_types.
Proof. exact (str_contains_spec closed_types v). Qed.

Lemma open_mandate_iff t o p request trusted :
  validate_open_mandate t o p request trusted = Ok tt <-> open_ok t o p request trusted.
Proof.
  unfold validate_open_mandate, open_ok, amount_within.
  rewrite !and_then_Ok, !require_Ok, party_fields_iff, negb_true_iff, Z.leb_le, currency_iff,
    open_type_iff. done.
Qed.

Lemma proof_iff t1 t2 p request trusted :
  is_some (handler_of request) = true ->
  validate_proof t1 t2 p request trusted = Ok tt <-> proof_ok t1 t2 p request trusted.
Proof.
  intros Hh. unfold validate_proof, proof_ok. setoid_rewrite <- open_type_iff.
  setoid_rewrite <- closed_type_iff. rewrite !and_then_Ok, require_Ok, party_fields_iff, currency_iff, String.eqb_eq.
  assert (payment_handler_id p = unwrap_or (pi_payment_handler_id (cr_payment_intent request)) ""
    <-> pi_payment_handler_id (cr_payment_intent request) = Some (payment_handler_id p)) as ->.
  { unfold handler_of in Hh. destruct (pi_payment_handler_id _); cbn; [|done]. naive_solver. }
  assert (match open_mandate p with
      | Some open => validate_open_mandate t2 open p request trusted
      | None => match max_amount_minor p with
          | Some max => require (pi_amount_minor (cr_payment_intent request) <=? max)%Z
                          "payment amount exceeds mandate max_amount_minor"
          | None => Ok tt end end = Ok tt
    <-> match open_mandate p with
     | Some o => open_ok t2 o p request trusted
     | None => forall m, max_amount_minor p = Some m ->
                 (pi_amount_minor (cr_payment_intent request) <= m)%Z end) as ->.
  { destruct (open_mandate p); [apply open_mandate_iff|].
    destruct (max_amount_minor p); [rewrite require_Ok, Z.leb_le|]; naive_solver. }
  enough (match vct p with None => Ok tt | Some v =>
      require (is_supported_closed_vct v || is_supported_open_vct v)
        ("unsupported mandate vct '" +:+ v +:+ "'")
      >>! require (negb (is_supported_open_vct v && negb (is_some (open_mandate p))))
            "open mandate alone cannot authorize checkout; closed mandate required" end = Ok tt
    <-> forall v, vct p = Some v ->
     (is_supported_closed_vct v = true \/ is_supported_open_vct v = true)
     /\ (is_supported_open_vct v = true -> open_mandate p <> None)) as -> by done.
  destruct (vct p) as [v|]; [|naive_solver].
  rewrite and_then_Ok, !require_Ok, orb_true_iff, negb_true_iff, andb_false_iff, negb_false_iff.
  split.
  - intros [Ha Hb] w [= <-]. split; [done|]. intros Hv Hn. rewrite Hv, Hn in Hb. by destruct Hb.
  - intros H. destruct (H v eq_refl) as [Ha Hb]. split; [done|].
    destruct (is_supported_open_vct v); [right|by left].
    destruct (open_mandate p); [done|by destruct Hb].
Qed.

Lemma verify_ok_iff parse trusted t1 t2 request :
  verify_ap2_strict parse trusted t1 t2 request = Ok tt <->
  exists text p, consent_text request = Some text /\ parse text = Some p
    /\ handler_of request <> None /\ proof_ok t1 t2 p request trusted.
Proof.
  unfold verify_ap2_strict. destruct (consent_text request) as [text|]; [|naive_solver].
  rewrite and_then_Ok, require_Ok. destruct (parse text) as [p|] eqn:Hp; [|naive_solver].
  destruct (handler_of request) as [h|] eqn:Hh; [|naive_solver]. cbn [is_some].
  rewrite proof_iff by (by rewrite Hh). naive_solver.
Qed.

(** ** Properties *)

(** C25: strict verification accepts a checkout exactly when its consent proof is not blank and parses
    to a mandate that names an issuer (a trusted one if any are configured), a subject, an id, a
    handler and a signature, of which it is only asked that it is not blank; is of one of the known
    types if it names a type, with an open mandate if that is the type of one; is issued at a
    positive time before its expiry, which is not yet reached; and is for the payment handler of the
    request.  Without an open mandate the amount is within its ceiling, if it has one.  With one,
    that is of an open type, bound to an agent key, itself complete and not expired, and the amount
    is within the ceiling of the open mandate, or within that of the closed one if the open one has
    none: a lower ceiling of the closed one does not count.  The currency is that of the request
    wherever one is named. *)
Theorem ap2_accepts_iff parse trusted t1 t2 request :
  let intent := cr_payment_intent request in
  verify_ap2_strict parse trusted t1 t2 request = Ok tt <->
  exists text p, pi_ap2_consent_proof intent = Some text /\ str_trim text <> ""
    /\ parse text = Some p
    /\ (forall v, vct p = Some v ->
          (v ∈ closed_types \/ v ∈ open_types) /\ (v ∈ open_types -> open_mandate p <> None))
    /\ party_ok t1 (issuer p) (subject p) (mandate_id p) (signature p) (payment_handler_id p)
         (issued_at p) (expires_at p) trusted
    /\ pi_payment_handler_id intent = Some (payment_handler_id p)
    /\ currency_allows request (currency p)
    /\ match open_mandate p with
       | None => forall m, max_amount_minor p = Some m -> (pi_amount_minor intent <= m)%Z
       | Some o => om_vct o ∈ open_types /\ (exists key, om_cnf o = Some key /\ str_trim key <> "")
           /\ party_ok t2 (om_issuer o) (om_subject o) (om_mandate_id o) (om_signature o)
                (payment_handler_id p) (om_issued_at o) (om_expires_at o) trusted
           /\ (pi_amount_minor intent
               <= match om_max_amount_minor o, max_amount_minor p with
                  | Some m, _ => m | None, Some m => m | None, None => i64_max end)%Z
           /\ currency_allows request (om_currency o)
       end.
Proof.
  cbv zeta. rewrite verify_ok_iff. unfold consent_text, proof_ok, open_ok, handler_of, amount_within.
  assert (forall s, blank s = false <-> str_trim s <> "") as Hblank.
  { intros s. unfold blank. rewrite <- str_is_empty_spec. by destruct (str_is_empty _). }
  split.
  - intros (text & p & Ht & Hp & _ & Hv & Hparty & Hh & Hopen & Hc). exists text, p.
    destruct (pi_ap2_consent_proof _) as [s|]; [|done]. destruct (blank s) eqn:Hb; [done|].
    injection Ht as ->. do 2 (split; [done || by apply Hblank|]). do 5 (split; [done|]).
    destruct (open_mandate p) as [o|]; [|done].
    destruct Hopen as (H1 & H2 & H3 & H4 & H5). split; [done|]. split.
    + destruct (om_cnf o) as [key|]; [|done]. exists key. split; [done|]. by apply Hblank.
    + split; [done|]. split; [by destruct (om_max_amount_minor o), (max_amount_minor p)|].
      by destruct (om_currency o).
  - intros (text & p & Ht & Hb & Hp & Hv & Hparty & Hh & Hc & Hopen). exists text, p.
    rewrite Ht, Hh. apply Hblank in Hb as ->. do 2 (split; [done|]). split.
    { destruct (str_is_empty _) eqn:He; [|done]. apply str_is_empty_spec in He.
      destruct Hparty as (_ & _ & _ & _ & Hhb & _). by rewrite He in Hhb. }
    do 3 (split; [done|]). split; [|done]. destruct (open_mandate p) as [o|]; [|done].
    destruct Hopen as (H1 & (key & H2 & H2') & H3 & H4 & H5). split; [done|].
    split; [rewrite H2; by apply Hblank|]. split; [done|].
    split; [by destruct (om_max_amount_minor o), (max_amount_minor p)|].
    by destruct (om_currency o).
Qed.

(** The mandate with another ceiling of its own. *)
Definition with_ceiling (c : Z) (p : ConsentProof) : ConsentProof :=
  MkConsentProof (vct p) (issuer p) (subject p) (mandate_id p) (payment_handler_id p)
    (issued_at p) (expires_at p) (signature p) (nonce p) (open_mandate p) (checkout_hash p)
    (Some c) (currency p).

(** The ceiling of the closed mandate, the one its holder agreed to for this
    purchase, counts for nothing when it comes with an open mandate that has a ceiling
    of its own: whatever it is lowered to, the verdict on the request is the same. *)
Theorem closed_ceiling_ignored_under_open_mandate parse trusted t1 t2 request text p o limit c :
  consent_text request = Some text -> parse text = Some p ->
  open_mandate p = Some o -> om_max_amount_minor o = Some limit ->
  verify_ap2_strict (fun s => with_ceiling c <$> parse s) trusted t1 t2 request
  = verify_ap2_strict parse trusted t1 t2 request.
Proof.
  intros Ht Hp Ho Hl. unfold verify_ap2_strict. rewrite Ht. cbv beta. rewrite Hp. cbn [fmap option_fmap option_map].
  f_equal. unfold validate_proof, with_ceiling, validate_open_mandate. cbn. by rewrite Ho, Hl.
Qed.

Definition demo_open : OpenMandate :=
  MkOpenMandate "mandate.checkout.open.1" "bank" "alice" "om-1" 1 2000000000 "sig"
    (Some "agent-key") (Some 5000%Z) (Some "usd").

Definition demo_proof : ConsentProof :=
  MkConsentProof (Some "mandate.checkout.1") "bank" "alice" "m-1" "handler" 1 2000000000 "sig"
    None (Some demo_open) None (Some 100%Z) (Some "USD").

Definition demo_ap2_request : CheckoutRequest :=
  MkCheckoutRequest "t1" "m1" (MkCartId 0%N) 1 "USD" None None
    (MkPaymentIntent 2200 "tok" (Some "{}") (Some "handler") None None None) "k".

Lemma closed_ceiling_ignored_under_open_mandate_witness :
  verify_ap2_strict (fun s => with_ceiling 1 <$> Some demo_proof) ["bank"]
    (MkClock 5000000000 0) (MkClock 5000000000 0) demo_ap2_request = Ok tt.
Proof.
  rewrite (closed_ceiling_ignored_under_open_mandate (fun _ => Some demo_proof) ["bank"]
    (MkClock 5000000000 0) (MkClock 5000000000 0) demo_ap2_request "{}" demo_proof demo_open 5000 1);
  reflexivity.
Defined.
