(* ===== verification/Webhooks.v ===== *)
(** * Webhook delivery ([webhooks.rs], and [webhook_deliverer_for] of
    [outbox_processor.rs])

    The deliverer posts an outbox message to every subscribed endpoint of the tenant
    the message belongs to.  HMAC-SHA256, [serde_json] and [reqwest] are outside the
    crate: the hex digest of a body under a secret, the encoder of a JSON object, the
    display of a status and the answer of the network are arguments. *)

From S2P Require Export Outbox.

(** A [POST] as the client sends it. *)
Record WebhookPost := MkWebhookPost {
  wp_url : string;
  wp_headers : list (string * string);
  wp_body : string
}.

(** [reqwest::StatusCode::is_success]. *)
Definition is_success (status : Z) : bool := ((200 <=? status) && (status <? 300))%Z.

Section deliverer.
Context {W : Type} `{WebhookStore W}.
Context (hmac_sha256_hex : string -> string -> string)
  (json_object : list (string * string) -> result string string)
  (status_display : Z -> string)
  (send : nat -> WebhookPost -> result Z string).

Definition compute_signature (secret body : string) : string := hmac_sha256_hex secret body.

(** [message.tenant_id.as_deref().map(str::trim).filter(|t| !t.is_empty())]. *)
Definition routing_tenant (message : OutboxMessage) : option string :=
  match om_tenant_id message with
  | Some t => if str_is_empty (str_trim t) then None else Some (str_trim t)
  | None => None
  end.

Definition webhook_body (message : OutboxMessage) : result string string :=
  json_object [("id", om_id message); ("topic", om_topic message);
               ("payload", om_payload message);
               ("correlation_id", om_correlation_id message)].

Definition webhook_post (message : OutboxMessage) (body : string) (reg : WebhookRegistration)
  : WebhookPost :=
  MkWebhookPost (wh_url reg)
    [("Content-Type", "application/json"); ("X-Webhook-Id", om_id message);
     ("X-Webhook-Topic", om_topic message);
     ("X-Webhook-Signature", compute_signature (wh_secret reg) body)] body.

(** The loop over the registrations: [n] numbers the network's answers.  Returns
    [last_error] and the posts made. *)
Fixpoint deliver_loop (n : nat) (message : OutboxMessage) (body : string)
    (registrations : list WebhookRegistration) (last_error : option string)
  : option string * list WebhookPost :=
  match registrations with
  | [] => (last_error, [])
  | reg :: rest =>
      let p := webhook_post message body reg in
      let last_error :=
        match send n p with
        | Ok status =>
            if is_success status then last_error
            else Some ("webhook " +:+ wh_url reg +:+ " returned " +:+ status_display status)
        | Err e => Some ("webhook " +:+ wh_url reg +:+ " failed: " +:+ e)
        end in
      let '(e, ps) := deliver_loop (S n) message body rest last_error in (e, p :: ps)
  end.

(** [WebhookDeliverer::deliver] with the posts it makes. *)
Definition webhook_deliver (n : nat) (store : W) (message : OutboxMessage)
  : result unit string * list WebhookPost :=
  match routing_tenant message with
  | None => (Ok tt, [])
  | Some tenant_id =>
      match list_active_for_topic tenant_id (om_topic message) store with
      | Err e => (Err (store_error_msg e), [])
      | Ok [] => (Ok tt, [])
      | Ok registrations =>
          match webhook_body message with
          | Err e => (Err e, [])
          | Ok body =>
              let '(last_error, posts) := deliver_loop n message body registrations None in
              (match last_error with Some err => Err err | None => Ok tt end, posts)
          end
      end
  end.

Definition webhook_deliverer_for (n : nat) (store : W) (message : OutboxMessage)
  : result unit string :=
  fst (webhook_deliver n store message).

(** The endpoint answered a post with a success status. *)
Definition accepted_at (n : nat) (p : WebhookPost) : Prop :=
  exists status, send n p = Ok status /\ is_success status = true.

Lemma deliver_loop_posts n m body regs last :
  snd (deliver_loop n m body regs last) = webhook_post m body <$> regs.
Proof.
  revert n last. induction regs as [|r regs IH]; intros n last; cbn; [done|].
  match goal with |- context [deliver_loop (S n) m body regs ?l] =>
    specialize (IH (S n) l); destruct (deliver_loop (S n) m body regs l) end.
  cbn in *. by f_equal.
Qed.

(** An error once recorded is never cleared, and none is recorded exactly when every
    endpoint accepted. *)
Lemma deliver_loop_ok n m body regs last :
  fst (deliver_loop n m body regs last) = None <->
  last = None /\ forall i r, regs !! i = Some r -> accepted_at (n + i) (webhook_post m body r).
Proof.
  revert n last. induction regs as [|r regs IH]; intros n last; cbn; [naive_solver|].
  match goal with |- context [deliver_loop (S n) m body regs ?l] =>
    specialize (IH (S n) l); destruct (deliver_loop (S n) m body regs l) end.
  cbn in *. rewrite IH. clear IH. unfold accepted_at in *.
  split.
  - intros [Hl Hr]. destruct (send n (webhook_post m body r)) as [st|e] eqn:Hs; [|done].
    destruct (is_success st) eqn:Hst; [|done]. split; [done|]. intros [|i] r' Hi; cbn in Hi.
    + simplify_eq. rewrite Nat.add_0_r. eauto.
    + rewrite Nat.add_succ_r. by apply Hr.
  - intros [-> Hr]. destruct (Hr 0 r eq_refl) as (st & Hs & Hst). rewrite Nat.add_0_r in Hs.
    rewrite Hs, Hst. split; [done|]. intros i r' Hi. specialize (Hr (S i) r' Hi).
    by rewrite Nat.add_succ_r in Hr.
Qed.
End deliverer.

(** The runner with webhook delivery turned on ([OrchestratorFacade::with_webhook_delivery]). *)
Definition with_webhooks hmac json display send (r : RunnerConfig memory_backend)
  : RunnerConfig memory_backend :=
  with_outbox_deliverer (B := memory_backend)
    (webhook_deliverer_for (W := InMemoryWebhookStore) hmac json display send) r.

(** ** Properties, for the in-memory store *)

Section in_memory.
Context (hmac : string -> string -> string)
  (json : list (string * string) -> result string string) (display : Z -> string)
  (send : nat -> WebhookPost -> result Z string).
Implicit Types (s : InMemoryWebhookStore) (m : OutboxMessage) (r : WebhookRegistration).

(** [r] is registered, active, of tenant [t] and subscribed to the topic of [m]. *)
Definition subscribed s t m r : Prop :=
  (exists id, wh_records s !! id = Some r) /\ wh_active r = true /\ wh_tenant_id r = t
  /\ is_none_or (wh_event_filter r) (fun f => str_contains f (om_topic m)) = true.

Lemma elem_values {V} (t : gmap string V) v : v ∈ values t <-> exists k, t !! k = Some v.
Proof.
  unfold values. rewrite list_elem_of_fmap. split.
  - intros ([k x] & -> & H). exists k. by apply elem_of_map_to_list.
  - intros [k H]. exists (k, v). split; [done|]. by apply elem_of_map_to_list.
Qed.

Lemma elem_subscribers s t m r :
  r ∈ List.filter (subscribes t (om_topic m)) (values (wh_records s)) <-> subscribed s t m r.
Proof.
  rewrite list_elem_of_In, filter_In, <- list_elem_of_In, elem_values, subscribes_spec. done.
Qed.

Lemma deliver_memory n s m :
  webhook_deliver hmac json display send n s m =
  match routing_tenant m with
  | None => (Ok tt, [])
  | Some t =>
      match List.filter (subscribes t (om_topic m)) (values (wh_records s)) with
      | [] => (Ok tt, [])
      | regs => match webhook_body json m with
                | Err e => (Err e, [])
                | Ok body =>
                    let '(e, ps) := deliver_loop hmac display send n m body regs None in
                    (match e with Some err => Err err | None => Ok tt end, ps)
                end
      end
  end.
Proof.
  unfold webhook_deliver. destruct (routing_tenant m); [|done]. cbn [list_active_for_topic mem_webhook_store].
  by destruct (List.filter _ _).
Qed.

(** C24: what delivering a message sends, and to whom: a post is made exactly for
    each active registration of the tenant the message belongs to whose filter
    admits the topic, to that registration's endpoint and signed with its secret.
    No other tenant's endpoint is ever posted to, and a message without a tenant
    goes nowhere.  The registrations are those of the in-memory store, whose lookup
    cannot fail. *)
Theorem webhooks_reach_only_their_tenant n s m p :
  p ∈ snd (webhook_deliver hmac json display send n s m) <->
  exists t r body, routing_tenant m = Some t /\ subscribed s t m r
    /\ webhook_body json m = Ok body /\ p = webhook_post hmac m body r.
Proof.
  rewrite deliver_memory. destruct (routing_tenant m) as [t|]; [|set_solver].
  pose proof (elem_subscribers s t m) as Hsub.
  destruct (List.filter _ _) as [|r0 regs] eqn:Hregs.
  { split; [set_solver|]. intros (t' & r & body & [= <-] & Hr & _). apply Hsub in Hr. set_solver. }
  destruct (webhook_body json m) as [body|e]; [|set_solver].
  pose proof (deliver_loop_posts hmac display send n m body (r0 :: regs) None) as Hp.
  destruct (deliver_loop _ _ _ _ _ _ _ _) as [e ps]. cbn [snd] in *. subst ps.
  rewrite list_elem_of_fmap. split.
  - intros (r & -> & Hr). exists t, r, body. rewrite <- Hsub. done.
  - intros (t' & r & b & [= <-] & Hr & [= <-] & ->). exists r. by rewrite Hsub.
Qed.

(** Delivering a message succeeds exactly when it has no tenant to route by, or
    none of its tenant's endpoints subscribes to the topic, or its body could be
    encoded and every subscribed endpoint answered with a success status.  In every
    other case the message stays with the outbox to be retried. *)
Theorem delivery_succeeds_iff_all_accept n s m :
  webhook_deliverer_for hmac json display send n s m = Ok tt <->
  match routing_tenant m with
  | None => True
  | Some t =>
      let regs := List.filter (subscribes t (om_topic m)) (values (wh_records s)) in
      regs = [] \/ exists body, webhook_body json m = Ok body
        /\ forall i r, regs !! i = Some r ->
             accepted_at send (n + i) (webhook_post hmac m body r)
  end.
Proof.
  unfold webhook_deliverer_for. rewrite deliver_memory.
  destruct (routing_tenant m) as [t|]; [|done]. cbv zeta.
  destruct (List.filter _ _) as [|r0 regs]; [naive_solver|].
  destruct (webhook_body json m) as [body|e]; [|naive_solver].
  pose proof (deliver_loop_ok hmac display send n m body (r0 :: regs) None) as Hok.
  destruct (deliver_loop _ _ _ _ _ _ _ _) as [[e|] ps]; cbn [fst] in *.
  - split; [done|]. intros [?|(b & [= <-] & Hb)]; [done|].
    assert (Some e = None) by (apply Hok; auto). done.
  - split; [|done]. intros _. right. exists body. split; [done|]. by apply Hok.
Qed.
End in_memory.
