(* ===== verification/Facade.v ===== *)
(** * The library facade ([crates/orchestrator-api/src]: [facade.rs], [authz.rs],
    [pii.rs])

    The single entry point of agents and applications.  It adds three guards to the
    runner: tenant ownership of carts, the scope and tenant of a checkout's caller,
    and, in strict mode, an AP2 mandate that is used once.  [Instant::now], metrics
    and tracing are left out.  The identity and delegation providers are trait objects
    of other crates: functions of the interaction number. *)

From S2P Require Export RunnerCheckout Ap2.

Record AuthContext := MkAuthContext {
  ax_caller_id : string; ax_tenant_id : string; ax_scopes : list string }.

Inductive AuthzError := MissingScope (scope : string) | TenantMismatch.

Definition authorize_checkout (context : AuthContext) (request : CheckoutRequest)
  : result unit AuthzError :=
  if negb (any (fun scope => String.eqb scope "checkout:execute") (ax_scopes context))
  then Err (MissingScope "checkout:execute")
  else if negb (String.eqb (ax_tenant_id context) (cr_tenant_id request))
  then Err TenantMismatch
  else Ok tt.

Inductive FacadeError :=
| FRunner (e : RunnerError)
| FAuthz (e : AuthzError)
| FAp2Verification (msg : string)
| FIdentityLink (msg : string)
| FPaymentDelegation (msg : string)
| FNotConfigured (what : string).

(** ** Delegation and identity linking *)

Inductive DelegationError := DelegationRejected (msg : string) | DelegationProvider (msg : string).

Definition delegation_error_to_string (e : DelegationError) : string :=
  match e with
  | DelegationRejected m => "payment delegation rejected: " +:+ m
  | DelegationProvider m => "payment delegation provider failed: " +:+ m
  end.

Inductive IdentityLinkProviderError := IdentityRejected (msg : string) | IdentityProvider (msg : string).

Definition identity_error_to_string (e : IdentityLinkProviderError) : string :=
  match e with
  | IdentityRejected m => "identity link rejected: " +:+ m
  | IdentityProvider m => "identity link provider failed: " +:+ m
  end.

Record PaymentDelegationRequest := MkDelegationRequest {
  pd_tenant_id : string;
  pd_token : string;
  pd_method_type : option string;
  pd_max_amount_minor : option Z;
  pd_idempotency_key : string;
  pd_metadata : gmap string string
}.

Record DelegatedPayment := MkDelegatedPayment {
  dp_id : string; dp_token : string; dp_status : string; dp_expires_at : option string }.

(** The facade's request, and the provider's without the user reference. *)
Record IdentityLinkRequest := MkIdentityLinkRequest {
  il_tenant_id : string;
  il_merchant_id : string;
  il_agent_id : string;
  il_link_token : string;
  il_user_reference : option string
}.

Record ProviderIdentityLinkRequest := MkProviderIdentityLinkRequest {
  pil_tenant_id : string; pil_merchant_id : string; pil_agent_id : string;
  pil_link_token : string }.

Record IdentityLinkRecord := MkIdentityLinkRecord {
  lr_link_id : string; lr_status : string; lr_expires_at : option string }.

Record IdentityLinkResult := MkIdentityLinkResult {
  ir_ucp_version : string; ir_supported_versions : list string;
  ir_link_id : string; ir_status : string }.

Definition UCP_LATEST_VERSION : string := "2026-08-25".
Definition UCP_SUPPORTED_VERSIONS : list string :=
  [UCP_LATEST_VERSION; "2026-04-08"; "2026-01-23"; "2026-01-11"].

(** The mocks ([provider-mocks/src/delegation.rs]), with the fresh UUIDs of a call. *)
Definition mock_delegate (uuid_of : nat -> string * string) (n : nat)
    (request : PaymentDelegationRequest) : result DelegatedPayment DelegationError :=
  if str_is_empty (str_trim (pd_token request)) then Err (DelegationRejected "empty token")
  else Ok (MkDelegatedPayment ("dpay_" +:+ fst (uuid_of n)) ("delegated_" +:+ snd (uuid_of n))
             "delegated" None).

Definition mock_link (uuid_of : nat -> string) (n : nat) (_ : ProviderIdentityLinkRequest)
  : result IdentityLinkRecord IdentityLinkProviderError :=
  Ok (MkIdentityLinkRecord ("idlink_" +:+ uuid_of n) "linked" None).

(** ** The facade *)

Record OrchestratorFacade `{B : Backend} := MkFacade {
  fc_runner : RunnerConfig B;
  fc_ap2_strict : bool;
  fc_payment_delegation :
    option (nat -> PaymentDelegationRequest -> result DelegatedPayment DelegationError);
  fc_identity_link :
    option (nat -> ProviderIdentityLinkRequest -> result IdentityLinkRecord IdentityLinkProviderError)
}.
Arguments OrchestratorFacade B : clear implicits.
Arguments MkFacade {B} _ _ _ _.

(** The cart a command addresses, for commands that carry the id in their payload. *)
Definition cart_id_from_command (cmd : CartCommand) : option CartId :=
  match cmd with
  | GetCart p => Some (gc_cart_id p)
  | StartCheckout p => Some (sc_cart_id p)
  | CancelCart p => Some (xc_cart_id p)
  | _ => None
  end.

Section facade.
Context {B : Backend} (env : Env) (parse_proof : string -> option ConsentProof)
  (trusted_issuers : option string).

Definition F (A : Type) : Type := ST (World B) FacadeError A.

(** [.map_err(FacadeError::Runner)]. *)
Definition from_runner {A} (m : M (B:=B) A) : F A := fun w =>
  (map_err FRunner (fst (m w)), snd (m w)).

(** Ask something outside the stores: an answer per interaction. *)
Definition ask {A E} (f : nat -> result A E) (conv : E -> FacadeError) : F A := fun w =>
  (map_err conv (f (w_tick w)), set_tick (S (w_tick w)) w).

Section methods.
Context (self : OrchestratorFacade B).

Definition facade_dispatch (cmd : CartCommand) (cart_id : option CartId)
  : F CartProjection :=
  from_runner (dispatch_cart_command env (fc_runner self) cmd cart_id).

Definition assert_cart_belongs_to (tenant_id : string) (cart_id : CartId) : F unit :=
  cart ← st_gets (cart_snapshot cart_id);
  match cart with
  | None => mret tt
  | Some cart =>
      if bool_decide (cp_tenant_id cart = Some tenant_id) then mret tt
      else st_fail (FAuthz TenantMismatch)
  end.

Definition dispatch_cart_command_for_tenant (tenant_id : string) (cmd : CartCommand)
    (cart_id : option CartId) : F CartProjection :=
  let cmd := with_tenant tenant_id cmd in
  _ ← match or_else cart_id (cart_id_from_command cmd) with
      | Some target => assert_cart_belongs_to tenant_id target
      | None => mret tt
      end;
  facade_dispatch cmd cart_id.

Definition replay_error : FacadeError :=
  FAp2Verification (ap2 "mandate replay detected").

(** The guard of strict mode: the proof is verified, then its mandate is spent. *)
Definition spend_mandate (request : CheckoutRequest) : F unit :=
  let trusted := trusted_issuers_from_env trusted_issuers in
  t1 ← from_runner (now env);
  t2 ← from_runner (now env);
  _ ← st_lift (map_err FAp2Verification (verify_ap2_strict parse_proof trusted t1 t2 request));
  record ← st_lift (map_err FAp2Verification (extract_ap2_mandate_record parse_proof request));
  accepted ← from_runner
    (runner_record_mandate env (mr_mandate_id record) (mr_expires_at record));
  if negb accepted then st_fail replay_error else mret tt.

Definition facade_execute_checkout (request : CheckoutRequest) : F TransactionResult :=
  _ ← (if fc_ap2_strict self then spend_mandate request else mret tt);
  from_runner (execute_checkout env (fc_runner self) request).

Definition execute_checkout_authorized (context : AuthContext) (request : CheckoutRequest)
  : F TransactionResult :=
  _ ← st_lift (map_err FAuthz (authorize_checkout context request));
  facade_execute_checkout request.

Definition facade_capture_payment (r : PaymentLifecycleRequest) : F PaymentOperationResult :=
  from_runner (capture_payment (fc_runner self) r).
Definition facade_void_payment (r : PaymentLifecycleRequest) : F PaymentOperationResult :=
  from_runner (void_payment (fc_runner self) r).
Definition facade_refund_payment (r : PaymentLifecycleRequest) : F PaymentOperationResult :=
  from_runner (refund_payment (fc_runner self) r).
Definition facade_run_reconciliation (ids : list string) : F (list PaymentMismatch) :=
  from_runner (run_reconciliation (fc_runner self) ids).
Definition facade_get_order (order_id : string) : F (option OrderRecord) :=
  st_gets (get_order order_id).
Definition facade_list_orders (tenant_id : string) : F (list OrderRecord) :=
  from_runner (list_orders tenant_id).
Definition facade_process_outbox_once (max_attempts : Z) : F unit :=
  from_runner (process_outbox_once (fc_runner self) max_attempts).
Definition facade_replay_from_dead_letter (message_id : string) : F bool :=
  from_runner (replay_from_dead_letter message_id).
Definition facade_accept_incoming_event_once (message_id : string) : F bool :=
  from_runner (accept_incoming_event_once message_id).
Definition facade_register_webhook (r : WebhookRegistration) : F unit :=
  from_runner (register_webhook r).
Definition facade_unregister_webhook (id : string) : F bool :=
  from_runner (unregister_webhook id).
Definition facade_list_webhooks (tenant_id : string) : F (list WebhookRegistration) :=
  from_runner (list_webhooks tenant_id).
Definition facade_lookup_catalog_item (item_id : string) : F CatalogItem :=
  from_runner (lookup_catalog_item (fc_runner self) item_id).
Definition facade_lookup_catalog_items (item_ids : list string) : F (list CatalogItem) :=
  from_runner (lookup_catalog_items (fc_runner self) item_ids).
Definition facade_search_catalog_items (query : option string) : F (list CatalogItem) :=
  from_runner (search_catalog_items (fc_runner self) query).

Definition link_identity (request : IdentityLinkRequest) : F IdentityLinkResult :=
  if blank (il_tenant_id request) || blank (il_merchant_id request)
     || blank (il_agent_id request) || blank (il_link_token request)
  then st_fail (FIdentityLink "tenant_id, merchant_id, agent_id, and link_token are required")
  else
    match fc_identity_link self with
    | None => st_fail (FNotConfigured "identity linking (set IDENTITY_LINK_BASE_URL)")
    | Some link =>
        record ← ask (fun n => link n (MkProviderIdentityLinkRequest (il_tenant_id request)
                          (il_merchant_id request) (il_agent_id request)
                          (il_link_token request)))
          (fun e => FIdentityLink (identity_error_to_string e));
        mret (MkIdentityLinkResult UCP_LATEST_VERSION UCP_SUPPORTED_VERSIONS
                (lr_link_id record) (lr_status record))
    end.

Definition delegate_payment (request : PaymentDelegationRequest) : F DelegatedPayment :=
  match fc_payment_delegation self with
  | None => st_fail (FNotConfigured "payment delegation (set PAYMENT_DELEGATION_BASE_URL)")
  | Some delegate =>
      ask (fun n => delegate n request)
        (fun e => FPaymentDelegation (delegation_error_to_string e))
  end.
End methods.
End facade.

(** ** Redaction ([pii.rs]) *)

Definition REDACTED : string := "[REDACTED]".

Record RedactedPaymentIntent := MkRedactedIntent {
  rp_amount_minor : Z;
  rp_token_or_reference : string;
  rp_ap2_consent_proof : option string;
  rp_payment_handler_id : option string
}.

Definition redact_intent (i : PaymentIntent) : RedactedPaymentIntent :=
  MkRedactedIntent (pi_amount_minor i) REDACTED
    ((fun _ => REDACTED) <$> pi_ap2_consent_proof i) (pi_payment_handler_id i).

Record RedactedCustomerHint := MkRedactedCustomer {
  rc_email : option string; rc_full_name : option string }.

Definition redact_customer (c : CustomerHint) : RedactedCustomerHint :=
  MkRedactedCustomer ((fun _ => REDACTED) <$> ch_email c) ((fun _ => REDACTED) <$> ch_full_name c).

Record RedactedCheckoutRequest := MkRedactedRequest {
  rq_tenant_id : string;
  rq_merchant_id : string;
  rq_cart_id : CartId;
  rq_cart_version : Z;
  rq_currency : string;
  rq_customer : option RedactedCustomerHint;
  rq_location : option LocationHint;
  rq_payment_intent : RedactedPaymentIntent;
  rq_idempotency_key : string
}.

Definition redact_checkout_request (req : CheckoutRequest) : RedactedCheckoutRequest :=
  MkRedactedRequest (cr_tenant_id req) (cr_merchant_id req) (cr_cart_id req)
    (cr_cart_version req) (cr_currency req) (redact_customer <$> cr_customer req)
    (cr_location req) (redact_intent (cr_payment_intent req)) (cr_idempotency_key req).

(** ** What a cart command returns *)

Section ownership.
Context {B : Backend} {L : BackendLaws B} (env : Env) (self : RunnerConfig B).
Implicit Types w v : World B.

(** The cart a command works on: the one its payload names, or the argument. *)
Definition addressed (cmd : CartCommand) (id : option CartId) : option CartId :=
  match cmd with
  | CreateCart _ => None
  | _ => or_else (cart_id_from_command cmd) id
  end.

(** The owner of a returned cart is the owner of the stored one. *)
Definition returns_owner (cmd : CartCommand) (id : option CartId) w
    (r : result CartProjection RunnerError) (_ : World B) : Prop :=
  forall q, r = Ok q ->
  match cmd with
  | CreateCart p => cp_tenant_id q = cc_tenant_id p
  | _ => exists c p, addressed cmd id = Some c
           /\ get_cart_snapshot c (w_events w) = Some p /\ cp_tenant_id q = cp_tenant_id p
  end.

Lemma item_returns_owner cmd c w r v :
  is_item_command cmd = true -> item_post self cmd c w r v -> returns_owner cmd (Some c) w r v.
Proof.
  intros Hi Hr q ->. destruct Hr as (p & ev & Hp & _ & Hs & _).
  apply so_tenant in Hs. cbn in Hs. destruct cmd; try done; by exists c, p.
Qed.

Lemma dispatch_returns_owner cmd id w :
  snapshots_ok (w_events w) ->
  wp (dispatch_cart_command env self cmd id) (returns_owner cmd id w) w.
Proof.
  intros Hok. destruct (is_item_command cmd) eqn:Hi.
  - destruct id as [c|].
    + eapply wp_mono; [by apply item_command_spec|]. eauto using item_returns_owner.
    + unfold dispatch_cart_command. destruct (negb _); [by destruct cmd; wp_prims|].
      destruct cmd; try done; by wp_prims.
  - unfold dispatch_cart_command. destruct (negb _); [by wp_prims|].
    destruct cmd; try done.
    + eapply wp_mono; [apply cmd_create_cart_spec|].
      intros r v [_ Hr] q ->. by destruct Hr as (-> & _).
    + rewrite wp_load_cart. destruct (get_cart_snapshot _ _) as [p0|] eqn:Hp; [|done].
      intros q [= <-]. by exists (gc_cart_id p), p0.
    + eapply wp_mono; [by apply cmd_start_checkout_spec|].
      intros r v [[_ Hr] _] q ->. destruct Hr as (p0 & Hp & -> & _). by exists (sc_cart_id p), p0.
    + eapply wp_mono; [by apply cmd_cancel_cart_spec|].
      intros r v [_ Hr] q ->. destruct Hr as (p0 & Hp & -> & _). by exists (xc_cart_id p), p0.
    + destruct id as [c|]; [|by wp_prims].
      eapply wp_mono; [by apply cmd_set_fulfillment_spec|]. intros r v [_ Hr] q ->.
      destruct Hr as (old & _ & _ & Hp & _ & _ & _ & Hs & _). apply so_tenant in Hs.
      by exists c, old.
Qed.
End ownership.

(** ** The tenant guard *)

Section guards.
Context {B : Backend} {L : BackendLaws B} (env : Env) (parse : string -> option ConsentProof)
  (issuers : option string) (self : OrchestratorFacade B).
Implicit Types w v : World B.

Definition owned_by (tenant : string) (c : CartId) w : Prop :=
  forall p, cart_snapshot c w = Some p -> cp_tenant_id p = Some tenant.

Lemma wp_assert tenant c (Q : result unit FacadeError -> World B -> Prop) w :
  wp (assert_cart_belongs_to tenant c) Q w <->
  if match cart_snapshot c w with
     | Some p => bool_decide (cp_tenant_id p = Some tenant)
     | None => true
     end
  then Q (Ok tt) w else Q (Err (FAuthz TenantMismatch)) w.
Proof.
  unfold assert_cart_belongs_to. wp_prims. destruct (cart_snapshot c w); [|by wp_prims].
  destruct (bool_decide _); by wp_prims.
Qed.

Lemma wp_from_runner {A} (m : M A) (Q : result A FacadeError -> World B -> Prop) w :
  wp (from_runner m) Q w <-> wp m (fun r v => Q (map_err FRunner r) v) w.
Proof. done. Qed.

(** The dispatch either was refused without effect, or ran on a cart the tenant owns
    (or that does not exist). *)
Definition tenant_outcome tenant cmd id w (r : result CartProjection FacadeError) v : Prop :=
  (r = Err (FAuthz TenantMismatch) /\ v = w)
  \/ (exists r', r = map_err FRunner r'
      /\ dispatch_cart_command env (fc_runner self) (with_tenant tenant cmd) id w = (r', v)
      /\ forall c, or_else id (cart_id_from_command cmd) = Some c -> owned_by tenant c w).

Lemma dispatch_for_tenant_cases tenant cmd id w :
  wp (dispatch_cart_command_for_tenant env self tenant cmd id)
    (tenant_outcome tenant cmd id w) w.
Proof.
  assert (cart_id_from_command (with_tenant tenant cmd) = cart_id_from_command cmd) as Hc
    by (by destruct cmd).
  unfold dispatch_cart_command_for_tenant, tenant_outcome. rewrite Hc. wp_step.
  assert (wp (facade_dispatch env self (with_tenant tenant cmd) id)
    (fun r v => exists r', r = map_err FRunner r'
      /\ dispatch_cart_command env (fc_runner self) (with_tenant tenant cmd) id w = (r', v)) w)
    as Hd.
  { unfold facade_dispatch. apply wp_from_runner. unfold wp. eexists. split; [done|].
    by destruct (dispatch_cart_command _ _ _ _ _). }
  destruct (or_else id (cart_id_from_command cmd)) as [c|].
  - apply wp_assert. destruct (cart_snapshot c w) as [p|] eqn:Hp.
    + destruct (bool_decide_reflect (cp_tenant_id p = Some tenant)) as [Ht|]; [|by left].
      eapply wp_mono; [exact Hd|]. intros r v (r' & -> & Hr). right. exists r'.
      do 2 (split; [done|]). intros c' [= <-] p' Hp'. by simplify_eq.
    + eapply wp_mono; [exact Hd|]. intros r v (r' & -> & Hr). right. exists r'.
      do 2 (split; [done|]). intros c' [= <-] p' Hp'. by simplify_eq.
  - wp_prims. eapply wp_mono; [exact Hd|]. intros r v (r' & -> & Hr). right. exists r'.
    do 2 (split; [done|]). done.
Qed.

(** The two ways of naming a cart do not contradict each other. *)
Definition ids_agree (cmd : CartCommand) (id : option CartId) : Prop :=
  id = None \/ cart_id_from_command cmd = None \/ cart_id_from_command cmd = id.

(** A command for a tenant returns carts of the tenant and touches no others. *)
Definition isolated tenant w (r : result CartProjection FacadeError) v : Prop :=
  (forall q, r = Ok q -> cp_tenant_id q = Some tenant)
  /\ forall c p, cart_snapshot c w = Some p -> cp_tenant_id p <> Some tenant ->
       cart_snapshot c v = Some p
       /\ get_cart_state c (w_events v) = get_cart_state c (w_events w)
       /\ es_events c (w_events v) = es_events c (w_events w).

Lemma dispatch_isolated tenant cmd id w r v :
  snapshots_ok (w_events w) ->
  cart_snapshot (MkCartId (uuid_at env (w_tick w))) w = None ->
  ids_agree cmd id ->
  dispatch_cart_command_for_tenant env self tenant cmd id w = (r, v) ->
  isolated tenant w r v.
Proof.
  intros Hok Hfresh Hagree H. apply (wp_run _ _ _ _ _ (dispatch_for_tenant_cases _ _ _ _)) in H.
  destruct H as [[-> ->]|(r' & -> & Hrun & Hown)]; [done|].
  pose proof (wp_run _ _ _ _ _ (dispatch_returns_owner env (fc_runner self) _ _ _ Hok) Hrun)
    as Hret. pose proof (wp_run _ _ _ _ _ (dispatch_cart_step env (fc_runner self) _ _ _ Hok) Hrun)
    as Hstep. cbv beta in Hret, Hstep. split.
  - intros q. destruct r' as [q'|]; [|done]. intros [= ->]. specialize (Hret q eq_refl).
    destruct cmd; cbn in Hret; try done; destruct Hret as (c & p' & Hc & Hp & ->);
      apply (Hown c); try done; destruct Hagree as [Hi|[Hi|Hi]]; cbn in *; by simplify_eq.
  - intros c p Hp Hn. unfold cart_snapshot in *.
    assert (command_cart env (with_tenant tenant cmd) id w <> Some c) as Hne.
    { intros Hc. assert (or_else id (cart_id_from_command cmd) = Some c \/
        c = MkCartId (uuid_at env (w_tick w))) as [H|H].
      { destruct cmd, Hagree as [Hi|[Hi|Hi]]; cbn in *; simplify_eq; auto. }
      - by apply Hn, (Hown c H).
      - subst. congruence. }
    destruct (command_cart _ _ _ _) as [d|].
    + destruct Hstep as [_ [Hs Ht He] _]. assert (c <> d) by congruence.
      rewrite Hs, Ht, He; done.
    + destruct Hstep as [_ ->]. done.
Qed.

(** C10: tenants are kept apart.  When the cart id a caller passes and the one in
    the command's payload do not contradict each other, a command dispatched for a
    tenant returns only carts of that tenant, and leaves every cart of every other
    tenant, and every cart without an owner, exactly as it was: snapshot, state and
    event log (ids drawn for new carts being fresh). *)
Theorem tenants_are_isolated tenant cmd id w r v :
  snapshots_ok (w_events w) ->
  cart_snapshot (MkCartId (uuid_at env (w_tick w))) w = None ->
  ids_agree cmd id ->
  dispatch_cart_command_for_tenant env self tenant cmd id w = (r, v) ->
  (forall q, r = Ok q -> cp_tenant_id q = Some tenant)
  /\ forall c p, cart_snapshot c w = Some p -> cp_tenant_id p <> Some tenant ->
       cart_snapshot c v = Some p
       /\ get_cart_state c (w_events v) = get_cart_state c (w_events w)
       /\ es_events c (w_events v) = es_events c (w_events w).
Proof. exact (dispatch_isolated tenant cmd id w r v). Qed.
End guards.

(** ** Checkout through the facade *)

Section checkout.
Context {B : Backend} {L : BackendLaws B} (env : Env) (parse : string -> option ConsentProof)
  (issuers : option string) (self : OrchestratorFacade B).
Implicit Types w v : World B.

(** A checkout that moved money charged a settled cart. *)
Lemma paid_cart req w r v :
  key_ok (key_of req) -> snapshots_ok (w_events w) ->
  execute_checkout env (fc_runner self) req w = (r, v) -> payments v <> payments w ->
  checkout_request_ok req
  /\ exists stored cart, get_cart_snapshot (cr_cart_id req) (w_events w) = Some stored
       /\ settled req stored cart.
Proof.
  intros Hk Hok Hrun Hpay. destruct (execute_checkout_outcome _ _ _ _ _ _ Hk Hok Hrun)
    as [| | | |i e e' u Hc Hs|i cart u r' z Hc Hs Hp]; try done.
  - by apply settle_post_idem in Hs as [_ ?].
  - destruct Hs as (_ & _ & _ & (stored & Hst & Hset) & _), Hc as (? & _). eauto.
Qed.

(** Every checkout through the facade, by whether the mandate guard let it pass. *)
Lemma facade_checkout_cases req (Q : result TransactionResult FacadeError -> World B -> Prop) w :
  wp (facade_execute_checkout env parse issuers self req) Q w <->
  if fc_ap2_strict self
  then wp (spend_mandate env parse issuers req) (fun r u =>
         match r with
         | Ok _ => wp (execute_checkout env (fc_runner self) req)
                     (fun r v => Q (map_err FRunner r) v) u
         | Err e => Q (Err e) u
         end) w
  else wp (execute_checkout env (fc_runner self) req) (fun r v => Q (map_err FRunner r) v) w.
Proof. unfold facade_execute_checkout. wp_step. by destruct (fc_ap2_strict self). Qed.

Definition trusted : list string := trusted_issuers_from_env issuers.

(** The proof of the request was verified, and its mandate, not on record as live
    before, is on record after. *)
Definition mandate_spent req w v : Prop :=
  exists text p n1 n2 n3,
    consent_text req = Some text /\ parse text = Some p /\ handler_of req <> None
    /\ proof_ok (clock_at env n1) (clock_at env n2) p req trusted
    /\ (forall x, md_lookup (mandate_id p) (w_mandates w) = Some x ->
          (x <= timestamp (clock_at env n3))%Z)
    /\ md_lookup (mandate_id p) (w_mandates v) = Some (expires_at p).

(** All the guard touches. *)
Definition only_mandates w v : Prop := exists m n, v = set_mandates m (set_tick n w).

Lemma spend_mandate_spec req w :
  wp (spend_mandate env parse issuers req) (fun r v =>
    only_mandates w v
    /\ match r with
       | Ok _ => mandate_spent req w v
       | Err e => (exists msg, e = FAp2Verification msg)
                  \/ exists se, e = FRunner (RunnerStore se)
       end) w.
Proof.
  unfold spend_mandate. do 2 (wp_step; rewrite wp_from_runner, wp_now; cbn [map_err]).
  match goal with |- wp _ _ ?u => set (w2 := u) end.
  assert (only_mandates w w2) as Hw2.
  { by exists (w_mandates w), (S (S (w_tick w))). }
  wp_step. rewrite wp_lift. destruct (verify_ap2_strict _ _ _ _ _) as [[]|msg] eqn:Hv;
    cbn [map_err]; [|by eauto].
  apply verify_ok_iff in Hv as (text & p & Ht & Hp & Hh & Hok).
  unfold extract_ap2_mandate_record. rewrite Ht, Hp. cbn [map_err].
  wp_step. rewrite wp_lift. cbv beta iota. wp_step. rewrite wp_from_runner.
  unfold runner_record_mandate. wp_step. rewrite wp_now. cbv beta iota. rewrite wp_on.
  cbn [mr_mandate_id mr_expires_at w_mandates set_tick].
  change (w_mandates w2) with (w_mandates w). set (t := clock_at env _).
  assert (only_mandates w (set_mandates (snd (record_mandate t (mandate_id p) (expires_at p)
    (w_mandates w))) (set_tick (S (w_tick w2)) w2))) as Hw3 by by do 2 eexists.
  assert ((exists x, md_lookup (mandate_id p) (w_mandates w) = Some x /\ (timestamp t < x)%Z)
    \/ (forall x, md_lookup (mandate_id p) (w_mandates w) = Some x -> (x <= timestamp t)%Z))
    as [(x & Hx & Hlt)|Hfresh].
  { destruct (md_lookup _ _) as [x|]; [|by right].
    destruct (Z.lt_ge_cases (timestamp t) x); [left; eauto|right; by intros ? [= <-]]. }
  - rewrite (mandate_replay t _ (expires_at p) _ _ Hx Hlt). cbn [map_err negb].
    wp_prims. split; [done|]. left. by eexists.
  - destruct (record_mandate t (mandate_id p) (expires_at p) (w_mandates w)) as [r m] eqn:Hr.
    destruct (mandate_fresh _ _ _ _ _ _ Hfresh Hr) as [[->|[se ->]] Hm]; cbn [fst map_err negb].
    + wp_prims. split; [done|].
      exists text, p. do 3 eexists. do 4 (split; [done|]). split; [exact Hfresh|]. done.
    + split; [done|]. right. by eexists.
Qed.
(** A live mandate is not spent twice: the guard answers with an AP2 error. *)
Lemma spend_mandate_replayed req w p text x :
  consent_text req = Some text -> parse text = Some p ->
  md_lookup (mandate_id p) (w_mandates w) = Some x ->
  (forall n, (timestamp (clock_at env n) < x)%Z) ->
  wp (spend_mandate env parse issuers req)
    (fun r v => (exists msg, r = Err (FAp2Verification msg)) /\ only_mandates w v) w.
Proof.
  intros Ht Hp Hx Hlt. unfold spend_mandate.
  do 2 (wp_step; rewrite wp_from_runner, wp_now; cbn [map_err]).
  match goal with |- wp _ _ ?u => set (w2 := u) end.
  wp_step. rewrite wp_lift. destruct (verify_ap2_strict _ _ _ _ _) as [[]|msg];
    cbn [map_err]; [|by split; [eexists|exists (w_mandates w), (S (S (w_tick w)))]].
  unfold extract_ap2_mandate_record. rewrite Ht, Hp. cbn [map_err].
  wp_step. rewrite wp_lift. cbv beta iota. wp_step. rewrite wp_from_runner.
  unfold runner_record_mandate. wp_step. rewrite wp_now. cbv beta iota. rewrite wp_on.
  cbn [mr_mandate_id mr_expires_at w_mandates set_tick].
  change (w_mandates w2) with (w_mandates w).
  rewrite (mandate_replay _ _ _ _ _ Hx (Hlt _)). cbn [map_err negb].
  wp_prims. split; [by eexists|]. by do 2 eexists.
Qed.

(** C19: in strict mode money moves only for a request whose consent proof was
    verified (known mandate type, trusted and complete parties, not expired, bound to
    the payment handler, amount and currency within its limits) and whose mandate
    had not been used while it lived; afterwards the mandate is on record as used. *)
Theorem strict_checkout_spends_a_fresh_mandate req w r v :
  fc_ap2_strict self = true -> key_ok (key_of req) -> snapshots_ok (w_events w) ->
  facade_execute_checkout env parse issuers self req w = (r, v) ->
  payments v <> payments w ->
  mandate_spent req w v.
Proof.
  intros Hstrict Hk Hok Hrun. eapply (wp_run _ (fun _ v => payments v <> payments w ->
    mandate_spent req w v)); [|exact Hrun].
  apply facade_checkout_cases. rewrite Hstrict. wp_use spend_mandate_spec.
  intros [[]|e] u [(m & n & ->) Hs]; [|done]. unfold wp.
  destruct (execute_checkout _ _ _ _) as [r' v'] eqn:Hx. cbn. intros _.
  pose proof (execute_checkout_mandates _ _ _ (set_mandates m (set_tick n w)) _ _ Hk Hok Hx) as Hm.
  destruct Hs as (text & p & n1 & n2 & n3 & ? & ? & ? & ? & ? & Hl).
  exists text, p, n1, n2, n3. by rewrite Hm.
Qed.

(** In strict mode a checkout that succeeded cannot be retried: while its mandate
    lives, the same request with the same idempotency key is refused as a mandate
    replay, although the runner would have returned the stored result. *)
Theorem strict_mode_refuses_retries req record w res v :
  fc_ap2_strict self = true -> key_ok (key_of req) -> snapshots_ok (w_events w) ->
  extract_ap2_mandate_record parse req = Ok record ->
  (forall n, (timestamp (clock_at env n) < mr_expires_at record)%Z) ->
  facade_execute_checkout env parse issuers self req w = (Ok res, v) ->
  (exists msg u, facade_execute_checkout env parse issuers self req v
                 = (Err (FAp2Verification msg), u) /\ payments u = payments v)
  /\ execute_checkout env (fc_runner self) req v = (Ok res, v).
Proof.
  intros Hstrict Hk Hok Hex Hlive Hrun.
  assert (wp (facade_execute_checkout env parse issuers self req) (fun r v =>
    r = Ok res -> mandate_spent req w v
      /\ exists u, snapshots_ok (w_events u)
           /\ execute_checkout env (fc_runner self) req u = (Ok res, v)) w) as H.
  { apply facade_checkout_cases. rewrite Hstrict. wp_use spend_mandate_spec.
    intros [[]|e] u [(m & n & ->) Hs]; [|done]. unfold wp.
    destruct (execute_checkout _ _ _ _) as [[res'|e] v'] eqn:Hx; [|done]. cbn. intros [= ->].
    pose proof (execute_checkout_mandates _ _ _ (set_mandates m (set_tick n w)) _ _ Hk Hok Hx) as Hm.
    split; [|by exists (set_mandates m (set_tick n w))].
    destruct Hs as (text & p & n1 & n2 & n3 & ? & ? & ? & ? & ? & Hl).
    exists text, p, n1, n2, n3. by rewrite Hm. }
  destruct (wp_run _ _ _ _ _ H Hrun eq_refl) as [Hspent (u & Hoku & Hx)]. split.
  - destruct Hspent as (text & p & _ & _ & _ & Ht & Hp & _ & _ & _ & Hl).
    unfold extract_ap2_mandate_record in Hex. rewrite Ht, Hp in Hex. injection Hex as <-.
    assert (wp (facade_execute_checkout env parse issuers self req) (fun r v' =>
      (exists msg, r = Err (FAp2Verification msg)) /\ payments v' = payments v) v) as Hr.
    { apply facade_checkout_cases. rewrite Hstrict.
      wp_use (spend_mandate_replayed _ _ _ _ _ Ht Hp Hl Hlive).
      intros r v' [[msg ->] (m & n & ->)]. split; [by eexists|done]. }
    pose proof (run_pair (facade_execute_checkout env parse issuers self req v)) as E.
    destruct (wp_run _ _ _ _ _ Hr E) as [[msg Hm] Hpay]. rewrite Hm in E. eauto.
  - destruct (completed_key _ _ _ _ _ _ Hk Hoku Hx) as [Hval Hl]. by apply replay_completed.
Qed.

(** In strict mode no machine-payment checkout ever succeeds, nor moves money:
    the guard wants a payment handler and the validator forbids one. *)
Theorem strict_mode_refuses_machine_payments req w r v :
  fc_ap2_strict self = true ->
  pi_payment_method_type (cr_payment_intent req) = Some Mpp ->
  facade_execute_checkout env parse issuers self req w = (r, v) ->
  (exists e, r = Err e) /\ payments v = payments w.
Proof.
  intros Hstrict Hmpp Hrun. eapply (wp_run _ (fun r v => (exists e, r = Err e)
    /\ payments v = payments w)); [|exact Hrun].
  apply facade_checkout_cases. rewrite Hstrict. wp_use spend_mandate_spec.
  intros [[]|e] u [(m & n & ->) Hs]; [|by eauto].
  destruct Hs as (_ & _ & _ & _ & _ & _ & _ & Hh & _).
  unfold execute_checkout. destruct (valid _) eqn:Hval; cbn [negb];
    [|wp_prims; by split; [eexists|]].
  apply valid_request in Hval as (_ & _ & _ & _ & _ & (_ & _ & _ & _ & _ & Hm)).
  destruct (Hm Hmpp) as (_ & _ & _ & Hn). unfold handler_of in Hh. by rewrite Hn in Hh.
Qed.

(** A caller can only spend on a cart of its own tenant: an authorized checkout
    that moved money was asked for by a caller with the [checkout:execute] scope, for
    the caller's tenant, on a cart that belongs to that tenant or to none. *)
Theorem authorized_checkout_stays_in_tenant context req w r v :
  fc_ap2_strict self = false -> key_ok (key_of req) -> snapshots_ok (w_events w) ->
  execute_checkout_authorized env parse issuers self context req w = (r, v) ->
  payments v <> payments w ->
  "checkout:execute" ∈ ax_scopes context /\ ax_tenant_id context = cr_tenant_id req
  /\ exists cart, cart_snapshot (cr_cart_id req) w = Some cart
       /\ (cp_tenant_id cart = None \/ cp_tenant_id cart = Some (ax_tenant_id context)).
Proof.
  intros Hstrict Hk Hok Hrun. eapply (wp_run _ (fun _ v => payments v <> payments w -> _));
    [|exact Hrun].
  unfold execute_checkout_authorized. wp_step. rewrite wp_lift. unfold authorize_checkout.
  destruct (any _ _) eqn:Hscope; cbn [negb]; [|done].
  destruct (String.eqb_spec (ax_tenant_id context) (cr_tenant_id req)) as [Ht|]; cbn [negb]; [|done].
  cbn [map_err]. apply facade_checkout_cases. rewrite Hstrict. unfold wp.
  destruct (execute_checkout _ _ _ _) as [r' v'] eqn:Hx. cbn. intros Hpay.
  destruct (paid_cart _ _ _ _ Hk Hok Hx Hpay) as (_ & stored & cart & Hst & Hset).
  split; [|split; [done|]].
  - unfold any in Hscope. apply existsb_elem in Hscope as (s & Hs & He).
    apply String.eqb_eq in He. by subst.
  - exists stored. split; [done|]. rewrite Ht. pose proof (se_tenant _ _ _ Hset) as Hten.
    by rewrite (so_tenant _ _ (se_same _ _ _ Hset)) in Hten.
Qed.
End checkout.

(** What a log line may depend on. *)
Definition public_intent (i : PaymentIntent) : Z * option string * bool :=
  (pi_amount_minor i, pi_payment_handler_id i, is_some (pi_ap2_consent_proof i)).

Definition public_customer (c : CustomerHint) : bool * bool :=
  (is_some (ch_email c), is_some (ch_full_name c)).

Lemma redacted_option (a b : option string) :
  ((fun _ => REDACTED) <$> a = (fun _ => REDACTED) <$> b) <-> is_some a = is_some b.
Proof. by destruct a, b. Qed.

Lemma redacted_customer (a b : option CustomerHint) :
  redact_customer <$> a = redact_customer <$> b <-> public_customer <$> a = public_customer <$> b.
Proof.
  destruct a as [a|], b as [b|]; cbn; try done. unfold redact_customer, public_customer.
  split; intros [= H1 H2]; [rewrite redacted_option in H1, H2; congruence|].
  by rewrite <- redacted_option in H1, H2; f_equal; f_equal.
Qed.

(** What is logged of a checkout tells nothing about its secrets: the redacted
    forms of two requests are equal exactly when the requests agree on what is not
    secret.  The payment credential, the text of the consent proof and the customer's
    email and name are not among it, beyond whether the last three are present. *)
Theorem redaction_hides_secrets a b :
  redact_checkout_request a = redact_checkout_request b <->
  cr_tenant_id a = cr_tenant_id b /\ cr_merchant_id a = cr_merchant_id b
  /\ cr_cart_id a = cr_cart_id b /\ cr_cart_version a = cr_cart_version b
  /\ cr_currency a = cr_currency b /\ cr_location a = cr_location b
  /\ cr_idempotency_key a = cr_idempotency_key b
  /\ public_intent (cr_payment_intent a) = public_intent (cr_payment_intent b)
  /\ public_customer <$> cr_customer a = public_customer <$> cr_customer b.
Proof.
  unfold redact_checkout_request, public_intent, redact_intent. split.
  - intros [= H1 H2 H3 H4 H5 H6 H7 H8 H9 H10 H11]. rewrite redacted_customer in H6.
    rewrite redacted_option in H9. repeat split; congruence.
  - intros (-> & -> & -> & -> & -> & -> & -> & [= -> -> Hp] & Hc%redacted_customer).
    apply redacted_option in Hp. by rewrite Hc, Hp.
Qed.

(** ** Witnesses *)

Definition demo_facade (strict : bool) : OrchestratorFacade memory_backend :=
  MkFacade demo_runner strict None None.

Definition no_proofs (_ : string) : option ConsentProof := None.

Lemma tenants_are_isolated_witness :
  exists q v, dispatch_cart_command_for_tenant demo_env (demo_facade false) "t1"
      (AddItem (MkAddItem "sku" 3)) (Some demo_cart) filled_world = (Ok q, v)
    /\ cp_tenant_id q = Some "t1".
Proof.
  destruct (dispatch_cart_command_for_tenant demo_env (demo_facade false) "t1"
    (AddItem (MkAddItem "sku" 3)) (Some demo_cart) filled_world) as [[q|e] v] eqn:H;
    [|wrong_result H].
  exists q, v. split; [reflexivity|].
  assert (cart_snapshot (MkCartId (uuid_at demo_env (w_tick filled_world))) filled_world = None)
    as Hf by (vm_compute; reflexivity).
  assert (ids_agree (AddItem (MkAddItem "sku" 3)) (Some demo_cart)) as Ha by (right; left; reflexivity).
  exact (proj1 (tenants_are_isolated demo_env (demo_facade false) "t1" _ _ filled_world _ v
    filled_world_ok Hf Ha H) q eq_refl).
Defined.

(** A clock that stands still, before the demo mandate expires. *)
Definition still_env : Env :=
  MkEnv (fun n => N.of_nat n) (fun u => pretty u) (fun _ => MkClock 5000000000 5000000000).

Definition strict_request : CheckoutRequest :=
  MkCheckoutRequest "t1" "m1" demo_cart 2 "USD" None None
    (MkPaymentIntent 2200 "tok" (Some "{}") (Some "handler") None None None) "k1".

Definition strict_checkout (w : World memory_backend) :=
  facade_execute_checkout still_env (fun _ => Some demo_proof) (Some "bank") (demo_facade true)
    strict_request w.

Lemma strict_checkout_spends_a_fresh_mandate_witness :
  mandate_spent still_env (fun _ => Some demo_proof) (Some "bank") strict_request filled_world
    (snd (strict_checkout filled_world)).
Proof.
  apply (strict_checkout_spends_a_fresh_mandate still_env (fun _ => Some demo_proof) (Some "bank")
    (demo_facade true) strict_request filled_world _ _ eq_refl (demo_key _) filled_world_ok
    (run_pair _)).
  intros H. apply (f_equal (@length _)) in H. vm_compute in H. discriminate H.
Defined.

Lemma strict_mode_refuses_retries_witness :
  exists res v msg u, strict_checkout filled_world = (Ok res, v)
    /\ strict_checkout v = (Err (FAp2Verification msg), u).
Proof.
  destruct (strict_checkout filled_world) as [[res|e] v] eqn:H; [|wrong_result H].
  assert (forall n, (timestamp (clock_at still_env n) < 2000000000)%Z) as Hl
    by (intros n; vm_compute; reflexivity).
  destruct (strict_mode_refuses_retries still_env (fun _ => Some demo_proof) (Some "bank")
    (demo_facade true) strict_request (MkMandateRecord "m-1" 2000000000) filled_world res v
    eq_refl (demo_key _) filled_world_ok eq_refl Hl H) as [(msg & u & Hr & _) _].
  exists res, v, msg, u. split; [reflexivity|exact Hr].
Defined.

Definition mpp_request : CheckoutRequest :=
  MkCheckoutRequest "t1" "m1" demo_cart 2 "USD" None None
    (MkPaymentIntent 2200 "tok" None None (Some Mpp) (Some "card") (Some "pi_1")) "k1".

Lemma strict_mode_refuses_machine_payments_witness :
  exists e, fst (facade_execute_checkout still_env (fun _ => Some demo_proof) (Some "bank")
                   (demo_facade true) mpp_request filled_world) = Err e.
Proof.
  exact (proj1 (strict_mode_refuses_machine_payments still_env (fun _ => Some demo_proof)
    (Some "bank") (demo_facade true) mpp_request filled_world _ _ eq_refl eq_refl (run_pair _))).
Defined.

Definition demo_caller : AuthContext := MkAuthContext "alice" "t1" ["checkout:execute"].

Lemma authorized_checkout_stays_in_tenant_witness :
  exists cart, cart_snapshot demo_cart filled_world = Some cart
    /\ (cp_tenant_id cart = None \/ cp_tenant_id cart = Some "t1").
Proof.
  refine (proj2 (proj2 (authorized_checkout_stays_in_tenant demo_env no_proofs None
    (demo_facade false) demo_caller (demo_request 2 2200 "k1") filled_world _ _ eq_refl
    (demo_key _) filled_world_ok (run_pair _) _))).
  intros H. apply (f_equal (@length _)) in H. vm_compute in H. discriminate H.
Defined.
