(* ===== verification/Consent.v ===== *)
(** * Consent under contention ([orchestrator-api/src/facade.rs]: [execute_checkout])

    Checkouts come in through the facade, which in strict mode verifies the consent proof of the
    request and records its mandate before the runner starts.  Here that guard is a program too, in
    front of the checkout of [Interleave.v], and any number of guarded checkouts run at once.  The
    proof that a mandate pays once is a count of permissions: recording the mandate is what creates
    the permission to authorize one payment, and every step keeps the sum. *)

From S2P Require Export Concurrency Facade.

Lemma leaves_from_runner {B : Backend} (R : World B -> World B -> Prop) {A} (x : M (B:=B) A) :
  leaves R x -> leaves R (from_runner x).
Proof. done. Qed.
#[export] Hint Resolve leaves_from_runner : apart.

(** ** The guarded checkout, stopping at every interaction *)

Section operations.
Context {B : Backend} (env : Env) (parse_proof : string -> option ConsentProof)
  (trusted_issuers : option string) (self : OrchestratorFacade B).

Definition spend_mandate_prog (request : CheckoutRequest) : Prog B FacadeError unit :=
  let trusted := trusted_issuers_from_env trusted_issuers in
  t1 ← act (from_runner (now env));
  t2 ← act (from_runner (now env));
  _ ← Done (map_err FAp2Verification (verify_ap2_strict parse_proof trusted t1 t2 request));
  record ← Done (map_err FAp2Verification (extract_ap2_mandate_record parse_proof request));
  accepted ← act (from_runner
    (runner_record_mandate env (mr_mandate_id record) (mr_expires_at record)));
  if negb accepted then Done (Err replay_error) else mret tt.

Definition facade_checkout_prog (request : CheckoutRequest)
  : Prog B FacadeError TransactionResult :=
  _ ← (if fc_ap2_strict self then spend_mandate_prog request else mret tt);
  prog_map_err FRunner (execute_checkout_prog env (fc_runner self) request).

Definition authorized_checkout_prog (context : AuthContext) (request : CheckoutRequest)
  : Prog B FacadeError TransactionResult :=
  _ ← Done (map_err FAuthz (authorize_checkout context request));
  facade_checkout_prog request.

Lemma runs_map_err {A} (p : Prog B RunnerError A) m :
  runs_as p m -> runs_as (prog_map_err FRunner p) (from_runner m).
Proof. intros H w. by rewrite prog_run_map_err, H. Qed.

Lemma runs_spend req :
  runs_as (spend_mandate_prog req) (spend_mandate env parse_proof trusted_issuers req).
Proof. unfold spend_mandate_prog, spend_mandate. runs. Qed.

Lemma runs_facade_checkout req :
  runs_as (facade_checkout_prog req)
    (facade_execute_checkout env parse_proof trusted_issuers self req).
Proof.
  unfold facade_checkout_prog, facade_execute_checkout. apply runs_bind.
  - destruct (fc_ap2_strict self); [apply runs_spend|apply runs_ret].
  - intros _. apply runs_map_err, runs_execute_checkout.
Qed.

Lemma runs_authorized_checkout context req :
  runs_as (authorized_checkout_prog context req)
    (execute_checkout_authorized env parse_proof trusted_issuers self context req).
Proof. apply runs_bind; [apply runs_done|]. intros _. apply runs_facade_checkout. Qed.
End operations.

(** ** A mandate and the payments asked for under it *)

Section watch.
Context {B : Backend} {L : BackendLaws B} (parse : string -> option ConsentProof)
  (m : string) (X : Z).
Implicit Types w v : World B.

Definition carries (req : CheckoutRequest) : bool :=
  match extract_ap2_mandate_record parse req with
  | Ok record => String.eqb (mr_mandate_id record) m
  | Err _ => false
  end.

Definition asks (c : ProviderCall) : bool :=
  match c with CallAuthorize r => carries r | _ => false end.

(** Authorizations asked for with the mandate. *)
Definition asked w : nat := length (List.filter asks (w_trace w)).

Lemma asked_call c w : asked (called c w) = (asked w + if asks c then 1 else 0)%nat.
Proof. unfold asked. cbn. rewrite List.filter_app, length_app. cbn. by destruct (asks c). Qed.

(** The mandate is on record, for longer than the clock will show. *)
Definition spent w : nat :=
  match md_lookup m (w_mandates w) with
  | Some x => if (X <=? x)%Z then 1 else 0
  | None => 0
  end.

(** A step that neither asks under the mandate nor touches the record. *)
Definition unasked w v : Prop := w_mandates v = w_mandates w /\ asked v = asked w.

#[export] Instance unasked_watch : Watch unasked.
Proof.
  split.
  - split; [by intros w|]. intros u v w [H1 H2] [H3 H4]. split; congruence.
  - intros w v _ Hm Ht. unfold unasked, asked. by rewrite Hm, Ht.
  - intros c w Hc. split; [done|]. rewrite asked_call. destruct c; try done; cbn; lia.
Qed.

(** A request is barred, or was let pass and may still ask for so many authorizations. *)
Inductive Pass := Barred | Cleared (left : nat).
Definition budget (l : Pass) : nat := match l with Barred => 0 | Cleared n => n end.
Definition cleared (l : Pass) : nat := match l with Barred => 0 | Cleared _ => 1 end.

(** What a step may do: permissions come from recording the mandate alone. *)
Definition pass_step w v (l l' : Pass) : Prop :=
  (spent w <= spent v)%nat
  /\ (budget l' + asked v + spent w <= budget l + asked w + spent v)%nat
  /\ (cleared l' + spent w <= cleared l + spent v)%nat.

Lemma pass_unasked w v l : unasked w v -> pass_step w v l l.
Proof. intros [Hm Ha]. unfold pass_step, spent. rewrite Hm, Ha. lia. Qed.

(** Programs that keep to the permissions, and steps that have no part in them. *)
Abbreviation keeps := (within pass_step).

Lemma keeps_apart {E A} (Q : result A E -> Pass -> Prop) l p :
  apart unasked p -> (forall r, Q r l) -> keeps Q l p.
Proof. apply within_apart, pass_unasked. Qed.

Lemma keeps_then {E A C} (Q : result C E -> Pass -> Prop) (f : A -> Prog B E C) p l :
  apart unasked p -> (forall e, Q (Err e) l) -> (forall a, keeps Q l (f a)) -> keeps Q l (p ≫= f).
Proof. apply within_then, pass_unasked. Qed.
End watch.
Abbreviation keeps parse m X := (within (pass_step parse m X)).

(** ** The programs keep to the permissions *)

Section programs.
Context {B : Backend} {L : BackendLaws B} (env : Env) (parse : string -> option ConsentProof)
  (issuers : option string) (self : OrchestratorFacade B) (m : string) (X : Z).
Implicit Types w v : World B.

Section checkout.
Context (req : CheckoutRequest).

Lemma leaves_idem {A} (op : ST IdemS StoreError A) :
  leaves (unasked (B:=B) parse m) (on w_idem set_idem op).
Proof. by intros w. Qed.

Lemma leaves_unasked {A E} c (f : nat -> result A E) conv :
  asks parse m c = false -> leaves (unasked (B:=B) parse m) (call c f conv).
Proof. intros Hc w. split; [done|]. change (asked parse m (called c w) = asked parse m w).
  rewrite asked_call, Hc. lia. Qed.

Lemma leaves_capture_asked {A E} (f : nat -> result A E) conv r :
  leaves (unasked (B:=B) parse m) (call (CallCapture r) f conv).
Proof. by apply leaves_unasked. Qed.
#[local] Hint Resolve leaves_idem leaves_capture_asked : apart.

Lemma unasked_unpaid res : apart (unasked (B:=B) parse m) (finish_unpaid_prog req res).
Proof. unfold finish_unpaid_prog. apart. Qed.

Lemma unasked_complete cart st auth :
  apart (unasked parse m) (complete_checkout_prog env (fc_runner self) req cart st auth).
Proof. unfold complete_checkout_prog. apart. Qed.
#[local] Hint Resolve unasked_unpaid unasked_complete : apart.

Definition through {E A} (r : result A E) (l : Pass) : Prop := cleared l = 1%nat.

Lemma within_authorize {A E C} (f : nat -> result A E) conv (g : A -> Prog B RunnerError C) Q :
  (forall e, Q (Err e) (Cleared 0)) -> (forall a, keeps parse m X Q (Cleared 0) (g a)) ->
  keeps parse m X Q (Cleared 1) (act (call (CallAuthorize req) f conv) ≫= g).
Proof.
  intros He Hg. apply within_bind. intros w. exists (Cleared 0). split.
  - unfold pass_step. change (snd (call (CallAuthorize req) f conv w)) with (called (CallAuthorize req) w).
    change (spent m X (called _ w)) with (spent m X w). rewrite asked_call.
    destruct (asks _ _ _); cbn [budget cleared]; lia.
  - cbn [within act]. destruct (fst _) as [a|e]; auto.
Qed.

(** A checkout asks for one authorization at most. *)
Lemma within_pay cart :
  keeps parse m X through (Cleared 1) (pay_checkout_prog env (fc_runner self) req cart).
Proof.
  unfold pay_checkout_prog. do 5 (apply keeps_then; [apart|done|intros ?]). case_match.
  - apply within_authorize; [done|]. intros auth. apply keeps_apart; [|done].
    unfold decline_checkout_prog. apart.
  - apply keeps_apart; [|done]. unfold reject_checkout_prog. apart.
Qed.

Lemma within_checkout :
  keeps parse m X through (Cleared 1) (execute_checkout_prog env (fc_runner self) req).
Proof.
  unfold execute_checkout_prog. case_match; [done|]. apply keeps_then; [apart|done|].
  intros [[]|]; [done..|]. apply within_catch, keeps_apart; [apart|].
  intros [cart|e]; [apply within_pay|]. apply keeps_apart; [apart|done].
Qed.

(** A checkout that carries another mandate or none asks for nothing under this one. *)
Lemma unasked_checkout :
  carries parse m req = false ->
  apart (unasked parse m) (execute_checkout_prog env (fc_runner self) req).
Proof.
  intros Hc. assert (forall A E (f : nat -> result A E) conv,
    leaves (unasked (B:=B) parse m) (call (CallAuthorize req) f conv)) as Ha
    by (intros; by apply leaves_unasked).
  assert (forall cart, apart (unasked parse m) (pay_checkout_prog env (fc_runner self) req cart)) as Hp.
  { intros cart. unfold pay_checkout_prog, reject_checkout_prog, decline_checkout_prog. apart. }
  unfold execute_checkout_prog. apart.
Qed.
End checkout.

(** *** The guard *)

Context (Hclock : forall n, (timestamp (clock_at env n) < X)%Z).

(** Where recording a mandate leaves a request. *)
Definition let_pass w v : Pass :=
  if decide (spent m X w = 0 /\ spent m X v = 1)%nat then Cleared 1 else Barred.

Lemma spent_le w : (spent m X w <= 1)%nat.
Proof. unfold spent. repeat case_match; lia. Qed.

Lemma record_passes id e w :
  let run := runner_record_mandate env id e w in
  pass_step parse m X w (snd run) Barred (let_pass w (snd run))
  /\ (fst run = Ok true -> id = m -> (X <= e)%Z -> let_pass w (snd run) = Cleared 1).
Proof.
  cbv zeta. unfold runner_record_mandate, mbind, ST_bind. cbn [now fst snd on].
  set (t := clock_at env (w_tick w)). cbn [w_mandates set_tick].
  set (run := record_mandate t id e (w_mandates w)). set (v := set_mandates _ _).
  assert (asked parse m v = asked parse m w) as Ha by done.
  assert (md_lookup m (w_mandates v) = md_lookup m (snd run)) as Hv by done.
  pose proof (Hclock (w_tick w)) as Ht. fold t in Ht.
  assert (spent m X w = 1%nat -> spent m X v = 1%nat /\ (id = m -> fst run = Ok false)) as Hkeep.
  { unfold spent. rewrite Hv. destruct (md_lookup m (w_mandates w)) as [x|] eqn:Hx; [|done].
    destruct (Z.leb_spec X x); [|done]. intros _.
    unfold run. rewrite (mandate_keeps t id e m _ x Hx) by lia.
    rewrite (proj2 (Z.leb_le X x)) by done. split; [done|]. intros ->.
    apply (mandate_replay t m e _ x Hx). lia. }
  pose proof (spent_le w) as Hw. pose proof (spent_le v) as Hw'. split.
  - unfold pass_step, let_pass. rewrite Ha. case_decide; cbn; [lia|].
    destruct (decide (spent m X w = 1%nat)) as [Hs|]; [apply Hkeep in Hs|]; lia.
  - intros Hrun -> He. unfold let_pass. rewrite decide_True; [done|].
    destruct (decide (spent m X w = 1%nat)) as [Hs|].
    { apply Hkeep in Hs as [_ Hf]. rewrite Hf in Hrun by done. discriminate Hrun. }
    split; [lia|]. destruct run as [r s'] eqn:Hr. cbn [fst snd] in *.
    assert (forall x, md_lookup m (w_mandates w) = Some x -> (x <= timestamp t)%Z) as Hdead.
    { intros x Hx. destruct (Z.le_gt_cases x (timestamp t)) as [|Hlt]; [done|].
      pose proof (mandate_replay t m e _ x Hx ltac:(lia)) as Hf. fold run in Hf.
      rewrite Hr in Hf. destruct r as [b|]; cbn in *; congruence. }
    destruct (mandate_fresh t m e _ _ _ Hdead Hr) as [_ Hm].
    unfold spent. rewrite Hv, Hm. by rewrite (proj2 (Z.leb_le X e)).
Qed.

(** A proof of the mandate is good for as long as the clock will show. *)
Definition outlasts (req : CheckoutRequest) : Prop :=
  forall record, extract_ap2_mandate_record parse req = Ok record ->
    mr_mandate_id record = m -> (X <= mr_expires_at record)%Z.

Lemma within_spend req :
  outlasts req ->
  keeps parse m X (fun r l => is_ok r = true -> carries parse m req = true -> l = Cleared 1) Barred
    (spend_mandate_prog env parse issuers req).
Proof.
  intros Hout. unfold spend_mandate_prog. do 3 (apply keeps_then; [apart|done|intros ?]).
  unfold carries. unfold outlasts in Hout.
  destruct (extract_ap2_mandate_record parse req) as [record|e]; [|done].
  specialize (Hout record eq_refl). cbn [map_err]. apply within_bind. intros w.
  pose proof (record_passes (mr_mandate_id record) (mr_expires_at record) w) as [Hstep Hok].
  eexists. split; [exact Hstep|]. cbn.
  destruct (fst (runner_record_mandate _ _ _ _)) as [[]|e]; [|done..].
  cbn. intros _ Hc. apply String.eqb_eq in Hc. auto.
Qed.

(** An answer with a result, under the mandate, was let pass. *)
Definition passed (req : CheckoutRequest) {E} (r : result TransactionResult E) (l : Pass) : Prop :=
  carries parse m req = true -> is_ok r = true -> cleared l = 1%nat.

Lemma within_facade_checkout req :
  fc_ap2_strict self = true -> outlasts req ->
  keeps parse m X (passed req) Barred (facade_checkout_prog env parse issuers self req).
Proof.
  intros Hstrict Hout. unfold facade_checkout_prog. rewrite Hstrict. apply within_bind.
  eapply within_mono; [|by apply within_spend]. intros [[]|e] l Hl; [|done].
  destruct (carries parse m req) eqn:Hc.
  - rewrite Hl by done. eapply within_map_err; [|apply within_checkout]. by intros r l' Hr _ _.
  - apply keeps_apart; [apply apart_map_err, unasked_checkout, Hc|].
    unfold passed. by rewrite Hc.
Qed.
End programs.

(** *** Keys *)

(** Through the facade too, whether strict or not, a checkout keeps to the moves of its key. *)
Lemma facade_keeps_keys {B : Backend} {L : BackendLaws B} env parse issuers
    (self : OrchestratorFacade B) :
  keeps_keys (facade_checkout_prog env parse issuers self).
Proof.
  intros k req Hk Hreq. unfold facade_checkout_prog.
  assert (apart (aside (B:=B) k) (spend_mandate_prog env parse issuers req)) as Hs.
  { assert (forall id e, leaves (aside (B:=B) k) (runner_record_mandate env id e)) by done.
    unfold spend_mandate_prog. apart. }
  assert (apart (aside k) (if fc_ap2_strict self then spend_mandate_prog env parse issuers req
    else mret tt)) as Hg by by destruct (fc_ap2_strict self).
  pose proof (checkout_keeps_keys env (fc_runner self) k req Hk Hreq) as Hc. case_decide.
  - apply safe_then; [done|]. intros _. eapply safe_map_err; [|exact Hc]. by intros [res|e] l.
  - apply apart_bind; [done|]. intros _. by apply apart_map_err.
Qed.

(** ** Any number of guarded checkouts *)

Section pool.
Context {B : Backend} {L : BackendLaws B} (env : Env) (parse : string -> option ConsentProof)
  (issuers : option string) (self : OrchestratorFacade B) (m : string) (X : Z).
Implicit Types w v : World B.

(** The rest of the process neither asks under the mandate nor forgets it. *)
Definition consent_step : relation (list (Thread B FacadeError) * World B) :=
  thread_step (facade_checkout_prog env parse issuers self) (outlasts parse m X)
    (fun w v => asked parse m v = asked parse m w
                /\ md_lookup m (w_mandates v) = md_lookup m (w_mandates w)).

Definition passes (ls : list Pass) w : Prop :=
  (weigh budget ls + asked parse m w <= spent m X w)%nat
  /\ (weigh cleared ls <= spent m X w)%nat.

Lemma passes_step ls w v i l l' :
  passes ls w -> ls !! i = Some l -> pass_step parse m X w v l l' -> passes (<[i := l']> ls) v.
Proof.
  intros [H1 H2] Hi (Hs & Hb & Hc).
  pose proof (weigh_insert budget ls i l l' Hi). pose proof (weigh_insert cleared ls i l l' Hi).
  split; lia.
Qed.

Definition consent_ok (s : list (Thread B FacadeError) * World B) : Prop :=
  exists ls, passes ls (snd s)
    /\ Forall2 (fun t l => match snd t with
                           | Some p => keeps parse m X (passed parse m (fst t)) l p
                           | None => True end) (fst s) ls.

Lemma consent_steps_ok s s' :
  fc_ap2_strict self = true -> (forall n, (timestamp (clock_at env n) < X)%Z) ->
  rtc consent_step s s' -> consent_ok s -> consent_ok s'.
Proof.
  intros Hstrict Hclock Hs. refine (threads_invariant _ _ _ (fun _ => Barred)
    (fun req l p => keeps parse m X (passed parse m req) l p) (fun _ l => l) passes
    _ _ _ _ _ _ _ Hs).
  - intros req Hout. by apply within_facade_checkout.
  - intros ls w req [H1 H2] _. split; rewrite weigh_app; cbn; lia.
  - intros ls w i l req upd next Hp Hi Hv. destruct (Hv w) as (l' & Hstep & Hv').
    exists l'. split; [done|]. by eapply passes_step.
  - intros ls w i l req Hp Hi. by rewrite list_insert_id.
  - intros ls w v [H1 H2] [Ha Hm]. unfold passes, spent in *. by rewrite Ha, Hm.
Qed.

(** Request [i] carries the mandate and was answered with the result. *)
Definition consented (ts : list (Thread B FacadeError)) (i : nat) (res : TransactionResult)
  : Prop :=
  exists req, ts !! i = Some (req, Some (Done (Ok res))) /\ carries parse m req = true.
End pool.

(** ** Properties *)

(** C5: consent pays once, also under contention.  In strict mode, however many checkouts arrive,
    interleave at their awaits and are dropped half way, and whatever else the process does in
    between: under a mandate that was not on record, and whose proofs outlast the run, the payment
    provider is asked for at most one authorization, and then the mandate is on record; and of all
    the requests that carry the mandate, under whatever idempotency keys, at most one is answered
    with a result. *)
Theorem concurrent_mandates_pay_once {B : Backend} {L : BackendLaws B} env parse issuers
    (self : OrchestratorFacade B) m X (w0 w : World B) ts :
  fc_ap2_strict self = true -> (forall n, (timestamp (clock_at env n) < X)%Z) ->
  md_lookup m (w_mandates w0) = None -> asked parse m w0 = 0%nat ->
  rtc (consent_step env parse issuers self m X) ([], w0) (ts, w) ->
  (asked parse m w <= 1)%nat
  /\ (asked parse m w = 1%nat ->
       exists x, md_lookup m (w_mandates w) = Some x /\ (X <= x)%Z)
  /\ (forall i j r1 r2, consented parse m ts i r1 -> consented parse m ts j r2 ->
       i = j /\ r1 = r2).
Proof.
  intros Hstrict Hclock Hm Ha Hs.
  assert (consent_ok parse m X (ts, w)) as (ls & [Hb Hc] & Hts).
  { eapply consent_steps_ok; [done..|exact Hs|]. exists []. split; [|constructor].
    unfold passes. cbn. rewrite Ha. lia. }
  cbn [fst snd] in *. pose proof (spent_le m X w) as Hle. split; [lia|]. split.
  - intros H1. unfold spent in Hb. destruct (md_lookup m (w_mandates w)) as [x|]; [|lia].
    exists x. split; [done|]. destruct (Z.leb_spec X x); lia.
  - assert (forall i r, consented parse m ts i r -> exists l, ls !! i = Some l /\ cleared l = 1%nat)
      as Hin.
    { intros i r (req & Hi & Hreq). destruct (Forall2_lookup_l _ _ _ _ _ Hts Hi) as (l & Hl & Hv).
      exists l. split; [done|]. by apply Hv. }
    intros i j r1 r2 H1 H2. destruct (Hin _ _ H1) as (l & Hl & Hcl), (Hin _ _ H2) as (l' & Hl' & Hcl').
    destruct (decide (i = j)) as [->|Hne].
    + destruct H1 as (req & H1 & _), H2 as (req' & H2 & _). rewrite H1 in H2. by injection H2.
    + pose proof (weigh_two cleared ls i j l l' Hl Hl' Hne). lia.
Qed.

(** Through the facade, strict or not, checkouts at once charge a key once, agree on its result,
    and captured exactly when it says so. *)
Theorem facade_checkouts_charge_once {B : Backend} {L : BackendLaws B} env parse issuers
    (self : OrchestratorFacade B) k (w0 w : World B) ts :
  key_ok k -> held k w0 = None -> paid k w0 = (0, 0)%nat ->
  rtc (checkouts_step (facade_checkout_prog env parse issuers self)) ([], w0) (ts, w) ->
  (fst (paid k w) <= 1)%nat /\ (snd (paid k w) <= 1)%nat
  /\ (forall r1 r2, answered ts k r1 -> answered ts k r2 -> r1 = r2)
  /\ (forall r, answered ts k r ->
       (tr_status r = TxnCompleted -> paid k w = (1, 1)%nat)
       /\ (tr_status r <> TxnCompleted -> snd (paid k w) = 0%nat)).
Proof. intros Hk Hh Hp Hs. eapply checkouts_charge_once; eauto using facade_keeps_keys. Qed.

(** A guarded checkout whose steps nothing interrupts is the facade's. *)
Theorem uninterrupted_guard_is_the_facade {B : Backend} env parse issuers
    (self : OrchestratorFacade B) context req (w : World B) :
  prog_run (facade_checkout_prog env parse issuers self req) w
  = facade_execute_checkout env parse issuers self req w
  /\ prog_run (authorized_checkout_prog env parse issuers self context req) w
     = execute_checkout_authorized env parse issuers self context req w.
Proof. split; [apply runs_facade_checkout|apply runs_authorized_checkout]. Qed.

(** ** Witness *)

(** One mandate under two idempotency keys: the first request loses the processor when its mandate
    is recorded, the second is refused, the first goes on to its end. *)
Definition again_request : CheckoutRequest :=
  MkCheckoutRequest "t1" "m1" demo_cart 2 "USD" None None
    (MkPaymentIntent 2200 "tok" (Some "{}") (Some "handler") None None None) "k2".

Definition guarded (req : CheckoutRequest) : Prog memory_backend FacadeError TransactionResult :=
  facade_checkout_prog still_env (fun _ => Some demo_proof) (Some "bank") (demo_facade true) req.

Definition let_in := prog_steps 3 (guarded strict_request) filled_world.
Definition turned_away := prog_steps 40 (guarded again_request) (snd let_in).
Definition carried_out := prog_steps 40 (fst let_in) (snd turned_away).

Lemma consent_race :
  rtc (consent_step still_env (fun _ => Some demo_proof) (Some "bank") (demo_facade true) "m-1"
         2000000000) ([], filled_world)
    ([(strict_request, Some (fst carried_out)); (again_request, Some (fst turned_away))],
     snd carried_out).
Proof.
  assert (forall req, outlasts (fun _ => Some demo_proof) "m-1" 2000000000 req) as Hout.
  { intros req record. unfold extract_ap2_mandate_record.
    destruct (consent_text req); [|done]. intros [= <-] _. done. }
  eapply rtc_l; [by apply (pool_arrive _ _ _ [] _ strict_request)|].
  eapply rtc_l; [by apply (pool_arrive _ _ _ [_] _ again_request)|].
  etrans; [exact (thread_runs _ _ _ 3 [(strict_request, Some (guarded strict_request));
    (again_request, Some (guarded again_request))] 0 strict_request _ filled_world eq_refl)|].
  etrans; [exact (thread_runs _ _ _ 40 [(strict_request, Some (fst let_in));
    (again_request, Some (guarded again_request))] 1 again_request _ (snd let_in) eq_refl)|].
  exact (thread_runs _ _ _ 40 [(strict_request, Some (fst let_in));
    (again_request, Some (fst turned_away))] 0 strict_request (fst let_in) (snd turned_away) eq_refl).
Qed.

Lemma concurrent_mandates_pay_once_witness :
  asked (fun _ => Some demo_proof) "m-1" (snd carried_out) = 1%nat
  /\ (exists x, md_lookup "m-1" (w_mandates (snd carried_out)) = Some x /\ (2000000000 <= x)%Z)
  /\ is_ok (unwrap_or (outcome (fst carried_out)) (Err replay_error)) = true
  /\ outcome (fst turned_away) = Some (Err replay_error).
Proof.
  split; [vm_compute; reflexivity|]. split; [|split; vm_compute; reflexivity].
  assert (forall n, (timestamp (clock_at still_env n) < 2000000000)%Z) as Hclock
    by (intros n; vm_compute; reflexivity).
  refine (proj1 (proj2 (concurrent_mandates_pay_once still_env (fun _ => Some demo_proof)
    (Some "bank") (demo_facade true) "m-1" 2000000000 filled_world _ _ eq_refl Hclock _ _
    consent_race)) _); vm_compute; reflexivity.
Defined.
