(* ===== verification/Workers.v ===== *)
(** * Outbox workers beside each other ([orchestrator-runtime/src/runner.rs]:
    [process_outbox_once_reporting])

    The outbox task of the process is one worker, every request to [/ops/outbox/process] is another,
    and checkouts put messages in while they run.  Here the step of a worker is a program that stops
    at the claim, at the delivery and at what follows it.  Any number of workers share the queue
    without trying a message twice at once; what they took out of it they answer for, and what is
    lost with a worker that is dropped is counted. *)

From S2P Require Export Threads Outbox.
From S2P Require Import FileRecovery Demo.

(** ** The step of a worker, stopping at every interaction *)

Section operations.
Context {B : Backend} (self : RunnerConfig B).

Definition process_outbox_prog (max_attempts : Z) : Prog B RunnerError OutboxOutcome :=
  claimed ← act (on w_outbox set_outbox outbox_claim);
  match claimed with
  | None => mret Idle
  | Some msg =>
      failed ← act (delivery_failed self msg);
      if (failed : bool) then
        let msg := om_set_attempts (u32_wrap (om_attempts msg + 1)) msg in
        if (max_attempts <? om_attempts msg)%Z then
          _ ← act (on w_dead set_dead (dl_put msg));
          _ ← act (on w_outbox set_outbox (outbox_ack (om_id msg)));
          mret DeadLettered
        else
          _ ← act (on w_outbox set_outbox (outbox_release msg));
          mret (Retrying (om_attempts msg))
      else
        _ ← act (on w_outbox set_outbox (outbox_ack (om_id msg)));
        mret Delivered
  end.

Lemma runs_process_outbox max :
  runs_as (process_outbox_prog max) (process_outbox_once_reporting self max).
Proof. unfold process_outbox_prog, process_outbox_once_reporting. runs. Qed.

(** Who is at the queue: a worker with its limit, or a request that puts a message in. *)
Inductive Party := Worker (max_attempts : Z) | Producer (msg : OutboxMessage).

Definition take_part (p : Party) : Prog B RunnerError (option OutboxOutcome) :=
  match p with
  | Worker max => o ← process_outbox_prog max; mret (Some o)
  | Producer msg => _ ← act (on w_outbox set_outbox (enqueue msg)); mret None
  end.
End operations.

(** ** The attempts at one message *)

(** The messages that were handed to the deliverer. *)
Definition deliveries {B : Backend} (w : World B) : list OutboxMessage :=
  omap (fun c => match c with CallDeliver m => Some m | _ => None end) (w_trace w).

Section attempts.
Context {B : Backend} {L : BackendLaws B} (self : RunnerConfig B) (id : string) (M : Z).
Implicit Types w v : World B.

Definition is_it (m : OutboxMessage) : bool := String.eqb (om_id m) id.

(** What was sent out of the message, by the number each sending carried. *)
Definition attempts w : list Z :=
  omap (fun m => if is_it m then Some (om_attempts m) else None) (deliveries w).

Definition waiting w : list OutboxMessage := List.filter is_it (ob_queue (w_outbox w)).

(** A worker holds the message before or after it tried it, or does not hold it; a producer is
    about to put it in, or did. *)
Inductive Hold := Without | Untried (k : Z) | Tried (k : Z) | ToPut | HasPut.
Definition holds (l : Hold) : nat := match l with Without | HasPut => 0 | _ => 1 end.
Definition made (l : Hold) : nat := match l with ToPut | HasPut => 1 | _ => 0 end.

Definition still w v : Prop := waiting v = waiting w /\ attempts v = attempts w.

(** What a worker may do with the message. *)
Inductive hold_step w v : Hold -> Hold -> Prop :=
| hold_still l : still w v -> hold_step w v l l
| hold_take m :
    waiting w = m :: waiting v -> attempts v = attempts w ->
    hold_step w v Without (Untried (om_attempts m))
| hold_lose m :
    waiting w = m :: waiting v -> attempts v = attempts w -> hold_step w v Without Without
| hold_try k :
    waiting v = waiting w -> attempts v = attempts w ++ [k] ->
    hold_step w v (Untried k) (Tried k)
| hold_back k m :
    om_attempts m = u32_wrap (k + 1) -> (om_attempts m <= M)%Z ->
    waiting v = waiting w ++ [m] -> attempts v = attempts w -> hold_step w v (Tried k) Without
| hold_put m :
    om_attempts m = 0%Z -> waiting v = waiting w ++ [m] -> attempts v = attempts w ->
    hold_step w v ToPut HasPut.

Lemma still_hold w v l : still w v -> hold_step w v l l.
Proof. apply hold_still. Qed.

Abbreviation handles := (within hold_step).

(** The end of a worker is nothing to the message. *)
Definition whatever {E A} (r : result A E) (l : Hold) : Prop := True.

Lemma still_dead {A} (op : ST DeadS StoreError A) : leaves still (on w_dead set_dead op).
Proof. by intros w. Qed.

Lemma still_ack i : leaves still (on w_outbox set_outbox (outbox_ack i)).
Proof. intros w. split; [|done]. unfold waiting. cbn. by rewrite queue_ack. Qed.

(** What one interaction does to the queue or to the trace alone. *)
Lemma waiting_outbox s w : waiting (set_outbox s w) = List.filter is_it (ob_queue s).
Proof. done. Qed.

Lemma delivery_tries msg w :
  outbox_deliverer self <> None ->
  waiting (snd (delivery_failed self msg w)) = waiting w
  /\ attempts (snd (delivery_failed self msg w))
     = attempts w ++ (if is_it msg then [om_attempts msg] else []).
Proof.
  unfold delivery_failed. destruct (outbox_deliverer self) as [f|]; [|done]. intros _.
  split; [done|]. unfold attempts, deliveries. cbn. rewrite !omap_app. cbn. by destruct (is_it msg).
Qed.

Lemma handles_worker max :
  outbox_deliverer self <> None -> (max <= M)%Z ->
  handles whatever Without (process_outbox_prog self max).
Proof.
  intros Hself Hmax. unfold process_outbox_prog. apply within_act. intros w.
  unfold on at 1 2. cbn [fst snd].
  destruct (ob_queue (w_outbox w)) as [|m q] eqn:Hq.
  { rewrite (queue_claim_nil _ Hq). exists Without. split; [|done]. apply hold_still.
    by split. }
  destruct (queue_claim_cons _ _ _ Hq) as [Hcq Hfst].
  set (v := set_outbox (snd (outbox_claim (w_outbox w))) w).
  assert (waiting v = List.filter is_it q) as Hv by (unfold v; rewrite waiting_outbox; by rewrite Hcq).
  assert (waiting w = if is_it m then m :: waiting v else waiting v) as Hw
    by (unfold waiting at 1; rewrite Hq, Hv; done).
  destruct Hfst as [->|[e ->]]; cbn [map_err].
  2:{ exists Without. split; [|done]. destruct (is_it m) eqn:Hm; [by eapply hold_lose|].
      by apply hold_still. }
  exists (if is_it m then Untried (om_attempts m) else Without).
  split; [destruct (is_it m); [by apply hold_take|by apply hold_still]|].
  apply within_act. clear w v q Hq Hcq Hv Hw. intros w.
  destruct (delivery_tries m w Hself) as [Hwait Htry].
  exists (if is_it m then Tried (om_attempts m) else Without). split.
  { destruct (is_it m); [by apply hold_try|]. apply hold_still. split; [done|].
    by rewrite Htry, app_nil_r. }
  assert (exists failed, fst (delivery_failed self m w) = Ok failed) as [failed ->]
    by (unfold delivery_failed; destruct (outbox_deliverer self); by eexists).
  clear w Hwait Htry. destruct failed.
  2:{ apply (within_apart _ still still_hold); [|done].
      apply apart_bind; [apply apart_act, still_ack|done]. }
  cbv zeta. destruct (Z.ltb_spec max (om_attempts (om_set_attempts (u32_wrap (om_attempts m + 1)) m))) as [_|Hle].
  { apply (within_apart _ still still_hold); [|done].
    apply apart_bind; [apply apart_act, still_dead|]. intros _.
    apply apart_bind; [apply apart_act, still_ack|done]. }
  apply within_act. intros w. exists Without. split; [|by destruct (fst _)].
  unfold on. cbn [snd]. set (m' := om_set_attempts _ m) in *.
  assert (is_it m' = is_it m) as Hm' by done.
  destruct (is_it m) eqn:Hm; [apply (hold_back _ _ (om_attempts m) m'); [done|lia|..]|apply hold_still; split];
    try done; rewrite waiting_outbox, queue_release, List.filter_app; cbn [List.filter];
    by rewrite Hm', ?app_nil_r.
Qed.

(** A party at its arrival, and what is left of it when it is dropped. *)
Definition arrives (p : Party) : Hold :=
  match p with Producer m => if is_it m then ToPut else Without | Worker _ => Without end.
Definition gone (l : Hold) : Hold :=
  match l with ToPut => HasPut | Untried _ | Tried _ => Without | _ => l end.

Definition admitted (p : Party) : Prop :=
  match p with Worker max => (max <= M)%Z | Producer m => om_attempts m = 0%Z end.

Definition makes (p : Party) : nat := made (arrives p).

Lemma handles_party p :
  outbox_deliverer self <> None -> admitted p ->
  handles whatever (arrives p) (take_part self p).
Proof.
  intros Hself. destruct p as [max|m]; intros Hp; unfold take_part, arrives.
  - apply within_bind. eapply within_mono; [|by apply handles_worker]. intros [o|e] l _; done.
  - apply within_act. intros w. exists (if is_it m then HasPut else Without).
    split; [|by destruct (fst _)].
    assert (waiting (snd (on w_outbox set_outbox (enqueue m) w))
      = waiting w ++ (if is_it m then [m] else [])) as Hw.
    { unfold on. cbn [snd]. rewrite waiting_outbox, queue_enqueue, List.filter_app. cbn.
      by destruct (is_it m). }
    destruct (is_it m); [by eapply hold_put|]. rewrite app_nil_r in Hw. by apply hold_still.
Qed.
End attempts.

(** ** The length of the queue *)

Section accounts.
Context {B : Backend} {L : BackendLaws B} (self : RunnerConfig B).
Implicit Types w v : World B.

(** What a party put into the queue and what it keeps out of it. *)
Record Account := MkAccount { put : nat; kept : nat }.

Definition waits w : nat := length (ob_queue (w_outbox w)).

Definition books w v (a a' : Account) : Prop :=
  (waits v + kept a' + put a = waits w + kept a + put a')%nat.

Definition unqueued w v : Prop := waits v = waits w.

Lemma unqueued_books w v a : unqueued w v -> books w v a a.
Proof. unfold unqueued, books. lia. Qed.

Lemma unqueued_ack i : leaves unqueued (on w_outbox set_outbox (outbox_ack i)).
Proof. intros w. unfold unqueued, waits. cbn. by rewrite queue_ack. Qed.

Lemma unqueued_deliver m : leaves unqueued (delivery_failed self m).
Proof. intros w. unfold delivery_failed. by destruct (outbox_deliverer self). Qed.

(** A step settles a message when it delivered or dead-lettered it. *)
Definition settles (o : OutboxOutcome) : nat :=
  match o with Delivered | DeadLettered => 1 | _ => 0 end.

Lemma books_worker max :
  within books (fun r a => forall o, r = Ok o -> a = MkAccount 0 (settles o)) (MkAccount 0 0)
    (process_outbox_prog self max).
Proof.
  unfold process_outbox_prog. apply within_act. intros w. unfold on at 1 2. cbn [fst snd].
  destruct (ob_queue (w_outbox w)) as [|m q] eqn:Hq.
  { rewrite (queue_claim_nil _ Hq). exists (MkAccount 0 0). split; [|by intros o [= <-]].
    by apply unqueued_books. }
  destruct (queue_claim_cons _ _ _ Hq) as [Hcq Hfst]. exists (MkAccount 0 1). split.
  { unfold books, waits. cbn. rewrite Hcq, Hq. cbn. lia. }
  destruct Hfst as [->|[e ->]]; [|done]. cbn [map_err]. clear w q Hq Hcq.
  apply (within_then _ _ unqueued_books); [apply apart_act, unqueued_deliver|done|].
  intros [].
  2:{ apply (within_then _ _ unqueued_books); [apply apart_act, unqueued_ack|done|].
      by intros _ o [= <-]. }
  cbv zeta. destruct (max <? _)%Z.
  { apply (within_then _ _ unqueued_books); [by apply apart_act|done|]. intros _.
    apply (within_then _ _ unqueued_books); [apply apart_act, unqueued_ack|done|].
    by intros _ o [= <-]. }
  apply within_act. intros w. exists (MkAccount 0 0). split.
  - unfold on, books, waits. cbn [snd]. cbn [w_outbox set_outbox]. rewrite queue_release, length_app. cbn. lia.
  - destruct (fst _); [|done]. by intros o [= <-].
Qed.

Definition puts (p : Party) : nat := match p with Producer _ => 1 | Worker _ => 0 end.
Definition answer_settles (o : option OutboxOutcome) : nat :=
  match o with Some o => settles o | None => 0 end.

Lemma books_party p :
  within books (fun r a => forall o, r = Ok o -> a = MkAccount (puts p) (answer_settles o))
    (MkAccount 0 0) (take_part self p).
Proof.
  destruct p as [max|m]; unfold take_part.
  - apply within_bind. eapply within_mono; [|apply books_worker].
    intros [o|e] a Ha; [|done]. intros o' [= <-]. by apply Ha.
  - apply within_act. intros w. exists (MkAccount 1 0). split.
    + unfold on, books, waits. cbn [snd w_outbox set_outbox]. rewrite queue_enqueue, length_app. cbn. lia.
    + destruct (fst _); [|done]. by intros o [= <-].
Qed.
End accounts.

(** ** Any number of workers and producers *)

Section pool.
Context {B : Backend} {L : BackendLaws B} (self : RunnerConfig B) (M : Z)
  (Hself : outbox_deliverer self <> None) (HM : (0 <= M < u32_max)%Z).
Implicit Types w v : World B.

Abbreviation Parties := (list (PoolThread B Party RunnerError (option OutboxOutcome))).

(** The rest of the process leaves the queue alone and delivers nothing. *)
Definition workers_step : relation (Parties * World B) :=
  thread_step (take_part self) (admitted M)
    (fun w v => ob_queue (w_outbox v) = ob_queue (w_outbox w) /\ deliveries v = deliveries w).

Section message.
Context (id : string) (c0 : nat).

(** The message exists once: in the queue, in the hands of a worker, or with its producer. *)
Definition numbered (n : nat) (l : Hold) : Prop :=
  match l with
  | Untried k => k = Z.of_nat n /\ (k <= M)%Z
  | Tried k => (k + 1)%Z = Z.of_nat n
  | ToPut => n = 0%nat
  | _ => True
  end.

Record in_turn (ls : list Hold) w (n : nat) : Prop := {
  it_once : (length (waiting id w) + weigh holds ls <= c0 + weigh made ls)%nat;
  it_attempts : attempts id w = map Z.of_nat (seq 0 n);
  it_bound : (Z.of_nat n <= M + 1)%Z;
  it_none : (c0 + weigh made ls = 0)%nat -> n = 0%nat;
  it_waiting m : m ∈ waiting id w -> om_attempts m = Z.of_nat n /\ (Z.of_nat n <= M)%Z;
  it_held i l : ls !! i = Some l -> numbered n l
}.

Definition turns (ls : list Hold) w : Prop :=
  (c0 + weigh made ls <= 1)%nat -> exists n, in_turn ls w n.

Lemma turns_still ls w v : still id w v -> turns ls w -> turns ls v.
Proof.
  intros [Hw Ha] Ht H. destruct (Ht H) as [n [H1 H2 H3 H4 H5 H6]]. exists n.
  split; rewrite ?Hw, ?Ha; done.
Qed.

Lemma numbered_idle n l : holds l = 0%nat -> numbered n l.
Proof. by destruct l. Qed.

(** Whoever holds the message is alone. *)
Lemma alone ls w n i l :
  in_turn ls w n -> (c0 + weigh made ls <= 1)%nat -> ls !! i = Some l -> holds l = 1%nat ->
  waiting id w = []
  /\ (forall j l', ls !! j = Some l' -> j <> i -> holds l' = 0%nat).
Proof.
  intros [H1 _ _ _ _ _] Hle Hi Hl. pose proof (weigh_one holds ls i l Hi). split.
  - destruct (waiting id w); [done|]. cbn in H1. lia.
  - intros j l' Hj Hne. pose proof (weigh_two holds ls i j l l' Hi Hj ltac:(done)). lia.
Qed.

(** The views after one of them moved. *)
Lemma held_after n (ls : list Hold) i l' :
  numbered n l' -> (forall j l, ls !! j = Some l -> j <> i -> numbered n l) ->
  forall j l, <[i := l']> ls !! j = Some l -> numbered n l.
Proof.
  intros Hn Hrest j l Hj. destruct (decide (j = i)) as [->|Hne].
  - apply list_lookup_insert_Some in Hj as [(_ & -> & _)|[? _]]; done.
  - rewrite list_lookup_insert_ne in Hj by done. eauto.
Qed.

(** A worker takes the message out of the queue. *)
Lemma turn_taken ls w v n i m l' :
  in_turn ls w n -> ls !! i = Some Without -> waiting id w = m :: waiting id v ->
  attempts id v = attempts id w -> made l' = 0%nat -> (holds l' <= 1)%nat ->
  (om_attempts m = Z.of_nat n /\ (Z.of_nat n <= M)%Z -> numbered n l') ->
  in_turn (<[i := l']> ls) v n.
Proof.
  intros [H1 H2 H3 H4 H5 H6] Hi Hw Ha Hmade Hholds Hn.
  pose proof (weigh_insert holds ls i _ l' Hi) as Hh. cbn in Hh.
  pose proof (weigh_insert made ls i _ l' Hi) as Hm. cbn in Hm.
  rewrite Hw in H1, H5. cbn in H1. split.
  - lia.
  - congruence.
  - done.
  - intros; apply H4; lia.
  - intros m' Hm'. apply H5. by right.
  - apply held_after; [apply Hn, H5; by left|eauto].
Qed.

(** Whoever holds the message moves it on. *)
Lemma turn_moved ls w v n n' i l l' :
  in_turn ls w n -> (c0 + weigh made ls <= 1)%nat -> ls !! i = Some l -> holds l = 1%nat ->
  made l' = made l -> (length (waiting id v) + holds l' <= 1)%nat ->
  attempts id v = map Z.of_nat (seq 0 n') -> (Z.of_nat n' <= M + 1)%Z ->
  (forall m, m ∈ waiting id v -> om_attempts m = Z.of_nat n' /\ (Z.of_nat n' <= M)%Z) ->
  numbered n' l' -> in_turn (<[i := l']> ls) v n'.
Proof.
  intros Ht Hle Hi Hl Hmade Hone Ha Hn' Hw Hnum.
  destruct (alone ls w n i l Ht Hle Hi Hl) as [_ Hrest]. destruct Ht as [H1 _ _ _ _ _].
  pose proof (weigh_insert holds ls i l l' Hi) as Hh.
  pose proof (weigh_insert made ls i l l' Hi) as Hm. pose proof (weigh_one holds ls i l Hi).
  split; [lia|done..|lia|done|].
  apply held_after; [done|]. intros j l0 Hj Hne. apply numbered_idle. eauto.
Qed.

Lemma turns_step ls w v i l l' :
  turns ls w -> ls !! i = Some l -> hold_step id M w v l l' -> turns (<[i := l']> ls) v.
Proof.
  intros Ht Hi Hs. destruct Hs as [l Hst|m Hw Ha|m Hw Ha|k Hw Ha|k m Hk HkM Hw Ha|m H0 Hw Ha];
    [rewrite list_insert_id by done; by eapply turns_still|..];
    match goal with |- turns (<[i := ?l2]> ls) _ =>
      pose proof (weigh_insert made ls i _ l2 Hi) as Hm; cbn in Hm end; intros Hle;
    (assert (c0 + weigh made ls <= 1)%nat as Hle' by lia); destruct (Ht Hle') as [n Hn].
  1,2: exists n; eapply turn_taken; [exact Hn|exact Hi|exact Hw|exact Ha|done|cbn; lia|cbn; lia].
  all: destruct (alone ls w n i _ Hn Hle' Hi eq_refl) as [Hnil _];
    pose proof (it_held _ _ _ Hn _ _ Hi) as Hk'; cbn in Hk';
    pose proof (it_attempts _ _ _ Hn) as Hat; pose proof (it_bound _ _ _ Hn) as Hbd;
    rewrite Hnil in Hw; cbn in Hw.
  - destruct Hk' as [-> HkM]. exists (S n).
    eapply (turn_moved ls w v n (S n)); [done..| | | | |]; rewrite ?Hw; [cbn; lia| |lia| |cbn; lia].
    + by rewrite Ha, Hat, seq_S, map_app.
    + by intros m Hin%elem_of_nil.
  - assert (om_attempts m = Z.of_nat n) as Hmn.
    { rewrite Hk, Hk'. unfold u32_wrap. apply Z.mod_small. unfold u32_max in HM. lia. }
    exists n. eapply turn_moved; [done..| | | | |]; rewrite ?Hw; cbn; try lia; [congruence|].
    intros m' ->%list_elem_of_singleton. lia.
  - subst n. exists 0%nat. eapply turn_moved; [done..| | | | |]; rewrite ?Hw; cbn; try lia;
      [by rewrite Ha, Hat|].
    intros m' ->%list_elem_of_singleton. lia.
Qed.

(** Who puts the message in: no party more than once. *)
Definition producers (ts : Parties) : nat := weigh (fun t => makes id (fst t)) ts.

Definition turns_ok (s : Parties * World B) : Prop :=
  exists ls, turns ls (snd s)
    /\ Forall2 (fun t l => match snd t with
         | Some p => made l = makes id (fst t) /\ within (hold_step id M) whatever l p
         | None => made l = makes id (fst t) end) (fst s) ls.

Lemma pool_turns s s' : rtc workers_step s s' -> turns_ok s -> turns_ok s'.
Proof.
  intros Hs. refine (threads_invariant_lost _ _ _ (arrives id)
    (fun q l p => made l = makes id q /\ within (hold_step id M) whatever l p)
    (fun q l => made l = makes id q) (fun _ => gone) turns _ _ _ _ _ _ _ _ _ Hs).
  - intros q Hq. split; [done|]. by apply handles_party.
  - intros ls0 w q H0 Hq Hle. rewrite weigh_app in Hle. cbn in Hle.
    destruct (H0 ltac:(lia)) as [n [H1 H2 H3 H4 H5 H6]]. exists n.
    split; rewrite ?weigh_app; cbn; [|done..| |done|].
    + destruct q as [max|m]; cbn; [lia|]. unfold arrives in *. destruct (is_it id m); cbn; lia.
    + intros H. apply H4. lia.
    + intros i l Hi. apply lookup_app_Some in Hi as [Hi|[_ Hi]]; [eauto|].
      apply list_lookup_singleton_Some in Hi as [_ <-].
      destruct q as [max|m]; [done|]. unfold arrives in *. destruct (is_it id m); [|done].
      cbn in *. apply H4. lia.
  - intros ls0 w i l q upd next H0 Hi [Hm Hv]. destruct (Hv w) as (l' & Hstep & Hv').
    exists l'. split; [split; [|done]|by eapply turns_step].
    rewrite <- Hm. by destruct Hstep.
  - intros ls0 w i l q H0 Hi Hle.
    pose proof (weigh_insert made ls0 i l (gone l) Hi) as Hm.
    pose proof (weigh_insert holds ls0 i l (gone l) Hi) as Hh.
    assert (made (gone l) = made l) as Hg by by destruct l.
    assert (holds (gone l) = 0)%nat as Hg' by by destruct l.
    destruct (H0 ltac:(lia)) as [n [H1 H2 H3 H4 H5 H6]]. exists n. split; try done; [lia|intros; apply H4; lia|].
    apply held_after; [by apply numbered_idle|eauto].
  - intros q l p [<- _]. by destruct l.
  - intros q l <-. by destruct l.
  - intros ls0 w v H0 [Hq Hd]. eapply turns_still; [|exact H0].
    unfold still, waiting, attempts. by rewrite Hq, Hd.
Qed.

Lemma made_producers (ts : Parties) ls :
  Forall2 (fun t l => match snd t with
    | Some p => made l = makes id (fst t) /\ within (hold_step id M) whatever l p
    | None => made l = makes id (fst t) end) ts ls ->
  weigh made ls = producers ts.
Proof.
  induction 1 as [|[q p] l ts ls Hm _ IH]; [done|]. unfold producers in *. cbn in *.
  destruct p; lia.
Qed.
End message.
(** Everyone is done and was not told of an error. *)
Definition party_answer (t : PoolThread B Party RunnerError (option OutboxOutcome))
  : option (option OutboxOutcome) :=
  match snd t with Some (Done (Ok o)) => Some o | _ => None end.

Definition all_answered (ts : Parties) : Prop := Forall (fun t => is_some (party_answer t) = true) ts.

Definition settled (ts : Parties) : nat :=
  weigh (fun t => match party_answer t with Some o => answer_settles o | None => 0 end) ts.
Definition put_in (ts : Parties) : nat := weigh (fun t => puts (fst t)) ts.

Definition books_ok (n0 : nat) (s : Parties * World B) : Prop :=
  exists ls, (waits (snd s) + weigh kept ls = n0 + weigh put ls)%nat
    /\ Forall2 (fun t l => match snd t with
         | Some p => within books (fun r a => forall o, r = Ok o ->
             a = MkAccount (puts (fst t)) (answer_settles o)) l p
         | None => True end) (fst s) ls.

Lemma pool_books n0 s s' : rtc workers_step s s' -> books_ok n0 s -> books_ok n0 s'.
Proof.
  intros Hs. refine (threads_invariant _ _ _ (fun _ => MkAccount 0 0)
    (fun q a p => within books (fun r a => forall o, r = Ok o ->
       a = MkAccount (puts q) (answer_settles o)) a p)
    (fun _ a => a) (fun ls w => waits w + weigh kept ls = n0 + weigh put ls)%nat _ _ _ _ _ _ _ Hs).
  - intros q _. apply books_party.
  - intros ls w q H _. rewrite !weigh_app. cbn. lia.
  - intros ls w i a q upd next H Hi Hv. destruct (Hv w) as (a' & Hb & Hv'). exists a'.
    split; [done|]. unfold books in Hb.
    pose proof (weigh_insert kept ls i a a' Hi). pose proof (weigh_insert put ls i a a' Hi). lia.
  - intros ls w i a q H Hi. by rewrite list_insert_id.
  - intros ls w v H [Hq _]. unfold waits in *. by rewrite Hq.
Qed.

Lemma answered_accounts (ts : Parties) ls :
  all_answered ts ->
  Forall2 (fun t l => match snd t with
    | Some p => within books (fun r a => forall o, r = Ok o ->
        a = MkAccount (puts (fst t)) (answer_settles o)) l p
    | None => True end) ts ls ->
  weigh kept ls = settled ts /\ weigh put ls = put_in ts.
Proof.
  intros Ha. induction 1 as [|[q p] a ts ls Ht _ IH]; [done|].
  apply Forall_cons in Ha as [Hp Ha]. destruct (IH Ha) as [IH1 IH2].
  unfold settled, put_in, party_answer in *. cbn in *.
  destruct p as [[[o|e]|]|]; try done. cbn in Ht. rewrite (Ht o eq_refl). cbn. lia.
Qed.
End pool.

(** ** Properties *)

(** C21: however many workers and producers arrive, interleave at their awaits and are dropped half way,
    and whatever else the process does that leaves the queue alone: a message that is in the queue
    once, or is put in once, is handed to the deliverer under the attempts 0, 1, 2 and so on, each
    once and in this order, whichever workers make them, at most [M + 1] of them; while it waits it
    carries the number of the next; and when everyone was answered without an error, what was in
    the queue and what was put in is still there or was delivered or dead-lettered. *)
Theorem outbox_workers_take_turns {B : Backend} {L : BackendLaws B} (self : RunnerConfig B) M
    (w0 w : World B) ts :
  outbox_deliverer self <> None -> (0 <= M < u32_max)%Z ->
  rtc (workers_step self M) ([], w0) (ts, w) ->
  (forall id, attempts id w0 = [] ->
     Forall (fun m => om_attempts m = 0%Z) (waiting id w0) ->
     (length (waiting id w0) + producers id ts <= 1)%nat ->
     exists n, attempts id w = map Z.of_nat (seq 0 n) /\ (Z.of_nat n <= M + 1)%Z
       /\ (length (waiting id w) <= 1)%nat
       /\ forall m, m ∈ waiting id w -> om_attempts m = Z.of_nat n)
  /\ (all_answered ts -> (waits w + settled ts = waits w0 + put_in ts)%nat).
Proof.
  intros Hself HM Hs. split.
  - intros id Ha Hw Hone.
    destruct (pool_turns self M Hself HM id (length (waiting id w0)) _ _ Hs) as (ls & Ht & Hts).
    { exists []. split; [|constructor]. intros _. exists 0%nat. split; cbn; try done; [lia..|].
      intros m Hm. rewrite Forall_forall in Hw. split; [by apply Hw|lia]. }
    cbn [fst snd] in *. pose proof (made_producers M id ts ls Hts) as Hmade.
    destruct (Ht ltac:(lia)) as [n [H1 H2 H3 H4 H5 H6]]. exists n.
    split_and!; [done|done|lia|]. intros m Hm. by apply H5.
  - intros Hall.
    destruct (pool_books self M (waits w0) _ _ Hs) as (ls & Hb & Hts).
    { exists []. split; [cbn; lia|constructor]. }
    destruct (answered_accounts ts ls Hall Hts) as [H1 H2]. cbn [snd] in Hb. lia.
Qed.

(** On the files a claim takes the message out of the file: a process that dies between the claim
    and the acknowledgement leaves a directory in which the message is neither queued nor a dead
    letter, and nobody was handed it. *)
Theorem crash_loses_claimed_message {format : FileFormat} fault uuid_display
    (self : RunnerConfig (file_backend fault uuid_display)) max
    (w : World (file_backend fault uuid_display)) m (q : list OutboxMessage) :
  fs_table (w_outbox w) = m :: q ->
  fst (file_dequeue fault (w_outbox w)) = Ok (Some m) ->
  (forall data, to_json q = Ok data -> from_json data = Some q) ->
  let v := snd (prog_steps 1 (process_outbox_prog self max) w) in
  fs_table (w_outbox (open_persistent_stores fault uuid_display v)) = q
  /\ w_dead v = w_dead w /\ deliveries v = deliveries w.
Proof.
  intros Hq Hok Hjson v. split; [|done].
  unfold file_dequeue in Hok. rewrite Hq in Hok.
  pose proof (open_persisted (fault "outbox.json") (fun _ => q) (Some m) (Some m) [] (w_outbox w)
    Hok Hjson) as Ho.
  unfold v. cbn. unfold on. cbn. unfold file_dequeue. rewrite Hq. exact Ho.
Qed.

(** ** Witness *)

(** The first attempt fails.  While one worker holds the message a second one finds the queue empty;
    the first puts it back, and a third delivers it. *)
Definition news : OutboxMessage := MkOutboxMessage "n" "order.created" "{}" "c" 0 (Some "t1").

Definition unsteady : RunnerConfig memory_backend :=
  with_outbox_deliverer (fun _ _ m => if (om_attempts m =? 0)%Z then Err "down" else Ok tt)
    demo_runner.

Definition worker : Prog memory_backend RunnerError (option OutboxOutcome) :=
  take_part unsteady (Worker 5).

Definition posted := prog_steps 5 (take_part unsteady (Producer news)) empty_world.
Definition claimed := prog_steps 1 worker (snd posted).
Definition idle := prog_steps 5 worker (snd claimed).
Definition released := prog_steps 5 (fst claimed) (snd idle).
Definition delivered := prog_steps 5 worker (snd released).

Lemma workers_race :
  rtc (workers_step unsteady 5) ([], empty_world)
    ([(Producer news, Some (fst posted)); (Worker 5, Some (fst released));
      (Worker 5, Some (fst idle)); (Worker 5, Some (fst delivered))], snd delivered).
Proof.
  set (none := take_part unsteady (Producer news)).
  eapply rtc_l; [by apply (pool_arrive _ _ _ [] _ (Producer news))|].
  eapply rtc_l; [by apply (pool_arrive _ _ _ [_] _ (Worker 5))|].
  eapply rtc_l; [by apply (pool_arrive _ _ _ [_; _] _ (Worker 5))|].
  eapply rtc_l; [by apply (pool_arrive _ _ _ [_; _; _] _ (Worker 5))|].
  etrans; [exact (thread_runs _ _ _ 5 [(Producer news, Some none); (Worker 5, Some worker);
    (Worker 5, Some worker); (Worker 5, Some worker)] 0 (Producer news) none empty_world eq_refl)|].
  etrans; [exact (thread_runs _ _ _ 1 [(Producer news, Some (fst posted)); (Worker 5, Some worker);
    (Worker 5, Some worker); (Worker 5, Some worker)] 1 (Worker 5) worker (snd posted) eq_refl)|].
  etrans; [exact (thread_runs _ _ _ 5 [(Producer news, Some (fst posted));
    (Worker 5, Some (fst claimed)); (Worker 5, Some worker); (Worker 5, Some worker)]
    2 (Worker 5) worker (snd claimed) eq_refl)|].
  etrans; [exact (thread_runs _ _ _ 5 [(Producer news, Some (fst posted));
    (Worker 5, Some (fst claimed)); (Worker 5, Some (fst idle)); (Worker 5, Some worker)]
    1 (Worker 5) (fst claimed) (snd idle) eq_refl)|].
  exact (thread_runs _ _ _ 5 [(Producer news, Some (fst posted));
    (Worker 5, Some (fst released)); (Worker 5, Some (fst idle)); (Worker 5, Some worker)]
    3 (Worker 5) worker (snd released) eq_refl).
Qed.

Lemma outbox_workers_take_turns_witness :
  outcome (fst idle) = Some (Ok (Some Idle))
  /\ outcome (fst released) = Some (Ok (Some (Retrying 1)))
  /\ outcome (fst delivered) = Some (Ok (Some Delivered))
  /\ attempts "n" (snd delivered) = [0; 1]%Z
  /\ (waits (snd delivered) + 1 = 0 + 1)%nat.
Proof.
  do 4 (split; [vm_compute; reflexivity|]).
  assert (outbox_deliverer unsteady <> None) as Hself by discriminate.
  assert (0 <= 5 < u32_max)%Z as HM by (split; vm_compute; congruence).
  refine (proj2 (outbox_workers_take_turns unsteady 5 empty_world _ _ Hself HM workers_race) _).
  repeat constructor; vm_compute; reflexivity.
Defined.
