(* ===== verification/Frames.v ===== *)
(** * Footprints of programs

    What a program may have done to the state, whatever it answers: a preorder on worlds that
    every step of it respects.  The rules follow the structure of programs, so that one tactic
    finds the footprint of most handlers; [cartless] and [within] are the two footprints the
    theorems about the router need. *)

From S2P Require Export Facade.

(** ** Framed programs *)

Section framed.
Context {S : Type} (R : S -> S -> Prop) {HR : PreOrder R}.

Definition framed {E A} (m : ST S E A) : Prop := forall s, R s (snd (m s)).

Lemma framed_lift {E A} (r : result A E) : framed (st_lift r).
Proof. intros s. reflexivity. Qed.

Lemma framed_fail {E A} (e : E) : framed (A:=A) (st_fail e).
Proof. intros s. reflexivity. Qed.

Lemma framed_ret {E A} (a : A) : framed (E:=E) (mret a).
Proof. intros s. reflexivity. Qed.

Lemma framed_gets {E A} (f : S -> A) : framed (E:=E) (st_gets f).
Proof. intros s. reflexivity. Qed.

Lemma framed_bind {E A C} (m : ST S E A) (f : A -> ST S E C) :
  framed m -> (forall a, framed (f a)) -> framed (m ≫= f).
Proof.
  intros Hm Hf s. unfold mbind, ST_bind. specialize (Hm s). destruct (m s) as [[a|e] u]; [|done].
  cbn in Hm. etrans; [exact Hm|apply Hf].
Qed.

Lemma framed_catch {E A C} (m : ST S E A) (k : A -> ST S E C) (h : E -> ST S E C) :
  framed m -> (forall a, framed (k a)) -> (forall e, framed (h e)) -> framed (st_catch m k h).
Proof.
  intros Hm Hk Hh s. unfold st_catch. specialize (Hm s). destruct (m s) as [[a|e] u]; cbn in Hm;
    (etrans; [exact Hm|]); [apply Hk|apply Hh].
Qed.

Lemma framed_iter {E A} (f : A -> ST S E unit) xs : (forall x, framed (f x)) -> framed (st_iter f xs).
Proof.
  intros Hf. induction xs as [|x xs IH]; [apply framed_ret|]. cbn. apply framed_bind; auto.
Qed.

(** A program that only renames the answer of another. *)
Lemma framed_same {E F A C} (m : ST S E A) (m' : ST S F C) :
  (forall s, snd (m' s) = snd (m s)) -> framed m -> framed m'.
Proof. intros H Hm s. rewrite H. apply Hm. Qed.
End framed.

(** ** Footprints *)

Section footprints.
Context {B : Backend} {L : BackendLaws B}.
Implicit Types w v u : World B.

(** The payment calls made since, all of which [P] allows. *)
Definition paid_only (P : ProviderCall -> Prop) w v : Prop :=
  exists calls, payments v = payments w ++ calls /\ Forall P calls.

#[export] Instance paid_only_preorder P : PreOrder (paid_only P).
Proof.
  split.
  - intros w. exists []. by rewrite app_nil_r.
  - intros w v u (c1 & E1 & H1) (c2 & E2 & H2). exists (c1 ++ c2). rewrite E2, E1, app_assoc.
    split; [done|]. by apply Forall_app.
Qed.

Lemma paid_same P w v : payments v = payments w -> paid_only P w v.
Proof. intros E. exists []. by rewrite app_nil_r. Qed.

(** The carts were left alone. *)
Definition cartless (P : ProviderCall -> Prop) w v : Prop :=
  w_events v = w_events w /\ paid_only P w v.

#[export] Instance cartless_preorder P : PreOrder (cartless P).
Proof.
  split.
  - by intros w.
  - intros w v u [E1 H1] [E2 H2]. split; [congruence|by etrans].
Qed.

(** The snapshot, state and log of a cart are as they were. *)
Definition same_cart (c : CartId) w v : Prop :=
  get_cart_snapshot c (w_events v) = get_cart_snapshot c (w_events w)
  /\ get_cart_state c (w_events v) = get_cart_state c (w_events w)
  /\ es_events c (w_events v) = es_events c (w_events w).

(** The carts stay well formed, those of the other tenants stay as they are, and every payment
    call made since is allowed. *)
Definition within (P : ProviderCall -> Prop) (tenant : string) w v : Prop :=
  snapshots_ok (w_events w) ->
  snapshots_ok (w_events v)
  /\ (forall c p t, cart_snapshot c w = Some p -> cp_tenant_id p = Some t -> t <> tenant ->
        same_cart c w v)
  /\ paid_only P w v.

#[export] Instance within_preorder P tenant : PreOrder (within P tenant).
Proof.
  split.
  - intros w Hok. split; [done|]. by split.
  - intros w v u H1 H2 Hok. destruct (H1 Hok) as (Hv & K1 & P1). destruct (H2 Hv) as (Hu & K2 & P2).
    split; [done|]. split; [|by etrans]. intros c p t Hp Ht Hne.
    destruct (K1 c p t Hp Ht Hne) as (A1 & A2 & A3).
    destruct (K2 c p t) as (C1 & C2 & C3); [by unfold cart_snapshot; rewrite A1|done|done|].
    unfold same_cart. by rewrite C1, C2, C3.
Qed.

Lemma cartless_within P tenant w v : cartless P w v -> within P tenant w v.
Proof.
  intros [E H] Hok. split; [by rewrite E|]. split; [|done]. intros c p t _ _ _.
  unfold same_cart. by rewrite E.
Qed.

Lemma paid_only_weaken (P Q : ProviderCall -> Prop) w v :
  (forall c, P c -> Q c) -> paid_only P w v -> paid_only Q w v.
Proof. intros H (cs & E & Hc). exists cs. split; [done|]. by eapply Forall_impl. Qed.

Lemma cartless_tick P w n : cartless P w (set_tick n w).
Proof. split; [done|]. by apply paid_same. Qed.

Lemma cartless_call P w n c :
  is_payment c = false \/ P c -> cartless P w (set_tick n (set_trace (w_trace w ++ [c]) w)).
Proof.
  intros Hc. split; [done|]. exists (if is_payment c then [c] else []).
  rewrite payments_call. split; [done|]. destruct Hc as [->|Hc]; [done|].
  destruct (is_payment c); [by constructor|done].
Qed.

Lemma framed_cartless {E A} P tenant (m : ST (World B) E A) :
  framed (cartless P) m -> framed (within P tenant) m.
Proof. intros H w. apply cartless_within, H. Qed.
End footprints.

(** ** Rules for the interactions of the runner *)

Section rules.
Context {B : Backend} (env : Env) (P : ProviderCall -> Prop).
Implicit Types w : World B.

Lemma framed_on {S A} (get : World B -> S) set (op : ST S StoreError A) :
  (forall w x, w_events (set x w) = w_events w /\ w_trace (set x w) = w_trace w) ->
  framed (cartless P) (on get set op).
Proof.
  intros H w. destruct (H w (snd (op (get w)))) as [E T]. split; [done|].
  apply paid_same. unfold payments. cbn. by rewrite T.
Qed.

Lemma framed_call {A E} c (f : nat -> result A E) conv :
  is_payment c = false \/ P c -> framed (cartless P) (call (B:=B) c f conv).
Proof. intros Hc w. by apply cartless_call. Qed.

Lemma framed_uuid : framed (cartless P) (new_uuid (B:=B) env).
Proof. intros w. apply cartless_tick. Qed.

Lemma framed_now : framed (cartless P) (now (B:=B) env).
Proof. intros w. apply cartless_tick. Qed.

Lemma framed_fresh_id prefix : framed (cartless P) (fresh_id (B:=B) env prefix).
Proof. apply framed_bind; [apply _|apply framed_uuid|]. intros u. by apply framed_ret, _. Qed.

Lemma framed_pay_put txn st : framed (cartless P) (pay_state_put (B:=B) txn st).
Proof. intros w. split; [done|]. by apply paid_same. Qed.

Lemma framed_ask {A E} (f : nat -> result A E) conv : framed (cartless P) (ask (B:=B) f conv).
Proof. intros w. apply cartless_tick. Qed.

Lemma framed_runner {A} (m : M (B:=B) A) : framed (cartless P) m -> framed (cartless P) (from_runner m).
Proof. by apply framed_same. Qed.
End rules.

(** Follows a program down to its interactions. *)
Ltac frame_step :=
  match goal with
  | |- framed _ (mbind _ _) => apply framed_bind; [apply _| |intros ?]
  | |- framed _ (mret _) => apply framed_ret, _
  | |- framed _ (st_fail _) => apply framed_fail, _
  | |- framed _ (st_lift _) => apply framed_lift, _
  | |- framed _ (st_gets _) => apply framed_gets, _
  | |- framed _ (st_catch _ _ _) => apply framed_catch; [apply _| |intros ?|intros ?]
  | |- framed _ (st_iter _ _) => apply framed_iter; [apply _|intros ?]
  | |- framed _ (on _ _ _) => apply framed_on; intros ? ?; split; reflexivity
  | |- framed _ (call _ _ _) => apply framed_call; first [by left | right]
  | |- framed _ (new_uuid _) => apply framed_uuid
  | |- framed _ (now _) => apply framed_now
  | |- framed _ (fresh_id _ _) => apply framed_fresh_id
  | |- framed _ (pay_state_put _ _) => apply framed_pay_put
  | |- framed _ (ask _ _) => apply framed_ask
  | |- framed _ (from_runner _) => apply framed_runner
  | |- framed _ (match ?x with _ => _ end) => destruct x
  | |- framed _ (let _ := _ in _) => cbv zeta
  end.
Ltac frame := repeat frame_step.

(** ** The programs of the runner and the facade *)

(** The requests of the payments a checkout may make. *)
Definition of_tenant (tenant : string) (c : ProviderCall) : Prop :=
  match c with
  | CallAuthorize req => cr_tenant_id req = tenant
  | CallCapture req | CallVoid req | CallRefund req => pl_tenant_id req = tenant
  | _ => True
  end.

Section programs.
Context {B : Backend} (env : Env) (P : ProviderCall -> Prop) (self : RunnerConfig B).

Lemma frame_pay_checkout tenant req cart :
  cr_tenant_id req = tenant -> framed (cartless (of_tenant tenant)) (pay_checkout env self req cart).
Proof.
  intros Ht. unfold pay_checkout, reserve_lines, reject_checkout, decline_checkout, finish_unpaid,
    complete_checkout, commit_checkout, record_order, advance.
  frame; exact Ht.
Qed.

Lemma frame_outbox n : framed (cartless P) (process_outbox_once self n).
Proof.
  unfold process_outbox_once, process_outbox_once_reporting, delivery_failed. frame.
  intros w. by apply cartless_call; left.
Qed.

Lemma frame_replay id : framed (cartless P) (replay_from_dead_letter (B:=B) id).
Proof. unfold replay_from_dead_letter. frame. Qed.

Lemma frame_reconciliation ids : framed (cartless P) (run_reconciliation self ids).
Proof.
  induction ids as [|x ids IH]; cbn; [frame|]. frame; [|exact IH].
  intros w. by apply cartless_call; left.
Qed.

Lemma frame_lifecycle c f st req :
  P (c req) -> framed (cartless P) (lifecycle_payment (B:=B) c f st req).
Proof. intros Hc. unfold lifecycle_payment. frame. exact Hc. Qed.

Lemma frame_record_mandate id t : framed (cartless P) (runner_record_mandate (B:=B) env id t).
Proof. unfold runner_record_mandate. frame. Qed.
End programs.

Section facade.
Context {B : Backend} {L : BackendLaws B} (env : Env) (parse : string -> option ConsentProof)
  (issuers : option string) (self : OrchestratorFacade B).
Implicit Types w v : World B.

Lemma settle_foreign req w p t :
  cart_snapshot (cr_cart_id req) w = Some p -> cp_tenant_id p = Some t -> t <> cr_tenant_id req ->
  snd (settle_cart_for_checkout (fc_runner self) req w) = w.
Proof.
  intros Hp Ht Hne. unfold settle_cart_for_checkout, load_cart, mbind, ST_bind, st_gets, st_lift.
  unfold cart_snapshot in Hp. rewrite Hp. cbn. rewrite Ht. cbn.
  by destruct (String.eqb_spec t (cr_tenant_id req)).
Qed.

Lemma frame_settle P tenant req :
  cr_tenant_id req = tenant ->
  framed (within P tenant) (settle_cart_for_checkout (fc_runner self) req).
Proof.
  intros Ht w Hok.
  destruct (settle_spec (fc_runner self) req w Hok) as (Hstep & Hst & Hev & _).
  split; [by eapply cart_step_ok|]. destruct Hstep as [Hcarts [Hs Hs' He] _].
  split; [|by apply paid_same, oc_payments]. intros c p t Hp Hpt Hne.
  destruct (decide (c = cr_cart_id req)) as [->|Hc]; [|by split; [|split]; auto].
  rewrite (settle_foreign req w p t); [done|done|done|congruence].
Qed.

Lemma frame_execute_checkout req :
  framed (within (of_tenant (cr_tenant_id req)) (cr_tenant_id req))
    (execute_checkout env (fc_runner self) req).
Proof.
  unfold execute_checkout. case_match; [by apply framed_fail, _|].
  apply framed_bind; [apply _|by apply framed_cartless; frame|]. intros [[|res]|].
  - by apply framed_fail, _.
  - by apply framed_ret, _.
  - apply framed_catch; [apply _|by apply frame_settle| |].
    + intros cart. by apply framed_cartless, frame_pay_checkout.
    + intros e. apply framed_cartless. frame.
Qed.

(** An authorized checkout is the caller's, whatever the request says. *)
Lemma frame_checkout_authorized auth req :
  framed (within (of_tenant (ax_tenant_id auth)) (ax_tenant_id auth))
    (execute_checkout_authorized env parse issuers self auth req).
Proof.
  unfold execute_checkout_authorized, authorize_checkout.
  destruct (negb (any _ _)); [by intros w|].
  destruct (String.eqb_spec (ax_tenant_id auth) (cr_tenant_id req)) as [Ht|]; cbn [negb];
    [|by intros w].
  apply framed_bind; [apply _|by apply framed_lift, _|]. intros _. rewrite Ht.
  unfold facade_execute_checkout. apply framed_bind; [apply _| |].
  - apply framed_cartless. destruct (fc_ap2_strict self); [|frame]. unfold spend_mandate.
    frame. apply frame_record_mandate.
  - intros _. eapply framed_same; [|apply frame_execute_checkout]. done.
Qed.

(** A new cart needs an id that no cart has. *)
Definition fresh_for (cmd : CartCommand) w : Prop :=
  match cmd with
  | CreateCart _ => cart_snapshot (MkCartId (uuid_at env (w_tick w))) w = None
  | _ => True
  end.

(** A command for a tenant touches no cart of another one, and pays nothing. *)
Lemma dispatch_within P tenant cmd id w :
  ids_agree cmd id -> fresh_for cmd w ->
  within P tenant w (snd (dispatch_cart_command_for_tenant env self tenant cmd id w)).
Proof.
  intros Hagree Hfresh Hok.
  destruct (dispatch_cart_command_for_tenant env self tenant cmd id w) as [r v] eqn:H.
  apply (wp_run _ _ _ _ _ (dispatch_for_tenant_cases env self _ _ _ _)) in H.
  destruct H as [[-> ->]|(r' & -> & Hrun & Hown)]; [by apply (within_preorder P tenant)|].
  pose proof (wp_run _ _ _ _ _ (dispatch_cart_step env (fc_runner self) _ _ _ Hok) Hrun) as Hstep.
  cbv beta in Hstep. cbn [snd].
  destruct (command_cart env (with_tenant tenant cmd) id w) as [d|] eqn:Hd.
  - split; [by eapply cart_step_ok|]. destruct Hstep as [Hcarts [Hs Hs' He] _].
    split; [|by apply paid_same, oc_payments]. intros c p t Hp Ht Hne.
    destruct (decide (c = d)) as [->|]; [|by split; [|split]; auto]. exfalso. apply Hne.
    assert (or_else id (cart_id_from_command cmd) = Some d \/ cart_snapshot d w = None) as [H|H].
    { destruct cmd, Hagree as [Hi|[Hi|Hi]]; cbn in *; simplify_eq; auto. }
    + apply (Hown d H) in Hp. congruence.
    + congruence.
  - apply cartless_within; [|done]. destruct Hstep as [Hc He]. split; [done|]. by apply paid_same, oc_payments.
Qed.

Lemma frame_dispatch P tenant cmd id :
  ids_agree cmd id -> (forall p, cmd <> CreateCart p) ->
  framed (within P tenant) (dispatch_cart_command_for_tenant env self tenant cmd id).
Proof. intros Ha Hc w. apply dispatch_within; [done|]. destruct cmd; try done. by destruct (Hc p). Qed.
End facade.
