(* ===== verification/Adapters.v ===== *)
(** * The other HTTP adapters ([crates/integration-adapters/src]: [catalog.rs],
    [pricing.rs], [tax.rs], [geo.rs], [receipt.rs], [fulfillment.rs], [delegation.rs])

    The providers a production process calls besides the payment service.  Each operation
    is one logical request of [HttpClient] to the service of the adapter, and an answer
    that is an error or cannot be parsed becomes the error of the provider.  The JSON of
    the derived [Serialize] and [Deserialize] instances is an argument. *)

From S2P Require Export PaymentAdapter Facade.

(** ** What is sent *)

Record CatalogLookupRequest := MkCatalogLookupRequest { lookup_ids : list string }.
Record CatalogSearchRequest := MkCatalogSearchRequest { search_query : option string }.

Record ResolveDiscountsRequest := MkResolveDiscountsRequest {
  rd_cart : CartProjection; rd_codes : list string }.

Record GeoCheckRequest := MkGeoCheckRequest {
  gr_cart : CartProjection; gr_request : CheckoutRequest }.

Record GenerateReceiptRequest := MkGenerateReceiptRequest {
  rr_cart : CartProjection; rr_result : TransactionResult }.

Record QuoteRequestBody := MkQuoteRequestBody {
  qb_cart : CartProjection;
  qb_method_type : FulfillmentMethodType;
  qb_destination : FulfillmentDestination;
  qb_line_item_ids : list string
}.

(** The idempotency key of a delegation travels in a header, not in the body. *)
Record DelegateRequestBody := MkDelegateRequestBody {
  db_tenant_id : string;
  db_token : string;
  db_method_type : option string;
  db_max_amount_minor : option Z;
  db_metadata : gmap string string
}.

Record IdentityLinkRequestBody := MkIdentityLinkRequestBody {
  lb_tenant_id : string; lb_merchant_id : string; lb_agent_id : string; lb_link_token : string }.

(** ** What is answered: the status of these two has a default, so it may be absent *)

Record DelegateResponseBody := MkDelegateResponseBody {
  da_id : string; da_token : string; da_status : option string; da_expires_at : option string }.

Record IdentityLinkResponseBody := MkIdentityLinkResponseBody {
  la_link_id : string; la_status : option string; la_expires_at : option string }.

Record AdapterCodec := MkAdapterCodec {
  json_lookup : CatalogLookupRequest -> string;
  json_search : CatalogSearchRequest -> string;
  json_cart : CartProjection -> string;
  json_discounts : ResolveDiscountsRequest -> string;
  json_geo : GeoCheckRequest -> string;
  json_receipt : GenerateReceiptRequest -> string;
  json_quote : QuoteRequestBody -> string;
  json_delegate : DelegateRequestBody -> string;
  json_link : IdentityLinkRequestBody -> string;
  parse_item : string -> result CatalogItem string;
  parse_items : string -> result (list CatalogItem) string;
  parse_prices : string -> result (list LinePrice) string;
  parse_discounts : string -> result (list AppliedDiscount) string;
  parse_tax : string -> result Z string;
  parse_allowed : string -> result bool string;
  parse_content : string -> result string string;
  parse_options : string -> result (list FulfillmentOption) string;
  parse_delegated : string -> result DelegateResponseBody string;
  parse_linked : string -> result IdentityLinkResponseBody string
}.

Section adapters.
Context (net : Net) (codec : Codec) (json : AdapterCodec) (config : ClientConfig)
  (base_url : string).

Definition service_url (path : string) : string := trim_end_slashes base_url +:+ "/" +:+ path.

(** [.await.map_err(E::from)?] and [.json().await.map_err(..)?]: one call, whose response
    is parsed, with the two ways it fails. *)
Definition call {A E} (request : ST HttpState AdapterError Response)
    (from : string -> E) (parse : string -> result A string) (invalid : string -> E)
  : ST HttpState E A := fun s =>
  match request s with
  | (Err e, t) => (Err (from (adapter_error_to_string codec e)), t)
  | (Ok resp, t) => (map_err invalid (response_json parse resp), t)
  end.

Definition post (path body : string) : ST HttpState AdapterError Response :=
  post_json_with_retry net config (service_url path) body None.

(** ** Catalog *)

Definition item_url (item_id : string) : string := service_url ("items/" +:+ item_id).

Definition invalid_catalog (e : string) : CatalogError :=
  CatalogNotFound ("invalid catalog response: " +:+ e).

Definition catalog_get_item (item_id : string) : ST HttpState CatalogError CatalogItem :=
  call (get_with_retry net config (item_url item_id) None) CatalogNotFound (parse_item json)
    invalid_catalog.

Definition catalog_lookup_items (item_ids : list string)
  : ST HttpState CatalogError (list CatalogItem) :=
  call (post "catalog/lookup" (json_lookup json (MkCatalogLookupRequest item_ids))) CatalogNotFound (parse_items json)
    invalid_catalog.

Definition catalog_search_items (query : option string)
  : ST HttpState CatalogError (list CatalogItem) :=
  call (post "catalog/search" (json_search json (MkCatalogSearchRequest query))) CatalogNotFound (parse_items json)
    invalid_catalog.

(** ** Pricing, tax, geo, receipts and fulfillment *)

Definition pricing_resolve_prices (cart : CartProjection)
  : ST HttpState PricingError (list LinePrice) :=
  call (post "prices/resolve" (json_cart json cart)) PricingFailed (parse_prices json)
    (fun e => PricingFailed ("invalid pricing response: " +:+ e)).

Definition pricing_resolve_discounts (cart : CartProjection) (codes : list string)
  : ST HttpState PricingError (list AppliedDiscount) :=
  match codes with
  | [] => mret []
  | _ => call (post "discounts/resolve" (json_discounts json (MkResolveDiscountsRequest cart codes)))
           PricingFailed (parse_discounts json) (fun e => PricingFailed ("invalid discount response: " +:+ e))
  end.

Definition tax_resolve (cart : CartProjection) : ST HttpState TaxError Z :=
  call (post "tax/resolve" (json_cart json cart)) TaxFailed (parse_tax json)
    (fun e => TaxFailed ("invalid tax response: " +:+ e)).

Definition geo_adapter_check (cart : CartProjection) (request : CheckoutRequest)
  : ST HttpState GeoError bool :=
  call (post "geo/check" (json_geo json (MkGeoCheckRequest cart request))) GeoFailed (parse_allowed json)
    (fun e => GeoFailed ("invalid geo response: " +:+ e)).

Definition receipt_adapter_generate (cart : CartProjection) (res : TransactionResult)
  : ST HttpState ReceiptError string :=
  call (post "receipts/generate" (json_receipt json (MkGenerateReceiptRequest cart res)))
    ReceiptFailed (parse_content json) (fun e => ReceiptFailed ("invalid receipt response: " +:+ e)).

Definition quote_body (cart : CartProjection) (request : FulfillmentQuoteRequest)
  : QuoteRequestBody :=
  MkQuoteRequestBody cart (fq_method_type request) (fq_destination request)
    (fq_line_item_ids request).

Definition quote_options (cart : CartProjection) (request : FulfillmentQuoteRequest)
  : ST HttpState FulfillmentError (list FulfillmentOption) :=
  call (post "fulfillment/quote" (json_quote json (quote_body cart request)))
    FulfillmentFailed (parse_options json)
    (fun e => FulfillmentFailed ("invalid fulfillment response: " +:+ e)).

(** ** Delegation and identity linking *)

Definition delegated_status : string := "delegated".
Definition linked_status : string := "linked".

Definition delegate_body (request : PaymentDelegationRequest) : DelegateRequestBody :=
  MkDelegateRequestBody (pd_tenant_id request) (pd_token request) (pd_method_type request)
    (pd_max_amount_minor request) (pd_metadata request).

Definition link_body (request : ProviderIdentityLinkRequest) : IdentityLinkRequestBody :=
  MkIdentityLinkRequestBody (pil_tenant_id request) (pil_merchant_id request)
    (pil_agent_id request) (pil_link_token request).

Definition delegate (request : PaymentDelegationRequest)
  : ST HttpState DelegationError DelegatedPayment :=
  call (post_json net config (service_url "delegate_payment")
          (json_delegate json (delegate_body request))
          (MkRequestOptions None (Some (pd_idempotency_key request)) []))
    DelegationProvider
    (fun body =>
       let? parsed := parse_delegated json body in
       Ok (MkDelegatedPayment (da_id parsed) (da_token parsed)
             (unwrap_or (da_status parsed) delegated_status) (da_expires_at parsed)))
    (fun e => DelegationProvider ("invalid delegation response: " +:+ e)).

Definition link_identity_http (request : ProviderIdentityLinkRequest)
  : ST HttpState IdentityLinkProviderError IdentityLinkRecord :=
  call (post_json net config (service_url "identity/link")
          (json_link json (link_body request)) no_options)
    IdentityProvider
    (fun body =>
       let? parsed := parse_linked json body in
       Ok (MkIdentityLinkRecord (la_link_id parsed)
             (unwrap_or (la_status parsed) linked_status) (la_expires_at parsed)))
    (fun e => IdentityProvider ("invalid identity link response: " +:+ e)).

(** ** What an operation asks for *)

Inductive Operation :=
| GetItem (item_id : string)
| LookupItems (item_ids : list string)
| SearchItems (query : option string)
| ResolvePrices (cart : CartProjection)
| ResolveDiscounts (cart : CartProjection) (codes : list string)
| ResolveTax (cart : CartProjection)
| GeoCheck (cart : CartProjection) (request : CheckoutRequest)
| GenerateReceipt (cart : CartProjection) (res : TransactionResult)
| QuoteOptions (cart : CartProjection) (request : FulfillmentQuoteRequest)
| Delegate (request : PaymentDelegationRequest)
| LinkIdentity (request : ProviderIdentityLinkRequest).

(** Whether an operation succeeded, and the state it leaves. *)
Definition outcome {E A} (m : ST HttpState E A) (s : HttpState) : bool * HttpState :=
  (is_ok (fst (m s)), snd (m s)).

Definition run_operation (op : Operation) : HttpState -> bool * HttpState :=
  match op with
  | GetItem id => outcome (catalog_get_item id)
  | LookupItems ids => outcome (catalog_lookup_items ids)
  | SearchItems q => outcome (catalog_search_items q)
  | ResolvePrices cart => outcome (pricing_resolve_prices cart)
  | ResolveDiscounts cart codes => outcome (pricing_resolve_discounts cart codes)
  | ResolveTax cart => outcome (tax_resolve cart)
  | GeoCheck cart request => outcome (geo_adapter_check cart request)
  | GenerateReceipt cart res => outcome (receipt_adapter_generate cart res)
  | QuoteOptions cart request => outcome (quote_options cart request)
  | Delegate request => outcome (delegate request)
  | LinkIdentity request => outcome (link_identity_http request)
  end.

(** The one path, body and key of an operation; [None] when it makes no call. *)
Definition operation_request (op : Operation) : option (string * option string * option string) :=
  match op with
  | GetItem id => Some ("items/" +:+ id, None, None)
  | LookupItems ids => Some ("catalog/lookup", Some (json_lookup json (MkCatalogLookupRequest ids)), None)
  | SearchItems q => Some ("catalog/search", Some (json_search json (MkCatalogSearchRequest q)), None)
  | ResolvePrices cart => Some ("prices/resolve", Some (json_cart json cart), None)
  | ResolveDiscounts _ [] => None
  | ResolveDiscounts cart codes =>
      Some ("discounts/resolve",
            Some (json_discounts json (MkResolveDiscountsRequest cart codes)), None)
  | ResolveTax cart => Some ("tax/resolve", Some (json_cart json cart), None)
  | GeoCheck cart request =>
      Some ("geo/check", Some (json_geo json (MkGeoCheckRequest cart request)), None)
  | GenerateReceipt cart res =>
      Some ("receipts/generate", Some (json_receipt json (MkGenerateReceiptRequest cart res)), None)
  | QuoteOptions cart request =>
      Some ("fulfillment/quote", Some (json_quote json (quote_body cart request)), None)
  | Delegate request =>
      Some ("delegate_payment", Some (json_delegate json (delegate_body request)),
            Some (pd_idempotency_key request))
  | LinkIdentity request => Some ("identity/link", Some (json_link json (link_body request)), None)
  end.

(** ** Lemmas *)

Definition operation_policy (body key : option string) : RetryPolicy :=
  match body, key with Some _, None => NonIdempotent | _, _ => Idempotent end.

(** After what an attempt may be repeated.  A request without a body, or with a key, may be repeated
    whenever no response came and after the seven statuses of a passing trouble; a request with a
    body and without a key only when no connection was made. *)
Definition repeatable (body key : option string) (o : SendOutcome) : Prop :=
  match o with
  | GotResponse r =>
      (body = None \/ key <> None) /\ rs_status r ∈ [408; 425; 429; 500; 502; 503; 504]%Z
  | SendFailed e => body = None \/ key <> None \/ is_connect e = true
  end.

Lemma may_repeat_repeatable body key o :
  may_repeat (operation_policy body key) o = true -> repeatable body key o.
Proof.
  assert ((body = None \/ key <> None) \/ operation_policy body key = NonIdempotent) as [Hp|Hp]
    by (destruct body, key; auto).
  - intros H. destruct o as [r|e]; cbn [repeatable]; [|tauto]. split; [done|]. revert H.
    cbn [may_repeat]. destruct (operation_policy body key); cbn [allows_status_retry];
      [|by rewrite andb_false_r].
    intros [_ H]%andb_true_iff. unfold status_is_retryable in H.
    apply existsb_elem in H as (x & Hx & ->%Z.eqb_eq). exact Hx.
  - rewrite Hp. destruct o as [r|e]; cbn; [by rewrite andb_false_r|tauto].
Qed.

(** The attempts an operation may make. *)
Definition operation_attempts (op : Operation) (ok : bool)
    (reqs : list (HttpRequest * SendOutcome)) : Prop :=
  match operation_request op with
  | None => reqs = [] /\ ok = true
  | Some (path, body, key) =>
      length reqs <= S (Z.to_nat (max_retries config))
      /\ Forall (fun x => rq_method x.1 = (if is_some body then "POST" else "GET")
           /\ rq_url x.1 = service_url path /\ rq_body x.1 = body
           /\ (forall k, key = Some k -> ("Idempotency-Key", k) ∈ rq_headers x.1)
           /\ forall id, ambient_correlation net = Some id ->
                ("X-Correlation-ID", id) ∈ rq_headers x.1) reqs
      /\ (forall before x after, reqs = before ++ x :: after -> after <> [] ->
            repeatable body key x.2)
      /\ (ok = true -> exists before q resp, reqs = before ++ [(q, GotResponse resp)]
            /\ status_is_success (rs_status resp) = true)
  end.

Lemma attempt_carries options base q :
  extends (attempt_request net options base) q -> extra_headers options = [] ->
  correlation_id options = None ->
  rq_method q = rq_method base /\ rq_url q = rq_url base /\ rq_body q = rq_body base
  /\ (forall k, idempotency_key options = Some k -> ("Idempotency-Key", k) ∈ rq_headers q)
  /\ forall id, ambient_correlation net = Some id -> ("X-Correlation-ID", id) ∈ rq_headers q.
Proof.
  intros (Hm & Hu & Hb & hs & Hh) Hx Hc. revert Hm Hu Hb Hh. unfold attempt_request.
  rewrite Hx, Hc. cbn [foldl]. destruct (ambient_correlation net),
    (idempotency_key options) as [k'|]; cbn; intros -> -> -> ->;
    (split_and!; [done..| |]); intros k [= <-]; set_solver.
Qed.

Lemma call_attempts {A E} op path body key (from invalid : string -> E)
    (parse : string -> result A string) policy options base s :
  operation_request op = Some (path, body, key) ->
  policy = operation_policy body key -> idempotency_key options = key ->
  extra_headers options = [] -> correlation_id options = None ->
  rq_method base = (if is_some body then "POST" else "GET") -> rq_url base = service_url path ->
  rq_body base = body ->
  let o := outcome (call (execute_with_retry net config policy options base) from parse invalid) s in
  exists reqs, h_sent (snd o) = h_sent s ++ reqs /\ operation_attempts op (fst o) reqs.
Proof.
  intros Hop -> Hk Hx Hc Hm Hu Hb. unfold outcome, call.
  pose proof (attempt_loop_spec net config (operation_policy body key)
    (attempt_request net options base) (Z.to_nat (max_retries config)) 0 s) as Hl.
  unfold wp in Hl. unfold execute_with_retry.
  destruct (attempt_loop _ _ _ _ _ _ s) as [r t]. cbn [fst snd] in Hl.
  destruct Hl as (reqs & Hs & (Hlen & Hext & Hrep) & Hr). exists reqs.
  split; [by destruct r|]. unfold operation_attempts. rewrite Hop. split_and!; [done| | |].
  - eapply Forall_impl; [exact Hext|]. intros [q o] Hq. cbn [fst] in *.
    apply attempt_carries in Hq as (-> & -> & -> & Hkey & Hcid); [|done..].
    split_and!; try done. intros k ->. by apply Hkey.
  - intros before x after Hx' Hne. by eapply may_repeat_repeatable, Hrep.
  - destruct r as [resp|e]; cbn [fst is_ok]; [|done]. intros _.
    destruct Hr as (before & q & -> & Hsucc). by exists before, q, resp.
Qed.

Lemma operation_spec op s :
  exists reqs, h_sent (snd (run_operation op s)) = h_sent s ++ reqs
    /\ operation_attempts op (fst (run_operation op s)) reqs.
Proof.
  destruct op as [id|ids|q|cart|cart codes|cart|cart req|cart res|cart req|req|req];
    cbn [run_operation]; try (by eapply call_attempts).
  destruct codes as [|c codes]; [|by eapply call_attempts].
  exists []. rewrite app_nil_r. done.
Qed.

(** C38: an operation of an adapter is one logical request to its own service: nothing is handed to
    the HTTP client for anywhere else or with another body, there are at most [max_retries + 1]
    attempts, every attempt of a delegation carries its key and every attempt the id of the request
    that is being served; an attempt is repeated only when repeating it is safe: a request without a
    body or with a key when it was not answered or answered with one of the seven statuses of a
    passing trouble, any other only when the connection was never made; and an operation succeeds
    only when the last attempt did.  Without codes no discount service is called at all. *)
Theorem adapter_calls_its_service op s :
  exists reqs, h_sent (snd (run_operation op s)) = h_sent s ++ reqs
    /\ operation_attempts op (fst (run_operation op s)) reqs.
Proof. apply operation_spec. Qed.
End adapters.
