(* ===== verification/Http.v ===== *)
(** * The HTTP API ([crates/orchestrator-http/src]: [routes/v1.rs], [dto.rs],
    [auth.rs], [error.rs]; [crates/orchestrator-api/src]: [acp_mapping.rs], [authn.rs])

    The handlers of the version 1 routes over the facade: authentication, the parsing of
    ids and requests, the tenant checks the handlers make themselves, and the sequences
    of facade calls of the UCP and ACP bindings.  [axum], [serde] and the [uuid] and JWT
    crates are outside the repository: a handler takes its decoded body and returns the
    domain value its response is rendered from. *)

From S2P Require Export Facade.

(** ** Errors ([error.rs]) *)

Inductive ApiError :=
| BadRequest (msg : string)
| BadRequestWithCode (msg code : string)
| Unauthorized
| Forbidden (msg : string)
| NotFound (msg : string)
| Orchestrator (e : FacadeError)
| Internal.

(** [orchestrator_error_to_http]. *)
Definition orchestrator_error_to_http (e : FacadeError) : Z * string :=
  match e with
  | FAuthz _ => (403%Z, "AUTHZ_ERROR")
  | FAp2Verification _ => (400%Z, "AP2_VERIFICATION_ERROR")
  | FIdentityLink _ => (400%Z, "IDENTITY_LINK_ERROR")
  | FPaymentDelegation _ => (502%Z, "PAYMENT_DELEGATION_ERROR")
  | FNotConfigured _ => (501%Z, "NOT_CONFIGURED")
  | FRunner r =>
      match r with
      | RunnerStore _ => (500%Z, "STORE_ERROR")
      | RunnerPayment _ => (422%Z, "PAYMENT_ERROR")
      | ValidationFailed _ => (400%Z, "VALIDATION_ERROR")
      | AlreadyInFlight => (409%Z, "IDEMPOTENCY_CONFLICT")
      | CartNotFound | LineNotFound => (404%Z, "NOT_FOUND")
      | CartVersionConflict _ _ => (409%Z, "CART_VERSION_CONFLICT")
      | AmountMismatch _ _ => (422%Z, "AMOUNT_MISMATCH")
      | CartTenantMismatch => (403%Z, "TENANT_MISMATCH")
      | GeoBlocked => (403%Z, "GEO_BLOCKED")
      | MissingCartId => (400%Z, "MISSING_CART_ID")
      | _ => (500%Z, "RUNNER_ERROR")
      end
  end.

(** Status and code of [ApiError::parts]. *)
Definition parts (e : ApiError) : Z * string :=
  match e with
  | BadRequest _ => (400%Z, "BAD_REQUEST")
  | BadRequestWithCode _ code => (400%Z, code)
  | Unauthorized => (401%Z, "UNAUTHORIZED")
  | Forbidden _ => (403%Z, "FORBIDDEN")
  | NotFound _ => (404%Z, "NOT_FOUND")
  | Orchestrator e => orchestrator_error_to_http e
  | Internal => (500%Z, "INTERNAL_ERROR")
  end.

(** ** Authentication ([auth.rs], [authn.rs]) *)

Definition dev_auth_context : AuthContext := MkAuthContext "dev" "dev" ["checkout:execute"].

(** [s.trim().strip_prefix("Bearer ").map(str::trim)]. *)
Definition bearer_token (header : option string) : option string :=
  match header with
  | Some s => str_trim <$> strip_prefix "Bearer " (str_trim s)
  | None => None
  end.

(** [AuthContextExtractor::from_request_parts]; a resolver is [AuthnResolver::resolve_bearer]. *)
Definition extract_auth (authn : option (string -> option AuthContext)) (allow_dev_auth : bool)
    (header : option string) : result AuthContext ApiError :=
  match authn with
  | None => if allow_dev_auth then Ok dev_auth_context else Err Unauthorized
  | Some resolve =>
      match bearer_token header with
      | None => Err Unauthorized
      | Some token => ok_or (resolve token) Unauthorized
      end
  end.

(** [StaticTokenAuthnResolver::resolve_bearer]. *)
Definition static_resolver (token : string) (context : AuthContext) (presented : string)
  : option AuthContext :=
  if String.eqb presented token then Some context else None.

(** [StaticTokenAuthnResolver::new] and [from_env]. *)
Definition static_context (tenant_id caller_id : string) : AuthContext :=
  MkAuthContext caller_id tenant_id ["checkout:execute"].

Definition static_from_env (var : string -> option string)
  : option (string -> option AuthContext) :=
  match var "AUTH_BEARER_TOKEN" with
  | None => None
  | Some token =>
      if str_is_empty (str_trim token) then None
      else Some (static_resolver (str_trim token)
                   (static_context (unwrap_or (var "AUTH_TENANT_ID") "prod")
                      (unwrap_or (var "AUTH_CALLER_ID") "prod")))
  end.

(** [OptionalAuthContext::from_request_parts]. *)
Definition optional_auth (authn : option (string -> option AuthContext)) (header : option string)
  : option AuthContext :=
  match authn, bearer_token header with
  | Some resolve, Some token => resolve token
  | _, _ => None
  end.

Record JwtClaims := MkClaims {
  jc_sub : string; jc_tenant_id : string; jc_scopes : list string; jc_iss : option string }.

(** [JwtAuthnResolver::resolve_bearer]; [decode] checks the signature and the expiry. *)
Definition jwt_resolver (decode : string -> option JwtClaims) (trusted_issuers : list string)
    (token : string) : option AuthContext :=
  match decode token with
  | None => None
  | Some claims =>
      let trusted :=
        match trusted_issuers with
        | [] => true
        | _ => is_some_and (jc_iss claims)
                 (fun iss => any (fun t => eq_ignore_ascii_case t iss) trusted_issuers)
        end in
      if trusted then
        let scopes := match jc_scopes claims with
                      | [] => ["checkout:execute"] | s => s end in
        Some (MkAuthContext (jc_sub claims) (jc_tenant_id claims) scopes)
      else None
  end.

(** An optional caller is the caller the strict extractor finds where nobody passes as the developer. *)
Lemma optional_auth_agrees authn header :
  optional_auth authn header
  = match extract_auth authn false header with Ok context => Some context | Err _ => None end.
Proof.
  unfold optional_auth, extract_auth. destruct authn as [resolve|]; [|done].
  destruct (bearer_token header) as [token|]; [|done]. by destruct (resolve token).
Qed.

(** The token of the environment lets in whoever presents it, as the tenant the environment names,
    and never an empty one. *)
Lemma static_from_env_iff var resolve token context :
  static_from_env var = Some resolve ->
  resolve token = Some context <->
    (exists secret, var "AUTH_BEARER_TOKEN" = Some secret /\ token = str_trim secret)
    /\ token <> "" /\ context = static_context (unwrap_or (var "AUTH_TENANT_ID") "prod")
                                   (unwrap_or (var "AUTH_CALLER_ID") "prod").
Proof.
  unfold static_from_env. destruct (var "AUTH_BEARER_TOKEN") as [secret|]; [|done].
  destruct (str_is_empty (str_trim secret)) eqn:He; [done|]. intros [= <-].
  assert (str_trim secret <> "") as Hne by (rewrite <- str_is_empty_spec; congruence).
  unfold static_resolver. destruct (String.eqb_spec token (str_trim secret)) as [->|Hn].
  - split; [intros [= <-]; eauto|]. by intros (_ & _ & ->).
  - split; [done|]. by intros ((? & [= <-] & ?) & _).
Qed.

(** ** Requests ([dto.rs], [acp_mapping.rs]) *)

Inductive CartCommandDto :=
| DtoCreateCart (merchant_id currency : string)
| DtoAddItem (item_id : string) (quantity : Z)
| DtoUpdateItemQty (line_id : string) (quantity : Z)
| DtoRemoveItem (line_id : string)
| DtoApplyAdjustment (code : string)
| DtoGetCart (cart_id : string)
| DtoStartCheckout (cart_id : string) (cart_version : Z)
| DtoCancelCart (cart_id : string).

Record CartCommandRequest := MkCartCommandRequest {
  cq_command : CartCommandDto; cq_cart_id : option string }.

Record PaymentIntentDto := MkPaymentIntentDto {
  pid_amount_minor : Z;
  pid_token_or_reference : string;
  pid_ap2_consent_proof : option string;
  pid_payment_handler_id : option string;
  pid_payment_method_type : option string;
  pid_mpp_method : option string;
  pid_mpp_intent : option string
}.

Record CheckoutRequestDto := MkCheckoutRequestDto {
  cd_tenant_id : string;
  cd_merchant_id : string;
  cd_cart_id : string;
  cd_cart_version : Z;
  cd_currency : string;
  cd_customer : option CustomerHint;
  cd_location : option LocationHint;
  cd_payment_intent : PaymentIntentDto;
  cd_idempotency_key : string
}.

(** A line of a UCP cart or of an ACP session request. *)
Record LineRequest := MkLineRequest {
  lq_id : option string; lq_item_id : string; lq_quantity : Z }.

Record UcpCartRequestDto := MkUcpCartRequest {
  ucr_merchant_id : option string; ucr_currency : string; ucr_line_items : list LineRequest }.

Record AcpCheckoutSessionCreateRequest := MkAcpCreate {
  ac_merchant_id : string; ac_currency : string; ac_line_items : list LineRequest }.

Record AcpPaymentData := MkAcpPaymentData {
  ad_token : string;
  ad_amount_minor : Z;
  ad_payment_handler_id : option string;
  ad_ap2_consent_proof : option string;
  ad_payment_method_type : option string;
  ad_mpp_method : option string;
  ad_mpp_intent : option string
}.

Record AcpCompleteSessionRequest := MkAcpComplete {
  aq_tenant_id : string;
  aq_merchant_id : string;
  aq_idempotency_key : string;
  aq_payment_data : AcpPaymentData;
  aq_buyer : option CustomerHint
}.

Record WebhookRegistrationRequestDto := MkWebhookRequest {
  wr_url : string; wr_secret : string; wr_event_filter : option (list string) }.

Definition ACP_API_VERSION : string := "2026-04-17".

Definition nonblank (o : option string) : option string :=
  match o with
  | Some v => if blank v then None else Some (str_trim v)
  | None => None
  end.

(** [negotiate_acp_version] through [acp_version_from_headers]. *)
Definition acp_version_from_headers (api_version : option string) : result string ApiError :=
  match nonblank api_version with
  | None => Err (BadRequest "API-Version header is required")
  | Some v => if String.eqb v ACP_API_VERSION then Ok ACP_API_VERSION
              else Err (BadRequest ("API version '" +:+ v +:+ "' is not supported"))
  end.

Definition require_acp_idempotency_key (header : option string) : result string ApiError :=
  ok_or (nonblank header)
    (BadRequestWithCode "Idempotency-Key header is required" "idempotency_key_required").

(** [complete_to_checkout_request]. *)
Definition complete_to_checkout_request (cart_id : CartId) (cart_version : Z) (currency : string)
    (req : AcpCompleteSessionRequest) : CheckoutRequest :=
  let data := aq_payment_data req in
  let method :=
    match ad_payment_method_type data with
    | Some m => let m := to_ascii_lowercase m in
                if String.eqb m "ap2" then Some Ap2
                else if String.eqb m "mpp" then Some Mpp else None
    | None => None
    end in
  MkCheckoutRequest (aq_tenant_id req) (aq_merchant_id req) cart_id cart_version currency
    (aq_buyer req) None
    (MkPaymentIntent (ad_amount_minor data) (ad_token data) (ad_ap2_consent_proof data)
       (ad_payment_handler_id data) method (ad_mpp_method data) (ad_mpp_intent data))
    (aq_idempotency_key req).

(** ** Handlers ([routes/v1.rs]) *)

Section routes.
Context {B : Backend} (env : Env) (parse_proof : string -> option ConsentProof)
  (issuers : option string) (uuid_from_str : string -> result Uuid string)
  (self : OrchestratorFacade B).

Definition H (A : Type) : Type := ST (World B) ApiError A.

(** [?] on a facade call. *)
Definition api {A} (m : F (B:=B) A) : H A := fun w =>
  (map_err Orchestrator (fst (m w)), snd (m w)).

Definition reply {A} (r : result A ApiError) : H A := st_lift r.

Definition parse_cart_id (s : string) : result CartId string :=
  match uuid_from_str s with Ok u => Ok (MkCartId u) | Err e => Err e end.

Definition parse_ucp_cart_id (id : string) : result CartId ApiError :=
  map_err BadRequest (parse_cart_id id).

(** [id.strip_prefix("cs_").unwrap_or(id)]. *)
Definition parse_acp_session_id (id : string) : result CartId string :=
  map_err (fun e => "invalid checkout session id: " +:+ e)
    (parse_cart_id (unwrap_or (strip_prefix "cs_" id) id)).

(** [CartCommand::try_from]. *)
Definition command_of_dto (dto : CartCommandDto) : result CartCommand string :=
  match dto with
  | DtoCreateCart m c => Ok (CreateCart (MkCreateCart m c None))
  | DtoAddItem i q => Ok (AddItem (MkAddItem i q))
  | DtoUpdateItemQty l q => Ok (UpdateItemQty (MkUpdateItemQty l q))
  | DtoRemoveItem l => Ok (RemoveItem (MkRemoveItem l))
  | DtoApplyAdjustment c => Ok (ApplyAdjustment (MkApplyAdjustment c))
  | DtoGetCart c =>
      match parse_cart_id c with Ok c => Ok (GetCart (MkGetCart c)) | Err e => Err e end
  | DtoStartCheckout c v =>
      match parse_cart_id c with
      | Ok c => Ok (StartCheckout (MkStartCheckout c v)) | Err e => Err e end
  | DtoCancelCart c =>
      match parse_cart_id c with Ok c => Ok (CancelCart (MkCancelCart c)) | Err e => Err e end
  end.

(** [CheckoutRequest::try_from]. *)
Definition checkout_of_dto (dto : CheckoutRequestDto) : result CheckoutRequest string :=
  match parse_cart_id (cd_cart_id dto) with
  | Err e => Err e
  | Ok cart_id =>
      let p := cd_payment_intent dto in
      match match pid_payment_method_type p with
            | None => Ok None
            | Some m =>
                if String.eqb m "ap2" then Ok (Some Ap2)
                else if String.eqb m "mpp" then Ok (Some Mpp)
                else Err ("unsupported payment_method_type: " +:+ m)
            end with
      | Err e => Err e
      | Ok method =>
          Ok (MkCheckoutRequest (cd_tenant_id dto) (cd_merchant_id dto) cart_id
                (cd_cart_version dto) (cd_currency dto) (cd_customer dto) (cd_location dto)
                (MkPaymentIntent (pid_amount_minor p) (pid_token_or_reference p)
                   (pid_ap2_consent_proof p) (pid_payment_handler_id p) method
                   (pid_mpp_method p) (pid_mpp_intent p))
                (cd_idempotency_key dto))
      end
  end.

Definition for_tenant (auth : AuthContext) (cmd : CartCommand) (cart_id : option CartId)
  : H CartProjection :=
  api (dispatch_cart_command_for_tenant env self (ax_tenant_id auth) cmd cart_id).

(** *** Carts *)

Definition http_dispatch_cart_command (auth : AuthContext) (req : CartCommandRequest)
  : H CartProjection :=
  cmd ← reply (map_err BadRequest (command_of_dto (cq_command req)));
  cart_id ← reply match cq_cart_id req with
                  | None => Ok None
                  | Some s => match uuid_from_str s with
                              | Ok u => Ok (Some (MkCartId u))
                              | Err e => Err (BadRequest e)
                              end
                  end;
  for_tenant auth cmd cart_id.

(** [for line in lines { projection = add(line)?; }]. *)
Fixpoint add_lines (auth : AuthContext) (cart_id : CartId) (lines : list LineRequest)
    (projection : CartProjection) : H CartProjection :=
  match lines with
  | [] => mret projection
  | line :: rest =>
      projection ← for_tenant auth (AddItem (MkAddItem (lq_item_id line) (lq_quantity line)))
                     (Some cart_id);
      add_lines auth cart_id rest projection
  end.

(** The two loops of a cart update: existing lines the request does not name are
    removed, then its lines are applied in order, an update if they name a line. *)
Fixpoint remove_lines (auth : AuthContext) (cart_id : CartId) (desired : list string)
    (current_ids : list string) (projection : CartProjection) : H CartProjection :=
  match current_ids with
  | [] => mret projection
  | line_id :: rest =>
      if str_contains desired line_id then remove_lines auth cart_id desired rest projection
      else
        projection ← for_tenant auth (RemoveItem (MkRemoveItem line_id)) (Some cart_id);
        remove_lines auth cart_id desired rest projection
  end.

Fixpoint apply_lines (auth : AuthContext) (cart_id : CartId) (lines : list LineRequest)
    (projection : CartProjection) : H CartProjection :=
  match lines with
  | [] => mret projection
  | line :: rest =>
      projection ← for_tenant auth
        match lq_id line with
        | Some line_id => UpdateItemQty (MkUpdateItemQty line_id (lq_quantity line))
        | None => AddItem (MkAddItem (lq_item_id line) (lq_quantity line))
        end (Some cart_id);
      apply_lines auth cart_id rest projection
  end.

Definition get_for (auth : AuthContext) (cart_id : CartId) : H CartProjection :=
  for_tenant auth (GetCart (MkGetCart cart_id)) None.

Definition update_lines (auth : AuthContext) (cart_id : CartId) (lines : list LineRequest)
  : H CartProjection :=
  projection ← get_for auth cart_id;
  let desired := omap lq_id lines in
  projection ← remove_lines auth cart_id desired (map cl_line_id (cp_lines projection))
                 projection;
  apply_lines auth cart_id lines projection.

Definition ucp_create_cart (auth : AuthContext) (req : UcpCartRequestDto) : H CartProjection :=
  merchant_id ← reply (ok_or (ucr_merchant_id req) (BadRequest "merchant_id is required"));
  projection ← for_tenant auth
    (CreateCart (MkCreateCart merchant_id (ucr_currency req) (Some (ax_tenant_id auth)))) None;
  add_lines auth (cp_cart_id projection) (ucr_line_items req) projection.

Definition ucp_get_cart (auth : AuthContext) (id : string) : H CartProjection :=
  cart_id ← reply (parse_ucp_cart_id id); get_for auth cart_id.

Definition ucp_update_cart (auth : AuthContext) (id : string) (req : UcpCartRequestDto)
  : H CartProjection :=
  cart_id ← reply (parse_ucp_cart_id id); update_lines auth cart_id (ucr_line_items req).

Definition ucp_cancel_cart (auth : AuthContext) (id : string) : H CartProjection :=
  cart_id ← reply (parse_ucp_cart_id id);
  for_tenant auth (CancelCart (MkCancelCart cart_id)) None.

Definition ucp_create_checkout (auth : AuthContext) (req : UcpCartRequestDto)
  : H CartProjection :=
  projection ← ucp_create_cart auth req;
  let cart_id := cp_cart_id projection in
  for_tenant auth (StartCheckout (MkStartCheckout cart_id (cp_version projection)))
    (Some cart_id).

(** *** Checkout *)

Definition http_execute_checkout (auth : AuthContext) (req : CheckoutRequestDto)
  : H TransactionResult :=
  request ← reply (map_err BadRequest (checkout_of_dto req));
  api (execute_checkout_authorized env parse_proof issuers self auth request).

Definition with_cart_id (c : CartId) (r : CheckoutRequest) : CheckoutRequest :=
  MkCheckoutRequest (cr_tenant_id r) (cr_merchant_id r) c (cr_cart_version r) (cr_currency r)
    (cr_customer r) (cr_location r) (cr_payment_intent r) (cr_idempotency_key r).

Definition ucp_complete_checkout (auth : AuthContext) (id : string) (req : CheckoutRequestDto)
  : H TransactionResult :=
  cart_id ← reply (parse_ucp_cart_id id);
  request ← reply (map_err BadRequest (checkout_of_dto req));
  api (execute_checkout_authorized env parse_proof issuers self auth
         (with_cart_id cart_id request)).

(** *** The ACP binding: [version] and [key] are the two headers *)

Definition acp_create_session (auth : AuthContext) (version key : option string)
    (req : AcpCheckoutSessionCreateRequest) : H CartProjection :=
  _ ← reply (acp_version_from_headers version);
  _ ← reply (require_acp_idempotency_key key);
  projection ← for_tenant auth
    (CreateCart (MkCreateCart (ac_merchant_id req) (ac_currency req) None)) None;
  add_lines auth (cp_cart_id projection) (ac_line_items req) projection.

Definition acp_get_session (auth : AuthContext) (version : option string) (id : string)
  : H CartProjection :=
  _ ← reply (acp_version_from_headers version);
  cart_id ← reply (map_err BadRequest (parse_acp_session_id id));
  get_for auth cart_id.

Definition acp_update_session (auth : AuthContext) (version : option string) (id : string)
    (lines : list LineRequest) : H CartProjection :=
  _ ← reply (acp_version_from_headers version);
  cart_id ← reply (map_err BadRequest (parse_acp_session_id id));
  update_lines auth cart_id lines.

Definition acp_complete_session (auth : AuthContext) (version key : option string)
    (id : string) (req : AcpCompleteSessionRequest) : H TransactionResult :=
  _ ← reply (acp_version_from_headers version);
  _ ← reply (require_acp_idempotency_key key);
  cart_id ← reply (map_err BadRequest (parse_acp_session_id id));
  projection ← get_for auth cart_id;
  _ ← for_tenant auth (StartCheckout (MkStartCheckout cart_id (cp_version projection)))
        (Some cart_id);
  let checkout := complete_to_checkout_request cart_id (cp_version projection)
                    (cp_currency projection) req in
  api (execute_checkout_authorized env parse_proof issuers self auth checkout).

Definition acp_cancel_session (auth : AuthContext) (version key : option string) (id : string)
  : H CartProjection :=
  _ ← reply (acp_version_from_headers version);
  _ ← reply (require_acp_idempotency_key key);
  cart_id ← reply (map_err BadRequest (parse_acp_session_id id));
  for_tenant auth (CancelCart (MkCancelCart cart_id)) None.

(** *** Orders, payments, webhooks and operations *)

Definition http_get_order (auth : AuthContext) (id : string) : H OrderRecord :=
  o ← api (facade_get_order id);
  order ← reply (ok_or o (NotFound "order not found"));
  if String.eqb (ax_tenant_id auth) (or_tenant_id order) then mret order
  else st_fail (Forbidden "tenant mismatch").

Definition http_list_orders (auth : AuthContext) : H (list OrderRecord) :=
  api (facade_list_orders (ax_tenant_id auth)).

(** The shape of the capture, void and refund routes. *)
Definition payment_route (op : PaymentLifecycleRequest -> F (B:=B) PaymentOperationResult)
    (auth : AuthContext) (req : PaymentLifecycleRequest) : H PaymentOperationResult :=
  if String.eqb (ax_tenant_id auth) (pl_tenant_id req) then api (op req)
  else st_fail (Forbidden "tenant mismatch").

Definition http_capture_payment := payment_route (facade_capture_payment self).
Definition http_void_payment := payment_route (facade_void_payment self).
Definition http_refund_payment := payment_route (facade_refund_payment self).

Definition http_register_webhook (auth : AuthContext) (req : WebhookRegistrationRequestDto)
  : H WebhookRegistration :=
  id ← api (from_runner (fresh_id env "wh_"));
  let registration := MkWebhook id (ax_tenant_id auth) (wr_url req) (wr_secret req)
                        (wr_event_filter req) true in
  _ ← api (facade_register_webhook registration);
  mret registration.

Definition http_list_webhooks (auth : AuthContext) : H (list WebhookRegistration) :=
  api (facade_list_webhooks (ax_tenant_id auth)).

Definition http_unregister_webhook (auth : AuthContext) (id : string) : H bool :=
  api (facade_unregister_webhook id).

Definition http_accept_incoming_event (auth : AuthContext) (message_id : string) : H bool :=
  api (facade_accept_incoming_event_once message_id).

Definition http_process_outbox (auth : AuthContext) (max_attempts : Z) : H unit :=
  api (facade_process_outbox_once self max_attempts).

Definition http_replay_dead_letter (auth : AuthContext) (message_id : string) : H bool :=
  api (facade_replay_from_dead_letter message_id).

Definition http_run_reconciliation (auth : AuthContext) (ids : list string)
  : H (list PaymentMismatch) := api (facade_run_reconciliation self ids).
End routes.

(** ** Properties *)

Lemma u64_wrap_succ x : u64_wrap (x + 1) <> x.
Proof.
  unfold u64_wrap. intros H. pose proof (Z.div_mod (x + 1) (2 ^ 64) ltac:(lia)). lia.
Qed.

Section properties.
Context {B : Backend} {L : BackendLaws B} (env : Env) (parse : string -> option ConsentProof)
  (issuers : option string) (uuid_from_str : string -> result Uuid string)
  (self : OrchestratorFacade B).
Implicit Types w v : World B.

Lemma wp_api {A} (m : F A) (Q : result A ApiError -> World B -> Prop) w :
  wp (api m) Q w <-> wp m (fun r v => Q (map_err Orchestrator r) v) w.
Proof. done. Qed.

Lemma wp_reply {A} (r : result A ApiError) (Q : result A ApiError -> World B -> Prop) w :
  wp (reply r) Q w <-> Q r w.
Proof. done. Qed.

(** A handler's tenant dispatch, in terms of the runner's. *)
Lemma for_tenant_spec auth cmd id (Q : result CartProjection ApiError -> World B -> Prop) w :
  Q (Err (Orchestrator (FAuthz TenantMismatch))) w ->
  wp (dispatch_cart_command env (fc_runner self) (with_tenant (ax_tenant_id auth) cmd) id)
    (fun r v => Q (map_err Orchestrator (map_err FRunner r)) v) w ->
  wp (for_tenant env self auth cmd id) Q w.
Proof.
  intros Hno Hrun. apply wp_api. wp_use dispatch_for_tenant_cases.
  intros r v [[-> ->]|(r' & -> & Hd & _)]; [done|]. exact (wp_run _ _ _ _ _ Hrun Hd).
Qed.

Lemma get_for_spec auth c w :
  wp (get_for env self auth c) (fun r v => v = w
    /\ forall q, r = Ok q -> get_cart_snapshot c (w_events w) = Some q) w.
Proof.
  apply for_tenant_spec; [done|]. unfold dispatch_cart_command. cbn. rewrite wp_load_cart.
  destruct (get_cart_snapshot c (w_events w)); cbn; split; try done. by intros ? [= <-].
Qed.

(** Starting a checkout leaves the cart one version ahead of the one it was given. *)
Lemma start_for_spec auth c n w :
  snapshots_ok (w_events w) ->
  wp (for_tenant env self auth (StartCheckout (MkStartCheckout c n)) (Some c)) (fun r v =>
    snapshots_ok (w_events v) /\ only_carts w v
    /\ forall q, r = Ok q ->
       exists stored, get_cart_snapshot c (w_events v) = Some stored
         /\ cp_version stored = u64_wrap (n + 1)) w.
Proof.
  intros Hok. apply for_tenant_spec; [by split|]. unfold dispatch_cart_command. cbn [with_tenant].
  destruct (negb _); [by wp_prims|]. wp_use cmd_start_checkout_spec; [done|].
  intros r v [[Hstep Hr] Hver]. split; [by eapply cart_step_ok|]. split; [by apply Hstep|].
  intros q. destruct r as [q'|]; [|done]. intros [= ->]. destruct Hr as (p & _ & _ & Hs & _).
  exists q. split; [exact Hs|]. by apply Hver.
Qed.

(** A checkout of a version that is not the stored one moves no money; a result can
    only be the one already filed under its key. *)
Lemma stale_checkout req w stored :
  key_ok (key_of req) -> snapshots_ok (w_events w) ->
  get_cart_snapshot (cr_cart_id req) (w_events w) = Some stored ->
  cp_version stored <> cr_cart_version req ->
  wp (execute_checkout env (fc_runner self) req) (fun r v => payments v = payments w
    /\ forall res, r = Ok res ->
         idem_lookup (key_of req) (w_idem w) = Some (IdemCompleted res)) w.
Proof.
  intros Hk Hok Hst Hv. unfold wp.
  pose proof (run_pair (execute_checkout env (fc_runner self) req w)) as E.
  apply (execute_checkout_outcome _ _ _ _ _ _ Hk Hok) in E.
  set (r := fst _) in *. set (v := snd _) in *. clearbody r v.
  destruct E as [| | | |i e e' u Hc Hs|i cart u r' z Hc Hs Hp]; try (split; [done|]; by intros ? [=]).
  - split; [done|]. intros ? [= <-]. done.
  - apply settle_post_idem in Hs as [_ ?]. split; [done|]. by intros ? [=].
  - exfalso. destruct Hs as (_ & _ & _ & (st' & Hst' & Hset) & _). simplify_eq/=.
    apply Hv. rewrite <- (se_version _ _ _ Hset). symmetry. apply (so_version _ _ (se_same _ _ _ Hset)).
Qed.

(** Completing an ACP checkout session never charges anyone.  The handler starts
    the checkout, which raises the version of the cart, and then asks for the checkout
    of the version it had read before: whatever the cart, the caller, the providers and
    the mode, no payment call is made, and a result can only be one that was already
    filed under the request's idempotency key. *)
Theorem acp_completion_never_charges auth version key id req w r v :
  (forall c n cur, key_ok (key_of (complete_to_checkout_request c n cur req))) ->
  snapshots_ok (w_events w) ->
  acp_complete_session env parse issuers uuid_from_str self auth version key id req w = (r, v) ->
  payments v = payments w
  /\ forall res, r = Ok res -> exists k, idem_lookup k (w_idem w) = Some (IdemCompleted res).
Proof.
  intros Hk Hok Hrun. eapply (wp_run _ (fun r v => payments v = payments w /\
    forall res, r = Ok res -> exists k, idem_lookup k (w_idem w) = Some (IdemCompleted res)));
    [|exact Hrun]. clear Hrun.
  unfold acp_complete_session. do 3 (wp_step; rewrite wp_reply; case_match; [|done]).
  wp_step. wp_use get_for_spec. intros [p|e] ? [-> Hp]; [|done].
  wp_step. wp_use start_for_spec; [done|]. intros [q|e] u (Hoku & Hcarts & Hq).
  2:{ split; [by apply oc_payments|done]. }
  destruct (Hq q eq_refl) as (stored & Hst & Hver).
  set (co := complete_to_checkout_request _ _ _ _).
  rewrite <- (oc_payments _ _ Hcarts), <- (oc_idem _ _ Hcarts).
  apply wp_api. unfold execute_checkout_authorized. wp_step. rewrite wp_lift.
  destruct (authorize_checkout auth co) as [[]|e]; cbn [map_err]; [|done].
  assert (forall x, w_events x = w_events u -> w_idem x = w_idem u -> payments x = payments u ->
    wp (execute_checkout env (fc_runner self) co) (fun r v => payments v = payments u /\
      forall res, map_err Orchestrator (map_err FRunner r) = Ok res ->
        exists k, idem_lookup k (w_idem u) = Some (IdemCompleted res)) x) as Hgo.
  { intros x He Hi Hx. rewrite <- Hx, <- Hi. eapply wp_mono; [eapply (stale_checkout co x stored)|];
      rewrite ?He; try done.
    - apply Hk.
    - cbn. rewrite Hver. apply u64_wrap_succ.
    - intros [res|e] y [Hpay Hres]; (split; [done|]); [|done]. intros ? [= <-]. eauto. }
  apply facade_checkout_cases. destruct (fc_ap2_strict self); [|by apply Hgo].
  wp_use spend_mandate_spec. intros [[]|e] x [(m & n & ->) _]; [|done]. by apply Hgo.
Qed.
End properties.

(** ** The two ids of a cart command *)

Section in_memory.
Context (env : Env) (uuid_from_str : string -> result Uuid string)
  (self : OrchestratorFacade memory_backend).
Implicit Types w v : World memory_backend.

(** With the id of no cart beside a command that names its cart itself, the tenant
    check passes and the command runs. *)
Lemma unchecked_dispatch auth req cmd c u w :
  command_of_dto uuid_from_str (cq_command req) = Ok cmd ->
  cart_id_from_command cmd = Some c ->
  cq_cart_id req = Some u ->
  (exists n, uuid_from_str u = Ok n /\ cart_snapshot (MkCartId n) w = None) ->
  exists id, http_dispatch_cart_command env uuid_from_str self auth req w
    = api (from_runner (dispatch_cart_command env (fc_runner self) cmd id)) w.
Proof.
  intros Hcmd Hc Hu (n & Hn & Hnone). exists (Some (MkCartId n)).
  unfold http_dispatch_cart_command, mbind, ST_bind. rewrite Hcmd, Hu, Hn.
  unfold reply, st_lift. cbn [map_err]. unfold for_tenant, api, dispatch_cart_command_for_tenant, assert_cart_belongs_to.
  assert (with_tenant (ax_tenant_id auth) cmd = cmd) as -> by by destruct cmd.
  unfold mbind, ST_bind, st_gets. cbn [or_else]. cbv beta. by rewrite Hnone.
Qed.

(** The cart command route can be made to act on a cart of another tenant.  A
    caller of any tenant that names a victim's cart in the command and an id of no
    cart beside it reads that cart, and cancels it. *)
Theorem foreign_cart_read_and_cancelled auth victim beside c w p :
  snapshots_ok (w_events w) ->
  uuid_from_str victim = Ok (cart_uuid c) -> cart_snapshot c w = Some p ->
  (exists n, uuid_from_str beside = Ok n /\ cart_snapshot (MkCartId n) w = None) ->
  fst (http_dispatch_cart_command env uuid_from_str self auth
         (MkCartCommandRequest (DtoGetCart victim) (Some beside)) w) = Ok p
  /\ cart_snapshot c (snd (http_dispatch_cart_command env uuid_from_str self auth
         (MkCartCommandRequest (DtoCancelCart victim) (Some beside)) w))
     = Some (bump (cp_set_status StatusCancelled p)).
Proof.
  intros Hok Hv Hp Hbeside. destruct c as [n]. cbn in Hv. split.
  - destruct (unchecked_dispatch auth (MkCartCommandRequest (DtoGetCart victim) (Some beside))
      (GetCart (MkGetCart (MkCartId n))) (MkCartId n) beside w) as [id ->]; try done.
    { unfold command_of_dto, parse_cart_id. cbn. by rewrite Hv. }
    assert (wp (dispatch_cart_command env (fc_runner self) (GetCart (MkGetCart (MkCartId n))) id)
      (fun r _ => map_err Orchestrator (map_err FRunner r) = Ok p) w) as Hw; [|exact Hw].
    unfold dispatch_cart_command. cbn [validate_cart_command finish valid validation_ok negb].
    rewrite wp_load_cart. exact (f_equal (fun o => map_err _ (map_err _ (ok_or o CartNotFound))) Hp).
  - destruct (unchecked_dispatch auth (MkCartCommandRequest (DtoCancelCart victim) (Some beside))
      (CancelCart (MkCancelCart (MkCartId n))) (MkCartId n) beside w) as [id ->]; try done.
    { unfold command_of_dto, parse_cart_id. cbn. by rewrite Hv. }
    destruct (Hok _ _ Hp) as [Hid _].
    assert (wp (dispatch_cart_command env (fc_runner self) (CancelCart (MkCancelCart (MkCartId n))) id)
      (fun _ v => cart_snapshot (MkCartId n) v = Some (bump (cp_set_status StatusCancelled p))) w)
      as Hw; [|exact Hw].
    unfold dispatch_cart_command, cmd_cancel_cart. cbn [validate_cart_command finish valid validation_ok negb].
    wp_step. rewrite wp_load_cart.
    replace (ok_or _ _) with (@Ok _ RunnerError p); [|symmetry; exact (f_equal (fun o => ok_or o CartNotFound) Hp)].
    wp_step. rewrite wp_on_events. cbn. wp_step. rewrite wp_on_events. cbn.
    wp_step. rewrite wp_transition. cbn.
    assert (<[cp_cart_id p := bump (cp_set_status StatusCancelled p)]>
      (cart_snapshots (w_events w)) !! MkCartId n = Some (bump (cp_set_status StatusCancelled p)))
      as Hl by (rewrite Hid; apply lookup_insert_eq).
    repeat case_match; wp_prims; exact Hl.
Qed.
End in_memory.

(** ** Witnesses *)

(** Decimal ids stand for UUIDs. *)
Definition demo_uuid (s : string) : result Uuid string :=
  if String.eqb s "cart" then Ok 0%N
  else if String.eqb s "none" then Ok 999%N else Err "not a uuid".

Definition demo_completion : AcpCompleteSessionRequest :=
  MkAcpComplete "t1" "m1" "k1" (MkAcpPaymentData "tok" 2200 None None None None None) None.

(** A session that is ready to be paid is refused as a version conflict. *)
Lemma acp_completion_never_charges_witness :
  let run := acp_complete_session demo_env no_proofs None demo_uuid (demo_facade false) demo_caller
      (Some ACP_API_VERSION) (Some "key") "cs_cart" demo_completion filled_world in
  payments (snd run) = payments filled_world
  /\ exists e, fst run = Err e /\ parts e = (409%Z, "CART_VERSION_CONFLICT").
Proof.
  intros run. split.
  - exact (proj1 (acp_completion_never_charges demo_env no_proofs None demo_uuid (demo_facade false)
      demo_caller (Some ACP_API_VERSION) (Some "key") "cs_cart" demo_completion filled_world _ _
      (fun _ _ _ => demo_key _) filled_world_ok (run_pair _))).
  - exists (Orchestrator (FRunner (CartVersionConflict 2 3))). split; vm_compute; reflexivity.
Defined.

Definition intruder : AuthContext := MkAuthContext "mallory" "t2" [].

Lemma foreign_cart_read_and_cancelled_witness :
  exists p, cp_tenant_id p = Some "t1"
    /\ fst (http_dispatch_cart_command demo_env demo_uuid (demo_facade false) intruder
         (MkCartCommandRequest (DtoGetCart "cart") (Some "none")) filled_world) = Ok p.
Proof.
  destruct (cart_snapshot demo_cart filled_world) as [p|] eqn:Hp;
    [|apply (f_equal is_some) in Hp; vm_compute in Hp; discriminate Hp].
  exists p. split.
  - apply (f_equal (fun o => o ≫= cp_tenant_id)) in Hp. cbn in Hp. rewrite <- Hp.
    vm_compute. reflexivity.
  - assert (exists n, demo_uuid "none" = Ok n /\ cart_snapshot (MkCartId n) filled_world = None)
      as Hnone by (exists 999%N; split; vm_compute; reflexivity).
    exact (proj1 (foreign_cart_read_and_cancelled demo_env demo_uuid (demo_facade false) intruder
      "cart" "none" demo_cart filled_world p filled_world_ok eq_refl Hp Hnone)).
Defined.
