(* ===== verification/Signing.v ===== *)
(** * Message signatures ([crates/orchestrator-api/src/signing.rs])

    RFC 9421 signatures over an RFC 9530 digest: the keyrings, the signature base, and the
    parsers of the headers.  The curves, SHA-256, base64 and the JSON parser belong to other
    crates and are arguments.  Bytes and texts are both [string]. *)

From S2P Require Export Strings.
From Stdlib Require Import Ascii.

Definition SIGNATURE_LABEL : string := "sig1".
Definition MAX_SIGNATURE_SKEW_SECONDS : Z := 300.
Definition SIGNATURE_INPUT_HEADER : string := "signature-input".
Definition SIGNATURE_HEADER : string := "signature".
Definition CONTENT_DIGEST_HEADER : string := "content-digest".

(** The characters [double quote], [backslash] and line feed. *)
Definition dquote : ascii := ascii_of_nat 34.
Definition backslash : ascii := ascii_of_nat 92.
Definition newline : ascii := ascii_of_nat 10.
Definition quoted (s : string) : string := String dquote (s +:+ String dquote "").

(** ** What other crates provide *)

(** [base64]'s [STANDARD] and [URL_SAFE_NO_PAD] engines, [Sha256::digest], and the keys and
    signatures of [ed25519_dalek] and [p256]. *)
Class Crypto := {
  standard_encode : string -> string;
  standard_decode : string -> option string;
  url_safe_encode : string -> string;
  url_safe_decode : string -> option string;
  sha256 : string -> string;
  Ed25519Signing : Type;
  Ed25519Verifying : Type;
  ed25519_signing : string -> Ed25519Signing;
  ed25519_verifying_key : Ed25519Signing -> Ed25519Verifying;
  ed25519_sign : Ed25519Signing -> string -> string;
  ed25519_from_bytes : string -> result Ed25519Verifying string;
  ed25519_to_bytes : Ed25519Verifying -> string;
  ed25519_verify : Ed25519Verifying -> string -> string -> bool;
  P256Signing : Type;
  P256Verifying : Type;
  P256Signature : Type;
  p256_from_slice : string -> result P256Signing string;
  p256_verifying_key : P256Signing -> P256Verifying;
  p256_sign : P256Signing -> string -> P256Signature;
  p256_to_bytes : P256Signature -> string;
  p256_signature : string -> option P256Signature;
  p256_from_sec1 : string -> result P256Verifying string;
  p256_x : P256Verifying -> option string;
  p256_y : P256Verifying -> option string;
  p256_verify : P256Verifying -> string -> P256Signature -> bool
}.

(** [SigningKeyDescriptor] of [ucp_mapping.rs]: a JWK. *)
Record SigningKeyDescriptor := MkJwk {
  jwk_kid : string; jwk_kty : string; jwk_crv : option string; jwk_alg : string;
  jwk_x : option string; jwk_y : option string; jwk_use : option string
}.

(** ** Keys *)

Inductive KeyAlgorithm := EdDsa | Es256.

#[export] Instance KeyAlgorithm_eq_dec : EqDecision KeyAlgorithm.
Proof. solve_decision. Defined.

Inductive SigningKeyError :=
| MissingKid
| InvalidKeyMaterial (kid reason : string)
| DuplicateKid (kid : string)
| UnknownKid (kid : string)
| UnsupportedAlgorithm (name : string)
| InvalidJwks (reason : string)
| MalformedSignature
| KeyVerificationFailed.

(** [KeyAlgorithm::parse], [jose_name] and [http_signature_name]. *)
Definition parse_algorithm (value : string) : result KeyAlgorithm SigningKeyError :=
  let v := to_ascii_lowercase (str_trim value) in
  if str_contains ["eddsa"; "ed25519"] v then Ok EdDsa
  else if str_contains ["es256"; "ecdsa-p256-sha256"] v then Ok Es256
  else Err (UnsupportedAlgorithm (str_trim value)).

Definition jose_name (a : KeyAlgorithm) : string :=
  match a with EdDsa => "EdDSA" | Es256 => "ES256" end.

Definition http_signature_name (a : KeyAlgorithm) : string :=
  match a with EdDsa => "ed25519" | Es256 => "ecdsa-p256-sha256" end.

(** [MessageComponents]: the values of one message by component name. *)
Abbreviation MessageComponents := (gmap string string).

Section keys.
Context {crypto : Crypto}.

Inductive PrivateKey :=
| PrivEd25519 (key : Ed25519Signing)
| PrivP256 (key : P256Signing).

Inductive PublicKey :=
| PubEd25519 (key : Ed25519Verifying)
| PubP256 (key : P256Verifying).

(** [PrivateKey::sign] and [public]. *)
Definition key_sign (k : PrivateKey) (payload : string) : string :=
  match k with
  | PrivEd25519 key => ed25519_sign key payload
  | PrivP256 key => p256_to_bytes (p256_sign key payload)
  end.

Definition key_public (k : PrivateKey) : PublicKey :=
  match k with
  | PrivEd25519 key => PubEd25519 (ed25519_verifying_key key)
  | PrivP256 key => PubP256 (p256_verifying_key key)
  end.

(** [PublicKey::algorithm], [verify] and [jwk]. *)
Definition key_algorithm (k : PublicKey) : KeyAlgorithm :=
  match k with PubEd25519 _ => EdDsa | PubP256 _ => Es256 end.

Definition key_verify (k : PublicKey) (payload signature : string) : bool :=
  match k with
  | PubEd25519 key =>
      (String.length signature =? 64)%nat && ed25519_verify key payload signature
  | PubP256 key =>
      match p256_signature signature with
      | Some s => p256_verify key payload s
      | None => false
      end
  end.

Definition key_jwk (k : PublicKey) (kid : string) : SigningKeyDescriptor :=
  match k with
  | PubEd25519 key =>
      MkJwk kid "OKP" (Some "Ed25519") (jose_name EdDsa)
        (Some (url_safe_encode (ed25519_to_bytes key))) None (Some "sig")
  | PubP256 key =>
      MkJwk kid "EC" (Some "P-256") (jose_name Es256) (url_safe_encode <$> p256_x key)
        (url_safe_encode <$> p256_y key) (Some "sig")
  end.

Definition decode_base64 (value : string) : option string :=
  let trimmed := str_trim value in
  if str_is_empty trimmed then None
  else match url_safe_decode (trim_end_matches "=" trimmed) with
       | Some raw => Some raw
       | None => standard_decode trimmed
       end.

Definition ed25519_public_key (kid raw : string) : result PublicKey SigningKeyError :=
  if (String.length raw =? 32)%nat then
    match ed25519_from_bytes raw with
    | Ok key => Ok (PubEd25519 key)
    | Err e => Err (InvalidKeyMaterial kid e)
    end
  else Err (InvalidKeyMaterial kid "expected 32 bytes of Ed25519 public key").

(** The closure [coordinate] of [PublicKey::from_jwk]. *)
Definition jwk_coordinate (jwk : SigningKeyDescriptor) (value : option string) (name : string)
  : result string SigningKeyError :=
  ok_or (value ≫= decode_base64)
    (InvalidKeyMaterial (jwk_kid jwk) ("missing or non-base64 '" +:+ name +:+ "'")).

(** [PublicKey::from_jwk]. *)
Definition from_jwk (jwk : SigningKeyDescriptor) : result PublicKey SigningKeyError :=
  if String.eqb (jwk_kty jwk) "OKP" && is_some_and (jwk_crv jwk) (String.eqb "Ed25519") then
    match jwk_coordinate jwk (jwk_x jwk) "x" with
    | Ok x => ed25519_public_key (jwk_kid jwk) x
    | Err e => Err e
    end
  else if String.eqb (jwk_kty jwk) "EC" && is_some_and (jwk_crv jwk) (String.eqb "P-256") then
    match jwk_coordinate jwk (jwk_x jwk) "x" with
    | Ok x =>
        match jwk_coordinate jwk (jwk_y jwk) "y" with
        | Ok y =>
            match p256_from_sec1 (String (ascii_of_nat 4) (x +:+ y)) with
            | Ok key => Ok (PubP256 key)
            | Err e => Err (InvalidKeyMaterial (jwk_kid jwk) e)
            end
        | Err e => Err e
        end
    | Err e => Err e
    end
  else Err (UnsupportedAlgorithm
              ("kty=" +:+ jwk_kty jwk +:+ " crv=" +:+ unwrap_or (jwk_crv jwk) "none")).

(** ** The ring we sign with *)

Record KeySpec := MkKeySpec {
  ks_kid : string; ks_algorithm : KeyAlgorithm; ks_secret : string }.

Record Key := MkKey { key_kid : string; key_private : PrivateKey }.

Definition build_key (spec : KeySpec) : result Key SigningKeyError :=
  if str_is_empty (str_trim (ks_kid spec)) then Err MissingKid
  else
    let invalid e := InvalidKeyMaterial (ks_kid spec) e in
    match decode_base64 (ks_secret spec) with
    | None => Err (invalid "expected base64-encoded key material")
    | Some raw =>
        if (String.length raw =? 32)%nat then
          match ks_algorithm spec with
          | EdDsa => Ok (MkKey (ks_kid spec) (PrivEd25519 (ed25519_signing raw)))
          | Es256 =>
              match p256_from_slice raw with
              | Ok key => Ok (MkKey (ks_kid spec) (PrivP256 key))
              | Err e => Err (invalid ("not a valid P-256 private scalar: " +:+ e))
              end
          end
        else Err (invalid "expected 32 bytes of private key material")
    end.

(** [SigningKeyring]: the active key, which the code keeps at index 0, and the others. *)
Record SigningKeyring := MkRing { ring_active : Key; ring_previous : list Key }.

Definition ring_keys (r : SigningKeyring) : list Key := ring_active r :: ring_previous r.

(** The loop of [from_specs]; [keys] are those pushed so far. *)
Fixpoint add_specs (keys : list Key) (specs : list KeySpec)
  : result (list Key) SigningKeyError :=
  match specs with
  | [] => Ok keys
  | spec :: rest =>
      match build_key spec with
      | Err e => Err e
      | Ok key =>
          if any (fun existing => String.eqb (key_kid existing) (key_kid key)) keys
          then Err (DuplicateKid (key_kid key))
          else add_specs (keys ++ [key]) rest
      end
  end.

Definition from_specs (active : KeySpec) (previous : list KeySpec)
  : result SigningKeyring SigningKeyError :=
  match build_key active with
  | Err e => Err e
  | Ok key =>
      match add_specs [key] previous with
      | Ok keys => Ok (MkRing key (tail keys))
      | Err e => Err e
      end
  end.

Definition from_seeds (active_kid active_seed : string) (previous : list (string * string))
  : result SigningKeyring SigningKeyError :=
  from_specs (MkKeySpec active_kid EdDsa active_seed)
    (map (fun kv => MkKeySpec (fst kv) EdDsa (snd kv)) previous).

Definition active_kid (r : SigningKeyring) : string := key_kid (ring_active r).

Definition public_jwks (r : SigningKeyring) : list SigningKeyDescriptor :=
  map (fun k => key_jwk (key_public (key_private k)) (key_kid k)) (ring_keys r).

(** Detached signatures: [UcpSignature] as the kid and the text. *)
Definition ring_sign (r : SigningKeyring) (payload : string) : string * string :=
  (active_kid r, url_safe_encode (key_sign (key_private (ring_active r)) payload)).

Definition ring_verify (r : SigningKeyring) (kid payload signature : string)
  : result unit SigningKeyError :=
  match find_first (fun k => String.eqb (key_kid k) kid) (ring_keys r) with
  | None => Err (UnknownKid kid)
  | Some key =>
      match decode_base64 signature with
      | None => Err MalformedSignature
      | Some raw =>
          if key_verify (key_public (key_private key)) payload raw then Ok tt
          else Err KeyVerificationFailed
      end
  end.

(** ** Messages *)

Inductive SignatureError :=
| Missing
| Malformed (reason : string)
| CoverageInsufficient (component : string)
| Stale (skew_seconds : Z)
| Expired_
| KeyNotFound (kid : string)
| AlgorithmUnsupported (name : string)
| DigestMismatch
| VerificationFailed.

(** [SignatureError::code] and [http_status]. *)
Definition signature_error_code (e : SignatureError) : string :=
  match e with
  | Missing => "signature_missing"
  | KeyNotFound _ => "key_not_found"
  | AlgorithmUnsupported _ => "algorithm_unsupported"
  | DigestMismatch => "digest_mismatch"
  | Malformed _ | CoverageInsufficient _ | Stale _ | Expired_ | VerificationFailed =>
      "signature_invalid"
  end.

Definition signature_error_status (e : SignatureError) : Z :=
  match e with DigestMismatch | AlgorithmUnsupported _ => 400 | _ => 401 end.

(** The [Display] of the error. *)
Definition signature_error_text (e : SignatureError) : string :=
  match e with
  | Missing => "request is missing the Signature-Input or Signature header"
  | Malformed r => "signature header is malformed: " +:+ r
  | CoverageInsufficient c => "signature does not cover required component '" +:+ c +:+ "'"
  | Stale skew =>
      "signature created " +:+ pretty skew +:+ "s away from now, outside the "
        +:+ pretty MAX_SIGNATURE_SKEW_SECONDS +:+ "s window"
  | Expired_ => "signature has expired"
  | KeyNotFound k => "no key with keyid '" +:+ k +:+ "'"
  | AlgorithmUnsupported a => "unsupported signature algorithm '" +:+ a +:+ "'"
  | DigestMismatch => "body does not match the sha-256 Content-Digest"
  | VerificationFailed => "signature verification failed"
  end.

Definition mc_insert (name value : string) (c : MessageComponents) : MessageComponents :=
  <[to_ascii_lowercase name := str_trim value]> c.

Definition component_line (name value : string) : string := quoted name +:+ ": " +:+ value.

(** [signature_base]; the lines of the components end in a line feed. *)
Fixpoint signature_base (c : MessageComponents) (covered : list string) (params : string)
  : result string SignatureError :=
  match covered with
  | [] => Ok (component_line "@signature-params" params)
  | name :: rest =>
      match c !! name with
      | None => Err (Malformed ("covered component '" +:+ name +:+ "' is absent from the message"))
      | Some value =>
          match signature_base c rest params with
          | Ok base => Ok (component_line name value +:+ String newline base)
          | Err e => Err e
          end
      end
  end.

(** ** Parsers *)

(** The flags of the loop of [parse_dictionary]. *)
Record Scan := MkScan {
  sc_in_string : bool; sc_in_bytes : bool; sc_depth : Z; sc_escaped : bool }.

Definition scan_start : Scan := MkScan false false 0 false.

(** One character: the new flags, and whether it ends a member. *)
Definition scan_char (st : Scan) (ch : ascii) : Scan * bool :=
  let '(MkScan in_string in_bytes depth escaped) := st in
  if escaped then (MkScan in_string in_bytes depth false, false)
  else if Ascii.eqb ch backslash && in_string then (MkScan in_string in_bytes depth true, false)
  else if Ascii.eqb ch dquote && negb in_bytes then
    (MkScan (negb in_string) in_bytes depth false, false)
  else if Ascii.eqb ch ":" && negb in_string then
    (MkScan in_string (negb in_bytes) depth false, false)
  else if Ascii.eqb ch "(" && negb in_string && negb in_bytes then
    (MkScan in_string in_bytes (u32_wrap (depth + 1)) false, false)
  else if Ascii.eqb ch ")" && negb in_string && negb in_bytes then
    (MkScan in_string in_bytes (Z.max 0 (depth - 1)) false, false)
  else if Ascii.eqb ch "," && negb in_string && negb in_bytes && (depth =? 0)%Z then (st, true)
  else (st, false).

(** The loop: the members so far in order, the text of the last, the final flags. *)
Fixpoint split_members (st : Scan) (current : string) (s : string) : list string * Scan :=
  match s with
  | EmptyString => ([current], st)
  | String ch rest =>
      let '(st, cut) := scan_char st ch in
      if cut then let '(ms, st) := split_members st "" rest in (current :: ms, st)
      else split_members st (current +:+ String ch "") rest
  end.

Definition parse_member (member : string) : result (string * string) SignatureError :=
  match split_once "=" member with
  | Some (key, value) => Ok (str_trim key, str_trim value)
  | None => Err (Malformed ("'" +:+ member +:+ "' is not key=value"))
  end.

(** [.map(f).collect::<Result<_, _>>()]. *)
Fixpoint collect {A B E} (f : A -> result B E) (xs : list A) : result (list B) E :=
  match xs with
  | [] => Ok []
  | x :: rest =>
      match f x with
      | Err e => Err e
      | Ok y => match collect f rest with Ok ys => Ok (y :: ys) | Err e => Err e end
      end
  end.

Definition parse_dictionary (header : string)
  : result (list (string * string)) SignatureError :=
  let '(members, st) := split_members scan_start "" header in
  if sc_in_string st || sc_in_bytes st || negb (sc_depth st =? 0)%Z
  then Err (Malformed "unbalanced structured field")
  else collect parse_member
         (retain (fun m => negb (str_is_empty m)) (map str_trim members)).

Definition parse_byte_sequence (value : string) : option string :=
  inner ← strip_prefix ":" (str_trim value);
  ends ← split_once ":" inner;
  standard_decode (fst ends).

Record SignatureParams := MkParams {
  sp_covered : list string;
  sp_created : option Z;
  sp_expires : option Z;
  sp_keyid : string;
  sp_alg : option string
}.

(** A text between double quotes. *)
Definition unquote (s : string) : option string :=
  strip_prefix (String dquote "") s ≫= strip_suffix (String dquote "").

Definition covered_name (item : string) : result string SignatureError :=
  ok_or (unquote item)
    (Malformed "covered components must be quoted strings without parameters").

Definition string_param (name value : string) : result string SignatureError :=
  ok_or (unquote value) (Malformed ("'" +:+ name +:+ "' must be a string")).

Definition integer_param (name value : string) : result Z SignatureError :=
  ok_or (parse_i64 value) (Malformed ("'" +:+ name +:+ "' must be an integer")).

(** One round of the loop over the parameters. *)
Definition parse_param (p : SignatureParams) (param : string)
  : result SignatureParams SignatureError :=
  let '(name, value) := unwrap_or (split_once "=" param) (param, "?1") in
  if String.eqb name "created" then
    match integer_param name value with
    | Ok i => Ok (MkParams (sp_covered p) (Some i) (sp_expires p) (sp_keyid p) (sp_alg p))
    | Err e => Err e
    end
  else if String.eqb name "expires" then
    match integer_param name value with
    | Ok i => Ok (MkParams (sp_covered p) (sp_created p) (Some i) (sp_keyid p) (sp_alg p))
    | Err e => Err e
    end
  else if String.eqb name "keyid" then
    match string_param name value with
    | Ok k => Ok (MkParams (sp_covered p) (sp_created p) (sp_expires p) k (sp_alg p))
    | Err e => Err e
    end
  else if String.eqb name "alg" then
    match string_param name value with
    | Ok a => Ok (MkParams (sp_covered p) (sp_created p) (sp_expires p) (sp_keyid p) (Some a))
    | Err e => Err e
    end
  else Ok p.

Fixpoint parse_params (p : SignatureParams) (params : list string)
  : result SignatureParams SignatureError :=
  match params with
  | [] => Ok p
  | param :: rest =>
      match parse_param p param with Ok p => parse_params p rest | Err e => Err e end
  end.

Definition parse_signature_params (raw : string) : result SignatureParams SignatureError :=
  match strip_prefix "(" (str_trim raw) with
  | None => Err (Malformed "Signature-Input member must be an inner list")
  | Some rest =>
      match split_once ")" rest with
      | None => Err (Malformed "unterminated inner list")
      | Some (items, params) =>
          match collect covered_name (split_whitespace items) with
          | Err e => Err e
          | Ok covered =>
              match parse_params (MkParams covered None None "" None)
                      (retain (fun p => negb (str_is_empty p)) (map str_trim (split ";" params)))
              with
              | Err e => Err e
              | Ok p => if str_is_empty (sp_keyid p)
                        then Err (Malformed "keyid parameter is required")
                        else Ok p
              end
          end
      end
  end.

(** ** Digests *)

Definition content_digest (body : string) : string :=
  "sha-256=:" +:+ standard_encode (sha256 body) +:+ ":".

Definition verify_content_digest (header body : string) : result unit SignatureError :=
  match parse_dictionary header with
  | Err e => Err e
  | Ok members =>
      let digest := find_first (fun kv => String.eqb (fst kv) "sha-256") members
                      ≫= fun kv => parse_byte_sequence (snd kv) in
      if is_some_and digest (String.eqb (sha256 body)) then Ok tt else Err DigestMismatch
  end.

(** ** Signing a message *)

(** [signature_input] and [signature] of [SignedMessage]. *)
Record SignedMessage := MkSigned { sm_input : string; sm_signature : string }.

Definition signature_params (covered : list string) (created : Z) (kid : string)
    (expires : option Z) : string :=
  "(" +:+ join " " (map quoted covered) +:+ ");created=" +:+ pretty created
    +:+ ";keyid=" +:+ quoted kid
    +:+ match expires with Some e => ";expires=" +:+ pretty e | None => "" end.

Definition sign_message_with_params (r : SigningKeyring) (c : MessageComponents)
    (covered : list string) (created : Z) (expires : option Z)
  : result SignedMessage SignatureError :=
  let params := signature_params covered created (active_kid r) expires in
  match signature_base c covered params with
  | Err e => Err e
  | Ok base =>
      let signature := standard_encode (key_sign (key_private (ring_active r)) base) in
      Ok (MkSigned (SIGNATURE_LABEL +:+ "=" +:+ params)
                   (SIGNATURE_LABEL +:+ "=:" +:+ signature +:+ ":"))
  end.

Definition sign_message (r : SigningKeyring) (c : MessageComponents) (covered : list string)
    (created : Z) : result SignedMessage SignatureError :=
  sign_message_with_params r c covered created None.

(** ** The ring we verify with *)

Abbreviation VerifyingKeyring := (list (string * PublicKey)).

(** [from_entries]; [seen] are the kids so far. *)
Fixpoint check_kids (seen : list string) (entries : VerifyingKeyring)
  : result unit SigningKeyError :=
  match entries with
  | [] => Ok tt
  | (kid, _) :: rest =>
      if str_is_empty (str_trim kid) then Err MissingKid
      else if str_contains seen kid then Err (DuplicateKid kid)
      else check_kids (seen ++ [kid]) rest
  end.

Definition from_entries (entries : VerifyingKeyring) : result VerifyingKeyring SigningKeyError :=
  match check_kids [] entries with Ok _ => Ok entries | Err e => Err e end.

Definition merge (a b : VerifyingKeyring) : result VerifyingKeyring SigningKeyError :=
  from_entries (a ++ b).

Definition from_public_keys (keys : list (string * string))
  : result VerifyingKeyring SigningKeyError :=
  match collect (fun kv =>
          match decode_base64 (snd kv) with
          | None => Err (InvalidKeyMaterial (fst kv) "expected base64-encoded public key")
          | Some raw => match ed25519_public_key (fst kv) raw with
                        | Ok key => Ok (fst kv, key)
                        | Err e => Err e
                        end
          end) keys with
  | Ok parsed => from_entries parsed
  | Err e => Err e
  end.

(** The loop of [from_jwks]: a key of an unknown type is skipped. *)
Fixpoint parse_jwks (jwks : list SigningKeyDescriptor)
  : result VerifyingKeyring SigningKeyError :=
  match jwks with
  | [] => Ok []
  | jwk :: rest =>
      match from_jwk jwk with
      | Ok key => match parse_jwks rest with
                  | Ok parsed => Ok ((jwk_kid jwk, key) :: parsed)
                  | Err e => Err e
                  end
      | Err (UnsupportedAlgorithm _) => parse_jwks rest
      | Err e => Err e
      end
  end.

(** [from_jwks]; [V] is [serde_json::Value]. *)
Definition from_jwks {V} (from_str : string -> result V string) (get : V -> string -> option V)
    (from_value : V -> result (list SigningKeyDescriptor) string) (json : string)
  : result VerifyingKeyring SigningKeyError :=
  match from_str json with
  | Err e => Err (InvalidJwks e)
  | Ok value =>
      match from_value (unwrap_or (get value "keys") value) with
      | Err e => Err (InvalidJwks e)
      | Ok jwks => match parse_jwks jwks with Ok parsed => from_entries parsed | Err e => Err e end
      end
  end.

(** [i64::abs], as the release profile computes it. *)
Definition i64_abs (x : Z) : Z := i64_wrap (Z.abs x).

Definition verify_one (ring : VerifyingKeyring) (c : MessageComponents) (raw_params : string)
    (signature : option string) (required : list string) (now : Z)
  : result string SignatureError :=
  match parse_signature_params raw_params with
  | Err e => Err e
  | Ok params =>
      match find_first (fun r => negb (str_contains (sp_covered params) r)) required with
      | Some missing => Err (CoverageInsufficient missing)
      | None =>
          let stale := match sp_created params with
                       | Some created =>
                           let skew := i64_sub now created in
                           if (MAX_SIGNATURE_SKEW_SECONDS <? i64_abs skew)%Z then Some skew
                           else None
                       | None => None
                       end in
          match stale with
          | Some skew => Err (Stale skew)
          | None =>
              if is_some_and (sp_expires params) (fun expires => expires <? now)%Z then Err Expired_
              else
                match find_first (fun kv => String.eqb (fst kv) (sp_keyid params)) ring with
                | None => Err (KeyNotFound (sp_keyid params))
                | Some (_, key) =>
                    let wrong_alg :=
                      match sp_alg params with
                      | Some alg =>
                          if String.eqb alg (http_signature_name (key_algorithm key)) then None
                          else Some alg
                      | None => None
                      end in
                    match wrong_alg with
                    | Some alg => Err (AlgorithmUnsupported alg)
                    | None =>
                        match signature ≫= parse_byte_sequence with
                        | None => Err Missing
                        | Some bytes =>
                            match signature_base c (sp_covered params) raw_params with
                            | Err e => Err e
                            | Ok base =>
                                if key_verify key base bytes then Ok (sp_keyid params)
                                else Err VerificationFailed
                            end
                        end
                    end
                end
          end
      end
  end.

(** The loop of [verify_message]. *)
Fixpoint verify_inputs (ring : VerifyingKeyring) (c : MessageComponents)
    (signatures : list (string * string)) (required : list string) (now : Z)
    (first_error : option SignatureError) (inputs : list (string * string))
  : result string SignatureError :=
  match inputs with
  | [] => Err (unwrap_or first_error Missing)
  | (label, raw_params) :: rest =>
      let value := snd <$> find_first (fun kv => String.eqb (fst kv) label) signatures in
      match verify_one ring c raw_params value required now with
      | Ok kid => Ok kid
      | Err e => verify_inputs ring c signatures required now
                   (Some (unwrap_or first_error e)) rest
      end
  end.

Definition verify_message (ring : VerifyingKeyring) (c : MessageComponents)
    (signature_input signature : string) (required : list string) (now : Z)
  : result string SignatureError :=
  match parse_dictionary signature_input with
  | Err e => Err e
  | Ok inputs =>
      match parse_dictionary signature with
      | Err e => Err e
      | Ok signatures =>
          match inputs, signatures with
          | [], _ | _, [] => Err Missing
          | _, _ => verify_inputs ring c signatures required now None inputs
          end
      end
  end.
End keys.
