(* ===== verification/Signatures.v ===== *)
(** * What message signatures guarantee

    A message we sign verifies, for whoever holds our public key; a message that verifies
    was signed, over the components required of it, by a key of the ring; the signature
    base determines what was signed. *)

From S2P Require Export Signing.
From Stdlib Require Import Ascii.

#[local] Arguments str_trim : simpl never.
#[local] Arguments white_space : simpl never.

(** Documented behaviour of the crates: what is signed verifies, and base64 decodes. *)
Class CryptoLaws (crypto : Crypto) : Prop := {
  ed25519_signature_length k p : String.length (ed25519_sign k p) = 64;
  ed25519_verifies k p : ed25519_verify (ed25519_verifying_key k) p (ed25519_sign k p) = true;
  p256_signature_to_bytes s : p256_signature (p256_to_bytes s) = Some s;
  p256_verifies k p : p256_verify (p256_verifying_key k) p (p256_sign k p) = true;
  standard_decode_encode b : standard_decode (standard_encode b) = Some b;
  standard_alphabet b :
    str_forall (fun a => graphic a && negb (Ascii.eqb a ":")) (standard_encode b) = true
}.

Lemma standard_no_colon `{CryptoLaws} b : lacks ":" (standard_encode b) = true.
Proof.
  eapply str_forall_impl; [|apply standard_alphabet]. intros a. cbn.
  by destruct (graphic a).
Qed.

Lemma standard_graphic `{CryptoLaws} b : str_forall graphic (standard_encode b) = true.
Proof.
  eapply str_forall_impl; [|apply standard_alphabet]. intros a. cbn.
  by destruct (graphic a).
Qed.

(** ** The scanner *)

(** Reading [s] takes the flags from [st] to [st'] and ends no member. *)
Definition passes (st : Scan) (s : string) (st' : Scan) : Prop :=
  forall cur rest, split_members st cur (s +:+ rest) = split_members st' (cur +:+ s) rest.

Lemma passes_app st s st' t st'' : passes st s st' -> passes st' t st'' -> passes st (s +:+ t) st''.
Proof. intros H1 H2 cur rest. by rewrite str_app_assoc, H1, H2, str_app_assoc. Qed.

Lemma passes_char st ch st' : scan_char st ch = (st', false) -> passes st (String ch "") st'.
Proof. intros H cur rest. rewrite str_app_cons, str_app_nil_l. cbn. by rewrite H. Qed.

Lemma passes_forall (p : ascii -> bool) st s :
  (forall ch, p ch = true -> scan_char st ch = (st, false)) -> str_forall p s = true ->
  passes st s st.
Proof.
  intros Hp. induction s as [|ch s IH]; cbn; intros Hs cur rest.
  - by rewrite str_app_nil_l, str_app_nil_r.
  - apply andb_true_iff in Hs as [Hc Hs]. rewrite str_app_cons. cbn. rewrite (Hp ch Hc).
    by rewrite IH, str_app_assoc by done.
Qed.

(** Texts that no flag reacts to outside of a string, inside of one, and between colons. *)
Definition plain (ch : ascii) : bool :=
  graphic ch && negb (existsb (Ascii.eqb ch) [dquote; ":"; "("; ")"; ","]%char).

Definition quotable (ch : ascii) : bool := negb (Ascii.eqb ch dquote || Ascii.eqb ch backslash).

Lemma passes_plain d s :
  str_forall plain s = true -> passes (MkScan false false d false) s (MkScan false false d false).
Proof.
  apply passes_forall. intros ch. unfold plain, scan_char. cbn.
  destruct (Ascii.eqb ch dquote), (Ascii.eqb ch ":"), (Ascii.eqb ch "("), (Ascii.eqb ch ")"),
    (Ascii.eqb ch ","); rewrite ?andb_false_r; by rewrite ?andb_false_r.
Qed.

Lemma passes_quoted d s :
  str_forall quotable s = true ->
  passes (MkScan false false d false) (quoted s) (MkScan false false d false).
Proof.
  intros Hs. unfold quoted.
  change (String dquote (s +:+ String dquote "")) with (String dquote "" +:+ s +:+ String dquote "").
  eapply passes_app; [by apply passes_char|].
  eapply passes_app; [apply (passes_forall quotable); [|done]|by apply passes_char].
  intros ch. unfold quotable, scan_char.
  destruct (Ascii.eqb ch dquote), (Ascii.eqb ch backslash); cbn; try done.
  by rewrite !andb_false_r.
Qed.

Lemma passes_bytes s :
  lacks ":" s = true -> passes scan_start (":" +:+ s +:+ ":") scan_start.
Proof.
  intros Hs. eapply passes_app; [by apply passes_char|].
  eapply passes_app; [eapply passes_forall; [|exact Hs]|by apply passes_char].
  intros ch. cbn. unfold scan_char. destruct (Ascii.eqb ch ":"); cbn; [done|].
  by rewrite !andb_false_r.
Qed.

(** The inner list of the names. *)
Lemma passes_names ws d :
  Forall (fun w => str_forall quotable w = true) ws ->
  passes (MkScan false false d false) (join " " (map quoted ws)) (MkScan false false d false).
Proof.
  induction 1 as [|w ws Hw Hws IH]; [by intros cur rest; rewrite str_app_nil_r|].
  destruct ws as [|w' ws]; [by apply passes_quoted|].
  change (join " " (map quoted (w :: w' :: ws)))
    with (quoted w +:+ " " +:+ join " " (map quoted (w' :: ws))).
  eapply passes_app; [by apply passes_quoted|]. eapply passes_app; [|exact IH].
  by apply passes_char.
Qed.

(** ** Dictionaries of one member *)

Lemma starts_app (s t : string) : s <> "" -> starts_graphic (s +:+ t) = starts_graphic s.
Proof. by destruct s. Qed.

Lemma rev_nonempty (s : string) : s <> "" -> String.rev s <> "".
Proof. intros Hs H. apply Hs. rewrite <- (rev_involutive s), H. done. Qed.

Lemma graphic_ends_app (s t : string) :
  s <> "" -> t <> "" -> starts_graphic s = true -> graphic_ends t = true ->
  graphic_ends (s +:+ t) = true.
Proof.
  unfold graphic_ends. intros Hs Ht H1 [_ H2]%andb_true_iff.
  by rewrite starts_app, rev_append, starts_app, H1, H2 by (done || by apply rev_nonempty).
Qed.

(** A value that may stand alone as the member of a dictionary. *)
Record member_value (v : string) : Prop := {
  mv_passes : passes scan_start v scan_start;
  mv_ends : graphic_ends v = true;
  mv_nonempty : v <> ""
}.

Lemma parse_dictionary_one label v :
  word label -> str_forall plain label = true -> lacks "=" label = true -> member_value v ->
  parse_dictionary (label +:+ "=" +:+ v) = Ok [(label, v)].
Proof.
  intros [Hne Hlab] Hpl Heq [Hv Hends Hv0]. unfold parse_dictionary.
  assert (passes scan_start (label +:+ "=" +:+ v) scan_start) as Hp.
  { eapply passes_app; [by apply passes_plain|]. eapply passes_app; [by apply passes_char|done]. }
  specialize (Hp "" ""). rewrite str_app_nil_r, str_app_nil_l in Hp. rewrite Hp. cbn -[retain].
  assert (graphic_ends (label +:+ "=" +:+ v) = true) as Hg.
  { apply graphic_ends_app; [done|done|by apply starts_graphic_forall|].
    by apply graphic_ends_app. }
  rewrite str_trim_graphic by done. unfold retain. cbn [List.filter].
  replace (negb (str_is_empty (label +:+ "=" +:+ v))) with true by (by destruct label).
  cbn [collect]. unfold parse_member.
  change (label +:+ "=" +:+ v) with (label +:+ String "="%char v).
  rewrite split_once_app by done.
  by rewrite !str_trim_graphic by (done || by apply graphic_ends_forall).
Qed.

(** ** The parameters we write *)

(** Names of components and key ids that need no escape. *)
Definition name_char (ch : ascii) : bool := graphic ch && quotable ch && negb (Ascii.eqb ch ")").
Definition kid_char (ch : ascii) : bool := quotable ch && negb (Ascii.eqb ch ";").

Definition kid_ok (kid : string) : Prop := kid <> "" /\ str_forall kid_char kid = true.

Lemma name_quotable s : str_forall name_char s = true -> str_forall quotable s = true.
Proof. apply str_forall_impl. unfold name_char. intros a. by destruct (graphic a), (quotable a). Qed.

Lemma name_graphic s : str_forall name_char s = true -> str_forall graphic s = true.
Proof. apply str_forall_impl. unfold name_char. intros a. by destruct (graphic a). Qed.

Lemma kid_quotable s : str_forall kid_char s = true -> str_forall quotable s = true.
Proof. apply str_forall_impl. unfold kid_char. intros a. by destruct (quotable a). Qed.

Lemma str_forall_quoted p s :
  p dquote = true -> str_forall p s = true -> str_forall p (quoted s) = true.
Proof. intros Hq Hs. unfold quoted. cbn. rewrite Hq, str_forall_app, Hs. cbn. by rewrite Hq. Qed.

Lemma unquote_quoted s : unquote (quoted s) = Some s.
Proof. unfold unquote, quoted. cbn. apply strip_suffix_app. Qed.

Lemma quoted_word s : str_forall graphic s = true -> word (quoted s).
Proof. intros Hs. split; [done|]. by apply str_forall_quoted. Qed.

Lemma graphic_ends_quoted s : graphic_ends (quoted s) = true.
Proof.
  unfold quoted. change (String dquote (s +:+ String dquote ""))
    with (String dquote s +:+ String dquote ""). by apply graphic_ends_around.
Qed.

Lemma lacks_join c ws :
  c <> " "%char -> Forall (fun w => lacks c w = true) ws -> lacks c (join " " ws) = true.
Proof.
  intros Hc. induction 1 as [|w ws Hw Hws IH]; [done|]. destruct ws as [|w' ws]; [done|].
  change (join " " (w :: w' :: ws)) with (w +:+ String " " (join " " (w' :: ws))).
  revert IH. generalize (join " " (w' :: ws)). intros t IH.
  unfold lacks in *. rewrite str_forall_app, Hw. cbn [str_forall andb].
  rewrite IH. by destruct (Ascii.eqb_spec " " c).
Qed.

(** The text of an integer: visible, and without the characters the parsers split at. *)
Lemma int_char (p : ascii -> bool) z :
  p "-"%char = true -> (forall a, digit a = true -> p a = true) -> str_forall p (pretty (z : Z)) = true.
Proof.
  intros Hm Hd. destruct z as [|n|n].
  - cbn. by rewrite Hd.
  - change (pretty (Z.pos n)) with (pretty (N.pos n)).
    eapply str_forall_impl; [exact Hd|]. apply pretty_N_digits.
  - change (pretty (Z.neg n)) with (String "-" (pretty (N.pos n))). cbn. rewrite Hm. cbn.
    eapply str_forall_impl; [exact Hd|]. apply pretty_N_digits.
Qed.

Lemma int_nonempty (z : Z) : pretty z <> "".
Proof. destruct z as [|n|n]; [done|apply pretty_N_digits|done]. Qed.

Lemma digit_neq a c : digit a = true -> digit c = false -> Ascii.eqb a c = false.
Proof. intros Ha Hc. destruct (Ascii.eqb_spec a c); congruence. Qed.

Lemma digit_plain a : digit a = true -> plain a = true.
Proof.
  intros Ha. unfold plain. cbn. rewrite !(digit_neq a) by done. rewrite andb_true_r.
  unfold digit, graphic in *. lia.
Qed.

Lemma plain_graphic a : plain a = true -> graphic a = true.
Proof. unfold plain. by destruct (graphic a). Qed.

Lemma int_plain (z : Z) : str_forall plain (pretty z) = true.
Proof. apply int_char; [done|exact digit_plain]. Qed.

Lemma int_graphic_ends (z : Z) : graphic_ends (pretty z) = true.
Proof. apply graphic_ends_forall. eapply str_forall_impl; [exact plain_graphic|apply int_plain]. Qed.

Lemma int_lacks c (z : Z) : digit c = false -> c <> "-"%char -> lacks c (pretty z) = true.
Proof.
  intros Hc Hm. apply int_char.
  - by destruct (Ascii.eqb_spec "-" c).
  - intros a Ha. by rewrite (digit_neq a c).
Qed.

Section params.
Context {crypto : Crypto}.

Definition expires_text (expires : option Z) : string :=
  match expires with Some e => ";expires=" +:+ pretty e | None => "" end.

Lemma graphic_ends_expires kid expires :
  graphic_ends (quoted kid +:+ expires_text expires) = true.
Proof.
  destruct expires as [e|]; cbn [expires_text]; [|by rewrite str_app_nil_r; apply graphic_ends_quoted].
  rewrite <- str_app_assoc. apply graphic_ends_app; [done|apply int_nonempty|done|apply int_graphic_ends].
Qed.

Lemma params_member covered created kid expires :
  Forall (fun n => str_forall name_char n = true) covered -> kid_ok kid ->
  member_value (signature_params covered created kid expires).
Proof.
  intros Hc [Hne Hk]. unfold signature_params. fold (expires_text expires). split; [| |done].
  - eapply passes_app; [by apply passes_char|].
    eapply passes_app.
    { apply passes_names. eapply Forall_impl; [exact Hc|]. exact name_quotable. }
    rewrite (str_app_cons ")" ";created=").
    match goal with |- passes _ (String ")" ?x) _ => change (String ")" x) with (")" +:+ x) end.
    eapply passes_app; [by apply passes_char|].
    eapply passes_app; [by apply passes_plain|].
    eapply passes_app; [by apply passes_plain, int_plain|].
    eapply passes_app; [by apply passes_plain|].
    eapply passes_app; [by apply passes_quoted, kid_quotable|].
    destruct expires as [e|]; cbn [expires_text].
    + eapply passes_app; [by apply passes_plain|apply passes_plain, int_plain].
    + intros cur rest. by rewrite str_app_nil_r.
  - assert (graphic_ends (");created=" +:+ pretty created +:+ ";keyid=" +:+ quoted kid
      +:+ expires_text expires) = true) as Ht.
    { repeat (apply graphic_ends_app;
        [done || apply int_nonempty|by destruct (pretty created)|
         done || apply starts_graphic_forall, (str_forall_impl plain), int_plain; apply plain_graphic|]).
      apply graphic_ends_expires. }
    apply graphic_ends_app; [done|by destruct (join _ _)|done|].
    destruct (join " " (map quoted covered)) as [|b j] eqn:Hj; [exact Ht|].
    apply graphic_ends_app; [done|done| |exact Ht].
    destruct covered as [|w [|w' ws]]; cbn in Hj; [done|by injection Hj as <-|].
    unfold quoted in Hj. rewrite str_app_cons in Hj. by injection Hj as <-.
Qed.

(** *** Reading them back *)

Lemma collect_unquoted ws : collect covered_name (map quoted ws) = Ok ws.
Proof.
  induction ws as [|w ws IH]; [done|]. cbn [map collect]. rewrite IH.
  unfold covered_name. by rewrite unquote_quoted.
Qed.

Lemma parse_params_cons p param rest :
  parse_params p (param :: rest)
  = match parse_param p param with Ok p => parse_params p rest | Err e => Err e end.
Proof. done. Qed.

Lemma parse_created p (z : Z) :
  in_i64 z ->
  parse_param p ("created=" +:+ pretty z)
  = Ok (MkParams (sp_covered p) (Some z) (sp_expires p) (sp_keyid p) (sp_alg p)).
Proof.
  intros Hz. unfold parse_param.
  change ("created=" +:+ pretty z) with ("created" +:+ String "=" (pretty z)).
  rewrite split_once_app by done. cbn -[parse_i64 pretty]. unfold integer_param.
  by rewrite parse_i64_pretty.
Qed.

Lemma parse_expires p (z : Z) :
  in_i64 z ->
  parse_param p ("expires=" +:+ pretty z)
  = Ok (MkParams (sp_covered p) (sp_created p) (Some z) (sp_keyid p) (sp_alg p)).
Proof.
  intros Hz. unfold parse_param.
  change ("expires=" +:+ pretty z) with ("expires" +:+ String "=" (pretty z)).
  rewrite split_once_app by done. cbn -[parse_i64 pretty]. unfold integer_param.
  by rewrite parse_i64_pretty.
Qed.

Lemma parse_kid_param p kid :
  parse_param p ("keyid=" +:+ quoted kid)
  = Ok (MkParams (sp_covered p) (sp_created p) (sp_expires p) kid (sp_alg p)).
Proof.
  unfold parse_param. change ("keyid=" +:+ quoted kid) with ("keyid" +:+ String "=" (quoted kid)).
  rewrite split_once_app by done. cbn -[unquote quoted]. unfold string_param.
  by rewrite unquote_quoted.
Qed.

Definition visible (s : string) : Prop := graphic_ends s = true /\ s <> "".

Lemma keep_visible xs :
  Forall visible xs -> retain (fun p => negb (str_is_empty p)) (map str_trim xs) = xs.
Proof.
  induction 1 as [|x xs [Hx Hne] _ IH]; [done|]. cbn [map]. rewrite str_trim_graphic by done.
  unfold retain in *. cbn [List.filter]. rewrite IH. by destruct x.
Qed.

Lemma kid_no_semi kid : str_forall kid_char kid = true -> lacks ";" kid = true.
Proof. apply str_forall_impl. unfold kid_char. intros a. by destruct (Ascii.eqb a ";"), (quotable a). Qed.

Lemma lacks_quoted c s : c <> dquote -> lacks c s = true -> lacks c (quoted s) = true.
Proof.
  intros Hc Hs. apply str_forall_quoted; [|done]. by destruct (Ascii.eqb_spec dquote c).
Qed.

(** The parameters after the inner list, split at their semicolons. *)
Lemma split_params (created : Z) kid expires :
  str_forall kid_char kid = true ->
  split ";" (";created=" +:+ pretty created +:+ ";keyid=" +:+ quoted kid +:+ expires_text expires)
  = "" :: ("created=" +:+ pretty created) :: ("keyid=" +:+ quoted kid)
    :: match expires with Some e => ["expires=" +:+ pretty e] | None => [] end.
Proof.
  intros Hk. assert (lacks ";" ("created=" +:+ pretty created) = true) as Hcr.
  { unfold lacks. rewrite str_forall_app. apply andb_true_iff. split; [done|by apply int_lacks]. }
  assert (lacks ";" ("keyid=" +:+ quoted kid) = true) as Hkid.
  { unfold lacks. rewrite str_forall_app. apply andb_true_iff.
    split; [done|by apply lacks_quoted, kid_no_semi]. }
  transitivity (split ";" ("" +:+ String ";" (("created=" +:+ pretty created)
    +:+ String ";" (("keyid=" +:+ quoted kid) +:+ expires_text expires)))).
  { by rewrite !str_app_assoc. }
  rewrite !split_app by done. f_equal. f_equal. destruct expires as [e|]; cbn [expires_text].
  - change (";expires=" +:+ pretty e) with (String ";" ("expires=" +:+ pretty e)).
    rewrite split_app, split_lacks; [done| |done]. unfold lacks. rewrite str_forall_app.
    apply andb_true_iff. split; [done|by apply int_lacks].
  - by rewrite str_app_nil_r, split_lacks.
Qed.

Lemma visible_app (s t : string) :
  s <> "" -> starts_graphic s = true -> t <> "" -> graphic_ends t = true -> visible (s +:+ t).
Proof. intros Hs Hg Ht Hge. split; [by apply graphic_ends_app|by destruct s]. Qed.

Lemma params_visible (created : Z) kid expires :
  Forall visible (("created=" +:+ pretty created) :: ("keyid=" +:+ quoted kid)
    :: match expires with Some e => ["expires=" +:+ pretty (e : Z)] | None => [] end).
Proof.
  assert (forall z : Z, pretty z <> "" /\ graphic_ends (pretty z) = true) as Hz
    by (intros z; split; [apply int_nonempty|apply int_graphic_ends]).
  constructor; [by apply visible_app; try apply Hz|].
  constructor; [apply visible_app; try done; apply graphic_ends_quoted|].
  destruct expires as [e|]; constructor; [by apply visible_app; try apply Hz|done].
Qed.

Lemma keep_after_empty xs :
  Forall visible xs -> retain (fun p => negb (str_is_empty p)) (map str_trim ("" :: xs)) = xs.
Proof. intros Hx. exact (keep_visible xs Hx). Qed.

(** What we write is read back. *)
Lemma parse_signature_params_spec covered created kid expires :
  Forall (fun n => str_forall name_char n = true) covered -> kid_ok kid -> in_i64 created ->
  (forall e, expires = Some e -> in_i64 e) ->
  parse_signature_params (signature_params covered created kid expires)
  = Ok (MkParams covered (Some created) expires kid None).
Proof.
  intros Hc Hkid Hcr He. pose proof (params_member covered created kid expires Hc Hkid) as [_ Hg _].
  destruct Hkid as [Hne Hk]. unfold parse_signature_params. rewrite str_trim_graphic by done.
  unfold signature_params. fold (expires_text expires).
  set (tail := ";created=" +:+ pretty created +:+ ";keyid=" +:+ quoted kid +:+ expires_text expires).
  change (");created=" +:+ pretty created +:+ ";keyid=" +:+ quoted kid +:+ expires_text expires)
    with (String ")" tail).
  assert (lacks ")" (join " " (map quoted covered)) = true) as Hl.
  { apply lacks_join; [done|]. apply Forall_map. eapply Forall_impl; [exact Hc|]. intros n Hn.
    apply lacks_quoted; [done|]. revert Hn. apply str_forall_impl. unfold name_char. intros a.
    by destruct (graphic a), (quotable a), (Ascii.eqb a ")"). }
  rewrite (proj2 (strip_prefix_spec "(" _ _) eq_refl), split_once_app by done.
  rewrite split_whitespace_join, collect_unquoted.
  2:{ apply Forall_map. eapply Forall_impl; [exact Hc|]. intros n Hn.
      by apply quoted_word, name_graphic. }
  unfold tail. rewrite split_params, keep_after_empty by (done || by apply params_visible).
  rewrite parse_params_cons, parse_created by done.
  rewrite parse_params_cons, parse_kid_param. cbn [sp_covered sp_created sp_expires sp_alg].
  destruct expires as [e|]; cbn [parse_params]; [rewrite parse_expires by auto|];
    cbn [sp_keyid sp_covered sp_created sp_alg]; by destruct kid.
Qed.

(** ** A signed message verifies *)

Context {laws : CryptoLaws crypto}.

Lemma key_verify_sign k p : key_verify (key_public k) p (key_sign k p) = true.
Proof.
  destruct k as [key|key]; cbn.
  - by rewrite ed25519_signature_length, ed25519_verifies.
  - by rewrite p256_signature_to_bytes, p256_verifies.
Qed.

Lemma signature_member b : member_value (":" +:+ standard_encode b +:+ ":").
Proof.
  split; [apply passes_bytes, standard_no_colon|by apply graphic_ends_around|done].
Qed.

Lemma parse_bytes b : parse_byte_sequence (":" +:+ standard_encode b +:+ ":") = Some b.
Proof.
  unfold parse_byte_sequence. rewrite str_trim_graphic by apply (signature_member b).
  rewrite (proj2 (strip_prefix_spec ":" _ _) eq_refl). cbn [mbind option_bind].
  change (standard_encode b +:+ ":") with (standard_encode b +:+ String ":" "").
  rewrite split_once_app by apply standard_no_colon. apply standard_decode_encode.
Qed.

Lemma fresh_created now created :
  (Z.abs (now - created) <= MAX_SIGNATURE_SKEW_SECONDS)%Z ->
  (MAX_SIGNATURE_SKEW_SECONDS <? i64_abs (i64_sub now created))%Z = false.
Proof.
  intros Hs. unfold i64_abs, i64_sub. unfold MAX_SIGNATURE_SKEW_SECONDS in *.
  rewrite !i64_wrap_id; unfold in_i64, i64_min, i64_max; [lia..|].
  rewrite i64_wrap_id; unfold in_i64, i64_min, i64_max; lia.
Qed.

(** The one member of the headers we write reaches [verify_one]. *)
Lemma verify_ours ring c params b required now :
  member_value params ->
  verify_message ring c (SIGNATURE_LABEL +:+ "=" +:+ params)
    (SIGNATURE_LABEL +:+ "=:" +:+ standard_encode b +:+ ":") required now
  = verify_one ring c params (Some (":" +:+ standard_encode b +:+ ":")) required now.
Proof.
  intros Hp. unfold verify_message, SIGNATURE_LABEL.
  rewrite (parse_dictionary_one "sig1" params) by done.
  change ("sig1" +:+ "=:" +:+ standard_encode b +:+ ":")
    with ("sig1" +:+ "=" +:+ ":" +:+ standard_encode b +:+ ":").
  rewrite (parse_dictionary_one "sig1" _) by (done || apply signature_member).
  cbn [verify_inputs]. unfold find_first. cbn [List.find fst]. rewrite String.eqb_refl.
  cbn [fmap option_fmap option_map snd]. by destruct (verify_one _ _ _ _ _ _).
Qed.

Lemma all_covered covered required :
  Forall (fun n => n ∈ covered) required ->
  find_first (fun r => negb (str_contains covered r)) required = None.
Proof.
  unfold find_first. induction 1 as [|n required Hn _ IH]; [done|]. cbn.
  by rewrite (proj2 (str_contains_spec _ _) Hn).
Qed.

Lemma verify_accepts r c covered created expires sm ring required now :
  sign_message_with_params r c covered created expires = Ok sm ->
  Forall (fun n => str_forall name_char n = true) covered -> kid_ok (active_kid r) ->
  in_i64 created -> (forall e, expires = Some e -> in_i64 e /\ (now <= e)%Z) ->
  (MAX_SIGNATURE_SKEW_SECONDS <? i64_abs (i64_sub now created))%Z = false ->
  find_first (fun kv => String.eqb (fst kv) (active_kid r)) ring
    = Some (active_kid r, key_public (key_private (ring_active r))) ->
  Forall (fun n => n ∈ covered) required ->
  verify_message ring c (sm_input sm) (sm_signature sm) required now = Ok (active_kid r).
Proof.
  unfold sign_message_with_params. intros Hrun Hc Hk Hcr He Hskew Hring Hreq.
  destruct (signature_base _ _ _) as [base|] eqn:Hb; [|done]. injection Hrun as <-.
  cbn [sm_input sm_signature]. rewrite verify_ours by (by apply params_member).
  unfold verify_one. rewrite parse_signature_params_spec by (done || by intros e [? _]%He).
  cbn [sp_covered sp_created sp_expires sp_keyid sp_alg].
  rewrite all_covered, Hskew by done.
  replace (is_some_and expires _) with false.
  2:{ destruct expires as [e|]; [|done]. cbn. destruct (He e eq_refl). lia. }
  rewrite Hring. cbn [mbind option_bind]. rewrite parse_bytes, Hb.
  by rewrite key_verify_sign.
Qed.

(** C30: what this orchestrator signs verifies: the headers [sign_message] makes are accepted
    by every ring that holds the public half of the active key under its kid, as long as that kid
    is not empty and has no quote, backslash or semicolon in it, the clocks agree within the
    window, nothing has expired, the covered components are named by printable characters without
    spaces, quotes, backslashes and closing parentheses, and the required ones are among them; and the kid it
    answers with is ours.  Nothing else keeps a ring from being built with such a kid, see
    [semicolon_kid_refuses_itself]. *)
Theorem signed_message_verifies r c covered created expires sm ring required now :
  sign_message_with_params r c covered created expires = Ok sm ->
  Forall (fun n => str_forall name_char n = true) covered -> kid_ok (active_kid r) ->
  in_i64 created -> (forall e, expires = Some e -> in_i64 e /\ (now <= e)%Z) ->
  (Z.abs (now - created) <= MAX_SIGNATURE_SKEW_SECONDS)%Z ->
  find_first (fun kv => String.eqb (fst kv) (active_kid r)) ring
    = Some (active_kid r, key_public (key_private (ring_active r))) ->
  Forall (fun n => n ∈ covered) required ->
  verify_message ring c (sm_input sm) (sm_signature sm) required now = Ok (active_kid r).
Proof. eauto using verify_accepts, fresh_created. Qed.

(** The freshness window does not bind: a signature dated [2^63] seconds before now is
    accepted as fresh, because both the subtraction and the absolute value wrap around.  In
    a build that checks overflow the request panics instead. *)
Theorem far_past_signature_is_fresh r c covered sm ring required now :
  sign_message r c covered (now - 2 ^ 63) = Ok sm -> (0 <= now <= i64_max)%Z ->
  Forall (fun n => str_forall name_char n = true) covered -> kid_ok (active_kid r) ->
  find_first (fun kv => String.eqb (fst kv) (active_kid r)) ring
    = Some (active_kid r, key_public (key_private (ring_active r))) ->
  Forall (fun n => n ∈ covered) required ->
  verify_message ring c (sm_input sm) (sm_signature sm) required now = Ok (active_kid r).
Proof.
  intros Hrun Hnow Hc Hk Hring Hreq.
  eapply verify_accepts; try done; [unfold in_i64, i64_min, i64_max in *; lia|].
  unfold i64_abs, i64_sub. replace (now - (now - 2 ^ 63))%Z with (2 ^ 63)%Z by lia. done.
Qed.
End params.

(** ** A message that verifies was signed *)

Section soundness.
Context {crypto : Crypto}.

Lemma find_first_Some {A} (p : A -> bool) xs x :
  find_first p xs = Some x -> x ∈ xs /\ p x = true.
Proof. intros H%List.find_some. by rewrite list_elem_of_In. Qed.

Lemma find_first_None {A} (p : A -> bool) xs :
  find_first p xs = None -> Forall (fun x => p x = false) xs.
Proof.
  intros H. apply Forall_forall. intros x Hx%list_elem_of_In. by apply (List.find_none _ _ H).
Qed.

(** What an accepted signature is. *)
Record accepted (ring : list (string * PublicKey)) (c : MessageComponents) (required : list string)
    (now : Z) (kid raw : string) (params : SignatureParams) (key : PublicKey) (base : string)
  : Prop := {
  ac_params : parse_signature_params raw = Ok params;
  ac_kid : sp_keyid params = kid;
  ac_key : (kid, key) ∈ ring;
  ac_alg : forall alg, sp_alg params = Some alg -> alg = http_signature_name (key_algorithm key);
  ac_covered : Forall (fun n => n ∈ sp_covered params) required;
  ac_expires : forall e, sp_expires params = Some e -> (now <= e)%Z;
  ac_base : signature_base c (sp_covered params) raw = Ok base;
  ac_signature : exists bytes, key_verify key base bytes = true
}.

Lemma verify_one_sound ring c raw sig required now kid :
  verify_one ring c raw sig required now = Ok kid ->
  exists params key base, accepted ring c required now kid raw params key base.
Proof.
  unfold verify_one. destruct (parse_signature_params raw) as [params|] eqn:Hp; [|done].
  destruct (find_first _ required) eqn:Hreq; [done|].
  destruct (match sp_created params with Some _ => _ | None => _ end); [done|].
  destruct (is_some_and _ _) eqn:Hexp; [done|].
  destruct (find_first _ ring) as [[kid' key]|] eqn:Hk; [|done].
  destruct (match sp_alg params with Some _ => _ | None => _ end) eqn:Halg; [done|].
  destruct (sig ≫= parse_byte_sequence) as [bytes|]; [|done].
  destruct (signature_base _ _ _) as [base|] eqn:Hb; [|done].
  destruct (key_verify key base bytes) eqn:Hv; [|done]. intros [= <-].
  apply find_first_Some in Hk as [Hin Heq]. apply String.eqb_eq in Heq. cbn in Heq. subst kid'.
  exists params, key, base. split; try done.
  - intros alg Ha. rewrite Ha in Halg. by destruct (String.eqb_spec alg (http_signature_name (key_algorithm key))).
  - eapply Forall_impl; [exact (find_first_None _ _ Hreq)|]. intros n Hn%negb_false_iff.
    by apply str_contains_spec.
  - intros e He. rewrite He in Hexp. cbn in Hexp. lia.
  - by exists bytes.
Qed.

Lemma verify_inputs_sound ring c sigs required now first inputs kid :
  verify_inputs ring c sigs required now first inputs = Ok kid ->
  exists label raw params key base, (label, raw) ∈ inputs
    /\ accepted ring c required now kid raw params key base.
Proof.
  revert first. induction inputs as [|[label raw] rest IH]; intros first; cbn; [done|].
  destruct (verify_one _ _ _ _ _ _) as [k|e] eqn:Hone.
  - intros [= <-]. apply verify_one_sound in Hone as (params & key & base & Ha).
    exists label, raw, params, key, base. split; [by left|done].
  - intros H. destruct (IH _ H) as (l & r & params & key & base & Hin & Ha).
    exists l, r, params, key, base. split; [by right|done].
Qed.

Lemma verify_message_sound ring c input sig required now kid :
  verify_message ring c input sig required now = Ok kid ->
  exists inputs label raw params key base, parse_dictionary input = Ok inputs
    /\ (label, raw) ∈ inputs /\ accepted ring c required now kid raw params key base.
Proof.
  unfold verify_message. destruct (parse_dictionary input) as [inputs|]; [|done].
  destruct (parse_dictionary sig) as [sigs|]; [|done]. destruct inputs, sigs; try done.
  intros (l & r & params & key & base & Hin & Ha)%verify_inputs_sound. eauto 10.
Qed.
End soundness.

(** ** The base determines the message *)

Section base.
Context {crypto : Crypto}.

Definition one_line (s : string) : bool := lacks newline s.

(** No component of the message spans two lines, as in every HTTP header field. *)
Definition one_line_values (c : MessageComponents) : Prop :=
  map_Forall (fun _ v => one_line v = true) c.

Definition one_word (n : string) : Prop := lacks " " n = true /\ one_line n = true.

Lemma lacks_app c s t : lacks c (s +:+ t) = lacks c s && lacks c t.
Proof. apply str_forall_app. Qed.

Lemma component_line_inj n v n' v' :
  one_word n -> one_word n' -> component_line n v = component_line n' v' -> n = n' /\ v = v'.
Proof.
  assert (forall n v, component_line n v = (quoted n +:+ ":") +:+ String " " v) as Hl
    by (intros; unfold component_line; by rewrite str_app_assoc).
  assert (forall n, one_word n -> lacks " " (quoted n +:+ ":") = true) as Hw.
  { intros m [Hm _]. by rewrite lacks_app, lacks_quoted. }
  rewrite !Hl. intros Hn Hn' [Hq ->]%split_once_inj; [|by apply Hw..]. split; [|done].
  apply (f_equal (strip_suffix ":")) in Hq. rewrite !strip_suffix_app in Hq.
  injection Hq as Hq. apply (f_equal (strip_suffix (String dquote ""))) in Hq.
  by rewrite !strip_suffix_app in Hq; injection Hq.
Qed.

Lemma component_line_one_line n v :
  one_word n -> one_line v = true -> lacks newline (component_line n v) = true.
Proof.
  intros [_ Hn] Hv. unfold component_line. rewrite !lacks_app, lacks_quoted by done. cbn.
  exact Hv.
Qed.

(** The last line has no line feed in it. *)
Lemma final_line params line b :
  one_line params = true ->
  component_line "@signature-params" params <> line +:+ String newline b.
Proof.
  intros Hp He.
  pose proof (component_line_one_line "@signature-params" params (conj eq_refl eq_refl) Hp) as Hl.
  rewrite He, lacks_app in Hl. apply andb_true_iff in Hl as [_ Hl]. done.
Qed.

Lemma signature_base_inj c c' covered covered' params params' base :
  one_line_values c -> one_line_values c' -> Forall one_word covered ->
  Forall one_word covered' -> one_line params = true -> one_line params' = true ->
  signature_base c covered params = Ok base -> signature_base c' covered' params' = Ok base ->
  covered = covered' /\ params = params' /\ Forall (fun n => c !! n = c' !! n /\ is_Some (c !! n)) covered.
Proof.
  intros Hc Hc' Hw Hw' Hp Hp'. revert covered' base Hw'.
  induction Hw as [|n rest Hn _ IH]; intros [|n' rest'] base Hw'; cbn [signature_base].
  - intros H1 H2. assert (component_line "@signature-params" params
      = component_line "@signature-params" params') as He by congruence.
    apply component_line_inj in He as [_ <-]; [|by split..]. by split_and!.
  - intros H1. destruct (c' !! n') as [v'|] eqn:Hv'; [|done].
    destruct (signature_base c' rest' params') as [b'|]; [|done]. intros H2.
    destruct (final_line params (component_line n' v') b' Hp). congruence.
  - destruct (c !! n) as [v|] eqn:Hv; [|done].
    destruct (signature_base c rest params) as [b|]; [|done]. intros H1 H2.
    destruct (final_line params' (component_line n v) b Hp'). congruence.
  - apply Forall_cons in Hw' as [Hn' Hw'].
    destruct (c !! n) as [v|] eqn:Hv; [|done]. destruct (c' !! n') as [v'|] eqn:Hv'; [|done].
    destruct (signature_base c rest params) as [b|] eqn:Hb; [|done].
    destruct (signature_base c' rest' params') as [b'|] eqn:Hb'; [|done].
    intros H1 H2. assert (component_line n v +:+ String newline b
      = component_line n' v' +:+ String newline b') as He by congruence.
    apply split_once_inj in He as [Hl <-];
      [|apply component_line_one_line; [done|exact (Hc _ _ Hv)]
       |apply component_line_one_line; [done|exact (Hc' _ _ Hv')]].
    apply component_line_inj in Hl as [-> ->]; [|done..].
    destruct (IH rest' b Hw' eq_refl Hb') as (-> & -> & Hr). split_and!; [done..|].
    constructor; [|done]. rewrite Hv, Hv'. by split.
Qed.

(** *** What a parser returns lacks what its input lacks *)

Lemma lacks_trim c s : lacks c s = true -> lacks c (str_trim s) = true.
Proof.
  assert (forall ws s r, strip_any ws s = Some r -> lacks c s = true -> lacks c r = true) as Hany.
  { intros ws t r. induction ws as [|w ws IH]; cbn; [done|].
    destruct (strip_prefix w t) as [r'|] eqn:Hr; [|done]. intros [= <-].
    apply strip_prefix_spec in Hr as ->. rewrite lacks_app. by intros [_ ?]%andb_true_iff. }
  assert (forall fuel ws s, lacks c s = true -> lacks c (trim_start_fuel fuel ws s) = true) as Hst.
  { intros fuel ws. induction fuel as [|fuel IH]; intros t Ht; cbn; [done|].
    destruct (strip_any ws t) eqn:Hs; [|done]. eapply IH, Hany; eauto. }
  intros Hs. unfold str_trim, lacks. rewrite rev_forall. apply Hst. unfold lacks.
  rewrite rev_forall. by apply Hst.
Qed.

Lemma lacks_split_once c d s x y :
  split_once d s = Some (x, y) -> lacks c s = true -> lacks c x = true /\ lacks c y = true.
Proof.
  intros [-> _]%split_once_spec. rewrite lacks_app. cbn.
  rewrite !andb_true_iff. by intros (? & _ & ?).
Qed.

Lemma lacks_members c s : forall st cur,
  lacks c cur = true -> lacks c s = true ->
  Forall (fun m => lacks c m = true) (fst (split_members st cur s)).
Proof.
  induction s as [|ch s IH]; intros st cur Hcur Hs; cbn.
  - by repeat constructor.
  - cbn in Hs. apply andb_true_iff in Hs as [Hch Hs]. destruct (scan_char st ch) as [st' []].
    + specialize (IH st' "" eq_refl Hs). destruct (split_members st' "" s). by constructor.
    + apply IH; [|done]. rewrite lacks_app, Hcur. cbn. by rewrite Hch.
Qed.

Lemma collect_forall {A B E} (f : A -> result B E) (P : A -> Prop) (Q : B -> Prop) xs ys :
  (forall x y, f x = Ok y -> P x -> Q y) -> collect f xs = Ok ys -> Forall P xs -> Forall Q ys.
Proof.
  intros Hf Hc Hp. revert ys Hc. induction Hp as [|x xs Hx _ IH]; cbn; intros ys.
  - intros [= <-]. done.
  - destruct (f x) as [y|] eqn:Hy; [|done]. destruct (collect f xs) as [zs|]; [|done].
    intros [= <-]. constructor; eauto.
Qed.

Lemma lacks_dictionary c header members :
  parse_dictionary header = Ok members -> lacks c header = true ->
  Forall (fun kv => lacks c (snd kv) = true) members.
Proof.
  unfold parse_dictionary. intros Hp Hc. pose proof (lacks_members c header scan_start "" eq_refl Hc) as Hm.
  destruct (split_members scan_start "" header) as [ms st]. destruct (_ || _); [done|].
  eapply (collect_forall _ (fun m => lacks c m = true)); [|exact Hp|].
  - intros m [k v]. unfold parse_member. destruct (split_once "=" m) as [[x y]|] eqn:Hs; [|done].
    intros [= <- <-] Hm'. apply lacks_trim. by eapply lacks_split_once.
  - apply Forall_forall. intros m Hin. eapply elem_of_sublist in Hin; [|apply retain_sublist].
    apply list_elem_of_fmap in Hin as (x & -> & Hx). apply lacks_trim. cbn in Hm.
    rewrite Forall_forall in Hm. by apply Hm.
Qed.

Lemma lacks_words c n : forall cur s,
  (forall r, strip_any white_space (String c r) <> None) -> lacks c cur = true ->
  Forall (fun w => lacks c w = true) (words_fuel n cur s).
Proof.
  assert (forall cur ws, lacks c cur = true -> Forall (fun w => lacks c w = true) ws ->
    Forall (fun w => lacks c w = true) (push_word cur ws)) as Hpush.
  { intros cur ws Hc Hw. unfold push_word. case_match; [done|by constructor]. }
  induction n as [|n IH]; intros cur s Hws Hcur; cbn [words_fuel]; [by apply Hpush|].
  destruct (strip_any white_space s) as [r|] eqn:Hs; [apply Hpush; auto|].
  destruct s as [|a r]; [by apply Hpush|]. apply IH; [done|].
  rewrite lacks_app, Hcur. cbn. destruct (Ascii.eqb_spec a c) as [->|]; [by destruct (Hws r)|done].
Qed.

Lemma unquote_spec s n : unquote s = Some n -> s = quoted n.
Proof.
  unfold unquote. destruct (strip_prefix (String dquote "") s) as [r|] eqn:Hr; [|done]. cbn.
  apply strip_prefix_spec in Hr as ->. unfold strip_suffix.
  destruct (strip_prefix _ (String.rev r)) as [m|] eqn:Hm; [|done]. intros [= <-].
  apply strip_prefix_spec in Hm. apply (f_equal String.rev) in Hm.
  rewrite rev_involutive, rev_append in Hm. by rewrite Hm.
Qed.

Lemma quoted_lacks c s : lacks c (quoted s) = true -> lacks c s = true.
Proof.
  unfold lacks, quoted. cbn [str_forall]. rewrite str_forall_app, !andb_true_iff. tauto.
Qed.

Lemma parse_params_covered params : forall p q,
  parse_params p params = Ok q -> sp_covered q = sp_covered p.
Proof.
  induction params as [|param rest IH]; intros p q; cbn; [by intros [= <-]|].
  destruct (parse_param p param) as [p'|] eqn:Hp; [|done]. intros ->%IH. revert Hp.
  unfold parse_param. destruct (unwrap_or _ _) as [name value].
  repeat case_match; try done; by intros [= <-].
Qed.

Lemma parsed_names raw p : parse_signature_params raw = Ok p -> Forall one_word (sp_covered p).
Proof.
  unfold parse_signature_params. destruct (strip_prefix _ _) as [rest|]; [|done].
  destruct (split_once _ _) as [[items params]|]; [|done].
  destruct (collect _ _) as [covered|] eqn:Hc; [|done].
  destruct (parse_params _ _) as [q|] eqn:Hq; [|done]. destruct (str_is_empty _); [done|].
  intros [= <-]. rewrite (parse_params_covered _ _ _ Hq). cbn [sp_covered].
  eapply (collect_forall _ (fun w => lacks " " w = true /\ lacks newline w = true)); [|exact Hc|].
  - intros w n. unfold covered_name. destruct (unquote w) eqn:Hu; [|done]. intros [= <-].
    apply unquote_spec in Hu as ->. by intros [?%quoted_lacks ?%quoted_lacks].
  - apply Forall_and. split; apply lacks_words; done.
Qed.
End base.

(** ** Authenticity *)

Section authentic.
Context {crypto : Crypto}.

(** What the holders of the keys have signed, and that they sign messages only. *)
Context (signed : PublicKey -> string -> Prop).
Context (unforgeable : forall key payload sig, key_verify key payload sig = true -> signed key payload).

(** A message a key holder signed: its components and the parameters it chose. *)
Definition signed_message (key : PublicKey) (c : MessageComponents) (raw : string) : Prop :=
  exists p base, parse_signature_params raw = Ok p /\ one_line_values c /\ one_line raw = true
    /\ signature_base c (sp_covered p) raw = Ok base /\ signed key base.

Context (signs_messages : forall key payload, signed key payload ->
  exists c raw p, parse_signature_params raw = Ok p /\ one_line_values c /\ one_line raw = true
    /\ signature_base c (sp_covered p) raw = Ok payload).

(** A message is accepted only when the holder of a listed key signed a message that agrees
    with it on every required component. *)
Lemma authentic_message ring c input sig required now kid :
  one_line_values c -> one_line input = true ->
  verify_message ring c input sig required now = Ok kid ->
  exists key c0 raw, (kid, key) ∈ ring /\ signed_message key c0 raw
    /\ Forall (fun n => c0 !! n = c !! n /\ is_Some (c !! n)) required.
Proof.
  intros Hc Hin (inputs & label & raw & params & key & base & Hd & Hraw & Ha)%verify_message_sound.
  destruct Ha as [Hp Hkid Hkey _ Hreq _ Hb [bytes Hv]].
  pose proof (lacks_dictionary newline _ _ Hd Hin) as Hl. rewrite Forall_forall in Hl.
  specialize (Hl _ Hraw). cbn in Hl.
  destruct (signs_messages key base (unforgeable _ _ _ Hv)) as (c0 & raw0 & p0 & Hp0 & Hc0 & Hr0 & Hb0).
  destruct (signature_base_inj c c0 (sp_covered params) (sp_covered p0) raw raw0 base)
    as (_ & _ & Hsame); try done; [by eapply parsed_names..|].
  exists key, c0, raw0. split_and!; [done| |].
  - exists p0, base. split_and!; try done. by eapply unforgeable.
  - rewrite Forall_forall in Hsame. eapply Forall_impl; [exact Hreq|]. cbn.
    intros n Hn. destruct (Hsame n Hn) as [He ?]. by rewrite <- He.
Qed.
End authentic.

(** ** Digests *)

Section digests.
Context {crypto : Crypto} {laws : CryptoLaws crypto}.

(** The digest header we send for one body is accepted for exactly the bodies with the
    same SHA-256. *)
Theorem content_digest_matches body body' :
  verify_content_digest (content_digest body) body' = Ok tt <-> sha256 body' = sha256 body.
Proof.
  unfold verify_content_digest, content_digest.
  change ("sha-256=:" +:+ standard_encode (sha256 body) +:+ ":")
    with ("sha-256" +:+ "=" +:+ ":" +:+ standard_encode (sha256 body) +:+ ":").
  rewrite (parse_dictionary_one "sha-256" _) by (done || apply signature_member).
  assert (forall v, find_first (fun kv : string * string => String.eqb (fst kv) "sha-256")
    [("sha-256", v)] = Some ("sha-256", v)) as Hf by done.
  rewrite Hf. cbn [mbind option_bind snd]. rewrite parse_bytes. cbn.
  destruct (String.eqb_spec (sha256 body') (sha256 body)); [done|]. split; congruence.
Qed.
End digests.

(** ** Keyrings *)

Section rings.
Context {crypto : Crypto}.

Definition kids (r : SigningKeyring) : list string := key_kid <$> ring_keys r.

Lemma build_key_kid spec k :
  build_key spec = Ok k -> key_kid k = ks_kid spec /\ str_is_empty (str_trim (key_kid k)) = false.
Proof.
  unfold build_key. destruct (str_is_empty _) eqn:He; [done|].
  destruct (decode_base64 _); [|done]. destruct (_ =? _)%nat; [|done].
  destruct (ks_algorithm spec); [|destruct (p256_from_slice _); [|done]]; by intros [= <-].
Qed.

Lemma add_specs_spec specs : forall keys out,
  add_specs keys specs = Ok out -> NoDup (key_kid <$> keys) ->
  Forall (fun k => str_is_empty (str_trim (key_kid k)) = false) keys ->
  NoDup (key_kid <$> out) /\ Forall (fun k => str_is_empty (str_trim (key_kid k)) = false) out
  /\ exists rest, out = keys ++ rest /\ key_kid <$> rest = ks_kid <$> specs.
Proof.
  induction specs as [|spec specs IH]; intros keys out; cbn.
  - intros [= <-] Hd Hf. split_and!; [done..|]. exists []. by rewrite app_nil_r.
  - destruct (build_key spec) as [k|] eqn:Hk; [|done]. destruct (any _ keys) eqn:Ha; [done|].
    apply build_key_kid in Hk as [Hkid Hne]. intros Hrun Hd Hf.
    destruct (IH _ _ Hrun) as (Hd' & Hf' & rest & -> & Hr).
    + rewrite fmap_app. apply NoDup_app. split_and!; [done| |apply NoDup_singleton].
      intros x Hx ->%list_elem_of_singleton. apply list_elem_of_fmap in Hx as (y & Hy & Hin).
      apply not_true_iff_false in Ha. apply Ha, existsb_elem. exists y. split; [done|].
      by apply String.eqb_eq.
    + apply Forall_app. split; [done|]. by apply Forall_singleton.
    + split_and!; [done..|]. exists (k :: rest). rewrite <- app_assoc. split; [done|]. cbn.
      by rewrite Hkid, Hr.
Qed.

Lemma ring_is_usable active previous r :
  from_specs active previous = Ok r ->
  NoDup (kids r) /\ Forall (fun k => str_is_empty (str_trim (key_kid k)) = false) (ring_keys r).
Proof.
  unfold from_specs. destruct (build_key active) as [k|] eqn:Hk; [|done].
  destruct (add_specs [k] previous) as [keys|] eqn:Hadd; [|done]. intros [= <-].
  apply build_key_kid in Hk as [Hkid Hne].
  destruct (add_specs_spec _ _ _ Hadd) as (Hd & Hf & rest & -> & Hr);
    [apply NoDup_singleton|by apply Forall_singleton|]. by split.
Qed.

(** A keyring is built only of usable keys with distinct, non-blank ids, in the order
    they were configured, and signs with the first. *)
Theorem from_specs_ring active previous r :
  from_specs active previous = Ok r ->
  kids r = ks_kid active :: (ks_kid <$> previous) /\ NoDup (kids r)
  /\ Forall (fun kid => str_is_empty (str_trim kid) = false) (kids r)
  /\ active_kid r = ks_kid active.
Proof.
  intros Hrun. destruct (ring_is_usable _ _ _ Hrun) as [Hd Hf]. revert Hrun.
  unfold from_specs. destruct (build_key active) as [k|] eqn:Hk; [|done].
  destruct (add_specs [k] previous) as [keys|] eqn:Hadd; [|done]. intros [= <-].
  apply build_key_kid in Hk as [Hkid Hne].
  destruct (add_specs_spec _ _ _ Hadd) as (_ & _ & rest & -> & Hr);
    [apply NoDup_singleton|by apply Forall_singleton|].
  split_and!; [|done|by apply Forall_fmap|exact Hkid].
  unfold kids, ring_keys. cbn. by rewrite Hkid, Hr.
Qed.

(** *** Discovery *)

(** Documented behaviour of the base64 engine and of the key encodings. *)
Class JwkLaws : Prop := {
  url_safe_decode_encode b : url_safe_decode (url_safe_encode b) = Some b;
  url_safe_alphabet b :
    str_forall (fun a => graphic a && negb (Ascii.eqb a "=")) (url_safe_encode b) = true;
  url_safe_nonempty b : b <> "" -> url_safe_encode b <> "";
  ed25519_bytes_length k : String.length (ed25519_to_bytes k) = 32;
  ed25519_from_to k : ed25519_from_bytes (ed25519_to_bytes k) = Ok k;
  p256_from_point k : exists x y, p256_x k = Some x /\ p256_y k = Some y /\ x <> "" /\ y <> ""
    /\ p256_from_sec1 (String (ascii_of_nat 4) (x +:+ y)) = Ok k
}.

Context {jwk_laws : JwkLaws}.

Lemma trim_leading_lacks c s : lacks c s = true -> trim_leading c s = s.
Proof. destruct s as [|a s]; cbn; [done|]. by destruct (Ascii.eqb a c). Qed.

Lemma decode_url_safe b : b <> "" -> decode_base64 (url_safe_encode b) = Some b.
Proof.
  intros Hb. pose proof (url_safe_alphabet b) as Ha. pose proof (url_safe_nonempty b Hb) as Hne.
  assert (str_forall graphic (url_safe_encode b) = true) as Hg.
  { eapply str_forall_impl; [|exact Ha]. intros a. cbn. by destruct (graphic a). }
  assert (lacks "=" (url_safe_encode b) = true) as Hl.
  { eapply str_forall_impl; [|exact Ha]. intros a. cbn. by destruct (graphic a). }
  unfold decode_base64. rewrite str_trim_graphic by (by apply graphic_ends_forall).
  assert (str_is_empty (url_safe_encode b) = false) as -> by (by destruct (url_safe_encode b)).
  unfold trim_end_matches. rewrite trim_leading_lacks by (unfold lacks; by rewrite rev_forall).
  by rewrite rev_involutive, url_safe_decode_encode.
Qed.

Lemma from_jwk_key_jwk k kid : from_jwk (key_jwk k kid) = Ok k.
Proof.
  destruct k as [key|key]; unfold from_jwk, jwk_coordinate; cbn.
  - pose proof (ed25519_bytes_length key) as Hl. rewrite decode_url_safe by (by intros H; rewrite H in Hl).
    cbn. unfold ed25519_public_key. by rewrite Hl, ed25519_from_to.
  - destruct (p256_from_point key) as (x & y & Hx & Hy & Hx0 & Hy0 & Hk). rewrite Hx, Hy. cbn.
    rewrite !decode_url_safe by done. cbn. by rewrite Hk.
Qed.

Lemma check_kids_ok entries : forall seen,
  Forall (fun kv : string * PublicKey => str_is_empty (str_trim (fst kv)) = false) entries ->
  NoDup (fst <$> entries) -> (forall kv, kv ∈ entries -> fst kv ∉ seen) ->
  check_kids seen entries = Ok tt.
Proof.
  induction entries as [|[kid key] rest IH]; intros seen Hne Hd Hs; cbn; [done|].
  apply Forall_cons in Hne as [Hk Hne]. cbn in Hk. rewrite Hk.
  apply NoDup_cons in Hd as [Hkid Hd].
  assert (str_contains seen kid = false) as ->.
  { apply not_true_iff_false. rewrite str_contains_spec. apply (Hs (kid, key)). by left. }
  apply IH; [done|done|]. intros kv Hin. rewrite elem_of_app, list_elem_of_singleton.
  intros [Hi|Hi]; [by eapply Hs; [right|]|]. apply Hkid. cbn. rewrite <- Hi.
  by apply list_elem_of_fmap_2.
Qed.

Lemma parse_published keys :
  parse_jwks (map (fun k => key_jwk (key_public (key_private k)) (key_kid k)) keys)
  = Ok ((fun k => (key_kid k, key_public (key_private k))) <$> keys).
Proof.
  induction keys as [|k keys IH]; cbn [map parse_jwks fmap list_fmap]; [done|].
  rewrite from_jwk_key_jwk, IH. f_equal. f_equal. by destruct (key_public _).
Qed.

Definition published_ring (r : SigningKeyring) : list (string * PublicKey) :=
  (fun k => (key_kid k, key_public (key_private k))) <$> ring_keys r.

Lemma published_ring_entries active previous r :
  from_specs active previous = Ok r -> from_entries (published_ring r) = Ok (published_ring r).
Proof.
  intros Hrun. destruct (ring_is_usable _ _ _ Hrun) as [Hd Hf].
  unfold from_entries. rewrite check_kids_ok; [done|..].
  - apply Forall_fmap. exact Hf.
  - unfold published_ring. rewrite <- list_fmap_compose. exact Hd.
  - intros kv _. apply not_elem_of_nil.
Qed.

(** An agent that reads our keys from discovery gets a ring that holds every key of
    ours under its own kid, so that it finds the key our signatures name. *)
Theorem discovery_publishes_the_ring active previous r :
  from_specs active previous = Ok r ->
  exists ring, parse_jwks (public_jwks r) = Ok ring /\ from_entries ring = Ok ring
    /\ ring = ((fun k => (key_kid k, key_public (key_private k))) <$> ring_keys r)
    /\ find_first (fun kv => String.eqb (fst kv) (active_kid r)) ring
       = Some (active_kid r, key_public (key_private (ring_active r))).
Proof.
  intros Hrun. exists (published_ring r). split_and!; [apply parse_published| |done|].
  - by apply (published_ring_entries _ _ _ Hrun).
  - cbn. by rewrite String.eqb_refl.
Qed.
End rings.

(** ** Witnesses *)

(** A base64 of bits, and keys that verify the payloads [ok] says. *)
Definition bit (b : bool) : ascii := if b then "1"%char else "0"%char.
Definition unbit (a : ascii) : bool := Ascii.eqb a "1".

Fixpoint bits_encode (s : string) : string :=
  match s with
  | EmptyString => ""
  | String (Ascii b0 b1 b2 b3 b4 b5 b6 b7) r =>
      String (bit b0) (String (bit b1) (String (bit b2) (String (bit b3) (String (bit b4)
        (String (bit b5) (String (bit b6) (String (bit b7) (bits_encode r))))))))
  end.

Fixpoint bits_decode (s : string) : option string :=
  match s with
  | EmptyString => Some ""
  | String a0 (String a1 (String a2 (String a3 (String a4 (String a5 (String a6 (String a7 r))))))) =>
      String (Ascii (unbit a0) (unbit a1) (unbit a2) (unbit a3) (unbit a4) (unbit a5) (unbit a6)
        (unbit a7)) <$> bits_decode r
  | _ => None
  end.

Lemma bits_roundtrip s : bits_decode (bits_encode s) = Some s.
Proof.
  induction s as [|[b0 b1 b2 b3 b4 b5 b6 b7] s IH]; cbn [bits_encode bits_decode]; [done|].
  rewrite IH. by destruct b0, b1, b2, b3, b4, b5, b6, b7.
Qed.

Lemma bits_alphabet p s :
  p "0"%char = true -> p "1"%char = true -> str_forall p (bits_encode s) = true.
Proof.
  intros H0 H1. assert (forall b, p (bit b) = true) as Hb by by intros [].
  induction s as [|[b0 b1 b2 b3 b4 b5 b6 b7] s IH]; cbn [bits_encode str_forall]; [done|].
  by rewrite !Hb, IH.
Qed.

Fixpoint zeros (n : nat) : string := match n with O => "" | S n => String "0" (zeros n) end.

Definition toy_crypto (ok : string -> bool) : Crypto := {|
  standard_encode := bits_encode; standard_decode := bits_decode;
  url_safe_encode := bits_encode; url_safe_decode := bits_decode;
  sha256 s := s;
  Ed25519Signing := unit; Ed25519Verifying := unit;
  ed25519_signing _ := tt; ed25519_verifying_key _ := tt;
  ed25519_sign _ _ := zeros 64; ed25519_from_bytes _ := Ok tt;
  ed25519_to_bytes _ := zeros 32; ed25519_verify _ payload _ := ok payload;
  P256Signing := Empty_set; P256Verifying := Empty_set; P256Signature := Empty_set;
  p256_from_slice _ := Err "unsupported"; p256_verifying_key k := k;
  p256_sign k _ := k; p256_to_bytes s := match s with end;
  p256_signature _ := None; p256_from_sec1 _ := Err "unsupported";
  p256_x _ := None; p256_y _ := None; p256_verify _ _ _ := false
|}.

Abbreviation demo_crypto := (toy_crypto (fun _ => true)).

#[export] Instance demo_crypto_laws : CryptoLaws demo_crypto.
Proof.
  split; try done; try (by intros []).
  - intros b. apply bits_roundtrip.
  - intros b. by apply bits_alphabet.
Qed.

Lemma demo_jwk_laws : @JwkLaws demo_crypto.
Proof.
  split; try done; try (by intros []).
  - intros b. apply bits_roundtrip.
  - intros b. by apply bits_alphabet.
  - by intros [|[b0 b1 b2 b3 b4 b5 b6 b7] s].
Qed.

(** A ring of one key, and a response to sign. *)
Definition demo_ring : @SigningKeyring demo_crypto :=
  @MkRing demo_crypto (MkKey "k1" (@PrivEd25519 demo_crypto tt)) [].
Definition demo_agent : list (string * @PublicKey demo_crypto) :=
  [("k1", key_public (key_private (ring_active demo_ring)))].
Definition demo_components : MessageComponents := {[ "@status" := "200" ]}.

Lemma signed_message_verifies_witness :
  match sign_message_with_params demo_ring demo_components ["@status"] 1000 (Some 2000%Z) with
  | Ok sm => verify_message demo_agent demo_components (sm_input sm) (sm_signature sm)
               ["@status"] 1010 = Ok "k1"
  | Err _ => False
  end.
Proof.
  destruct (sign_message_with_params demo_ring demo_components ["@status"] 1000 (Some 2000%Z))
    as [sm|e] eqn:H; [|by vm_compute in H].
  apply (signed_message_verifies demo_ring demo_components ["@status"] 1000 (Some 2000%Z) sm
    demo_agent ["@status"] 1010 H).
  - repeat constructor.
  - done.
  - done.
  - intros e [= <-]. done.
  - done.
  - reflexivity.
  - repeat constructor.
Defined.

(** Half a trillion years ago. *)
Lemma far_past_signature_is_fresh_witness :
  match sign_message demo_ring demo_components ["@status"] (1000 - 2 ^ 63) with
  | Ok sm => verify_message demo_agent demo_components (sm_input sm) (sm_signature sm)
               ["@status"] 1000 = Ok "k1"
  | Err _ => False
  end.
Proof.
  destruct (sign_message demo_ring demo_components ["@status"] (1000 - 2 ^ 63))
    as [sm|e] eqn:H; [|by vm_compute in H].
  apply (far_past_signature_is_fresh demo_ring demo_components ["@status"] sm demo_agent
    ["@status"] 1000 H).
  - done.
  - repeat constructor.
  - done.
  - reflexivity.
  - repeat constructor.
Defined.

Definition demo_spec (kid : string) : KeySpec := MkKeySpec kid EdDsa (bits_encode (zeros 32)).

Lemma from_specs_ring_witness :
  match @from_specs demo_crypto (demo_spec "k2") [demo_spec "k1"] with
  | Ok r => kids r = ["k2"; "k1"] /\ NoDup (kids r)
  | Err _ => False
  end.
Proof.
  destruct (@from_specs demo_crypto (demo_spec "k2") [demo_spec "k1"]) as [r|e] eqn:H;
    [|by vm_compute in H].
  destruct (from_specs_ring _ _ _ H) as (Hk & Hd & _ & _). split; [exact Hk|exact Hd].
Defined.

Lemma discovery_publishes_the_ring_witness :
  match @from_specs demo_crypto (demo_spec "k2") [demo_spec "k1"] with
  | Ok r => exists ring, @parse_jwks demo_crypto (public_jwks r) = Ok ring /\ from_entries ring = Ok ring
  | Err _ => False
  end.
Proof.
  destruct (@from_specs demo_crypto (demo_spec "k2") [demo_spec "k1"]) as [r|e] eqn:H;
    [|by vm_compute in H].
  destruct (@discovery_publishes_the_ring _ demo_jwk_laws _ _ _ H) as (ring & H1 & H2 & _).
  exists ring. split; [exact H1|exact H2].
Defined.

Lemma content_digest_matches_witness :
  @verify_content_digest demo_crypto (@content_digest demo_crypto "{}") "{}" = Ok tt.
Proof. apply (proj2 (@content_digest_matches demo_crypto _ "{}" "{}")). reflexivity. Defined.

(** A key id with a semicolon makes a ring that signs, and whose signatures nobody verifies: the
    reader of the parameters splits at semicolons, in quotes too. *)
Theorem semicolon_kid_refuses_itself :
  match @from_specs demo_crypto (demo_spec "a;b") [] with
  | Ok r =>
      match sign_message_with_params r demo_components ["@status"] 1000 None with
      | Ok sm => is_ok (verify_message (published_ring r) demo_components (sm_input sm)
                   (sm_signature sm) ["@status"] 1000) = false
      | Err _ => False
      end
  | Err _ => False
  end.
Proof. vm_compute. reflexivity. Qed.
