(* ===== verification/SignedHttp.v ===== *)
(** * The signing middleware ([crates/orchestrator-http/src/signing.rs])

    What an inbound request must carry before a handler sees it, and what is put on every
    response.  A message is its parts: the header map is a list of fields, in order, with
    lowercase names. *)

From S2P Require Export Signatures.
From Stdlib Require Import Ascii.

#[local] Arguments str_trim : simpl never.

Definition MAX_SIGNED_BODY_BYTES : Z := 2 * 1024 * 1024.
Definition SIGNED_PATH_PREFIX : string := "/api/v1".
Definition COVER_WHEN_PRESENT : list string := ["ucp-agent"; "signature-agent"; "idempotency-key"].

Abbreviation HeaderMap := (list (string * string)).

Record HttpRequest := MkRequest {
  rq_method : string;
  rq_path : string;
  rq_query : option string;
  rq_authority : option string;
  rq_headers : HeaderMap;
  rq_body : string
}.

(** [HeaderValue::to_str] and [HeaderValue::from_str]. *)
Definition to_str (v : string) : option string :=
  if str_forall (fun a => ((32 <=? code a) && (code a <? 127) || (code a =? 9))%Z) v
  then Some v else None.

Definition header_value (v : string) : option string :=
  if str_forall (fun a => ((32 <=? code a) && negb (code a =? 127) || (code a =? 9))%Z) v
  then Some v else None.

Definition header (headers : HeaderMap) (name : string) : option string :=
  let values := map str_trim
    (omap (fun kv => if String.eqb (fst kv) name then to_str (snd kv) else None) headers) in
  match values with [] => None | _ => Some (join ", " values) end.

(** [HeaderMap::insert]: the value replaces those there are. *)
Definition header_insert (name value : string) (headers : HeaderMap) : HeaderMap :=
  List.filter (fun kv => negb (String.eqb (fst kv) name)) headers ++ [(name, value)].

(** [add_header_components]. *)
Definition add_header_components (headers : HeaderMap) (c : MessageComponents)
  : MessageComponents :=
  fold_left (fun c name => match header headers name with
                           | Some value => mc_insert name value c
                           | None => c
                           end) (map fst headers) c.

Definition mc_insert_opt (name : string) (value : option string) (c : MessageComponents)
  : MessageComponents :=
  match value with Some v => mc_insert name v c | None => c end.

(** The components of a request, and those a signature must cover. *)
Definition request_components (r : HttpRequest) : MessageComponents :=
  let c := mc_insert "@path" (rq_path r) (mc_insert "@method" (rq_method r) ∅) in
  let authority := match header (rq_headers r) "host" with
                   | Some h => Some h
                   | None => rq_authority r
                   end in
  let c := mc_insert_opt "@authority" (to_ascii_lowercase <$> authority) c in
  let c := mc_insert_opt "@query" (String.append "?" <$> rq_query r) c in
  add_header_components (rq_headers r) c.

Definition required_components (r : HttpRequest) : list string :=
  ["@method"; "@authority"; "@path"]
  ++ (if is_some (rq_query r) then ["@query"] else [])
  ++ (if str_is_empty (rq_body r) then [] else ["content-digest"; "content-type"])
  ++ List.filter (fun name => is_some (request_components r !! name)) COVER_WHEN_PRESENT.

(** The answer of the middleware: the handler runs, or a status and a code. *)
Inductive Gate :=
| Passed (kid : option string)
| Rejected (status : Z) (text code : string).

Section middleware.
Context {crypto : Crypto}.

(** The closure [verified] of [verify_request_signature]. *)
Definition verified (ring : list (string * PublicKey)) (r : HttpRequest) (now : Z)
  : result string SignatureError :=
  match header (rq_headers r) SIGNATURE_INPUT_HEADER with
  | None => Err Missing
  | Some input =>
      match header (rq_headers r) SIGNATURE_HEADER with
      | None => Err Missing
      | Some signature =>
          let digest :=
            if str_is_empty (rq_body r) then Ok tt
            else match header (rq_headers r) CONTENT_DIGEST_HEADER with
                 | None => Err DigestMismatch
                 | Some d => verify_content_digest d (rq_body r)
                 end in
          match digest with
          | Err e => Err e
          | Ok _ => verify_message ring (request_components r) input signature
                      (required_components r) now
          end
      end
  end.

Definition verify_request_signature (inbound_keys : option (list (string * PublicKey)))
    (r : HttpRequest) (now : Z) : Gate :=
  match inbound_keys with
  | None => Passed None
  | Some ring =>
      if negb (starts_with SIGNED_PATH_PREFIX (rq_path r)) then Passed None
      else if (MAX_SIGNED_BODY_BYTES <? Z.of_nat (String.length (rq_body r)))%Z then
        Rejected 413 "request body is too large to verify" "SIGNATURE_BODY_TOO_LARGE"
      else
        match verified ring r now with
        | Ok kid => Passed (Some kid)
        | Err e => Rejected (signature_error_status e) (signature_error_text e)
                     (signature_error_code e)
        end
  end.

Record HttpResponse := MkResponse { rp_status : string; rp_headers : HeaderMap; rp_body : string }.

(** The components, the covered names and the headers [sign_response] signs over. *)
Definition response_components (p : HttpResponse)
  : MessageComponents * list string * HeaderMap :=
  let c := mc_insert "@status" (rp_status p) ∅ in
  if str_is_empty (rp_body p) then (c, ["@status"], rp_headers p)
  else
    let digest := content_digest (rp_body p) in
    let headers := match header_value digest with
                   | Some v => header_insert CONTENT_DIGEST_HEADER v (rp_headers p)
                   | None => rp_headers p
                   end in
    let c := mc_insert CONTENT_DIGEST_HEADER digest c in
    match header headers "content-type" with
    | Some t => (mc_insert "content-type" t c,
                 ["@status"; CONTENT_DIGEST_HEADER; "content-type"], headers)
    | None => (c, ["@status"; CONTENT_DIGEST_HEADER], headers)
    end.

(** What leaves: the response, or an error body when it could not be buffered. *)
Inductive Outgoing :=
| Sent (p : HttpResponse)
| SignFailed (status : Z) (text code : string).

Definition sign_response (signing : option SigningKeyring) (p : HttpResponse) (now : Z)
  : Outgoing :=
  match signing with
  | None => Sent p
  | Some ring =>
      if (MAX_SIGNED_BODY_BYTES <? Z.of_nat (String.length (rp_body p)))%Z then
        SignFailed 500 "Internal server error" "INTERNAL_ERROR"
      else
        let '(c, covered, headers) := response_components p in
        let signed :=
          match sign_message ring c covered now with
          | Ok s => match header_value (sm_input s), header_value (sm_signature s) with
                    | Some i, Some g => Some (i, g)
                    | _, _ => None
                    end
          | Err _ => None
          end in
        let headers := match signed with
                       | Some (i, g) => header_insert SIGNATURE_HEADER g
                                          (header_insert SIGNATURE_INPUT_HEADER i headers)
                       | None => headers
                       end in
        Sent (MkResponse (rp_status p) headers (rp_body p))
  end.
End middleware.

(** ** Header maps *)

(** The names [http::HeaderName] allows. *)
Definition field_name (name : string) : Prop :=
  to_ascii_lowercase name = name /\ starts_with "@" name = false.

Definition http_headers (headers : HeaderMap) : Prop :=
  Forall (fun kv => field_name (fst kv)) headers.

Lemma header_none headers name :
  name ∉ (fst <$> headers) -> header headers name = None.
Proof.
  intros Hn. unfold header. replace (omap _ headers) with ([] : list string); [done|].
  induction headers as [|[k v] headers IH]; cbn; [done|].
  rewrite fmap_cons, not_elem_of_cons in Hn. destruct Hn as [Hk Hn].
  destruct (String.eqb_spec k name) as [->|]; [done|]. by apply IH.
Qed.

Lemma header_insert_eq name v headers :
  to_str v = Some v -> header (header_insert name v headers) name = Some (str_trim v).
Proof.
  intros Hv. unfold header, header_insert. rewrite omap_app. cbn.
  rewrite String.eqb_refl, Hv.
  replace (omap _ (List.filter _ headers)) with ([] : list string); [done|].
  induction headers as [|[k w] headers IH]; cbn; [done|].
  destruct (String.eqb k name) eqn:Hk; cbn; [done|]. by rewrite Hk.
Qed.

Lemma header_insert_unreadable name v headers :
  to_str v = None -> header (header_insert name v headers) name = None.
Proof.
  intros Hv. unfold header, header_insert. rewrite omap_app. cbn.
  rewrite String.eqb_refl, Hv.
  replace (omap _ (List.filter _ headers)) with ([] : list string); [done|].
  induction headers as [|[k w] headers IH]; cbn; [done|].
  destruct (String.eqb k name) eqn:Hk; cbn; [done|]. by rewrite Hk.
Qed.

Lemma header_insert_ne name name' v headers :
  name <> name' -> header (header_insert name v headers) name' = header headers name'.
Proof.
  intros Hne. unfold header, header_insert. rewrite omap_app. cbn.
  apply String.eqb_neq in Hne. rewrite Hne, app_nil_r. apply String.eqb_neq in Hne.
  replace (omap (fun kv : string * string => if String.eqb (fst kv) name' then to_str (snd kv) else None)
    (List.filter _ headers)) with
    (omap (fun kv : string * string => if String.eqb (fst kv) name' then to_str (snd kv) else None) headers); [done|].
  induction headers as [|[k w] headers IH]; cbn; [done|].
  destruct (String.eqb_spec k name) as [->|Hk]; cbn.
  - apply String.eqb_neq in Hne. by rewrite Hne.
  - by rewrite IH.
Qed.

(** What a request shows as a component: its header, or what was there. *)
Lemma header_components headers c n :
  http_headers headers ->
  add_header_components headers c !! n
  = match header headers n with Some v => Some (str_trim v) | None => c !! n end.
Proof.
  intros Hh. unfold add_header_components.
  assert (forall names c, Forall field_name names ->
    fold_left (fun c name => match header headers name with
                             | Some value => mc_insert name value c | None => c end) names c !! n
    = match header headers n with
      | Some v => if decide (n ∈ names) then Some (str_trim v) else c !! n
      | None => c !! n
      end) as Hfold.
  { clear c. induction names as [|k names IH]; intros c Hf; cbn; [by destruct (header headers n)|].
    apply Forall_cons in Hf as [[Hk _] Hf]. rewrite IH by done.
    destruct (decide (k = n)) as [->|Hne].
    - destruct (header headers n) as [v|]; [|done]. unfold mc_insert. rewrite Hk, lookup_insert_eq.
      destruct (decide (n ∈ names)), (decide (n ∈ n :: names)) as [|Hi]; try done;
        destruct Hi; by left.
    - assert (match header headers k with Some value => mc_insert k value c | None => c end !! n
              = c !! n) as ->.
      { destruct (header headers k); [|done]. unfold mc_insert. by rewrite Hk, lookup_insert_ne. }
      destruct (header headers n); [|done].
      destruct (decide (n ∈ names)) as [Hi|Hi], (decide (n ∈ k :: names)) as [Hi'|Hi']; try done.
      + destruct Hi'. by right.
      + by apply elem_of_cons in Hi' as [->|?]. }
  rewrite Hfold by (by apply Forall_map).
  destruct (header headers n) as [v|] eqn:Hn; [|done]. rewrite decide_True; [done|].
  apply dec_stable. intros Hi. by rewrite header_none in Hn.
Qed.

Lemma header_derived headers name :
  http_headers headers -> starts_with "@" name = true -> header headers name = None.
Proof.
  intros Hh Hn. apply header_none. rewrite list_elem_of_fmap. intros (kv & -> & Hin).
  unfold http_headers in Hh. rewrite Forall_forall in Hh. destruct (Hh _ Hin). congruence.
Qed.

(** *** The components of a request *)

Section request.
Context (r : HttpRequest) (Hr : http_headers (rq_headers r)).

Lemma component_method : request_components r !! "@method" = Some (str_trim (rq_method r)).
Proof.
  unfold request_components. rewrite header_components, header_derived by done.
  unfold mc_insert_opt, mc_insert. repeat case_match; cbn; by simplify_map_eq.
Qed.

Lemma component_path : request_components r !! "@path" = Some (str_trim (rq_path r)).
Proof.
  unfold request_components. rewrite header_components, header_derived by done.
  unfold mc_insert_opt, mc_insert. repeat case_match; cbn; by simplify_map_eq.
Qed.

Lemma component_query q :
  rq_query r = Some q -> request_components r !! "@query" = Some (str_trim ("?" +:+ q)).
Proof.
  intros Hq. unfold request_components. rewrite header_components, header_derived by done.
  unfold mc_insert_opt, mc_insert. rewrite Hq. cbn. by simplify_map_eq.
Qed.

Lemma component_header name :
  starts_with "@" name = false ->
  request_components r !! name = str_trim <$> header (rq_headers r) name.
Proof.
  intros Hn. unfold request_components. rewrite header_components by done.
  destruct (header (rq_headers r) name); [done|].
  unfold mc_insert_opt, mc_insert.
  repeat case_match; cbn; rewrite ?lookup_insert_ne by (by intros <-); by rewrite lookup_empty.
Qed.
End request.

(** *** Header values are one line *)

Lemma join_one_line ws :
  Forall (fun x => lacks newline x = true) ws -> one_line (join ", " ws) = true.
Proof.
  induction 1 as [|y ys Hy _ IH]; [done|]. destruct ys as [|z ys]; [done|].
  change (join ", " (y :: z :: ys)) with (y +:+ ", " +:+ join ", " (z :: ys)).
  unfold one_line in *. by rewrite !lacks_app, Hy, IH.
Qed.

Lemma header_one_line headers name v : header headers name = Some v -> one_line v = true.
Proof.
  unfold header. destruct (map str_trim _) as [|x xs] eqn:Hm; [done|]. intros [= <-].
  assert (Forall (fun x => lacks newline x = true) (x :: xs)) as Hall.
  { rewrite <- Hm. apply Forall_map, Forall_forall. intros y Hy.
    apply list_elem_of_omap in Hy as ([k w] & _ & Hw). cbn in Hw.
    destruct (String.eqb k name); [|done]. apply lacks_trim. revert Hw. unfold to_str.
    destruct (str_forall _ w) eqn:Hs; [|done]. intros [= <-]. revert Hs. apply str_forall_impl.
    intros a. destruct (Ascii.eqb_spec a newline) as [->|]; [|done]. intros Ha.
    by vm_compute in Ha. }
  by apply (join_one_line (x :: xs)).
Qed.

Lemma mc_insert_one_line name v c :
  one_line v = true -> one_line_values c -> one_line_values (mc_insert name v c).
Proof. intros Hv Hc. apply map_Forall_insert_2; [by apply lacks_trim|done]. Qed.

(** What an HTTP server hands to the middleware. *)
Record http_request (r : HttpRequest) : Prop := {
  hr_headers : http_headers (rq_headers r);
  hr_method : one_line (rq_method r) = true;
  hr_path : one_line (rq_path r) = true;
  hr_query : forall q, rq_query r = Some q -> one_line q = true;
  hr_authority : forall a, rq_authority r = Some a -> one_line a = true
}.

Lemma lowercase_one_line s : one_line s = true -> one_line (to_ascii_lowercase s) = true.
Proof.
  unfold one_line, lacks. induction s as [|a s IH]; cbn; [done|]. rewrite !andb_true_iff.
  intros [Ha Hs]. split; [|auto]. unfold ascii_lower. case_match eqn:Hc; [|done].
  apply andb_true_iff in Hc as [H1%Nat.leb_le H2%Nat.leb_le].
  destruct (Ascii.eqb_spec (ascii_of_nat (nat_of_ascii a + 32)) newline) as [He|]; [|done].
  apply (f_equal nat_of_ascii) in He. rewrite nat_ascii_embedding in He by lia.
  change (nat_of_ascii newline) with 10 in He. lia.
Qed.

#[local] Arguments mc_insert : simpl never.

Lemma request_one_line r : http_request r -> one_line_values (request_components r).
Proof.
  intros [Hh Hm Hp Hq Ha]. unfold request_components, add_header_components.
  assert (forall names c, one_line_values c -> one_line_values (fold_left (fun c name =>
    match header (rq_headers r) name with Some value => mc_insert name value c | None => c end)
    names c)) as Hfold.
  { induction names as [|k names IH]; intros c Hc; cbn; [done|]. apply IH.
    destruct (header _ k) eqn:Hk; [|done]. apply mc_insert_one_line; [|done].
    by eapply header_one_line. }
  apply Hfold. unfold mc_insert_opt.
  assert (one_line_values (mc_insert "@path" (rq_path r) (mc_insert "@method" (rq_method r) ∅)))
    as Hbase by (apply mc_insert_one_line, mc_insert_one_line, map_Forall_empty; done).
  assert (forall a, (match header (rq_headers r) "host" with Some h => Some h | None => rq_authority r end)
    = Some a -> one_line a = true) as Hauth.
  { intros a. destruct (header _ _) eqn:Hhost; [intros [= <-]; by eapply header_one_line|apply Ha]. }
  destruct (match header (rq_headers r) "host" with Some h => _ | None => _ end) as [a|]; cbn;
    destruct (rq_query r) as [q|]; cbn; repeat (exact Hbase || apply mc_insert_one_line);
    try (by apply lowercase_one_line, Hauth); exact (Hq q eq_refl).
Qed.

(** ** Inbound: what a handler may rely on *)

Section inbound.
Context {crypto : Crypto} (signed : PublicKey -> string -> Prop).
Context (unforgeable : forall key payload sig, key_verify key payload sig = true -> signed key payload).
Context (signs_messages : forall key payload, signed key payload ->
  exists c raw p, parse_signature_params raw = Ok p /\ one_line_values c /\ one_line raw = true
    /\ signature_base c (sp_covered p) raw = Ok payload).

(** C31: with agent keys configured, a handler under [/api/v1] runs only for a request that
    the holder of a listed key signed: the signed message has the method, the path, the
    query and every agent and idempotency header of this request, and the body matches a
    digest that was signed. *)
Theorem handler_sees_signed_request ring r now kid :
  http_request r -> starts_with SIGNED_PATH_PREFIX (rq_path r) = true ->
  verify_request_signature (Some ring) r now = Passed kid ->
  exists k key c0 raw, kid = Some k /\ (k, key) ∈ ring /\ signed_message signed key c0 raw
    /\ c0 !! "@method" = Some (str_trim (rq_method r))
    /\ c0 !! "@path" = Some (str_trim (rq_path r))
    /\ (forall q, rq_query r = Some q -> c0 !! "@query" = Some (str_trim ("?" +:+ q)))
    /\ (forall name v, name ∈ COVER_WHEN_PRESENT -> header (rq_headers r) name = Some v ->
          c0 !! name = Some (str_trim v))
    /\ (rq_body r <> "" -> exists d, header (rq_headers r) CONTENT_DIGEST_HEADER = Some d
          /\ verify_content_digest d (rq_body r) = Ok tt
          /\ c0 !! CONTENT_DIGEST_HEADER = Some (str_trim d)).
Proof.
  intros Hr Hpath. pose proof (hr_headers _ Hr) as Hh. unfold verify_request_signature.
  rewrite Hpath. cbn [negb]. destruct (_ <? _)%Z; [done|].
  destruct (verified ring r now) as [k|e] eqn:Hv; [|done]. intros [= <-]. revert Hv.
  unfold verified. destruct (header _ SIGNATURE_INPUT_HEADER) as [input|] eqn:Hin; [|done].
  destruct (header _ SIGNATURE_HEADER) as [sig|]; [|done].
  destruct (if str_is_empty (rq_body r) then Ok tt else _) as [u|] eqn:Hdig; [|done]. intros Hv.
  destruct (authentic_message signed unforgeable signs_messages _ _ _ _ _ _ _
    (request_one_line r Hr) (header_one_line _ _ _ Hin) Hv) as (key & c0 & raw & Hkey & Hsig & Hreq).
  rewrite Forall_forall in Hreq.
  assert (forall n v, n ∈ required_components r -> request_components r !! n = Some v ->
    c0 !! n = Some v) as Hc0 by (intros n v Hn <-; by apply Hreq).
  exists k, key, c0, raw. split_and!; [done..| | | | |].
  - apply Hc0; [|by apply component_method]. by left.
  - apply Hc0; [|by apply component_path]. by do 2 right; left.
  - intros q Hq. apply Hc0; [|by apply component_query]. unfold required_components. rewrite Hq.
    by do 3 right; left.
  - intros name v Hn Hv'. assert (starts_with "@" name = false) as Hat.
    { clear -Hn. unfold COVER_WHEN_PRESENT in Hn. set_unfold in Hn. naive_solver. }
    apply Hc0; [|by rewrite component_header, Hv'].
    unfold required_components. rewrite !elem_of_app. do 3 right. apply list_elem_of_In, filter_In.
    rewrite component_header, Hv' by done. split; [by apply list_elem_of_In|done].
  - intros Hb. destruct (str_is_empty (rq_body r)) eqn:He; [by apply str_is_empty_spec in He|].
    destruct (header _ CONTENT_DIGEST_HEADER) as [d|] eqn:Hd; [|done].
    exists d. split_and!; [done|by destruct u|]. apply Hc0.
    + unfold required_components. rewrite He, !elem_of_app. do 2 right. left. by left.
    + by rewrite component_header, Hd.
Qed.
End inbound.

(** ** Outbound: what an agent can check *)

Section outbound.
Context {crypto : Crypto} {laws : CryptoLaws crypto}.

(** The components an agent reads off a response. *)
Definition response_view (p : HttpResponse) : MessageComponents :=
  add_header_components (rp_headers p) (mc_insert "@status" (rp_status p) ∅).

Lemma signature_base_ext c c' covered params :
  Forall (fun n => c !! n = c' !! n) covered ->
  signature_base c covered params = signature_base c' covered params.
Proof.
  induction 1 as [|n rest Hn _ IH]; cbn; [done|]. rewrite Hn, IH. done.
Qed.

Lemma sign_message_ext ring c c' covered created :
  Forall (fun n => c !! n = c' !! n) covered ->
  sign_message ring c covered created = sign_message ring c' covered created.
Proof.
  intros He. unfold sign_message, sign_message_with_params.
  by rewrite (signature_base_ext c c') by done.
Qed.

Lemma to_str_header_value v w :
  header_value v = Some w -> v = w.
Proof. unfold header_value. case_match; by intros [= <-]. Qed.

Lemma http_headers_insert name v headers :
  field_name name -> http_headers headers -> http_headers (header_insert name v headers).
Proof.
  intros Hn Hh. unfold header_insert, http_headers. apply Forall_app. split; [|by apply Forall_singleton].
  apply Forall_forall. intros kv [Hin _]%list_elem_of_In%filter_In.
  unfold http_headers in Hh. rewrite Forall_forall in Hh. by apply Hh, list_elem_of_In.
Qed.

(** A header an agent can read holds what was put there. *)
Lemma header_inserted name v headers w :
  header (header_insert name v headers) name = Some w -> to_str v = Some v /\ w = str_trim v.
Proof.
  destruct (to_str v) as [u|] eqn:Hv.
  - assert (u = v) as -> by (revert Hv; unfold to_str; case_match; by intros [= <-]).
    rewrite header_insert_eq by done. by intros [= <-].
  - by rewrite header_insert_unreadable.
Qed.

Lemma digest_text b : str_forall graphic (content_digest b) = true.
Proof.
  unfold content_digest. rewrite !str_forall_app, standard_graphic. done.
Qed.

Lemma digest_value b : header_value (content_digest b) = Some (content_digest b).
Proof.
  unfold header_value. rewrite (str_forall_impl graphic); [done| |apply digest_text].
  intros a. unfold graphic. lia.
Qed.

Lemma digest_readable b : to_str (content_digest b) = Some (content_digest b).
Proof.
  unfold to_str. rewrite (str_forall_impl graphic); [done| |apply digest_text].
  intros a. unfold graphic. lia.
Qed.

Lemma digest_trim b : str_trim (content_digest b) = content_digest b.
Proof. apply str_trim_graphic, graphic_ends_forall, digest_text. Qed.

(** What the two signature headers leave of the others. *)
Definition with_signature (i g : string) (headers : HeaderMap) : HeaderMap :=
  header_insert SIGNATURE_HEADER g (header_insert SIGNATURE_INPUT_HEADER i headers).

Lemma with_signature_other i g headers n :
  n <> SIGNATURE_HEADER -> n <> SIGNATURE_INPUT_HEADER ->
  header (with_signature i g headers) n = header headers n.
Proof. intros H1 H2. unfold with_signature. by rewrite !header_insert_ne. Qed.

Ltac signed_value :=
  unfold mc_insert; cbn; rewrite ?digest_trim;
  repeat first [rewrite lookup_insert_eq; reflexivity | rewrite lookup_insert_ne by discriminate].

(** The agent computes the components that were signed. *)
Lemma response_view_covered p i g c covered headers :
  http_headers (rp_headers p) -> response_components p = (c, covered, headers) ->
  http_headers headers
  /\ Forall (fun n => c !! n
       = response_view (MkResponse (rp_status p) (with_signature i g headers) (rp_body p)) !! n)
       covered
  /\ Forall (fun n => str_forall name_char n = true) covered
  /\ Forall (fun n => n ∈ covered)
       (if str_is_empty (rp_body p) then ["@status"] else ["@status"; CONTENT_DIGEST_HEADER])
  /\ (rp_body p <> "" -> header headers CONTENT_DIGEST_HEADER = Some (content_digest (rp_body p)))
  /\ (header (rp_headers p) SIGNATURE_INPUT_HEADER = None ->
      header headers SIGNATURE_INPUT_HEADER = None).
Proof.
  intros Hh. assert (forall hs n, http_headers hs -> response_view (MkResponse (rp_status p)
      (with_signature i g hs) (rp_body p)) !! n
    = match header (with_signature i g hs) n with
      | Some v => Some (str_trim v) | None => mc_insert "@status" (rp_status p) ∅ !! n end) as Hview.
  { intros hs n Hhs. apply header_components. by repeat apply http_headers_insert. }
  unfold response_components. destruct (str_is_empty (rp_body p)) eqn:Hb.
  - intros [= <- <- <-]. split_and!; [done| | | |by apply str_is_empty_spec in Hb|done].
    + apply Forall_singleton. rewrite Hview, with_signature_other, header_derived by done. done.
    + by apply Forall_singleton.
    + apply Forall_singleton. by left.
  - rewrite digest_value. set (hs := header_insert _ _ _).
    assert (http_headers hs) as Hhs by by apply http_headers_insert.
    assert (header hs CONTENT_DIGEST_HEADER = Some (content_digest (rp_body p))) as Hcd.
    { unfold hs. by rewrite header_insert_eq, digest_trim by apply digest_readable. }
    assert (header (rp_headers p) SIGNATURE_INPUT_HEADER = None -> header hs SIGNATURE_INPUT_HEADER = None)
      as Hsi by (unfold hs; by rewrite header_insert_ne).
    assert (response_view (MkResponse (rp_status p) (with_signature i g hs) (rp_body p)) !! "@status"
      = Some (str_trim (rp_status p))) as Hst
      by (rewrite Hview, with_signature_other, header_derived by done; done).
    assert (response_view (MkResponse (rp_status p) (with_signature i g hs) (rp_body p))
      !! CONTENT_DIGEST_HEADER = Some (content_digest (rp_body p))) as Hcv
      by (by rewrite Hview, with_signature_other, Hcd, digest_trim by done).
    destruct (header hs "content-type") as [t|] eqn:Ht; intros [= <- <- <-].
    + assert (response_view (MkResponse (rp_status p) (with_signature i g hs) (rp_body p))
        !! "content-type" = Some (str_trim t)) as Htv
        by (by rewrite Hview, with_signature_other, Ht by done).
      split_and!; try done.
      * rewrite !Forall_cons, Hst, Hcv, Htv. split_and!; [..|constructor]; signed_value.
      * by rewrite !Forall_cons.
      * rewrite !Forall_cons. set_solver.
    + split_and!; try done.
      * rewrite !Forall_cons, Hst, Hcv. split_and!; [..|constructor]; signed_value.
      * by rewrite !Forall_cons.
      * rewrite !Forall_cons. set_solver.
Qed.

Lemma signed_texts ring c covered now s :
  Forall (fun n => str_forall name_char n = true) covered -> kid_ok (active_kid ring) ->
  sign_message ring c covered now = Ok s ->
  str_trim (sm_input s) = sm_input s /\ str_trim (sm_signature s) = sm_signature s.
Proof.
  unfold sign_message, sign_message_with_params. intros Hc Hk.
  destruct (signature_base _ _ _) as [base|]; [|done]. intros [= <-]. cbn [sm_input sm_signature].
  split; apply str_trim_graphic, graphic_ends_app; try done.
  - destruct (params_member covered now (active_kid ring) None Hc Hk) as [_ Hg Hne].
    by apply graphic_ends_app.
  - destruct (signature_member (key_sign (key_private (ring_active ring)) base)) as [_ Hg _].
    change ("=:" +:+ ?x) with ("=" +:+ ":" +:+ x). by apply graphic_ends_app.
Qed.

Lemma response_checks ring p q now now' agent input sig :
  http_headers (rp_headers p) -> header (rp_headers p) SIGNATURE_INPUT_HEADER = None ->
  kid_ok (active_kid ring) -> in_i64 now ->
  (Z.abs (now' - now) <= MAX_SIGNATURE_SKEW_SECONDS)%Z ->
  find_first (fun kv => String.eqb (fst kv) (active_kid ring)) agent
    = Some (active_kid ring, key_public (key_private (ring_active ring))) ->
  sign_response (Some ring) p now = Sent q ->
  header (rp_headers q) SIGNATURE_INPUT_HEADER = Some input ->
  header (rp_headers q) SIGNATURE_HEADER = Some sig ->
  verify_message agent (response_view q) input sig
    (if str_is_empty (rp_body q) then ["@status"] else ["@status"; CONTENT_DIGEST_HEADER]) now'
    = Ok (active_kid ring)
  /\ rp_status q = rp_status p /\ rp_body q = rp_body p
  /\ (rp_body q <> "" -> header (rp_headers q) CONTENT_DIGEST_HEADER
       = Some (content_digest (rp_body q))).
Proof.
  intros Hh Hfresh Hk Hnow Hskew Hagent. unfold sign_response. destruct (_ <? _)%Z; [done|].
  destruct (response_components p) as [[c covered] headers] eqn:Hrc.
  set (signed := match sign_message ring c covered now with Ok _ => _ | Err _ => _ end).
  destruct signed as [[i g]|] eqn:Hs; intros [= <-]; cbn [rp_headers rp_body rp_status].
  2:{ destruct (response_view_covered p "" "" c covered headers Hh Hrc) as (_ & _ & _ & _ & _ & Hn).
      by rewrite (Hn Hfresh). }
  destruct (response_view_covered p i g c covered headers Hh Hrc)
    as (Hhs & Hcov & Hnames & Hreq & Hdig & _).
  change (header_insert SIGNATURE_HEADER g (header_insert SIGNATURE_INPUT_HEADER i headers))
    with (with_signature i g headers) in *.
  unfold signed in Hs. destruct (sign_message ring c covered now) as [s|] eqn:Hsm; [|done].
  destruct (header_value (sm_input s)) as [i'|] eqn:Hi; [|done].
  destruct (header_value (sm_signature s)) as [g'|] eqn:Hg; [|done]. injection Hs as -> ->.
  apply to_str_header_value in Hi, Hg.
  destruct (signed_texts _ _ _ _ _ Hnames Hk Hsm) as [Ht1 Ht2].
  intros Hin Hsig. unfold with_signature in Hin. rewrite header_insert_ne in Hin by done.
  apply header_inserted in Hin as [_ ->], Hsig as [_ ->]. subst i g. rewrite Ht1, Ht2.
  split_and!; [|done|done|].
  - rewrite (sign_message_ext ring c _ covered now Hcov) in Hsm.
    eapply (verify_accepts ring _ covered now None); try done. by apply fresh_created.
  - intros Hb. rewrite with_signature_other by done. by apply Hdig.
Qed.

(** *** Responses get their signature *)

Definition printable (a : ascii) : bool := ((32 <=? code a) && (code a <? 127))%Z.

Lemma printable_readable s :
  str_forall printable s = true -> header_value s = Some s /\ to_str s = Some s.
Proof.
  intros Hs. unfold header_value, to_str. split.
  all: rewrite (str_forall_impl printable); [done| |exact Hs].
  all: intros a; unfold printable; lia.
Qed.

Lemma graphic_printable a : graphic a = true -> printable a = true.
Proof. unfold graphic, printable. lia. Qed.

Lemma join_forall p sep ws :
  str_forall p sep = true -> Forall (fun w => str_forall p w = true) ws ->
  str_forall p (join sep ws) = true.
Proof.
  intros Hs. induction 1 as [|w ws Hw Hws IH]; [done|]. destruct ws as [|w' ws]; [done|].
  change (join sep (w :: w' :: ws)) with (w +:+ sep +:+ join sep (w' :: ws)).
  by rewrite !str_forall_app, Hw, Hs, IH.
Qed.

Lemma params_printable covered created kid :
  Forall (fun n => str_forall name_char n = true) covered -> str_forall printable kid = true ->
  str_forall printable (signature_params covered created kid None) = true.
Proof.
  intros Hc Hk. unfold signature_params. rewrite !str_forall_app, (str_forall_quoted _ kid) by done.
  rewrite (str_forall_impl plain printable (pretty created));
    [|intros a Ha; by apply graphic_printable, plain_graphic|apply int_plain].
  rewrite join_forall; [done|done|]. apply Forall_map. eapply Forall_impl; [exact Hc|].
  intros n Hn. apply str_forall_quoted; [done|].
  eapply str_forall_impl; [exact graphic_printable|by apply name_graphic].
Qed.

Lemma signature_base_present c covered params :
  Forall (fun n => is_Some (c !! n)) covered -> exists base, signature_base c covered params = Ok base.
Proof.
  induction 1 as [|n rest [v Hv] _ [base IH]]; cbn; [by eexists|]. rewrite Hv, IH. by eexists.
Qed.

Lemma response_components_present p c covered headers :
  response_components p = (c, covered, headers) -> Forall (fun n => is_Some (c !! n)) covered.
Proof.
  unfold response_components, mc_insert. destruct (str_is_empty (rp_body p)).
  - intros [= <- <- _]. apply Forall_singleton. rewrite lookup_insert_eq. by eexists.
  - destruct (header _ "content-type") as [t|]; intros [= <- <- _]; rewrite !Forall_cons;
      split_and!; try done; cbn;
      repeat first [rewrite lookup_insert_eq; by eexists | rewrite lookup_insert_ne by discriminate].
Qed.

Lemma response_is_signed ring p now :
  http_headers (rp_headers p) -> str_forall printable (active_kid ring) = true ->
  (Z.of_nat (String.length (rp_body p)) <= MAX_SIGNED_BODY_BYTES)%Z ->
  exists q input sig, sign_response (Some ring) p now = Sent q
    /\ header (rp_headers q) SIGNATURE_INPUT_HEADER = Some input
    /\ header (rp_headers q) SIGNATURE_HEADER = Some sig.
Proof.
  intros Hh Hk Hb. unfold sign_response.
  destruct (Z.ltb_spec MAX_SIGNED_BODY_BYTES (Z.of_nat (String.length (rp_body p)))); [lia|].
  destruct (response_components p) as [[c covered] headers] eqn:Hrc.
  destruct (response_view_covered p "" "" c covered headers Hh Hrc) as (_ & _ & Hnames & _).
  unfold sign_message, sign_message_with_params.
  destruct (signature_base_present c covered
    (signature_params covered now (active_kid ring) None)) as [base ->];
    [by eapply response_components_present|]. cbn [sm_input sm_signature].
  destruct (printable_readable (SIGNATURE_LABEL +:+ "=" +:+ signature_params covered now (active_kid ring) None))
    as [-> Hi]; [rewrite !str_forall_app; by rewrite params_printable|].
  destruct (printable_readable (SIGNATURE_LABEL +:+ "=:" +:+
    standard_encode (key_sign (key_private (ring_active ring)) base) +:+ ":")) as [-> Hg].
  { rewrite !str_forall_app, (str_forall_impl graphic printable (standard_encode _));
      [done|apply graphic_printable|apply standard_graphic]. }
  do 3 eexists. split; [reflexivity|]. cbn [rp_headers]. split.
  - rewrite header_insert_ne by done. by apply header_insert_eq.
  - by apply header_insert_eq.
Qed.

(** A response that leaves with signature headers can be checked by every agent that
    holds our key: over the components it reads off the response itself the signature is
    valid, it covers the status, and, when there is a body, the digest of that body. *)
Theorem signed_response_verifies ring p q now now' agent input sig :
  http_headers (rp_headers p) -> header (rp_headers p) SIGNATURE_INPUT_HEADER = None ->
  kid_ok (active_kid ring) -> in_i64 now ->
  (Z.abs (now' - now) <= MAX_SIGNATURE_SKEW_SECONDS)%Z ->
  find_first (fun kv => String.eqb (fst kv) (active_kid ring)) agent
    = Some (active_kid ring, key_public (key_private (ring_active ring))) ->
  sign_response (Some ring) p now = Sent q ->
  header (rp_headers q) SIGNATURE_INPUT_HEADER = Some input ->
  header (rp_headers q) SIGNATURE_HEADER = Some sig ->
  verify_message agent (response_view q) input sig
    (if str_is_empty (rp_body q) then ["@status"] else ["@status"; CONTENT_DIGEST_HEADER]) now'
    = Ok (active_kid ring)
  /\ rp_status q = rp_status p /\ rp_body q = rp_body p
  /\ (rp_body q <> "" -> header (rp_headers q) CONTENT_DIGEST_HEADER
       = Some (content_digest (rp_body q))).
Proof. exact (response_checks ring p q now now' agent input sig). Qed.
End outbound.

(** ** Witnesses *)

(** The one message the agent signed: a cancellation. *)
Definition agent_raw : string :=
  signature_params ["@method"; "@authority"; "@path"; "idempotency-key"] 1000 "k1" None.

Definition agent_components : MessageComponents :=
  {[ "@method" := "POST"; "@authority" := "shop"; "@path" := "/api/v1/ucp/carts/cart_1/cancel";
     "idempotency-key" := "i1" ]}.

Definition agent_base : string :=
  match signature_base agent_components ["@method"; "@authority"; "@path"; "idempotency-key"]
          agent_raw with
  | Ok base => base | Err _ => "" end.

Abbreviation agent_crypto := (toy_crypto (String.eqb agent_base)).

Definition agent_ring : list (string * @PublicKey agent_crypto) := [("k1", @PubEd25519 agent_crypto tt)].

Definition agent_request : HttpRequest :=
  MkRequest "POST" "/api/v1/ucp/carts/cart_1/cancel" None None
    [("host", "Shop"); ("idempotency-key", "i1"); ("signature-input", "sig1=" +:+ agent_raw);
     ("signature", "sig1=:" +:+ bits_encode (zeros 64) +:+ ":")] "".

Lemma handler_sees_signed_request_witness :
  verify_request_signature (crypto := agent_crypto) (Some agent_ring) agent_request 1010
    = Passed (Some "k1")
  /\ exists key c0 raw, signed_message (crypto := agent_crypto) (fun _ p => p = agent_base) key c0 raw
       /\ c0 !! "@path" = Some "/api/v1/ucp/carts/cart_1/cancel"
       /\ c0 !! "idempotency-key" = Some "i1".
Proof.
  assert (verify_request_signature (crypto := agent_crypto) (Some agent_ring) agent_request 1010
    = Passed (Some "k1")) as H by (vm_compute; reflexivity).
  split; [exact H|].
  destruct (@handler_sees_signed_request agent_crypto (fun _ p => p = agent_base)) with
    (ring := agent_ring) (r := agent_request) (now := 1010%Z) (kid := Some "k1")
    as (k & key & c0 & raw & _ & _ & Hs & _ & Hp & _ & Hi & _).
  - intros [[]|[]] payload sig Hv. cbn in Hv. apply andb_true_iff in Hv as [_ Hv].
    apply String.eqb_eq in Hv. by rewrite Hv.
  - intros key payload ->. exists agent_components, agent_raw,
      (MkParams ["@method"; "@authority"; "@path"; "idempotency-key"] (Some 1000%Z) None "k1" None).
    split; [vm_compute; reflexivity|]. split; [|split; vm_compute; reflexivity].
    do 3 (apply map_Forall_insert_2; [reflexivity|]). apply map_Forall_singleton. reflexivity.
  - split; [repeat constructor|reflexivity|reflexivity|by intros q [=]|by intros a [=]].
  - vm_compute. reflexivity.
  - exact H.
  - exists key, c0, raw. split; [exact Hs|]. split; [exact Hp|].
    rewrite (Hi "idempotency-key" "i1"); [reflexivity|by do 2 right; left|vm_compute; reflexivity].
Defined.

(** A response with a body, signed with the demo key. *)
Definition demo_response : HttpResponse :=
  MkResponse "200" [("content-type", "application/json")] "{}".

Lemma signed_response_verifies_witness :
  match sign_response (Some demo_ring) demo_response 1000 with
  | Sent q =>
      match header (rp_headers q) SIGNATURE_INPUT_HEADER, header (rp_headers q) SIGNATURE_HEADER with
      | Some input, Some sig =>
          verify_message demo_agent (response_view q) input sig ["@status"; CONTENT_DIGEST_HEADER]
            1010 = Ok "k1"
      | _, _ => False
      end
  | SignFailed _ _ _ => False
  end.
Proof.
  destruct (sign_response (Some demo_ring) demo_response 1000) as [q|] eqn:H; [|by vm_compute in H].
  destruct (header (rp_headers q) SIGNATURE_INPUT_HEADER) as [input|] eqn:Hi.
  2:{ injection H as <-. by vm_compute in Hi. }
  destruct (header (rp_headers q) SIGNATURE_HEADER) as [sig|] eqn:Hs.
  2:{ injection H as <-. by vm_compute in Hs. }
  destruct (signed_response_verifies demo_ring demo_response q 1000 1010 demo_agent input sig)
    as (Hv & _ & Hb & _); try done.
  - repeat constructor.
  - by rewrite Hb in Hv.
Defined.
