(* ===== verification/JsonValue.v ===== *)
(** * JSON values ([serde_json::Value])

    Objects are lists of fields with distinct names; numbers are integers or the text of a
    float.  The methods are those the code calls. *)

From S2P Require Export Prelude.

#[local] Set Warnings "-register-all".

Inductive Value :=
| VNull
| VBool (b : bool)
| VInt (z : Z)
| VFloat (text : string)
| VString (s : string)
| VArray (xs : list Value)
| VObject (fields : list (string * Value)).

(** [get] by name, [as_str], [as_u64], [as_i64], [as_array] and [is_object]. *)
Definition field (fields : list (string * Value)) (key : string) : option Value :=
  snd <$> find_first (fun kv => String.eqb (fst kv) key) fields.

Definition vget (v : Value) (key : string) : option Value :=
  match v with VObject fields => field fields key | _ => None end.

Definition as_str (v : Value) : option string := match v with VString s => Some s | _ => None end.

Definition as_u64 (v : Value) : option Z :=
  match v with VInt z => if ((0 <=? z) && (z <=? u64_max))%Z then Some z else None | _ => None end.

Definition as_i64 (v : Value) : option Z :=
  match v with
  | VInt z => if ((i64_min <=? z) && (z <=? i64_max))%Z then Some z else None
  | _ => None
  end.

Definition as_array (v : Value) : option (list Value) :=
  match v with VArray xs => Some xs | _ => None end.

(** [Map::insert]. *)
Definition object_insert (key : string) (v : Value) (fields : list (string * Value))
  : list (string * Value) :=
  match update_first (fun kv => String.eqb (fst kv) key) (fun kv => (fst kv, v)) fields with
  | Some fields => fields
  | None => fields ++ [(key, v)]
  end.

(** [xs.iter().map(f).collect::<Result<Vec<_>, _>>()] where [f] asks for a string. *)
Fixpoint all_strings (error : string) (xs : list Value) : result (list string) string :=
  match xs with
  | [] => Ok []
  | x :: rest =>
      match as_str x with
      | None => Err error
      | Some s => match all_strings error rest with Ok ss => Ok (s :: ss) | Err e => Err e end
      end
  end.

Lemma field_insert_eq key v fields : field (object_insert key v fields) key = Some v.
Proof.
  unfold object_insert, field, find_first. destruct (update_first _ _ _) as [ys|] eqn:Hu.
  - apply update_first_Some in Hu as (l & x & r & -> & -> & Hx & Hl).
    induction Hl as [|y l Hy _ IH]; cbn; [by rewrite Hx|]. by rewrite Hy.
  - apply update_first_None in Hu. induction Hu as [|y l Hy _ IH]; cbn.
    + by rewrite String.eqb_refl.
    + by rewrite Hy.
Qed.

Lemma field_insert_ne key key' v fields :
  key <> key' -> field (object_insert key v fields) key' = field fields key'.
Proof.
  intros Hne. assert (forall x : string * Value, String.eqb (fst x) key = true ->
    String.eqb (fst x) key' = false) as Hk.
  { intros x Hx%String.eqb_eq. apply String.eqb_neq. congruence. }
  unfold object_insert, field, find_first. destruct (update_first _ _ _) as [ys|] eqn:Hu.
  - apply update_first_Some in Hu as (l & x & r & -> & -> & Hx & Hl).
    induction l as [|y l IH]; cbn; [by rewrite Hk|]. apply Forall_cons in Hl as [_ Hl].
    destruct (String.eqb (fst y) key'); [done|]. by apply IH.
  - clear Hu. apply String.eqb_neq in Hne. induction fields as [|y l IH]; cbn; [by rewrite Hne|].
    by destruct (String.eqb (fst y) key').
Qed.
