(* ===== verification/Config.v ===== *)
(** * Configuration ([crates/orchestrator-http/src/config.rs])

    The sections of the server's configuration with their defaults, the overrides from the
    environment, the conversions to the settings of the client, the breaker, the outbox
    processor and the signing rings, and the checks of production.  The environment is a
    function from names to values ([std::env::var], [None] where it fails); the file
    system, the YAML and JSON parsers and the cryptography are arguments. *)

From S2P Require Export Outbox HttpClient Signing JsonValue.
From Stdlib Require Import Ascii.

(** [as_deref().filter(|s| !s.is_empty())]. *)
Definition nonempty (v : option string) : option string :=
  match v with Some s => if str_is_empty s then None else Some s | None => None end.

(** [format!] of an error text after what was tried. *)
Definition context {A} (label : string) (r : result A string) : result A string :=
  match r with Ok x => Ok x | Err e => Err (label +:+ e) end.

Definition require_field (v : option string) (error : string) : result string string :=
  ok_or (nonempty v) error.

(** [str::parse] to [u32] and to [u64]; [usize] has 64 bits. *)
Definition parse_u32 (s : string) : option Z :=
  match parse_u64 s with
  | Some z => if (z <=? u32_max)%Z then Some z else None
  | None => None
  end.

(** ** The environment *)

Inductive EnvProfile := Development | Production.

Inductive RunMode := Serve | MigrateOnly.

Definition is_production (p : EnvProfile) : bool :=
  match p with Production => true | Development => false end.

(** [RunMode::resolve]. *)
Definition resolve_mode (args : list string) (migrate_only_env : option string) : RunMode :=
  let flagged := any (fun arg => String.eqb arg "--migrate") args in
  let env_set := is_some_and (str_trim <$> migrate_only_env)
                   (fun v => str_contains ["1"; "true"; "yes"] v) in
  if flagged || env_set then MigrateOnly else Serve.

Section environment.
Context (var : string -> option string).

Definition profile_from_env : EnvProfile :=
  match var "ENV" with
  | Some v => if str_contains ["production"; "prod"] v then Production else Development
  | None => Development
  end.

(** [RunMode::from_env]; [args] are those after the name of the program. *)
Definition mode_from_env (args : list string) : RunMode :=
  resolve_mode args (var "MIGRATE_ONLY").

(** The forms of an override: a text that is kept when the variable is blank, the same for
    an optional field, one that a blank variable clears, a number, and a list of pairs. *)
Definition env_text (v : option string) (old : string) : string :=
  match v with
  | Some v => let t := str_trim v in if str_is_empty t then old else t
  | None => old
  end.

Definition env_opt (v : option string) (old : option string) : option string :=
  match v with
  | Some v => let t := str_trim v in if str_is_empty t then old else Some t
  | None => old
  end.

Definition trim_opt (s : option string) : option string :=
  match s with
  | Some s => let t := str_trim s in if str_is_empty t then None else Some t
  | None => None
  end.

Definition env_clear (v : option string) (old : option string) : option string :=
  match v with Some v => trim_opt (Some v) | None => old end.

Definition env_number (parse : string -> option Z) (v : option string) (old : Z) : Z :=
  match v with
  | Some v => match parse (str_trim v) with Some n => n | None => old end
  | None => old
  end.

(** ** Outbound calls *)

Record CircuitBreakerSection := MkBreakerSection {
  cbs_enabled : bool;
  cbs_failure_threshold : Z;
  cbs_open_secs : Z;
  cbs_probe_timeout_secs : Z
}.

Definition default_breaker_section : CircuitBreakerSection := MkBreakerSection true 5 30 60.

(** [CircuitBreakerSection::to_config], in nanoseconds. *)
Definition breaker_to_config (s : CircuitBreakerSection) : CircuitBreakerConfig :=
  MkBreakerConfig (cbs_enabled s) (Z.max (cbs_failure_threshold s) 1)
    (cbs_open_secs s * 1000000000) (Z.max (cbs_probe_timeout_secs s) 1 * 1000000000).

Definition breaker_env_overrides (s : CircuitBreakerSection) : CircuitBreakerSection :=
  MkBreakerSection
    (match var "PROVIDER_CIRCUIT_ENABLED" with
     | Some v => str_contains ["1"; "true"; "yes"] (str_trim v)
     | None => cbs_enabled s
     end)
    (env_number parse_u32 (var "PROVIDER_CIRCUIT_FAILURE_THRESHOLD") (cbs_failure_threshold s))
    (env_number parse_u64 (var "PROVIDER_CIRCUIT_OPEN_SECS") (cbs_open_secs s))
    (env_number parse_u64 (var "PROVIDER_CIRCUIT_PROBE_TIMEOUT_SECS") (cbs_probe_timeout_secs s)).

Record HttpClientConfig := MkHttpClientConfig {
  hc_connect_timeout_secs : Z;
  hc_timeout_secs : Z;
  hc_max_retries : Z;
  hc_retry_backoff_ms : Z;
  hc_circuit_breaker : CircuitBreakerSection
}.

Definition default_http_client : HttpClientConfig :=
  MkHttpClientConfig 5 30 3 100 default_breaker_section.

(** [to_client_config]; the durations of a client are milliseconds. *)
Definition to_client_config (c : HttpClientConfig) : ClientConfig :=
  MkClientConfig (hc_connect_timeout_secs c * 1000) (hc_timeout_secs c * 1000)
    (hc_max_retries c) (hc_retry_backoff_ms c) AuthNone (MkTls None None) None.

(** ** Credentials of the providers *)

Inductive Provider :=
| PCatalog | PPricing | PTax | PGeo | PPayment | PReceipt | PFulfillment
| PPaymentDelegation | PIdentityLink.

#[export] Instance Provider_eq_dec : EqDecision Provider.
Proof. solve_decision. Defined.

(** [Provider::ALL]. *)
Definition all_providers : list Provider :=
  [PCatalog; PPricing; PTax; PGeo; PPayment; PReceipt; PFulfillment; PPaymentDelegation;
   PIdentityLink].

Definition env_prefix (p : Provider) : string :=
  match p with
  | PCatalog => "CATALOG" | PPricing => "PRICING" | PTax => "TAX" | PGeo => "GEO"
  | PPayment => "PAYMENT" | PReceipt => "RECEIPT" | PFulfillment => "FULFILLMENT"
  | PPaymentDelegation => "PAYMENT_DELEGATION" | PIdentityLink => "IDENTITY_LINK"
  end.

Definition label (p : Provider) : string :=
  match p with
  | PCatalog => "catalog" | PPricing => "pricing" | PTax => "tax" | PGeo => "geo"
  | PPayment => "payment" | PReceipt => "receipt" | PFulfillment => "fulfillment"
  | PPaymentDelegation => "payment_delegation" | PIdentityLink => "identity_link"
  end.

Record ProviderAuthConfig := MkProviderAuth {
  pa_mode : option string;
  pa_token : option string;
  pa_header : option string;
  pa_value : option string;
  pa_oauth_token_url : option string;
  pa_oauth_client_id : option string;
  pa_oauth_client_secret : option string;
  pa_oauth_scope : option string;
  pa_oauth_client_auth : option string;
  pa_tls_client_cert_path : option string;
  pa_tls_ca_path : option string
}.

Definition no_auth : ProviderAuthConfig :=
  MkProviderAuth None None None None None None None None None None None.

Definition DEFAULT_API_KEY_HEADER : string := "X-API-Key".

(** [ProviderAuthConfig::is_empty]. *)
Definition auth_is_empty (c : ProviderAuthConfig) : bool :=
  negb (is_some (pa_mode c)) && negb (is_some (pa_token c)) && negb (is_some (pa_header c))
  && negb (is_some (pa_value c)) && negb (is_some (pa_oauth_token_url c))
  && negb (is_some (pa_oauth_client_id c)) && negb (is_some (pa_oauth_client_secret c))
  && negb (is_some (pa_oauth_scope c)) && negb (is_some (pa_oauth_client_auth c))
  && negb (is_some (pa_tls_client_cert_path c)) && negb (is_some (pa_tls_ca_path c)).

Definition mode_str (c : ProviderAuthConfig) : string :=
  to_ascii_lowercase (str_trim (unwrap_or (pa_mode c) "none")).

(** [ProviderAuthConfig::required]. *)
Definition required (c : ProviderAuthConfig) (field : option string) (name : string)
  : result string string :=
  ok_or (nonempty field)
    (name +:+ " required for provider auth mode '" +:+ mode_str c +:+ "'").

Definition to_outbound_auth (c : ProviderAuthConfig) : result OutboundAuth string :=
  let mode := mode_str c in
  if str_contains ["none"; ""] mode then Ok AuthNone
  else if String.eqb mode "bearer" then
    let? token := required c (pa_token c) "token" in
    Ok (Bearer token)
  else if str_contains ["api_key"; "apikey"] mode then
    let name := unwrap_or (nonempty (pa_header c)) DEFAULT_API_KEY_HEADER in
    let? value := required c (pa_value c) "value" in
    Ok (ApiKey name value)
  else if str_contains ["oauth2"; "oauth"] mode then
    let? token_url := required c (pa_oauth_token_url c) "oauth_token_url" in
    let? client_id := required c (pa_oauth_client_id c) "oauth_client_id" in
    let? client_secret := required c (pa_oauth_client_secret c) "oauth_client_secret" in
    let? client_auth := match nonempty (pa_oauth_client_auth c) with
                        | Some v => parse_client_auth v
                        | None => Ok Basic
                        end in
    Ok (OAuth2 (MkOAuth2 token_url client_id client_secret (nonempty (pa_oauth_scope c))
                  client_auth))
  else Err ("unsupported provider auth mode '" +:+ mode
            +:+ "' (expected none, bearer, api_key, or oauth2)").

Definition option_read (read : string -> result string string) (path : option string)
    (label : string) : result (option string) string :=
  match nonempty path with
  | None => Ok None
  | Some p => match read p with
              | Ok pem => Ok (Some pem)
              | Err e => Err ("read " +:+ label +:+ " from " +:+ p +:+ ": " +:+ e)
              end
  end.

(** [to_tls_config]; [read] is [std::fs::read]. *)
Definition to_tls_config (read : string -> result string string) (c : ProviderAuthConfig)
  : result TlsConfig string :=
  let? identity := option_read read (pa_tls_client_cert_path c) "TLS client certificate" in
  let? ca := option_read read (pa_tls_ca_path c) "TLS CA bundle" in
  Ok (MkTls identity ca).

(** [ProviderAuthConfig::apply_env_overrides]. *)
Definition auth_env_overrides (prefix : string) (c : ProviderAuthConfig) : ProviderAuthConfig :=
  let over suffix := env_opt (var (prefix +:+ "_" +:+ suffix)) in
  MkProviderAuth
    (over "AUTH_MODE" (pa_mode c)) (over "AUTH_TOKEN" (pa_token c))
    (over "AUTH_HEADER" (pa_header c)) (over "AUTH_VALUE" (pa_value c))
    (over "OAUTH_TOKEN_URL" (pa_oauth_token_url c)) (over "OAUTH_CLIENT_ID" (pa_oauth_client_id c))
    (over "OAUTH_CLIENT_SECRET" (pa_oauth_client_secret c)) (over "OAUTH_SCOPE" (pa_oauth_scope c))
    (over "OAUTH_CLIENT_AUTH" (pa_oauth_client_auth c))
    (over "TLS_CLIENT_CERT_PATH" (pa_tls_client_cert_path c))
    (over "TLS_CA_PATH" (pa_tls_ca_path c)).

Record ProviderAuthSection := MkAuthSections {
  ps_default : ProviderAuthConfig;
  ps_catalog : ProviderAuthConfig;
  ps_pricing : ProviderAuthConfig;
  ps_tax : ProviderAuthConfig;
  ps_geo : ProviderAuthConfig;
  ps_payment : ProviderAuthConfig;
  ps_receipt : ProviderAuthConfig;
  ps_fulfillment : ProviderAuthConfig;
  ps_payment_delegation : ProviderAuthConfig;
  ps_identity_link : ProviderAuthConfig
}.

Definition no_provider_auth : ProviderAuthSection :=
  MkAuthSections no_auth no_auth no_auth no_auth no_auth no_auth no_auth no_auth no_auth no_auth.

Definition own_section (s : ProviderAuthSection) (p : Provider) : ProviderAuthConfig :=
  match p with
  | PCatalog => ps_catalog s | PPricing => ps_pricing s | PTax => ps_tax s
  | PGeo => ps_geo s | PPayment => ps_payment s | PReceipt => ps_receipt s
  | PFulfillment => ps_fulfillment s | PPaymentDelegation => ps_payment_delegation s
  | PIdentityLink => ps_identity_link s
  end.

(** [for_provider]: its own section when it sets anything, otherwise the default. *)
Definition for_provider (s : ProviderAuthSection) (p : Provider) : ProviderAuthConfig :=
  if auth_is_empty (own_section s p) then ps_default s else own_section s p.

Definition provider_auth_env_overrides (s : ProviderAuthSection) : ProviderAuthSection :=
  let over p := auth_env_overrides (env_prefix p) (own_section s p) in
  MkAuthSections (auth_env_overrides "PROVIDER" (ps_default s))
    (over PCatalog) (over PPricing) (over PTax) (over PGeo) (over PPayment) (over PReceipt)
    (over PFulfillment) (over PPaymentDelegation) (over PIdentityLink).

(** [to_client_config_with_auth]. *)
Definition to_client_config_with_auth (read : string -> result string string)
    (c : HttpClientConfig) (p : Provider) (auth : ProviderAuthConfig)
  : result ClientConfig string :=
  let? credentials := to_outbound_auth auth in
  let? tls := to_tls_config read auth in
  Ok (MkClientConfig (hc_connect_timeout_secs c * 1000) (hc_timeout_secs c * 1000)
        (hc_max_retries c) (hc_retry_backoff_ms c) credentials tls
        (Some (label p, breaker_to_config (hc_circuit_breaker c)))).

(** ** Component URLs *)

Record ComponentsConfig := MkComponents {
  co_catalog : option string;
  co_pricing : option string;
  co_tax : option string;
  co_geo : option string;
  co_payment : option string;
  co_receipt : option string;
  co_fulfillment : option string;
  co_payment_delegation : option string;
  co_identity_link : option string
}.

Definition components_env_overrides (c : ComponentsConfig) : ComponentsConfig :=
  let over key := env_clear (var key) in
  MkComponents
    (over "CATALOG_BASE_URL" (co_catalog c)) (over "PRICING_BASE_URL" (co_pricing c))
    (over "TAX_BASE_URL" (co_tax c)) (over "GEO_BASE_URL" (co_geo c))
    (over "PAYMENT_BASE_URL" (co_payment c)) (over "RECEIPT_BASE_URL" (co_receipt c))
    (over "FULFILLMENT_BASE_URL" (co_fulfillment c))
    (over "PAYMENT_DELEGATION_BASE_URL" (co_payment_delegation c))
    (over "IDENTITY_LINK_BASE_URL" (co_identity_link c)).

Record ResolvedComponents := MkResolved {
  rc_catalog : string;
  rc_pricing : string;
  rc_tax : string;
  rc_geo : string;
  rc_payment : string;
  rc_receipt : string;
  rc_fulfillment : option string;
  rc_payment_delegation : option string;
  rc_identity_link : option string
}.

Definition require_url (url : option string) (variable name : string) : result string string :=
  require_field url (variable +:+ " (or components." +:+ name +:+ ") required").

(** [ComponentsConfig::require_all]. *)
Definition require_all (c : ComponentsConfig) : result ResolvedComponents string :=
  let? catalog := require_url (co_catalog c) "CATALOG_BASE_URL" "catalog_base_url" in
  let? pricing := require_url (co_pricing c) "PRICING_BASE_URL" "pricing_base_url" in
  let? tax := require_url (co_tax c) "TAX_BASE_URL" "tax_base_url" in
  let? geo := require_url (co_geo c) "GEO_BASE_URL" "geo_base_url" in
  let? payment := require_url (co_payment c) "PAYMENT_BASE_URL" "payment_base_url" in
  let? receipt := require_url (co_receipt c) "RECEIPT_BASE_URL" "receipt_base_url" in
  Ok (MkResolved catalog pricing tax geo payment receipt (nonempty (co_fulfillment c))
        (nonempty (co_payment_delegation c)) (nonempty (co_identity_link c))).

(** ** Signing material *)

Record SigningSection := MkSigningSection {
  sg_key_id : option string;
  sg_key : option string;
  sg_key_algorithm : option string;
  sg_previous_keys : list string;
  sg_agent_keys : list string;
  sg_agent_jwks : option string
}.

(** [split_pairs]. *)
Definition split_pairs (value : string) : list string :=
  retain (fun pair => negb (str_is_empty pair)) (map str_trim (Strings.split "," value)).

Definition env_pairs (v : option string) (old : list string) : list string :=
  match v with
  | Some v => let t := str_trim v in if str_is_empty t then old else split_pairs t
  | None => old
  end.

Definition signing_env_overrides (s : SigningSection) : SigningSection :=
  MkSigningSection
    (env_opt (var "UCP_SIGNING_KEY_ID") (sg_key_id s))
    (env_opt (var "UCP_SIGNING_KEY") (sg_key s))
    (env_opt (var "UCP_SIGNING_KEY_ALG") (sg_key_algorithm s))
    (env_pairs (var "UCP_SIGNING_PREVIOUS_KEYS") (sg_previous_keys s))
    (env_pairs (var "UCP_AGENT_KEYS") (sg_agent_keys s))
    (env_opt (var "UCP_AGENT_JWKS") (sg_agent_jwks s)).

(** [Display for SigningKeyError]. *)
Definition signing_key_error_text (e : SigningKeyError) : string :=
  match e with
  | MissingKid => "signing key id must not be empty"
  | InvalidKeyMaterial kid reason => "signing key '" +:+ kid +:+ "' is not usable: " +:+ reason
  | DuplicateKid kid => "signing key id '" +:+ kid +:+ "' is used more than once"
  | UnknownKid kid => "unknown signing key id '" +:+ kid +:+ "'"
  | UnsupportedAlgorithm name =>
      "unsupported signing algorithm '" +:+ name +:+ "'; expected EdDSA or ES256"
  | InvalidJwks reason => "JWK Set is not valid: " +:+ reason
  | MalformedSignature => "signature is not valid base64"
  | KeyVerificationFailed => "signature verification failed"
  end.

(** [parse_previous_key]. *)
Definition parse_previous_key (entry : string) : result KeySpec string :=
  let? '(kid, rest) := ok_or (split_once ":" entry)
    ("previous signing key '" +:+ entry +:+ "' must be 'kid:seed' or 'kid:ALG:secret'") in
  let? '(algorithm, secret) :=
    match split_once ":" rest with
    | Some (alg, secret) =>
        let? a := map_err signing_key_error_text (parse_algorithm alg) in
        Ok (a, secret)
    | None => Ok (EdDsa, rest)
    end in
  Ok (MkKeySpec (str_trim kid) algorithm (str_trim secret)).

(** One [kid:public_key] pair of [to_verifying_keyring]. *)
Definition parse_agent_key (pair : string) : result (string * string) string :=
  match split_once ":" pair with
  | Some (kid, key) => Ok (str_trim kid, str_trim key)
  | None => Err ("agent signing key '" +:+ pair +:+ "' must be in 'kid:public_key' form")
  end.

Section keyrings.
Context {crypto : Crypto}.

(** [SigningSection::to_keyring]. *)
Definition to_keyring (s : SigningSection) : result (option SigningKeyring) string :=
  match nonempty (sg_key_id s), nonempty (sg_key s) with
  | None, None => Ok None
  | Some _, None => Err "UCP_SIGNING_KEY is required when UCP_SIGNING_KEY_ID is set"
  | None, Some _ => Err "UCP_SIGNING_KEY_ID is required when UCP_SIGNING_KEY is set"
  | Some key_id, Some key =>
      let? algorithm := match nonempty (sg_key_algorithm s) with
                        | Some name => map_err signing_key_error_text (parse_algorithm name)
                        | None => Ok EdDsa
                        end in
      let? previous := collect parse_previous_key (sg_previous_keys s) in
      let? ring := map_err signing_key_error_text
                     (from_specs (MkKeySpec key_id algorithm key) previous) in
      Ok (Some ring)
  end.

(** [SigningSection::to_verifying_keyring]; [jwks] is [VerifyingKeyring::from_jwks]. *)
Definition to_verifying_keyring
    (jwks : string -> result (list (string * PublicKey)) SigningKeyError) (s : SigningSection)
  : result (option (list (string * PublicKey))) string :=
  let json := match sg_agent_jwks s with
              | Some j => if str_is_empty (str_trim j) then None else Some j
              | None => None
              end in
  match sg_agent_keys s, json with
  | [], None => Ok None
  | _, _ =>
      let? parsed := collect parse_agent_key (sg_agent_keys s) in
      let? pairs := map_err signing_key_error_text (from_public_keys parsed) in
      match json with
      | None => Ok (Some pairs)
      | Some json =>
          let? agents := map_err (fun e => "UCP_AGENT_JWKS: " +:+ signing_key_error_text e)
                           (jwks json) in
          let? ring := map_err signing_key_error_text (Signing.merge pairs agents) in
          Ok (Some ring)
      end
  end.
End keyrings.

(** ** The outbox processor *)

Record OutboxSection := MkOutboxSection {
  os_interval_ms : Z;
  os_batch_size : Z;
  os_max_attempts : Z;
  os_drain_timeout_secs : Z;
  os_retry_backoff_ms : Z;
  os_max_retry_backoff_secs : Z
}.

Definition default_outbox_section : OutboxSection := MkOutboxSection 500 32 5 10 500 30.

(** [to_processor_config], in nanoseconds. *)
Definition to_processor_config (s : OutboxSection) : OutboxProcessorConfig :=
  MkOutboxConfig (os_interval_ms s * 1000000) (Z.to_nat (Z.max (os_batch_size s) 1))
    (Z.max (os_max_attempts s) 1) (os_drain_timeout_secs s * 1000000000)
    (Z.max (os_retry_backoff_ms s) 1 * 1000000)
    (Z.max (os_max_retry_backoff_secs s) 1 * 1000000000).

Definition outbox_env_overrides (s : OutboxSection) : OutboxSection :=
  MkOutboxSection
    (env_number parse_u64 (var "OUTBOX_INTERVAL_MS") (os_interval_ms s))
    (env_number parse_u64 (var "OUTBOX_BATCH_SIZE") (os_batch_size s))
    (env_number parse_u32 (var "OUTBOX_MAX_ATTEMPTS") (os_max_attempts s))
    (env_number parse_u64 (var "OUTBOX_DRAIN_TIMEOUT_SECS") (os_drain_timeout_secs s))
    (env_number parse_u64 (var "OUTBOX_RETRY_BACKOFF_MS") (os_retry_backoff_ms s))
    (env_number parse_u64 (var "OUTBOX_MAX_RETRY_BACKOFF_SECS") (os_max_retry_backoff_secs s)).

(** ** The server section *)

Record ServerSection := MkServerSection {
  sv_bind_addr : string;
  sv_log_level : string;
  sv_public_base_url : option string;
  sv_embedded_checkout_url : option string;
  sv_ucp_payment_handlers : option string
}.

(** [ServerSection::default], which is derived: the texts are empty.  The defaults of the
    two texts apply only when a file has a [server] section that leaves them out. *)
Definition default_server : ServerSection := MkServerSection "" "" None None None.
Definition default_bind_addr : string := "0.0.0.0:8080".
Definition default_log_level : string := "info".

Definition ascii_lowercase (a : ascii) : bool := ((97 <=? code a) && (code a <=? 122))%Z.

(** One segment of [is_reverse_domain_name]; the tests are on ASCII characters, which no
    byte of another character passes. *)
Definition segment_ok (first : bool) (segment : string) : bool :=
  match segment with
  | EmptyString => false
  | String a _ => ascii_lowercase a || (negb first && digit a)
  end
  && negb (match String.rev segment with String a _ => Ascii.eqb a "-" | EmptyString => false end)
  && str_forall (fun c => ascii_lowercase c || digit c || Ascii.eqb c "-"
                          || (negb first && Ascii.eqb c "_")) segment.

Definition is_reverse_domain_name (name : string) : bool :=
  match Strings.split "." name with
  | first :: second :: rest =>
      segment_ok true first && forallb (segment_ok false) (second :: rest)
  | _ => false
  end.

Definition is_dated_version (version : string) : bool :=
  match version with
  | String a (String b (String c (String d (String e (String f (String g (String h
      (String i (String j EmptyString))))))))) =>
      forallb digit [a; b; c; d] && Ascii.eqb e "-" && forallb digit [f; g]
      && Ascii.eqb h "-" && forallb digit [i; j]
  | _ => false
  end.

Definition handlers_error (reason : string) : string := "UCP_PAYMENT_HANDLERS: " +:+ reason.

(** An entry of a handler. *)
Definition check_entry (name : string) (entry : Value) : result unit string :=
  match vget entry "id" with
  | Some (VString _) =>
      if is_some_and (match vget entry "version" with Some v => as_str v | None => None end)
           is_dated_version
      then Ok tt
      else Err (handlers_error ("every '" +:+ name +:+ "' entry needs a YYYY-MM-DD version"))
  | _ => Err (handlers_error ("every '" +:+ name +:+ "' entry needs an id"))
  end.

Fixpoint check_all {A} (f : A -> result unit string) (xs : list A) : result unit string :=
  match xs with
  | [] => Ok tt
  | x :: rest => let? _ := f x in check_all f rest
  end.

Definition check_handler (handler : string * Value) : result unit string :=
  let (name, entries) := handler in
  if negb (is_reverse_domain_name name) then
    Err (handlers_error ("handler name '" +:+ name
                         +:+ "' must be reverse-DNS, e.g. com.example.tokenizer"))
  else
    match as_array entries with
    | None => Err (handlers_error ("'" +:+ name +:+ "' must map to an array of entries"))
    | Some entries => check_all (check_entry name) entries
    end.

(** [ServerSection::payment_handlers]; [parse] is [serde_json::from_str]. *)
Definition payment_handlers (parse : string -> result Value string) (s : ServerSection)
  : result Value string :=
  let raw := match sv_ucp_payment_handlers s with
             | Some raw => if str_is_empty (str_trim raw) then None else Some raw
             | None => None
             end in
  match raw with
  | None => Ok (VObject [])
  | Some raw =>
      let? value := map_err handlers_error (parse raw) in
      match value with
      | VObject registry => let? _ := check_all check_handler registry in Ok value
      | _ => Err (handlers_error "must be an object keyed by handler name")
      end
  end.

(** ** The configuration *)

Record AuthSection := MkAuthSection {
  au_mode : option string;
  au_bearer_token : option string;
  au_jwt_hs256_secret : option string;
  au_trusted_issuers : option string;
  au_tenant_id : option string;
  au_caller_id : option string
}.

Record PersistenceSection := MkPersistence {
  pe_path : option string; pe_database_url : option string }.

Record ServerConfig := MkServerConfig {
  sc_server : ServerSection;
  sc_auth : AuthSection;
  sc_persistence : PersistenceSection;
  sc_components : ComponentsConfig;
  sc_http_client : HttpClientConfig;
  sc_provider_auth : ProviderAuthSection;
  sc_outbox : OutboxSection;
  sc_signing : SigningSection
}.

(** [ServerConfig::default]. *)
Definition default_config : ServerConfig :=
  MkServerConfig default_server (MkAuthSection None None None None None None)
    (MkPersistence None None) (MkComponents None None None None None None None None None)
    default_http_client no_provider_auth default_outbox_section
    (MkSigningSection None None None [] [] None).

Definition server_env_overrides (s : ServerSection) : ServerSection :=
  MkServerSection
    (env_text (var "BIND_ADDR") (sv_bind_addr s))
    (env_text (var "RUST_LOG") (sv_log_level s))
    (env_opt (var "PUBLIC_BASE_URL") (sv_public_base_url s))
    (env_clear (var "EMBEDDED_CHECKOUT_URL") (sv_embedded_checkout_url s))
    (env_clear (var "UCP_PAYMENT_HANDLERS") (sv_ucp_payment_handlers s)).

Definition auth_section_env_overrides (s : AuthSection) : AuthSection :=
  MkAuthSection
    (env_opt (var "AUTH_MODE") (au_mode s))
    (env_opt (var "AUTH_BEARER_TOKEN") (au_bearer_token s))
    (env_opt (var "AUTH_JWT_HS256_SECRET") (au_jwt_hs256_secret s))
    (env_opt (var "AP2_TRUSTED_ISSUERS") (au_trusted_issuers s))
    (env_opt (var "AUTH_TENANT_ID") (au_tenant_id s))
    (env_opt (var "AUTH_CALLER_ID") (au_caller_id s)).

Definition persistence_env_overrides (s : PersistenceSection) : PersistenceSection :=
  MkPersistence (env_opt (or_else (var "PERSISTENCE_PATH") (var "DATA_DIR")) (pe_path s))
    (env_opt (var "DATABASE_URL") (pe_database_url s)).

(** [ServerConfig::apply_env_overrides]. *)
Definition apply_env_overrides (c : ServerConfig) : ServerConfig :=
  MkServerConfig (server_env_overrides (sc_server c)) (auth_section_env_overrides (sc_auth c))
    (persistence_env_overrides (sc_persistence c)) (components_env_overrides (sc_components c))
    (MkHttpClientConfig (hc_connect_timeout_secs (sc_http_client c))
       (hc_timeout_secs (sc_http_client c)) (hc_max_retries (sc_http_client c))
       (hc_retry_backoff_ms (sc_http_client c))
       (breaker_env_overrides (hc_circuit_breaker (sc_http_client c))))
    (provider_auth_env_overrides (sc_provider_auth c)) (outbox_env_overrides (sc_outbox c))
    (signing_env_overrides (sc_signing c)).

(** [ServerConfig::load]; [file] is what [exists] and [read_to_string] say of the path, and
    [yaml] the deserializer. *)
Definition load (file : string -> option (result string string))
    (yaml : string -> result ServerConfig string) (path : option string)
  : result ServerConfig string :=
  let? config :=
    match match path with Some p => file p | None => None end with
    | None => Ok default_config
    | Some text =>
        let? text := context "read config file: " text in
        context "parse config: " (yaml text)
    end in
  Ok (apply_env_overrides config).

(** [PathBuf::join] with a relative path. *)
Definition path_join (dir name : string) : string :=
  match String.rev dir with
  | EmptyString => name
  | String a _ => if Ascii.eqb a "/" then dir +:+ name else dir +:+ "/" +:+ name
  end.

Definition default_config_path (cwd : option string) : option string :=
  or_else (var "CONFIG_FILE") ((fun dir => path_join dir "config.yaml") <$> cwd).

(** ** Production *)

Section production.
Context {crypto : Crypto} (read : string -> result string string).

Record ProductionConfig := MkProduction {
  pc_public_base_url : string;
  pc_database_url : string;
  pc_signing : SigningKeyring;
  pc_auth_mode : string;
  pc_auth_token : string;
  pc_trusted_issuers : string;
  pc_auth_tenant_id : string;
  pc_auth_caller_id : string;
  pc_components : ResolvedComponents;
  pc_http_client : HttpClientConfig;
  pc_provider_auth : ProviderAuthSection
}.

(** The loop over [Provider::ALL] in [require_production]. *)
Definition check_provider (s : ProviderAuthSection) (p : Provider) : result unit string :=
  let auth := for_provider s p in
  context (env_prefix p +:+ " provider auth: ")
    (let? _ := to_outbound_auth auth in
     let? _ := to_tls_config read auth in
     Ok tt).

(** [to_lowercase]; the result is only compared with [jwt], to whose letters no character
    outside ASCII is mapped. *)
Definition auth_mode (s : AuthSection) : string :=
  to_ascii_lowercase (unwrap_or (au_mode s) "static").

(** [ServerConfig::require_production]. *)
Definition require_production (c : ServerConfig) : result ProductionConfig string :=
  let? public_base_url := require_field (sv_public_base_url (sc_server c))
    "PUBLIC_BASE_URL (or server.public_base_url) required in production" in
  let? database_url := require_field (pe_database_url (sc_persistence c))
    "DATABASE_URL (or persistence.database_url) required in production" in
  let mode := auth_mode (sc_auth c) in
  let? auth_token :=
    if String.eqb mode "jwt" then
      require_field (au_jwt_hs256_secret (sc_auth c))
        "AUTH_JWT_HS256_SECRET (or auth.jwt_hs256_secret) required in production when AUTH_MODE=jwt"
    else
      require_field (au_bearer_token (sc_auth c))
        "AUTH_BEARER_TOKEN (or auth.bearer_token) required in production" in
  let? components := require_all (sc_components c) in
  let? _ := check_all (check_provider (sc_provider_auth c)) all_providers in
  let? ring := to_keyring (sc_signing c) in
  let? signing := ok_or ring
    "UCP_SIGNING_KEY_ID and UCP_SIGNING_KEY (or signing.key_id/signing.key) required in production" in
  Ok (MkProduction public_base_url database_url signing mode auth_token
        (unwrap_or (au_trusted_issuers (sc_auth c)) "")
        (unwrap_or (au_tenant_id (sc_auth c)) "prod")
        (unwrap_or (au_caller_id (sc_auth c)) "prod")
        components (sc_http_client c) (sc_provider_auth c)).

(** [ProductionConfig::client_config_for]. *)
Definition client_config_for (c : ProductionConfig) (p : Provider) : result ClientConfig string :=
  context (env_prefix p +:+ " provider auth: ")
    (to_client_config_with_auth read (pc_http_client c) p (for_provider (pc_provider_auth c) p)).
End production.
End environment.
