(* ===== verification/ConfigLogic.v ===== *)
(** * Theorems about the configuration

    The environment overrides the file, once; what production requires; which payment
    handler registries are published; and that the settings the background tasks get are
    in range whatever the numbers in the configuration. *)

From S2P Require Export Config Signatures.
From Stdlib Require Import Ascii.

(** ** The overrides *)

Section overrides.
Context (var : string -> option string).

Lemma env_text_twice v x : env_text v (env_text v x) = env_text v x.
Proof. destruct v as [s|]; [|done]. cbn. by destruct (str_is_empty (str_trim s)). Qed.

Lemma env_opt_twice v x : env_opt v (env_opt v x) = env_opt v x.
Proof. destruct v as [s|]; [|done]. cbn. by destruct (str_is_empty (str_trim s)). Qed.

Lemma env_clear_twice v x : env_clear v (env_clear v x) = env_clear v x.
Proof. by destruct v. Qed.

Lemma env_number_twice parse v x : env_number parse v (env_number parse v x) = env_number parse v x.
Proof. destruct v as [s|]; [|done]. cbn. by destruct (parse (str_trim s)). Qed.

Lemma env_pairs_twice v x : env_pairs v (env_pairs v x) = env_pairs v x.
Proof. destruct v as [s|]; [|done]. cbn. by destruct (str_is_empty (str_trim s)). Qed.

Lemma auth_overrides_twice prefix c :
  auth_env_overrides var prefix (auth_env_overrides var prefix c) = auth_env_overrides var prefix c.
Proof. unfold auth_env_overrides. cbn. by rewrite !env_opt_twice. Qed.

Lemma breaker_overrides_twice s :
  breaker_env_overrides var (breaker_env_overrides var s) = breaker_env_overrides var s.
Proof.
  unfold breaker_env_overrides. cbn. rewrite !env_number_twice.
  by destruct (var "PROVIDER_CIRCUIT_ENABLED").
Qed.

(** Every optional text of the configuration with the variable that overrides it. *)
Definition auth_settings (prefix : string) (section : ServerConfig -> ProviderAuthConfig)
  : list (string * (ServerConfig -> option string)) :=
  (fun '(suffix, get) => (prefix +:+ "_" +:+ suffix, fun c => get (section c))) <$>
    [("AUTH_MODE", pa_mode); ("AUTH_TOKEN", pa_token); ("AUTH_HEADER", pa_header);
     ("AUTH_VALUE", pa_value); ("OAUTH_TOKEN_URL", pa_oauth_token_url);
     ("OAUTH_CLIENT_ID", pa_oauth_client_id); ("OAUTH_CLIENT_SECRET", pa_oauth_client_secret);
     ("OAUTH_SCOPE", pa_oauth_scope); ("OAUTH_CLIENT_AUTH", pa_oauth_client_auth);
     ("TLS_CLIENT_CERT_PATH", pa_tls_client_cert_path); ("TLS_CA_PATH", pa_tls_ca_path)].

Definition kept_settings : list (string * (ServerConfig -> option string)) :=
  [("PUBLIC_BASE_URL", fun c => sv_public_base_url (sc_server c));
   ("DATABASE_URL", fun c => pe_database_url (sc_persistence c));
   ("AUTH_MODE", fun c => au_mode (sc_auth c));
   ("AUTH_BEARER_TOKEN", fun c => au_bearer_token (sc_auth c));
   ("AUTH_JWT_HS256_SECRET", fun c => au_jwt_hs256_secret (sc_auth c));
   ("AP2_TRUSTED_ISSUERS", fun c => au_trusted_issuers (sc_auth c));
   ("AUTH_TENANT_ID", fun c => au_tenant_id (sc_auth c));
   ("AUTH_CALLER_ID", fun c => au_caller_id (sc_auth c));
   ("UCP_SIGNING_KEY_ID", fun c => sg_key_id (sc_signing c));
   ("UCP_SIGNING_KEY", fun c => sg_key (sc_signing c));
   ("UCP_SIGNING_KEY_ALG", fun c => sg_key_algorithm (sc_signing c));
   ("UCP_AGENT_JWKS", fun c => sg_agent_jwks (sc_signing c))]
  ++ auth_settings "PROVIDER" (fun c => ps_default (sc_provider_auth c))
  ++ (all_providers ≫= fun p =>
        auth_settings (env_prefix p) (fun c => own_section (sc_provider_auth c) p)).

(** Those that a blank variable clears. *)
Definition cleared_settings : list (string * (ServerConfig -> option string)) :=
  [("CATALOG_BASE_URL", fun c => co_catalog (sc_components c));
   ("PRICING_BASE_URL", fun c => co_pricing (sc_components c));
   ("TAX_BASE_URL", fun c => co_tax (sc_components c));
   ("GEO_BASE_URL", fun c => co_geo (sc_components c));
   ("PAYMENT_BASE_URL", fun c => co_payment (sc_components c));
   ("RECEIPT_BASE_URL", fun c => co_receipt (sc_components c));
   ("FULFILLMENT_BASE_URL", fun c => co_fulfillment (sc_components c));
   ("PAYMENT_DELEGATION_BASE_URL", fun c => co_payment_delegation (sc_components c));
   ("IDENTITY_LINK_BASE_URL", fun c => co_identity_link (sc_components c));
   ("EMBEDDED_CHECKOUT_URL", fun c => sv_embedded_checkout_url (sc_server c));
   ("UCP_PAYMENT_HANDLERS", fun c => sv_ucp_payment_handlers (sc_server c))].

(** The value of a variable that is set and not blank, trimmed. *)
Definition variable_value (key : string) : option string := v ← var key; trim_opt (Some v).

Lemma auth_settings_overridden c prefix section :
  section (apply_env_overrides var c) = auth_env_overrides var prefix (section c) ->
  Forall (fun '(key, get) => get (apply_env_overrides var c) = env_opt (var key) (get c))
    (auth_settings prefix section).
Proof. intros H. repeat (constructor; [cbn; by rewrite H|]). constructor. Qed.

Lemma kept_overridden c :
  Forall (fun '(key, get) => get (apply_env_overrides var c) = env_opt (var key) (get c))
    kept_settings.
Proof.
  unfold kept_settings. cbn [mbind list_bind all_providers].
  repeat (apply Forall_app; split); try (by apply auth_settings_overridden).
  - repeat (constructor; [reflexivity|]). constructor.
  - constructor.
Qed.

Lemma cleared_overridden c :
  Forall (fun '(key, get) => get (apply_env_overrides var c) = env_clear (var key) (get c))
    cleared_settings.
Proof. repeat (constructor; [reflexivity|]). constructor. Qed.

(** C35: the environment overrides the file, and does so once: each of the 134 optional
    texts of the configuration is the trimmed value of its own variable when that is set
    and not blank; without the variable it is the file's, and with a blank one it is the
    file's too, or nothing in the case of the nine URLs of components, of the URL of the
    checkout page and of the handler registry; the path of the stores has two variables,
    the second of which counts when the first is not set; and a second pass changes
    nothing. *)
Theorem environment_overrides_file c :
  (forall key get, (key, get) ∈ kept_settings ->
     get (apply_env_overrides var c) = or_else (variable_value key) (get c))
  /\ (forall key get, (key, get) ∈ cleared_settings ->
     get (apply_env_overrides var c) = if is_some (var key) then variable_value key else get c)
  /\ pe_path (sc_persistence (apply_env_overrides var c))
     = or_else (if is_some (var "PERSISTENCE_PATH") then variable_value "PERSISTENCE_PATH"
                else variable_value "DATA_DIR") (pe_path (sc_persistence c))
  /\ apply_env_overrides var (apply_env_overrides var c) = apply_env_overrides var c.
Proof.
  split_and!.
  - intros key get Hin. rewrite (proj1 (Forall_forall _ _) (kept_overridden c) _ Hin).
    unfold variable_value. destruct (var key) as [v|]; [|done]. cbn.
    by destruct (str_is_empty (str_trim v)).
  - intros key get Hin. rewrite (proj1 (Forall_forall _ _) (cleared_overridden c) _ Hin).
    unfold variable_value. by destruct (var key).
  - unfold variable_value. cbn. destruct (var "PERSISTENCE_PATH") as [v|]; cbn;
      [|destruct (var "DATA_DIR") as [v|]; cbn; [|done]]; by destruct (str_is_empty (str_trim v)).
  - unfold apply_env_overrides, server_env_overrides, auth_section_env_overrides,
      persistence_env_overrides, components_env_overrides, provider_auth_env_overrides,
      outbox_env_overrides, signing_env_overrides. cbn.
    by rewrite !env_text_twice, !env_opt_twice, !env_clear_twice, !env_number_twice,
      !env_pairs_twice, !auth_overrides_twice, breaker_overrides_twice.
Qed.
End overrides.

(** ** Sequences of checks *)

Definition given (field : option string) (v : string) : Prop := field = Some v /\ v <> "".

Lemma result_bind_Ok {A C E} (r : result A E) (f : A -> result C E) y :
  result_bind r f = Ok y <-> exists x, r = Ok x /\ f x = Ok y.
Proof. destruct r; cbn; naive_solver. Qed.

Lemma nonempty_Some v s : nonempty v = Some s <-> given v s.
Proof.
  unfold given. destruct v as [t|]; cbn; [|naive_solver].
  destruct (str_is_empty t) eqn:He.
  - apply str_is_empty_spec in He. naive_solver.
  - apply not_true_iff_false in He. rewrite str_is_empty_spec in He. naive_solver.
Qed.

Lemma require_field_Ok v e s : require_field v e = Ok s <-> given v s.
Proof.
  unfold require_field. rewrite <- nonempty_Some.
  destruct (nonempty v); cbn; naive_solver.
Qed.

Lemma context_Ok {A} l (r : result A string) x : context l r = Ok x <-> r = Ok x.
Proof. by destruct r. Qed.

Lemma check_all_Ok {A} (f : A -> result unit string) xs :
  check_all f xs = Ok tt <-> Forall (fun x => f x = Ok tt) xs.
Proof.
  induction xs as [|x xs IH]; cbn; [done|].
  rewrite result_bind_Ok, Forall_cons, <- IH. split; [intros ([] & H1 & H2); by split|naive_solver].
Qed.

(** ** Credentials, by what the configuration says *)

(** An optional text that counts when it is not empty. *)
Definition maybe_given (v o : option string) : Prop :=
  match o with Some t => given v t | None => forall t, ~ given v t end.

Definition mode_in (c : ProviderAuthConfig) (names : list string) : Prop :=
  to_ascii_lowercase (str_trim (unwrap_or (pa_mode c) "none")) ∈ names.

Inductive client_auth_named (v : option string) : OAuth2ClientAuth -> Prop :=
| named_default : maybe_given v None -> client_auth_named v Basic
| named_basic t : given v t -> to_ascii_lowercase (str_trim t) = "basic" ->
    client_auth_named v Basic
| named_body t : given v t ->
    to_ascii_lowercase (str_trim t) ∈ ["body"; "request_body"; "post"] ->
    client_auth_named v RequestBody.

(** The credentials a section gives: every field its mode needs is there. *)
Inductive usable (c : ProviderAuthConfig) : OutboundAuth -> Prop :=
| usable_none : mode_in c ["none"; ""] -> usable c AuthNone
| usable_bearer t : mode_in c ["bearer"] -> given (pa_token c) t -> usable c (Bearer t)
| usable_api_key header v :
    mode_in c ["api_key"; "apikey"] -> maybe_given (pa_header c) header ->
    given (pa_value c) v -> usable c (ApiKey (unwrap_or header "X-API-Key") v)
| usable_oauth url id secret scope auth :
    mode_in c ["oauth2"; "oauth"] -> given (pa_oauth_token_url c) url ->
    given (pa_oauth_client_id c) id -> given (pa_oauth_client_secret c) secret ->
    maybe_given (pa_oauth_scope c) scope -> client_auth_named (pa_oauth_client_auth c) auth ->
    usable c (OAuth2 (MkOAuth2 url id secret scope auth)).

(** A file that is named can be read. *)
Definition file_given (read : string -> result string string) (path pem : option string) : Prop :=
  match pem with
  | Some text => exists p, given path p /\ read p = Ok text
  | None => maybe_given path None
  end.

(** The section of a provider counts when it sets anything, and the default one otherwise. *)
Definition in_force (s : ProviderAuthSection) (p : Provider) (c : ProviderAuthConfig) : Prop :=
  let own := match p with
    | PCatalog => ps_catalog s | PPricing => ps_pricing s | PTax => ps_tax s
    | PGeo => ps_geo s | PPayment => ps_payment s | PReceipt => ps_receipt s
    | PFulfillment => ps_fulfillment s | PPaymentDelegation => ps_payment_delegation s
    | PIdentityLink => ps_identity_link s
    end in
  (own <> no_auth /\ c = own) \/ (own = no_auth /\ c = ps_default s).

Lemma maybe_given_eq v o : maybe_given v o <-> nonempty v = o.
Proof.
  destruct o as [t|]; cbn; [by rewrite nonempty_Some|]. setoid_rewrite <- nonempty_Some.
  destruct (nonempty v) as [t|]; [|done]. split; [intros H; by destruct (H t)|done].
Qed.

Lemma client_auth_named_iff v a :
  (match nonempty v with Some t => parse_client_auth t | None => Ok Basic end) = Ok a
  <-> client_auth_named v a.
Proof.
  split.
  - destruct (nonempty v) as [t|] eqn:Hv.
    + apply nonempty_Some in Hv. unfold parse_client_auth.
      destruct (String.eqb_spec (to_ascii_lowercase (str_trim t)) "basic") as [Hb|_];
        [intros [= <-]; by eapply named_basic|].
      destruct (_ || _) eqn:Hs; [|done]. intros [= <-]. eapply named_body; [done|].
      apply orb_true_iff in Hs as [[Hs|Hs]%orb_true_iff|Hs]; apply String.eqb_eq in Hs;
        rewrite Hs; set_solver.
    + intros [= <-]. apply named_default. by apply maybe_given_eq.
  - intros [Hv%maybe_given_eq|t Hv%nonempty_Some Ht|t Hv%nonempty_Some Ht]; rewrite Hv; [done|..];
      unfold parse_client_auth; [by rewrite Ht|].
    apply elem_of_cons in Ht as [->|[->|[->|[]%elem_of_nil]%elem_of_cons]%elem_of_cons]; done.
Qed.

Lemma required_Ok c v name t : required c v name = Ok t <-> given v t.
Proof.
  unfold required. rewrite <- nonempty_Some. destruct (nonempty v); cbn; naive_solver.
Qed.

Lemma usable_iff c a : to_outbound_auth c = Ok a <-> usable c a.
Proof.
  split.
  - unfold to_outbound_auth. fold (mode_str c).
    destruct (str_contains ["none"; ""] (mode_str c)) eqn:H1;
      [intros [= <-]; apply usable_none; by apply str_contains_spec|].
    destruct (String.eqb_spec (mode_str c) "bearer") as [H2|_].
    { intros (t & Ht%required_Ok & [= <-])%result_bind_Ok. apply usable_bearer; [|done].
      unfold mode_in. fold (mode_str c). rewrite H2. by left. }
    destruct (str_contains ["api_key"; "apikey"] (mode_str c)) eqn:H3.
    { intros (t & Ht%required_Ok & [= <-])%result_bind_Ok.
      apply (usable_api_key c (nonempty (pa_header c))); [by apply str_contains_spec| |done].
      by apply maybe_given_eq. }
    destruct (str_contains ["oauth2"; "oauth"] (mode_str c)) eqn:H4; [|done].
    intros (u & Hu%required_Ok & (i & Hi%required_Ok & (t & Ht%required_Ok &
      (x & Hx%client_auth_named_iff & [= <-])%result_bind_Ok)%result_bind_Ok)%result_bind_Ok
      )%result_bind_Ok.
    apply usable_oauth; try done; [by apply str_contains_spec|by apply maybe_given_eq].
  - assert (forall names, mode_in c names -> mode_str c ∈ names) as Hm by done.
    unfold to_outbound_auth. intros [H|t H Ht|h v H Hh Hv|u i t sc x H Hu Hi Ht Hs Hx]; apply Hm in H.
    + apply elem_of_cons in H as [->|[->|[]%elem_of_nil]%elem_of_cons]; done.
    + apply elem_of_cons in H as [->|[]%elem_of_nil]. cbn.
      by rewrite (proj2 (required_Ok c _ "token" t) Ht).
    + apply maybe_given_eq in Hh as <-.
      apply elem_of_cons in H as [->|[->|[]%elem_of_nil]%elem_of_cons]; cbn;
        by rewrite (proj2 (required_Ok c _ "value" v) Hv).
    + apply maybe_given_eq in Hs as <-. apply client_auth_named_iff in Hx.
      apply elem_of_cons in H as [->|[->|[]%elem_of_nil]%elem_of_cons]; cbn;
        rewrite (proj2 (required_Ok c _ "oauth_token_url" u) Hu); cbn;
        rewrite (proj2 (required_Ok c _ "oauth_client_id" i) Hi); cbn;
        rewrite (proj2 (required_Ok c _ "oauth_client_secret" t) Ht); cbn; by rewrite Hx.
Qed.

Lemma file_given_iff read path label pem :
  option_read read path label = Ok pem <-> file_given read path pem.
Proof.
  unfold option_read. destruct (nonempty path) as [p|] eqn:Hp.
  - pose proof Hp as Hg. apply nonempty_Some in Hg. split.
    + destruct (read p) as [text|e] eqn:Hr; [|done]. intros [= <-]. cbn. eauto.
    + destruct pem as [text|]; cbn.
      * intros (p' & Hp'%nonempty_Some & Hr). rewrite Hp in Hp'. injection Hp' as <-. by rewrite Hr.
      * intros H. by destruct (H p).
  - split.
    + intros [= <-]. cbn. by apply (maybe_given_eq path None).
    + destruct pem as [text|]; cbn; [|done]. intros (p' & Hp'%nonempty_Some & _). congruence.
Qed.

Lemma tls_iff read c t :
  to_tls_config read c = Ok t
  <-> file_given read (pa_tls_client_cert_path c) (client_identity_pem t)
      /\ file_given read (pa_tls_ca_path c) (ca_bundle_pem t).
Proof.
  unfold to_tls_config. rewrite <- (file_given_iff _ _ "TLS client certificate"),
    <- (file_given_iff _ _ "TLS CA bundle").
  destruct (option_read _ _ "TLS client certificate") as [i|e]; cbn; [|naive_solver].
  destruct (option_read _ _ "TLS CA bundle") as [a|e]; cbn; [|naive_solver].
  destruct t; cbn; naive_solver.
Qed.

Lemma auth_is_empty_iff c : auth_is_empty c = true <-> c = no_auth.
Proof.
  split; [|by intros ->]. destruct c as [[] [] [] [] [] [] [] [] [] [] []]; try done.
Qed.

Lemma in_force_iff s p c : in_force s p c <-> c = for_provider s p.
Proof.
  unfold in_force, for_provider. fold (own_section s p).
  destruct (auth_is_empty (own_section s p)) eqn:He.
  - apply auth_is_empty_iff in He. tauto.
  - assert (own_section s p <> no_auth) by (rewrite <- auth_is_empty_iff; congruence). tauto.
Qed.

(** ** Production *)

Section production.
Context {crypto : Crypto} (read : string -> result string string).

(** The credentials of a provider are all there, and its TLS files can be read. *)
Definition provider_ready (s : ProviderAuthSection) (p : Provider) : Prop :=
  exists c identity ca, in_force s p c /\ (exists a, usable c a)
    /\ file_given read (pa_tls_client_cert_path c) identity
    /\ file_given read (pa_tls_ca_path c) ca.

Lemma check_provider_Ok s p : check_provider read s p = Ok tt <-> provider_ready s p.
Proof.
  unfold check_provider, provider_ready. rewrite context_Ok. split.
  - intros (a & Ha%usable_iff & (t & [Hi Hc]%tls_iff & _)%result_bind_Ok)%result_bind_Ok.
    exists (for_provider s p), (client_identity_pem t), (ca_bundle_pem t).
    split; [by apply in_force_iff|]. split; [by exists a|done].
  - intros (c & i & k & ->%in_force_iff & [a Ha%usable_iff] & Hi & Hk). rewrite Ha. cbn.
    by rewrite (proj2 (tls_iff read _ (MkTls i k)) (conj Hi Hk)).
Qed.

(** The component URLs of a configuration that has the six required ones. *)
Definition urls_ready (c : ComponentsConfig) (r : ResolvedComponents) : Prop :=
  given (co_catalog c) (rc_catalog r) /\ given (co_pricing c) (rc_pricing r)
  /\ given (co_tax c) (rc_tax r) /\ given (co_geo c) (rc_geo r)
  /\ given (co_payment c) (rc_payment r) /\ given (co_receipt c) (rc_receipt r)
  /\ maybe_given (co_fulfillment c) (rc_fulfillment r)
  /\ maybe_given (co_payment_delegation c) (rc_payment_delegation r)
  /\ maybe_given (co_identity_link c) (rc_identity_link r).

Lemma require_all_Ok c r : require_all c = Ok r <-> urls_ready c r.
Proof.
  unfold require_all, require_url, urls_ready. rewrite !maybe_given_eq. split.
  - intros H. repeat (apply result_bind_Ok in H as (? & ?%require_field_Ok & H)).
    injection H as <-. cbn. naive_solver.
  - intros (H1 & H2 & H3 & H4 & H5 & H6 & H7 & H8 & H9). destruct r. cbn in *. subst.
    by repeat (apply result_bind_Ok; eexists; split; [by apply require_field_Ok|]).
Qed.

(** The secret a mode of authentication needs. *)
Definition mode_secret (s : AuthSection) : option string :=
  if String.eqb (auth_mode s) "jwt" then au_jwt_hs256_secret s else au_bearer_token s.

Lemma production_config_spec c p :
  require_production read c = Ok p <->
  given (sv_public_base_url (sc_server c)) (pc_public_base_url p)
  /\ given (pe_database_url (sc_persistence c)) (pc_database_url p)
  /\ given (mode_secret (sc_auth c)) (pc_auth_token p)
  /\ urls_ready (sc_components c) (pc_components p)
  /\ (forall q, provider_ready (sc_provider_auth c) q)
  /\ to_keyring (sc_signing c) = Ok (Some (pc_signing p))
  /\ pc_auth_mode p = auth_mode (sc_auth c)
  /\ pc_trusted_issuers p = unwrap_or (au_trusted_issuers (sc_auth c)) ""
  /\ pc_auth_tenant_id p = unwrap_or (au_tenant_id (sc_auth c)) "prod"
  /\ pc_auth_caller_id p = unwrap_or (au_caller_id (sc_auth c)) "prod"
  /\ pc_http_client p = sc_http_client c /\ pc_provider_auth p = sc_provider_auth c.
Proof.
  unfold require_production, mode_secret. split.
  - intros H. do 2 apply result_bind_Ok in H as (? & ?%require_field_Ok & H).
    apply result_bind_Ok in H as (token & Htoken & H).
    apply result_bind_Ok in H as (urls & Hurls%require_all_Ok & H).
    apply result_bind_Ok in H as ([] & Hall%check_all_Ok & H).
    apply result_bind_Ok in H as (ring & Hring & H).
    apply result_bind_Ok in H as (r & Hr & H). injection H as <-. cbn.
    destruct ring as [r'|]; [|done]. injection Hr as <-. split_and!; try done.
    + destruct (String.eqb _ _); by apply require_field_Ok in Htoken.
    + intros q. rewrite Forall_forall in Hall. apply check_provider_Ok, Hall.
      by destruct q; repeat constructor.
  - intros (H1 & H2 & H3 & H4 & H5 & H6 & H7 & H8 & H9 & H10 & H11 & H12).
    assert (Hall : check_all (check_provider read (sc_provider_auth c)) all_providers = Ok tt).
    { apply check_all_Ok, Forall_forall. intros q _. by apply check_provider_Ok. }
    destruct p. cbn in *. subst.
    do 2 (apply result_bind_Ok; eexists; split; [by apply require_field_Ok|]).
    apply result_bind_Ok; eexists; split.
    { destruct (String.eqb _ _); by apply require_field_Ok. }
    apply result_bind_Ok; eexists; split; [by apply require_all_Ok|].
    apply result_bind_Ok; exists tt; split; [exact Hall|].
    apply result_bind_Ok; eexists; split; [done|]. done.
Qed.

(** C34: the checks of production succeed exactly with a public URL, a database, the secret
    of its authentication mode, the six component URLs, for every one of the nine providers
    (its own section, or the default one when that is empty) every credential its mode needs
    and readable TLS files, and a signing section that makes a key ring; and these are what
    the process gets.  What else a start needs, such as a bind address, is not among them. *)
Theorem production_config_iff c p :
  require_production read c = Ok p <->
  given (sv_public_base_url (sc_server c)) (pc_public_base_url p)
  /\ given (pe_database_url (sc_persistence c)) (pc_database_url p)
  /\ given (mode_secret (sc_auth c)) (pc_auth_token p)
  /\ urls_ready (sc_components c) (pc_components p)
  /\ (forall q, provider_ready (sc_provider_auth c) q)
  /\ to_keyring (sc_signing c) = Ok (Some (pc_signing p))
  /\ pc_auth_mode p = auth_mode (sc_auth c)
  /\ pc_trusted_issuers p = unwrap_or (au_trusted_issuers (sc_auth c)) ""
  /\ pc_auth_tenant_id p = unwrap_or (au_tenant_id (sc_auth c)) "prod"
  /\ pc_auth_caller_id p = unwrap_or (au_caller_id (sc_auth c)) "prod"
  /\ pc_http_client p = sc_http_client c /\ pc_provider_auth p = sc_provider_auth c.
Proof. apply production_config_spec. Qed.
End production.

(** ** The handler registry *)

Definition entry_ok (entry : Value) : Prop :=
  (exists id, vget entry "id" = Some (VString id))
  /\ exists v, vget entry "version" = Some (VString v) /\ is_dated_version v = true.

Definition handler_ok (handler : string * Value) : Prop :=
  is_reverse_domain_name (fst handler) = true
  /\ exists entries, snd handler = VArray entries /\ Forall entry_ok entries.

Lemma check_entry_Ok name entry : check_entry name entry = Ok tt <-> entry_ok entry.
Proof.
  unfold check_entry, entry_ok. destruct (vget entry "id") as [[]|]; try naive_solver.
  destruct (vget entry "version") as [[]|]; cbn; try naive_solver.
  destruct (is_dated_version s0) eqn:Hv; split; try done.
  - intros _. split; [by eexists|]. by exists s0.
  - intros (_ & v & [= <-] & Hv'). congruence.
Qed.

Lemma check_handler_Ok h : check_handler h = Ok tt <-> handler_ok h.
Proof.
  destruct h as [name entries]. unfold check_handler, handler_ok. cbn.
  destruct (is_reverse_domain_name name); cbn; [|naive_solver].
  destruct entries as [| | | | |xs|]; cbn; try naive_solver. rewrite check_all_Ok. split.
  - intros H. split; [done|]. exists xs. split; [done|].
    eapply Forall_impl; [exact H|]. intros e. apply check_entry_Ok.
  - intros (_ & ys & [= <-] & H). eapply Forall_impl; [exact H|]. intros e. apply check_entry_Ok.
Qed.

(** What the operator configured, blank texts aside. *)
Definition configured_registry (s : ServerSection) : option string :=
  match sv_ucp_payment_handlers s with
  | Some raw => if str_is_empty (str_trim raw) then None else Some raw
  | None => None
  end.

(** The registry discovery publishes is the configured text and nothing else, and it is
    accepted exactly when it is an object whose names are reverse domain names and whose
    values are arrays of entries, each with an id and a dated version. *)
Theorem registry_accepted_iff parse s v :
  payment_handlers parse s = Ok v <->
  match configured_registry s with
  | None => v = VObject []
  | Some raw => parse raw = Ok v /\ exists registry, v = VObject registry /\ Forall handler_ok registry
  end.
Proof.
  unfold payment_handlers. fold (configured_registry s).
  destruct (configured_registry s) as [raw|]; [|naive_solver].
  destruct (parse raw) as [value|]; cbn; [|naive_solver].
  destruct value; try naive_solver.
  rewrite result_bind_Ok. split.
  - intros ([] & H & [= <-]). split; [done|]. eexists. split; [done|].
    apply check_all_Ok in H. eapply Forall_impl; [exact H|]. intros h. apply check_handler_Ok.
  - intros ([= <-] & registry & [= ->] & H). exists tt. split; [|done]. apply check_all_Ok.
    eapply Forall_impl; [exact H|]. intros h. apply check_handler_Ok.
Qed.

(** ** The background task *)

(** Whatever numbers the file and the environment give, the outbox task takes at least
    one message a poll, tries it at least once, and pauses at least a millisecond after a
    failed delivery and at most the configured ceiling. *)
Theorem configured_outbox_pauses s attempts :
  in_u64 (os_retry_backoff_ms s) -> in_u64 (os_max_retry_backoff_secs s) -> (0 <= attempts)%Z ->
  (1 <= batch_size (to_processor_config s))%nat /\ (1 <= max_attempts (to_processor_config s))%Z
  /\ (1000000 <= retry_delay (to_processor_config s) attempts
      <= max_retry_backoff (to_processor_config s))%Z.
Proof.
  unfold in_u64, u64_max. intros Hr Hm Ha.
  destruct (retry_delay_bounds (to_processor_config s) attempts attempts) as (H1 & _ & H3);
    cbn in *; unfold duration_max, u64_max; [lia..|].
  split_and!; [lia|lia|lia|lia].
Qed.

(** ** Configured keys *)

Section keys.
Context {crypto : Crypto} {jwk_laws : JwkLaws}.

(** The id in an entry of the previous keys. *)
Definition previous_kid (entry : string) : string :=
  match split_once ":" entry with Some (kid, _) => str_trim kid | None => "" end.

Lemma parse_previous_kid entry spec :
  parse_previous_key entry = Ok spec -> ks_kid spec = previous_kid entry.
Proof.
  unfold parse_previous_key, previous_kid.
  intros ([kid rest] & Hs & H)%result_bind_Ok. destruct (split_once ":" entry) as [[k r]|]; [|done].
  injection Hs as -> ->. apply result_bind_Ok in H as ([a secret] & _ & [= <-]). done.
Qed.

Lemma collect_previous entries specs :
  collect parse_previous_key entries = Ok specs -> ks_kid <$> specs = previous_kid <$> entries.
Proof.
  revert specs. induction entries as [|e entries IH]; intros specs; cbn [collect].
  - by intros [= <-].
  - destruct (parse_previous_key e) as [s|] eqn:Hs; [|done].
    destruct (collect parse_previous_key entries) as [ss|] eqn:Hss; [|done]. intros [= <-].
    cbn. f_equal; [by apply parse_previous_kid|by apply IH].
Qed.

(** A rotation loses no key: the ring of a configuration signs with the configured key
    and holds every retired one under its id, no id twice; and an agent that reads the
    published keys gets exactly these ids in this order, so that it can still verify what
    was signed before the rotation. *)
Theorem configured_keys_are_published s r :
  to_keyring s = Ok (Some r) ->
  given (sg_key_id s) (active_kid r)
  /\ kids r = active_kid r :: (previous_kid <$> sg_previous_keys s) /\ NoDup (kids r)
  /\ exists ring, parse_jwks (public_jwks r) = Ok ring /\ from_entries ring = Ok ring
       /\ ring.*1 = kids r.
Proof.
  unfold to_keyring. destruct (nonempty (sg_key_id s)) as [id|] eqn:Hid,
    (nonempty (sg_key s)) as [key|]; try done.
  intros (a & _ & H)%result_bind_Ok. apply result_bind_Ok in H as (specs & Hspecs & H).
  apply result_bind_Ok in H as (r' & Hr & [= ->]).
  destruct (from_specs _ _) as [r'|] eqn:Hrun; [injection Hr as ->|done].
  destruct (from_specs_ring _ _ _ Hrun) as (Hk & Hd & _ & Ha). cbn [ks_kid] in Hk, Ha.
  apply nonempty_Some in Hid. rewrite Ha. split_and!; [done| |done|].
  - by rewrite Hk, (collect_previous _ _ Hspecs).
  - exists (published_ring r). split_and!; [apply parse_published| |].
    + by apply (published_ring_entries _ _ _ Hrun).
    + unfold published_ring. by rewrite <- list_fmap_compose.
Qed.
End keys.

(** ** Witnesses *)

Lemma configured_outbox_pauses_witness :
  (1000000 <= retry_delay (to_processor_config (MkOutboxSection 0 0 0 0 0 0)) 3 <= 1000000000)%Z.
Proof.
  apply (configured_outbox_pauses (MkOutboxSection 0 0 0 0 0 0) 3); unfold in_u64, u64_max; cbn; lia.
Defined.

(** A signing section in the middle of a rotation. *)
Definition rotated_section : SigningSection :=
  MkSigningSection (Some "k2") (Some (bits_encode (zeros 32))) None
    ["k1:" +:+ bits_encode (zeros 32); " k0 :EdDSA:" +:+ bits_encode (zeros 32)] [] None.

Lemma configured_keys_are_published_witness :
  match @to_keyring demo_crypto rotated_section with
  | Ok (Some r) => kids r = ["k2"; "k1"; "k0"]
  | _ => False
  end.
Proof.
  destruct (@to_keyring demo_crypto rotated_section) as [[r|]|e] eqn:H;
    [|by vm_compute in H..].
  destruct (@configured_keys_are_published _ demo_jwk_laws _ _ H) as ([Hid _] & Hk & _).
  injection Hid as Hid. rewrite <- Hid in Hk. exact Hk.
Defined.
