(* ===== verification/SocketAddr.v ===== *)
(** * Socket addresses ([std::net::SocketAddr] as [str::parse] reads it)

    The parser of the standard library, which the server applies to its bind address: an
    IPv4 or a bracketed IPv6 address with a port.  A reader takes a prefix of the text and
    returns the rest; the whole text must be read. *)

From S2P Require Export Strings.
From Stdlib Require Import Ascii.

Inductive SocketAddr :=
| SocketV4 (octets : list Z) (port : Z)
| SocketV6 (groups : list Z) (scope_id port : Z).

Abbreviation Reader A := (string -> option (A * string)).

(** [char::to_digit]. *)
Definition to_digit (radix : Z) (a : ascii) : option Z :=
  let c := code a in
  let d := (if (48 <=? c) && (c <=? 57) then c - 48
            else if (97 <=? c) && (c <=? 122) then c - 87
            else if (65 <=? c) && (c <=? 90) then c - 55
            else radix)%Z in
  if (d <? radix)%Z then Some d else None.

(** The loop of [read_number]: the value, the number of digits and the rest. *)
Fixpoint read_digits (radix max : Z) (max_digits : option nat) (s : string) (acc : Z) (n : nat)
  : option (Z * nat * string) :=
  match s with
  | EmptyString => Some (acc, n, s)
  | String a s' =>
      match to_digit radix a with
      | None => Some (acc, n, s)
      | Some d =>
          let acc := (acc * radix + d)%Z in
          if (max <? acc)%Z || is_some_and max_digits (fun m => (m <? S n)%nat) then None
          else read_digits radix max max_digits s' acc (S n)
      end
  end.

Definition read_number (radix max : Z) (max_digits : option nat) (allow_zero_prefix : bool)
  : Reader Z := fun s =>
  '(value, n, rest) ← read_digits radix max max_digits s 0 0;
  if (n =? 0)%nat then None
  else if negb allow_zero_prefix && starts_with "0" s && (1 <? n)%nat then None
  else Some (value, rest).

Definition read_char (c : ascii) : Reader unit := fun s =>
  match s with
  | String a s' => if Ascii.eqb a c then Some (tt, s') else None
  | EmptyString => None
  end.

(** [read_separator]: the separator is read before every item but the first. *)
Definition read_separator {A} (c : ascii) (i : nat) (item : Reader A) : Reader A := fun s =>
  match i with
  | O => item s
  | S _ => '(_, s) ← read_char c s; item s
  end.

Definition read_octet (i : nat) : Reader Z :=
  read_separator "." i (read_number 10 255 (Some 3) false).

Definition read_ipv4_addr : Reader (list Z) := fun s =>
  '(a, s) ← read_octet 0 s;
  '(b, s) ← read_octet 1 s;
  '(c, s) ← read_octet 2 s;
  '(d, s) ← read_octet 3 s;
  Some ([a; b; c; d], s).

(** [read_groups] from group [i] on, [room] groups before the limit: the groups read,
    whether they end in an IPv4 address, and the rest. *)
Fixpoint read_groups (room i : nat) (s : string) : list Z * bool * string :=
  match room with
  | O => ([], false, s)
  | S room =>
      let v4 := match room with O => None | S _ => read_separator ":" i read_ipv4_addr s end in
      match v4 with
      | Some (octets, rest) =>
          match octets with
          | [a; b; c; d] => ([a * 256 + b; c * 256 + d]%Z, true, rest)
          | _ => ([], false, s)
          end
      | None =>
          match read_separator ":" i (read_number 16 65535 (Some 4) true) s with
          | None => ([], false, s)
          | Some (g, rest) =>
              let '(gs, ends_v4, rest) := read_groups room (S i) rest in (g :: gs, ends_v4, rest)
          end
      end
  end.

Definition read_ipv6_addr : Reader (list Z) := fun s =>
  let '(head, ends_v4, rest) := read_groups 8 0 s in
  if (length head =? 8)%nat then Some (head, rest)
  else if ends_v4 then None
  else
    '(_, s) ← read_char ":" rest;
    '(_, s) ← read_char ":" s;
    let '(tail, _, rest) := read_groups (8 - S (length head)) 0 s in
    Some (head ++ replicate (8 - length head - length tail) 0%Z ++ tail, rest).

Definition read_port : Reader Z := fun s =>
  '(_, s) ← read_char ":" s; read_number 10 65535 None true s.

Definition read_socket_addr_v4 : Reader SocketAddr := fun s =>
  '(octets, s) ← read_ipv4_addr s;
  '(port, s) ← read_port s;
  Some (SocketV4 octets port, s).

Definition read_scope_id : Reader Z := fun s =>
  '(_, s) ← read_char "%" s; read_number 10 u32_max None true s.

Definition read_socket_addr_v6 : Reader SocketAddr := fun s =>
  '(_, s) ← read_char "[" s;
  '(groups, s) ← read_ipv6_addr s;
  let '(scope, s) := unwrap_or (read_scope_id s) (0%Z, s) in
  '(_, s) ← read_char "]" s;
  '(port, s) ← read_port s;
  Some (SocketV6 groups scope port, s).

(** [str::parse::<SocketAddr>]. *)
Definition parse_socket_addr (s : string) : option SocketAddr :=
  '(addr, rest) ← match read_socket_addr_v4 s with
                  | Some r => Some r
                  | None => read_socket_addr_v6 s
                  end;
  if str_is_empty rest then Some addr else None.

Example parse_any : parse_socket_addr "0.0.0.0:8080" = Some (SocketV4 [0; 0; 0; 0]%Z 8080).
Proof. reflexivity. Qed.

Example parse_zero_prefix : parse_socket_addr "127.0.0.01:80" = None.
Proof. reflexivity. Qed.

Example parse_v6 : parse_socket_addr "[fe80::1:2%3]:443"
  = Some (SocketV6 [65152; 0; 0; 0; 0; 0; 1; 2]%Z 3 443).
Proof. reflexivity. Qed.

Example parse_mapped : parse_socket_addr "[::ffff:10.0.0.1]:1"
  = Some (SocketV6 [0; 0; 0; 0; 0; 65535; 2560; 1]%Z 0 1).
Proof. reflexivity. Qed.
