(* ===== verification/Server.v ===== *)
(** * Process start ([crates/orchestrator-http/src]: [main.rs], [state.rs], [app.rs])

    What the process does between its start and its first request: the profile and the
    configuration, the adapters and stores it chooses, who it authenticates, what it signs
    and verifies, and the state the handlers share.  The operating system, the parsers and
    the clients of other crates are the fields of [Process]; binding the port and the loop
    of the server are not modelled; the drain at shutdown is in [Lifecycle.v]. *)

From S2P Require Export SocketAddr ConfigLogic Http SignedHttp.
From Stdlib Require Import Ascii.

Section server.
Context {crypto : Crypto}.

(** What the process finds around it. *)
Record Process := MkProcess {
  pr_var : string -> option string;
  pr_args : list string;
  pr_cwd : option string;
  pr_file : string -> option (result string string);
  pr_yaml : string -> result ServerConfig string;
  pr_json : string -> result Value string;
  pr_descriptors : Value -> result (list SigningKeyDescriptor) string;
  pr_read : string -> result string string;
  pr_build_client : ClientConfig -> result unit string;
  pr_migrate : string -> result unit string;
  pr_open_postgres : string -> result unit string;
  pr_parse_url : string -> result unit string;
  pr_jwt_decode : string -> string -> option JwtClaims
}.

(** ** The state of the server ([state.rs]) *)

Record HttpAdapter := MkHttpAdapter { ha_base_url : string; ha_client : ClientConfig }.

(** The providers and stores of a facade: [OrchestratorFacade::new] over the mocks, or
    [new_postgres] over adapters. *)
Inductive Deployment :=
| MockDeployment
| HttpDeployment (catalog pricing tax geo payment receipt : HttpAdapter) (database_url : string).

Record FacadeSetup := MkFacadeSetup {
  fs_deployment : Deployment;
  fs_ap2_strict : bool;
  fs_webhook_delivery : bool;
  fs_fulfillment : option HttpAdapter;
  fs_payment_delegation : option HttpAdapter;
  fs_identity_link : option HttpAdapter
}.

Record AppState := MkAppState {
  st_facade : FacadeSetup;
  st_authn : option (string -> option AuthContext);
  st_allow_dev_auth : bool;
  st_shutdown_flag : bool;
  st_discovery_base_url : string;
  st_signing : option SigningKeyring;
  st_inbound_keys : option (list (string * PublicKey));
  st_embedded_checkout_url : option string;
  st_payment_handlers : list (string * Value)
}.

Definition state_new (facade : FacadeSetup) : AppState :=
  MkAppState facade None true false "http://127.0.0.1:8080" None None None [].

Definition production_mode (production : bool) (s : AppState) : AppState :=
  MkAppState (st_facade s) (st_authn s) (negb production) (st_shutdown_flag s)
    (st_discovery_base_url s) (st_signing s) (st_inbound_keys s) (st_embedded_checkout_url s)
    (st_payment_handlers s).

Definition with_discovery_base_url (url : string) (s : AppState) : AppState :=
  MkAppState (st_facade s) (st_authn s) (st_allow_dev_auth s) (st_shutdown_flag s)
    url (st_signing s) (st_inbound_keys s) (st_embedded_checkout_url s) (st_payment_handlers s).

Definition with_authn (a : string -> option AuthContext) (s : AppState) : AppState :=
  MkAppState (st_facade s) (Some a) (st_allow_dev_auth s) (st_shutdown_flag s)
    (st_discovery_base_url s) (st_signing s) (st_inbound_keys s) (st_embedded_checkout_url s)
    (st_payment_handlers s).

Definition with_payment_handlers (handlers : Value) (s : AppState) : AppState :=
  MkAppState (st_facade s) (st_authn s) (st_allow_dev_auth s) (st_shutdown_flag s)
    (st_discovery_base_url s) (st_signing s) (st_inbound_keys s) (st_embedded_checkout_url s)
    (match handlers with VObject fields => fields | _ => [] end).

Definition with_embedded_checkout_url (url : string) (s : AppState) : AppState :=
  MkAppState (st_facade s) (st_authn s) (st_allow_dev_auth s) (st_shutdown_flag s)
    (st_discovery_base_url s) (st_signing s) (st_inbound_keys s) (Some url)
    (st_payment_handlers s).

Definition with_signing (ring : SigningKeyring) (s : AppState) : AppState :=
  MkAppState (st_facade s) (st_authn s) (st_allow_dev_auth s) (st_shutdown_flag s)
    (st_discovery_base_url s) (Some ring) (st_inbound_keys s) (st_embedded_checkout_url s)
    (st_payment_handlers s).

Definition with_inbound_verification (keys : list (string * PublicKey)) (s : AppState)
  : AppState :=
  MkAppState (st_facade s) (st_authn s) (st_allow_dev_auth s) (st_shutdown_flag s)
    (st_discovery_base_url s) (st_signing s) (Some keys) (st_embedded_checkout_url s)
    (st_payment_handlers s).

(** Both halves an embedded handoff link needs. *)
Definition embedded_checkout (s : AppState) : option (string * SigningKeyring) :=
  url ← st_embedded_checkout_url s;
  ring ← st_signing s;
  Some (url, ring).

(** The caller of a request, as every authenticated handler finds it. *)
Definition authenticate (s : AppState) (authorization : option string)
  : result AuthContext ApiError :=
  extract_auth (st_authn s) (st_allow_dev_auth s) authorization.

(** [signed_router]: the verification in front of the handlers, and the signature outermost,
    so that refusals are signed too. *)
Definition answer (s : AppState) (refusal : Z -> string -> string -> HttpResponse)
    (handler : HttpRequest -> HttpResponse) (r : HttpRequest) (now : Z) : HttpResponse :=
  match verify_request_signature (st_inbound_keys s) r now with
  | Passed _ => handler r
  | Rejected status text code => refusal status text code
  end.

Definition signed_router (s : AppState) (refusal : Z -> string -> string -> HttpResponse)
    (handler : HttpRequest -> HttpResponse) (r : HttpRequest) (now now' : Z) : Outgoing :=
  sign_response (st_signing s) (answer s refusal handler r now) now'.

(** ** [main] *)

Section start.
Context (p : Process).

Definition ap2_strict : bool :=
  match pr_var p "AP2_STRICT" with
  | Some v => str_contains ["1"; "true"; "yes"] v
  | None => false
  end.

(** The adapter of a provider: its client settings, then the client itself. *)
Definition adapter (prod : ProductionConfig) (name base_url : string) (provider : Provider)
  : result HttpAdapter string :=
  let? config := client_config_for (pr_read p) prod provider in
  let? _ := context (name +:+ " adapter: ") (pr_build_client p config) in
  Ok (MkHttpAdapter base_url config).

Definition optional_adapter (prod : ProductionConfig) (name : string) (base_url : option string)
    (provider : Provider) : result (option HttpAdapter) string :=
  match base_url with
  | None => Ok None
  | Some url => let? a := adapter prod name url provider in Ok (Some a)
  end.

Definition production_facade (prod : ProductionConfig) : result FacadeSetup string :=
  let c := pc_components prod in
  let? catalog := adapter prod "catalog" (rc_catalog c) PCatalog in
  let? pricing := adapter prod "pricing" (rc_pricing c) PPricing in
  let? tax := adapter prod "tax" (rc_tax c) PTax in
  let? geo := adapter prod "geo" (rc_geo c) PGeo in
  let? payment := adapter prod "payment" (rc_payment c) PPayment in
  let? receipt := adapter prod "receipt" (rc_receipt c) PReceipt in
  let? _ := context "postgres facade: " (pr_open_postgres p (pc_database_url prod)) in
  let? fulfillment := optional_adapter prod "fulfillment" (rc_fulfillment c) PFulfillment in
  let? delegation := optional_adapter prod "payment delegation" (rc_payment_delegation c)
                       PPaymentDelegation in
  let? identity := optional_adapter prod "identity link" (rc_identity_link c) PIdentityLink in
  Ok (MkFacadeSetup
        (HttpDeployment catalog pricing tax geo payment receipt (pc_database_url prod))
        ap2_strict true fulfillment delegation identity).

Definition split_issuers (issuers : string) : list string :=
  retain (fun issuer => negb (str_is_empty issuer)) (map str_trim (Strings.split "," issuers)).

Definition production_authn (prod : ProductionConfig) : string -> option AuthContext :=
  if String.eqb (pc_auth_mode prod) "jwt" then
    jwt_resolver (pr_jwt_decode p (pc_auth_token prod)) (split_issuers (pc_trusted_issuers prod))
  else
    static_resolver (pc_auth_token prod)
      (MkAuthContext (pc_auth_caller_id prod) (pc_auth_tenant_id prod) ["checkout:execute"]).

(** [bind_addr.rsplit(':').next().unwrap_or("8080")]. *)
Definition bind_port (bind_addr : string) : string :=
  unwrap_or (last (Strings.split ":" bind_addr)) "8080".

(** The facade, the resolver, the discovery URL and the signing ring of a profile. *)
Abbreviation Choice :=
  (FacadeSetup * option (string -> option AuthContext) * string * option SigningKeyring)%type.

Definition choose_development (c : ServerConfig) : result Choice string :=
  let url := unwrap_or (nonempty (sv_public_base_url (sc_server c)))
               ("http://127.0.0.1:" +:+ bind_port (sv_bind_addr (sc_server c))) in
  let? signing := context "signing config: " (to_keyring (sc_signing c)) in
  Ok (MkFacadeSetup MockDeployment ap2_strict true None None None, None, url, signing).

Definition choose (profile : EnvProfile) (c : ServerConfig) : result Choice string :=
  if is_production profile then
    let? prod := context "production config: " (require_production (pr_read p) c) in
    let? facade := production_facade prod in
    Ok (facade, Some (production_authn prod), pc_public_base_url prod, Some (pc_signing prod))
  else choose_development c.

(** How the process goes on. *)
Inductive Started :=
| Migrated (database_url : string)
| Listening (state : AppState) (addr : SocketAddr) (outbox : OutboxProcessorConfig).

Definition server_jwks (json : string) : result (list (string * PublicKey)) SigningKeyError :=
  from_jwks (pr_json p) vget (pr_descriptors p) json.

(** [main], up to the listener. *)
Definition start : result Started string :=
  let profile := profile_from_env (pr_var p) in
  let? c := context "config: "
    (load (pr_var p) (pr_file p) (pr_yaml p) (default_config_path (pr_var p) (pr_cwd p))) in
  match mode_from_env (pr_var p) (pr_args p) with
  | MigrateOnly =>
      let? url := require_field (pe_database_url (sc_persistence c))
        "DATABASE_URL (or persistence.database_url) required to run migrations" in
      let? _ := context "migrations: " (pr_migrate p url) in
      Ok (Migrated url)
  | Serve =>
      let? '(facade, authn, discovery, signing) := choose profile c in
      let outbox := to_processor_config (sc_outbox c) in
      let s := with_discovery_base_url discovery
                 (production_mode (is_production profile) (state_new facade)) in
      let s := match authn with Some a => with_authn a s | None => s end in
      let? handlers := payment_handlers (pr_json p) (sc_server c) in
      let s := with_payment_handlers handlers s in
      let? s := match sv_embedded_checkout_url (sc_server c) with
                | Some url =>
                    let? _ := context "EMBEDDED_CHECKOUT_URL: " (pr_parse_url p url) in
                    Ok (with_embedded_checkout_url url s)
                | None => Ok s
                end in
      let s := match signing with Some ring => with_signing ring s | None => s end in
      let? inbound := context "agent signing keys: "
        (to_verifying_keyring server_jwks (sc_signing c)) in
      let s := match inbound with Some keys => with_inbound_verification keys s | None => s end in
      let? addr := ok_or (parse_socket_addr (sv_bind_addr (sc_server c)))
                     "invalid socket address syntax" in
      Ok (Listening s addr outbox)
  end.
End start.
End server.

(** ** What a process that listens looks like *)

Section started.
Context {crypto : Crypto} (p : Process).

(** Everything [main] computed on the way to its listener. *)
Record started (s : AppState) (addr : SocketAddr) (outbox : OutboxProcessorConfig)
    (c : ServerConfig) : Prop := {
  sd_load : load (pr_var p) (pr_file p) (pr_yaml p) (default_config_path (pr_var p) (pr_cwd p)) = Ok c;
  sd_mode : mode_from_env (pr_var p) (pr_args p) = Serve;
  sd_choice : choose p (profile_from_env (pr_var p)) c
    = Ok (st_facade s, st_authn s, st_discovery_base_url s, st_signing s);
  sd_dev_auth : st_allow_dev_auth s = negb (is_production (profile_from_env (pr_var p)));
  sd_inbound : to_verifying_keyring (server_jwks p) (sc_signing c) = Ok (st_inbound_keys s);
  sd_handlers : payment_handlers (pr_json p) (sc_server c) = Ok (VObject (st_payment_handlers s));
  sd_embedded : st_embedded_checkout_url s = sv_embedded_checkout_url (sc_server c);
  sd_addr : parse_socket_addr (sv_bind_addr (sc_server c)) = Some addr;
  sd_outbox : outbox = to_processor_config (sc_outbox c)
}.

Lemma start_spec s addr outbox :
  start p = Ok (Listening s addr outbox) -> exists c, started s addr outbox c.
Proof.
  unfold start. intros (c & Hload%context_Ok & H)%result_bind_Ok. exists c.
  destruct (mode_from_env _ _) eqn:Hmode.
  2:{ apply result_bind_Ok in H as (url & _ & H). by apply result_bind_Ok in H as (? & _ & [=]). }
  apply result_bind_Ok in H as ([[[facade authn] discovery] signing] & Hchoice & H).
  apply result_bind_Ok in H as (handlers & Hhandlers & H).
  apply result_bind_Ok in H as (s1 & Hs1 & H).
  apply result_bind_Ok in H as (inbound & Hin%context_Ok & H).
  apply result_bind_Ok in H as (a & Ha & [= <- <- <-]).
  assert (exists fields, handlers = VObject fields) as [fields ->].
  { revert Hhandlers. unfold payment_handlers. destruct (match sv_ucp_payment_handlers _ with Some _ => _ | None => _ end).
    - intros (v & _ & H)%result_bind_Ok. destruct v; try done.
      apply result_bind_Ok in H as (_ & _ & [= <-]). by eexists.
    - intros [= <-]. by eexists. }
  assert (parse_socket_addr (sv_bind_addr (sc_server c)) = Some a) as Haddr.
  { by destruct (parse_socket_addr _); [injection Ha as ->|]. }
  destruct (sv_embedded_checkout_url (sc_server c)) as [url|] eqn:Hurl.
  - apply result_bind_Ok in Hs1 as (_ & _ & [= <-]).
    destruct authn, signing, inbound; split; done.
  - injection Hs1 as <-. destruct authn, signing, inbound; split; done.
Qed.

Lemma start_serves r :
  start p = Ok r -> mode_from_env (pr_var p) (pr_args p) = Serve ->
  exists s addr outbox, r = Listening s addr outbox.
Proof.
  unfold start. intros (c & _ & H)%result_bind_Ok Hm. rewrite Hm in H.
  apply result_bind_Ok in H as ([[[facade authn] discovery] signing] & _ & H).
  do 4 apply result_bind_Ok in H as (? & _ & H). injection H as <-. by do 3 eexists.
Qed.

(** An adapter talks to the URL [url] with the credentials and the TLS files the configuration has
    for its provider, behind a breaker of its own name with the configured limits. *)
Definition adapter_of (c : ServerConfig) (q : Provider) (name : string) (url : option string)
    (a : HttpAdapter) : Prop :=
  given url (ha_base_url a)
  /\ (exists section, in_force (sc_provider_auth c) q section
        /\ usable section (cc_auth (ha_client a))
        /\ file_given (pr_read p) (pa_tls_client_cert_path section)
             (client_identity_pem (cc_tls (ha_client a)))
        /\ file_given (pr_read p) (pa_tls_ca_path section) (ca_bundle_pem (cc_tls (ha_client a))))
  /\ circuit_breaker (ha_client a)
     = Some (name, breaker_to_config (hc_circuit_breaker (sc_http_client c))).

Lemma adapter_spec prod c what q url base a :
  adapter p prod what base q = Ok a -> given url base ->
  pc_provider_auth prod = sc_provider_auth c -> pc_http_client prod = sc_http_client c ->
  adapter_of c q (label q) url a.
Proof.
  unfold adapter, client_config_for, to_client_config_with_auth.
  intros (cfg & Hcfg%context_Ok & H)%result_bind_Ok Hu Ha Hh. rewrite Ha, Hh in Hcfg.
  apply result_bind_Ok in H as (_ & _ & [= <-]).
  apply result_bind_Ok in Hcfg as (auth & Hauth & H).
  apply result_bind_Ok in H as (tls & [Hi Hc]%tls_iff & [= <-]).
  split; [done|]. split; [|done]. exists (for_provider (sc_provider_auth c) q).
  split; [by apply in_force_iff|]. split; [by apply usable_iff|done].
Qed.

(** The six adapters of a production facade and its database. *)
Definition on_adapters (c : ServerConfig) (database_url : string) (d : Deployment) : Prop :=
  let urls := sc_components c in
  exists catalog pricing tax geo payment receipt,
    d = HttpDeployment catalog pricing tax geo payment receipt database_url
    /\ adapter_of c PCatalog "catalog" (co_catalog urls) catalog
    /\ adapter_of c PPricing "pricing" (co_pricing urls) pricing
    /\ adapter_of c PTax "tax" (co_tax urls) tax
    /\ adapter_of c PGeo "geo" (co_geo urls) geo
    /\ adapter_of c PPayment "payment" (co_payment urls) payment
    /\ adapter_of c PReceipt "receipt" (co_receipt urls) receipt.

Lemma production_facade_spec prod f c :
  production_facade p prod = Ok f -> urls_ready (sc_components c) (pc_components prod) ->
  pc_provider_auth prod = sc_provider_auth c -> pc_http_client prod = sc_http_client c ->
  on_adapters c (pc_database_url prod) (fs_deployment f).
Proof.
  unfold production_facade. intros H (H1 & H2 & H3 & H4 & H5 & H6 & _) Ha Hh.
  apply result_bind_Ok in H as (a1 & A1 & (a2 & A2 & (a3 & A3 & (a4 & A4 & (a5 & A5 & (a6 & A6 & H
    )%result_bind_Ok)%result_bind_Ok)%result_bind_Ok)%result_bind_Ok)%result_bind_Ok).
  do 4 apply result_bind_Ok in H as (? & _ & H). injection H as <-.
  exists a1, a2, a3, a4, a5, a6. split; [reflexivity|].
  split; [exact (adapter_spec _ _ _ _ _ _ _ A1 H1 Ha Hh)|].
  split; [exact (adapter_spec _ _ _ _ _ _ _ A2 H2 Ha Hh)|].
  split; [exact (adapter_spec _ _ _ _ _ _ _ A3 H3 Ha Hh)|].
  split; [exact (adapter_spec _ _ _ _ _ _ _ A4 H4 Ha Hh)|].
  split; [exact (adapter_spec _ _ _ _ _ _ _ A5 H5 Ha Hh)|].
  exact (adapter_spec _ _ _ _ _ _ _ A6 H6 Ha Hh).
Qed.

(** A production process holds the validated configuration. *)
Lemma production_started s addr outbox :
  start p = Ok (Listening s addr outbox) -> profile_from_env (pr_var p) = Production ->
  exists c prod, started s addr outbox c /\ require_production (pr_read p) c = Ok prod
    /\ production_facade p prod = Ok (st_facade s)
    /\ st_authn s = Some (production_authn p prod) /\ st_signing s = Some (pc_signing prod).
Proof.
  intros (c & Hs)%start_spec Hp. exists c. pose proof (sd_choice _ _ _ _ Hs) as Hc.
  rewrite Hp in Hc. unfold choose in Hc. cbn [is_production] in Hc.
  apply result_bind_Ok in Hc as (prod & Hprod%context_Ok & Hc).
  apply result_bind_Ok in Hc as (f & Hf & [= <- Ha _ Hsg]).
  exists prod. by rewrite Ha, Hsg.
Qed.

(** Who presents a token is let in as whom: in mode [jwt] with a token that decodes under the secret
    and names a trusted issuer when there are any, as its subject and tenant; in any other mode with
    the secret itself, as the configured caller and tenant. *)
Definition admitted (a : AuthSection) (secret token : string) (caller : AuthContext) : Prop :=
  if String.eqb (auth_mode a) "jwt" then
    exists claims, pr_jwt_decode p secret token = Some claims
      /\ (split_issuers (unwrap_or (au_trusted_issuers a) "") = []
          \/ exists issuer t, jc_iss claims = Some issuer
               /\ t ∈ split_issuers (unwrap_or (au_trusted_issuers a) "")
               /\ eq_ignore_ascii_case t issuer = true)
      /\ caller = MkAuthContext (jc_sub claims) (jc_tenant_id claims)
          (match jc_scopes claims with [] => ["checkout:execute"] | scopes => scopes end)
  else
    token = secret
    /\ caller = MkAuthContext (unwrap_or (au_caller_id a) "prod")
        (unwrap_or (au_tenant_id a) "prod") ["checkout:execute"].

Lemma jwt_resolver_spec decode issuers token caller :
  jwt_resolver decode issuers token = Some caller <->
  exists claims, decode token = Some claims
    /\ (issuers = [] \/ exists issuer t, jc_iss claims = Some issuer /\ t ∈ issuers
          /\ eq_ignore_ascii_case t issuer = true)
    /\ caller = MkAuthContext (jc_sub claims) (jc_tenant_id claims)
        (match jc_scopes claims with [] => ["checkout:execute"] | scopes => scopes end).
Proof.
  unfold jwt_resolver. destruct (decode token) as [claims|]; [|naive_solver].
  assert ((match issuers with
           | [] => true
           | _ => is_some_and (jc_iss claims)
                    (fun iss => any (fun t => eq_ignore_ascii_case t iss) issuers)
           end = true) <-> (issuers = [] \/ exists issuer t, jc_iss claims = Some issuer
             /\ t ∈ issuers /\ eq_ignore_ascii_case t issuer = true)) as Ht.
  { destruct issuers as [|x xs]; [by split; [left|]|].
    destruct (jc_iss claims) as [iss|]; cbn -[any]; [|split; [done|by intros [?|(? & ? & ? & _)]]].
    unfold any. rewrite existsb_elem. split.
    - intros (t & Hin & He). right. by exists iss, t.
    - intros [?|(i & t & [= <-] & Hin & He)]; [done|]. by exists t. }
  destruct (match issuers with [] => true | _ => _ end); split.
  - intros [= <-]. exists claims. split; [done|]. split; [by apply Ht|done].
  - intros (? & [= <-] & _ & ->). done.
  - done.
  - intros (? & [= <-] & Hi & _). apply Ht in Hi. done.
Qed.

Lemma production_authn_spec c prod token caller :
  pc_auth_mode prod = auth_mode (sc_auth c) ->
  pc_trusted_issuers prod = unwrap_or (au_trusted_issuers (sc_auth c)) "" ->
  pc_auth_tenant_id prod = unwrap_or (au_tenant_id (sc_auth c)) "prod" ->
  pc_auth_caller_id prod = unwrap_or (au_caller_id (sc_auth c)) "prod" ->
  production_authn p prod token = Some caller
  <-> admitted (sc_auth c) (pc_auth_token prod) token caller.
Proof.
  intros Hm Hi Ht Hc. unfold production_authn, admitted. rewrite Hm, Hi, Ht, Hc.
  destruct (String.eqb _ "jwt"); [apply jwt_resolver_spec|]. unfold static_resolver.
  destruct (String.eqb_spec token (pc_auth_token prod)) as [->|]; naive_solver.
Qed.
End started.

(** ** The profiles *)

Section profiles.
Context {crypto : Crypto} (p : Process).


(** Any other profile, a misspelt one included, is open: every caller, with any token
    or none, is the development tenant with the right to check out, whatever the
    configuration says about authentication, and the providers are the mocks. *)
Theorem development_is_open s addr outbox authorization :
  start p = Ok (Listening s addr outbox) ->
  pr_var p "ENV" <> Some "production" -> pr_var p "ENV" <> Some "prod" ->
  authenticate s authorization = Ok dev_auth_context
  /\ fs_deployment (st_facade s) = MockDeployment.
Proof.
  intros (c & Hs)%start_spec H1 H2.
  assert (profile_from_env (pr_var p) = Development) as Hp.
  { unfold profile_from_env. destruct (pr_var p "ENV") as [v|]; [|done].
    destruct (str_contains _ v) eqn:Hv; [|done]. apply str_contains_spec in Hv. set_solver. }
  pose proof (sd_choice _ _ _ _ _ Hs) as Hc. pose proof (sd_dev_auth _ _ _ _ _ Hs) as Hd.
  rewrite Hp in Hc, Hd. unfold choose, choose_development in Hc. cbn in Hc, Hd.
  apply result_bind_Ok in Hc as (signing & _ & [= Hf Ha _ _]).
  unfold authenticate, extract_auth. by rewrite <- Ha, Hd, <- Hf.
Qed.

(** The documented default of the bind address does not exist: without a configuration
    file and without [BIND_ADDR] no process listens, in any profile. *)
Theorem bind_address_has_no_default :
  mode_from_env (pr_var p) (pr_args p) = Serve ->
  (forall path, default_config_path (pr_var p) (pr_cwd p) = Some path -> pr_file p path = None) ->
  (forall v, pr_var p "BIND_ADDR" = Some v -> str_trim v = "") ->
  forall started, start p <> Ok started.
Proof.
  intros Hm Hf Hb r Hr. destruct (start_serves _ _ Hr Hm) as (s & addr & outbox & ->).
  apply start_spec in Hr as [c Hs]. pose proof (sd_load _ _ _ _ _ Hs) as Hl.
  unfold load in Hl.
  assert (c = apply_env_overrides (pr_var p) default_config) as ->.
  { destruct (default_config_path _ _) as [path|] eqn:Hpath; [rewrite (Hf path eq_refl) in Hl|];
      by injection Hl as <-. }
  pose proof (sd_addr _ _ _ _ _ Hs) as Ha. cbn in Ha. unfold env_text in Ha.
  destruct (pr_var p "BIND_ADDR") as [v|]; [rewrite (Hb v eq_refl) in Ha|]; by vm_compute in Ha.
Qed.
(** The configuration a process runs with has the overrides applied. *)
Lemma loaded s addr outbox c :
  started p s addr outbox c -> exists file, c = apply_env_overrides (pr_var p) file.
Proof.
  intros Hs. pose proof (sd_load _ _ _ _ _ Hs) as Hl. unfold load in Hl.
  apply result_bind_Ok in Hl as (file & _ & [= <-]). by exists file.
Qed.

Lemma pairs_need_text v : split_pairs (str_trim v) <> [] -> str_is_empty (str_trim v) = false.
Proof. by destruct (str_trim v). Qed.

Lemma keyring_required jwks g ring :
  to_verifying_keyring jwks g = Ok ring ->
  sg_agent_keys g <> [] \/ (exists j, sg_agent_jwks g = Some j /\ str_is_empty (str_trim j) = false) ->
  exists keys, ring = Some keys.
Proof.
  unfold to_verifying_keyring. intros H Hk.
  assert (exists keys, (let? parsed := collect parse_agent_key (sg_agent_keys g) in
    let? pairs := map_err signing_key_error_text (from_public_keys parsed) in
    match match sg_agent_jwks g with
          | Some j => if str_is_empty (str_trim j) then None else Some j | None => None end with
    | None => Ok (Some pairs)
    | Some json =>
        let? agents := map_err (fun e => "UCP_AGENT_JWKS: " +:+ signing_key_error_text e)
                         (jwks json) in
        let? ring := map_err signing_key_error_text (Signing.merge pairs agents) in
        Ok (Some ring)
    end) = Ok keys /\ ring = keys) as (keys & H' & ->).
  { exists ring. split; [|done]. destruct (sg_agent_keys g) as [|k ks]; [|exact H].
    destruct Hk as [[]|(j & Hj & He)]; [done|]. rewrite Hj, He in H |- *. exact H. }
  apply result_bind_Ok in H' as (parsed & _ & H'). apply result_bind_Ok in H' as (pairs & _ & H').
  destruct (match sg_agent_jwks g with Some _ => _ | None => _ end).
  - apply result_bind_Ok in H' as (agents & _ & H').
    apply result_bind_Ok in H' as (r & _ & [= <-]). by eexists.
  - injection H' as <-. by eexists.
Qed.

(** Agent keys in the environment, in either form, make signatures mandatory: a process
    that listens refuses every request under the API prefix that has no signature, before
    its handler runs. *)
Theorem agent_keys_make_signatures_mandatory s addr outbox refusal handler r now now' :
  start p = Ok (Listening s addr outbox) ->
  (exists v, pr_var p "UCP_AGENT_KEYS" = Some v /\ split_pairs (str_trim v) <> [])
  \/ (exists v, pr_var p "UCP_AGENT_JWKS" = Some v /\ str_trim v <> "") ->
  starts_with SIGNED_PATH_PREFIX (rq_path r) = true ->
  (Z.of_nat (String.length (rq_body r)) <= MAX_SIGNED_BODY_BYTES)%Z ->
  header (rq_headers r) SIGNATURE_INPUT_HEADER = None
  \/ header (rq_headers r) SIGNATURE_HEADER = None ->
  signed_router s refusal handler r now now'
  = sign_response (st_signing s)
      (refusal 401%Z (signature_error_text Missing) (signature_error_code Missing)) now'.
Proof.
  intros (c & Hs)%start_spec Hkeys Hpath Hbody Hnone.
  pose proof (sd_inbound _ _ _ _ _ Hs) as Hin. destruct (loaded _ _ _ _ Hs) as [file ->].
  destruct (keyring_required _ _ _ Hin) as [keys Hring].
  { destruct Hkeys as [(v & Hv & Hne)|(v & Hv & Hne)]; [left|right].
    - cbn. rewrite Hv. cbn. by rewrite (pairs_need_text v Hne).
    - exists (str_trim v). cbn. rewrite Hv. cbn. rewrite str_trim_twice.
      apply str_nonempty in Hne. by rewrite Hne. }
  unfold signed_router, answer, verify_request_signature. rewrite Hring, Hpath. cbn [negb].
  destruct (Z.ltb_spec MAX_SIGNED_BODY_BYTES (Z.of_nat (String.length (rq_body r)))); [lia|].
  unfold verified. destruct Hnone as [->| ->]; [done|].
  by destruct (header (rq_headers r) SIGNATURE_INPUT_HEADER).
Qed.

Context {laws : CryptoLaws crypto}.

(** C33: in production every response verifies: the process has a ring, and if its key id is of
    printable characters without quotes, backslashes and semicolons, then whatever is answered,
    refusals included, leaves with a signature that an agent with the published keys accepts while
    its clock agrees with ours within the window, as long as the answer has well-formed headers,
    no [Signature-Input] of its own and a body no longer than [MAX_SIGNED_BODY_BYTES]. *)
Theorem production_responses_verify s addr outbox refusal handler r now sent now' :
  start p = Ok (Listening s addr outbox) -> profile_from_env (pr_var p) = Production ->
  exists ring, st_signing s = Some ring
    /\ (kid_ok (active_kid ring) -> str_forall printable (active_kid ring) = true ->
        in_i64 sent -> (Z.abs (now' - sent) <= MAX_SIGNATURE_SKEW_SECONDS)%Z ->
        http_headers (rp_headers (answer s refusal handler r now)) ->
        header (rp_headers (answer s refusal handler r now)) SIGNATURE_INPUT_HEADER = None ->
        (Z.of_nat (String.length (rp_body (answer s refusal handler r now)))
         <= MAX_SIGNED_BODY_BYTES)%Z ->
        exists q input sig, signed_router s refusal handler r now sent = Sent q
          /\ header (rp_headers q) SIGNATURE_INPUT_HEADER = Some input
          /\ header (rp_headers q) SIGNATURE_HEADER = Some sig
          /\ verify_message (published_ring ring) (response_view q) input sig
               (if str_is_empty (rp_body q) then ["@status"]
                else ["@status"; CONTENT_DIGEST_HEADER]) now'
             = Ok (active_kid ring)).
Proof.
  intros Hs Hp. destruct (production_started p s addr outbox Hs Hp)
    as (c & prod & _ & _ & _ & _ & Hring).
  exists (pc_signing prod). split; [done|]. intros Hk Hpr Hsent Hskew Hh Hfresh Hb.
  unfold signed_router. rewrite Hring.
  destruct (response_is_signed (pc_signing prod) _ sent Hh Hpr Hb) as (q & input & sig & Hq & Hi & Hg).
  exists q, input, sig. split_and!; [done..|].
  apply (response_checks (pc_signing prod) (answer s refusal handler r now) q sent now'); try done.
  cbn. by rewrite String.eqb_refl.
Qed.
End profiles.

(** ** Witnesses *)

Definition variables (xs : list (string * string)) (key : string) : option string :=
  snd <$> find_first (fun kv => String.eqb (fst kv) key) xs.

(** A host without files, where every client and database opens. *)
Definition demo_process (xs : list (string * string)) : Process :=
  MkProcess (variables xs) [] (Some "/app") (fun _ => None) (fun _ => Err "yaml")
    (fun _ => Err "json") (fun _ => Err "not a key set") (fun _ => Err "not found")
    (fun _ => Ok tt) (fun _ => Ok tt) (fun _ => Ok tt) (fun _ => Ok tt) (fun _ _ => None).

Definition production_variables : list (string * string) :=
  [("ENV", "production"); ("BIND_ADDR", "0.0.0.0:8080");
   ("PUBLIC_BASE_URL", "https://shop.example"); ("DATABASE_URL", "postgres://db/shop");
   ("AUTH_BEARER_TOKEN", "s3cret"); ("CATALOG_BASE_URL", "http://catalog");
   ("PRICING_BASE_URL", "http://pricing"); ("TAX_BASE_URL", "http://tax");
   ("GEO_BASE_URL", "http://geo"); ("PAYMENT_BASE_URL", "http://payment");
   ("RECEIPT_BASE_URL", "http://receipt"); ("UCP_SIGNING_KEY_ID", "k1");
   ("UCP_SIGNING_KEY", bits_encode (zeros 32)); ("PAYMENT_AUTH_MODE", "bearer");
   ("PAYMENT_AUTH_TOKEN", "psp")].

Definition agent_variables : list (string * string) :=
  ("UCP_AGENT_KEYS", "agent-1:" +:+ bits_encode (zeros 32)) :: production_variables.

Ltac started_process :=
  match goal with
  | |- match @start _ ?p with Ok _ => _ | Err _ => _ end =>
      let H := fresh "Hs" in
      destruct (start (crypto := demo_crypto) p) as [[url|s addr outbox]|e] eqn:H; [by vm_compute in H| |by vm_compute in H]
  end.


(** The profile misspelt. *)
Lemma development_is_open_witness :
  match start (crypto := demo_crypto) (demo_process (("ENV", "Production") :: production_variables)) with
  | Ok (Listening s _ _) => authenticate s None = Ok dev_auth_context
  | _ => False
  end.
Proof.
  started_process.
  apply (development_is_open _ s addr outbox None Hs); vm_compute; congruence.
Defined.

Definition without_bind_addr : list (string * string) :=
  List.filter (fun kv => negb (String.eqb (fst kv) "BIND_ADDR")) production_variables.

Lemma bind_address_has_no_default_witness :
  match start (crypto := demo_crypto) (demo_process without_bind_addr) with
  | Ok _ => False
  | Err _ => True
  end.
Proof.
  destruct (start (crypto := demo_crypto) (demo_process without_bind_addr)) as [r|e] eqn:Hs;
    [|exact I].
  apply (bind_address_has_no_default (crypto := demo_crypto) (demo_process without_bind_addr))
    with (started := r); [reflexivity|reflexivity| |exact Hs].
  intros v H. by vm_compute in H.
Defined.

Definition plain_refusal (status : Z) (text code : string) : HttpResponse :=
  MkResponse (pretty status) [("content-type", "text/plain")] text.

Lemma agent_keys_make_signatures_mandatory_witness :
  match start (crypto := demo_crypto) (demo_process agent_variables) with
  | Ok (Listening s _ _) =>
      forall handler, signed_router s plain_refusal handler
        (MkRequest "POST" "/api/v1/checkout" None None [] "") 1000 1000
      = sign_response (st_signing s)
          (plain_refusal 401 (signature_error_text Missing) (signature_error_code Missing)) 1000
  | _ => False
  end.
Proof.
  started_process. intros handler.
  apply (agent_keys_make_signatures_mandatory (demo_process agent_variables) s addr outbox).
  - exact Hs.
  - left. eexists. split; [reflexivity|]. vm_compute. discriminate.
  - reflexivity.
  - vm_compute. discriminate.
  - by left.
Defined.

Lemma production_responses_verify_witness :
  match start (crypto := demo_crypto) (demo_process production_variables) with
  | Ok (Listening s _ _) =>
      exists q, signed_router s plain_refusal (fun _ => MkResponse "200" [] "{}")
        (MkRequest "GET" "/api/v1/orders" None None [] "") 1000 1000 = Sent q
        /\ is_some (header (rp_headers q) SIGNATURE_HEADER) = true
  | _ => False
  end.
Proof.
  destruct (start (crypto := demo_crypto) (demo_process production_variables)) as [[url|s addr outbox]|e] eqn:Hs;
    [by vm_compute in Hs| |by vm_compute in Hs].
  destruct (production_responses_verify (demo_process production_variables) s addr outbox
    plain_refusal (fun _ => MkResponse "200" [] "{}")
    (MkRequest "GET" "/api/v1/orders" None None [] "") 1000 1000 1000 Hs eq_refl)
    as (ring & Hring & H).
  assert (active_kid ring = "k1" /\ st_inbound_keys s = None) as [Hk Hn].
  { revert Hring. vm_compute in Hs. injection Hs as <- _ _. by intros [= <-]. }
  assert (answer s plain_refusal (fun _ => MkResponse "200" [] "{}")
    (MkRequest "GET" "/api/v1/orders" None None [] "") 1000 = MkResponse "200" [] "{}") as Ha
    by (unfold answer; by rewrite Hn).
  rewrite Hk, Ha in H. destruct H as (q & i & g & Hq & _ & Hg & _).
  - split; [discriminate|reflexivity].
  - reflexivity.
  - unfold in_i64, i64_min, i64_max. lia.
  - vm_compute. discriminate.
  - constructor.
  - reflexivity.
  - vm_compute. discriminate.
  - exists q. rewrite Hg. split; [exact Hq|reflexivity].
Defined.
