(* ===== verification/Mcp.v ===== *)
(** * The MCP server ([crates/orchestrator-mcp/src]: [tools.rs], [jsonrpc.rs]; [mcp_message] of
    [routes/v1.rs])

    JSON-RPC requests, the negotiation of a protocol version and the dispatch of tools to
    the facade.  The JSON of the contract types is derived by [serde] and is an argument. *)

From S2P Require Export Facade JsonValue.

(** ** JSON-RPC ([jsonrpc.rs]) *)

Record JsonRpcRequest := MkRpcRequest {
  jq_jsonrpc : string; jq_id : Value; jq_method : string; jq_params : option Value }.

Record JsonRpcError := MkRpcError { je_code : Z; je_message : string; je_data : option Value }.

Record JsonRpcResponse := MkRpcResponse {
  jr_jsonrpc : string; jr_id : Value; jr_result : option Value; jr_error : option JsonRpcError }.

Definition rpc_success (id result : Value) : JsonRpcResponse :=
  MkRpcResponse "2.0" id (Some result) None.
Definition rpc_error (id : Value) (code : Z) (message : string) : JsonRpcResponse :=
  MkRpcResponse "2.0" id None (Some (MkRpcError code message None)).
Definition rpc_error_with_data (id : Value) (code : Z) (message : string) (data : Value)
  : JsonRpcResponse :=
  MkRpcResponse "2.0" id None (Some (MkRpcError code message (Some data))).

Definition INVALID_REQUEST : Z := -32600.
Definition METHOD_NOT_FOUND : Z := -32601.
Definition INTERNAL_ERROR : Z := -32603.
Definition UNSUPPORTED_PROTOCOL_VERSION : Z := -32022.

(** ** Versions *)

Definition MCP_MODERN_VERSION : string := "2026-07-28".
Definition MCP_LEGACY_VERSION : string := "2024-11-05".
Definition MCP_LEGACY_2025_VERSION : string := "2025-11-25".
Definition MCP_SUPPORTED_VERSIONS : list string :=
  [MCP_MODERN_VERSION; MCP_LEGACY_2025_VERSION; MCP_LEGACY_VERSION].

Definition extract_meta_protocol_version (request : JsonRpcRequest) : option string :=
  params ← jq_params request;
  meta ← vget params "_meta";
  v ← or_else (vget meta "io.modelcontextprotocol/protocolVersion") (vget meta "protocolVersion");
  as_str v.

Definition match_supported (version : string) : option string :=
  find_first (fun v => String.eqb v version) MCP_SUPPORTED_VERSIONS.

(** [.map(str::trim).filter(|v| !v.is_empty())]. *)
Definition non_blank (v : option string) : option string :=
  match v with
  | Some v => let v := str_trim v in if str_is_empty v then None else Some v
  | None => None
  end.

Definition negotiate_mcp_version (header_version meta_version : option string)
    (request : JsonRpcRequest) : result string string :=
  match or_else (non_blank header_version) (non_blank meta_version) with
  | Some v => ok_or (match_supported v) v
  | None =>
      if String.eqb (jq_method request) "initialize"
         || String.eqb (jq_method request) "notifications/initialized"
      then Ok MCP_LEGACY_VERSION
      else if String.eqb (jq_method request) "server/discover" then Ok MCP_MODERN_VERSION
      else Ok MCP_LEGACY_VERSION
  end.

(** ** Tool definitions *)

Record ToolDefinition := MkTool {
  td_name : string; td_description : string; td_input_schema : Value }.

Definition typed (t : string) : Value := VObject [("type", VString t)].
Definition strings (xs : list string) : Value := VArray (map VString xs).
Definition string_fields (names : list string) : list (string * Value) :=
  map (fun n => (n, typed "string")) names.
Definition string_array : Value :=
  VObject [("type", VString "array"); ("items", typed "string")].

Definition object_schema (properties : list (string * Value)) (required : list string) : Value :=
  VObject [("type", VString "object"); ("properties", VObject properties);
           ("required", strings required)].

(** The three payment tools share their schema. *)
Definition payment_schema : Value :=
  object_schema
    (string_fields ["tenant_id"; "merchant_id"; "transaction_id"]
     ++ [("amount_minor", typed "integer"); ("idempotency_key", typed "string")])
    ["tenant_id"; "merchant_id"; "transaction_id"; "amount_minor"; "idempotency_key"].

Definition fulfillment_schema : Value :=
  object_schema
    [("cart_id", typed "string");
     ("method_type", VObject [("type", VString "string"); ("enum", strings ["shipping"; "pickup"])]);
     ("destination", VObject
        [("type", VString "object");
         ("description", VString
            "Shipping address, or the retail location for pickup (name is then required).");
         ("properties", VObject (string_fields
            ["id"; "name"; "street_address"; "extended_address"; "address_locality";
             "address_region"; "address_country"; "postal_code"; "first_name"; "last_name";
             "phone_number"]));
         ("required", strings ["id"])]);
     ("line_item_ids", VObject
        [("type", VString "array"); ("items", typed "string");
         ("description", VString "Lines this selection covers; omit to cover the whole cart.")]);
     ("selected_option_id", VObject
        [("type", VString "string");
         ("description", VString "Must be an option id the merchant quoted for this cart.")])]
    ["cart_id"; "method_type"; "destination"].

Definition list_tools : list ToolDefinition := [
  MkTool "create_cart" "Create a new shopping cart"
    (object_schema (string_fields ["merchant_id"; "currency"]) ["merchant_id"; "currency"]);
  MkTool "add_item" "Add an item to a cart"
    (object_schema (string_fields ["cart_id"; "item_id"] ++ [("quantity", typed "integer")])
       ["cart_id"; "item_id"; "quantity"]);
  MkTool "update_item_qty" "Update item quantity in a cart"
    (object_schema (string_fields ["cart_id"; "line_id"] ++ [("quantity", typed "integer")])
       ["cart_id"; "line_id"; "quantity"]);
  MkTool "remove_item" "Remove an item from a cart"
    (object_schema (string_fields ["cart_id"; "line_id"]) ["cart_id"; "line_id"]);
  MkTool "apply_adjustment" "Apply a discount or promo code"
    (object_schema (string_fields ["cart_id"; "code"]) ["cart_id"; "code"]);
  MkTool "set_fulfillment_selection"
    "Quote shipping or pickup options for a cart, and optionally select one. Omit selected_option_id to see the quotes before committing."
    fulfillment_schema;
  MkTool "get_cart" "Get current cart state"
    (object_schema (string_fields ["cart_id"]) ["cart_id"]);
  MkTool "start_checkout" "Mark cart as checkout-ready"
    (object_schema (string_fields ["cart_id"] ++ [("cart_version", typed "integer")])
       ["cart_id"; "cart_version"]);
  MkTool "execute_checkout" "Execute checkout for a cart"
    (object_schema
       (string_fields ["tenant_id"; "merchant_id"; "cart_id"] ++
        [("cart_version", typed "integer"); ("currency", typed "string");
         ("payment_intent", typed "object"); ("idempotency_key", typed "string")])
       ["tenant_id"; "merchant_id"; "cart_id"; "cart_version"; "currency"; "payment_intent";
        "idempotency_key"]);
  MkTool "get_order" "Retrieve an order by ID"
    (object_schema (string_fields ["order_id"]) ["order_id"]);
  MkTool "list_orders" "List orders for a tenant"
    (object_schema (string_fields ["tenant_id"]) ["tenant_id"]);
  MkTool "capture_payment" "Capture an authorized payment" payment_schema;
  MkTool "void_payment" "Void an authorized payment" payment_schema;
  MkTool "refund_payment" "Refund a captured payment" payment_schema;
  MkTool "lookup_catalog_item" "Look up a catalog item by ID"
    (object_schema (string_fields ["item_id"]) ["item_id"]);
  MkTool "lookup_catalog_items" "Look up multiple catalog items by ID"
    (object_schema [("item_ids", string_array)] ["item_ids"]);
  MkTool "search_catalog_items" "Search catalog items by query"
    (VObject [("type", VString "object");
              ("properties", VObject (string_fields ["query"]))])
].

(** ** Arguments *)

Definition missing (key : string) : string := "missing required field: " +:+ key.

Definition get_str (params : Value) (key : string) : result string string :=
  ok_or (vget params key ≫= as_str) (missing key).
Definition get_u64 (params : Value) (key : string) : result Z string :=
  ok_or (vget params key ≫= as_u64) (missing key).
Definition get_i64 (params : Value) (key : string) : result Z string :=
  ok_or (vget params key ≫= as_i64) (missing key).
Definition optional_str (params : Value) (key : string) : option string :=
  vget params key ≫= as_str.

Definition postal_address (d : Value) : PostalAddress := {|
  pa_street_address := optional_str d "street_address";
  pa_extended_address := optional_str d "extended_address";
  pa_address_locality := optional_str d "address_locality";
  pa_address_region := optional_str d "address_region";
  pa_address_country := optional_str d "address_country";
  pa_postal_code := optional_str d "postal_code";
  pa_first_name := optional_str d "first_name";
  pa_last_name := optional_str d "last_name";
  pa_phone_number := optional_str d "phone_number"
|}.

Definition parse_method_type (s : string) : result FulfillmentMethodType string :=
  if String.eqb s "shipping" then Ok Shipping
  else if String.eqb s "pickup" then Ok Pickup
  else Err ("unsupported method_type: " +:+ s).

Definition fulfillment_selection_payload (args : Value)
  : result SetFulfillmentSelectionPayload string :=
  result_bind (get_str args "method_type") (fun m =>
  result_bind (parse_method_type m) (fun method_type =>
  result_bind (ok_or (vget args "destination") (missing "destination")) (fun destination =>
  result_bind (get_str destination "id") (fun id =>
  let address := postal_address destination in
  result_bind
    (match method_type with
     | Pickup =>
         result_bind (ok_or (optional_str destination "name") "destination.name is required for pickup")
           (fun name => Ok (DestRetail id name (Some address)))
     | Shipping => Ok (DestShipping id address)
     end) (fun dest =>
  result_bind
    (match vget args "line_item_ids" ≫= as_array with
     | Some xs => all_strings "line_item_ids must contain only strings" xs
     | None => Ok []
     end) (fun line_item_ids =>
  Ok (MkSetFulfillment method_type line_item_ids dest
        (optional_str args "selected_option_id")))))))).

(** ** Dispatch *)

(** [serde_json::to_value], [to_string] and [from_value] of the contract types, and the
    [Display] of the facade's errors. *)
Class McpSerde := {
  cart_to_value : CartProjection -> result Value string;
  transaction_to_value : TransactionResult -> result Value string;
  order_to_value : OrderRecord -> result Value string;
  orders_to_value : list OrderRecord -> result Value string;
  items_to_value : list CatalogItem -> result Value string;
  order_to_string : OrderRecord -> result string string;
  cart_to_string : CartProjection -> result string string;
  intent_from_value : Value -> result PaymentIntent string;
  facade_error_display : FacadeError -> string
}.

Section server.
Context {B : Backend} {serde : McpSerde} (env : Env) (parse_proof : string -> option ConsentProof)
  (issuers : option string) (parse_uuid : string -> result Uuid string)
  (crate_version : string) (self : OrchestratorFacade B).

(** An operation that answers a JSON value or the text of an error. *)
Definition T (A : Type) : Type := ST (World B) string A.

(** [.map_err(|e| e.to_string())?] on a facade call. *)
Definition told {A} (m : F (B:=B) A) : T A := fun w =>
  (map_err facade_error_display (fst (m w)), snd (m w)).

Definition mcp_cart_id (args : Value) : result CartId string :=
  result_bind (get_str args "cart_id") (fun s =>
  result_bind (parse_uuid s) (fun u => Ok (MkCartId u))).

(** A cart command for the caller's tenant, and its cart as JSON. *)
Definition run_command (auth : AuthContext) (cmd : CartCommand) (cart_id : option CartId)
  : T Value :=
  proj ← told (dispatch_cart_command_for_tenant env self (ax_tenant_id auth) cmd cart_id);
  st_lift (cart_to_value proj).

(** The command of a cart tool and the cart it is for. *)
Definition cart_tool (name : string) (args : Value) (auth : AuthContext)
  : option (result (CartCommand * option CartId) string) :=
  let on_cart (f : CartId -> result CartCommand string) :=
    Some (result_bind (mcp_cart_id args) (fun c => result_bind (f c) (fun cmd => Ok (cmd, Some c)))) in
  if String.eqb name "create_cart" then
    Some (result_bind (get_str args "merchant_id") (fun m =>
          result_bind (get_str args "currency") (fun cur =>
          Ok (CreateCart (MkCreateCart m cur (Some (ax_tenant_id auth))), None))))
  else if String.eqb name "add_item" then
    on_cart (fun _ => result_bind (get_str args "item_id") (fun i =>
                      result_bind (get_u64 args "quantity") (fun q =>
                      Ok (AddItem (MkAddItem i (u32_wrap q))))))
  else if String.eqb name "update_item_qty" then
    on_cart (fun _ => result_bind (get_str args "line_id") (fun l =>
                      result_bind (get_u64 args "quantity") (fun q =>
                      Ok (UpdateItemQty (MkUpdateItemQty l (u32_wrap q))))))
  else if String.eqb name "remove_item" then
    on_cart (fun _ => result_bind (get_str args "line_id") (fun l =>
                      Ok (RemoveItem (MkRemoveItem l))))
  else if String.eqb name "apply_adjustment" then
    on_cart (fun _ => result_bind (get_str args "code") (fun c =>
                      Ok (ApplyAdjustment (MkApplyAdjustment c))))
  else if String.eqb name "set_fulfillment_selection" then
    on_cart (fun _ => result_bind (fulfillment_selection_payload args) (fun p =>
                      Ok (SetFulfillmentSelection p)))
  else if String.eqb name "get_cart" then on_cart (fun c => Ok (GetCart (MkGetCart c)))
  else if String.eqb name "start_checkout" then
    on_cart (fun c => result_bind (get_u64 args "cart_version") (fun v =>
                      Ok (StartCheckout (MkStartCheckout c v))))
  else None.

Definition mcp_checkout_request (args : Value) : result CheckoutRequest string :=
  result_bind (get_str args "tenant_id") (fun tenant =>
  result_bind (get_str args "merchant_id") (fun merchant =>
  result_bind (mcp_cart_id args) (fun cart =>
  result_bind (get_u64 args "cart_version") (fun version =>
  result_bind (get_str args "currency") (fun currency =>
  result_bind (ok_or (vget args "payment_intent") "missing payment_intent") (fun intent =>
  result_bind (intent_from_value intent) (fun intent =>
  result_bind (get_str args "idempotency_key") (fun key =>
  Ok (MkCheckoutRequest tenant merchant cart version currency None None intent key))))))))).

Definition mcp_payment_request (args : Value) : result PaymentLifecycleRequest string :=
  result_bind (get_str args "tenant_id") (fun tenant =>
  result_bind (get_str args "merchant_id") (fun merchant =>
  result_bind (get_str args "transaction_id") (fun txn =>
  result_bind (get_i64 args "amount_minor") (fun amount =>
  result_bind (get_str args "idempotency_key") (fun key =>
  Ok (MkPaymentLifecycleRequest tenant merchant txn amount key)))))).

Definition payment_tool (args : Value)
    (run : PaymentLifecycleRequest -> F (B:=B) PaymentOperationResult) : T Value :=
  request ← st_lift (mcp_payment_request args);
  op_result ← told (run request);
  mret (VObject [("success", VBool (po_success op_result));
                 ("reference", VString (po_reference op_result))]).

Definition dispatch_tool (name : string) (args : Value) (auth : AuthContext) : T Value :=
  match cart_tool name args auth with
  | Some command => c ← st_lift command; run_command auth (fst c) (snd c)
  | None =>
  if String.eqb name "execute_checkout" then
    request ← st_lift (mcp_checkout_request args);
    res ← told (execute_checkout_authorized env parse_proof issuers self auth request);
    st_lift (transaction_to_value res)
  else if String.eqb name "get_order" then
    order_id ← st_lift (get_str args "order_id");
    order ← told (facade_get_order order_id);
    order ← st_lift (ok_or order "order not found");
    st_lift (order_to_value order)
  else if String.eqb name "list_orders" then
    tenant_id ← st_lift (get_str args "tenant_id");
    orders ← told (facade_list_orders tenant_id);
    st_lift (orders_to_value orders)
  else if String.eqb name "capture_payment" then payment_tool args (facade_capture_payment self)
  else if String.eqb name "void_payment" then payment_tool args (facade_void_payment self)
  else if String.eqb name "refund_payment" then payment_tool args (facade_refund_payment self)
  else if String.eqb name "lookup_catalog_item" then
    item_id ← st_lift (get_str args "item_id");
    item ← told (facade_lookup_catalog_item self item_id);
    mret (VObject [("id", VString (ci_id item)); ("title", VString (ci_title item));
                   ("price_minor", VInt (ci_price_minor item))])
  else if String.eqb name "lookup_catalog_items" then
    xs ← st_lift (ok_or (vget args "item_ids" ≫= as_array) (missing "item_ids"));
    item_ids ← st_lift (all_strings "item_ids must contain only strings" xs);
    items ← told (facade_lookup_catalog_items self item_ids);
    st_lift (items_to_value items)
  else if String.eqb name "search_catalog_items" then
    items ← told (facade_search_catalog_items self (optional_str args "query"));
    st_lift (items_to_value items)
  else st_fail ("unknown tool: " +:+ name)
  end.

Definition resource_contents (uri text : string) : Value :=
  VObject [("contents", VArray [VObject [("uri", VString uri);
             ("mimeType", VString "application/json"); ("text", VString text)]])].

Definition read_resource (uri : string) (auth : AuthContext) : T Value :=
  match strip_prefix "order://" uri with
  | Some order_id =>
      order ← told (facade_get_order order_id);
      order ← st_lift (ok_or order "order not found");
      text ← st_lift (order_to_string order);
      mret (resource_contents uri text)
  | None =>
      match strip_prefix "cart://" uri with
      | Some cart_id =>
          u ← st_lift (parse_uuid cart_id);
          proj ← told (dispatch_cart_command_for_tenant env self (ax_tenant_id auth)
                         (GetCart (MkGetCart (MkCartId u))) (Some (MkCartId u)));
          text ← st_lift (cart_to_string proj);
          mret (resource_contents uri text)
      | None => st_fail ("unsupported resource URI: " +:+ uri)
      end
  end.

(** ** Methods *)

Definition server_info : Value :=
  VObject [("name", VString "commerce-orchestrator"); ("version", VString crate_version)].

Definition server_capabilities : Value :=
  VObject [("tools", VObject [("listChanged", VBool false)]);
           ("resources", VObject [("subscribe", VBool false); ("listChanged", VBool false)])].

Definition server_discover_payload : Value :=
  VObject [("protocolVersions", strings MCP_SUPPORTED_VERSIONS);
           ("capabilities", server_capabilities); ("serverInfo", server_info)].

Definition tool_to_value (t : ToolDefinition) : Value :=
  VObject [("name", VString (td_name t)); ("description", VString (td_description t));
           ("input_schema", td_input_schema t)].

Definition resource (uri name description : string) : Value :=
  VObject [("uri", VString uri); ("name", VString name); ("description", VString description);
           ("mimeType", VString "application/json")].

(** What the match on the method answers: a result to wrap, or the whole response. *)
Inductive Method :=
| Answer (run : T Value)
| Refuse (code : Z) (message : string).

Definition mcp_method (negotiated : string) (request : JsonRpcRequest) (auth : AuthContext)
  : Method :=
  let params := unwrap_or (jq_params request) VNull in
  let method := jq_method request in
  if String.eqb method "server/discover" then Answer (mret server_discover_payload)
  else if String.eqb method "tools/list" then
    Answer (mret (VObject [("tools", VArray (map tool_to_value list_tools))]))
  else if String.eqb method "tools/call" then
    Answer (dispatch_tool (unwrap_or (vget params "name" ≫= as_str) "")
              (unwrap_or (vget params "arguments") VNull) auth)
  else if String.eqb method "resources/list" then
    Answer (mret (VObject [("resources", VArray
      [resource "order://{id}" "Order" "Retrieve an order by ID";
       resource "cart://{id}" "Cart" "Retrieve a cart by ID"])]))
  else if String.eqb method "resources/read" then
    Answer (read_resource (unwrap_or (vget params "uri" ≫= as_str) "") auth)
  else if String.eqb method "initialize" then
    if String.eqb negotiated MCP_MODERN_VERSION then
      Refuse METHOD_NOT_FOUND
        "initialize is not used in MCP 2026-07-28; call server/discover instead"
    else Answer (mret (VObject [("protocolVersion", VString negotiated);
                  ("capabilities", server_capabilities); ("serverInfo", server_info)]))
  else if String.eqb method "notifications/initialized" then Answer (mret (VObject []))
  else Refuse METHOD_NOT_FOUND ("method not found: " +:+ method).

(** The [_meta] a modern result carries. *)
Definition embed_meta (value : Value) : Value :=
  match value with
  | VObject fields =>
      let meta := unwrap_or (field fields "_meta") (VObject []) in
      let meta := match meta with
                  | VObject m =>
                      VObject (object_insert "io.modelcontextprotocol/protocolVersion"
                        (VString MCP_MODERN_VERSION)
                        (object_insert "io.modelcontextprotocol/serverInfo" server_info m))
                  | _ => meta
                  end in
      VObject (object_insert "_meta" meta fields)
  | _ => value
  end.

Definition same_version (a b : option string) : bool :=
  bool_decide ((str_trim <$> a) = (str_trim <$> b)).

Definition handle_mcp_request_with_version (request : JsonRpcRequest) (auth : AuthContext)
    (header_version : option string) (w : World B) : JsonRpcResponse * World B :=
  let id := jq_id request in
  let meta_version := extract_meta_protocol_version request in
  match negotiate_mcp_version header_version meta_version request with
  | Err requested =>
      (rpc_error_with_data id UNSUPPORTED_PROTOCOL_VERSION "Unsupported protocol version"
         (VObject [("supported", strings MCP_SUPPORTED_VERSIONS); ("requested", VString requested)]),
       w)
  | Ok negotiated =>
      if is_some header_version && is_some meta_version
         && negb (same_version header_version meta_version)
      then (rpc_error id INVALID_REQUEST
              "MCP-Protocol-Version header does not match params._meta protocolVersion", w)
      else
        match mcp_method negotiated request auth with
        | Refuse code message => (rpc_error id code message, w)
        | Answer run =>
            match run w with
            | (Ok value, w) =>
                (rpc_success id
                   (if String.eqb negotiated MCP_MODERN_VERSION then embed_meta value else value), w)
            | (Err err, w) => (rpc_error id INTERNAL_ERROR err, w)
            end
        end
  end.
End server.

(** ** Responses *)

Section responses.
Context {B : Backend} {serde : McpSerde} (env : Env) (parse_proof : string -> option ConsentProof)
  (issuers : option string) (parse_uuid : string -> result Uuid string)
  (crate_version : string) (self : OrchestratorFacade B).

Abbreviation handle :=
  (handle_mcp_request_with_version env parse_proof issuers parse_uuid crate_version self).
Abbreviation dispatch := (dispatch_tool env parse_proof issuers parse_uuid self).

(** A response is a result or an error, never both. *)
Definition succeeded (r : JsonRpcResponse) (v : Value) : Prop :=
  jr_result r = Some v /\ jr_error r = None.
Definition failed (r : JsonRpcResponse) (code : Z) (data : option Value) : Prop :=
  jr_result r = None /\ exists message, jr_error r = Some (MkRpcError code message data).

(** The version a request asks for: that of the header, or else of the parameters; blank ones do
    not count. *)
Definition asked_version (request : JsonRpcRequest) (header_version : option string)
  : option string :=
  or_else (non_blank header_version) (non_blank (extract_meta_protocol_version request)).

(** The version is one of the three, and header and parameters do not contradict each other. *)
Definition version_accepted (request : JsonRpcRequest) (header_version : option string) : Prop :=
  (forall v, asked_version request header_version = Some v ->
     v ∈ ["2026-07-28"; "2025-11-25"; "2024-11-05"])
  /\ forall h m, header_version = Some h -> extract_meta_protocol_version request = Some m ->
       str_trim h = str_trim m.

(** The answer a request gets, by its version and its method. *)
Inductive answered (request : JsonRpcRequest) (auth : AuthContext) (header_version : option string)
    (w : World B) (r : JsonRpcResponse) : World B -> Prop :=
| answered_unsupported v :
    asked_version request header_version = Some v ->
    v ∉ ["2026-07-28"; "2025-11-25"; "2024-11-05"] ->
    failed r (-32022) (Some (VObject
      [("supported", VArray [VString "2026-07-28"; VString "2025-11-25"; VString "2024-11-05"]);
       ("requested", VString v)])) ->
    answered request auth header_version w r w
| answered_contradiction h m :
    (forall v, asked_version request header_version = Some v ->
       v ∈ ["2026-07-28"; "2025-11-25"; "2024-11-05"]) ->
    header_version = Some h -> extract_meta_protocol_version request = Some m ->
    str_trim h <> str_trim m -> failed r (-32600) None ->
    answered request auth header_version w r w
| answered_unknown :
    version_accepted request header_version ->
    jq_method request ∉ ["server/discover"; "tools/list"; "tools/call"; "resources/list";
      "resources/read"; "initialize"; "notifications/initialized"]
    \/ jq_method request = "initialize"
       /\ asked_version request header_version = Some "2026-07-28" ->
    failed r (-32601) None -> answered request auth header_version w r w
| answered_listed v :
    version_accepted request header_version ->
    jq_method request ∈ ["server/discover"; "tools/list"; "resources/list"; "initialize";
      "notifications/initialized"] ->
    (jq_method request = "initialize" -> asked_version request header_version <> Some "2026-07-28") ->
    succeeded r v -> answered request auth header_version w r w
| answered_run run v :
    version_accepted request header_version ->
    (let params := unwrap_or (jq_params request) VNull in
     (jq_method request = "tools/call"
      /\ run = dispatch (unwrap_or (vget params "name" ≫= as_str) "")
                 (unwrap_or (vget params "arguments") VNull) auth)
     \/ (jq_method request = "resources/read"
         /\ run = read_resource env parse_uuid self
                    (unwrap_or (vget params "uri" ≫= as_str) "") auth)) ->
    snd (run w) = v ->
    match fst (run w) with
    | Ok value =>
        succeeded r (if decide (asked_version request header_version = Some "2026-07-28")
                     then embed_meta crate_version value else value)
    | Err e => jr_result r = None /\ jr_error r = Some (MkRpcError (-32603) e None)
    end ->
    answered request auth header_version w r v.

Lemma negotiated_version request header_version :
  match negotiate_mcp_version header_version (extract_meta_protocol_version request) request with
  | Ok v => (forall x, asked_version request header_version = Some x ->
      x = v /\ x ∈ ["2026-07-28"; "2025-11-25"; "2024-11-05"])
      /\ (asked_version request header_version = None ->
          jq_method request <> "server/discover" -> v = "2024-11-05")
  | Err v => asked_version request header_version = Some v
      /\ v ∉ ["2026-07-28"; "2025-11-25"; "2024-11-05"]
  end.
Proof.
  unfold negotiate_mcp_version. fold (asked_version request header_version).
  destruct (asked_version request header_version) as [v|].
  - unfold match_supported. destruct (find_first _ _) as [x|] eqn:Hf; cbn.
    + apply find_some in Hf as [Hin He]. apply String.eqb_eq in He as ->.
      split; [|done]. intros y [= <-]. split; [done|]. by apply list_elem_of_In.
    + split; [done|]. intros Hin%list_elem_of_In. pose proof (find_none _ _ Hf _ Hin) as H.
      cbv beta in H. by rewrite String.eqb_refl in H.
  - destruct (_ || _); [done|]. destruct (String.eqb_spec (jq_method request) "server/discover");
      cbn; split; done.
Qed.

Lemma method_answered negotiated request auth header_version w r v :
  version_accepted request header_version ->
  (forall x, asked_version request header_version = Some x -> x = negotiated) ->
  (asked_version request header_version = None ->
     jq_method request <> "server/discover" -> negotiated = "2024-11-05") ->
  (match mcp_method env parse_proof issuers parse_uuid crate_version self negotiated request auth with
   | Refuse code message => (rpc_error (jq_id request) code message, w)
   | Answer run =>
       match run w with
       | (Ok value, w) =>
           (rpc_success (jq_id request)
              (if String.eqb negotiated MCP_MODERN_VERSION then embed_meta crate_version value
               else value), w)
       | (Err err, w) => (rpc_error (jq_id request) INTERNAL_ERROR err, w)
       end
   end) = (r, v) ->
  answered request auth header_version w r v.
Proof.
  intros Hacc Hasked Hnone. unfold mcp_method. set (method := jq_method request) in *.
  assert (method <> "server/discover" ->
    (if String.eqb negotiated MCP_MODERN_VERSION then true else false)
    = bool_decide (asked_version request header_version = Some "2026-07-28")) as Hmod.
  { intros Hm. destruct (asked_version request header_version) as [x|] eqn:Hx.
    - rewrite <- (Hasked x eq_refl). unfold MCP_MODERN_VERSION.
      destruct (String.eqb_spec x "2026-07-28") as [->|Hne]; [done|].
      symmetry. apply bool_decide_eq_false. congruence.
    - rewrite (Hnone eq_refl Hm). done. }
  assert (forall run, (let params := unwrap_or (jq_params request) VNull in
     (method = "tools/call" /\ run = dispatch (unwrap_or (vget params "name" ≫= as_str) "")
                 (unwrap_or (vget params "arguments") VNull) auth)
     \/ (method = "resources/read" /\ run = read_resource env parse_uuid self
                    (unwrap_or (vget params "uri" ≫= as_str) "") auth)) ->
    method <> "server/discover" ->
    match run w with
    | (Ok value, w) =>
        (rpc_success (jq_id request)
           (if String.eqb negotiated MCP_MODERN_VERSION then embed_meta crate_version value
            else value), w)
    | (Err err, w) => (rpc_error (jq_id request) INTERNAL_ERROR err, w)
    end = (r, v) -> answered request auth header_version w r v) as Hrun.
  { intros run Hr Hne H. specialize (Hmod Hne).
    apply (answered_run _ _ _ _ _ run); [done|exact Hr|..];
      destruct (run w) as [[value|e] u]; injection H as <- <-; try done.
    cbn. split; [|done]. do 2 f_equal. destruct (String.eqb negotiated _);
      symmetry in Hmod; [apply bool_decide_eq_true in Hmod|apply bool_decide_eq_false in Hmod];
      by case_decide. }
  assert (forall value, method ∈ ["server/discover"; "tools/list"; "resources/list"; "initialize";
      "notifications/initialized"] ->
    (method = "initialize" -> asked_version request header_version <> Some "2026-07-28") ->
    (rpc_success (jq_id request)
           (if String.eqb negotiated MCP_MODERN_VERSION then embed_meta crate_version value
            else value), w) = (r, v) -> answered request auth header_version w r v) as Hlist.
  { intros value Hm Hi [= <- <-]. by eapply answered_listed. }
  destruct (String.eqb_spec method "server/discover") as [Hm|H1];
    [apply Hlist; rewrite Hm; [by left|done]|].
  destruct (String.eqb_spec method "tools/list") as [Hm|H2];
    [apply Hlist; rewrite Hm; [by right; left|done]|].
  destruct (String.eqb_spec method "tools/call") as [Hm|H3];
    [apply Hrun; [by left|by rewrite Hm]|].
  destruct (String.eqb_spec method "resources/list") as [Hm|H4];
    [apply Hlist; rewrite Hm; [by do 2 right; left|done]|].
  destruct (String.eqb_spec method "resources/read") as [Hm|H5];
    [apply Hrun; [by right|by rewrite Hm]|].
  destruct (String.eqb_spec method "initialize") as [Hm|H6].
  { specialize (Hmod H1). destruct (String.eqb negotiated MCP_MODERN_VERSION).
    - intros [= <- <-]. symmetry in Hmod. apply bool_decide_eq_true in Hmod.
      apply answered_unknown; [done|by right|]. split; [done|by eexists].
    - symmetry in Hmod. apply bool_decide_eq_false in Hmod.
      apply Hlist; [rewrite Hm; by do 3 right; left|done]. }
  destruct (String.eqb_spec method "notifications/initialized") as [Hm|H7];
    [apply Hlist; rewrite Hm; [by do 4 right; left|done]|].
  intros [= <- <-]. apply answered_unknown; [done| |split; [done|by eexists]]. left.
  fold method. rewrite !not_elem_of_cons. split_and!; try done. by intros ?%elem_of_nil.
Qed.

(** C36: whatever an agent sends, under any version and to any backend, the answer is of version 2.0,
    has the id of the request, and is a result or an error.  A version that is none of the three is
    refused with code -32022 and the supported ones as data; versions that contradict each other
    with -32600; an unknown method, and [initialize] under the version without it, with -32601, all
    without an effect.  A tool call and a resource that is read are answered with the result, with
    the metadata of the modern version if that was asked for, exactly when they succeed, and with
    their message and -32603 when they fail; the methods that list and announce always succeed and
    have no effect. *)
Theorem mcp_response_well_formed request auth header_version w :
  let '(r, v) := handle request auth header_version w in
  jr_jsonrpc r = "2.0" /\ jr_id r = jq_id request
  /\ answered request auth header_version w r v.
Proof.
  unfold handle_mcp_request_with_version.
  pose proof (negotiated_version request header_version) as Hn.
  destruct (negotiate_mcp_version _ _ _) as [negotiated|v].
  2:{ split; [done|]. split; [done|]. destruct Hn as [Hv Hs].
      apply (answered_unsupported _ _ _ _ _ v); [done|done|]. split; [done|by eexists]. }
  destruct Hn as [Hasked Hnone]. unfold same_version.
  destruct (is_some header_version && is_some (extract_meta_protocol_version request)
    && negb (bool_decide _)) eqn:Hc.
  { apply andb_true_iff in Hc as [[Hh Hm]%andb_true_iff Hd%negb_true_iff].
    apply bool_decide_eq_false in Hd.
    destruct header_version as [h|] eqn:Eh, (extract_meta_protocol_version request) as [m|] eqn:Em;
      try done.
    do 2 (split; [done|]). eapply answered_contradiction; [intros x Hx; by apply Hasked|done|exact Em| |split; [done|by eexists]].
    intros He. apply Hd. cbn. by rewrite He. }
  assert (version_accepted request header_version) as Hacc.
  { split; [intros x Hx; by apply Hasked|]. intros h m Hh Hm. rewrite Hh, Hm in Hc. cbn in Hc.
    apply negb_false_iff, bool_decide_eq_true in Hc. by injection Hc. }
  destruct (match mcp_method _ _ _ _ _ _ _ _ _ with Answer _ => _ | Refuse _ _ => _ end)
    as [r v] eqn:Hr.
  assert (answered request auth header_version w r v) as Ha.
  { apply (method_answered negotiated); [done| |done|exact Hr]. intros x Hx. by apply Hasked. }
  assert (jr_jsonrpc r = "2.0" /\ jr_id r = jq_id request) as [Hj Hi].
  { destruct (mcp_method _ _ _ _ _ _ _ _ _) as [run|code m]; [|by injection Hr as <- _].
    by destruct (run w) as [[value|e] u]; injection Hr as <- _. }
  done.
Qed.

(** ** Tools and their schemas *)

Definition required_of (t : ToolDefinition) : list string :=
  match vget (td_input_schema t) "required" with
  | Some (VArray xs) => omap as_str xs
  | _ => []
  end.

Lemma get_str_absent args f : vget args f = None -> get_str args f = Err (missing f).
Proof. intros H. unfold get_str. by rewrite H. Qed.
Lemma get_u64_absent args f : vget args f = None -> get_u64 args f = Err (missing f).
Proof. intros H. unfold get_u64. by rewrite H. Qed.
Lemma get_i64_absent args f : vget args f = None -> get_i64 args f = Err (missing f).
Proof. intros H. unfold get_i64. by rewrite H. Qed.

(** The parsers of the arguments never succeed without the fields they need. *)
Definition fails {A} (r : result A string) : Prop := exists e, r = Err e.

Lemma and_then_fails {A C} (r : result A string) (f : A -> result C string) :
  fails r \/ (forall a, fails (f a)) -> fails (result_bind r f).
Proof.
  intros [[e ->]|Hf]; [by exists e|]. destruct r as [a|e]; cbn; [apply Hf|by exists e].
Qed.

Lemma fails_cart_id args : vget args "cart_id" = None -> fails (mcp_cart_id parse_uuid args).
Proof. intros H. unfold mcp_cart_id. rewrite get_str_absent by done. by eexists. Qed.

Lemma lift_fails {A C} (r : result A string) (f : A -> T C) w :
  fails r -> exists e, (st_lift r ≫= f) w = (Err e, w).
Proof. intros [e ->]. by exists e. Qed.

Ltac solve_fails :=
  match goal with
  | H : vget ?a ?f = None |- fails (get_str ?a ?f) => rewrite (get_str_absent a f H); by eexists
  | H : vget ?a ?f = None |- fails (get_u64 ?a ?f) => rewrite (get_u64_absent a f H); by eexists
  | H : vget ?a ?f = None |- fails (get_i64 ?a ?f) => rewrite (get_i64_absent a f H); by eexists
  | H : vget ?a ?f = None |- fails (ok_or (vget ?a ?f) _) => rewrite H; by eexists
  | H : vget ?a ?f = None |- fails (ok_or (vget ?a ?f ≫= _) _) => rewrite H; by eexists
  | |- fails (mcp_cart_id _ _) => by apply fails_cart_id
  | |- fails (fulfillment_selection_payload _) => unfold fulfillment_selection_payload; solve_fails
  | |- fails (result_bind _ _) =>
      apply and_then_fails; first [left; solve [solve_fails] | right; intros ?; solve [solve_fails]]
  end.

(** C37: the published schemas tell the truth: a tool call that lacks an argument its schema
    requires is answered with an error and changes nothing, and so is a call of a tool that
    is not listed. *)
Theorem tool_schemas_are_enforced name args auth w :
  (name ∉ map td_name list_tools ->
     dispatch name args auth w = (Err ("unknown tool: " +:+ name), w))
  /\ forall t f, t ∈ list_tools -> td_name t = name -> f ∈ required_of t ->
       vget args f = None -> exists e, dispatch name args auth w = (Err e, w).
Proof.
  split.
  - intros Hn. cbn in Hn. rewrite !not_elem_of_cons in Hn. destruct_and! Hn.
    unfold dispatch_tool, cart_tool.
    repeat match goal with H : name <> ?t |- context [String.eqb name ?t] =>
      rewrite (proj2 (String.eqb_neq name t) H) end. done.
  - intros t f Ht <- Hf Hargs. unfold list_tools in Ht.
    repeat (apply elem_of_cons in Ht as [-> | Ht]); [..|by apply not_elem_of_nil in Ht];
      cbn in Hf; repeat (apply elem_of_cons in Hf as [-> | Hf]);
      try (by apply not_elem_of_nil in Hf);
      unfold dispatch_tool, payment_tool, mcp_checkout_request, mcp_payment_request;
      cbn [td_name cart_tool String.eqb Ascii.eqb Bool.eqb];
      apply lift_fails; solve_fails.
Qed.
End responses.

(** ** Tenants *)

Section tenants.
Context {B : Backend} {L : BackendLaws B} {serde : McpSerde} (env : Env)
  (parse_proof : string -> option ConsentProof) (issuers : option string)
  (parse_uuid : string -> result Uuid string) (self : OrchestratorFacade B).

Abbreviation dispatch := (dispatch_tool env parse_proof issuers parse_uuid self).
Implicit Types w v : World B.

(** The carts of the others are as they were. *)
Definition others_kept (tenant : string) w v : Prop :=
  forall c p, cart_snapshot c w = Some p -> cp_tenant_id p <> Some tenant ->
    cart_snapshot c v = Some p
    /\ get_cart_state c (w_events v) = get_cart_state c (w_events w)
    /\ es_events c (w_events v) = es_events c (w_events w).

Lemma others_kept_events tenant w v : w_events v = w_events w -> others_kept tenant w v.
Proof. intros He c p Hp _. unfold cart_snapshot in *. by rewrite He. Qed.

(** Programs that leave the carts alone. *)
Definition keeps_events {A} (m : T (B:=B) A) : Prop := forall w, w_events (snd (m w)) = w_events w.

Lemma keeps_bind {A C} (m : T (B:=B) A) (f : A -> T C) :
  keeps_events m -> (forall a, keeps_events (f a)) -> keeps_events (m ≫= f).
Proof.
  intros Hm Hf w. unfold mbind, ST_bind. specialize (Hm w). destruct (m w) as [[a|e] u]; [|done].
  cbn in Hm. rewrite <- Hm. apply Hf.
Qed.

Lemma keeps_lift {A} (r : result A string) : keeps_events (st_lift r).
Proof. done. Qed.

Lemma keeps_ret {A} (a : A) : keeps_events (mret a).
Proof. done. Qed.

Lemma keeps_told {A} (m : M (B:=B) A) :
  (forall w, w_events (snd (m w)) = w_events w) -> keeps_events (told (from_runner m)).
Proof. intros H w. exact (H w). Qed.

Lemma lifecycle_keeps c f st request w :
  w_events (snd (lifecycle_payment (B:=B) c f st request w)) = w_events w.
Proof.
  unfold lifecycle_payment, call, mbind, ST_bind. cbn. destruct (f _ _) as [r|e]; cbn; [|done].
  by destruct (po_success r).
Qed.

Lemma payment_tool_keeps args c f st :
  keeps_events (payment_tool args (fun r => from_runner (lifecycle_payment (B:=B) c f st r))).
Proof.
  apply keeps_bind; [apply keeps_lift|]. intros r. apply keeps_bind; [|intros; apply keeps_ret].
  apply keeps_told, lifecycle_keeps.
Qed.

(** Every tool but the cart tools and the checkout leaves the carts alone. *)
Lemma other_tools_keep name args auth :
  cart_tool parse_uuid name args auth = None -> name <> "execute_checkout" ->
  keeps_events (dispatch name args auth).
Proof.
  intros Hc Hx. unfold dispatch_tool. rewrite Hc, (proj2 (String.eqb_neq _ _) Hx).
  repeat case_match; try apply payment_tool_keeps;
    repeat (apply keeps_bind; [intros ?; reflexivity|intros ?]); intros ?; reflexivity.
Qed.

Lemma cart_tool_ids name args auth cmd id :
  cart_tool parse_uuid name args auth = Some (Ok (cmd, id)) -> ids_agree cmd id.
Proof.
  unfold cart_tool, result_bind, ids_agree.
  repeat case_match; intros; simplify_eq; cbn; auto.
Qed.

Lemma run_command_world auth cmd id w :
  snd (run_command env self auth cmd id w)
  = snd (dispatch_cart_command_for_tenant env self (ax_tenant_id auth) cmd id w).
Proof.
  unfold run_command, told, mbind, ST_bind. cbn.
  by destruct (fst (dispatch_cart_command_for_tenant _ _ _ _ _ w)).
Qed.

(** No tool an agent calls touches the carts of another tenant, nor the carts nobody
    owns; the checkout has its own theorem. *)
Theorem mcp_tools_keep_other_carts name args auth w r v :
  snapshots_ok (w_events w) ->
  cart_snapshot (MkCartId (uuid_at env (w_tick w))) w = None ->
  name <> "execute_checkout" ->
  dispatch name args auth w = (r, v) ->
  others_kept (ax_tenant_id auth) w v.
Proof.
  intros Hok Hfresh Hx Hrun. destruct (cart_tool parse_uuid name args auth) as [[[cmd id]|e]|] eqn:Hc.
  - destruct (dispatch_cart_command_for_tenant env self (ax_tenant_id auth) cmd id w)
      as [res u] eqn:Hd.
    destruct (dispatch_isolated env self _ _ _ _ _ _ Hok Hfresh (cart_tool_ids _ _ _ _ _ Hc) Hd)
      as [_ Hkept]. replace v with u; [exact Hkept|].
    unfold dispatch_tool in Hrun. rewrite Hc in Hrun. apply (f_equal snd) in Hrun.
    change (snd (run_command env self auth cmd id w) = v) in Hrun.
    by rewrite run_command_world, Hd in Hrun.
  - unfold dispatch_tool in Hrun. rewrite Hc in Hrun. injection Hrun as <- <-.
    by apply others_kept_events.
  - apply others_kept_events. by rewrite <- (other_tools_keep name args auth Hc Hx w), Hrun.
Qed.

(** The order and payment tools never ask who is calling: for every caller, of whatever
    tenant and with whatever scopes, they do the same, so an agent reads the orders of any
    tenant and captures, voids and refunds any payment. *)
Theorem mcp_order_and_payment_tools_ignore_caller name args auth auth' w :
  name ∈ ["get_order"; "list_orders"; "capture_payment"; "void_payment"; "refund_payment"] ->
  dispatch name args auth w = dispatch name args auth' w.
Proof.
  intros Hn. repeat (apply elem_of_cons in Hn as [-> | Hn]); [reflexivity..|].
  by apply not_elem_of_nil in Hn.
Qed.

(** Quantities are reduced modulo [2^32] without an error: a call that asks for [q]
    items runs the command for [q mod 2^32], so that a request for 4294967297 items adds
    one. *)
Theorem mcp_quantity_wraps args auth q c u i :
  vget args "quantity" = Some (VInt q) -> in_u64 q ->
  vget args "cart_id" = Some (VString c) -> parse_uuid c = Ok u ->
  vget args "item_id" = Some (VString i) ->
  dispatch "add_item" args auth
  = run_command env self auth (AddItem (MkAddItem i (q mod 2 ^ 32)%Z)) (Some (MkCartId u)).
Proof.
  intros Hq Hu Hc Hp Hi. unfold dispatch_tool. cbn [cart_tool String.eqb Ascii.eqb Bool.eqb].
  unfold mcp_cart_id, get_str, get_u64. rewrite Hc, Hi, Hq. cbn. rewrite Hp. cbn.
  unfold in_u64 in Hu. replace ((0 <=? q) && (q <=? u64_max))%Z with true by lia. done.
Qed.
End tenants.

(** ** Witnesses *)

Definition demo_serde : McpSerde := {|
  cart_to_value p := Ok (VInt (cp_total_minor p)); transaction_to_value _ := Ok VNull;
  order_to_value _ := Ok VNull; orders_to_value os := Ok (VInt (Z.of_nat (length os)));
  items_to_value _ := Ok VNull; order_to_string _ := Ok ""; cart_to_string _ := Ok "";
  intent_from_value _ := Err "no intent"; facade_error_display _ := "error"
|}.

(** The text of the id of the demo cart. *)
Definition demo_uuid (s : string) : result Uuid string :=
  if String.eqb s "0" then Ok 0%N else Err "not a uuid".

Abbreviation demo_tool :=
  (dispatch_tool (serde := demo_serde) demo_env no_proofs None demo_uuid (demo_facade false)).

(** A caller of another tenant, without any scope. *)
Definition stranger : AuthContext := MkAuthContext "eve" "t2" [].

Definition text_args (fields : list (string * string)) : Value :=
  VObject (map (fun kv => (fst kv, VString (snd kv))) fields).

Lemma tool_schemas_are_enforced_witness :
  demo_tool "drop_tables" VNull stranger filled_world = (Err "unknown tool: drop_tables", filled_world)
  /\ exists e, demo_tool "refund_payment" (text_args [("tenant_id", "t1")]) stranger filled_world
              = (Err e, filled_world).
Proof.
  split.
  - apply (proj1 (tool_schemas_are_enforced (serde := demo_serde) demo_env no_proofs None demo_uuid
      (demo_facade false) "drop_tables" VNull stranger filled_world)).
    apply (bool_decide_unpack _). vm_compute. exact I.
  - apply (proj2 (tool_schemas_are_enforced (serde := demo_serde) demo_env no_proofs None demo_uuid
      (demo_facade false) "refund_payment" (text_args [("tenant_id", "t1")]) stranger filled_world)
      (MkTool "refund_payment" "Refund a captured payment" payment_schema) "merchant_id").
    + do 13 apply list_elem_of_further. apply list_elem_of_here.
    + reflexivity.
    + apply list_elem_of_further, list_elem_of_here.
    + reflexivity.
Defined.

Definition one_more : Value :=
  VObject [("cart_id", VString "0"); ("item_id", VString "sku"); ("quantity", VInt 1)].

Lemma mcp_tools_keep_other_carts_witness :
  let v := snd (demo_tool "add_item" one_more stranger filled_world) in
  (cp_total_minor <$> cart_snapshot demo_cart v) = Some 2200%Z.
Proof.
  intros v.
  destruct (cart_snapshot demo_cart filled_world) as [p|] eqn:Hp; [|by vm_compute in Hp].
  assert (cp_tenant_id p = Some "t1" /\ cp_total_minor p = 2200%Z) as [Ht Htot].
  { apply (f_equal (fmap (fun p => (cp_tenant_id p, cp_total_minor p)))) in Hp. vm_compute in Hp.
    injection Hp as -> ->. split; reflexivity. }
  destruct (@mcp_tools_keep_other_carts _ memory_laws demo_serde demo_env no_proofs None demo_uuid
    (demo_facade false) "add_item" one_more stranger filled_world
    (fst (demo_tool "add_item" one_more stranger filled_world)) v filled_world_ok)
    with (c := demo_cart) (p := p) as [Hk _].
  - vm_compute. reflexivity.
  - discriminate.
  - exact (surjective_pairing (demo_tool "add_item" one_more stranger filled_world)).
  - exact Hp.
  - rewrite Ht. discriminate.
  - rewrite Hk. cbn. f_equal. exact Htot.
Defined.

(** The refund of a payment of [t1] by the stranger goes through. *)
Definition refund_args : Value :=
  VObject [("tenant_id", VString "t1"); ("merchant_id", VString "m1");
           ("transaction_id", VString "5"); ("amount_minor", VInt 2200);
           ("idempotency_key", VString "r1")].

Lemma mcp_order_and_payment_tools_ignore_caller_witness :
  demo_tool "refund_payment" refund_args stranger paid_world
    = demo_tool "refund_payment" refund_args (MkAuthContext "alice" "t1" []) paid_world
  /\ is_ok (fst (demo_tool "refund_payment" refund_args stranger paid_world)) = true
  /\ length (payments (snd (demo_tool "refund_payment" refund_args stranger paid_world)))
     = S (length (payments paid_world)).
Proof.
  split; [|split; vm_compute; reflexivity].
  apply mcp_order_and_payment_tools_ignore_caller.
  do 4 apply list_elem_of_further. apply list_elem_of_here.
Defined.

Lemma mcp_quantity_wraps_witness :
  let args := VObject [("cart_id", VString "0"); ("item_id", VString "sku");
                       ("quantity", VInt 4294967297)] in
  demo_tool "add_item" args (MkAuthContext "alice" "t1" []) filled_world
  = run_command (serde := demo_serde) demo_env (demo_facade false) (MkAuthContext "alice" "t1" [])
      (AddItem (MkAddItem "sku" 1)) (Some demo_cart) filled_world.
Proof.
  intros args.
  pose proof (mcp_quantity_wraps (serde := demo_serde) demo_env no_proofs None demo_uuid
    (demo_facade false) args (MkAuthContext "alice" "t1" []) 4294967297 "0" 0%N "sku") as H.
  rewrite H; [reflexivity|reflexivity| |reflexivity..]. split; vm_compute; discriminate.
Defined.
