(* ===== verification/Discovery.v ===== *)
(** * Discovery ([crates/orchestrator-core/src/capability.rs]; [crates/orchestrator-api/src]:
    [ucp_mapping.rs], [acp_mapping.rs]; [crates/orchestrator-http/src/routes]:
    [discovery.rs], [health.rs])

    The documents agents read before they call: the UCP profile in its three shapes, the
    ACP discovery document, and the two probes.  A [BTreeMap] is a [gmap]; the counters of
    the handlers and the URLs of other crates' documents are not modelled. *)

From S2P Require Export Server.
From S2P Require PaymentAdapter Mcp.

(** ** Capabilities ([capability.rs]) *)

Record CapabilityDescriptor := MkCapabilityDescriptor {
  cad_id : string; cad_version : string; cad_extends : option string }.

Record ServiceDescriptor := MkServiceDescriptor {
  sd_version : string; sd_spec_url : option string }.

Record CapabilityManifest := MkManifest {
  cm_version : string;
  cm_services : gmap string ServiceDescriptor;
  cm_capabilities : list CapabilityDescriptor
}.

Record UcpServiceBinding := MkServiceBinding {
  sb_version : string; sb_spec : string; sb_transport : string;
  sb_schema : option string; sb_endpoint : option string
}.

Record UcpCapabilityBinding := MkCapabilityBinding {
  cb_version : string; cb_spec : string; cb_schema : string;
  cb_extends : option (list string)
}.

Definition for_version (version : string) : CapabilityManifest := {|
  cm_version := version;
  cm_services :=
    {[ "shopping" := MkServiceDescriptor version (Some "https://ucp.dev/specs/shopping");
       "identity" := MkServiceDescriptor version (Some "https://ucp.dev/specs/identity-linking") ]};
  cm_capabilities :=
    [ MkCapabilityDescriptor "dev.ucp.shopping.checkout" version None;
      MkCapabilityDescriptor "dev.ucp.shopping.discount" version (Some "dev.ucp.shopping.checkout");
      MkCapabilityDescriptor "dev.ucp.shopping.fulfillment" version
        (Some "dev.ucp.shopping.checkout");
      MkCapabilityDescriptor "dev.ucp.identity.linking" version None ]
|}.

(** ** Profiles ([ucp_mapping.rs]) *)

Definition UCP_PREVIOUS_VERSION : string := "2026-04-08".
Definition MCP_SUPPORTED_VERSIONS : list string := ["2026-07-28"; "2025-11-25"; "2024-11-05"].

Record AdvertisedCapabilities := MkAdvertised {
  av_signing_keys : list SigningKeyDescriptor;
  av_identity_linking : bool;
  av_embedded_checkout : bool;
  av_payment_handlers : list (string * Value)
}.

Record OrchestratorExtensions := MkExtensions {
  oe_mcp_endpoint : string;
  oe_mcp_supported_versions : list string;
  oe_a2a_profile_version : string;
  oe_ap2_protocol_version : string;
  oe_acp_api_version : string;
  oe_acp_discovery : string;
  oe_a2a_agent_card : string;
  oe_capability_flags : gmap string bool
}.

Record UcpSection := MkUcpSection {
  us_version : string;
  us_supported_versions : option Value;
  us_services : option (gmap string (list UcpServiceBinding));
  us_capabilities : option (gmap string (list UcpCapabilityBinding));
  us_manifest : option CapabilityManifest;
  us_rest_endpoint : option string;
  us_mcp_endpoint : option string;
  us_capability_flags : option (gmap string bool);
  us_signing_keys : option (list SigningKeyDescriptor);
  us_payment_handlers : option Value;
  us_mcp_supported_versions : option (list string);
  us_a2a_profile_version : option string;
  us_ap2_protocol_version : option string;
  us_acp_api_version : option string
}.

Record WellKnownUcp := MkWellKnown {
  wk_ucp : UcpSection;
  wk_keys : option (list SigningKeyDescriptor);
  wk_orchestrator : option OrchestratorExtensions
}.

Record SpecSlugs := MkSlugs {
  sl_checkout : string; sl_cart : string; sl_catalog_lookup : string; sl_catalog_search : string;
  sl_order : string; sl_discount : string; sl_fulfillment : string; sl_identity_linking : string
}.

Definition LATEST_SLUGS : SpecSlugs :=
  MkSlugs "shopping/checkout" "shopping/cart" "shopping/catalog/lookup" "shopping/catalog/search"
    "shopping/order" "shopping/extensions/discount" "shopping/extensions/fulfillment"
    "common/identity-linking".

Definition PREVIOUS_SLUGS : SpecSlugs :=
  MkSlugs "checkout" "cart" "catalog/lookup" "catalog/search" "order" "checkout/discounts"
    "fulfillment" "identity-linking".

Definition spec_url (version slug : string) : string :=
  "https://ucp.dev/" +:+ version +:+ "/specification/" +:+ slug.

Definition capability (version spec_slug schema_path : string) (extends : option (list string))
  : UcpCapabilityBinding :=
  MkCapabilityBinding version (spec_url version spec_slug)
    ("https://ucp.dev/" +:+ version +:+ "/schemas/" +:+ schema_path) extends.

Definition checkout_and_cart : option (list string) :=
  Some ["dev.ucp.shopping.checkout"; "dev.ucp.shopping.cart"].

Definition core_capabilities (version : string) (advertised : AdvertisedCapabilities)
    (slugs : SpecSlugs) : gmap string (list UcpCapabilityBinding) :=
  let capabilities : gmap string (list UcpCapabilityBinding) :=
    {[ "dev.ucp.shopping.checkout" :=
         [capability version (sl_checkout slugs) "shopping/checkout.json" None];
       "dev.ucp.shopping.cart" := [capability version (sl_cart slugs) "shopping/cart.json" None];
       "dev.ucp.shopping.catalog.lookup" :=
         [capability version (sl_catalog_lookup slugs) "shopping/catalog_lookup.json" None];
       "dev.ucp.shopping.catalog.search" :=
         [capability version (sl_catalog_search slugs) "shopping/catalog_search.json" None];
       "dev.ucp.shopping.order" := [capability version (sl_order slugs) "shopping/order.json" None];
       "dev.ucp.shopping.discount" :=
         [capability version (sl_discount slugs) "shopping/discount.json" checkout_and_cart];
       "dev.ucp.shopping.fulfillment" :=
         [capability version (sl_fulfillment slugs) "shopping/fulfillment.json" checkout_and_cart]
    ]} in
  if av_identity_linking advertised then
    <[ "dev.ucp.common.identity_linking" :=
         [capability version (sl_identity_linking slugs) "common/identity_linking.json" None] ]>
      capabilities
  else capabilities.

(** [(!keys.is_empty()).then(|| keys)]. *)
Definition unless_empty {A} (xs : list A) : option (list A) :=
  match xs with [] => None | _ => Some xs end.

Definition capability_flags (advertised : AdvertisedCapabilities) : gmap string bool :=
  {[ "dev.ucp.payments.mpp" := true;
     "dev.ucp.security.signatures" := is_some (unless_empty (av_signing_keys advertised));
     "dev.ucp.shopping.checkout.embedded" := av_embedded_checkout advertised;
     "dev.ucp.shopping.fulfillment" := true;
     "dev.ucp.common.identity_linking" := av_identity_linking advertised ]}.

(** [UcpSection::new(version)] under the fields that override it. *)
Definition section_new (version : string) : UcpSection :=
  MkUcpSection version None None None None None None None None None None None None None.

Definition ucp_docs (version path : string) : option string :=
  Some ("https://ucp.dev/" +:+ version +:+ "/services/shopping/" +:+ path).

(** The links to the other versions of the profile. *)
Definition version_link (base version : string) : string :=
  base +:+ "/.well-known/ucp?ucp_version=" +:+ version.

Definition supported_versions (base version : string) : list (string * Value) :=
  map (fun v => (v, VString (version_link base v)))
    (List.filter (fun v => negb (String.eqb v version)) UCP_SUPPORTED_VERSIONS).

Definition latest_profile (base : string) (advertised : AdvertisedCapabilities) : WellKnownUcp :=
  let version := UCP_LATEST_VERSION in
  let shopping :=
    MkServiceBinding version (spec_url version "overview") "rest"
      (ucp_docs version "rest.openapi.json") (Some (base +:+ "/api/v1/ucp"))
    :: (if av_embedded_checkout advertised then
          [MkServiceBinding version (spec_url version "shopping/checkout/embedded") "embedded"
             (ucp_docs version "embedded.openrpc.json")
             (Some (base +:+ "/api/v1/ucp/checkout-sessions"))]
        else []) in
  {| wk_ucp :=
       MkUcpSection version (Some (VObject (supported_versions base version)))
         (Some {[ "dev.ucp.shopping" := shopping ]})
         (Some (core_capabilities version advertised LATEST_SLUGS)) None None None None None
         (Some (VObject (av_payment_handlers advertised))) None None None None;
     wk_keys := unless_empty (av_signing_keys advertised);
     wk_orchestrator := Some {|
       oe_mcp_endpoint := base +:+ "/api/v1/mcp/message";
       oe_mcp_supported_versions := MCP_SUPPORTED_VERSIONS;
       oe_a2a_profile_version := "1.0";
       oe_ap2_protocol_version := "0.2";
       oe_acp_api_version := ACP_API_VERSION;
       oe_acp_discovery := base +:+ "/.well-known/acp.json";
       oe_a2a_agent_card := base +:+ "/.well-known/agent-card.json";
       oe_capability_flags := capability_flags advertised |} |}.

Record PaymentHandlerDescriptor := MkHandlerDescriptor {
  ph_id : string; ph_name : string; ph_handler_type : string; ph_instruments : list string }.

Definition default_payment_handlers : list PaymentHandlerDescriptor :=
  [ MkHandlerDescriptor "card" "Card" "card" ["card"];
    MkHandlerDescriptor "mpp" "Machine Payments" "mpp" ["mpp"] ].

(** The derived [Serialize] of a descriptor. *)
Definition handler_value (h : PaymentHandlerDescriptor) : Value :=
  VObject [("id", VString (ph_id h)); ("name", VString (ph_name h));
           ("type", VString (ph_handler_type h));
           ("instruments", VArray (map VString (ph_instruments h)))].

Definition profile_2026_04_08 (base : string) (advertised : AdvertisedCapabilities)
  : WellKnownUcp :=
  let version := UCP_PREVIOUS_VERSION in
  let shopping :=
    [ MkServiceBinding version (spec_url version "overview") "rest"
        (ucp_docs version "rest.openapi.json") (Some (base +:+ "/api/v1/ucp"));
      MkServiceBinding version (spec_url version "overview") "mcp"
        (ucp_docs version "mcp.openrpc.json") (Some (base +:+ "/api/v1/mcp/message"));
      MkServiceBinding version "https://agenticcommerce.dev/specs/checkout" "acp"
        (Some ("https://raw.githubusercontent.com/agentic-commerce-protocol/agentic-commerce-protocol/main/spec/"
               +:+ ACP_API_VERSION +:+ "/openapi/openapi.agentic_checkout.yaml"))
        (Some (base +:+ "/api/v1/acp")) ]
    ++ (if av_embedded_checkout advertised then
          [MkServiceBinding version (spec_url version "embedded-link-delegation") "embedded"
             (ucp_docs version "embedded.openapi.json")
             (Some (base +:+ "/api/v1/ucp/checkout"))]
        else []) in
  let capabilities :=
    <[ "dev.ucp.shopping.payment_handlers" :=
         [capability version "payment-handlers" "shopping/payment_handlers.json" None] ]>
      (core_capabilities version advertised PREVIOUS_SLUGS) in
  let flags := <[ "dev.ucp.shopping.payment_handlers" := true ]> (capability_flags advertised) in
  let keys := unless_empty (av_signing_keys advertised) in
  MkWellKnown
    (MkUcpSection version None (Some {[ "dev.ucp.shopping" := shopping ]}) (Some capabilities)
       None None (Some (base +:+ "/api/v1/mcp/message")) (Some flags) keys
       (Some (VArray (map handler_value default_payment_handlers)))
       (Some MCP_SUPPORTED_VERSIONS) (Some "1.0") (Some "0.2") (Some ACP_API_VERSION))
    keys None.

Definition legacy_well_known_manifest (base selected_version : string) : WellKnownUcp :=
  MkWellKnown
    (MkUcpSection selected_version None None None (Some (for_version selected_version))
       (Some (base +:+ "/")) (Some (base +:+ "/api/v1/mcp/message"))
       (Some {[ "dev.ucp.shopping.cart.multi_item" := false;
                "dev.ucp.shopping.catalog.lookup" := true;
                "dev.ucp.identity.linking" := true;
                "dev.ucp.payments.mpp" := true ]})
       None None None None None None)
    None None.

Definition select_version (requested_version : option string) : string :=
  match requested_version with
  | Some v => if str_contains UCP_SUPPORTED_VERSIONS v then v else UCP_LATEST_VERSION
  | None => UCP_LATEST_VERSION
  end.

Definition build_well_known_manifest_with_version (base_url : string)
    (requested_version : option string) (advertised : AdvertisedCapabilities) : WellKnownUcp :=
  let selected_version := select_version requested_version in
  let base := PaymentAdapter.trim_end_slashes base_url in
  if String.eqb selected_version UCP_LATEST_VERSION then latest_profile base advertised
  else if String.eqb selected_version UCP_PREVIOUS_VERSION then profile_2026_04_08 base advertised
  else legacy_well_known_manifest base selected_version.

(** ** The ACP discovery document ([acp_mapping.rs]) *)

Definition ACP_SUPPORTED_VERSIONS : list string := [ACP_API_VERSION].

Record AcpDiscoveryProtocol := MkAcpProtocol {
  ap_name : string; ap_version : string; ap_supported_versions : list string;
  ap_documentation_url : string }.

Record AcpDiscoveryDocument := MkAcpDiscovery {
  acd_protocol : AcpDiscoveryProtocol;
  acd_api_base_url : string;
  acd_transports : list string;
  acd_services : list string;
  acd_extensions : list (string * string)
}.

Definition build_acp_discovery_document (base_url : string) (payment_delegation : bool)
  : AcpDiscoveryDocument := {|
  acd_protocol :=
    MkAcpProtocol "acp" ACP_API_VERSION ACP_SUPPORTED_VERSIONS
      "https://github.com/agentic-commerce-protocol/agentic-commerce-protocol";
  acd_api_base_url := PaymentAdapter.trim_end_slashes base_url +:+ "/api/v1/acp";
  acd_transports := ["rest"];
  acd_services := ["checkout"; "carts"] ++ (if payment_delegation then ["delegate_payment"] else []);
  acd_extensions := []
|}.

(** ** The public routes ([discovery.rs], [health.rs]) *)

Definition PROFILE_CACHE_CONTROL : string * string := ("cache-control", "public, max-age=300").

Section routes.
Context {crypto : Crypto}.

Definition supports_identity_linking (s : AppState) : bool :=
  is_some (fs_identity_link (st_facade s)).
Definition supports_payment_delegation (s : AppState) : bool :=
  is_some (fs_payment_delegation (st_facade s)).

Definition advertised (s : AppState) : AdvertisedCapabilities := {|
  av_signing_keys := match st_signing s with Some ring => public_jwks ring | None => [] end;
  av_identity_linking := supports_identity_linking s;
  av_embedded_checkout := is_some (embedded_checkout s);
  av_payment_handlers := st_payment_handlers s
|}.

Definition well_known_ucp (s : AppState) (ucp_version : option string)
  : (string * string) * WellKnownUcp :=
  (PROFILE_CACHE_CONTROL,
   build_well_known_manifest_with_version (st_discovery_base_url s) ucp_version (advertised s)).

Definition well_known_acp (s : AppState) : (string * string) * AcpDiscoveryDocument :=
  (PROFILE_CACHE_CONTROL,
   build_acp_discovery_document (st_discovery_base_url s) (supports_payment_delegation s)).

(** Status and [status] field of the probes. *)
Definition live : Z * string := (200%Z, "ok").
Definition ready (s : AppState) : Z * string :=
  if st_shutdown_flag s then (503%Z, "shutting_down") else (200%Z, "ok").
End routes.

(** ** Properties *)

Lemma supported_cases v :
  v ∈ UCP_SUPPORTED_VERSIONS ->
  v = UCP_LATEST_VERSION \/ v = UCP_PREVIOUS_VERSION \/ v = "2026-01-23" \/ v = "2026-01-11".
Proof. unfold UCP_SUPPORTED_VERSIONS. set_solver. Qed.

Lemma select_version_supported v : select_version v ∈ UCP_SUPPORTED_VERSIONS.
Proof.
  unfold select_version. destruct v as [v|]; [|by repeat constructor].
  destruct (str_contains _ v) eqn:Hv; [by apply str_contains_spec|by repeat constructor].
Qed.

Lemma select_version_listed v : v ∈ UCP_SUPPORTED_VERSIONS -> select_version (Some v) = v.
Proof. intros Hv%str_contains_spec. unfold select_version. by rewrite Hv. Qed.

(** The three shapes, by the version they are selected for. *)
Lemma manifest_shape base v adv :
  let b := PaymentAdapter.trim_end_slashes base in
  let d := build_well_known_manifest_with_version base v adv in
  (select_version v = UCP_LATEST_VERSION /\ d = latest_profile b adv)
  \/ (select_version v = UCP_PREVIOUS_VERSION /\ d = profile_2026_04_08 b adv)
  \/ (select_version v ∈ ["2026-01-23"; "2026-01-11"]
      /\ d = legacy_well_known_manifest b (select_version v)).
Proof.
  cbv zeta. unfold build_well_known_manifest_with_version.
  destruct (supported_cases _ (select_version_supported v)) as [->|[->|[->| ->]]]; cbn -[select_version];
    set_solver.
Qed.

Lemma manifest_version base v adv :
  us_version (wk_ucp (build_well_known_manifest_with_version base v adv)) = select_version v.
Proof. by destruct (manifest_shape base v adv) as [[-> ->]|[[-> ->]|[_ ->]]]. Qed.

Lemma core_identity version adv slugs :
  is_Some (core_capabilities version adv slugs !! "dev.ucp.common.identity_linking")
  <-> av_identity_linking adv = true.
Proof.
  unfold core_capabilities. destruct (av_identity_linking adv).
  - rewrite lookup_insert_eq. split; [done|by eexists].
  - split; [|done]. intros [x Hx]. vm_compute in Hx. discriminate.
Qed.

Definition transports (d : WellKnownUcp) : list string :=
  match us_services (wk_ucp d) with
  | Some services => sb_transport <$> unwrap_or (services !! "dev.ucp.shopping") []
  | None => []
  end.

Section properties.
Context {crypto : Crypto}.
Implicit Types s : AppState.

(** The version of a profile is the one that was asked for if it is supported, and the
    latest otherwise; the latest profile links to every other supported version at the
    public base URL, and following a link gives a document of that version. *)
Theorem profile_links_lead_to_versions s v :
  let d := snd (well_known_ucp s v) in
  let base := PaymentAdapter.trim_end_slashes (st_discovery_base_url s) in
  us_version (wk_ucp d) ∈ UCP_SUPPORTED_VERSIONS
  /\ (forall x, v = Some x -> x ∈ UCP_SUPPORTED_VERSIONS -> us_version (wk_ucp d) = x)
  /\ forall links, us_supported_versions (wk_ucp d) = Some (VObject links) ->
       (forall x, x ∈ (us_version (wk_ucp d) :: map fst links) <-> x ∈ UCP_SUPPORTED_VERSIONS)
       /\ forall x u, (x, u) ∈ links ->
            u = VString (version_link base x)
            /\ us_version (wk_ucp (snd (well_known_ucp s (Some x)))) = x.
Proof.
  cbv zeta. unfold well_known_ucp. cbn [snd]. rewrite manifest_version.
  split_and!; [apply select_version_supported|intros x ->; apply select_version_listed|].
  intros links Hl. destruct (manifest_shape (st_discovery_base_url s) v (advertised s))
    as [[-> Hd]|[[_ Hd]|[_ Hd]]]; rewrite Hd in Hl; [|discriminate..].
  cbn in Hl. injection Hl as <-. split; [set_solver|]. intros x u Hx. rewrite manifest_version.
  assert (x ∈ UCP_SUPPORTED_VERSIONS /\ u = VString (version_link
    (PaymentAdapter.trim_end_slashes (st_discovery_base_url s)) x)) as [Hs ->] by set_solver.
  split; [done|by apply select_version_listed].
Qed.

(** The two current profiles list identity linking exactly when a provider is
    configured, the embedded transport exactly when there is a page to go to and a key to
    sign the link with, and exactly the keys of the ring the process signs with.  The two
    legacy manifests claim identity linking whatever is configured. *)
Theorem discovery_advertises_configuration s v :
  let d := snd (well_known_ucp s v) in
  (forall caps, us_capabilities (wk_ucp d) = Some caps ->
     (is_Some (caps !! "dev.ucp.common.identity_linking")
        <-> fs_identity_link (st_facade s) <> None)
     /\ ("embedded" ∈ transports d
         <-> st_embedded_checkout_url s <> None /\ st_signing s <> None)
     /\ wk_keys d = public_jwks <$> st_signing s)
  /\ (forall manifest, us_manifest (wk_ucp d) = Some manifest ->
        ("dev.ucp.identity.linking" ∈ cad_id <$> cm_capabilities manifest)
        /\ (us_capability_flags (wk_ucp d) ≫= lookup "dev.ucp.identity.linking") = Some true).
Proof.
  cbv zeta. unfold well_known_ucp. cbn [snd].
  assert (forall b, (is_some (embedded_checkout s) = true <-> b) ->
    (b <-> st_embedded_checkout_url s <> None /\ st_signing s <> None)) as He.
  { intros b <-. unfold embedded_checkout.
    destruct (st_embedded_checkout_url s), (st_signing s); cbn; naive_solver. }
  assert (av_identity_linking (advertised s) = true <-> fs_identity_link (st_facade s) <> None) as Hi.
  { cbn. unfold supports_identity_linking. destruct (fs_identity_link _); naive_solver. }
  assert (unless_empty (av_signing_keys (advertised s)) = public_jwks <$> st_signing s) as Hk.
  { cbn. by destruct (st_signing s). }
  destruct (manifest_shape (st_discovery_base_url s) v (advertised s))
    as [[_ ->]|[[_ ->]|[Hv ->]]]; (split; [intros caps [= <-]|intros manifest [= <-]]).
  - rewrite core_identity, Hi. split_and!; [done| |done]. apply He.
    unfold transports. cbn. destruct (is_some (embedded_checkout s)); cbn; set_solver.
  - rewrite lookup_insert_ne by done. rewrite core_identity, Hi. split_and!; [done| |done].
    apply He. unfold transports. cbn. destruct (is_some (embedded_checkout s)); cbn; set_solver.
  - split; [set_solver|vm_compute; reflexivity].
Qed.

(** Every MCP version and the ACP version a profile names are negotiated by the
    servers it points to. *)
Theorem advertised_versions_negotiate s v request :
  let d := snd (well_known_ucp s v) in
  (forall ext, wk_orchestrator d = Some ext ->
     Forall (fun m => Mcp.negotiate_mcp_version (Some m) None request = Ok m)
       (oe_mcp_supported_versions ext)
     /\ acp_version_from_headers (Some (oe_acp_api_version ext)) = Ok ACP_API_VERSION)
  /\ Forall (fun a => acp_version_from_headers (Some a) = Ok ACP_API_VERSION)
       (ap_supported_versions (acd_protocol (snd (well_known_acp s)))).
Proof.
  cbv zeta. split; [|repeat constructor].
  unfold well_known_ucp. cbn [snd].
  destruct (manifest_shape (st_discovery_base_url s) v (advertised s)) as [[_ ->]|[[_ ->]|[_ ->]]];
    intros ext [= <-]. split; [|reflexivity]. repeat constructor.
Qed.
End properties.
