(* ===== verification/Render.v ===== *)
(** * Responses ([crates/orchestrator-http/src/dto.rs];
    [crates/orchestrator-api/src/acp_mapping.rs])

    What the handlers render their domain values into, type by type, and the fulfillment
    requests they parse.  The derived [Serialize] instances, the text of a [Uuid] and the
    RFC 3339 text of an instant belong to other crates. *)

From S2P Require Export Http JsonValue RunnerLogic.

Section render.
Context (uuid_display : Uuid -> string) (to_rfc3339 : Z -> string).

(** ** Carts and transactions of the native API *)

Record CartLineProjectionDto := MkCartLineDto {
  cld_line_id : string; cld_item_id : string; cld_title : string; cld_quantity : Z;
  cld_unit_price_minor : Z; cld_total_minor : Z }.

Inductive CartStatusDto := DtoDraft | DtoCheckoutReady | DtoCancelled.

Record CartProjectionDto := MkCartDto {
  cpd_cart_id : string; cpd_version : Z; cpd_currency : string;
  cpd_lines : list CartLineProjectionDto;
  cpd_subtotal_minor : Z; cpd_tax_minor : Z; cpd_total_minor : Z;
  cpd_geo_ok : bool; cpd_status : CartStatusDto }.

Definition cart_line_dto (l : CartLineProjection) : CartLineProjectionDto :=
  MkCartLineDto (cl_line_id l) (cl_item_id l) (cl_title l) (cl_quantity l)
    (cl_unit_price_minor l) (cl_total_minor l).

Definition cart_projection_dto (p : CartProjection) : CartProjectionDto :=
  MkCartDto (uuid_display (cart_uuid (cp_cart_id p))) (cp_version p) (cp_currency p)
    (map cart_line_dto (cp_lines p)) (cp_subtotal_minor p) (cp_tax_minor p)
    (cp_total_minor p) (cp_geo_ok p)
    match cp_status p with
    | Draft => DtoDraft
    | StatusCheckoutReady => DtoCheckoutReady
    | StatusCancelled => DtoCancelled
    end.

Inductive TransactionStatusDto :=
| DtoCompleted | DtoRejected | DtoAuthFailed | DtoCommitFailed | DtoTimedOut.

Inductive PaymentStateDto :=
| DtoAuthorized | DtoCaptured | DtoVoided | DtoRefundPending | DtoRefunded | DtoReconciled
| DtoFailed.

(** Without a field for the shipping amount. *)
Record TotalsBreakdownDto := MkTotalsDto {
  td_subtotal_minor : Z; td_tax_minor : Z; td_discount_minor : Z; td_total_minor : Z }.

Definition totals_dto (t : TotalsBreakdown) : TotalsBreakdownDto :=
  MkTotalsDto (tb_subtotal_minor t) (tb_tax_minor t) (tb_discount_minor t) (tb_total_minor t).

Record TransactionResultDto := MkTransactionDto {
  trd_transaction_id : string; trd_status : TransactionStatusDto;
  trd_totals_breakdown : TotalsBreakdownDto;
  trd_payment_reference : option string; trd_receipt_payload : option string;
  trd_correlation_id : string; trd_audit_trail_id : option string;
  trd_payment_state : PaymentStateDto; trd_order_id : option string }.

Definition transaction_dto (r : TransactionResult) : TransactionResultDto :=
  MkTransactionDto (tr_transaction_id r)
    match tr_status r with
    | TxnCompleted => DtoCompleted
    | TxnRejected => DtoRejected
    | TxnAuthFailed => DtoAuthFailed
    | TxnCommitFailed => DtoCommitFailed
    | TxnTimedOut => DtoTimedOut
    end
    (totals_dto (tr_totals_breakdown r)) (tr_payment_reference r) (tr_receipt_payload r)
    (uuid_display (tr_correlation_id r)) (tr_audit_trail_id r)
    match tr_payment_state r with
    | Authorized => DtoAuthorized
    | Captured => DtoCaptured
    | Voided => DtoVoided
    | RefundPending => DtoRefundPending
    | Refunded => DtoRefunded
    | Reconciled => DtoReconciled
    | PaymentStateFailed => DtoFailed
    end
    (tr_order_id r).

(** ** Identity links, orders and catalog items *)

Record IdentityLinkResultDto := MkIdentityDto {
  ild_version : string; ild_supported_versions : list string;
  ild_link_id : string; ild_status : string }.

Definition identity_link_dto (r : IdentityLinkResult) : IdentityLinkResultDto :=
  MkIdentityDto
    (if str_is_empty (ir_ucp_version r) then UCP_LATEST_VERSION else ir_ucp_version r)
    (match ir_supported_versions r with [] => UCP_SUPPORTED_VERSIONS | vs => vs end)
    (ir_link_id r) (ir_status r).

Inductive OrderStatusDto :=
| DtoOrderCreated | DtoFulfillmentPending | DtoFulfilled | DtoOrderCancelled.

Definition order_status_dto (s : OrderStatus) : OrderStatusDto :=
  match s with
  | OrderCreated => DtoOrderCreated
  | FulfillmentPending => DtoFulfillmentPending
  | Fulfilled => DtoFulfilled
  | OrderCancelled => DtoOrderCancelled
  end.

Record OrderEventDto := MkOrderEventDto {
  oed_id : string; oed_event_type : string; oed_description : string; oed_occurred_at : string }.

Definition order_event_dto (e : OrderEvent) : OrderEventDto :=
  MkOrderEventDto (oe_id e) (oe_event_type e) (oe_description e) (to_rfc3339 (oe_occurred_at e)).

Record OrderAdjustmentDto := MkOrderAdjustmentDto {
  oad_id : string; oad_adjustment_type : string; oad_amount_minor : Z; oad_status : string }.

Definition order_adjustment_dto (a : OrderAdjustment) : OrderAdjustmentDto :=
  MkOrderAdjustmentDto (oa_id a) (oa_adjustment_type a) (oa_amount_minor a) (oa_status a).

Record OrderDto := MkOrderDto {
  od_order_id : string; od_tenant_id : string; od_transaction_id : string;
  od_checkout_id : string; od_status : OrderStatusDto; od_currency : string;
  od_permalink_url : string; od_line_items : list CartLineProjectionDto;
  od_totals : TotalsBreakdownDto; od_events : list OrderEventDto;
  od_adjustments : list OrderAdjustmentDto; od_created_at : string }.

Definition order_dto (r : OrderRecord) : OrderDto :=
  MkOrderDto (or_order_id r) (or_tenant_id r) (or_transaction_id r)
    (uuid_display (cart_uuid (or_checkout_id r))) (order_status_dto (or_status r))
    (or_currency r) (or_permalink_url r) (map cart_line_dto (or_line_items r))
    (totals_dto (or_totals r)) (map order_event_dto (or_events r))
    (map order_adjustment_dto (or_adjustments r)) (to_rfc3339 (or_created_at r)).

Record CatalogItemDto := MkCatalogItemDto {
  cid_id : string; cid_title : string; cid_price_minor : Z }.

Definition catalog_item_dto (i : CatalogItem) : CatalogItemDto :=
  MkCatalogItemDto (ci_id i) (ci_title i) (ci_price_minor i).

(** ** The UCP envelope *)

Record UcpEnvelopeDto := MkEnvelope {
  ue_version : string; ue_supported_versions : list string;
  ue_capabilities : gmap string (list string);
  ue_payment_handlers : option (list (string * Value)) }.

(** [UcpCapabilityDto] is its version. *)
Definition for_capabilities (capabilities : list string) : UcpEnvelopeDto :=
  MkEnvelope UCP_LATEST_VERSION UCP_SUPPORTED_VERSIONS
    (list_to_map (map (fun c => (c, [UCP_LATEST_VERSION])) capabilities)) None.

Record UcpMessageDto := MkUcpMessage { um_code : string; um_content : string }.

(** A typed, signed amount. *)
Record UcpTotalDto := MkTotal { ut_type : string; ut_amount : Z }.

Record UcpLineItemDto := MkLineItem { li_id : string; li_title : string; li_price : Z }.

Record UcpCartLineDto := MkUcpCartLine {
  ul_id : string; ul_item : UcpLineItemDto; ul_quantity : Z; ul_totals : list UcpTotalDto;
  ul_title : string; ul_unit_price_minor : Z; ul_total_minor : Z }.

Definition line_totals (amount : Z) : list UcpTotalDto :=
  [MkTotal "subtotal" amount; MkTotal "total" amount].

Definition ucp_cart_line (l : CartLineProjection) : UcpCartLineDto :=
  MkUcpCartLine (cl_line_id l) (MkLineItem (cl_item_id l) (cl_title l) (cl_unit_price_minor l))
    (cl_quantity l) (line_totals (cl_total_minor l)) (cl_title l) (cl_unit_price_minor l)
    (cl_total_minor l).

(** [-x.abs()] on [i64]. *)
Definition i64_neg_abs (x : Z) : Z := i64_wrap (- i64_wrap (Z.abs x)).

Definition ucp_totals (t : TotalsBreakdown) : list UcpTotalDto :=
  [MkTotal "subtotal" (tb_subtotal_minor t)]
  ++ (if (tb_discount_minor t =? 0)%Z then []
      else [MkTotal "discount" (i64_neg_abs (tb_discount_minor t))])
  ++ (if (0 <? tb_fulfillment_minor t)%Z
      then [MkTotal "fulfillment" (tb_fulfillment_minor t)] else [])
  ++ [MkTotal "tax" (tb_tax_minor t); MkTotal "total" (tb_total_minor t)].

Record UcpDiscountDto := MkUcpDiscount {
  ud_code : string; ud_description : option string; ud_amount_minor : Z;
  ud_line_item_id : option string }.

Definition ucp_discount (d : AppliedDiscount) : UcpDiscountDto :=
  MkUcpDiscount (ad_code d) (ad_description d) (ad_amount_minor d) (ad_line_id d).

(** ** Fulfillment *)

Record UcpFulfillmentOptionDto := MkUcpOption {
  uo_id : string; uo_title : string; uo_description : option string; uo_carrier : option string;
  uo_totals : list UcpTotalDto; uo_amount_minor : Z }.

Definition ucp_option (o : FulfillmentOption) : UcpFulfillmentOptionDto :=
  MkUcpOption (fo_id o) (fo_title o) (fo_description o) (fo_carrier o)
    [MkTotal "total" (fo_amount_minor o)] (fo_amount_minor o).

Record UcpPostalAddressDto := MkUcpAddress {
  ua_extended_address : option string; ua_street_address : option string;
  ua_address_locality : option string; ua_address_region : option string;
  ua_address_country : option string; ua_postal_code : option string;
  ua_first_name : option string; ua_last_name : option string;
  ua_phone_number : option string }.

Definition ucp_address (a : PostalAddress) : UcpPostalAddressDto :=
  MkUcpAddress (pa_extended_address a) (pa_street_address a) (pa_address_locality a)
    (pa_address_region a) (pa_address_country a) (pa_postal_code a) (pa_first_name a)
    (pa_last_name a) (pa_phone_number a).

Inductive UcpFulfillmentDestinationDto :=
| DtoShippingAddress (id : string) (address : UcpPostalAddressDto)
| DtoBusinessLocation (id name : string) (address : option UcpPostalAddressDto).

Definition ucp_destination (d : FulfillmentDestination) : UcpFulfillmentDestinationDto :=
  match d with
  | DestShipping id a => DtoShippingAddress id (ucp_address a)
  | DestRetail id name a => DtoBusinessLocation id name (ucp_address <$> a)
  end.

Inductive UcpFulfillmentMethodTypeDto := DtoShipping | DtoPickup.

Definition method_type_dto (t : FulfillmentMethodType) : UcpFulfillmentMethodTypeDto :=
  match t with Shipping => DtoShipping | Pickup => DtoPickup end.
Definition method_type_of_dto (t : UcpFulfillmentMethodTypeDto) : FulfillmentMethodType :=
  match t with DtoShipping => Shipping | DtoPickup => Pickup end.

Record UcpFulfillmentGroupDto := MkUcpGroup {
  ug_id : string; ug_line_item_ids : list string; ug_options : list UcpFulfillmentOptionDto;
  ug_selected_option_id : option string }.

Definition ucp_group (g : FulfillmentGroup) : UcpFulfillmentGroupDto :=
  MkUcpGroup (fg_id g) (fg_line_item_ids g) (map ucp_option (fg_options g))
    (fg_selected_option_id g).

Record UcpFulfillmentMethodDto := MkUcpMethod {
  umd_id : string; umd_method_type : UcpFulfillmentMethodTypeDto;
  umd_line_item_ids : list string; umd_destinations : list UcpFulfillmentDestinationDto;
  umd_selected_destination_id : option string; umd_groups : list UcpFulfillmentGroupDto }.

Definition ucp_method (m : FulfillmentMethod) : UcpFulfillmentMethodDto :=
  MkUcpMethod (fm_id m) (method_type_dto (fm_method_type m)) (fm_line_item_ids m)
    (map ucp_destination (fm_destinations m)) (fm_selected_destination_id m)
    (map ucp_group (fm_groups m)).

(** [UcpFulfillmentDto] is its methods. *)
Definition ucp_fulfillment (s : FulfillmentState) : list UcpFulfillmentMethodDto :=
  map ucp_method (fs_methods s).

(** ** UCP carts and checkout sessions *)

Record UcpCartResponseDto := MkUcpCart {
  uc_ucp : UcpEnvelopeDto; uc_id : string; uc_version : Z; uc_currency : string;
  uc_line_items : list UcpCartLineDto; uc_subtotal_minor : Z; uc_tax_minor : Z;
  uc_fulfillment_minor : Z; uc_discount_minor : Z; uc_discounts : list UcpDiscountDto;
  uc_total_minor : Z; uc_totals : list UcpTotalDto; uc_status : string;
  uc_links : option (list (string * string));
  uc_fulfillment : option (list UcpFulfillmentMethodDto) }.

Definition ucp_cart_response (cart : CartProjection) : UcpCartResponseDto :=
  let capabilities :=
    ["dev.ucp.shopping.cart"; "dev.ucp.shopping.fulfillment"]
    ++ match cp_discounts cart with [] => [] | _ => ["dev.ucp.shopping.discount"] end in
  MkUcpCart (for_capabilities capabilities) (uuid_display (cart_uuid (cp_cart_id cart)))
    (cp_version cart) (cp_currency cart) (map ucp_cart_line (cp_lines cart))
    (cp_subtotal_minor cart) (cp_tax_minor cart) (cp_fulfillment_minor cart)
    (cp_discount_minor cart) (map ucp_discount (cp_discounts cart)) (cp_total_minor cart)
    (ucp_totals (totals_of cart))
    match cp_status cart with
    | Draft => "draft" | StatusCheckoutReady => "checkout_ready" | StatusCancelled => "canceled"
    end None (ucp_fulfillment <$> cp_fulfillment cart).

Definition checkout_status (status : string) (has_lines : bool) : string :=
  if String.eqb status "canceled" then "canceled"
  else if String.eqb status "checkout_ready" && has_lines then "ready_for_complete"
  else "incomplete".

Definition into_checkout (payment_handlers : list (string * Value)) (r : UcpCartResponseDto)
  : UcpCartResponseDto :=
  let ucp := uc_ucp r in
  let caps := ue_capabilities ucp in
  let caps := match caps !! "dev.ucp.shopping.cart" with
              | Some versions => <["dev.ucp.shopping.checkout" := versions]>
                                   (delete "dev.ucp.shopping.cart" caps)
              | None => caps
              end in
  MkUcpCart
    (MkEnvelope (ue_version ucp) (ue_supported_versions ucp) caps (Some payment_handlers))
    (uc_id r) (uc_version r) (uc_currency r) (uc_line_items r) (uc_subtotal_minor r)
    (uc_tax_minor r) (uc_fulfillment_minor r) (uc_discount_minor r) (uc_discounts r)
    (uc_total_minor r) (uc_totals r)
    (checkout_status (uc_status r) (match uc_line_items r with [] => false | _ => true end))
    (Some []) (uc_fulfillment r).

(** ** UCP orders *)

Record UcpOrderLineDto := MkUcpOrderLine {
  uol_id : string; uol_item : UcpLineItemDto;
  uol_original : Z; uol_total : Z; uol_fulfilled : Z;
  uol_totals : list UcpTotalDto; uol_status : string }.

(** Its [fulfillment] member always holds two empty lists. *)
Record UcpOrderResponseDto := MkUcpOrder {
  uor_ucp : UcpEnvelopeDto; uor_id : string; uor_checkout_id : string;
  uor_status : OrderStatusDto; uor_currency : string; uor_permalink_url : string;
  uor_line_items : list UcpOrderLineDto; uor_totals : list UcpTotalDto;
  uor_events : list OrderEventDto; uor_created_at : string }.

Definition order_line_status (s : OrderStatus) : string * bool :=
  match s with
  | Fulfilled => ("fulfilled", true)
  | OrderCancelled => ("removed", false)
  | _ => ("processing", false)
  end.

Definition ucp_order_line (status : string * bool) (l : CartLineProjection) : UcpOrderLineDto :=
  MkUcpOrderLine (cl_line_id l) (MkLineItem (cl_item_id l) (cl_title l) (cl_unit_price_minor l))
    (cl_quantity l) (cl_quantity l) (if snd status then cl_quantity l else 0%Z)
    (line_totals (cl_total_minor l)) (fst status).

Definition ucp_order_response (o : OrderRecord) : UcpOrderResponseDto :=
  MkUcpOrder (for_capabilities ["dev.ucp.shopping.order"]) (or_order_id o)
    (uuid_display (cart_uuid (or_checkout_id o))) (order_status_dto (or_status o))
    (or_currency o) (or_permalink_url o)
    (map (ucp_order_line (order_line_status (or_status o))) (or_line_items o))
    (ucp_totals (or_totals o)) (map order_event_dto (or_events o))
    (to_rfc3339 (or_created_at o)).

(** ** Fulfillment requests *)

Record UcpFulfillmentDestinationRequestDto := MkDestinationRequest {
  dr_id : string; dr_name : option string;
  dr_street_address : option string; dr_extended_address : option string;
  dr_address_locality : option string; dr_address_region : option string;
  dr_address_country : option string; dr_postal_code : option string;
  dr_first_name : option string; dr_last_name : option string;
  dr_phone_number : option string }.

Record UcpFulfillmentSelectionRequestDto := MkSelectionRequest {
  sr_method_type : UcpFulfillmentMethodTypeDto; sr_line_item_ids : list string;
  sr_destination : UcpFulfillmentDestinationRequestDto;
  sr_selected_option_id : option string }.

Definition address_of_request (d : UcpFulfillmentDestinationRequestDto) : PostalAddress :=
  MkPostalAddress (dr_extended_address d) (dr_street_address d) (dr_address_locality d)
    (dr_address_region d) (dr_address_country d) (dr_postal_code d) (dr_first_name d)
    (dr_last_name d) (dr_phone_number d).

Definition selection_of_dto (dto : UcpFulfillmentSelectionRequestDto)
  : result SetFulfillmentSelectionPayload string :=
  let d := sr_destination dto in
  let? destination :=
    match method_type_of_dto (sr_method_type dto) with
    | Pickup =>
        let? name := ok_or (dr_name d) "destination.name is required for pickup" in
        Ok (DestRetail (dr_id d) name (Some (address_of_request d)))
    | Shipping => Ok (DestShipping (dr_id d) (address_of_request d))
    end in
  Ok (MkSetFulfillment (method_type_of_dto (sr_method_type dto)) (sr_line_item_ids dto)
        destination (sr_selected_option_id dto)).

(** ** ACP sessions and carts *)

Record AcpSessionLine := MkAcpLine {
  al_id : string; al_item_id : string; al_quantity : Z; al_unit_amount : Z }.

(** Without a field for the shipping amount. *)
Record AcpTotals := MkAcpTotals {
  at_subtotal_minor : Z; at_tax_minor : Z; at_discount_minor : Z; at_total_minor : Z }.

(** The shape of sessions and of carts. *)
Record AcpCheckoutSessionResponse := MkAcpSession {
  as_id : string; as_status : string; as_currency : string;
  as_line_items : list AcpSessionLine; as_totals : AcpTotals; as_api_version : string }.

Definition ACP_CART_ID_PREFIX : string := "cart_".
Definition cart_id_to_acp_session_id (c : CartId) : string := "cs_" +:+ uuid_display (cart_uuid c).
Definition cart_id_to_acp_cart_id (c : CartId) : string :=
  ACP_CART_ID_PREFIX +:+ uuid_display (cart_uuid c).

Definition acp_line (l : CartLineProjection) : AcpSessionLine :=
  MkAcpLine (cl_line_id l) (cl_item_id l) (cl_quantity l) (cl_unit_price_minor l).

Definition acp_totals (p : CartProjection) : AcpTotals :=
  MkAcpTotals (cp_subtotal_minor p) (cp_tax_minor p) (cp_discount_minor p) (cp_total_minor p).

Definition projection_to_acp_session (p : CartProjection) : AcpCheckoutSessionResponse :=
  MkAcpSession (cart_id_to_acp_session_id (cp_cart_id p))
    match cp_status p with
    | StatusCheckoutReady => "ready_for_payment" | StatusCancelled => "canceled" | _ => "open"
    end
    (cp_currency p) (map acp_line (cp_lines p)) (acp_totals p) ACP_API_VERSION.

Definition projection_to_acp_cart (p : CartProjection) : AcpCheckoutSessionResponse :=
  MkAcpSession (cart_id_to_acp_cart_id (cp_cart_id p))
    match cp_status p with StatusCancelled => "canceled" | _ => "active" end
    (cp_currency p) (map acp_line (cp_lines p)) (acp_totals p) ACP_API_VERSION.
End render.

(** ** Properties *)

(** The address a request names, as a response shows it. *)
Definition requested_address (d : UcpFulfillmentDestinationRequestDto) : UcpPostalAddressDto :=
  MkUcpAddress (dr_extended_address d) (dr_street_address d) (dr_address_locality d)
    (dr_address_region d) (dr_address_country d) (dr_postal_code d) (dr_first_name d)
    (dr_last_name d) (dr_phone_number d).

(** A fulfillment request is refused exactly when it asks for a pickup without the name
    of the location, and otherwise the command it becomes is shown back as it was asked for:
    the same method, lines and option, and the same destination, field by field. *)
Theorem fulfillment_request_is_shown_back dto :
  match selection_of_dto dto with
  | Err _ => sr_method_type dto = DtoPickup /\ dr_name (sr_destination dto) = None
  | Ok p =>
      method_type_dto (sf_method_type p) = sr_method_type dto
      /\ sf_line_item_ids p = sr_line_item_ids dto
      /\ sf_selected_option_id p = sr_selected_option_id dto
      /\ match sr_method_type dto with
         | DtoShipping => ucp_destination (sf_destination p)
             = DtoShippingAddress (dr_id (sr_destination dto)) (requested_address (sr_destination dto))
         | DtoPickup => exists name, dr_name (sr_destination dto) = Some name
             /\ ucp_destination (sf_destination p)
                = DtoBusinessLocation (dr_id (sr_destination dto)) name
                    (Some (requested_address (sr_destination dto)))
         end
  end.
Proof.
  unfold selection_of_dto. destruct dto as [[] lines d option]; cbn; [by split_and!|].
  destruct (dr_name d) as [name|] eqn:Hn; cbn; [|done]. split_and!; try done. by exists name.
Qed.
