(* ===== verification/Routes.v ===== *)
(** * The rest of the version 1 routes ([crates/orchestrator-http/src/routes/v1.rs];
    [crates/orchestrator-api/src]: [acp_mapping.rs], [ucp_mapping.rs])

    The handlers [Http] leaves out: fulfillment, the catalog, UCP orders, ACP carts, payment
    delegation and the embedded handoff link; and the responses every cart handler renders
    its cart into.  The counters and the log lines are not modelled. *)

From S2P Require Export Render Discovery.
From Stdlib Require Import Ascii.

(** ** Requests and responses *)

Record AcpDelegatedPaymentMethod := MkAcpPaymentMethod {
  apm_method_type : option string; apm_token : string; apm_amount_minor : option Z }.

Record AcpDelegatePaymentRequest := MkAcpDelegate {
  adp_tenant_id : string; adp_payment_method : AcpDelegatedPaymentMethod;
  adp_metadata : option Value }.

Record AcpDelegatePaymentResponse := MkAcpDelegated {
  adr_id : string; adr_status : string; adr_token : string; adr_expires_at : option string;
  adr_api_version : string }.

Definition delegate_payment_response (d : DelegatedPayment) : AcpDelegatePaymentResponse :=
  MkAcpDelegated (dp_id d) (dp_status d) (dp_token d) (dp_expires_at d) ACP_API_VERSION.

Record UcpCatalogProductsResponseDto := MkProducts {
  upr_ucp : UcpEnvelopeDto; upr_products : list CatalogItemDto;
  upr_messages : list UcpMessageDto }.

Record UcpCatalogProductResponseDto := MkProduct {
  up_ucp : UcpEnvelopeDto; up_product : CatalogItemDto; up_messages : list UcpMessageDto }.

(** [WebhookRegistrationDto]: the registration without its secret. *)
Record WebhookRegistrationDto := MkWebhookDto {
  whd_id : string; whd_tenant_id : string; whd_url : string;
  whd_event_filter : option (list string); whd_active : bool }.

Definition webhook_dto (r : WebhookRegistration) : WebhookRegistrationDto :=
  MkWebhookDto (wh_id r) (wh_tenant_id r) (wh_url r) (wh_event_filter r) (wh_active r).

Record DeadLetterEntryDto := MkDeadLetterDto {
  dl_id : string; dl_topic : string; dl_correlation_id : string; dl_attempts : Z }.

Definition dead_letter_dto (m : OutboxMessage) : DeadLetterEntryDto :=
  MkDeadLetterDto (om_id m) (om_topic m) (om_correlation_id m) (om_attempts m).

(** ** Embedded checkout links ([ucp_mapping.rs]) *)

Definition EMBEDDED_CHECKOUT_LINK_TTL_SECONDS : Z := 900.

Record EmbeddedCheckoutLink := MkLink {
  el_checkout_session_id : string; el_embedded_url : string; el_expires_at : Z }.

Definition embedded_link_signing_base (session_id : string) (expires_at : Z) : string :=
  "ucp-embedded-checkout:" +:+ session_id +:+ ":" +:+ pretty expires_at.

Record UcpEmbeddedCheckoutLinkResponseDto := MkLinkResponse {
  elr_ucp : UcpEnvelopeDto; elr_link : EmbeddedCheckoutLink }.

Section links.
Context {crypto : Crypto} (uuid_display : Uuid -> string).
(** [Url::parse] and [append_pair] for each pair, as a text. *)
Context (url_with_query : string -> list (string * string) -> result string string).

Definition cart_id_to_session_id (c : CartId) : string := "chk_" +:+ uuid_display (cart_uuid c).

Definition link_now (t : Clock) : Z := unwrap_or (now_unix_timestamp t) 0%Z.

Definition link_query (session_id : string) (expires_at : Z) (signature : string * string)
  : list (string * string) :=
  [("session", session_id); ("expires", pretty expires_at); ("kid", fst signature);
   ("token", snd signature)].

Definition build_embedded_checkout_link (hosted_checkout_url : string) (cart_id : CartId)
    (keyring : SigningKeyring) (t : Clock) : result EmbeddedCheckoutLink string :=
  let session_id := cart_id_to_session_id cart_id in
  let expires_at := (link_now t +! EMBEDDED_CHECKOUT_LINK_TTL_SECONDS)%Z in
  let signature := ring_sign keyring (embedded_link_signing_base session_id expires_at) in
  let? url := url_with_query hosted_checkout_url (link_query session_id expires_at signature) in
  Ok (MkLink session_id url expires_at).
End links.

(** ** Handlers *)

Section routes.
Context {B : Backend} {crypto : Crypto} (env : Env) (parse_proof : string -> option ConsentProof)
  (issuers : option string) (uuid_from_str : string -> result Uuid string)
  (to_rfc3339 : Z -> string) (value_to_string : Value -> string)
  (url_with_query : string -> list (string * string) -> result string string)
  (self : OrchestratorFacade B) (state : AppState).

Abbreviation H := (ST (World B) ApiError).

(** [Ok(Json(f(answer)))]. *)
Definition respond {A C} (f : A -> C) (m : H A) : H C := x ← m; mret (f x).

Definition as_cart : H CartProjection -> H UcpCartResponseDto :=
  respond (ucp_cart_response (uuid_display env)).
Definition as_checkout : H CartProjection -> H UcpCartResponseDto :=
  respond (fun p => into_checkout (st_payment_handlers state)
                      (ucp_cart_response (uuid_display env) p)).
Definition as_session : H CartProjection -> H AcpCheckoutSessionResponse :=
  respond (projection_to_acp_session (uuid_display env)).
Definition as_acp_cart : H CartProjection -> H AcpCheckoutSessionResponse :=
  respond (projection_to_acp_cart (uuid_display env)).

(** *** Fulfillment *)

Definition ucp_set_cart_fulfillment (auth : AuthContext) (id : string)
    (req : UcpFulfillmentSelectionRequestDto) : H CartProjection :=
  cart_id ← reply (parse_ucp_cart_id uuid_from_str id);
  payload ← reply (map_err BadRequest (selection_of_dto req));
  for_tenant env self auth (SetFulfillmentSelection payload) (Some cart_id).

(** *** Catalog *)

Definition ucp_catalog_search (auth : AuthContext) (query : option string)
  : H UcpCatalogProductsResponseDto :=
  products ← api (facade_search_catalog_items self query);
  mret (MkProducts (for_capabilities ["dev.ucp.shopping.catalog.search"])
          (map catalog_item_dto products) []).

Definition ucp_catalog_lookup (auth : AuthContext) (ids : list string)
  : H UcpCatalogProductsResponseDto :=
  found ← api (facade_lookup_catalog_items self ids);
  let found_ids := map ci_id found in
  let missing := List.filter (fun id => negb (str_contains found_ids id)) ids in
  mret (MkProducts (for_capabilities ["dev.ucp.shopping.catalog.lookup"])
          (map catalog_item_dto found) (map (MkUcpMessage "not_found") missing)).

Definition ucp_catalog_product (auth : AuthContext) (id : string)
  : H UcpCatalogProductResponseDto :=
  product ← api (facade_lookup_catalog_item self id);
  mret (MkProduct (for_capabilities ["dev.ucp.shopping.catalog.lookup"])
          (catalog_item_dto product) []).

Definition http_lookup_catalog_item (auth : AuthContext) (id : string) : H CatalogItemDto :=
  respond catalog_item_dto (api (facade_lookup_catalog_item self id)).

(** *** Orders and payment handlers *)

Definition ucp_get_order (auth : AuthContext) (id : string) : H UcpOrderResponseDto :=
  respond (ucp_order_response (uuid_display env) to_rfc3339) (http_get_order auth id).

Definition get_order_route (auth : AuthContext) (id : string) : H OrderDto :=
  respond (order_dto (uuid_display env) to_rfc3339) (http_get_order auth id).

Definition list_orders_route (auth : AuthContext) : H (list OrderDto) :=
  respond (map (order_dto (uuid_display env) to_rfc3339)) (http_list_orders auth).

Definition ucp_list_payment_handlers (auth : AuthContext) : H (list PaymentHandlerDescriptor) :=
  mret default_payment_handlers.

Definition ucp_get_payment_handler (auth : AuthContext) (id : string)
  : H PaymentHandlerDescriptor :=
  reply (ok_or (find_first (fun h => String.eqb (ph_id h) id) default_payment_handlers)
           (NotFound ("payment handler '" +:+ id +:+ "' not found"))).

(** *** The embedded link *)

Definition ucp_create_embedded_checkout_link (auth : AuthContext) (id : string)
  : H UcpEmbeddedCheckoutLinkResponseDto :=
  cart_id ← reply (parse_ucp_cart_id uuid_from_str id);
  match embedded_checkout state with
  | None =>
      st_fail (Orchestrator (FNotConfigured
        "embedded checkout requires EMBEDDED_CHECKOUT_URL and UCP signing keys"))
  | Some (hosted_url, keyring) =>
      _ ← get_for env self auth cart_id;
      t ← api (from_runner (now env));
      link ← reply (map_err (fun _ => Internal)
               (build_embedded_checkout_link (uuid_display env) url_with_query hosted_url cart_id
                  keyring t));
      mret (MkLinkResponse (for_capabilities ["dev.ucp.shopping.checkout.embedded"]) link)
  end.

(** *** ACP carts *)

Definition parse_acp_cart_id (id : string) : result CartId string :=
  map_err (fun e => "invalid cart id: " +:+ e)
    (parse_cart_id uuid_from_str (unwrap_or (strip_prefix ACP_CART_ID_PREFIX id) id)).

Definition acp_create_cart (auth : AuthContext) (version key : option string)
    (req : AcpCheckoutSessionCreateRequest) : H CartProjection :=
  _ ← reply (acp_version_from_headers version);
  _ ← reply (require_acp_idempotency_key key);
  projection ← for_tenant env self auth
    (CreateCart (MkCreateCart (ac_merchant_id req) (ac_currency req) None)) None;
  add_lines env self auth (cp_cart_id projection) (ac_line_items req) projection.

Definition acp_get_cart (auth : AuthContext) (version : option string) (id : string)
  : H CartProjection :=
  _ ← reply (acp_version_from_headers version);
  cart_id ← reply (map_err BadRequest (parse_acp_cart_id id));
  get_for env self auth cart_id.

Definition acp_update_cart_endpoint (auth : AuthContext) (version : option string) (id : string)
    (lines : list LineRequest) : H CartProjection :=
  _ ← reply (acp_version_from_headers version);
  cart_id ← reply (map_err BadRequest (parse_acp_cart_id id));
  update_lines env self auth cart_id lines.

Definition acp_cancel_cart_endpoint (auth : AuthContext) (version key : option string)
    (id : string) : H CartProjection :=
  _ ← reply (acp_version_from_headers version);
  _ ← reply (require_acp_idempotency_key key);
  cart_id ← reply (map_err BadRequest (parse_acp_cart_id id));
  for_tenant env self auth (CancelCart (MkCancelCart cart_id)) None.

(** *** Payment delegation *)

(** The metadata of the request as texts. *)
Definition metadata_text (v : Value) : string :=
  match v with VString s => s | other => value_to_string other end.

Definition metadata_of (metadata : option Value) : gmap string string :=
  match metadata with
  | Some (VObject fields) => list_to_map (map (fun kv => (fst kv, metadata_text (snd kv))) fields)
  | _ => ∅
  end.

Definition delegation_request (req : AcpDelegatePaymentRequest) (tenant_id idempotency_key : string)
  : PaymentDelegationRequest :=
  let m := adp_payment_method req in
  MkDelegationRequest tenant_id (apm_token m) (apm_method_type m) (apm_amount_minor m)
    idempotency_key (metadata_of (adp_metadata req)).

(** [!claimed.trim().is_empty() && claimed != auth.tenant_id]. *)
Definition claims_other_tenant (auth : AuthContext) (claimed : string) : bool :=
  negb (blank claimed) && negb (String.eqb claimed (ax_tenant_id auth)).

Definition acp_delegate_payment (auth : AuthContext) (version key : option string)
    (req : AcpDelegatePaymentRequest) : H AcpDelegatePaymentResponse :=
  _ ← reply (acp_version_from_headers version);
  idempotency_key ← reply (require_acp_idempotency_key key);
  if blank (apm_token (adp_payment_method req)) then
    st_fail (BadRequest "payment_method.token is required")
  else if claims_other_tenant auth (adp_tenant_id req) then st_fail (Forbidden "tenant mismatch")
  else
    respond delegate_payment_response
      (api (delegate_payment self (delegation_request req (ax_tenant_id auth) idempotency_key))).

(** *** Webhooks and dead letters *)

Definition register_webhook_route (auth : AuthContext) (req : WebhookRegistrationRequestDto)
  : H WebhookRegistrationDto := respond webhook_dto (http_register_webhook env auth req).
Definition list_webhooks_route (auth : AuthContext) : H (list WebhookRegistrationDto) :=
  respond (map webhook_dto) (http_list_webhooks auth).
Definition list_dead_letter_route (auth : AuthContext) : H (list DeadLetterEntryDto) :=
  respond (map dead_letter_dto) (st_gets (fun w => list_dead_letter w)).
End routes.

(** ** The cart routes *)

(** Every route that answers with a cart, and the cart it answers with. *)
Inductive CartRoute :=
| CommandRoute (req : CartCommandRequest)
| UcpCreateCart (req : UcpCartRequestDto)
| UcpGetCart (id : string)
| UcpUpdateCart (id : string) (req : UcpCartRequestDto)
| UcpCancelCart (id : string)
| UcpSetFulfillment (id : string) (req : UcpFulfillmentSelectionRequestDto)
| UcpCreateCheckout (req : UcpCartRequestDto)
| AcpCreateSession (version key : option string) (req : AcpCheckoutSessionCreateRequest)
| AcpGetSession (version : option string) (id : string)
| AcpUpdateSession (version : option string) (id : string) (lines : list LineRequest)
| AcpCancelSession (version key : option string) (id : string)
| AcpCreateCart (version key : option string) (req : AcpCheckoutSessionCreateRequest)
| AcpGetCart (version : option string) (id : string)
| AcpUpdateCart (version : option string) (id : string) (lines : list LineRequest)
| AcpCancelCart (version key : option string) (id : string).

Section cart_routes.
Context {B : Backend} {L : BackendLaws B} (env : Env) (uuid_from_str : string -> result Uuid string)
  (self : OrchestratorFacade B).
Implicit Types w v u : World B.

Definition run_cart_route (auth : AuthContext) (rt : CartRoute) : ST (World B) ApiError CartProjection :=
  match rt with
  | CommandRoute req => http_dispatch_cart_command env uuid_from_str self auth req
  | UcpCreateCart req => ucp_create_cart env self auth req
  | UcpGetCart id => ucp_get_cart env uuid_from_str self auth id
  | UcpUpdateCart id req => ucp_update_cart env uuid_from_str self auth id req
  | UcpCancelCart id => ucp_cancel_cart env uuid_from_str self auth id
  | UcpSetFulfillment id req => ucp_set_cart_fulfillment env uuid_from_str self auth id req
  | UcpCreateCheckout req => ucp_create_checkout env self auth req
  | AcpCreateSession v k req => acp_create_session env self auth v k req
  | AcpGetSession v id => acp_get_session env uuid_from_str self auth v id
  | AcpUpdateSession v id lines => acp_update_session env uuid_from_str self auth v id lines
  | AcpCancelSession v k id => acp_cancel_session env uuid_from_str self auth v k id
  | AcpCreateCart v k req => acp_create_cart env self auth v k req
  | AcpGetCart v id => acp_get_cart env uuid_from_str self auth v id
  | AcpUpdateCart v id lines => acp_update_cart_endpoint env uuid_from_str self auth v id lines
  | AcpCancelCart v k id => acp_cancel_cart_endpoint env uuid_from_str self auth v k id
  end.

(** Only carts change, they stay well formed, and the answer is a stored cart. *)
Definition cart_reply {E} w (r : result CartProjection E) v : Prop :=
  snapshots_ok (w_events v) /\ only_carts w v
  /\ forall q, r = Ok q -> exists c, get_cart_snapshot c (w_events v) = Some q.

Lemma cart_reply_quiet {E} w (e : E) : snapshots_ok (w_events w) -> cart_reply w (Err e) w.
Proof. intros Hok. split; [exact Hok|]. split; [reflexivity|]. intros q [=]. Qed.

Lemma cart_step_reply {E} c w v (r : result CartProjection E) :
  snapshots_ok (w_events w) -> cart_step c w v ->
  (forall q, r = Ok q -> exists c, get_cart_snapshot c (w_events v) = Some q) -> cart_reply w r v.
Proof. intros Hok Hs Hr. split_and!; [by eapply cart_step_ok|apply Hs|exact Hr]. Qed.

Lemma dispatch_reply cmd id w :
  snapshots_ok (w_events w) -> wp (dispatch_cart_command env (fc_runner self) cmd id) (cart_reply w) w.
Proof.
  intros Hok. pose proof (cart_reply_quiet (E:=RunnerError) w) as Hq.
  destruct (is_item_command cmd) eqn:Hi.
  - destruct id as [c|].
    + pose proof (dispatch_cart_step env (fc_runner self) cmd (Some c) w Hok) as Hc.
      assert (command_cart env cmd (Some c) w = Some c) as Hcc by (by destruct cmd).
      rewrite Hcc in Hc. pose proof (item_command_spec env (fc_runner self) cmd c w Hi Hok) as Hr.
      unfold wp in *. eapply cart_step_reply; [done|exact Hc|]. intros q Hq'. rewrite Hq' in Hr.
      destruct Hr as (p & ev & _ & _ & _ & _ & Hs' & _). by exists c.
    + unfold dispatch_cart_command. destruct (negb _); [destruct cmd; wp_prims; by apply Hq|].
      destruct cmd; try done; wp_prims; by apply Hq.
  - unfold dispatch_cart_command. destruct (negb _); [wp_prims; by apply Hq|]. destruct cmd; try done.
    + eapply wp_mono; [apply cmd_create_cart_spec|]. intros r v [Hs Hr].
      eapply cart_step_reply; [done|exact Hs|]. intros q ->. destruct Hr as (_ & ? & _). eauto.
    + rewrite wp_load_cart. destruct (get_cart_snapshot _ _) eqn:Hp; [|by apply Hq].
      split_and!; [done|done|]. intros q [= <-]. eauto.
    + eapply wp_mono; [by apply cmd_start_checkout_spec|]. intros r v [[Hs Hr] _].
      eapply cart_step_reply; [done|exact Hs|]. intros q ->.
      destruct Hr as (p0 & _ & _ & ? & _). eauto.
    + eapply wp_mono; [by apply cmd_cancel_cart_spec|]. intros r v [Hs Hr].
      eapply cart_step_reply; [done|exact Hs|]. intros q ->.
      destruct Hr as (p0 & _ & _ & ? & _). eauto.
    + destruct id as [c|]; [|wp_prims; by apply Hq].
      eapply wp_mono; [by apply cmd_set_fulfillment_spec|]. intros r v [Hs Hr].
      eapply cart_step_reply; [done|exact Hs|]. intros q ->.
      destruct Hr as (? & ? & ? & _ & _ & _ & _ & _ & ? & _). eauto.
Qed.

Lemma for_tenant_reply auth cmd id w :
  snapshots_ok (w_events w) -> wp (for_tenant env self auth cmd id) (cart_reply w) w.
Proof.
  intros Hok. apply for_tenant_spec; [by apply cart_reply_quiet|].
  eapply wp_mono; [by apply dispatch_reply|]. intros r v (Ho & Hc & Hr).
  split; [done|]. split; [done|]. intros q. destruct r; [|done]. intros [= ->]. by apply Hr.
Qed.

(** A reply after steps that changed only carts. *)
Lemma cart_reply_after {E} w u v (r : result CartProjection E) :
  only_carts w u -> cart_reply u r v -> cart_reply w r v.
Proof. intros Hw (Ho & Hc & Hr). split; [done|]. split; [by etrans|done]. Qed.

Lemma reply_then {A} (x : result A ApiError) (k : A -> ST (World B) ApiError CartProjection) w :
  snapshots_ok (w_events w) -> (forall a, wp (k a) (cart_reply w) w) ->
  wp (reply x ≫= k) (cart_reply w) w.
Proof.
  intros Hok Hk. apply wp_bind, wp_reply. destruct x; [apply Hk|by apply cart_reply_quiet].
Qed.

(** The state of a handler after its first step: the last answer is a stored cart. *)
Definition answers (w : World B) (p : CartProjection) : Prop :=
  snapshots_ok (w_events w) /\ exists c, get_cart_snapshot c (w_events w) = Some p.

Lemma answers_ret w p : answers w p -> wp (mret p) (cart_reply (E:=ApiError) w) w.
Proof.
  intros [Hok [c Hc]]. apply wp_ret. split; [done|]. split; [reflexivity|]. intros q [= <-]. eauto.
Qed.

Lemma answers_bind auth cmd id (k : CartProjection -> ST (World B) ApiError CartProjection) w :
  snapshots_ok (w_events w) -> (forall q u, answers u q -> wp (k q) (cart_reply u) u) ->
  wp (for_tenant env self auth cmd id ≫= k) (cart_reply w) w.
Proof.
  intros Hok Hk. apply wp_bind. eapply wp_mono; [by apply for_tenant_reply|].
  intros [q|e] u (Ho & Hc & Hr).
  - eapply wp_mono; [apply Hk; split; eauto|]. intros r v. by apply cart_reply_after.
  - split; [done|]. split; [done|]. intros q [=].
Qed.

Lemma add_lines_reply auth c lines : forall p w,
  answers w p -> wp (add_lines env self auth c lines p) (cart_reply w) w.
Proof.
  induction lines as [|l lines IH]; intros p w Ha; [by apply answers_ret|].
  apply answers_bind; [apply Ha|]. intros q u. apply IH.
Qed.

Lemma apply_lines_reply auth c lines : forall p w,
  answers w p -> wp (apply_lines env self auth c lines p) (cart_reply w) w.
Proof.
  induction lines as [|l lines IH]; intros p w Ha; [by apply answers_ret|].
  apply answers_bind; [apply Ha|]. intros q u. apply IH.
Qed.

Lemma remove_lines_reply auth c desired ids : forall p w,
  answers w p -> wp (remove_lines env self auth c desired ids p) (cart_reply w) w.
Proof.
  induction ids as [|l ids IH]; intros p w Ha; [by apply answers_ret|]. cbn.
  destruct (str_contains _ _); [by apply IH|].
  apply answers_bind; [apply Ha|]. intros q u. apply IH.
Qed.

Lemma update_lines_reply auth c lines w :
  snapshots_ok (w_events w) -> wp (update_lines env self auth c lines) (cart_reply w) w.
Proof.
  intros Hok. apply answers_bind; [done|]. intros q u Ha. apply wp_bind.
  eapply wp_mono; [by apply remove_lines_reply|]. intros [p|e] v (Ho & Hc & Hr).
  - eapply wp_mono; [apply apply_lines_reply; split; eauto|]. intros r x. by apply cart_reply_after.
  - split; [done|]. split; [done|]. intros p [=].
Qed.

Lemma create_reply auth cmd lines w :
  snapshots_ok (w_events w) ->
  wp (p ← for_tenant env self auth cmd None; add_lines env self auth (cp_cart_id p) lines p)
    (cart_reply w) w.
Proof. intros Hok. apply answers_bind; [done|]. intros q u. apply add_lines_reply. Qed.

Lemma cart_route_reply auth rt w :
  snapshots_ok (w_events w) -> wp (run_cart_route auth rt) (cart_reply w) w.
Proof.
  intros Hok. destruct rt; cbn [run_cart_route];
    try (repeat (apply reply_then; [done|intros ?]);
         solve [by apply for_tenant_reply|by apply update_lines_reply|by apply create_reply]).
  unfold ucp_create_checkout. apply wp_bind. eapply wp_mono.
  { unfold ucp_create_cart. apply reply_then; [done|]. intros m. by apply create_reply. }
  intros [p|e] u (Ho & Hc & Hr).
  - eapply wp_mono; [by apply for_tenant_reply|]. intros r v. by apply cart_reply_after.
  - split; [done|]. split; [done|]. intros q [=].
Qed.

(** ** What the responses say *)

Definition amounts (type : string) (ts : list UcpTotalDto) : list Z :=
  ut_amount <$> List.filter (fun t => String.eqb (ut_type t) type) ts.

(** One subtotal, one total, and the entries before the total add up to it. *)
Definition totals_add_up (ts : list UcpTotalDto) : Prop :=
  let entries := removelast ts in
  length (amounts "subtotal" entries) = 1 /\ amounts "total" entries = []
  /\ last ts = Some (MkTotal "total" (i64_sum (ut_amount <$> entries))).

Lemma discount_range p : cart_consistent p -> in_i64 (cp_discount_minor p) /\ (0 <= cp_discount_minor p)%Z.
Proof.
  intros Hp. rewrite (cc_discount p Hp). pose proof (total_discount_bounds (cp_discounts p) (cart_gross p)) as Hb.
  pose proof (i64_wrap_range (i64_add (cp_subtotal_minor p) (cp_tax_minor p) + cp_fulfillment_minor p)) as Hr.
  change (i64_wrap _) with (cart_gross p) in Hr. unfold in_i64, i64_min, i64_max in *. lia.
Qed.

Lemma cart_totals_add_up p :
  cart_consistent p -> (0 <= cp_fulfillment_minor p)%Z -> totals_add_up (ucp_totals (totals_of p)).
Proof.
  intros Hp Hf. destruct (discount_range p Hp) as [Hd Hd0].
  assert (i64_neg_abs (cp_discount_minor p) = - cp_discount_minor p)%Z as Hneg.
  { unfold i64_neg_abs. rewrite Z.abs_eq, (i64_wrap_id (cp_discount_minor p)) by done.
    apply i64_wrap_id.
    unfold in_i64, i64_min, i64_max in *. lia. }
  pose proof (cc_total p Hp) as Ht. unfold cart_gross, i64_sub, i64_add in Ht.
  unfold totals_add_up, ucp_totals, totals_of. cbn -[i64_wrap i64_sum]. rewrite Hneg.
  assert (forall xs, xs <> [] -> foldr Z.add 0%Z xs = (cp_subtotal_minor p + cp_tax_minor p
    + cp_fulfillment_minor p - cp_discount_minor p)%Z -> i64_sum xs = cp_total_minor p) as Hsum.
  { intros xs Hne Hx. unfold i64_sum. destruct (i64_sum_acc xs 0) as [-> | ->]; [|done].
    rewrite Hx, Ht. unfold Z.sub. rewrite i64_wrap_add_l, <- (Z.add_assoc (i64_wrap _)), i64_wrap_add_l.
    f_equal. lia. }
  destruct (Z.eqb_spec (cp_discount_minor p) 0), (Z.ltb_spec 0 (cp_fulfillment_minor p));
    cbn -[i64_sum i64_wrap]; (rewrite Hsum; [by split_and!|done|cbn; lia]).
Qed.

(** C14: no cart route touches anything but carts, and none moves money.  The UCP response
    to any of them lists one subtotal, and entries that add up to its one total, as long as
    the shipping amount is not negative; a checkout session is [ready_for_complete] exactly
    when its cart has lines and a checkout was started.  The four amounts of an ACP response
    are the same cart's, whose total they miss by the shipping amount. *)
Theorem cart_responses_add_up uuid_display handlers auth rt w r v :
  snapshots_ok (w_events w) -> run_cart_route auth rt w = (r, v) ->
  snapshots_ok (w_events v) /\ only_carts w v
  /\ forall q, r = Ok q ->
       let cart := ucp_cart_response uuid_display q in
       let session := into_checkout handlers cart in
       let acp := as_totals (projection_to_acp_session uuid_display q) in
       ((0 <= cp_fulfillment_minor q)%Z ->
          totals_add_up (uc_totals cart) /\ last (amounts "total" (uc_totals cart)) = Some (uc_total_minor cart))
       /\ uc_totals session = uc_totals cart
       /\ (uc_status session = "ready_for_complete"
            <-> cp_status q = StatusCheckoutReady /\ cp_lines q <> [])
       /\ (at_total_minor acp
            = (at_subtotal_minor acp +! at_tax_minor acp +! cp_fulfillment_minor q)
              -! at_discount_minor acp)%Z.
Proof.
  intros Hok Hrun. destruct (wp_run _ _ _ _ _ (cart_route_reply auth rt w Hok) Hrun) as (Hv & Hc & Hr).
  split; [done|]. split; [done|]. intros q ->. destruct (Hr q eq_refl) as [c Hq].
  destruct (Hv _ _ Hq) as [_ Hcons]. cbv zeta. split_and!.
  - intros Hf. split; [by apply cart_totals_add_up|]. unfold amounts. cbn.
    destruct (cp_discount_minor q =? 0)%Z, (0 <? cp_fulfillment_minor q)%Z; reflexivity.
  - reflexivity.
  - cbn. unfold checkout_status. destruct (cp_status q), (cp_lines q); cbn; naive_solver.
  - exact (cc_total q Hcons).
Qed.
End cart_routes.

(** ** Embedded links *)

Lemma pretty_no_colon (z : Z) : lacks ":" (pretty z) = true.
Proof.
  assert (forall n : N, lacks ":" (pretty n) = true) as HN.
  { intros n. eapply str_forall_impl; [|apply pretty_N_digits]. intros a Ha.
    apply negb_true_iff, Ascii.eqb_neq. by intros ->. }
  destruct z as [|p|p]; [reflexivity|apply HN|]. unfold pretty, pretty_Z. cbn.
  apply (HN (Npos p)).
Qed.

(** What is signed names one session and one expiry. *)
Lemma signing_base_inj s e s' e' :
  embedded_link_signing_base s e = embedded_link_signing_base s' e' -> s = s' /\ e = e'.
Proof.
  unfold embedded_link_signing_base. intros H. apply (inj (String.append _)) in H.
  apply (f_equal String.rev) in H. rewrite !rev_append, !str_app_assoc in H.
  assert (forall z : Z, lacks ":" (String.rev (pretty z)) = true) as Hl.
  { intros z. unfold lacks. rewrite rev_forall. apply pretty_no_colon. }
  apply split_once_inj in H as [He Hs]; [|apply Hl..].
  apply (f_equal String.rev) in He, Hs. rewrite !rev_involutive in He, Hs.
  split; [done|]. by apply (inj pretty) in He.
Qed.

Section embedded.
Context {B : Backend} {crypto : Crypto} {laws : CryptoLaws crypto}
  {jwk_laws : JwkLaws} (p256_length : forall s, String.length (p256_to_bytes s) = 64)
  (env : Env) (uuid_from_str : string -> result Uuid string)
  (url_with_query : string -> list (string * string) -> result string string)
  (self : OrchestratorFacade B) (state : AppState).
Implicit Types w v : World B.

(** The holder of the published keys accepts a token for a payload. *)
Definition publicly_verifies (ring : SigningKeyring) (kid payload token : string) : Prop :=
  exists jwk key raw, jwk ∈ public_jwks ring /\ jwk_kid jwk = kid /\ from_jwk jwk = Ok key
    /\ decode_base64 token = Some raw /\ key_verify key payload raw = true.

Lemma ring_sign_verifies ring payload :
  publicly_verifies ring (fst (ring_sign ring payload)) payload (snd (ring_sign ring payload)).
Proof.
  set (k := ring_active ring). exists (key_jwk (key_public (key_private k)) (key_kid k)),
    (key_public (key_private k)), (key_sign (key_private k) payload).
  split_and!; [by left| |apply from_jwk_key_jwk| |apply key_verify_sign].
  - cbn. unfold active_kid, k. by destruct (key_public _).
  - apply decode_url_safe. intros H. apply (f_equal String.length) in H. revert H.
    unfold key_sign. destruct (key_private k); [by rewrite ed25519_signature_length|by rewrite p256_length].
Qed.

Lemma get_for_owned auth c w :
  wp (get_for env self auth c) (fun r v => v = w /\ forall q, r = Ok q ->
    cart_snapshot c w = Some q /\ cp_tenant_id q = Some (ax_tenant_id auth)) w.
Proof.
  pose proof (get_for_spec env self auth c w) as Hg. unfold wp in *. destruct Hg as [Hv Hq].
  split; [exact Hv|]. intros q Hr. split; [by apply Hq|]. specialize (Hq q Hr). revert Hr.
  unfold get_for, for_tenant, api. cbn [fst].
  pose proof (dispatch_for_tenant_cases env self (ax_tenant_id auth) (GetCart (MkGetCart c)) None w) as Hd.
  unfold wp in Hd. destruct Hd as [[-> _]|(r' & _ & _ & Hown)]; [done|]. intros _.
  by apply (Hown c).
Qed.

(** A refusal leaves the state as it is, or reads the clock. *)
Ltac refused := split; [auto|intros ? [=]].

(** C18: an embedded link is only minted for a cart of the caller's tenant, and minting it
    changes nothing.  The link names that cart's session and expires 900 seconds after it
    was minted, and its token verifies under the published keys for the signing text of that
    session and expiry, which is the signing text of no other session or expiry. *)
Theorem embedded_link_is_bound auth id w r v :
  ucp_create_embedded_checkout_link env uuid_from_str url_with_query self state auth id w = (r, v) ->
  (v = w \/ v = set_tick (S (w_tick w)) w)
  /\ forall response, r = Ok response ->
       let link := elr_link response in
       let base := embedded_link_signing_base (el_checkout_session_id link) (el_expires_at link) in
       exists hosted ring c cart token,
         embedded_checkout state = Some (hosted, ring)
         /\ uuid_from_str id = Ok (cart_uuid c) /\ cart_snapshot c w = Some cart
         /\ cp_tenant_id cart = Some (ax_tenant_id auth)
         /\ el_checkout_session_id link = cart_id_to_session_id (uuid_display env) c
         /\ el_expires_at link = (link_now (clock_at env (w_tick w)) +! 900)%Z
         /\ url_with_query hosted
              [("session", el_checkout_session_id link); ("expires", pretty (el_expires_at link));
               ("kid", active_kid ring); ("token", token)] = Ok (el_embedded_url link)
         /\ publicly_verifies ring (active_kid ring) base token
         /\ forall session expires, embedded_link_signing_base session expires = base ->
              session = el_checkout_session_id link /\ expires = el_expires_at link.
Proof.
  intros Hrun. eapply (wp_run _ (fun r v => (v = w \/ v = set_tick (S (w_tick w)) w)
    /\ forall response, r = Ok response -> _)); [|exact Hrun]. clear Hrun.
  unfold ucp_create_embedded_checkout_link. wp_step. rewrite wp_reply.
  unfold parse_ucp_cart_id, parse_cart_id. destruct (uuid_from_str id) as [u|e] eqn:Hu; cbn [map_err];
    [|by refused].
  destruct (embedded_checkout state) as [[hosted ring]|]; [|wp_prims; by refused].
  wp_step. eapply wp_mono; [apply get_for_owned|]. intros [cart|e] x [-> Hq]; [|by refused].
  destruct (Hq cart eq_refl) as [Hc Ht]. wp_step. apply wp_api, wp_from_runner. rewrite wp_now.
  cbn [map_err]. wp_step. rewrite wp_reply. unfold build_embedded_checkout_link.
  destruct (url_with_query _ _) as [url|e] eqn:Hurl; cbn [result_bind map_err]; [|by refused].
  wp_prims. split; [by right|]. intros response [= <-]. cbn.
  eexists hosted, ring, (MkCartId u), cart, _. do 4 (split; [done|]). do 2 (split; [reflexivity|]).
  split; [exact Hurl|]. split; [apply ring_sign_verifies|]. intros s e. apply signing_base_inj.
Qed.
End embedded.

(** ** Delegation *)

Section delegation.
Context {B : Backend} (value_to_string : Value -> string) (self : OrchestratorFacade B).
Implicit Types w v : World B.

(** The request names a tenant that is not the caller's. *)
Definition names_another (auth : AuthContext) (req : AcpDelegatePaymentRequest) : Prop :=
  blank (adp_tenant_id req) = false /\ adp_tenant_id req <> ax_tenant_id auth.

Lemma claims_other_tenant_true auth req :
  names_another auth req -> claims_other_tenant auth (adp_tenant_id req) = true.
Proof.
  intros [Hb Hne]. unfold claims_other_tenant. rewrite Hb. by destruct (String.eqb_spec (adp_tenant_id req) (ax_tenant_id auth)).
Qed.

(** C17: a delegated token is only ever minted for the caller's own tenant, under the
    caller's idempotency key and for the payment method of the request, and what comes
    back is the provider's token.  A request that names another tenant is refused before
    the provider is asked, and no request changes a store. *)
Theorem delegation_is_the_callers auth version key req w r v :
  acp_delegate_payment value_to_string self auth version key req w = (r, v) ->
  (v = w \/ v = set_tick (S (w_tick w)) w)
  /\ (names_another auth req -> v = w /\ is_ok r = false)
  /\ forall response, r = Ok response ->
       exists k delegate d,
         nonblank key = Some k /\ fc_payment_delegation self = Some delegate
         /\ delegate (w_tick w) (MkDelegationRequest (ax_tenant_id auth)
              (apm_token (adp_payment_method req)) (apm_method_type (adp_payment_method req))
              (apm_amount_minor (adp_payment_method req)) k
              (metadata_of value_to_string (adp_metadata req))) = Ok d
         /\ adr_token response = dp_token d /\ adr_id response = dp_id d.
Proof.
  intros Hrun. eapply (wp_run _ (fun r v => (v = w \/ v = set_tick (S (w_tick w)) w)
    /\ (_ -> v = w /\ is_ok r = false) /\ forall response, r = Ok response -> _)); [|exact Hrun].
  clear Hrun. assert (forall (e : ApiError) (P : AcpDelegatePaymentResponse -> Prop),
    (w = w \/ w = set_tick (S (w_tick w)) w)
    /\ (names_another auth req -> w = w /\ is_ok (A:=AcpDelegatePaymentResponse) (Err e) = false)
    /\ forall x, Err e = Ok x -> P x) as Hno by (intros; split_and!; auto; intros ? [=]).
  unfold acp_delegate_payment. wp_step. rewrite wp_reply.
  destruct (acp_version_from_headers version); [|by apply Hno].
  wp_step. rewrite wp_reply. unfold require_acp_idempotency_key.
  destruct (nonblank key) as [k|]; cbn [ok_or]; [|by apply Hno].
  destruct (blank _); [wp_prims; by apply Hno|].
  destruct (claims_other_tenant _ _) eqn:Hc; [wp_prims; by apply Hno|].
  unfold respond. wp_step. apply wp_api. unfold delegate_payment.
  assert (names_another auth req -> False) by (intros Hn; apply claims_other_tenant_true in Hn; congruence).
  destruct (fc_payment_delegation self) as [delegate|]; [|wp_prims; split_and!; auto; intros ? [=]].
  unfold wp, ask, delegation_request. cbn [fst snd].
  destruct (delegate _ _) as [d|e] eqn:Hd; cbn; (split; [by right|]); (split; [done|]); intros x [= <-].
  by exists k, delegate, d.
Qed.
End delegation.

(** ** Witnesses *)

Lemma cart_responses_add_up_witness :
  let run := run_cart_route demo_env demo_uuid (demo_facade false) demo_caller (UcpGetCart "cart")
               filled_world in
  match fst run with
  | Ok q => cp_total_minor q = 2200%Z
      /\ totals_add_up (uc_totals (ucp_cart_response (fun u => pretty u) q))
  | Err _ => False
  end.
Proof.
  intros run. destruct run as [r v] eqn:Hrun.
  destruct (cart_responses_add_up demo_env demo_uuid (demo_facade false) (fun u => pretty u) []
    demo_caller (UcpGetCart "cart") filled_world r v filled_world_ok Hrun) as (_ & _ & Hq).
  cbn [fst]. revert Hq.
  assert ((fun x : result CartProjection ApiError => match x with
      Ok q => (cp_total_minor q, cp_fulfillment_minor q) | Err _ => (0, 0)%Z end) r = (2200, 0)%Z) as Hr
    by (rewrite <- (f_equal fst Hrun : fst run = r); vm_compute; reflexivity).
  destruct r as [q|e]; [|discriminate Hr]. injection Hr as Ht Hf. intros Hq. split; [exact Ht|].
  apply (Hq q eq_refl). rewrite Hf. lia.
Defined.

Definition demo_link_state : @AppState demo_crypto :=
  with_embedded_checkout_url "https://shop"
    (with_signing demo_ring (state_new (MkFacadeSetup MockDeployment false false None None None))).

Definition demo_query (url : string) (pairs : list (string * string)) : result string string :=
  Ok (url +:+ "?" +:+ join "&" (map (fun kv => fst kv +:+ "=" +:+ snd kv) pairs)).

Lemma embedded_link_is_bound_witness :
  let run := ucp_create_embedded_checkout_link demo_env demo_uuid demo_query (demo_facade false)
               demo_link_state demo_caller "cart" filled_world in
  match fst run with
  | Ok response => el_checkout_session_id (elr_link response) = "chk_0"
      /\ exists c cart, cart_snapshot c filled_world = Some cart /\ cp_tenant_id cart = Some "t1"
  | Err _ => False
  end.
Proof.
  intros run. destruct run as [r v] eqn:Hrun.
  destruct (@embedded_link_is_bound _ _ demo_crypto_laws demo_jwk_laws
    (fun s => match s : Empty_set with end) demo_env demo_uuid demo_query (demo_facade false)
    demo_link_state demo_caller "cart" filled_world r v Hrun) as (_ & Hq).
  cbn [fst]. assert ((fun x : result UcpEmbeddedCheckoutLinkResponseDto ApiError => match x with
      Ok q => el_checkout_session_id (elr_link q) | Err _ => "" end) r = "chk_0") as Hr
    by (rewrite <- (f_equal fst Hrun : fst run = r); vm_compute; reflexivity).
  destruct r as [q|e]; [|discriminate Hr]. split; [exact Hr|].
  destruct (Hq q eq_refl) as (_ & _ & c & cart & _ & _ & _ & Hc & Ht & _). by exists c, cart.
Defined.

Definition demo_delegating : OrchestratorFacade memory_backend :=
  MkFacade (fc_runner (demo_facade false)) false
    (Some (fun _ r => Ok (MkDelegatedPayment "d1" ("psp_" +:+ pd_token r) "delegated" None))) None.

Definition demo_delegation (tenant : string) : AcpDelegatePaymentRequest :=
  MkAcpDelegate tenant (MkAcpPaymentMethod None "tok" None) None.

Lemma delegation_is_the_callers_witness :
  let run tenant := acp_delegate_payment (fun _ => "") demo_delegating demo_caller
    (Some ACP_API_VERSION) (Some "key") (demo_delegation tenant) filled_world in
  is_ok (fst (run "t1")) = true /\ is_ok (fst (run "t2")) = false /\ snd (run "t2") = filled_world.
Proof.
  intros run. split; [vm_compute; reflexivity|]. destruct (run "t2") as [r v] eqn:Hrun.
  destruct (delegation_is_the_callers (fun _ => "") demo_delegating demo_caller
    (Some ACP_API_VERSION) (Some "key") (demo_delegation "t2") filled_world r v Hrun) as (_ & Hno & _). destruct Hno as [-> Hr]; [split; [vm_compute; reflexivity|discriminate]|]. by split.
Defined.
