(* ===== verification/CartUpdate.v ===== *)
(** * Updating a cart by its lines ([orchestrator-http/src/routes/v1.rs]: [ucp_update_cart],
    [acp_update_checkout_session], [acp_update_cart])

    The update routes take a list of lines and turn it into removals, quantity changes and
    additions, each a cart command of its own.  The contract of such a request is that the cart has
    the lines of the request afterwards; the loops of the handlers are proved to keep it. *)

From S2P Require Export Routes.

Lemma filter_filter {A} (f g : A -> bool) xs :
  List.filter f (List.filter g xs) = List.filter (fun x => f x && g x) xs.
Proof.
  induction xs as [|x xs IH]; [done|]. cbn. destruct (g x); cbn; [|by rewrite andb_false_r].
  rewrite andb_true_r. by destruct (f x); rewrite IH.
Qed.

Lemma nodup_map_filter {A C} (f : A -> C) (g : A -> bool) xs :
  NoDup (map f xs) -> NoDup (map f (List.filter g xs)).
Proof.
  induction xs as [|x xs IH]; [done|]. cbn. intros [Hx Hxs]%NoDup_cons.
  destruct (g x); [|by apply IH]. cbn. apply NoDup_cons. split; [|by apply IH].
  contradict Hx. apply list_elem_of_fmap in Hx as (y & -> & Hy).
  apply list_elem_of_In, filter_In in Hy as [Hy _]. by apply list_elem_of_fmap_2, list_elem_of_In.
Qed.

(** ** The contract *)

(** A line as agents know it: id, item, title and quantity. *)
Definition LineKey : Type := string * string * string * Z.
Definition key_id (k : LineKey) : string := k.1.1.1.
Definition id_and_quantity (k : LineKey) : string * Z := (key_id k, k.2).

Definition keys (p : CartProjection) : list LineKey := map line_key (cp_lines p).

(** The lines the request names. *)
Definition named (lines : list LineRequest) (k : LineKey) : bool :=
  str_contains (omap lq_id lines) (key_id k).

Section contract.
Context {B : Backend} (self : RunnerConfig B).

(** One line of the request: the first line with its id gets its quantity, or a new line for the
    item of the catalog comes last. *)
Inductive requested (line : LineRequest) (ks : list LineKey) : list LineKey -> Prop :=
| requested_quantity id l x r :
    lq_id line = Some id -> ks = l ++ x :: r -> key_id x = id ->
    Forall (fun y => key_id y <> id) l ->
    requested line ks (l ++ (x.1, lq_quantity line) :: r)
| requested_item line_id n item :
    lq_id line = None -> get_item (catalog (providers self)) n (lq_item_id line) = Ok item ->
    requested line ks (ks ++ [(line_id, ci_id item, ci_title item, lq_quantity line)]).

Inductive all_requested : list LineRequest -> list LineKey -> list LineKey -> Prop :=
| all_nil ks : all_requested [] ks ks
| all_cons line lines ks ks' ks'' :
    requested line ks ks' -> all_requested lines ks' ks'' ->
    all_requested (line :: lines) ks ks''.

(** *** When every line of the request has an id of its own *)

Lemma requested_ids line ks ks' :
  requested line ks ks' -> is_some (lq_id line) = true -> map key_id ks' = map key_id ks.
Proof. intros [id l x r _ -> _ _|line_id n item -> _] H; [|done]. by rewrite !map_app. Qed.

Lemma all_requested_ids lines ks ks' :
  all_requested lines ks ks' -> Forall (fun line => is_some (lq_id line) = true) lines ->
  map key_id ks' = map key_id ks.
Proof.
  induction 1 as [|line lines ks ks' ks'' H _ IH]; [done|]. intros [Hl Hr]%Forall_cons.
  by rewrite IH, (requested_ids _ _ _ H).
Qed.

(** A line under another id stays. *)
Lemma requested_other line ks ks' i q :
  requested line ks ks' -> is_some (lq_id line) = true -> lq_id line <> Some i ->
  (i, q) ∈ map id_and_quantity ks -> (i, q) ∈ map id_and_quantity ks'.
Proof.
  intros [id l x r Hid -> Hx _|line_id n item -> _] Hs Hne; [|done]. rewrite !map_app. cbn.
  intros [?|[Heq|?]%elem_of_cons]%elem_of_app; apply elem_of_app; [by left| |right; by right].
  exfalso. apply Hne. injection Heq as -> _. by rewrite Hid, <- Hx.
Qed.

Lemma all_requested_other lines ks ks' i q :
  all_requested lines ks ks' -> Forall (fun line => is_some (lq_id line) = true) lines ->
  i ∉ omap lq_id lines ->
  (i, q) ∈ map id_and_quantity ks -> (i, q) ∈ map id_and_quantity ks'.
Proof.
  induction 1 as [|line lines ks ks' ks'' H _ IH]; [done|]. intros [Hl Hr]%Forall_cons Hi Hin.
  destruct (lq_id line) as [id|] eqn:Hid; [|done]. cbn in Hi. rewrite Hid in Hi.
  apply not_elem_of_cons in Hi as [Hne Hi]. apply IH; [done..|].
  eapply requested_other; [exact H|by rewrite Hid|rewrite Hid; congruence|done].
Qed.

(** Every requested line is there in the end. *)
Lemma all_requested_there lines ks ks' line id :
  all_requested lines ks ks' -> Forall (fun line => is_some (lq_id line) = true) lines ->
  NoDup (omap lq_id lines) -> line ∈ lines -> lq_id line = Some id ->
  (id, lq_quantity line) ∈ map id_and_quantity ks'.
Proof.
  induction 1 as [|l0 lines ks ks' ks'' H Hall IH]; [by intros _ _ ?%elem_of_nil|].
  intros [Hl Hr]%Forall_cons Hnd Hin Hid. destruct (lq_id l0) as [id0|] eqn:Hid0; [|done].
  cbn in Hnd. rewrite Hid0 in Hnd. apply NoDup_cons in Hnd as [Hni Hnd].
  apply elem_of_cons in Hin as [->|Hin]; [|by apply IH].
  assert (id0 = id) as -> by congruence. eapply all_requested_other; [exact Hall|done..|].
  destruct H as [id' l x r Hid' -> Hx _|]; [|congruence]. rewrite map_app. cbn.
  apply elem_of_app. right. apply elem_of_cons. left. unfold id_and_quantity, key_id in *. cbn in *.
  congruence.
Qed.

(** The cart has exactly the requested lines. *)
Lemma all_requested_exact lines ks ks' :
  all_requested lines ks ks' -> Forall (fun line => is_some (lq_id line) = true) lines ->
  NoDup (omap lq_id lines) -> NoDup (map key_id ks) ->
  Forall (fun k => key_id k ∈ omap lq_id lines) ks ->
  map id_and_quantity ks'
  ≡ₚ omap (fun line => id ← lq_id line; Some (id, lq_quantity line)) lines.
Proof.
  intros Hall Hs Hnd Hndk Hin.
  pose proof (all_requested_ids _ _ _ Hall Hs) as Hids.
  assert (map fst (map id_and_quantity ks') = map key_id ks') as Hfst by (by rewrite map_map).
  assert (forall xs, Forall (fun line => is_some (lq_id line) = true) xs ->
    map fst (omap (fun line => id ← lq_id line; Some (id, lq_quantity line)) xs)
    = omap lq_id xs) as Hreq.
  { induction xs as [|x xs IH]; [done|]. intros [Hx Hxs]%Forall_cons. cbn.
    destruct (lq_id x); [|done]. cbn. by rewrite IH. }
  apply NoDup_Permutation.
  - apply (NoDup_fmap_1 fst). change (fst <$> ?l) with (map fst l).
    by rewrite Hfst, Hids.
  - apply (NoDup_fmap_1 fst). change (fst <$> ?l) with (map fst l). by rewrite Hreq.
  - assert (forall i q, (i, q) ∈ omap (fun line => id ← lq_id line; Some (id, lq_quantity line)) lines
      -> (i, q) ∈ map id_and_quantity ks') as Hback.
    { intros i q (line & Hl & Hq)%list_elem_of_omap. destruct (lq_id line) as [id|] eqn:Hid; [|done].
      injection Hq as <- <-. by eapply all_requested_there. }
    intros [i q]. split; [|apply Hback]. intros Hi.
    assert (i ∈ omap lq_id lines) as (line & Hl & Hid)%list_elem_of_omap.
    { assert (i ∈ map key_id ks) as (k & -> & Hk)%list_elem_of_fmap.
      { rewrite <- Hids, <- Hfst. exact (list_elem_of_fmap_2 fst _ _ Hi). }
      rewrite Forall_forall in Hin. by apply Hin. }
    pose proof (all_requested_there _ _ _ _ _ Hall Hs Hnd Hl Hid) as Hthere.
    apply list_elem_of_omap. exists line. rewrite Hid. split; [done|]. cbn. do 2 f_equal.
    apply (elem_of_list_to_map_1 (M:=gmap string)) in Hi, Hthere; [congruence|..];
      by change (NoDup (map fst (map id_and_quantity ks'))); rewrite Hfst, Hids.
Qed.
End contract.

(** ** The handlers keep it *)

Section handlers.
Context {B : Backend} {L : BackendLaws B} (env : Env) (uuid_from_str : string -> result Uuid string)
  (self : OrchestratorFacade B) (auth : AuthContext) (c : CartId).
Implicit Types w v : World B.

(** An answer is the stored cart. *)
Definition holds_cart (q : CartProjection) w : Prop :=
  snapshots_ok (w_events w) /\ get_cart_snapshot c (w_events w) = Some q.

(** A success is a stored cart whose lines are as said. *)
Definition lines_become (P : list LineKey -> Prop) (r : result CartProjection ApiError) v : Prop :=
  forall q, r = Ok q -> holds_cart q v /\ P (keys q).

Lemma item_for_tenant cmd p w :
  is_item_command cmd = true -> holds_cart p w ->
  wp (for_tenant env self auth cmd (Some c)) (fun r v => forall q, r = Ok q ->
    holds_cart q v /\ exists ev, item_effect (fc_runner self) cmd p q ev) w.
Proof.
  intros Hi [Hok Hp]. apply for_tenant_spec; [done|].
  assert (with_tenant (ax_tenant_id auth) cmd = cmd) as -> by (by destruct cmd).
  eapply wp_mono; [by apply item_command_spec|]. intros [q|e] v Hr q'; [|done].
  intros [= <-]. destruct Hr as (p' & ev & Hp' & Heff & _ & Hstep & Hq & _). simplify_eq.
  split; [|by eexists]. split; [by eapply cart_step_ok|done].
Qed.

Lemma remove_lines_spec desired ids p w :
  holds_cart p w ->
  wp (remove_lines env self auth c desired ids p) (lines_become (fun ks =>
    ks = List.filter (fun k => str_contains desired (key_id k) || negb (str_contains ids (key_id k)))
           (keys p))) w.
Proof.
  revert p w. induction ids as [|id ids IH]; intros p w Hp; cbn [remove_lines].
  - wp_step. intros q [= <-]. split; [done|]. symmetry. apply forallb_filter_id.
    apply forallb_forall. intros k _. cbn. by rewrite orb_true_r.
  - destruct (str_contains desired id) eqn:Hd.
    + eapply wp_mono; [by apply IH|]. intros r v H q Hr. destruct (H q Hr) as [Hq ->].
      split; [done|]. apply filter_ext. intros k. cbn.
      destruct (String.eqb_spec (key_id k) id) as [->|]; [|done]. by rewrite Hd.
    + wp_step. eapply wp_mono; [by apply (item_for_tenant _ p)|]. intros [q|e] v H; [|by intros q' [=]].
      destruct (H q eq_refl) as [Hq [ev (Hks & _)]]. eapply wp_mono; [by apply IH|].
      intros r u Hr q' Hq'. destruct (Hr q' Hq') as [? ->]. split; [done|].
      unfold keys. rewrite Hks, filter_filter. apply filter_ext. intros k. cbn. fold (key_id k).
      destruct (String.eqb_spec (key_id k) id) as [->|]; cbn; [by rewrite Hd, andb_false_r|by rewrite andb_true_r].
Qed.

Lemma remove_all_but desired p w :
  holds_cart p w ->
  wp (remove_lines env self auth c desired (map cl_line_id (cp_lines p)) p) (lines_become (fun ks =>
    ks = List.filter (fun k => str_contains desired (key_id k)) (keys p))) w.
Proof.
  intros Hp. eapply wp_mono; [by apply remove_lines_spec|]. intros r v H q Hr.
  destruct (H q Hr) as [Hq ->]. split; [done|]. apply filter_ext_in. intros k Hk.
  assert (str_contains (map cl_line_id (cp_lines p)) (key_id k) = true) as ->;
    [|by rewrite orb_false_r].
  apply str_contains_spec. apply list_elem_of_In in Hk.
  apply list_elem_of_fmap in Hk as (l & -> & Hl). by apply (list_elem_of_fmap_2 cl_line_id).
Qed.

Lemma apply_lines_spec lines p w :
  holds_cart p w ->
  wp (apply_lines env self auth c lines p)
    (lines_become (all_requested (fc_runner self) lines (keys p))) w.
Proof.
  revert p w. induction lines as [|line lines IH]; intros p w Hp; cbn [apply_lines].
  - wp_step. intros q [= <-]. split; [done|constructor].
  - wp_step. eapply wp_mono; [apply (item_for_tenant _ p); [by destruct (lq_id line)|done]|].
    intros [q|e] v H; [|by intros q' [=]]. destruct (H q eq_refl) as [Hq [ev Heff]].
    eapply wp_mono; [by apply IH|]. intros r u Hr q' Hq'. destruct (Hr q' Hq') as [? Hall].
    split; [done|]. eapply all_cons; [|exact Hall]. destruct (lq_id line) as [id|] eqn:Hid.
    + destruct Heff as [(l & x & rest & Hp' & Hq'' & Hx & Hl) _]. unfold keys. rewrite Hq''.
      by eapply requested_quantity.
    + destruct Heff as (line_id & n & item & Hitem & Hq'' & _). unfold keys. rewrite Hq''.
      by eapply requested_item.
Qed.

Lemma update_lines_spec lines w :
  snapshots_ok (w_events w) ->
  wp (update_lines env self auth c lines) (fun r v => forall q, r = Ok q ->
    exists p, get_cart_snapshot c (w_events w) = Some p
      /\ get_cart_snapshot c (w_events v) = Some q
      /\ all_requested (fc_runner self) lines (List.filter (named lines) (keys p)) (keys q)) w.
Proof.
  intros Hok. unfold update_lines. wp_step. eapply wp_mono; [apply get_for_spec|].
  intros [p|e] v [-> Hp]; [|done]. specialize (Hp p eq_refl). cbv zeta. wp_step.
  eapply wp_mono; [by apply remove_all_but|]. intros [q|e] u Hr; [|done].
  destruct (Hr q eq_refl) as [Hq Hks]. eapply wp_mono; [by apply apply_lines_spec|].
  intros r x Hx q' Hq'. destruct (Hx q' Hq') as [[_ Hs] Hall]. exists p. do 2 (split; [done|]).
  unfold named. by rewrite <- Hks.
Qed.
End handlers.

(** ** Properties *)

(** C13: an update makes the cart what the request says.  When an update through UCP or ACP succeeds,
    the lines the request does not name are gone, and the ones it names, in its order, have its
    quantities or are new lines for its items; when every line of the request has an id of its own
    and the cart's ids are distinct, the cart has exactly the ids and quantities of the request. *)
Theorem update_sets_lines {B : Backend} {L : BackendLaws B} env (self : OrchestratorFacade B) auth c
  lines w q v :
  snapshots_ok (w_events w) -> update_lines env self auth c lines w = (Ok q, v) ->
  exists p, get_cart_snapshot c (w_events w) = Some p
    /\ get_cart_snapshot c (w_events v) = Some q
    /\ all_requested (fc_runner self) lines (List.filter (named lines) (keys p)) (keys q)
    /\ (Forall (fun line => is_some (lq_id line) = true) lines -> NoDup (omap lq_id lines) ->
        NoDup (map key_id (keys p)) ->
        map id_and_quantity (keys q)
        ≡ₚ omap (fun line => id ← lq_id line; Some (id, lq_quantity line)) lines).
Proof.
  intros Hok Hrun. destruct (wp_run _ _ _ _ _ (update_lines_spec env self auth c lines w Hok) Hrun q
    eq_refl) as (p & Hp & Hq & Hall).
  exists p. do 3 (split; [done|]). intros Hs Hnd Hndk. eapply all_requested_exact; [done..| |].
  - by apply nodup_map_filter.
  - apply List.Forall_forall. intros k [_ Hk]%filter_In. by apply str_contains_spec.
Qed.

(** ** Witness *)

Definition seven_of_them : list LineRequest := [MkLineRequest (Some "li_2") "sku" 7].

Definition updated :=
  update_lines demo_env (demo_facade false) demo_caller demo_cart seven_of_them filled_world.

Lemma update_sets_lines_witness :
  exists q v, updated = (Ok q, v) /\ map id_and_quantity (keys q) ≡ₚ [("li_2", 7%Z)].
Proof.
  destruct updated as [r v] eqn:Hrun.
  assert (is_ok (fst updated) = true) as Hr by (vm_compute; reflexivity). rewrite Hrun in Hr.
  destruct r as [q|e]; [|discriminate]. exists q, v. split; [reflexivity|].
  destruct (update_sets_lines demo_env (demo_facade false) demo_caller demo_cart seven_of_them
    filled_world q v filled_world_ok Hrun) as (p & Hp & _ & _ & Hexact).
  apply Hexact; [repeat constructor|exact (NoDup_singleton "li_2")|].
  assert ((fun p => map key_id (keys p)) <$> get_cart_snapshot demo_cart (w_events filled_world)
    = Some ["li_2"]) as Hids by (vm_compute; reflexivity).
  rewrite Hp in Hids. cbn [fmap option_fmap option_map] in Hids. injection Hids as ->.
  exact (NoDup_singleton "li_2").
Defined.
