(* ===== verification/A2a.v ===== *)
(** * Agent-to-agent ([crates/orchestrator-api/src/adapters.rs];
    [crates/orchestrator-http/src/routes]: [a2a.rs] and the A2A handlers of [v1.rs])

    The capability envelopes and their normalisation, the four envelope routes, the A2A 1.0
    binding with its agent card, and the errors of the binding.  The derived serde
    instances, the text of an error and the parser of bodies belong to other crates. *)

From S2P Require Export Routes.
From Stdlib Require Import Ascii.

(** ** Versions ([adapters.rs]) *)

Definition A2A_PROFILE_VERSION : string := "1.0".
Definition A2A_SUPPORTED_PROFILE_VERSIONS : list string := [A2A_PROFILE_VERSION; "0.3"; "0.3.0"].

Definition normalize_a2a_version (version : string) : string :=
  match Strings.split "." (str_trim version) with
  | major :: minor :: _ => major +:+ "." +:+ minor
  | [major] => major
  | [] => str_trim version
  end.

Definition is_supported_a2a_profile_version (version : string) : bool :=
  any (fun supported => String.eqb (normalize_a2a_version supported) (normalize_a2a_version version))
    A2A_SUPPORTED_PROFILE_VERSIONS.

Definition negotiate_a2a_version (requested : option string) : result string string :=
  let version := unwrap_or (nonblank requested) "0.3" in
  if is_supported_a2a_profile_version version then Ok (normalize_a2a_version version)
  else Err ("unsupported A2A-Version '" +:+ version +:+ "'; supported: "
            +:+ join ", " A2A_SUPPORTED_PROFILE_VERSIONS).

(** ** Profile and payment metadata *)

Record A2AHandoffProfile := MkHandoff {
  ho_protocol : string; ho_version : string; ho_delegated_capability : string;
  ho_supported_versions : list string }.

Definition default_a2a_handoff_profile (delegated_capability : string) : A2AHandoffProfile :=
  MkHandoff "a2a" A2A_PROFILE_VERSION delegated_capability A2A_SUPPORTED_PROFILE_VERSIONS.

Record Ap2PaymentMetadata := MkAp2Metadata {
  am_handler_id : option string; am_consent_proof : option string }.
Record MppPaymentMetadata := MkMppMetadata {
  mm_method : option string; mm_intent : option string }.

Definition extract_ap2_metadata (request : CheckoutRequest) : Ap2PaymentMetadata :=
  MkAp2Metadata (pi_payment_handler_id (cr_payment_intent request))
    (pi_ap2_consent_proof (cr_payment_intent request)).
Definition extract_mpp_metadata (request : CheckoutRequest) : MppPaymentMetadata :=
  MkMppMetadata (pi_mpp_method (cr_payment_intent request))
    (pi_mpp_intent (cr_payment_intent request)).

(** Every version a handoff names is one that is negotiated. *)
Lemma handoff_is_negotiated capability :
  Forall (fun v => is_ok (negotiate_a2a_version (Some v)) = true)
    (ho_version (default_a2a_handoff_profile capability)
      :: ho_supported_versions (default_a2a_handoff_profile capability)).
Proof. repeat constructor. Qed.

(** ** Envelopes *)

Definition CHECKOUT_CAPABILITIES : list string :=
  ["dev.ucp.shopping.checkout"; "checkout"; "ucp.shopping.checkout"].
Definition CART_CAPABILITIES : list string :=
  ["dev.ucp.shopping.checkout"; "dev.ucp.shopping.discount"; "ucp.shopping.cart"; "cart"].
Definition IDENTITY_LINKING_CAPABILITIES : list string :=
  ["dev.ucp.common.identity_linking"; "dev.ucp.identity.linking"; "dev.ucp.identity.link";
   "identity.linking"; "identity_linking"].

(** [str::contains] and [str::ends_with]. *)
Fixpoint contains (p s : string) : bool :=
  match strip_prefix p s with
  | Some _ => true
  | None => match s with EmptyString => false | String _ r => contains p r end
  end.

Definition ends_with (p s : string) : bool := is_some (strip_suffix p s).

(** The members of an envelope: its capability, and its payload. *)
Definition envelope_capability (value : Value) : result string string :=
  match value with
  | VObject fields => ok_or (field fields "capability" ≫= as_str) "missing or invalid capability"
  | _ => Err "A2A envelope must be a JSON object"
  end.

Definition envelope_payload (value : Value) : result Value string :=
  ok_or (vget value "payload") "missing payload".

(** [.and_then(as_str).unwrap_or(default)] and its integer sibling. *)
Definition text_or_empty (v : Value) (key : string) : string :=
  unwrap_or (vget v key ≫= as_str) "".
Definition number_or (v : Value) (key : string) (default : Z) : Z :=
  unwrap_or (vget v key ≫= as_u64) default.

(** What [serde] derives for the contract types, and the texts of errors. *)
Class A2aSerde := {
  checkout_from_value : Value -> result CheckoutRequest string;
  identity_from_value : Value -> result IdentityLinkRequest string;
  cart_dto_value : CartProjectionDto -> result Value string;
  transaction_dto_value : TransactionResultDto -> result Value string;
  identity_dto_value : IdentityLinkResultDto -> result Value string;
  order_dto_value : OrderDto -> Value;
  facade_error_text : FacadeError -> string;
  body_from_slice : string -> result Value string
}.

Section envelopes.
Context {serde : A2aSerde} (uuid_from_str : string -> result Uuid string).

Definition normalize_a2a_checkout_envelope (value : Value) : result CheckoutRequest string :=
  let? capability := envelope_capability value in
  if any (fun c => String.eqb c capability || ends_with ".checkout" capability)
       CHECKOUT_CAPABILITIES
  then
    let? payload := envelope_payload value in
    map_err (fun e => "invalid checkout payload: " +:+ e) (checkout_from_value payload)
  else Err ("unsupported checkout capability: " +:+ capability).

Definition cart_id_member (v : Value) : result CartId string :=
  let? cart_id := ok_or (vget v "cart_id" ≫= as_str) "missing cart_id" in
  parse_cart_id uuid_from_str cart_id.

Definition cart_value_to_command (v : Value) : result CartCommand string :=
  let? kind := ok_or (vget v "kind" ≫= as_str) "command must have kind" in
  if String.eqb kind "create_cart" then
    Ok (CreateCart (MkCreateCart (text_or_empty v "merchant_id") (text_or_empty v "currency") None))
  else if String.eqb kind "add_item" then
    Ok (AddItem (MkAddItem (text_or_empty v "item_id") (u32_wrap (number_or v "quantity" 0))))
  else if String.eqb kind "update_item_qty" then
    Ok (UpdateItemQty
          (MkUpdateItemQty (text_or_empty v "line_id") (u32_wrap (number_or v "quantity" 0))))
  else if String.eqb kind "remove_item" then
    Ok (RemoveItem (MkRemoveItem (text_or_empty v "line_id")))
  else if String.eqb kind "apply_adjustment" then
    Ok (ApplyAdjustment (MkApplyAdjustment (text_or_empty v "code")))
  else if String.eqb kind "get_cart" then
    let? c := cart_id_member v in Ok (GetCart (MkGetCart c))
  else if String.eqb kind "start_checkout" then
    let? c := cart_id_member v in
    Ok (StartCheckout (MkStartCheckout c (number_or v "cart_version" 1)))
  else Err ("unknown command kind: " +:+ kind).

Definition normalize_a2a_cart_envelope (value : Value)
  : result (CartCommand * option CartId) string :=
  let? capability := envelope_capability value in
  if str_contains CART_CAPABILITIES capability || contains "cart" capability
     || contains "checkout" capability || contains "discount" capability
  then
    let? payload := envelope_payload value in
    let? cart_id :=
      match vget payload "cart_id" ≫= as_str with
      | Some s =>
          if str_is_empty s then Ok None
          else match uuid_from_str s with
               | Ok u => Ok (Some (MkCartId u))
               | Err e => Err ("invalid cart_id: " +:+ e)
               end
      | None => Ok None
      end in
    let? cmd_value := ok_or (vget payload "command") "missing command" in
    let? cmd := cart_value_to_command cmd_value in
    Ok (cmd, cart_id)
  else Err ("unsupported cart capability: " +:+ capability).

Definition normalize_a2a_identity_link_envelope (value : Value)
  : result IdentityLinkRequest string :=
  let? capability := envelope_capability value in
  if str_contains IDENTITY_LINKING_CAPABILITIES capability || contains "identity" capability
     || contains "link" capability
  then
    let? payload := envelope_payload value in
    map_err (fun e => "invalid identity payload: " +:+ e) (identity_from_value payload)
  else Err ("unsupported identity linking capability: " +:+ capability).
End envelopes.

(** ** The binding ([a2a.rs]) *)

Definition A2A_BINDING_VERSION : string := "1.0".
Definition A2A_MEDIA_TYPE : string := "application/a2a+json".
Definition A2A_ERROR_DOMAIN : string := "a2a-protocol.org".
Definition IDENTITY_CAPABILITIES : list string :=
  ["dev.ucp.identity.linking"; "dev.ucp.common.identity_linking"].

(** A response of media type [A2A_MEDIA_TYPE]. *)
Record A2aResponse := MkA2aResponse { a2a_status : Z; a2a_body : Value }.

Definition rpc_status (status : Z) : string :=
  if (status =? 400)%Z then "INVALID_ARGUMENT"
  else if (status =? 401)%Z then "UNAUTHENTICATED"
  else if (status =? 403)%Z then "PERMISSION_DENIED"
  else if (status =? 404)%Z then "NOT_FOUND"
  else if (status =? 409)%Z then "ABORTED"
  else if (status =? 422)%Z then "FAILED_PRECONDITION"
  else if (status =? 501)%Z then "UNIMPLEMENTED"
  else if ((502 <=? status) && (status <=? 504))%Z then "UNAVAILABLE"
  else "INTERNAL".

Definition error_body (status : Z) (reason domain message : string) : A2aResponse :=
  MkA2aResponse status
    (VObject [("error", VObject
       [("code", VInt status); ("status", VString (rpc_status status));
        ("message", VString message);
        ("details", VArray [VObject
           [("@type", VString "type.googleapis.com/google.rpc.ErrorInfo");
            ("reason", VString reason); ("domain", VString domain)]])])]).

Definition a2a_error (status : Z) (reason message : string) : A2aResponse :=
  error_body status reason A2A_ERROR_DOMAIN message.

Definition invalid_params (message : string) : A2aResponse :=
  a2a_error 400 "INVALID_PARAMS" message.

Definition task_not_found (task_id : string) : A2aResponse :=
  a2a_error 404 "TASK_NOT_FOUND"
    ("task '" +:+ task_id +:+ "' not found; this agent replies with messages, not tasks").

Definition version_error (header : option string) : option A2aResponse :=
  let version := unwrap_or (nonblank header) "0.3" in
  if String.eqb version A2A_BINDING_VERSION then None
  else Some (a2a_error 400 "VERSION_NOT_SUPPORTED"
    ("A2A-Version '" +:+ version +:+ "' is not supported; this interface speaks "
     +:+ A2A_BINDING_VERSION)).

(** [str::rsplit_once(c)]. *)
Definition rsplit_once (c : ascii) (s : string) : option (string * string) :=
  match split_once c (String.rev s) with
  | Some (after, before) => Some (String.rev before, String.rev after)
  | None => None
  end.

Definition get_task (auth : AuthContext) (version : option string) (task : string) : A2aResponse :=
  unwrap_or (version_error version) (task_not_found task).

Definition post_task (auth : AuthContext) (version : option string) (task : string) : A2aResponse :=
  match version_error version with
  | Some response => response
  | None =>
      match rsplit_once ":" task with
      | Some (id, op) =>
          if String.eqb op "cancel" || String.eqb op "subscribe" then task_not_found id
          else a2a_error 400 "UNSUPPORTED_OPERATION" "unknown task operation"
      | None => a2a_error 400 "UNSUPPORTED_OPERATION" "unknown task operation"
      end
  end.

(** Indexing a value: [Null] where there is nothing. *)
Definition index (v : Value) (key : string) : Value := unwrap_or (vget v key) VNull.

Definition skill_for (envelope : Value) : string :=
  let capability := unwrap_or (as_str (index envelope "capability")) "" in
  let payload := index envelope "payload" in
  if str_contains IDENTITY_CAPABILITIES capability then "identity-linking"
  else if is_some (vget payload "order_id") then "order-lookup"
  else if is_some (vget payload "command") then "cart"
  else "checkout".

(** The first part with an object in [data]. *)
Definition data_part (part : Value) : option Value :=
  match vget part "data" with Some (VObject fields) => Some (VObject fields) | _ => None end.

Definition message_envelope (message : Value) : option Value :=
  find_map data_part (unwrap_or (as_array (index message "parts")) []).

Definition reply_message (message_id context_id : string) (data : Value) : Value :=
  VObject [("message", VObject
    [("messageId", VString message_id); ("contextId", VString context_id);
     ("role", VString "ROLE_AGENT");
     ("parts", VArray [VObject [("data", data); ("mediaType", VString "application/json")]])])].

(** The text of [ApiError::parts]. *)
Definition error_message {serde : A2aSerde} (e : ApiError) : string :=
  match e with
  | BadRequest msg | BadRequestWithCode msg _ | Forbidden msg | NotFound msg => msg
  | Unauthorized => "Unauthorized"
  | Orchestrator e => facade_error_text e
  | Internal => "Internal server error"
  end.

(** *** The agent card; the prose of its skills is an argument *)

Definition skill (id name description : string) (tags : list string) : Value :=
  VObject [("id", VString id); ("name", VString name); ("description", VString description);
           ("tags", VArray (map VString tags));
           ("inputModes", VArray [VString "application/json"]);
           ("outputModes", VArray [VString "application/json"])].

Section card.
Context {crypto : Crypto} (crate_version : string)
  (cart_text checkout_text order_text identity_text : string).

Definition card_skills (s : AppState) : list Value :=
  [ skill "cart" "Cart" cart_text ["commerce"; "cart"; "ucp"];
    skill "checkout" "Checkout" checkout_text ["commerce"; "checkout"; "payments"; "ap2"; "mpp"];
    skill "order-lookup" "Order lookup" order_text ["commerce"; "orders"] ]
  ++ (if supports_identity_linking s then
        [skill "identity-linking" "Identity linking" identity_text ["identity"; "account-linking"]]
      else []).

Definition agent_card (s : AppState) : (string * string) * Value :=
  let base := PaymentAdapter.trim_end_slashes (st_discovery_base_url s) in
  let json := VString "application/json" in
  let card :=
    [("name", VString "Commerce Orchestrator");
     ("description", VString "Cart, checkout, order and identity operations over a merchant's commerce providers, with UCP, ACP, AP2 and MPP support.");
     ("supportedInterfaces", VArray [VObject
        [("url", VString (base +:+ "/api/v1/a2a")); ("protocolBinding", VString "HTTP+JSON");
         ("protocolVersion", VString A2A_BINDING_VERSION)]]);
     ("version", VString crate_version);
     ("documentationUrl", VString "https://github.com/AncientiCe/commerce-orchestrator-api/blob/main/docs/consumption-guide.md");
     ("capabilities", VObject [("streaming", VBool false); ("pushNotifications", VBool false);
                               ("extendedAgentCard", VBool false)]);
     ("defaultInputModes", VArray [json]); ("defaultOutputModes", VArray [json]);
     ("skills", VArray (card_skills s))] in
  let card :=
    match st_authn s with
    | None => card
    | Some _ =>
        object_insert "securityRequirements"
          (VArray [VObject [("schemes", VObject [("bearer", VObject [("list", VArray [])])])]])
          (object_insert "securitySchemes"
             (VObject [("bearer", VObject [("httpAuthSecurityScheme", VObject
                [("scheme", VString "Bearer")])])]) card)
    end in
  (PROFILE_CACHE_CONTROL, VObject card).
End card.

(** *** The skills and the message operation *)

Section skills.
Context {B : Backend} {serde : A2aSerde} (env : Env) (parse_proof : string -> option ConsentProof)
  (issuers : option string) (uuid_from_str : string -> result Uuid string)
  (to_rfc3339 : Z -> string) (self : OrchestratorFacade B).

Abbreviation H := (ST (World B) ApiError).

Definition run_a2a_checkout (auth : AuthContext) (body : Value) : H TransactionResultDto :=
  request ← reply (map_err BadRequest (normalize_a2a_checkout_envelope body));
  respond (transaction_dto (uuid_display env))
    (api (execute_checkout_authorized env parse_proof issuers self auth request)).

Definition run_a2a_cart (auth : AuthContext) (body : Value) : H CartProjectionDto :=
  c ← reply (map_err BadRequest (normalize_a2a_cart_envelope uuid_from_str body));
  respond (cart_projection_dto (uuid_display env)) (for_tenant env self auth (fst c) (snd c)).

Definition for_own_tenant (auth : AuthContext) (r : IdentityLinkRequest) : IdentityLinkRequest :=
  MkIdentityLinkRequest (ax_tenant_id auth) (il_merchant_id r) (il_agent_id r) (il_link_token r)
    (il_user_reference r).

Definition run_a2a_identity_link (auth : AuthContext) (body : Value) : H IdentityLinkResultDto :=
  request ← reply (map_err BadRequest (normalize_a2a_identity_link_envelope body));
  if claims_other_tenant auth (il_tenant_id request) then st_fail (Forbidden "tenant mismatch")
  else respond identity_link_dto (api (link_identity self (for_own_tenant auth request))).

Definition run_a2a_order_query (auth : AuthContext) (body : Value) : H Value :=
  order_id ← reply (ok_or ((vget body "payload" ≫= fun p => vget p "order_id") ≫= as_str)
               (BadRequest "payload.order_id is required"));
  order ← http_get_order auth order_id;
  mret (VObject [("capability", VString "dev.ucp.order.query");
                 ("result", order_dto_value (order_dto (uuid_display env) to_rfc3339 order))]).

(** The routes [/a2a/checkout], [/a2a/cart], [/a2a/identity/link] and [/a2a/orders]. *)
Definition a2a_route {A} (run : AuthContext -> Value -> H A) (auth : AuthContext)
    (version : option string) (body : Value) : H A :=
  _ ← reply (map_err BadRequest (negotiate_a2a_version version));
  run auth body.

Definition a2a_execute_checkout := a2a_route run_a2a_checkout.
Definition a2a_dispatch_cart_command := a2a_route run_a2a_cart.
Definition a2a_link_identity := a2a_route run_a2a_identity_link.
Definition a2a_get_order := a2a_route run_a2a_order_query.

(** [.await.and_then(to_value)]. *)
Definition valued {A} (to_value : A -> result Value string) (m : H A) : H Value :=
  x ← m; reply (map_err (fun _ => Internal) (to_value x)).

Definition run_skill (auth : AuthContext) (envelope : Value) : H Value :=
  let name := skill_for envelope in
  if String.eqb name "identity-linking" then
    valued identity_dto_value (run_a2a_identity_link auth envelope)
  else if String.eqb name "order-lookup" then run_a2a_order_query auth envelope
  else if String.eqb name "cart" then valued cart_dto_value (run_a2a_cart auth envelope)
  else valued transaction_dto_value (run_a2a_checkout auth envelope).

(** The answer to a message whose envelope was found: a message of the agent, in the
    caller's context or a new one, or the error of the skill. *)
Definition answer_message (message : Value) (r : result Value ApiError) (w : World B)
  : A2aResponse * World B :=
  match r with
  | Ok data =>
      let '(context_id, w) :=
        match as_str (index message "contextId") with
        | Some context_id => (context_id, w)
        | None => (uuid_display env (uuid_at env (w_tick w)), set_tick (S (w_tick w)) w)
        end in
      (MkA2aResponse 200
         (reply_message (uuid_display env (uuid_at env (w_tick w))) context_id data),
       set_tick (S (w_tick w)) w)
  | Err e =>
      (error_body (fst (parts e)) (snd (parts e)) "commerce-orchestrator" (error_message e), w)
  end.

(** What makes a message unacceptable before any skill runs. *)
Definition read_message (body : string) : result (Value * Value) A2aResponse :=
  let? request := map_err (fun e => invalid_params ("body is not JSON: " +:+ e)) (body_from_slice body) in
  let message := index request "message" in
  match as_str (index message "messageId") with
  | None | Some EmptyString => Err (invalid_params "message.messageId is required")
  | Some _ =>
      if bool_decide (as_str (index message "role") = Some "ROLE_USER") then
        match as_str (index message "taskId") with
        | Some task_id => Err (task_not_found task_id)
        | None =>
            let? envelope := ok_or (message_envelope message)
              (invalid_params
                 "message.parts must include a DataPart carrying {capability, payload}") in
            Ok (message, envelope)
        end
      else Err (invalid_params "message.role must be ROLE_USER")
  end.

Definition send_message (auth : AuthContext) (version : option string) (body : string)
    (w : World B) : A2aResponse * World B :=
  match version_error version with
  | Some response => (response, w)
  | None =>
      match read_message body with
      | Err response => (response, w)
      | Ok (message, envelope) =>
          let '(r, w) := run_skill auth envelope w in answer_message message r w
      end
  end.

Definition post_operation (auth : AuthContext) (operation : string) (version : option string)
    (body : string) (w : World B) : A2aResponse * World B :=
  if negb (String.eqb operation "message:send") then
    (a2a_error 400 "UNSUPPORTED_OPERATION"
       ("'" +:+ operation +:+ "' is not supported by this agent"), w)
  else send_message auth version body w.
End skills.

(** ** The two spellings of a cart command *)

(** The JSON of the REST route's body, as [serde] writes the tagged enum. *)
Definition command_json (d : CartCommandDto) : Value :=
  VObject match d with
  | DtoCreateCart m c =>
      [("kind", VString "create_cart"); ("merchant_id", VString m); ("currency", VString c)]
  | DtoAddItem i q => [("kind", VString "add_item"); ("item_id", VString i); ("quantity", VInt q)]
  | DtoUpdateItemQty l q =>
      [("kind", VString "update_item_qty"); ("line_id", VString l); ("quantity", VInt q)]
  | DtoRemoveItem l => [("kind", VString "remove_item"); ("line_id", VString l)]
  | DtoApplyAdjustment c => [("kind", VString "apply_adjustment"); ("code", VString c)]
  | DtoGetCart c => [("kind", VString "get_cart"); ("cart_id", VString c)]
  | DtoStartCheckout c v =>
      [("kind", VString "start_checkout"); ("cart_id", VString c); ("cart_version", VInt v)]
  | DtoCancelCart c => [("kind", VString "cancel_cart"); ("cart_id", VString c)]
  end.

Definition rest_body (req : CartCommandRequest) : Value :=
  VObject (("command", command_json (cq_command req))
    :: match cq_cart_id req with Some s => [("cart_id", VString s)] | None => [] end).

Definition envelope (capability : string) (payload : Value) : Value :=
  VObject [("capability", VString capability); ("payload", payload)].

(** What [serde] lets into the integers of the enum. *)
Definition in_width (d : CartCommandDto) : Prop :=
  match d with
  | DtoAddItem _ q | DtoUpdateItemQty _ q => (0 <= q < 2 ^ 32)%Z
  | DtoStartCheckout _ v => (0 <= v <= u64_max)%Z
  | _ => True
  end.

(** What an envelope makes of the integers it is given: a quantity counts modulo [2^32], and what is
    no unsigned integer of 64 bits counts as zero in a quantity and as one in a version. *)
Definition number_read (z default : Z) : Z := if decide (0 <= z <= u64_max)%Z then z else default.

Definition as_read (req : CartCommandRequest) : CartCommandRequest :=
  MkCartCommandRequest
    match cq_command req with
    | DtoAddItem i q => DtoAddItem i (number_read q 0 mod 2 ^ 32)
    | DtoUpdateItemQty l q => DtoUpdateItemQty l (number_read q 0 mod 2 ^ 32)
    | DtoStartCheckout c v => DtoStartCheckout c (number_read v 1)
    | d => d
    end (cq_cart_id req).

Lemma as_read_in_width req : in_width (cq_command req) -> as_read req = req.
Proof.
  destruct req as [d c]. unfold as_read, number_read. cbn. intros H.
  destruct d; cbn in H; try done;
    (rewrite decide_True by (unfold u64_max in *; lia)); [rewrite Z.mod_small by lia..|]; done.
Qed.

Definition success {A E} (r : result A E) : option A :=
  match r with Ok x => Some x | Err _ => None end.

Section spellings.
Context {serde : A2aSerde} (uuid_from_str : string -> result Uuid string).

(** What the REST route does with its body before it calls the facade. *)
Definition rest_meaning (req : CartCommandRequest) : result (CartCommand * option CartId) string :=
  let? cmd := command_of_dto uuid_from_str (cq_command req) in
  match cq_cart_id req with
  | None => Ok (cmd, None)
  | Some s => let? u := uuid_from_str s in Ok (cmd, Some (MkCartId u))
  end.

Lemma as_u64_read z n : unwrap_or (as_u64 (VInt z)) n = number_read z n.
Proof.
  unfold number_read. cbn. destruct (Z.leb_spec 0 z), (Z.leb_spec z u64_max); cbn;
    [rewrite decide_True by done|rewrite decide_False by lia..]; done.
Qed.

Lemma command_spelling req :
  (forall c, cq_command req <> DtoCancelCart c) ->
  success (cart_value_to_command uuid_from_str (command_json (cq_command req)))
  = success (command_of_dto uuid_from_str (cq_command (as_read req))).
Proof.
  destruct req as [d id]. unfold as_read. cbn [cq_command].
  destruct d as [m c|i q|l q|l|c|c|c v|c]; cbn -[u32_wrap as_u64]; intros Hc; try done.
  - unfold number_or. cbn -[u32_wrap as_u64 u64_max]. by rewrite as_u64_read.
  - unfold number_or. cbn -[u32_wrap as_u64 u64_max]. by rewrite as_u64_read.
  - unfold cart_id_member, parse_cart_id, number_or. cbn -[as_u64]. rewrite as_u64_read.
    by destruct (uuid_from_str c).
  - by destruct (Hc c).
Qed.

(** C16: under every listed capability, the JSON of a cart command sent as an agent-to-agent
    envelope means what the same JSON means on the REST route, the same command on the same cart
    or a refusal on both, when its quantity fits 32 bits and its version 64.  An integer that does
    not fit is not refused, as the parser of the REST route does: a quantity is read modulo [2^32],
    and what does not fit 64 bits as zero, or as one when it is a version.  [cancel_cart] and an empty cart id, which are told apart, are left out. *)
Theorem cart_envelope_means_rest_body capability req :
  capability ∈ CART_CAPABILITIES ->
  (forall c, cq_command req <> DtoCancelCart c) -> cq_cart_id req <> Some "" ->
  success (normalize_a2a_cart_envelope uuid_from_str (envelope capability (rest_body req)))
  = success (rest_meaning (as_read req))
  /\ (in_width (cq_command req) -> as_read req = req).
Proof.
  intros Hcap Hc Hne. split; [|apply as_read_in_width]. pose proof (command_spelling req Hc) as Hs.
  apply str_contains_spec in Hcap. unfold normalize_a2a_cart_envelope, rest_meaning.
  cbn -[CART_CAPABILITIES cart_value_to_command command_of_dto str_contains as_read]. rewrite Hcap.
  cbn -[cart_value_to_command command_of_dto as_read].
  change (cq_cart_id (as_read req)) with (cq_cart_id req).
  unfold rest_body. destruct (cq_cart_id req) as [s|]; cbn -[cart_value_to_command command_of_dto as_read].
  - assert (str_is_empty s = false) as -> by (by destruct s).
    destruct (uuid_from_str s) as [u|e], (cart_value_to_command _ _), (command_of_dto _ _);
      cbn -[as_read] in *; congruence.
  - destruct (cart_value_to_command _ _), (command_of_dto _ _); cbn -[as_read] in *; congruence.
Qed.

(** An envelope cannot cancel a cart. *)
Theorem cart_envelope_cannot_cancel capability c cart_id :
  success (normalize_a2a_cart_envelope uuid_from_str
    (envelope capability (rest_body (MkCartCommandRequest (DtoCancelCart c) cart_id)))) = None.
Proof.
  unfold normalize_a2a_cart_envelope. cbn -[str_contains contains].
  destruct (_ || _); [|done]. destruct cart_id as [s|]; cbn; [|done].
  destruct (str_is_empty s); [done|]. by destruct (uuid_from_str s).
Qed.

(** The quantity of an envelope is truncated to 32 bits. *)
Theorem a2a_quantity_wraps item :
  cart_value_to_command uuid_from_str (command_json (DtoAddItem item 4294967297))
  = Ok (AddItem (MkAddItem item 1)).
Proof. reflexivity. Qed.
End spellings.

(** ** What the message operation answers *)

Section messages.
Context {B : Backend} {serde : A2aSerde} (env : Env) (parse_proof : string -> option ConsentProof)
  (issuers : option string) (uuid_from_str : string -> result Uuid string)
  (to_rfc3339 : Z -> string) (self : OrchestratorFacade B).
Implicit Types w v : World B.

Abbreviation skill_run := (run_skill env parse_proof issuers uuid_from_str to_rfc3339 self).
Abbreviation send := (send_message env parse_proof issuers uuid_from_str to_rfc3339 self).
Abbreviation post := (post_operation env parse_proof issuers uuid_from_str to_rfc3339 self).

Definition ERROR_STATUSES : list Z := [400; 401; 403; 404; 409; 422; 500; 501; 502]%Z.

Lemma parts_status e : fst (parts e) ∈ ERROR_STATUSES.
Proof.
  unfold ERROR_STATUSES.
  destruct e as [| | | | |f|]; cbn; try set_solver.
  destruct f as [r| | | | | ]; cbn; try set_solver. destruct r; cbn; set_solver.
Qed.

(** A refusal: a [google.rpc.Status] whose code is the status of the response. *)
Definition is_refusal (response : A2aResponse) : Prop :=
  exists status reason domain message, response = error_body status reason domain message
    /\ status ∈ ERROR_STATUSES.

(** A reply: a message of the agent in the context the caller named, if it named one. *)
Definition is_reply (body : string) (response : A2aResponse) : Prop :=
  exists request message_id context_id data,
    body_from_slice body = Ok request
    /\ response = MkA2aResponse 200 (reply_message message_id context_id data)
    /\ forall c, as_str (index (index request "message") "contextId") = Some c -> context_id = c.

Lemma invalid_params_refusal m : is_refusal (invalid_params m).
Proof. do 4 eexists. split; [reflexivity|]. by left. Qed.

Lemma task_not_found_refusal m : is_refusal (task_not_found m).
Proof. do 4 eexists. split; [reflexivity|]. unfold ERROR_STATUSES. set_solver. Qed.

Lemma version_error_spec header :
  (version_error header = None /\ nonblank header = Some A2A_BINDING_VERSION)
  \/ exists response, version_error header = Some response /\ is_refusal response.
Proof.
  unfold version_error. destruct (String.eqb_spec (unwrap_or (nonblank header) "0.3") A2A_BINDING_VERSION)
    as [H|H]; [left|right].
  - split; [done|]. destruct (nonblank header); cbn in H; [by rewrite H|discriminate].
  - eexists. split; [done|]. do 4 eexists. split; [reflexivity|by left].
Qed.

Lemma read_message_spec body :
  match read_message body with
  | Ok (message, envelope) =>
      exists request, body_from_slice body = Ok request /\ message = index request "message"
        /\ message_envelope message = Some envelope
  | Err response => is_refusal response
  end.
Proof.
  unfold read_message. destruct (body_from_slice body) as [request|e] eqn:Hb; cbn;
    [|apply invalid_params_refusal].
  destruct (as_str (index (index request "message") "messageId")) as [[|a s]|];
    [apply invalid_params_refusal| |apply invalid_params_refusal].
  destruct (bool_decide _); [|apply invalid_params_refusal].
  destruct (as_str (index _ "taskId")); [apply task_not_found_refusal|].
  destruct (message_envelope _) as [envelope|] eqn:He; cbn; [by eexists|apply invalid_params_refusal].
Qed.

(** Every answer of the binding is either one message of the agent, in the context the
    caller named, with status 200, or a [google.rpc.Status] whose code is the status of the
    response; and nothing but an accepted [message:send] of version 1.0 touches the state. *)
Theorem a2a_answers_message_or_status auth operation version body w response v :
  post auth operation version body w = (response, v) ->
  (is_reply body response \/ is_refusal response)
  /\ (operation <> "message:send" \/ nonblank version <> Some A2A_BINDING_VERSION
      \/ is_ok (read_message body) = false -> v = w /\ is_refusal response).
Proof.
  unfold post_operation. destruct (String.eqb_spec operation "message:send") as [->|Hop]; cbn [negb].
  2:{ intros [= <- <-]. assert (is_refusal (a2a_error 400 "UNSUPPORTED_OPERATION"
        ("'" +:+ operation +:+ "' is not supported by this agent")))
        by (do 4 eexists; split; [reflexivity|by left]). auto. }
  unfold send_message. destruct (version_error_spec version) as [[-> Hv]|(r & -> & Hr)];
    [|by intros [= <- <-]; auto].
  pose proof (read_message_spec body) as Hm. destruct (read_message body) as [[message env']|r];
    [|by intros [= <- <-]; auto].
  destruct Hm as (request & Hb & -> & _). destruct (skill_run auth env' w) as [[data|e] u];
    cbn; intros Hrun; (split; [|intros [H|[H|H]]; congruence]).
  - left. destruct (as_str (index (index request "message") "contextId")) as [c|] eqn:Hc;
      injection Hrun as <- <-; exists request; do 3 eexists; (split; [done|]); (split; [reflexivity|]);
      intros c'; congruence.
  - right. injection Hrun as <- <-. do 4 eexists. split; [reflexivity|apply parts_status].
Qed.

(** Every name of identity linking the identity route knows but the message operation does
    not is taken for a checkout, and refused. *)
Theorem send_message_misroutes_identity auth capability payload w :
  capability ∈ ["dev.ucp.identity.link"; "identity.linking"; "identity_linking"] ->
  vget payload "order_id" = None -> vget payload "command" = None ->
  normalize_a2a_identity_link_envelope (envelope capability payload)
    = map_err (fun e => "invalid identity payload: " +:+ e) (identity_from_value payload)
  /\ skill_run auth (envelope capability payload) w
     = (Err (BadRequest ("unsupported checkout capability: " +:+ capability)), w).
Proof.
  intros Hc Ho Hm. assert (capability = "dev.ucp.identity.link" \/ capability = "identity.linking"
    \/ capability = "identity_linking") as [-> | [-> | ->]] by set_solver;
  (split; [reflexivity|]); unfold run_skill, skill_for; cbn; by rewrite Ho, Hm.
Qed.
End messages.

(** ** Whom the skills act for *)

Section ownership.
Context {B : Backend} {L : BackendLaws B} {serde : A2aSerde} (env : Env)
  (parse_proof : string -> option ConsentProof) (issuers : option string)
  (uuid_from_str : string -> result Uuid string) (to_rfc3339 : Z -> string)
  (self : OrchestratorFacade B).
Implicit Types w v : World B.

(** What a skill that succeeded did, and for whom. *)
Definition acted_for (auth : AuthContext) (envelope : Value) w v : Prop :=
  let name := skill_for envelope in
  if String.eqb name "identity-linking" then
    exists link request record, fc_identity_link self = Some link
      /\ normalize_a2a_identity_link_envelope envelope = Ok request
      /\ claims_other_tenant auth (il_tenant_id request) = false
      /\ link (w_tick w) (MkProviderIdentityLinkRequest (ax_tenant_id auth)
           (il_merchant_id request) (il_agent_id request) (il_link_token request)) = Ok record
      /\ v = set_tick (S (w_tick w)) w
  else if String.eqb name "order-lookup" then
    exists id order, get_order id w = Some order /\ or_tenant_id order = ax_tenant_id auth /\ v = w
  else if String.eqb name "cart" then
    exists cmd id q, normalize_a2a_cart_envelope uuid_from_str envelope = Ok (cmd, id)
      /\ (ids_agree cmd id -> isolated (ax_tenant_id auth) w (Ok q) v)
  else
    exists request, normalize_a2a_checkout_envelope envelope = Ok request
      /\ "checkout:execute" ∈ ax_scopes auth /\ cr_tenant_id request = ax_tenant_id auth.

Lemma wp_respond {A C} (f : A -> C) (m : ST (World B) ApiError A) Q w :
  wp m (fun r v => Q (match r with Ok a => Ok (f a) | Err e => Err e end) v) w ->
  wp (respond f m) Q w.
Proof. intros H. apply wp_bind. eapply wp_mono; [exact H|]. by intros [] v. Qed.

Lemma wp_valued {A} (f : A -> result Value string) (m : ST (World B) ApiError A) (P : World B -> Prop) w :
  wp m (fun r v => is_ok r = true -> P v) w ->
  wp (valued f m) (fun r v => is_ok r = true -> P v) w.
Proof.
  intros H. apply wp_bind. eapply wp_mono; [exact H|]. intros [a|e] v Hv; [|done].
  apply wp_reply. intros _. by apply Hv.
Qed.

(** C15: whichever skill a message reaches, an answer is only given on behalf of the
    caller's own tenant: an identity is linked for that tenant, by exactly one request to
    the provider; an order is only shown if it is that tenant's; a checkout needs the
    caller's scope and names that tenant; and a cart command returns a cart of that tenant and
    leaves all others alone if the id beside it and the id in it, when it has both, are the same.
    An envelope lets its sender set the two to different carts; then nothing is claimed, and
    [Http.foreign_cart_read_and_cancelled] shows what the same command does on the REST route. *)
Theorem a2a_success_is_the_callers auth envelope w data v :
  snapshots_ok (w_events w) -> cart_snapshot (MkCartId (uuid_at env (w_tick w))) w = None ->
  run_skill env parse_proof issuers uuid_from_str to_rfc3339 self auth envelope w = (Ok data, v) ->
  acted_for auth envelope w v.
Proof.
  intros Hok Hfresh Hrun. refine (wp_run _ (fun r v => is_ok r = true -> _) _ _ _ _ Hrun eq_refl).
  clear Hrun data v. unfold run_skill, acted_for.
  destruct (String.eqb (skill_for envelope) "identity-linking").
  { apply wp_valued. unfold run_a2a_identity_link. wp_step. rewrite wp_reply.
    destruct (normalize_a2a_identity_link_envelope envelope) as [request|]; cbn [map_err]; [|done].
    destruct (claims_other_tenant _ _) eqn:Hc; [by wp_prims|]. apply wp_respond, wp_api.
    unfold link_identity. destruct (_ || _); [by wp_prims|].
    destruct (fc_identity_link self) as [link|]; [|by wp_prims]. wp_step. unfold wp, ask. cbn [fst snd].
    destruct (link _ _) as [record|e] eqn:Hl; cbn; [|done]. intros _. by exists link, request, record. }
  destruct (String.eqb (skill_for envelope) "order-lookup").
  { unfold run_a2a_order_query. wp_step. rewrite wp_reply. destruct (ok_or _ _) as [id|]; [|done].
    wp_step. unfold http_get_order. wp_step. apply wp_api. unfold facade_get_order.
    wp_prims. destruct (get_order id w) as [order|] eqn:Ho; cbn [map_err]; wp_step;
      rewrite wp_reply; cbn [ok_or]; [|done].
    destruct (String.eqb_spec (ax_tenant_id auth) (or_tenant_id order)); [|by wp_prims].
    wp_prims. intros _. by exists id, order. }
  destruct (String.eqb (skill_for envelope) "cart").
  { apply wp_valued. unfold run_a2a_cart. wp_step. rewrite wp_reply.
    destruct (normalize_a2a_cart_envelope _ envelope) as [[cmd id]|]; cbn [map_err]; [|done].
    apply wp_respond, wp_api. cbn [fst snd]. unfold wp.
    destruct (dispatch_cart_command_for_tenant _ _ _ cmd id w) as [[q|e] v] eqn:Hd; cbn; [|done].
    intros _. exists cmd, id, q. split; [done|]. intros Ha. by eapply dispatch_isolated. }
  apply wp_valued. unfold run_a2a_checkout. wp_step. rewrite wp_reply.
  destruct (normalize_a2a_checkout_envelope envelope) as [request|]; cbn [map_err]; [|done].
  apply wp_respond, wp_api. unfold execute_checkout_authorized. wp_step. rewrite wp_lift.
  unfold authorize_checkout. destruct (any _ _) eqn:Hs; cbn [negb map_err]; [|done].
  destruct (String.eqb_spec (ax_tenant_id auth) (cr_tenant_id request)); cbn [negb map_err]; [|done].
  unfold wp. intros _. exists request. split; [done|]. split; [|done].
  apply existsb_elem in Hs as (s & Hs & Heq). apply String.eqb_eq in Heq. by subst.
Qed.
End ownership.

(** ** Witnesses *)

Definition demo_message : Value :=
  VObject [("message", VObject
    [("messageId", VString "m1"); ("role", VString "ROLE_USER"); ("contextId", VString "ctx");
     ("parts", VArray [VObject [("text", VString "hi")];
        VObject [("data", envelope "cart" (rest_body (MkCartCommandRequest (DtoGetCart "cart") None)))]])])].

Definition demo_a2a_serde : A2aSerde := {|
  checkout_from_value _ := Err "none"; identity_from_value _ := Err "none";
  cart_dto_value c := Ok (VObject [("cart_id", VString (cpd_cart_id c))]);
  transaction_dto_value _ := Err "none"; identity_dto_value _ := Err "none";
  order_dto_value _ := VNull; facade_error_text _ := "error";
  body_from_slice s := if String.eqb s "message" then Ok demo_message else Err "syntax"
|}.

Abbreviation demo_post := (@post_operation _ demo_a2a_serde demo_env no_proofs None demo_uuid
  (fun z => pretty z) (demo_facade false) demo_caller).

Lemma a2a_answers_message_or_status_witness :
  let run := demo_post "message:send" (Some "1.0") "message" filled_world in
  a2a_status (fst run) = 200%Z /\ (is_reply (serde := demo_a2a_serde) "message" (fst run) \/ is_refusal (fst run)).
Proof.
  intros run. split; [vm_compute; reflexivity|]. destruct run as [response v] eqn:Hrun.
  exact (proj1 (@a2a_answers_message_or_status _ demo_a2a_serde demo_env no_proofs None demo_uuid
    (fun z => pretty z) (demo_facade false) demo_caller "message:send" (Some "1.0") "message"
    filled_world response v Hrun)).
Defined.

Lemma cart_envelope_means_rest_body_witness :
  success (normalize_a2a_cart_envelope demo_uuid
    (envelope "ucp.shopping.cart" (rest_body (MkCartCommandRequest (DtoAddItem "sku" 4294967295) (Some "cart")))))
  = Some (AddItem (MkAddItem "sku" 4294967295), Some (MkCartId 0%N)).
Proof.
  refine (eq_trans (proj1 (cart_envelope_means_rest_body demo_uuid "ucp.shopping.cart"
    (MkCartCommandRequest (DtoAddItem "sku" 4294967295) (Some "cart")) _ _ _)) _);
    [apply str_contains_spec; reflexivity|intros c; discriminate|discriminate|reflexivity].
Defined.

Lemma send_message_misroutes_identity_witness :
  fst (@run_skill _ demo_a2a_serde demo_env no_proofs None demo_uuid (fun z => pretty z)
    (demo_facade false) demo_caller (envelope "identity.linking" (VObject [])) filled_world)
  = Err (BadRequest "unsupported checkout capability: identity.linking").
Proof.
  rewrite (proj2 (@send_message_misroutes_identity _ demo_a2a_serde demo_env no_proofs None demo_uuid
    (fun z => pretty z) (demo_facade false) demo_caller "identity.linking" (VObject []) filled_world
    ltac:(apply str_contains_spec; reflexivity) eq_refl eq_refl)).
  reflexivity.
Defined.

Lemma a2a_success_is_the_callers_witness :
  let env' := envelope "cart" (rest_body (MkCartCommandRequest (DtoGetCart "cart") None)) in
  let run := @run_skill _ demo_a2a_serde demo_env no_proofs None demo_uuid (fun z => pretty z)
    (demo_facade false) demo_caller env' filled_world in
  is_ok (fst run) = true /\ acted_for (serde := demo_a2a_serde) demo_uuid
    (demo_facade false) demo_caller env' filled_world (snd run).
Proof.
  intros env' run. split; [vm_compute; reflexivity|].
  destruct run as [r v] eqn:Hrun. assert (is_ok r = true) as Hr
    by (rewrite <- (f_equal fst Hrun : fst run = r); vm_compute; reflexivity).
  destruct r as [data|e]; [|discriminate Hr].
  apply (@a2a_success_is_the_callers _ _ demo_a2a_serde demo_env no_proofs None demo_uuid (fun z => pretty z)
    (demo_facade false) demo_caller env' filled_world data v filled_world_ok); [|exact Hrun].
  vm_compute. reflexivity.
Defined.
