(* ===== verification/Router.v ===== *)
(** * The router ([crates/orchestrator-http/src]: [routes/mod.rs], [routes/v1.rs],
    [routes/discovery.rs], [routes/health.rs], [observability.rs], [app.rs])

    The whole API as one function of a request: the signature gate, the table of routes, the
    authentication in front of every version 1 handler, the reading of its path and body, the
    handler itself and what it answers.  [axum] picks the route and [serde] reads the bodies:
    both are parameters.  [RouterLogic] holds the theorems. *)

From S2P Require Export Mcp A2a.
From Stdlib Require Import Ascii.

(** ** Answers *)

Record PaymentMismatchDto := MkMismatchDto {
  pmd_transaction_id : string; pmd_our_state : string; pmd_provider_state : option string }.

(** [format!("{:?}", state)]. *)
Definition debug_payment_state (s : PaymentState) : string :=
  match s with
  | Authorized => "Authorized" | Captured => "Captured" | Voided => "Voided"
  | RefundPending => "RefundPending" | Refunded => "Refunded" | Reconciled => "Reconciled"
  | PaymentStateFailed => "Failed"
  end.

Definition mismatch_dto (m : PaymentMismatch) : PaymentMismatchDto :=
  MkMismatchDto (mm_transaction_id m) (debug_payment_state (mm_our_state m))
    (debug_payment_state <$> mm_provider_state m).

(** [PaymentLifecycleRequestDto], and its conversion. *)
Record PaymentLifecycleRequestDto := MkLifecycleDto {
  pld_tenant_id : string; pld_merchant_id : string; pld_transaction_id : string;
  pld_amount_minor : Z; pld_idempotency_key : string }.

Definition lifecycle_of_dto (dto : PaymentLifecycleRequestDto) : PaymentLifecycleRequest :=
  MkPaymentLifecycleRequest (pld_tenant_id dto) (pld_merchant_id dto) (pld_transaction_id dto)
    (pld_amount_minor dto) (pld_idempotency_key dto).

(** The bodies of the successful answers. *)
Inductive Reply :=
| RCommand (c : CartProjectionDto)
| RCart (c : UcpCartResponseDto)
| RSession (c : AcpCheckoutSessionResponse)
| RTransaction (t : TransactionResultDto)
| RLink (l : UcpEmbeddedCheckoutLinkResponseDto)
| RHandlers (hs : list PaymentHandlerDescriptor)
| RHandler (h : PaymentHandlerDescriptor)
| RProducts (p : UcpCatalogProductsResponseDto)
| RProduct (p : UcpCatalogProductResponseDto)
| RItem (i : CatalogItemDto)
| RUcpOrder (o : UcpOrderResponseDto)
| ROrder (o : OrderDto)
| ROrders (os : list OrderDto)
| RDelegated (d : AcpDelegatePaymentResponse)
| RIdentity (i : IdentityLinkResultDto)
| RValue (v : Value)
| RWebhook (h : WebhookRegistrationDto)
| RWebhooks (hs : list WebhookRegistrationDto)
| RRemoved (removed : bool)
| RPayment (p : PaymentOperationResult)
| RRpc (r : JsonRpcResponse)
| RAccepted (accepted : bool)
| RDeadLetters (ms : list DeadLetterEntryDto)
| RReplayed (replayed : bool)
| RReport (ms : list PaymentMismatchDto).

(** The public documents; the text of the metrics and of the OpenAPI document. *)
Inductive Page :=
| PUcp (d : WellKnownUcp)
| PAcp (d : AcpDiscoveryDocument)
| PCard (v : Value)
| PStatus (status : string)
| PText (text : string).

(** What a request is answered with: a body with status 200, an error of a handler, an answer
    of the agent binding with its own status, a public document, or a refusal of [axum]
    before any handler. *)
Inductive Answer :=
| Success (r : Reply)
| Refused (e : ApiError)
| AgentAnswer (r : A2aResponse)
| Document (status : Z) (p : Page)
| Rejection (status : Z).

Definition answer_status (a : Answer) : Z :=
  match a with
  | Success _ => 200
  | Refused e => fst (parts e)
  | AgentAnswer r => a2a_status r
  | Document status _ => status
  | Rejection status => status
  end.

(** ** The table of routes *)

(** The handlers of [v1.rs] (and the A2A ones it mounts), by name. *)
Inductive Endpoint :=
| EDispatchCartCommand
| EUcpCreateCart | EUcpGetCart | EUcpUpdateCart | EUcpCancelCart
| EUcpCreateCheckout | EUcpGetCheckout | EUcpUpdateCheckout | EUcpCompleteCheckout
| EUcpCancelCheckout
| EUcpSetCartFulfillment | EUcpSetCheckoutFulfillment | EUcpCreateEmbeddedCheckoutLink
| EUcpListPaymentHandlers | EUcpGetPaymentHandler
| EUcpCatalogSearch | EUcpCatalogLookup | EUcpCatalogProduct | EUcpGetOrder
| EAcpCreateSession | EAcpGetSession | EAcpUpdateSession | EAcpCompleteSession
| EAcpCancelSession | EAcpDelegatePayment
| EAcpCreateCart | EAcpGetCart | EAcpUpdateCart | EAcpCancelCart
| EExecuteCheckout
| EA2aExecuteCheckout | EA2aDispatchCartCommand | EA2aLinkIdentity | EA2aGetOrder
| EPostOperation | EGetTask | EPostTask
| EListOrders | EGetOrder | ELookupCatalogItem
| ERegisterWebhook | EListWebhooks | EUnregisterWebhook
| ECapturePayment | EVoidPayment | ERefundPayment
| EMcpMessage
| EAcceptIncomingEvent | EProcessOutbox | EListDeadLetter | EReplayDeadLetter
| ERunReconciliation.

#[export] Instance Endpoint_eq_dec : EqDecision Endpoint.
Proof. solve_decision. Defined.

Definition v1_routes : list (string * list (string * Endpoint)) :=
  [ ("/cart/commands", [("POST", EDispatchCartCommand)]);
    ("/ucp/carts", [("POST", EUcpCreateCart)]);
    ("/ucp/carts/:id", [("GET", EUcpGetCart); ("PUT", EUcpUpdateCart)]);
    ("/ucp/carts/:id/cancel", [("POST", EUcpCancelCart)]);
    ("/ucp/checkout-sessions", [("POST", EUcpCreateCheckout)]);
    ("/ucp/checkout-sessions/:id", [("GET", EUcpGetCheckout); ("PUT", EUcpUpdateCheckout)]);
    ("/ucp/checkout-sessions/:id/complete", [("POST", EUcpCompleteCheckout)]);
    ("/ucp/checkout-sessions/:id/cancel", [("POST", EUcpCancelCheckout)]);
    ("/ucp/cart", [("POST", EUcpCreateCart)]);
    ("/ucp/cart/:id", [("GET", EUcpGetCart)]);
    ("/ucp/cart/:id", [("PUT", EUcpUpdateCart)]);
    ("/ucp/cart/:id/cancel", [("POST", EUcpCancelCart)]);
    ("/ucp/cart/:id/fulfillment", [("POST", EUcpSetCartFulfillment)]);
    ("/ucp/checkout", [("POST", EUcpCreateCheckout)]);
    ("/ucp/checkout/:id", [("GET", EUcpGetCheckout)]);
    ("/ucp/checkout/:id", [("PUT", EUcpUpdateCheckout)]);
    ("/ucp/checkout/:id/complete", [("POST", EUcpCompleteCheckout)]);
    ("/ucp/checkout/:id/cancel", [("POST", EUcpCancelCheckout)]);
    ("/ucp/checkout/:id/fulfillment", [("POST", EUcpSetCheckoutFulfillment)]);
    ("/ucp/checkout/:id/embedded-link", [("POST", EUcpCreateEmbeddedCheckoutLink)]);
    ("/ucp/payment-handlers", [("GET", EUcpListPaymentHandlers)]);
    ("/ucp/payment-handlers/:id", [("GET", EUcpGetPaymentHandler)]);
    ("/ucp/catalog/search", [("POST", EUcpCatalogSearch)]);
    ("/ucp/catalog/lookup", [("POST", EUcpCatalogLookup)]);
    ("/ucp/catalog/product", [("POST", EUcpCatalogProduct)]);
    ("/ucp/orders/:id", [("GET", EUcpGetOrder)]);
    ("/acp/checkout_sessions", [("POST", EAcpCreateSession)]);
    ("/acp/checkout_sessions/:id", [("GET", EAcpGetSession)]);
    ("/acp/checkout_sessions/:id", [("PUT", EAcpUpdateSession)]);
    ("/acp/checkout_sessions/:id/complete", [("POST", EAcpCompleteSession)]);
    ("/acp/checkout_sessions/:id/cancel", [("POST", EAcpCancelSession)]);
    ("/acp/delegate_payment", [("POST", EAcpDelegatePayment)]);
    ("/acp/carts", [("POST", EAcpCreateCart)]);
    ("/acp/carts/:id", [("GET", EAcpGetCart)]);
    ("/acp/carts/:id", [("PUT", EAcpUpdateCart)]);
    ("/acp/carts/:id/cancel", [("POST", EAcpCancelCart)]);
    ("/checkout/execute", [("POST", EExecuteCheckout)]);
    ("/a2a/checkout", [("POST", EA2aExecuteCheckout)]);
    ("/a2a/cart", [("POST", EA2aDispatchCartCommand)]);
    ("/a2a/identity/link", [("POST", EA2aLinkIdentity)]);
    ("/a2a/orders", [("POST", EA2aGetOrder)]);
    ("/a2a/:operation", [("POST", EPostOperation)]);
    ("/a2a/tasks/:task", [("GET", EGetTask); ("POST", EPostTask)]);
    ("/orders", [("GET", EListOrders)]);
    ("/orders/:id", [("GET", EGetOrder)]);
    ("/catalog/items/:id", [("GET", ELookupCatalogItem)]);
    ("/webhooks", [("POST", ERegisterWebhook)]);
    ("/webhooks", [("GET", EListWebhooks)]);
    ("/webhooks/:id", [("DELETE", EUnregisterWebhook)]);
    ("/payments/capture", [("POST", ECapturePayment)]);
    ("/payments/void", [("POST", EVoidPayment)]);
    ("/payments/refund", [("POST", ERefundPayment)]);
    ("/mcp/message", [("POST", EMcpMessage)]);
    ("/events/incoming", [("POST", EAcceptIncomingEvent)]);
    ("/ops/outbox/process", [("POST", EProcessOutbox)]);
    ("/ops/dead-letter", [("GET", EListDeadLetter)]);
    ("/ops/dead-letter/replay", [("POST", EReplayDeadLetter)]);
    ("/ops/reconciliation", [("POST", ERunReconciliation)]) ].

(** The documents and probes that need no caller. *)
Inductive PublicEndpoint :=
| WellKnownUcpPage | WellKnownAcpPage | AgentCardPage
| LivePage | ReadyPage | MetricsPage | OpenApiPage.

#[export] Instance PublicEndpoint_eq_dec : EqDecision PublicEndpoint.
Proof. solve_decision. Defined.

Definition discovery_routes : list (string * PublicEndpoint) :=
  [ ("/.well-known/ucp", WellKnownUcpPage); ("/.well-known/acp.json", WellKnownAcpPage);
    ("/.well-known/agent-card.json", AgentCardPage) ].

Definition health_routes : list (string * PublicEndpoint) :=
  [ ("/health/live", LivePage); ("/health/ready", ReadyPage); ("/metrics", MetricsPage) ].

Inductive Route := Public (p : PublicEndpoint) | V1 (e : Endpoint).

#[export] Instance Route_eq_dec : EqDecision Route.
Proof. solve_decision. Defined.

(** A row of the table: pattern, method, handler. *)
Definition public_row (r : string * PublicEndpoint) : string * string * Route :=
  (fst r, "GET", Public (snd r)).

Definition v1_rows (r : string * list (string * Endpoint)) : list (string * string * Route) :=
  map (fun me => ("/api/v1" +:+ fst r, fst me, V1 (snd me))) (snd r).

Definition router : list (string * string * Route) :=
  map public_row discovery_routes ++ map public_row health_routes
  ++ [("/api/v1/openapi.json", "GET", Public OpenApiPage)]
  ++ concat (map v1_rows v1_routes).

(** ** What is outside: [axum]'s choice of a route, [serde]'s reading of queries and bodies *)

Class WebFramework := {
  (** The pattern among the registered ones that takes the path, and the decoded parameter of
      the path, [None] where it is not UTF-8. *)
  find_route : list string -> string -> option (string * option string);
  (** A body, or the status of the rejection. *)
  query_ucp_version : option string -> result (option string) Z;
  json_cart_command : HttpRequest -> result CartCommandRequest Z;
  json_ucp_cart : HttpRequest -> result UcpCartRequestDto Z;
  json_fulfillment : HttpRequest -> result UcpFulfillmentSelectionRequestDto Z;
  json_checkout : HttpRequest -> result CheckoutRequestDto Z;
  json_search : HttpRequest -> result (option string) Z;
  json_ids : HttpRequest -> result (list string) Z;
  json_id : HttpRequest -> result string Z;
  json_acp_create : HttpRequest -> result AcpCheckoutSessionCreateRequest Z;
  json_acp_lines : HttpRequest -> result (list LineRequest) Z;
  json_acp_complete : HttpRequest -> result AcpCompleteSessionRequest Z;
  json_acp_delegate : HttpRequest -> result AcpDelegatePaymentRequest Z;
  json_value : HttpRequest -> result Value Z;
  json_webhook : HttpRequest -> result WebhookRegistrationRequestDto Z;
  json_lifecycle : HttpRequest -> result PaymentLifecycleRequestDto Z;
  json_rpc : HttpRequest -> result JsonRpcRequest Z;
  json_message_id : HttpRequest -> result string Z;
  json_max_attempts : HttpRequest -> result Z Z;
  json_transaction_ids : HttpRequest -> result (list string) Z
}.

(** [headers.get(name).and_then(|v| v.to_str().ok())]: the first value. *)
Definition get_header (headers : HeaderMap) (name : string) : option string :=
  find_first (fun kv => String.eqb (fst kv) name) headers ≫= fun kv => to_str (snd kv).

(** [error.replace(..)] of one character by another. *)
Fixpoint replace_char (a b : ascii) (s : string) : string :=
  match s with
  | EmptyString => ""
  | String c s => String (if Ascii.eqb c a then b else c) (replace_char a b s)
  end.

Definition openapi_failure (error : string) : string :=
  "{" +:+ quoted "error" +:+ ":" +:+ quoted (replace_char dquote "'"%char error) +:+ "}".

(** ** The handlers behind the routes *)

Section serve.
Context {B : Backend} {crypto : Crypto} {http : WebFramework} {mcp_serde : McpSerde} {a2a_serde : A2aSerde}
  (env : Env) (parse_proof : string -> option ConsentProof) (issuers : option string)
  (uuid_from_str : string -> result Uuid string) (to_rfc3339 : Z -> string)
  (value_to_string : Value -> string)
  (url_with_query : string -> list (string * string) -> result string string)
  (crate_version : string) (cart_text checkout_text order_text identity_text : string)
  (metrics_text openapi_text : result string string)
  (self : OrchestratorFacade B) (state : AppState).

Definition Handler : Type := World B -> Answer * World B.

Definition say (a : Answer) : Handler := fun w => (a, w).

(** [Ok(Json(f(m)))] or the error. *)
Definition run {A} (f : A -> Reply) (m : ST (World B) ApiError A) : Handler := fun w =>
  match m w with
  | (Ok a, v) => (Success (f a), v)
  | (Err e, v) => (Refused e, v)
  end.

(** The [Json<T>] argument. *)
Definition body {A} (read : result A Z) (k : A -> Handler) : Handler :=
  match read with Ok x => k x | Err status => say (Rejection status) end.

(** The [Path<String>] argument. *)
Definition path (param : option string) (k : string -> Handler) : Handler :=
  match param with Some x => k x | None => say (Rejection 400) end.

Definition mcp_message (auth : AuthContext) (headers : HeaderMap) (request : JsonRpcRequest)
  : Handler := fun w =>
  let '(response, w) :=
    handle_mcp_request_with_version env parse_proof issuers uuid_from_str crate_version self
      request auth (get_header headers "mcp-protocol-version") w in
  (Success (RRpc response), w).

Definition a2a_operation (auth : AuthContext) (operation : string) (r : HttpRequest)
  : Handler := fun w =>
  let '(response, w) :=
    post_operation env parse_proof issuers uuid_from_str to_rfc3339 self auth operation
      (get_header (rq_headers r) "a2a-version") (rq_body r) w in
  (AgentAnswer response, w).

(** The checkout routes: the cart route's work, answered as a checkout session. *)
Definition checkout_reply : ST (World B) ApiError CartProjection -> Handler :=
  run RCart ∘ as_checkout env state.
Definition ucp_get_checkout (auth : AuthContext) (id : string) : Handler :=
  checkout_reply (ucp_get_cart env uuid_from_str self auth id).
Definition ucp_update_checkout (auth : AuthContext) (id : string) (req : UcpCartRequestDto)
  : Handler := checkout_reply (ucp_update_cart env uuid_from_str self auth id req).
Definition ucp_cancel_checkout (auth : AuthContext) (id : string) : Handler :=
  checkout_reply (ucp_cancel_cart env uuid_from_str self auth id).
Definition ucp_set_checkout_fulfillment (auth : AuthContext) (id : string)
    (req : UcpFulfillmentSelectionRequestDto) : Handler :=
  checkout_reply (ucp_set_cart_fulfillment env uuid_from_str self auth id req).

(** The handlers that touch one cart or answer with one. *)
Definition cart_endpoint (e : Endpoint) (param : option string) (r : HttpRequest)
    (auth : AuthContext) : option Handler :=
  let version := get_header (rq_headers r) "api-version" in
  let key := get_header (rq_headers r) "idempotency-key" in
  let cart := run RCart ∘ as_cart env in
  let session := run RSession ∘ as_session env in
  let acp_cart := run RSession ∘ as_acp_cart env in
  match e with
  | EDispatchCartCommand => Some (body (json_cart_command r) (fun req =>
      run (RCommand ∘ cart_projection_dto (uuid_display env))
        (http_dispatch_cart_command env uuid_from_str self auth req)))
  | EUcpCreateCart => Some (body (json_ucp_cart r) (fun req => cart (ucp_create_cart env self auth req)))
  | EUcpGetCart => Some (path param (fun id => cart (ucp_get_cart env uuid_from_str self auth id)))
  | EUcpUpdateCart => Some (path param (fun id => body (json_ucp_cart r) (fun req =>
      cart (ucp_update_cart env uuid_from_str self auth id req))))
  | EUcpCancelCart => Some (path param (fun id => cart (ucp_cancel_cart env uuid_from_str self auth id)))
  | EUcpCreateCheckout => Some (body (json_ucp_cart r) (fun req =>
      checkout_reply (ucp_create_checkout env self auth req)))
  | EUcpGetCheckout => Some (path param (ucp_get_checkout auth))
  | EUcpUpdateCheckout => Some (path param (fun id => body (json_ucp_cart r)
      (ucp_update_checkout auth id)))
  | EUcpCancelCheckout => Some (path param (ucp_cancel_checkout auth))
  | EUcpSetCartFulfillment => Some (path param (fun id => body (json_fulfillment r) (fun req =>
      cart (ucp_set_cart_fulfillment env uuid_from_str self auth id req))))
  | EUcpSetCheckoutFulfillment => Some (path param (fun id => body (json_fulfillment r)
      (ucp_set_checkout_fulfillment auth id)))
  | EAcpCreateSession => Some (body (json_acp_create r) (fun req =>
      session (acp_create_session env self auth version key req)))
  | EAcpGetSession => Some (path param (fun id =>
      session (acp_get_session env uuid_from_str self auth version id)))
  | EAcpUpdateSession => Some (path param (fun id => body (json_acp_lines r) (fun lines =>
      session (acp_update_session env uuid_from_str self auth version id lines))))
  | EAcpCancelSession => Some (path param (fun id =>
      session (acp_cancel_session env uuid_from_str self auth version key id)))
  | EAcpCreateCart => Some (body (json_acp_create r) (fun req =>
      acp_cart (acp_create_cart env self auth version key req)))
  | EAcpGetCart => Some (path param (fun id =>
      acp_cart (acp_get_cart env uuid_from_str self auth version id)))
  | EAcpUpdateCart => Some (path param (fun id => body (json_acp_lines r) (fun lines =>
      acp_cart (acp_update_cart_endpoint env uuid_from_str self auth version id lines))))
  | EAcpCancelCart => Some (path param (fun id =>
      acp_cart (acp_cancel_cart_endpoint env uuid_from_str self auth version key id)))
  | EUcpCreateEmbeddedCheckoutLink => Some (path param (fun id =>
      run RLink (ucp_create_embedded_checkout_link env uuid_from_str url_with_query self state
                   auth id)))
  | _ => None
  end.

(** The handlers that check out or move money. *)
Definition money_endpoint (e : Endpoint) (param : option string) (r : HttpRequest)
    (auth : AuthContext) : option Handler :=
  let transaction := run (RTransaction ∘ transaction_dto (uuid_display env)) in
  let payment (op : AuthContext -> PaymentLifecycleRequest -> ST (World B) ApiError _) :=
    body (json_lifecycle r) (fun dto => run RPayment (op auth (lifecycle_of_dto dto))) in
  match e with
  | EExecuteCheckout => Some (body (json_checkout r) (fun req =>
      transaction (http_execute_checkout env parse_proof issuers uuid_from_str self auth req)))
  | EUcpCompleteCheckout => Some (path param (fun id => body (json_checkout r) (fun req =>
      transaction (ucp_complete_checkout env parse_proof issuers uuid_from_str self auth id req))))
  | EAcpCompleteSession => Some (path param (fun id => body (json_acp_complete r) (fun req =>
      transaction (acp_complete_session env parse_proof issuers uuid_from_str self auth
        (get_header (rq_headers r) "api-version") (get_header (rq_headers r) "idempotency-key")
        id req))))
  | ECapturePayment => Some (payment (http_capture_payment self))
  | EVoidPayment => Some (payment (http_void_payment self))
  | ERefundPayment => Some (payment (http_refund_payment self))
  | _ => None
  end.

(** The handlers of the agent bindings. *)
Definition agent_endpoint (e : Endpoint) (param : option string) (r : HttpRequest)
    (auth : AuthContext) : option Handler :=
  let version := get_header (rq_headers r) "a2a-version" in
  match e with
  | EA2aExecuteCheckout => Some (body (json_value r) (fun v =>
      run RTransaction (a2a_execute_checkout env parse_proof issuers self auth version v)))
  | EA2aDispatchCartCommand => Some (body (json_value r) (fun v =>
      run RCommand (a2a_dispatch_cart_command env uuid_from_str self auth version v)))
  | EA2aLinkIdentity => Some (body (json_value r) (fun v =>
      run RIdentity (a2a_link_identity self auth version v)))
  | EA2aGetOrder => Some (body (json_value r) (fun v =>
      run RValue (a2a_get_order env to_rfc3339 auth version v)))
  | EPostOperation => Some (path param (fun operation => a2a_operation auth operation r))
  | EGetTask => Some (path param (fun task => say (AgentAnswer (get_task auth version task))))
  | EPostTask => Some (path param (fun task => say (AgentAnswer (post_task auth version task))))
  | EMcpMessage => Some (body (json_rpc r) (fun request => mcp_message auth (rq_headers r) request))
  | _ => None
  end.

(** The remaining handlers: catalog, orders, delegation, webhooks, operations. *)
Definition other_endpoint (e : Endpoint) (param : option string) (r : HttpRequest)
    (auth : AuthContext) : Handler :=
  match e with
  | EUcpListPaymentHandlers => run RHandlers (ucp_list_payment_handlers auth)
  | EUcpGetPaymentHandler => path param (fun id => run RHandler (ucp_get_payment_handler auth id))
  | EUcpCatalogSearch => body (json_search r) (fun q => run RProducts (ucp_catalog_search self auth q))
  | EUcpCatalogLookup => body (json_ids r) (fun ids => run RProducts (ucp_catalog_lookup self auth ids))
  | EUcpCatalogProduct => body (json_id r) (fun id => run RProduct (ucp_catalog_product self auth id))
  | EUcpGetOrder => path param (fun id => run RUcpOrder (ucp_get_order env to_rfc3339 auth id))
  | EAcpDelegatePayment => body (json_acp_delegate r) (fun req =>
      run RDelegated (acp_delegate_payment value_to_string self auth
        (get_header (rq_headers r) "api-version") (get_header (rq_headers r) "idempotency-key") req))
  | EListOrders => run ROrders (list_orders_route env to_rfc3339 auth)
  | EGetOrder => path param (fun id => run ROrder (get_order_route env to_rfc3339 auth id))
  | ELookupCatalogItem => path param (fun id => run RItem (http_lookup_catalog_item self auth id))
  | ERegisterWebhook => body (json_webhook r) (fun req =>
      run RWebhook (register_webhook_route env auth req))
  | EListWebhooks => run RWebhooks (list_webhooks_route auth)
  | EUnregisterWebhook => path param (fun id => run RRemoved (http_unregister_webhook auth id))
  | EAcceptIncomingEvent => body (json_message_id r) (fun id =>
      run RAccepted (http_accept_incoming_event auth id))
  | EProcessOutbox => body (json_max_attempts r) (fun n =>
      run (fun _ => RValue (VObject [("processed", VBool true)])) (http_process_outbox self auth n))
  | EListDeadLetter => run RDeadLetters (list_dead_letter_route auth)
  | EReplayDeadLetter => body (json_message_id r) (fun id =>
      run RReplayed (http_replay_dead_letter auth id))
  | ERunReconciliation => body (json_transaction_ids r) (fun ids =>
      run (RReport ∘ map mismatch_dto) (http_run_reconciliation self auth ids))
  | _ => say (Rejection 404)
  end.

Definition first_of (hs : list (option Handler)) (last : Handler) : Handler :=
  fold_right (fun h rest => match h with Some h => h | None => rest end) last hs.

Definition v1_handler (e : Endpoint) (param : option string) (r : HttpRequest)
    (auth : AuthContext) : Handler :=
  first_of [cart_endpoint e param r auth; money_endpoint e param r auth;
            agent_endpoint e param r auth]
    (other_endpoint e param r auth).

(** [metrics] and [openapi]: a text, or a text about the failure. *)
Definition text_page (text : result string string) (failure : string -> string) : Answer :=
  match text with
  | Ok text => Document 200 (PText text)
  | Err error => Document 500 (PText (failure error))
  end.

Definition public_page (p : PublicEndpoint) (r : HttpRequest) : Answer :=
  match p with
  | WellKnownUcpPage =>
      match query_ucp_version (rq_query r) with
      | Ok version => Document 200 (PUcp (snd (well_known_ucp state version)))
      | Err status => Rejection status
      end
  | WellKnownAcpPage => Document 200 (PAcp (snd (well_known_acp state)))
  | AgentCardPage =>
      Document 200 (PCard (snd (agent_card crate_version cart_text checkout_text order_text
                                  identity_text state)))
  | LivePage => Document (fst live) (PStatus (snd live))
  | ReadyPage => Document (fst (ready state)) (PStatus (snd (ready state)))
  | MetricsPage => text_page metrics_text (fun e => "metrics render failed: " +:+ e)
  | OpenApiPage => text_page openapi_text openapi_failure
  end.

(** ** From a request to its answer *)

(** A [get] handler also takes [HEAD]. *)
Definition takes (method registered : string) : bool :=
  String.eqb method registered || (String.eqb method "HEAD" && String.eqb registered "GET").

Definition row_for (pattern method : string) : option Route :=
  snd <$> find_first (fun row => String.eqb (fst (fst row)) pattern
                                 && takes method (snd (fst row))) router.

Definition routed (r : HttpRequest) : result (Route * option string) Z :=
  match find_route (map (fun row => fst (fst row)) router) (rq_path r) with
  | None => Err 404%Z
  | Some (pattern, param) =>
      match row_for pattern (rq_method r) with
      | None => Err 405%Z
      | Some route => Ok (route, param)
      end
  end.

(** The caller of a request, as [AuthContextExtractor] finds it. *)
Definition caller (r : HttpRequest) : result AuthContext ApiError :=
  authenticate state (get_header (rq_headers r) "authorization").

Definition serve (r : HttpRequest) : Handler :=
  match routed r with
  | Err status => say (Rejection status)
  | Ok (Public p, _) => say (public_page p r)
  | Ok (V1 e, param) =>
      match caller r with
      | Err refusal => say (Refused refusal)
      | Ok auth => v1_handler e param r auth
      end
  end.

(** [request_id_middleware]: the id of the caller, or a fresh one, goes back with the answer. *)
Definition request_id (r : HttpRequest) (fresh : string) : string :=
  unwrap_or (get_header (rq_headers r) "x-request-id") fresh.

Definition with_request_id (id : string) (p : HttpResponse) : HttpResponse :=
  match header_value id with
  | Some v => MkResponse (rp_status p) (header_insert "x-request-id" v (rp_headers p)) (rp_body p)
  | None => p
  end.

(** The router behind the signature gate, and the signature of the answer in front of it:
    [IntoResponse] of an answer and of a refusal of the gate are arguments. *)
Definition gated (r : HttpRequest) (now : Z) : World B -> (Answer + Z * string * string) * World B :=
  fun w =>
  match verify_request_signature (st_inbound_keys state) r now with
  | Rejected status text code => (inr (status, text, code), w)
  | Passed _ => let '(a, w) := serve r w in (inl a, w)
  end.

Definition receive (render : Answer -> HttpResponse)
    (refusal : Z -> string -> string -> HttpResponse) (r : HttpRequest) (now now' : Z)
    (fresh : string) (w : World B) : Outgoing * World B :=
  let '(a, w) := gated r now w in
  let response :=
    match a with
    | inl a => with_request_id (request_id r fresh) (render a)
    | inr (status, text, code) => refusal status text code
    end in
  (sign_response (st_signing state) response now', w).
End serve.
