(* ===== verification/RouterLogic.v ===== *)
(** * Theorems about the whole API

    What any request may do to the state, whoever sends it and whatever it says: nothing
    without a caller, and for a caller nothing outside its tenant, save for the exceptions the
    statements spell out. *)

From S2P Require Export Frames Router.
From Stdlib Require Import Ascii.

(** ** Footprints of handlers *)

Section handlers.
Context {B : Backend} {L : BackendLaws B} (R : World B -> World B -> Prop) {HR : PreOrder R}.

Definition hframed (h : Handler (B:=B)) : Prop := forall w, R w (snd (h w)).

Lemma hframed_say a : hframed (say a).
Proof. intros w. cbn. reflexivity. Qed.

Lemma hframed_run {A} (f : A -> Reply) (m : ST (World B) ApiError A) :
  framed R m -> hframed (run f m).
Proof. intros H w. unfold run. specialize (H w). by destruct (m w) as [[a|e] v]. Qed.

Lemma hframed_body {A} (read : result A Z) (k : A -> Handler) :
  (forall x, read = Ok x -> hframed (k x)) -> hframed (body read k).
Proof. intros H. destruct read as [x|s]; cbn; [by apply H|apply hframed_say]. Qed.

Lemma hframed_path param (k : string -> Handler) :
  (forall x, hframed (k x)) -> hframed (path param k).
Proof. intros H. destruct param as [x|]; cbn; [apply H|apply hframed_say]. Qed.

(** The first step may need something of the state it starts in. *)
Lemma framed_bind_at {E A C} (m : ST (World B) E A) (f : A -> ST (World B) E C) w :
  R w (snd (m w)) -> (forall a, framed R (f a)) -> R w (snd ((m ≫= f) w)).
Proof.
  intros Hm Hf. unfold mbind, ST_bind. destruct (m w) as [[a|e] u]; [|done].
  cbn in Hm. etrans; [exact Hm|apply Hf].
Qed.

Lemma run_at {A} (f : A -> Reply) (m : ST (World B) ApiError A) w :
  R w (snd (m w)) -> R w (snd (run f m w)).
Proof. unfold run. by destruct (m w) as [[a|e] v]. Qed.
End handlers.

(** ** Requests stay in the caller's tenant *)

Section tenants.
Context {B : Backend} {L : BackendLaws B} {crypto : Crypto} {http : WebFramework} {mcp_serde : McpSerde}
  {a2a_serde : A2aSerde}
  (env : Env) (parse_proof : string -> option ConsentProof) (issuers : option string)
  (uuid_from_str : string -> result Uuid string) (to_rfc3339 : Z -> string)
  (value_to_string : Value -> string)
  (url_with_query : string -> list (string * string) -> result string string)
  (crate_version : string) (self : OrchestratorFacade B) (state : AppState) (auth : AuthContext).
Implicit Types w v : World B.

Abbreviation tenant := (ax_tenant_id auth).
Abbreviation mine := (within (B:=B) (of_tenant tenant) tenant).

Lemma frame_api {A} R (m : F (B:=B) A) : framed R m -> framed R (api m).
Proof. intros H w. apply H. Qed.

Lemma frame_respond {A C} R {HR : PreOrder R} (f : A -> C) (m : ST (World B) ApiError A) :
  framed R m -> framed R (respond f m).
Proof. intros H. apply framed_bind; [done|done|]. intros x. by apply framed_ret. Qed.

Lemma frame_for_tenant cmd id :
  ids_agree cmd id -> (forall p, cmd <> CreateCart p) ->
  framed mine (for_tenant env self auth cmd id).
Proof. intros. apply frame_api. by apply frame_dispatch. Qed.

Lemma for_tenant_at cmd id w :
  ids_agree cmd id -> fresh_for env cmd w -> mine w (snd (for_tenant env self auth cmd id w)).
Proof. intros. by apply dispatch_within. Qed.

Lemma frame_get_for c : framed mine (get_for env self auth c).
Proof. apply frame_for_tenant; [by left|done]. Qed.

Lemma frame_add_lines c lines p : framed mine (add_lines env self auth c lines p).
Proof.
  revert p. induction lines as [|l ls IH]; intros p; cbn; [by apply framed_ret, _|].
  apply framed_bind; [apply _|apply frame_for_tenant; [by right; left|done]|done].
Qed.

Lemma frame_apply_lines c lines p : framed mine (apply_lines env self auth c lines p).
Proof.
  revert p. induction lines as [|l ls IH]; intros p; cbn; [by apply framed_ret, _|].
  apply framed_bind; [apply _| |done].
  apply frame_for_tenant; [by destruct (lq_id l); right; left|by destruct (lq_id l)].
Qed.

Lemma frame_remove_lines c desired ids p :
  framed mine (remove_lines env self auth c desired ids p).
Proof.
  revert p. induction ids as [|l ls IH]; intros p; cbn; [by apply framed_ret, _|].
  case_match; [done|].
  apply framed_bind; [apply _|apply frame_for_tenant; [by right; left|done]|done].
Qed.

Lemma frame_update_lines c lines : framed mine (update_lines env self auth c lines).
Proof.
  apply framed_bind; [apply _|apply frame_get_for|]. intros p.
  apply framed_bind; [apply _|apply frame_remove_lines|]. intros q. apply frame_apply_lines.
Qed.

Lemma frame_start c n :
  framed mine (for_tenant env self auth (StartCheckout (MkStartCheckout c n)) (Some c)).
Proof. apply frame_for_tenant; [by right; right|done]. Qed.

Lemma frame_cancel c :
  framed mine (for_tenant env self auth (CancelCart (MkCancelCart c)) None).
Proof. apply frame_for_tenant; [by left|done]. Qed.
End tenants.

(** Follows a handler down to its facade calls. *)
Ltac hframe_step :=
  match goal with
  | |- hframed _ (say _) => apply hframed_say, _
  | |- hframed _ (run _ _) => apply hframed_run
  | |- hframed _ (body _ _) => apply hframed_body; [apply _|intros ? ?]
  | |- hframed _ (path _ _) => apply hframed_path; [apply _|intros ?]
  | |- framed _ (mbind _ _) => apply framed_bind; [apply _| |intros ?]
  | |- framed _ (reply _) => apply framed_lift, _
  | |- framed _ (respond _ _) => apply frame_respond; [apply _|]
  | |- framed _ (get_for _ _ _ _) => apply frame_get_for
  | |- framed _ (update_lines _ _ _ _ _) => apply frame_update_lines
  | |- framed _ (add_lines _ _ _ _ _ _) => apply frame_add_lines
  | |- framed _ (for_tenant _ _ _ (CancelCart _) None) => apply frame_cancel
  | |- framed _ (for_tenant _ _ _ (StartCheckout _) _) => apply frame_start
  | |- framed _ (api (execute_checkout_authorized _ _ _ _ _ _)) =>
      apply frame_api, frame_checkout_authorized
  | |- framed (within _ _) (api _) => apply framed_cartless, frame_api
  end.
Create HintDb handlers.
#[export] Hint Unfold compose checkout_reply ucp_get_checkout ucp_update_checkout ucp_cancel_checkout
  ucp_set_checkout_fulfillment as_cart as_checkout as_session as_acp_cart ucp_get_cart ucp_update_cart
  ucp_cancel_cart acp_get_session acp_update_session acp_cancel_session acp_get_cart
  acp_update_cart_endpoint acp_cancel_cart_endpoint ucp_set_cart_fulfillment
  ucp_create_embedded_checkout_link http_execute_checkout ucp_complete_checkout
  acp_complete_session ucp_list_payment_handlers ucp_get_payment_handler ucp_catalog_search
  ucp_catalog_lookup ucp_catalog_product ucp_get_order http_get_order list_orders_route
  http_list_orders get_order_route http_lookup_catalog_item register_webhook_route
  http_register_webhook list_webhooks_route http_list_webhooks http_unregister_webhook
  http_accept_incoming_event http_process_outbox list_dead_letter_route http_replay_dead_letter
  http_run_reconciliation acp_delegate_payment facade_get_order facade_list_orders
  facade_process_outbox_once facade_replay_from_dead_letter facade_accept_incoming_event_once
  facade_register_webhook facade_unregister_webhook facade_list_webhooks
  facade_lookup_catalog_item facade_lookup_catalog_items facade_search_catalog_items
  facade_run_reconciliation lookup_catalog_item lookup_catalog_items search_catalog_items
  register_webhook unregister_webhook accept_incoming_event_once delegate_payment link_identity
  a2a_execute_checkout a2a_dispatch_cart_command a2a_link_identity a2a_get_order a2a_route
  run_a2a_checkout run_a2a_identity_link run_a2a_order_query : handlers.
Ltac hframe := autounfold with handlers; repeat first [hframe_step | frame_step].

Section endpoints.
Context {B : Backend} {L : BackendLaws B} {crypto : Crypto} {http : WebFramework} {mcp_serde : McpSerde}
  {a2a_serde : A2aSerde}
  (env : Env) (parse_proof : string -> option ConsentProof) (issuers : option string)
  (uuid_from_str : string -> result Uuid string) (to_rfc3339 : Z -> string)
  (value_to_string : Value -> string)
  (url_with_query : string -> list (string * string) -> result string string)
  (crate_version : string) (self : OrchestratorFacade B) (state : AppState) (auth : AuthContext).
Implicit Types w v : World B.

Abbreviation tenant := (ax_tenant_id auth).
Abbreviation mine := (within (B:=B) (of_tenant tenant) tenant).

(** No cart has the id that would be drawn next. *)
Definition next_id_unused w : Prop := cart_snapshot (MkCartId (uuid_at env (w_tick w))) w = None.

Lemma next_id_fresh cmd w : next_id_unused w -> fresh_for env cmd w.
Proof. by destruct cmd. Qed.

(** A request that names two carts names one cart twice. *)
Definition names_one_cart (e : Endpoint) (r : HttpRequest) : Prop :=
  match e with
  | EDispatchCartCommand => forall req cmd id,
      json_cart_command r = Ok req -> command_of_dto uuid_from_str (cq_command req) = Ok cmd ->
      cq_cart_id req = None /\ id = None
      \/ (exists s u, cq_cart_id req = Some s /\ uuid_from_str s = Ok u /\ id = Some (MkCartId u)) ->
      ids_agree cmd id
  | EA2aDispatchCartCommand => forall x cmd id,
      json_value r = Ok x -> normalize_a2a_cart_envelope uuid_from_str x = Ok (cmd, id) ->
      ids_agree cmd id
  | EPostOperation => forall m x cmd id,
      read_message (rq_body r) = Ok (m, x) ->
      normalize_a2a_cart_envelope uuid_from_str x = Ok (cmd, id) -> ids_agree cmd id
  | _ => True
  end.

Lemma create_at cmd c (k : CartProjection -> ST (World B) ApiError CartProjection) w :
  next_id_unused w -> cmd = CreateCart c -> (forall p, framed mine (k p)) ->
  mine w (snd ((for_tenant env self auth cmd None ≫= k) w)).
Proof.
  intros Hf -> Hk. refine (framed_bind_at mine _ _ _ _ Hk).
  apply for_tenant_at; [by left|by apply next_id_fresh].
Qed.

Lemma ucp_create_at req w :
  next_id_unused w -> mine w (snd (ucp_create_cart env self auth req w)).
Proof.
  intros Hf. unfold ucp_create_cart. destruct (ucr_merchant_id req); [|by apply within_preorder].
  eapply create_at; [done|reflexivity|]. intros p. apply frame_add_lines.
Qed.

Lemma checkout_create_at req w :
  next_id_unused w -> mine w (snd (ucp_create_checkout env self auth req w)).
Proof.
  intros Hf. unfold ucp_create_checkout. refine (framed_bind_at mine _ _ _ _ _); [by apply ucp_create_at|].
  intros p. apply frame_start.
Qed.

Lemma acp_create_at version key req w :
  next_id_unused w -> mine w (snd (acp_create_session env self auth version key req w)).
Proof.
  intros Hf. unfold acp_create_session.
  destruct (acp_version_from_headers version); [|by apply within_preorder].
  destruct (require_acp_idempotency_key key); [|by apply within_preorder].
  eapply create_at; [done|reflexivity|]. intros p. apply frame_add_lines.
Qed.

Lemma acp_create_cart_at version key req w :
  next_id_unused w -> mine w (snd (acp_create_cart env self auth version key req w)).
Proof. apply acp_create_at. Qed.

Lemma dispatch_at req w :
  (forall cmd id, command_of_dto uuid_from_str (cq_command req) = Ok cmd ->
     cq_cart_id req = None /\ id = None
     \/ (exists s u, cq_cart_id req = Some s /\ uuid_from_str s = Ok u /\ id = Some (MkCartId u)) ->
     ids_agree cmd id) ->
  next_id_unused w -> mine w (snd (http_dispatch_cart_command env uuid_from_str self auth req w)).
Proof.
  intros Ha Hf. unfold http_dispatch_cart_command.
  destruct (command_of_dto uuid_from_str (cq_command req)) as [cmd|e] eqn:Hc; [|by apply within_preorder].
  destruct (cq_cart_id req) as [s|] eqn:Hs.
  - destruct (uuid_from_str s) as [u|e] eqn:Hu; [|by apply within_preorder].
    apply for_tenant_at; [|by apply next_id_fresh]. apply Ha; [done|right; eauto].
  - apply for_tenant_at; [|by apply next_id_fresh]. apply Ha; [done|by left].
Qed.

Lemma hframed_at (h : Handler) w : hframed mine h -> mine w (snd (h w)).
Proof. auto. Qed.

Lemma body_at {A} (read : result A Z) (k : A -> Handler) w :
  (forall x, read = Ok x -> mine w (snd (k x w))) -> mine w (snd (body read k w)).
Proof. intros H. destruct read as [x|s]; cbn; [by apply H|by apply within_preorder]. Qed.

Lemma respond_at {A C} (f : A -> C) (m : ST (World B) ApiError A) w :
  mine w (snd (m w)) -> mine w (snd (respond f m w)).
Proof. intros H. refine (framed_bind_at mine _ _ _ H _). intros x. by apply framed_ret, _. Qed.

(** The four routes that may create a cart. *)
Ltac creates lem :=
  apply body_at; intros ? ?; unfold checkout_reply, compose; cbn beta; apply run_at; try apply respond_at;
  apply lem; auto.

Lemma cart_endpoint_mine e param r h w :
  cart_endpoint env uuid_from_str url_with_query self state e param r auth = Some h ->
  names_one_cart e r -> next_id_unused w -> mine w (snd (h w)).
Proof.
  intros Hh Ha Hf. destruct e; cbn in Hh; try discriminate; injection Hh as <-.
  - apply body_at. intros req Hreq. apply run_at, dispatch_at; [|done]. intros cmd id. by apply Ha.
  - creates ucp_create_at.
  - apply hframed_at. hframe.
  - apply hframed_at. hframe.
  - apply hframed_at. hframe.
  - creates checkout_create_at.
  - apply hframed_at. hframe.
  - apply hframed_at. hframe.
  - apply hframed_at. hframe.
  - apply hframed_at. hframe. apply frame_for_tenant; [by right; left|done].
  - apply hframed_at. hframe. apply frame_for_tenant; [by right; left|done].
  - apply hframed_at. hframe.
  - creates acp_create_at.
  - apply hframed_at. hframe.
  - apply hframed_at. hframe.
  - apply hframed_at. hframe.
  - creates acp_create_cart_at.
  - apply hframed_at. hframe.
  - apply hframed_at. hframe.
  - apply hframed_at. hframe.
Qed.

Lemma payment_mine c f st req :
  (forall r, of_tenant (pl_tenant_id r) (c r)) ->
  framed mine (payment_route (fun r => from_runner (lifecycle_payment (B:=B) c f st r)) auth req).
Proof.
  intros Hc. unfold payment_route. destruct (String.eqb_spec tenant (pl_tenant_id req)) as [->|];
    [|by apply framed_fail, _].
  apply frame_api, framed_cartless, framed_runner, frame_lifecycle, Hc.
Qed.

Lemma money_endpoint_mine e param r h :
  money_endpoint env parse_proof issuers uuid_from_str self e param r auth = Some h ->
  hframed mine h.
Proof.
  intros Hh. destruct e; cbn in Hh; try discriminate; injection Hh as <-; hframe;
    by apply payment_mine.
Qed.

Lemma list_orders_cartless P t : framed (cartless P) (list_orders (B:=B) t).
Proof. intros w. reflexivity. Qed.

Lemma list_webhooks_cartless P t : framed (cartless P) (list_webhooks (B:=B) t).
Proof. intros w. reflexivity. Qed.

Lemma other_endpoint_mine e param r :
  hframed mine (other_endpoint env to_rfc3339 value_to_string self e param r auth).
Proof.
  destruct e; cbn; hframe. all: try first [apply list_orders_cartless | apply list_webhooks_cartless
    | apply frame_outbox | apply frame_replay | apply frame_reconciliation ].
Qed.

(** *** The agent binding *)

Lemma a2a_cart_at x w :
  (forall cmd id, normalize_a2a_cart_envelope uuid_from_str x = Ok (cmd, id) -> ids_agree cmd id) ->
  next_id_unused w -> mine w (snd (run_a2a_cart env uuid_from_str self auth x w)).
Proof.
  intros Ha Hf. unfold run_a2a_cart.
  destruct (normalize_a2a_cart_envelope uuid_from_str x) as [[cmd id]|e]; [|by apply within_preorder].
  apply respond_at, for_tenant_at; [by apply Ha|by apply next_id_fresh].
Qed.

Lemma a2a_cart_route_at version x w :
  (forall cmd id, normalize_a2a_cart_envelope uuid_from_str x = Ok (cmd, id) -> ids_agree cmd id) ->
  next_id_unused w ->
  mine w (snd (a2a_dispatch_cart_command env uuid_from_str self auth version x w)).
Proof.
  intros Ha Hf. unfold a2a_dispatch_cart_command, a2a_route.
  destruct (negotiate_a2a_version version); [by apply a2a_cart_at|by apply within_preorder].
Qed.

Lemma frame_valued {A} (f : A -> result Value string) (m : ST (World B) ApiError A) :
  framed mine m -> framed mine (valued f m).
Proof. intros H. apply framed_bind; [apply _|done|]. intros x. by apply framed_lift, _. Qed.

Lemma run_skill_at x w :
  (forall cmd id, normalize_a2a_cart_envelope uuid_from_str x = Ok (cmd, id) -> ids_agree cmd id) ->
  next_id_unused w ->
  mine w (snd (run_skill env parse_proof issuers uuid_from_str to_rfc3339 self auth x w)).
Proof.
  intros Ha Hf. unfold run_skill. cbv zeta.
  destruct (String.eqb (skill_for x) "identity-linking").
  { revert w Hf. intros w _. generalize w. change (framed mine (valued identity_dto_value
      (run_a2a_identity_link self auth x))). apply frame_valued. hframe. }
  destruct (String.eqb (skill_for x) "order-lookup").
  { revert w Hf. intros w _. generalize w. change (framed mine
      (run_a2a_order_query env to_rfc3339 auth x)). hframe. }
  destruct (String.eqb (skill_for x) "cart").
  { refine (framed_bind_at mine _ _ _ (a2a_cart_at x w Ha Hf) _). intros y. by apply framed_lift, _. }
  revert w Hf. intros w _. generalize w. change (framed mine (valued transaction_dto_value
    (run_a2a_checkout env parse_proof issuers self auth x))). apply frame_valued. hframe.
Qed.

Lemma answer_message_mine m r w : mine w (snd (answer_message env m r w)).
Proof.
  unfold answer_message. destruct r as [data|e]; [|by apply within_preorder].
  destruct (as_str _); cbn [snd]; apply cartless_within;
    [apply cartless_tick|etrans; apply cartless_tick].
Qed.

Lemma operation_at operation r w :
  names_one_cart EPostOperation r -> next_id_unused w ->
  mine w (snd (a2a_operation env parse_proof issuers uuid_from_str to_rfc3339 self auth operation r w)).
Proof.
  intros Ha Hf. unfold a2a_operation, post_operation, send_message.
  destruct (negb _); [by apply within_preorder|].
  destruct (version_error _); [by apply within_preorder|].
  destruct (read_message (rq_body r)) as [[m x]|e] eqn:Hm; [|by apply within_preorder].
  assert (Hs := run_skill_at x w (fun cmd id => Ha m x cmd id Hm) Hf).
  destruct (run_skill _ _ _ _ _ _ _ _ _) as [y u]. cbn in Hs.
  assert (Hm' := answer_message_mine m y u). destruct (answer_message _ _ _ _) as [z v].
  cbn in *. by etrans.
Qed.

(** *** The tools *)

Abbreviation anyone := (within (B:=B) (fun _ => True) tenant).

Lemma mine_anyone w v : mine w v -> anyone w v.
Proof.
  intros H Hok. destruct (H Hok) as (Hv & Hk & Hp). do 2 (split; [done|]).
  by eapply paid_only_weaken.
Qed.

Lemma framed_told {A} (m : F (B:=B) A) R : framed R m -> framed R (told m).
Proof. intros H w. apply H. Qed.

Lemma frame_tool name args :
  cart_tool uuid_from_str name args auth = None ->
  framed anyone (dispatch_tool env parse_proof issuers uuid_from_str self name args auth).
Proof.
  intros Hc. unfold dispatch_tool. rewrite Hc. case_match.
  { apply framed_bind; [apply _|by apply framed_lift, _|]. intros req.
    apply framed_bind; [apply _| |intros; by apply framed_lift, _].
    apply framed_told. intros w. apply mine_anyone, frame_checkout_authorized. }
  apply framed_cartless. unfold payment_tool, facade_capture_payment, facade_void_payment,
    facade_refund_payment.
  autounfold with handlers.
  repeat first [ frame_step | apply framed_told | apply frame_lifecycle; done
    | apply list_orders_cartless ].
Qed.

Lemma tool_at name args w :
  next_id_unused w ->
  anyone w (snd (dispatch_tool env parse_proof issuers uuid_from_str self name args auth w)).
Proof.
  intros Hf. destruct (cart_tool uuid_from_str name args auth) as [[[cmd id]|e]|] eqn:Hc.
  - unfold dispatch_tool. rewrite Hc.
    change (anyone w (snd (run_command env self auth cmd id w))). rewrite run_command_world.
    apply dispatch_within; [by eapply cart_tool_ids|by apply next_id_fresh].
  - unfold dispatch_tool. rewrite Hc. by apply within_preorder.
  - by apply frame_tool.
Qed.

Lemma frame_resource uri : framed anyone (read_resource env uuid_from_str self uri auth).
Proof.
  unfold read_resource. autounfold with handlers.
  repeat first [ frame_step | apply framed_told ].
  apply frame_dispatch; [by right; right|done].
Qed.

Lemma mcp_at headers request w :
  next_id_unused w ->
  anyone w (snd (mcp_message env parse_proof issuers uuid_from_str crate_version self auth headers
                   request w)).
Proof.
  intros Hf. unfold mcp_message, handle_mcp_request_with_version.
  destruct (negotiate_mcp_version _ _ _); [|by apply within_preorder].
  destruct (_ && _); [by apply within_preorder|].
  destruct (mcp_method _ _ _ _ _ _ _ _ _) as [m|c msg] eqn:Hm; [|by apply within_preorder].
  assert (anyone w (snd (m w))) as Hw.
  { unfold mcp_method in Hm. repeat case_match; simplify_eq; try (by apply within_preorder);
      [by apply tool_at|by apply frame_resource]. }
  by destruct (m w) as [[v|e] u].
Qed.

Lemma agent_endpoint_at e param r h w :
  agent_endpoint env parse_proof issuers uuid_from_str to_rfc3339 crate_version self e param r auth
    = Some h ->
  names_one_cart e r -> next_id_unused w ->
  (e = EMcpMessage -> anyone w (snd (h w))) /\ (e <> EMcpMessage -> mine w (snd (h w))).
Proof.
  intros Hh Ha Hf. destruct e; cbn in Hh; try discriminate; injection Hh as <-; (split; [try done|try done]);
    intros _.
  - apply hframed_at. hframe.
  - apply body_at. intros x Hx. apply run_at, a2a_cart_route_at; [|done]. intros cmd id. by apply Ha.
  - apply hframed_at. hframe.
  - apply hframed_at. hframe.
  - destruct param as [operation|]; [by apply operation_at|by apply within_preorder].
  - apply hframed_at. hframe.
  - apply hframed_at. hframe.
  - destruct (json_rpc r) as [request|s]; [by apply mcp_at|by apply within_preorder].
Qed.
End endpoints.

(** ** The table of routes *)

(** The path has the pattern's parameter replaced by a text. *)
Definition fits (pattern path : string) : Prop :=
  pattern = path
  \/ exists pre name post raw,
       pattern = pre +:+ String ":" (name +:+ post) /\ path = pre +:+ raw +:+ post.

(** What [axum] documents: the pattern is one of the registered ones and takes the path. *)
Class WebFrameworkLaws (http : WebFramework) := {
  find_route_listed ps x p param : find_route ps x = Some (p, param) -> p ∈ ps;
  find_route_fits ps x p param : find_route ps x = Some (p, param) -> fits p x
}.

Lemma fits_prefix pre s x :
  lacks ":" pre = true -> fits (pre +:+ s) x -> starts_with pre x = true.
Proof.
  intros Hp [<-|(pre' & name & post & raw & E & ->)].
  - unfold starts_with. by rewrite (proj2 (strip_prefix_spec _ _ _) eq_refl).
  - assert (exists t, pre' = pre +:+ t) as [t ->].
    { clear raw. revert pre' E. induction pre as [|a pre IH]; intros pre' E; [by exists pre'|].
      cbn in Hp. apply andb_true_iff in Hp as [Ha Hp]. destruct pre' as [|b pre']; cbn in E.
      - injection E as -> _. discriminate.
      - injection E as <- E. destruct (IH Hp _ E) as [t ->]. by exists t. }
    unfold starts_with. rewrite str_app_assoc.
    by rewrite (proj2 (strip_prefix_spec _ _ _) eq_refl).
Qed.

Definition patterns : list string := map (fun row => fst (fst row)) router.

(** A version 1 handler sits behind the signed prefix. *)
Lemma v1_pattern p method e :
  (p, method, V1 e) ∈ router -> exists s, p = SIGNED_PATH_PREFIX +:+ s.
Proof.
  intros H. unfold router in H. rewrite !elem_of_app in H. destruct H as [H|[H|[H|H]]].
  - apply list_elem_of_fmap in H as (x & [=] & _).
  - apply list_elem_of_fmap in H as (x & [=] & _).
  - apply list_elem_of_singleton in H. discriminate.
  - apply list_elem_of_In, in_concat in H as (rows & Hr & H).
    apply in_map_iff in Hr as (x & <- & _). unfold v1_rows in H.
    apply in_map_iff in H as (me & [= <- _ _] & _). by eexists.
Qed.

Lemma row_for_listed p method rt :
  row_for p method = Some rt -> exists m, (p, m, rt) ∈ router /\ takes method m = true.
Proof.
  unfold row_for. intros H. apply fmap_Some in H as ([[q m] rt'] & Hf & ->).
  apply find_first_Some in Hf as [Hin Hb]. cbn in *. apply andb_true_iff in Hb as [Hq Hm].
  apply String.eqb_eq in Hq as <-. by exists m.
Qed.

(** ** Properties *)

Section properties.
Context {B : Backend} {L : BackendLaws B} {crypto : Crypto} {http : WebFramework} {laws : WebFrameworkLaws http}
  {mcp_serde : McpSerde} {a2a_serde : A2aSerde}
  (env : Env) (parse_proof : string -> option ConsentProof) (issuers : option string)
  (uuid_from_str : string -> result Uuid string) (to_rfc3339 : Z -> string)
  (value_to_string : Value -> string)
  (url_with_query : string -> list (string * string) -> result string string)
  (crate_version cart_text checkout_text order_text identity_text : string)
  (metrics_text openapi_text : result string string)
  (self : OrchestratorFacade B) (state : AppState).
Implicit Types w v : World B.

Abbreviation answered := (gated env parse_proof issuers uuid_from_str to_rfc3339 value_to_string
  url_with_query crate_version cart_text checkout_text order_text identity_text metrics_text
  openapi_text self state).

Lemma get_inserted name value headers :
  get_header (header_insert name value headers) name = to_str value.
Proof.
  unfold get_header, header_insert. induction headers as [|[k x] hs IH]; cbn.
  - by rewrite String.eqb_refl.
  - destruct (String.eqb k name) eqn:Hk; cbn; [done|]. by rewrite Hk.
Qed.

Lemma routed_v1 r e param :
  routed r = Ok (V1 e, param) -> starts_with SIGNED_PATH_PREFIX (rq_path r) = true.
Proof.
  unfold routed. destruct (find_route _ (rq_path r)) as [[p x]|] eqn:Hf; [|done].
  destruct (row_for p (rq_method r)) as [rt|] eqn:Hr; [|done]. intros [= -> _].
  apply row_for_listed in Hr as (m & Hin & _). apply v1_pattern in Hin as [s ->].
  apply find_route_fits in Hf. by eapply fits_prefix.
Qed.

Lemma caller_refused r e : caller state r = Err e -> e = Unauthorized.
Proof.
  unfold caller, authenticate, extract_auth. destruct (st_authn state) as [resolve|].
  - destruct (bearer_token _) as [token|]; [|congruence]. destruct (resolve token); cbn; congruence.
  - destruct (st_allow_dev_auth state); congruence.
Qed.

(** C8: the state only changes for a request that passed the signature gate, reached a
    version 1 handler and came from a caller the deployment knows; where agent keys are
    configured, the request was signed under one of them.  A request for such a handler
    without a known caller is answered with status 401 (or refused by the gate before), and
    the public documents change nothing. *)
Theorem only_callers_change_state r now w a v :
  answered r now w = (a, v) ->
  (v = w \/ exists e param who, routed r = Ok (V1 e, param) /\ caller state r = Ok who
     /\ forall ring, st_inbound_keys state = Some ring -> exists kid, verified ring r now = Ok kid)
  /\ forall e param refusal, routed r = Ok (V1 e, param) -> caller state r = Err refusal ->
       v = w /\ (a = inl (Refused Unauthorized) \/ exists x, a = inr x).
Proof.
  unfold gated. destruct (verify_request_signature (st_inbound_keys state) r now) as [kid|s t c] eqn:Hg.
  2:{ intros [= <- <-]. split; [by left|]. intros. split; [done|right]. by eexists. }
  unfold serve. destruct (routed r) as [[[p|e] param]|status] eqn:Hr.
  - intros [= <- <-]. split; [by left|done].
  - destruct (caller state r) as [who|err] eqn:Hc.
    + intros H. split; [|done]. right. exists e, param, who. do 2 (split; [done|]).
      intros ring Hring. rewrite Hring in Hg. cbn in Hg. rewrite (routed_v1 _ _ _ Hr) in Hg. cbn in Hg.
      destruct (_ <? _)%Z in Hg; [done|]. destruct (verified ring r now) as [k|x]; [by exists k|done].
    + intros [= <- <-]. split; [by left|]. intros e' p' x [= <- <-] [= <-]. split; [done|left].
      by rewrite (caller_refused _ _ Hc).
  - intros [= <- <-]. split; [by left|done].
Qed.

Lemma gated_v1 r now w a v e param who :
  routed r = Ok (V1 e, param) -> caller state r = Ok who -> answered r now w = (a, v) ->
  v = w \/ v = snd (v1_handler env parse_proof issuers uuid_from_str to_rfc3339 value_to_string
                     url_with_query crate_version self state e param r who w).
Proof.
  intros Hr Hc. unfold gated. destruct (verify_request_signature _ _ _); [|intros [= _ <-]; by left].
  unfold serve. rewrite Hr, Hc. destruct (v1_handler _ _ _ _ _ _ _ _ _ _ _ _ _ _ _) as [x u].
  intros [= _ <-]. by right.
Qed.

Lemma v1_within e param r who w :
  names_one_cart uuid_from_str e r -> next_id_unused env w ->
  within (fun c => e <> EMcpMessage -> of_tenant (ax_tenant_id who) c) (ax_tenant_id who) w
    (snd (v1_handler env parse_proof issuers uuid_from_str to_rfc3339 value_to_string
            url_with_query crate_version self state e param r who w)).
Proof.
  intros Ha Hf. unfold v1_handler, first_of. cbn [fold_right].
  assert (forall u, within (of_tenant (ax_tenant_id who)) (ax_tenant_id who) w u ->
    within (fun c => e <> EMcpMessage -> of_tenant (ax_tenant_id who) c) (ax_tenant_id who) w u) as Hw.
  { intros u H Hok. destruct (H Hok) as (Hu & Hk & Hp). do 2 (split; [done|]).
    eapply paid_only_weaken; [|done]. auto. }
  destruct (cart_endpoint _ _ _ _ _ _ _ _ _) as [h|] eqn:Hh.
  { apply Hw. by eapply cart_endpoint_mine. }
  destruct (money_endpoint _ _ _ _ _ _ _ _ _) as [h|] eqn:Hm.
  { apply Hw. by eapply money_endpoint_mine. }
  destruct (agent_endpoint _ _ _ _ _ _ _ _ _ _ _) as [h|] eqn:Hg.
  - destruct (agent_endpoint_at env parse_proof issuers uuid_from_str to_rfc3339 crate_version self
      who e param r h w Hg Ha Hf) as [Hmcp Hmine].
    destruct (decide (e = EMcpMessage)) as [->|He]; [|by apply Hw, Hmine].
    intros Hok. destruct (Hmcp eq_refl Hok) as (Hv & Hk & Hp). do 2 (split; [done|]).
    eapply paid_only_weaken; [|done]. done.
  - apply Hw, other_endpoint_mine.
Qed.

(** C7: a request acts within its caller's tenant.  Whatever a known caller sends to
    whichever route, the carts stay well formed, every cart that belongs to another tenant
    keeps its snapshot, its state and its log, and no payment call is made for another tenant;
    except that a cart command may not name two different carts, and that the payment tools of
    MCP pay for whoever the agent names. *)
Theorem requests_stay_in_their_tenant r now w a v e param who :
  snapshots_ok (w_events w) -> next_id_unused env w ->
  routed r = Ok (V1 e, param) -> caller state r = Ok who -> names_one_cart uuid_from_str e r ->
  answered r now w = (a, v) ->
  snapshots_ok (w_events v)
  /\ (forall c p t, cart_snapshot c w = Some p -> cp_tenant_id p = Some t ->
        t <> ax_tenant_id who -> same_cart c w v)
  /\ exists calls, payments v = payments w ++ calls
       /\ (e <> EMcpMessage -> Forall (of_tenant (ax_tenant_id who)) calls).
Proof.
  intros Hok Hf Hr Hc Ha H.
  assert (within (fun c => e <> EMcpMessage -> of_tenant (ax_tenant_id who) c)
    (ax_tenant_id who) w v) as Hw.
  { destruct (gated_v1 _ _ _ _ _ _ _ _ Hr Hc H) as [->| ->]; [by apply within_preorder|by apply v1_within]. }
  destruct (Hw Hok) as (Hv & Hk & calls & E & Hp). do 2 (split; [done|]). exists calls.
  split; [done|]. intros He. eapply Forall_impl; [exact Hp|]. auto.
Qed.

(** The id a caller gave, or a fresh one, is the id of the answer. *)
Theorem request_id_goes_back r fresh p :
  is_some (to_str fresh) = true ->
  get_header (rp_headers (with_request_id (request_id r fresh) p)) "x-request-id"
  = Some (request_id r fresh).
Proof.
  intros Hf. assert (forall x, is_some (to_str x) = true -> to_str x = Some x /\ header_value x = Some x) as Hv.
  { intros x. unfold to_str, header_value. intros H.
    destruct (str_forall _ x) eqn:Hx in H; [|done]. rewrite Hx. split; [done|].
    erewrite str_forall_impl; [done| |exact Hx]. intros b. cbn. lia. }
  assert (is_some (to_str (request_id r fresh)) = true) as Hid.
  { unfold request_id, get_header. destruct (find_first _ _) as [[k x]|]; cbn; [|done].
    destruct (to_str x) as [y|] eqn:Hx; cbn; [|done].
    assert (y = x) as -> by (unfold to_str in Hx; case_match; by simplify_eq). by rewrite Hx. }
  destruct (Hv _ Hid) as [Ht Hh]. unfold with_request_id. rewrite Hh. cbn [rp_headers].
  by rewrite get_inserted.
Qed.
End properties.

(** ** Witnesses *)

Fixpoint drop_name (s : string) : string :=
  match s with
  | EmptyString => ""
  | String c rest => if Ascii.eqb c "/" then s else drop_name rest
  end.

Fixpoint fit_param (pattern path : string) : option string :=
  match pattern with
  | EmptyString => None
  | String c rest =>
      if Ascii.eqb c ":" then
        x ← strip_suffix (drop_name rest) path; if lacks "/" x then Some x else None
      else match path with
           | String d path => if Ascii.eqb c d then fit_param rest path else None
           | EmptyString => None
           end
  end.

(** A matcher as [axum] describes its own. *)
Definition demo_find_route (ps : list string) (path : string) : option (string * option string) :=
  match find_first (fun p => String.eqb p path && lacks ":" p) ps with
  | Some p => Some (p, None)
  | None => find_map (fun p => x ← fit_param p path; Some (p, Some x)) ps
  end.

Definition demo_http : WebFramework := {|
  find_route := demo_find_route; query_ucp_version _ := Ok None; json_cart_command _ := Err 422%Z;
  json_ucp_cart _ := Ok (MkUcpCartRequest (Some "m1") "USD" [MkLineRequest None "sku" 1]);
  json_fulfillment _ := Err 422%Z; json_checkout _ := Err 422%Z; json_search _ := Ok None;
  json_ids _ := Ok []; json_id _ := Ok "sku"; json_acp_create _ := Err 422%Z;
  json_acp_lines _ := Ok []; json_acp_complete _ := Err 422%Z; json_acp_delegate _ := Err 422%Z;
  json_value _ := Ok VNull; json_webhook _ := Err 422%Z; json_lifecycle _ := Err 422%Z;
  json_rpc _ := Err 422%Z; json_message_id _ := Ok "m"; json_max_attempts _ := Ok 3%Z;
  json_transaction_ids _ := Ok []
|}.

Lemma drop_name_suffix s : exists name, s = name +:+ drop_name s.
Proof.
  induction s as [|c s [name IH]]; [by exists EmptyString|]. cbn. destruct (Ascii.eqb c "/").
  - by exists EmptyString.
  - exists (String c name). rewrite str_app_cons. by f_equal.
Qed.

Lemma fit_param_fits p x y : fit_param p x = Some y -> fits p x.
Proof.
  intros H. right. revert x H. induction p as [|c p IH]; intros x H; [done|]. cbn in H.
  destruct (Ascii.eqb_spec c ":") as [->|_].
  - destruct (strip_suffix (drop_name p) x) as [z|] eqn:Hz; [|done].
    apply strip_suffix_spec in Hz as ->. destruct (drop_name_suffix p) as [name Hn].
    exists EmptyString, name, (drop_name p), z. by rewrite <- Hn.
  - destruct x as [|d x]; [done|]. destruct (Ascii.eqb_spec c d) as [->|_]; [|done].
    destruct (IH _ H) as (pre & name & post & raw & -> & ->).
    by exists (String d pre), name, post, raw.
Qed.

#[export] Instance demo_http_laws : WebFrameworkLaws demo_http.
Proof.
  assert (forall ps x p param, demo_find_route ps x = Some (p, param) -> p ∈ ps /\ fits p x) as Hs.
  { intros ps x p param. unfold demo_find_route. destruct (find_first _ ps) as [q|] eqn:Hf.
    - apply find_first_Some in Hf as [Hin Hb]. intros [= <- _].
      apply andb_true_iff in Hb as [Hb%String.eqb_eq _]. split; [done|by left].
    - intros H. apply find_map_Some in H as (q & Hin & Hq).
      destruct (fit_param q x) as [y|] eqn:Hy; [|done]. injection Hq as -> _.
      split; [done|by eapply fit_param_fits]. }
  split.
  - intros ps x p param H. by apply Hs in H as [? _].
  - intros ps x p param H. by apply Hs in H as [_ ?].
Qed.

(** Two agents, known by their tokens. *)
Definition demo_tokens (token : string) : option AuthContext :=
  if String.eqb token "one" then Some demo_caller
  else if String.eqb token "two" then Some stranger else None.

Definition demo_app : @AppState demo_crypto :=
  with_authn demo_tokens (state_new (MkFacadeSetup MockDeployment false false None None None)).

Definition as_agent (token method path : string) : HttpRequest :=
  MkRequest method path None None [("authorization", "Bearer " +:+ token)] "{}".

Abbreviation demo_gated := (@gated memory_backend demo_crypto demo_http demo_serde demo_a2a_serde
  demo_env no_proofs None demo_uuid (fun z => pretty z) (fun _ => "") demo_query "1.0.0" "" "" "" ""
  (Ok "") (Ok "") (demo_facade false) demo_app).

(** The second agent creates a cart; the cart of the first one is as it was. *)
Lemma requests_stay_in_their_tenant_witness :
  let run := demo_gated (as_agent "two" "POST" "/api/v1/ucp/carts") 0 filled_world in
  (exists c, fst run = inl (Success (RCart c)))
  /\ get_cart_snapshot demo_cart (w_events (snd run)) = get_cart_snapshot demo_cart (w_events filled_world).
Proof.
  intros run. split; [vm_compute; by eexists|]. destruct run as [a v] eqn:Hrun. cbn [snd].
  destruct (@requests_stay_in_their_tenant _ _ _ demo_http demo_serde demo_a2a_serde demo_env
    no_proofs None demo_uuid (fun z => pretty z) (fun _ => "") demo_query "1.0.0" "" "" "" "" (Ok "")
    (Ok "") (demo_facade false) demo_app (as_agent "two" "POST" "/api/v1/ucp/carts") 0 filled_world
    a v EUcpCreateCart None stranger filled_world_ok) as (_ & Hk & _);
    [vm_compute; reflexivity..|exact I|exact Hrun|].
  destruct (get_cart_snapshot demo_cart (w_events filled_world)) as [p|] eqn:Hp; [|by vm_compute in Hp].
  destruct (Hk demo_cart p "t1" Hp) as (Hs & _ & _); [|by vm_compute|by rewrite Hs].
  revert Hp. vm_compute. by intros [= <-].
Defined.

Lemma only_callers_change_state_witness :
  let run := demo_gated (as_agent "nobody" "POST" "/api/v1/ucp/carts") 0 filled_world in
  snd run = filled_world /\ fst run = inl (Refused Unauthorized).
Proof.
  intros run. split; [|vm_compute; reflexivity]. destruct run as [a v] eqn:Hrun.
  destruct (@only_callers_change_state _ _ demo_http demo_http_laws demo_serde demo_a2a_serde demo_env
    no_proofs None demo_uuid (fun z => pretty z) (fun _ => "") demo_query "1.0.0" "" "" "" "" (Ok "")
    (Ok "") (demo_facade false) demo_app (as_agent "nobody" "POST" "/api/v1/ucp/carts") 0 filled_world
    a v Hrun) as [_ Hno].
  apply (Hno EUcpCreateCart None Unauthorized); vm_compute; reflexivity.
Defined.

Lemma request_id_goes_back_witness :
  get_header (rp_headers (with_request_id (request_id (as_agent "one" "GET" "/") "r1")
    (MkResponse "200" [] ""))) "x-request-id" = Some "r1".
Proof.
  rewrite request_id_goes_back; reflexivity.
Defined.
