(* ===== verification/Lifecycle.v ===== *)
(** * The life of the process ([orchestrator-runtime/src/outbox_processor.rs]: [run];
    [orchestrator-http/src/main.rs]: the end of [main]; [routes/health.rs])

    Once the process listens, three things go on beside each other: requests are answered, a
    task empties the outbox, and the main task waits for a signal, tells the task to stop, and
    leaves when it has or when its time is up.  The task is a state machine whose steps are
    single messages, so that requests run in between; the process is a step relation over it, with
    a monotonic clock for the timers of the main task.  What the outbox task reads of the time are
    answers of the environment, which that clock does not tie. *)

From stdpp Require Export relations.
From S2P Require Export Outbox RouterLogic.

(** ** The outbox task *)

(** Where [run] is: at the head of its loop, in a batch (of the drain, with its deadline, or of
    the loop), in the pause of the loop, at the head of the loop of [drain], or at its end. *)
Inductive Task :=
| Polling
| Batch (drain : option Z) (left_over handled : nat)
| Pausing
| DrainHead (deadline : Z)
| Finished.

#[export] Instance task_eq_dec : EqDecision Task.
Proof. solve_decision. Defined.

Section task.
Context {B : Backend} (env : Env) (self : RunnerConfig B) (config : OutboxProcessorConfig).
Implicit Types w : World B.

(** After a batch: [continue] or the pause, or the loop of [drain]. *)
Definition after_batch (drain : option Z) (handled : nat) : Task :=
  match drain with
  | None => if (handled =? 0)%nat then Pausing else Polling
  | Some deadline => if (handled =? 0)%nat then Finished else DrainHead deadline
  end.

Definition clock_now w : Z := instant_ns (clock_at env (w_tick w)).

Definition task_step (shutdown : bool) (t : Task) w : Task * World B :=
  match t with
  | Polling =>
      if shutdown then (DrainHead (clock_now w + drain_timeout config), set_tick (S (w_tick w)) w)
      else (Batch None (batch_size config) 0, w)
  | Batch drain left_over handled =>
      match left_over with
      | O => (after_batch drain handled, w)
      | S left_over =>
          if (runner_outbox_len w =? 0)%nat then (after_batch drain handled, w)
          else
            match process_outbox_once_reporting self (max_attempts config) w with
            | (Ok Idle, v) | (Err _, v) => (after_batch drain handled, v)
            | (Ok _, v) => (Batch drain left_over (S handled), v)
            end
      end
  | Pausing => (Polling, w)
  | DrainHead deadline =>
      let v := set_tick (S (w_tick w)) w in
      if (clock_now w <? deadline)%Z then (Batch (Some deadline) (batch_size config) 0, v)
      else (Finished, v)
  | Finished => (Finished, w)
  end.

Fixpoint task_run (shutdown : bool) (n : nat) (t : Task) w : Task * World B :=
  match n with
  | O => (t, w)
  | S n => let '(t, w) := task_step shutdown t w in task_run shutdown n t w
  end.
End task.

(** ** The process *)

(** The main task waits for the server or a signal, for the drain after a signal (until a time
    limit) or after the end of the server (without one), sleeps before the exit, or has exited. *)
Inductive Phase :=
| Serving
| Stopping (limit : Z)
| Leaving
| Sleeping (wake : Z)
| Exited.

(** [Duration::from_secs(5)]. *)
Definition EXIT_DELAY : Z := 5 * 1000000000.

Record Sys (B : Backend) := MkSys {
  sy_now : Z;
  sy_phase : Phase;
  sy_server : bool;
  sy_shutdown_flag : bool;
  sy_stop : bool;
  sy_task : Task;
  sy_world : World B
}.
Arguments MkSys {B} _ _ _ _ _ _ _.
Arguments sy_now {B} _.
Arguments sy_server {B} _.
Arguments sy_phase {B} _.
Arguments sy_shutdown_flag {B} _.
Arguments sy_stop {B} _.
Arguments sy_task {B} _.
Arguments sy_world {B} _.

(** The state of the server with the flag the handlers see. *)
Definition with_shutdown_flag {crypto : Crypto} (flag : bool) (s : AppState) : AppState :=
  MkAppState (st_facade s) (st_authn s) (st_allow_dev_auth s) flag (st_discovery_base_url s)
    (st_signing s) (st_inbound_keys s) (st_embedded_checkout_url s) (st_payment_handlers s).

Section process.
Context {B : Backend} {crypto : Crypto} {http : WebFramework} {mcp_serde : McpSerde}
  {a2a_serde : A2aSerde}
  (env : Env) (parse_proof : string -> option ConsentProof) (issuers : option string)
  (uuid_from_str : string -> result Uuid string) (to_rfc3339 : Z -> string)
  (value_to_string : Value -> string)
  (url_with_query : string -> list (string * string) -> result string string)
  (crate_version cart_text checkout_text order_text identity_text : string)
  (metrics_text openapi_text : result string string)
  (self : OrchestratorFacade B) (state : AppState) (config : OutboxProcessorConfig).

Definition answers (flag : bool) :=
  gated env parse_proof issuers uuid_from_str to_rfc3339 value_to_string url_with_query
    crate_version cart_text checkout_text order_text identity_text metrics_text openapi_text self
    (with_shutdown_flag flag state).

(** One step of the process.  A signal does not reach the server task: it was spawned and its
    handle is dropped, so requests are answered until the process exits.  After a signal nobody
    waits for the end of the server any more. *)
Inductive sys_step : Sys B -> Sys B -> Prop :=
| step_time s t :
    (sy_now s <= t)%Z ->
    sys_step s (MkSys t (sy_phase s) (sy_server s) (sy_shutdown_flag s) (sy_stop s) (sy_task s)
                  (sy_world s))
| step_request s r now a v :
    sy_phase s <> Exited -> sy_server s = true ->
    answers (sy_shutdown_flag s) r now (sy_world s) = (a, v) ->
    sys_step s (MkSys (sy_now s) (sy_phase s) true (sy_shutdown_flag s) (sy_stop s) (sy_task s) v)
| step_task s t v :
    sy_phase s <> Exited ->
    task_step env (fc_runner self) config (sy_stop s) (sy_task s) (sy_world s) = (t, v) ->
    sys_step s (MkSys (sy_now s) (sy_phase s) (sy_server s) (sy_shutdown_flag s) (sy_stop s) t v)
| step_server_ended s :
    sy_phase s = Serving ->
    sys_step s (MkSys (sy_now s) Leaving false (sy_shutdown_flag s) true (sy_task s) (sy_world s))
| step_server_lost s :
    sy_phase s <> Serving ->
    sys_step s (MkSys (sy_now s) (sy_phase s) false (sy_shutdown_flag s) (sy_stop s) (sy_task s)
                  (sy_world s))
| step_signal s :
    sy_phase s = Serving ->
    sys_step s (MkSys (sy_now s) (Stopping (sy_now s + drain_timeout config)) (sy_server s) true true
                  (sy_task s) (sy_world s))
| step_drained s limit :
    sy_phase s = Stopping limit -> sy_task s = Finished ->
    sys_step s (MkSys (sy_now s) (Sleeping (sy_now s + EXIT_DELAY)) (sy_server s)
                  (sy_shutdown_flag s) (sy_stop s) (sy_task s) (sy_world s))
| step_timeout s limit :
    sy_phase s = Stopping limit -> (limit <= sy_now s)%Z ->
    sys_step s (MkSys (sy_now s) (Sleeping (sy_now s + EXIT_DELAY)) (sy_server s)
                  (sy_shutdown_flag s) (sy_stop s) (sy_task s) (sy_world s))
| step_slept s wake :
    sy_phase s = Sleeping wake -> (wake <= sy_now s)%Z ->
    sys_step s (MkSys (sy_now s) Exited (sy_server s) (sy_shutdown_flag s) (sy_stop s) (sy_task s)
                  (sy_world s))
| step_left s :
    sy_phase s = Leaving -> sy_task s = Finished ->
    sys_step s (MkSys (sy_now s) Exited (sy_server s) (sy_shutdown_flag s) (sy_stop s) (sy_task s)
                  (sy_world s)).

(** The process right after its start. *)
Definition booted (w : World B) : Sys B := MkSys 0 Serving true false false Polling w.

(** ** What holds in every state *)

(** The task has turned to the drain. *)
Definition winding_down (t : Task) : bool :=
  match t with Batch (Some _) _ _ | DrainHead _ | Finished => true | _ => false end.

(** [since]: a time at which the process was still serving. *)
Definition sys_ok (since : Z) (s : Sys B) : Prop :=
  (winding_down (sy_task s) = true -> sy_stop s = true)
  /\ (since <= sy_now s)%Z
  /\ match sy_phase s with
     | Serving => sy_server s = true /\ sy_shutdown_flag s = false /\ sy_stop s = false
     | Stopping limit => sy_shutdown_flag s = true /\ sy_stop s = true
         /\ (since + drain_timeout config <= limit)%Z
     | Leaving => sy_server s = false /\ sy_shutdown_flag s = false /\ sy_stop s = true
     | Sleeping wake => sy_shutdown_flag s = true /\ sy_stop s = true
         /\ (since + EXIT_DELAY <= wake)%Z
         /\ (sy_task s = Finished \/ since + drain_timeout config + EXIT_DELAY <= wake)%Z
     | Exited => sy_stop s = true
         /\ (if sy_shutdown_flag s
             then (since + EXIT_DELAY <= sy_now s)%Z
               /\ (sy_task s = Finished
                   \/ since + drain_timeout config + EXIT_DELAY <= sy_now s)%Z
             else sy_server s = false /\ sy_task s = Finished)
     end.

Lemma task_step_winds_down stop t w :
  winding_down (fst (task_step env (fc_runner self) config stop t w)) = true ->
  winding_down t = true \/ stop = true.
Proof.
  destruct t as [|[d|] [|n] h| |d|]; cbn; auto; unfold after_batch;
    repeat case_match; simplify_eq; cbn; auto.
Qed.

Lemma sys_step_ok since s s' : sys_step s s' -> sys_ok since s -> sys_ok since s'.
Proof.
  intros Hs (Hw & Hn & Hp).
  destruct Hs as [s t Ht|s r now a v Hx Hsv Ha|s t v Hx Hr|s Hs|s Hs|s Hs|s l Hs Hd|s l Hs Hd|s l Hs Hd|s Hs Hd];
    unfold sys_ok in *; cbn; try rewrite Hs in Hp; try (intuition (lia || congruence)).
  - split; [done|]. split; [lia|]. destruct (sy_phase s); try done.
    destruct (sy_shutdown_flag s); [|done]. destruct Hp as (? & ? & [?|?]); (split; [done|]);
      (split; [lia|]); [by left|right; lia].
  - destruct (sy_phase s); intuition congruence.
  - split; [|split; [done|]].
    + intros Ht. destruct (task_step_winds_down (sy_stop s) (sy_task s) (sy_world s)) as [H|H];
        [by rewrite Hr|by apply Hw|done].
    + destruct (sy_phase s); try done. destruct Hp as (? & ? & ? & [Ht|?]); [|by auto].
      rewrite Ht in Hr. injection Hr as <- _. by auto.
  - split; [done|]. split; [done|]. destruct (sy_phase s); try done.
    all: destruct (sy_shutdown_flag s); intuition.
  - destruct Hp as (-> & -> & ? & [?|?]); (split; [done|]); (split; [done|]); (split; [done|]);
      (split; [lia|]); [by left|right; lia].
  - destruct Hp as (? & -> & ?). done.
Qed.

Lemma reachable_ok since s0 s : rtc sys_step s0 s -> sys_ok since s0 -> sys_ok since s.
Proof. induction 1 as [|s1 s2 s3 Hs _ IH]; [done|]. intros H. apply IH. by eapply sys_step_ok. Qed.

Lemma serving_ok since s : sys_ok since s -> sy_phase s = Serving -> sys_ok (sy_now s) s.
Proof. intros (? & ? & H) Hs. unfold sys_ok. rewrite Hs in *. done. Qed.

(** The task may take its steps in a row. *)
Lemma task_steps n s :
  sy_phase s <> Exited ->
  rtc sys_step s (MkSys (sy_now s) (sy_phase s) (sy_server s) (sy_shutdown_flag s) (sy_stop s)
    (fst (task_run env (fc_runner self) config (sy_stop s) n (sy_task s) (sy_world s)))
    (snd (task_run env (fc_runner self) config (sy_stop s) n (sy_task s) (sy_world s)))).
Proof.
  revert s. induction n as [|n IH]; intros [c p sv f st t w] Hp; [constructor|]. cbn in *.
  destruct (task_step env (fc_runner self) config st t w) as [t' u] eqn:Hs.
  eapply rtc_l; [by eapply step_task|]. by apply (IH (MkSys c p sv f st t' u)).
Qed.

(** After a signal a request may come between the end of the task and the exit. *)
Lemma late_request n r now a w v u :
  task_run env (fc_runner self) config true n Polling w = (Finished, u) ->
  answers true r now u = (a, v) ->
  rtc sys_step (booted w) (MkSys EXIT_DELAY Exited true true true Finished v).
Proof.
  intros Hn Hr. eapply rtc_l; [by apply step_signal|]. etrans; [by apply (task_steps n)|].
  cbn [sy_now sy_phase sy_server sy_shutdown_flag sy_stop sy_task sy_world booted]. rewrite Hn.
  eapply rtc_l; [by eapply step_drained|]. eapply rtc_l; [by eapply step_request|].
  eapply rtc_l; [by apply (step_time _ EXIT_DELAY)|]. apply rtc_once. by eapply step_slept.
Qed.
End process.

(** ** The drain ends *)

Lemma step_ticks {B : Backend} (self : RunnerConfig B) m (w : World B) :
  (w_tick w <= w_tick (snd (process_outbox_once_reporting self m w)))%nat.
Proof.
  unfold process_outbox_once_reporting, delivery_failed, mbind, ST_bind, mret, ST_ret, on.
  repeat (case_match; simplify_eq; cbn); lia.
Qed.

Lemma task_run_finished {B : Backend} env (self : RunnerConfig B) config stop n (w : World B) :
  task_run env self config stop n Finished w = (Finished, w).
Proof. by induction n. Qed.

Lemma batch_steps {B : Backend} env (self : RunnerConfig B) config drain stop m h (w : World B) :
  let '(handled, _, v) := batch_loop self config m w in
  exists n, task_run env self config stop n (Batch drain m h) w
    = (after_batch drain (h + handled), v).
Proof.
  revert h w. induction m as [|m IH]; intros h w; cbn [batch_loop];
    [exists 1%nat; by rewrite Nat.add_0_r|].
  destruct (runner_outbox_len w =? 0)%nat eqn:Hl.
  { exists 1%nat. cbn. by rewrite Hl, Nat.add_0_r. }
  destruct (process_outbox_once_reporting self (max_attempts config) w) as [[o|e] v] eqn:Hp.
  2: { exists 1%nat. cbn. by rewrite Hl, Hp, Nat.add_0_r. }
  specialize (IH (S h) v). destruct (batch_loop self config m v) as [[handled p] u].
  destruct IH as [n Hn]. rewrite Nat.add_succ_comm in Hn.
  destruct o; [exists 1%nat; cbn; by rewrite Hl, Hp, Nat.add_0_r|..];
    exists (S n); cbn; by rewrite Hl, Hp.
Qed.

Section drain.
Context (env : Env) (self : RunnerConfig memory_backend) (config : OutboxProcessorConfig).
Implicit Types w v : World memory_backend.

Definition queue w : list OutboxMessage := ob_inner (w_outbox w).

Definition deadline_of (t : Task) : option Z :=
  match t with Batch d _ _ => d | DrainHead d => Some d | _ => None end.

(** The clock was seen past the deadline of the drain. *)
Definition clock_ran_out (t : Task) w v : Prop :=
  match deadline_of t with
  | Some d => exists k, (w_tick w <= k < w_tick v)%nat /\ (d <= instant_ns (clock_at env k))%Z
  | None => exists k k', (w_tick w <= k < k')%nat /\ (k' < w_tick v)%nat
      /\ (instant_ns (clock_at env k) + drain_timeout config <= instant_ns (clock_at env k'))%Z
  end.

Lemma clock_ran_out_later t t' w u v :
  deadline_of t' = deadline_of t -> (w_tick w <= w_tick u)%nat ->
  clock_ran_out t' u v -> clock_ran_out t w v.
Proof.
  unfold clock_ran_out. intros -> Hle. destruct (deadline_of t).
  - intros (k & ? & ?). exists k. split; [lia|done].
  - intros (k & k' & ? & ? & ?). exists k, k'. split; [lia|]. by split; [lia|].
Qed.

(** Steps that may still be taken. *)
Definition measure (t : Task) w : nat :=
  let b := queue_budget (max_attempts config) (queue w) in
  match t with
  | Finished => 0
  | DrainHead _ => 3 * b + 3
  | Batch (Some _) _ h => if (h =? 0)%nat then 3 * b + 2 else 3 * b + 4
  | Polling => 3 * b + 5
  | Pausing => 3 * b + 6
  | Batch None _ _ => 3 * b + 7
  end.

(** A batch has either taken a step or all of them are left. *)
Definition batch_ok (t : Task) : Prop :=
  match t with Batch _ n h => h = O -> n <> O | _ => True end.

Lemma memory_step_counts w :
  (max_attempts config < u32_max)%Z -> Outbox.attempts_ok (queue w) -> queue w <> [] ->
  exists o v, process_outbox_once_reporting self (max_attempts config) w = (Ok o, v)
    /\ o <> Idle /\ Outbox.attempts_ok (queue v)
    /\ (queue_budget (max_attempts config) (queue v)
        < queue_budget (max_attempts config) (queue w))%nat
    /\ (w_tick w <= w_tick v)%nat.
Proof.
  intros Hmax Hok Hne. destruct (mem_step self (max_attempts config) w) as (o & v & Hr & _ & Hp).
  destruct (step_budget _ _ _ _ _ Hmax Hok Hne Hp) as (? & ? & ?).
  exists o, v. split; [done|]. repeat (split; [done|]).
  pose proof (step_ticks self (max_attempts config) w) as Ht. by rewrite Hr in Ht.
Qed.

(** What one step of the stopping task makes of the state. *)
Definition progress (t : Task) w (t' : Task) v : Prop :=
  Outbox.attempts_ok (queue v) /\ batch_ok t' /\ (w_tick w <= w_tick v)%nat
  /\ (measure t' v < measure t w)%nat
  /\ ((t' = Finished /\ (queue v = [] \/ clock_ran_out t w v))
      \/ (t' <> Finished /\ deadline_of t' = deadline_of t)
      \/ (t = Polling /\ t' = DrainHead (clock_now env w + drain_timeout config)
          /\ w_tick v = S (w_tick w))).

Context (Hbatch : (0 < batch_size config)%nat) (Hmax : (max_attempts config < u32_max)%Z).

Lemma batch_ends d h w :
  Outbox.attempts_ok (queue w) -> (forall x, d = Some x -> h = O -> queue w = []) ->
  forall n, progress (Batch d n h) w (after_batch d h) w.
Proof.
  intros Hok He n. split; [done|]. split; [by destruct d, h|]. split; [done|].
  destruct d as [x|], h as [|h]; cbn; (split; [lia|]);
    [left; split; [done|left; by eapply He]|right; left; done..].
Qed.

Lemma stopping_step t w :
  t <> Finished -> batch_ok t -> Outbox.attempts_ok (queue w) ->
  progress t w (fst (task_step env self config true t w))
    (snd (task_step env self config true t w)).
Proof.
  intros Hf Hb Hok. destruct t as [|d [|n] h| |x|]; try done; cbn [task_step].
  - cbn. split; [done|]. split; [done|]. split; [cbn; lia|]. split; [unfold measure, queue; cbn; lia|].
    right; right. done.
  - apply batch_ends; [done|]. intros x _ ->. by specialize (Hb eq_refl).
  - destruct (Nat.eqb_spec (runner_outbox_len w) 0) as [Hl|Hl].
    { apply batch_ends; [done|]. intros. by apply length_zero_iff_nil. }
    assert (queue w <> []) as Hne by (intros E; apply Hl; by apply length_zero_iff_nil).
    destruct (memory_step_counts w Hmax Hok Hne) as (o & v & -> & Ho & Hok' & Hlt & Ht).
    assert (progress (Batch d (S n) h) w (Batch d n (S h)) v) as Hp.
    { split; [done|]. split; [done|]. split; [done|].
      split; [destruct d, h; cbn; lia|]. by right; left. }
    by destruct o.
  - split; [done|]. split; [done|]. split; [done|]. split; [cbn; lia|]. by right; left.
  - destruct (Z.ltb_spec (clock_now env w) x) as [Hc|Hc]; cbn [fst snd].
    + split; [done|]. split; [cbn; intros _; lia|]. split; [cbn; lia|].
      split; [unfold measure, queue; cbn; lia|]. by right; left.
    + split; [done|]. split; [done|]. split; [cbn; lia|]. split; [cbn; lia|].
      left. split; [done|]. right. exists (w_tick w). split; [cbn; lia|done].
Qed.

Lemma stopping_run_ends m t w :
  (measure t w <= m)%nat -> batch_ok t -> Outbox.attempts_ok (queue w) ->
  exists n v, task_run env self config true n t w = (Finished, v) /\ (w_tick w <= w_tick v)%nat
    /\ (t <> Finished -> queue v = [] \/ clock_ran_out t w v).
Proof.
  revert t w. induction m as [|m IH]; intros t w Hm Hb Hok;
    (destruct (decide (t = Finished)) as [->|Hf]; [by exists O, w|]).
  { exfalso. destruct t as [|[|] ? [|]| | |]; cbn in Hm; done || lia. }
  destruct (stopping_step t w Hf Hb Hok) as (Hok' & Hb' & Hle & Hlt & Hcase).
  destruct (task_step env self config true t w) as [t' u] eqn:Hs. cbn [fst snd] in *.
  destruct (IH t' u) as (n & v & Hr & Hle' & Hv); [lia|done..|].
  exists (S n), v. split; [by cbn; rewrite Hs|]. split; [lia|]. intros _.
  destruct Hcase as [[-> Hc]|[[Hf' Hd]|(-> & -> & Htk)]].
  - rewrite task_run_finished in Hr. by injection Hr as <-.
  - destruct (Hv Hf') as [?|Hc]; [by left|right]. by eapply clock_ran_out_later.
  - destruct Hv as [?|(k & Hk & Hd)]; [done|by left|right].
    exists (w_tick w), k. split; [lia|]. by split; [lia|].
Qed.

End drain.

(** ** Properties *)

(** C23: the life of the process.  Whatever requests, deliveries and signals come in what order: the
    outbox task starts its drain only once it was told to stop, and it is told so exactly when the
    process no longer serves; the readiness page answers 200 until a signal and 503 after it; a
    server that has not ended by itself answers requests until the exit, after a signal too; and a
    process that exits after a signal does so no earlier than five seconds after it, and with the
    outbox task still running no earlier than the time limit of the drain and these five seconds
    after it.  [s0] is any earlier state before the signal, such as the last one. *)
Theorem process_invariant {B : Backend} {crypto : Crypto} {http : WebFramework}
  {mcp_serde : McpSerde} {a2a_serde : A2aSerde} env parse_proof issuers uuid_from_str to_rfc3339
  value_to_string url_with_query crate_version cart_text checkout_text order_text identity_text
  metrics_text openapi_text (self : OrchestratorFacade B) (state : AppState) config w s0 s :
  let step := sys_step env parse_proof issuers uuid_from_str to_rfc3339 value_to_string
    url_with_query crate_version cart_text checkout_text order_text identity_text metrics_text
    openapi_text self state config in
  rtc step (booted w) s0 -> sy_phase s0 = Serving -> rtc step s0 s ->
  (winding_down (sy_task s) = true -> sy_stop s = true)
  /\ (sy_phase s = Serving <-> sy_stop s = false)
  /\ match sy_phase s with
     | Serving => fst (ready (with_shutdown_flag (sy_shutdown_flag s) state)) = 200%Z
     | Stopping _ | Sleeping _ =>
         fst (ready (with_shutdown_flag (sy_shutdown_flag s) state)) = 503%Z
     | _ => True
     end
  /\ (sy_phase s <> Exited -> sy_server s = true -> forall r now, exists s',
       step s s' /\ sy_phase s' = sy_phase s /\ sy_task s' = sy_task s
       /\ sy_world s' = snd (answers env parse_proof issuers uuid_from_str to_rfc3339
            value_to_string url_with_query crate_version cart_text checkout_text order_text
            identity_text metrics_text openapi_text self state (sy_shutdown_flag s) r now
            (sy_world s)))
  /\ (sy_phase s = Exited ->
       if sy_shutdown_flag s
       then (sy_now s0 + EXIT_DELAY <= sy_now s)%Z
         /\ (sy_task s = Finished
             \/ sy_now s0 + drain_timeout config + EXIT_DELAY <= sy_now s)%Z
       else sy_server s = false /\ sy_task s = Finished).
Proof.
  intros step H0 Hs0 Hs.
  assert (sys_ok config 0 (booted w)) as Hb by done.
  pose proof (reachable_ok _ _ _ _ _ _ _ _ _ _ _ _ _ _ _ _ _ _ _ _ H0 Hb) as Hk.
  pose proof (reachable_ok _ _ _ _ _ _ _ _ _ _ _ _ _ _ _ _ _ _ _ _ Hs (serving_ok _ _ _ Hk Hs0))
    as (Hw & _ & Hp).
  split; [done|]. split; [destruct (sy_phase s); intuition congruence|].
  split; [destruct (sy_phase s); try done; unfold ready;
    cbn [st_shutdown_flag with_shutdown_flag]; destruct Hp as (Hx & Hy & _);
    [by rewrite Hy|by rewrite Hx..]|].
  split.
  - intros Hx Hv r now. eexists.
    split; [eapply step_request; [exact Hx|exact Hv|apply surjective_pairing]|]. done.
  - intros Hx. rewrite Hx in Hp. tauto.
Qed.


(** A batch that nothing interrupts is [process_batch]: the steps of the task, message by
    message, handle as many messages and leave the world that the loop of the code does. *)
Theorem batch_steps_are_process_batch {B : Backend} env (self : RunnerConfig B) config drain stop w :
  let '(handled, _, v) := process_batch self config w in
  exists n, task_run env self config stop n (Batch drain (batch_size config) 0) w
    = (after_batch drain handled, v).
Proof.
  pose proof (batch_steps env self config drain stop (batch_size config) 0 w) as H.
  unfold process_batch. by destruct (batch_loop _ _ _ _) as [[h p] v].
Qed.

(** ** Work taken after the drain *)

(** The framework of the demonstration, with a checkout in every body. *)
Definition buying_http : WebFramework := {|
  find_route := demo_find_route; query_ucp_version _ := Ok None; json_cart_command _ := Err 422%Z;
  json_ucp_cart _ := Err 422%Z; json_fulfillment _ := Err 422%Z;
  json_checkout _ := Ok (MkCheckoutRequestDto "t1" "m1" "cart" 2 "USD" None None
    (MkPaymentIntentDto 2200 "tok" None None None None None) "k1");
  json_search _ := Ok None; json_ids _ := Ok []; json_id _ := Ok "sku"; json_acp_create _ := Err 422%Z;
  json_acp_lines _ := Ok []; json_acp_complete _ := Err 422%Z; json_acp_delegate _ := Err 422%Z;
  json_value _ := Ok VNull; json_webhook _ := Err 422%Z; json_lifecycle _ := Err 422%Z;
  json_rpc _ := Err 422%Z; json_message_id _ := Ok "m"; json_max_attempts _ := Ok 3%Z;
  json_transaction_ids _ := Ok []
|}.

Abbreviation demo_step := (@sys_step memory_backend demo_crypto buying_http demo_serde demo_a2a_serde
  demo_env no_proofs None demo_uuid (fun z => pretty z) (fun _ => "") demo_query "1.0.0" "" "" "" ""
  (Ok "") (Ok "") (demo_facade false) demo_app default_outbox_config).

Abbreviation buying := (@answers memory_backend demo_crypto buying_http demo_serde demo_a2a_serde
  demo_env no_proofs None demo_uuid (fun z => pretty z) (fun _ => "") demo_query "1.0.0" "" "" "" ""
  (Ok "") (Ok "") (demo_facade false) demo_app).

Definition purchase : HttpRequest := as_agent "one" "POST" "/api/v1/checkout/execute".

Definition drained_world : World memory_backend :=
  snd (task_run demo_env (fc_runner (demo_facade false)) default_outbox_config true 5 Polling filled_world).

Lemma drain_of_nothing :
  task_run demo_env (fc_runner (demo_facade false)) default_outbox_config true 5 Polling filled_world
  = (Finished, drained_world).
Proof.
  unfold drained_world. rewrite (surjective_pairing (task_run _ _ _ _ _ _ _)). by f_equal.
Qed.

(** After a signal the process turns readiness off and drains, but the server task is neither
    stopped nor told: a checkout that comes when the queue is drained is answered, and the process
    exits with the message of its order still queued, the task that would send it at its end. *)
Theorem work_taken_after_the_drain :
  exists s res, rtc demo_step (booted filled_world) s
    /\ fst (buying true purchase 0 drained_world) = inl (Success (RTransaction res))
    /\ trd_status res = DtoCompleted
    /\ sy_phase s = Exited /\ sy_task s = Finished /\ sy_shutdown_flag s = true
    /\ map om_topic (queue (sy_world s)) = ["order.created"].
Proof.
  destruct (buying true purchase 0 drained_world) as [a v] eqn:Hb.
  assert (exists res, a = inl (Success (RTransaction res)) /\ trd_status res = DtoCompleted)
    as (res & -> & Hres).
  { apply (f_equal fst) in Hb. cbn [fst] in Hb. rewrite <- Hb. eexists. vm_compute. split; reflexivity. }
  exists (MkSys EXIT_DELAY Exited true true true Finished v), res. split; [|split; [exact eq_refl|split; [exact Hres|]]].
  - eapply late_request; [|exact Hb].
    exact drain_of_nothing.
  - do 3 (split; [exact eq_refl|]). cbn [sy_world]. apply (f_equal snd) in Hb. cbn [snd] in Hb. rewrite <- Hb.
    vm_compute. reflexivity.
Qed.

(** ** Witnesses *)

(** A signal as soon as the process listens, and an exit five seconds after the drain of nothing. *)
Lemma process_invariant_witness :
  exists v, rtc demo_step (booted filled_world) (MkSys EXIT_DELAY Exited true true true Finished v)
    /\ (EXIT_DELAY <= EXIT_DELAY)%Z.
Proof.
  destruct (buying true purchase 0 drained_world) as [a v] eqn:Hb. exists v.
  pose proof (late_request _ _ _ _ _ _ _ _ _ _ _ _ _ _ _ _ _ 5 purchase 0 _ _ _ _ drain_of_nothing Hb) as H.
  split; [exact H|].
  exact (proj1 (proj2 (proj2 (proj2 (proj2
    (process_invariant _ _ _ _ _ _ _ _ _ _ _ _ _ _ _ _ _ _ _ _ (rtc_refl _ _) eq_refl H)))) eq_refl)).
Defined.

