(* ===== verification/Metrics.v ===== *)
(** * Metrics ([crates/orchestrator-observability/src/metrics.rs], and where they are recorded:
    [runner.rs], [outbox_processor.rs], [facade.rs], [circuit.rs])

    One registry behind a lock, as families of counters, gauges and histograms.  The families and
    what they hold are [prometheus_client]'s: a class with the laws its documentation states.  An
    operation with its metrics runs on the pair of its state and the registry; without them it is
    proved to be the operation of the other files. *)

From S2P Require Export Circuit Outbox Facade.

(** ** [prometheus_client] *)

Class PromClient := {
  Family : Type -> Type -> Type;
  Counter : Type;
  Gauge : Type;
  Histogram : Type;
  F64 : Type;
  (** A literal of the source, and [as f64]. *)
  f64_literal : string -> F64;
  f64_of : Z -> F64;
  counter_default : Counter;
  counter_inc : Counter -> Counter;
  counter_get : Counter -> Z;
  gauge_default : Gauge;
  gauge_set : Z -> Gauge -> Gauge;
  gauge_get : Gauge -> Z;
  exponential_buckets : F64 -> F64 -> nat -> list F64;
  histogram_new : list F64 -> Histogram;
  observe : F64 -> Histogram -> Histogram;
  new_with_constructor {L M} `{!EqDecision L} : M -> Family L M;
  (** [get_or_create(labels)]: what it reads, and what an update through it leaves. *)
  get_or_create {L M} `{!EqDecision L} : L -> Family L M -> M;
  update_metric {L M} `{!EqDecision L} : L -> (M -> M) -> Family L M -> Family L M
}.

Class PromClientLaws (P : PromClient) := {
  counter_starts : counter_get counter_default = 0%Z;
  counter_counts c : counter_get (counter_inc c) = u64_wrap (counter_get c + 1);
  gauge_starts : gauge_get gauge_default = 0%Z;
  gauge_holds x g : gauge_get (gauge_set x g) = x;
  family_starts {L M} `{!EqDecision L} (l : L) (m : M) :
    get_or_create l (new_with_constructor m) = m;
  family_update {L M} `{!EqDecision L} (l l' : L) (f : M -> M) (F : Family L M) :
    get_or_create l' (update_metric l f F)
    = if decide (l' = l) then f (get_or_create l' F) else get_or_create l' F
}.

(** ** The registry *)

Record EventLabels := MkEventLabels { el_name : string }.
Record ProviderCallLabels := MkProviderCallLabels {
  pcl_method : string; pcl_provider : string; pcl_status : string }.
Record ProviderLatencyLabels := MkProviderLatencyLabels {
  pll_method : string; pll_provider : string }.
Record OperationLabels := MkOperationLabels { opl_operation : string; opl_status : string }.
Record ProviderLabels := MkProviderLabels { prl_provider : string }.
Record QueueLabels := MkQueueLabels { ql_queue : string }.

#[export] Instance event_labels_dec : EqDecision EventLabels.
Proof. solve_decision. Defined.
#[export] Instance provider_call_labels_dec : EqDecision ProviderCallLabels.
Proof. solve_decision. Defined.
#[export] Instance provider_latency_labels_dec : EqDecision ProviderLatencyLabels.
Proof. solve_decision. Defined.
#[export] Instance operation_labels_dec : EqDecision OperationLabels.
Proof. solve_decision. Defined.
#[export] Instance provider_labels_dec : EqDecision ProviderLabels.
Proof. solve_decision. Defined.
#[export] Instance queue_labels_dec : EqDecision QueueLabels.
Proof. solve_decision. Defined.

Section registry.
Context {P : PromClient}.

(** [registry] is the names the families were registered under, with their help. *)
Record MetricsRegistry := MkMetricsRegistry {
  registry : list (string * string);
  event_counts : Family EventLabels Counter;
  provider_calls : Family ProviderCallLabels Counter;
  provider_latency : Family ProviderLatencyLabels Histogram;
  operation_calls : Family OperationLabels Counter;
  operation_latency : Family OperationLabels Histogram;
  provider_circuit_state : Family ProviderLabels Gauge;
  queue_depth : Family QueueLabels Gauge;
  delivery_attempts : Family OperationLabels Histogram
}.

Definition seconds_histogram : Histogram :=
  histogram_new (exponential_buckets (f64_literal "0.005") (f64_literal "2.0") 16).

Definition metrics_registry_new : MetricsRegistry :=
  MkMetricsRegistry
    [ ("orchestrator_events", "Counter for orchestrator events");
      ("orchestrator_provider_http_calls", "Total downstream provider HTTP calls");
      ("orchestrator_provider_http_latency_seconds",
       "Downstream provider HTTP latency in seconds");
      ("orchestrator_operation_calls", "Operation calls by operation and status");
      ("orchestrator_operation_latency_seconds",
       "Operation latency in seconds by operation and status");
      ("orchestrator_provider_circuit_state",
       "Provider circuit breaker state (0 closed, 1 half-open, 2 open)");
      ("orchestrator_queue_depth", "Pending entries by queue (outbox, dead_letter)");
      ("orchestrator_delivery_attempts",
       "Attempts made before a delivery settled, by operation and status") ]
    (new_with_constructor counter_default) (new_with_constructor counter_default)
    (new_with_constructor seconds_histogram) (new_with_constructor counter_default)
    (new_with_constructor seconds_histogram) (new_with_constructor gauge_default)
    (new_with_constructor gauge_default)
    (new_with_constructor
       (histogram_new (exponential_buckets (f64_literal "1.0") (f64_literal "2.0") 8))).

Implicit Types g : MetricsRegistry.

Definition incr (name : string) g : MetricsRegistry :=
  MkMetricsRegistry (registry g) (update_metric (MkEventLabels name) counter_inc (event_counts g))
    (provider_calls g) (provider_latency g) (operation_calls g) (operation_latency g)
    (provider_circuit_state g) (queue_depth g) (delivery_attempts g).

Definition get_count (name : string) g : Z :=
  counter_get (get_or_create (MkEventLabels name) (event_counts g)).

Definition observe_provider_http_call (method provider status : string) (seconds : F64) g
  : MetricsRegistry :=
  MkMetricsRegistry (registry g) (event_counts g)
    (update_metric (MkProviderCallLabels method provider status) counter_inc (provider_calls g))
    (update_metric (MkProviderLatencyLabels method provider) (observe seconds)
       (provider_latency g))
    (operation_calls g) (operation_latency g) (provider_circuit_state g) (queue_depth g)
    (delivery_attempts g).

Definition observe_operation (operation status : string) (seconds : F64) g : MetricsRegistry :=
  MkMetricsRegistry (registry g) (event_counts g) (provider_calls g) (provider_latency g)
    (update_metric (MkOperationLabels operation status) counter_inc (operation_calls g))
    (update_metric (MkOperationLabels operation status) (observe seconds) (operation_latency g))
    (provider_circuit_state g) (queue_depth g) (delivery_attempts g).

Definition set_provider_circuit_state (provider : string) (state : Z) g : MetricsRegistry :=
  MkMetricsRegistry (registry g) (event_counts g) (provider_calls g) (provider_latency g)
    (operation_calls g) (operation_latency g)
    (update_metric (MkProviderLabels provider) (gauge_set state) (provider_circuit_state g))
    (queue_depth g) (delivery_attempts g).

Definition set_queue_depth (queue : string) (depth : Z) g : MetricsRegistry :=
  MkMetricsRegistry (registry g) (event_counts g) (provider_calls g) (provider_latency g)
    (operation_calls g) (operation_latency g) (provider_circuit_state g)
    (update_metric (MkQueueLabels queue) (gauge_set depth) (queue_depth g)) (delivery_attempts g).

Definition get_queue_depth (queue : string) g : Z :=
  gauge_get (get_or_create (MkQueueLabels queue) (queue_depth g)).

Definition observe_delivery_attempts (operation status : string) (attempts : Z) g
  : MetricsRegistry :=
  MkMetricsRegistry (registry g) (event_counts g) (provider_calls g) (provider_latency g)
    (operation_calls g) (operation_latency g) (provider_circuit_state g) (queue_depth g)
    (update_metric (MkOperationLabels operation status) (observe (f64_of attempts))
       (delivery_attempts g)).

(** The calls counted for an operation and a status, and what the gauge of a breaker shows. *)
Definition calls_of (operation status : string) g : Z :=
  counter_get (get_or_create (MkOperationLabels operation status) (operation_calls g)).
Definition circuit_gauge (provider : string) g : Z :=
  gauge_get (get_or_create (MkProviderLabels provider) (provider_circuit_state g)).

(** ** Operations with their metrics *)

Section metered.
Context {S E : Type}.

(** The operation itself, and a record of the registry. *)
Definition silent {A} (m : ST S E A) : ST (S * MetricsRegistry) E A := fun s =>
  (fst (m (fst s)), (snd (m (fst s)), snd s)).
Definition meter (f : MetricsRegistry -> MetricsRegistry) : ST (S * MetricsRegistry) E unit :=
  fun s => (Ok tt, (fst s, f (snd s))).

(** Leaving the registry away gives the operation. *)
Definition erases {A} (p : ST (S * MetricsRegistry) E A) (m : ST S E A) : Prop :=
  forall w g, (fst (p (w, g)), fst (snd (p (w, g)))) = m w.

Lemma erases_silent {A} (m : ST S E A) : erases (silent m) m.
Proof. intros w g. cbn. by destruct (m w). Qed.

Lemma erases_ret {A} (a : A) : erases (mret a) (mret a).
Proof. done. Qed.

Lemma erases_fail {A} (e : E) : erases (A:=A) (st_fail e) (st_fail e).
Proof. done. Qed.

Lemma erases_lift {A} (r : result A E) : erases (st_lift r) (st_lift r).
Proof. done. Qed.

Lemma erases_bind {A C} p m (f : A -> ST (S * MetricsRegistry) E C) h :
  erases p m -> (forall a, erases (f a) (h a)) -> erases (p ≫= f) (m ≫= h).
Proof.
  intros Hp Hf w g. specialize (Hp w g). unfold mbind, ST_bind. rewrite <- Hp.
  destruct (p (w, g)) as [[a|e] [v g']]; [apply Hf|done].
Qed.

Lemma erases_meter {A} f (p : ST (S * MetricsRegistry) E A) m :
  erases p m -> erases (meter f ≫= fun _ => p) m.
Proof. intros Hp w g. unfold mbind, ST_bind. cbn. apply Hp. Qed.
End metered.
End registry.
Arguments MetricsRegistry P : clear implicits.

Ltac erases :=
  repeat (cbv zeta beta; intros; first
    [ apply erases_silent | apply erases_ret | apply erases_fail | apply erases_lift
    | apply erases_meter | apply erases_bind | case_match ]).

(** ** The outbox *)

#[export] Instance outbox_outcome_dec : EqDecision OutboxOutcome.
Proof. solve_decision. Defined.

Lemma run_silent {P : PromClient} {S E A C} (m : ST S E A) (f : A -> ST (S * MetricsRegistry P) E C)
  w g :
  (silent m ≫= f) (w, g)
  = match m w with (Ok a, v) => f a (v, g) | (Err e, v) => (Err e, (v, g)) end.
Proof. unfold mbind, ST_bind, silent. cbn. by destruct (m w) as [[a|e] v]. Qed.

Lemma run_lift {S E A C} (r : result A E) (f : A -> ST S E C) s :
  (st_lift r ≫= f) s = match r with Ok a => f a s | Err e => (Err e, s) end.
Proof. unfold mbind, ST_bind, st_lift. by destruct r. Qed.

Lemma run_meter {P : PromClient} {S E C} f (k : unit -> ST (S * MetricsRegistry P) E C) w g :
  (meter f ≫= k) (w, g) = k tt (w, f g).
Proof. done. Qed.

Lemma get_count_incr {P : PromClient} {PL : PromClientLaws P} name name' (g : MetricsRegistry P) :
  get_count name' (incr name g)
  = if decide (name' = name) then u64_wrap (get_count name' g + 1) else get_count name' g.
Proof.
  unfold get_count. cbn. rewrite family_update. case_decide as H1; case_decide as H2; try congruence.
  apply counter_counts.
Qed.

Lemma get_count_attempts {P : PromClient} name o st n (g : MetricsRegistry P) :
  get_count name (observe_delivery_attempts o st n g) = get_count name g.
Proof. done. Qed.

Section outbox.
Context {P : PromClient} {B : Backend} (self : RunnerConfig B) (config : OutboxProcessorConfig).
Implicit Types g : MetricsRegistry P.

Definition process_outbox_once_metered (max : Z)
  : ST (World B * MetricsRegistry P) RunnerError OutboxOutcome :=
  claimed ← silent (on w_outbox set_outbox outbox_claim);
  match claimed with
  | None => mret Idle
  | Some msg =>
      failed ← silent (delivery_failed self msg);
      if (failed : bool) then
        let msg := om_set_attempts (u32_wrap (om_attempts msg + 1)) msg in
        if (max <? om_attempts msg)%Z then
          _ ← meter (incr "outbox_dead_letter_total");
          _ ← meter (observe_delivery_attempts "outbox_delivery" "dead_letter" (om_attempts msg));
          _ ← silent (on w_dead set_dead (dl_put msg));
          _ ← silent (on w_outbox set_outbox (outbox_ack (om_id msg)));
          mret DeadLettered
        else
          _ ← silent (on w_outbox set_outbox (outbox_release msg));
          mret (Retrying (om_attempts msg))
      else
        _ ← meter (observe_delivery_attempts "outbox_delivery" "success"
                     (u32_wrap (om_attempts msg + 1)));
        _ ← meter (incr "outbox_delivered_total");
        _ ← silent (on w_outbox set_outbox (outbox_ack (om_id msg)));
        mret Delivered
  end.

(** [usize as i64]. *)
Definition record_depth (w : World B) g : MetricsRegistry P :=
  set_queue_depth "dead_letter" (i64_wrap (Z.of_nat (dead_letter_len w)))
    (set_queue_depth "outbox" (i64_wrap (Z.of_nat (runner_outbox_len w))) g).

Fixpoint batch_loop_metered (n : nat) (s : World B * MetricsRegistry P)
  : nat * (World B * MetricsRegistry P) :=
  match n with
  | O => (0, s)
  | S n =>
      if (runner_outbox_len (fst s) =? 0)%nat then (0, s)
      else
        match process_outbox_once_metered (max_attempts config) s with
        | (Ok Idle, s) => (0, s)
        | (Ok _, s) => let '(handled, s) := batch_loop_metered n s in (S handled, s)
        | (Err _, (w, g)) => (0, (w, incr "outbox_process_error_total" g))
        end
  end.

Definition process_batch_metered (s : World B * MetricsRegistry P)
  : nat * (World B * MetricsRegistry P) :=
  let '(handled, (w, g)) := batch_loop_metered (batch_size config) s in
  (handled, (w, record_depth w g)).

Lemma erases_outbox max :
  erases (process_outbox_once_metered max) (process_outbox_once_reporting self max).
Proof. unfold process_outbox_once_metered, process_outbox_once_reporting. erases. Qed.

Lemma batch_loop_erases n w g :
  (fst (batch_loop_metered n (w, g)), fst (snd (batch_loop_metered n (w, g))))
  = (fst (fst (batch_loop self config n w)), snd (batch_loop self config n w)).
Proof.
  revert w g. induction n as [|n IH]; intros w g; [done|]. cbn [batch_loop_metered batch_loop fst].
  case_match; [done|]. rewrite <- (erases_outbox (max_attempts config) w g).
  destruct (process_outbox_once_metered (max_attempts config) (w, g)) as [[o|e] [v g']]; [|done].
  cbn [fst snd]. specialize (IH v g'). destruct (batch_loop_metered n (v, g')) as [h s].
  destruct (batch_loop self config n v) as [[h' ps] u]. cbn in IH. injection IH as -> Hu.
  by destruct o; cbn; rewrite ?Hu.
Qed.

(** A step counts its outcome, when the stores do not fail. *)
Lemma step_counts {PL : PromClientLaws P} max w g o v g' :
  process_outbox_once_metered max (w, g) = (Ok o, (v, g')) ->
  get_count "outbox_delivered_total" g'
  = (if decide (o = Delivered) then u64_wrap (get_count "outbox_delivered_total" g + 1)
     else get_count "outbox_delivered_total" g)%Z
  /\ get_count "outbox_dead_letter_total" g'
  = (if decide (o = DeadLettered) then u64_wrap (get_count "outbox_dead_letter_total" g + 1)
     else get_count "outbox_dead_letter_total" g)%Z.
Proof.
  unfold process_outbox_once_metered. intros H.
  repeat (first [ rewrite run_silent in H | rewrite !run_meter in H ]; cbv beta zeta in H;
    repeat (case_match; try discriminate)).
  all: unfold mret, ST_ret in H; simplify_eq; rewrite ?decide_True by done.
  all: try done.
  all: split; rewrite ?get_count_attempts, ?get_count_incr, ?get_count_attempts; reflexivity.
Qed.

(** Every step of a run. *)
Fixpoint metered_steps (max : Z) (n : nat) (s : World B * MetricsRegistry P)
  : World B * MetricsRegistry P :=
  match n with
  | O => s
  | S n => metered_steps max n (snd (process_outbox_once_metered max s))
  end.
End outbox.

(** *** On stores that do not fail *)

Section accounts.
Context {P : PromClient} {PL : PromClientLaws P} (self : RunnerConfig memory_backend).
Implicit Types (w v : World memory_backend) (g : MetricsRegistry P).

Definition delivered g : Z := get_count "outbox_delivered_total" g.
Definition dead_lettered g : Z := get_count "outbox_dead_letter_total" g.
Definition queued w : Z := Z.of_nat (runner_outbox_len w).

Lemma step_accounts max w g :
  (0 <= delivered g)%Z -> (0 <= dead_lettered g)%Z ->
  (delivered g + dead_lettered g + queued w <= u64_max)%Z ->
  let s := snd (process_outbox_once_metered self max (w, g)) in
  (0 <= delivered (snd s))%Z /\ (0 <= dead_lettered (snd s))%Z
  /\ (delivered (snd s) + dead_lettered (snd s) + queued (fst s)
     = delivered g + dead_lettered g + queued w)%Z.
Proof.
  intros Hd Hb Hmax. destruct (mem_step self max w) as (o & v & Ho & _ & Hp).
  pose proof (erases_outbox (P:=P) self max w g) as He. rewrite Ho in He.
  destruct (process_outbox_once_metered self max (w, g)) as [r [v' g']] eqn:Hr.
  cbn [fst snd] in *. injection He as -> ->. destruct (step_counts self max w g o v g' Hr) as [H1 H2].
  unfold delivered, dead_lettered in *. rewrite H1, H2.
  change (queued v) with (Z.of_nat (length (ob_inner (w_outbox v)))).
  change (queued w) with (Z.of_nat (length (ob_inner (w_outbox w)))) in *.
  unfold step_post in Hp. rewrite (mem_queue w), (mem_queue v) in Hp.
  assert (forall x, (0 <= x <= u64_max)%Z -> u64_wrap x = x) as Hwrap
    by (intros x Hx; apply Z.mod_small; unfold u64_max in Hx; lia).
  destruct (ob_inner (w_outbox w)) as [|m q]; [by destruct Hp as (-> & -> & _)|].
  cbn [length] in *.
  destruct (accepts self w m); [|destruct (max <? om_attempts (retried m))%Z];
    destruct Hp as (-> & Hq & _); rewrite Hq, ?length_app; cbn [length];
    repeat (case_decide; try congruence); rewrite ?Hwrap by lia; lia.
Qed.

Lemma steps_account max n w g :
  (0 <= delivered g)%Z -> (0 <= dead_lettered g)%Z ->
  (delivered g + dead_lettered g + queued w <= u64_max)%Z ->
  let s := metered_steps self max n (w, g) in
  (delivered (snd s) + dead_lettered (snd s) + queued (fst s)
   = delivered g + dead_lettered g + queued w)%Z.
Proof.
  revert w g. induction n as [|n IH]; intros w g Hd Hb Hmax; [done|]. cbn [metered_steps].
  pose proof (step_accounts max w g Hd Hb Hmax) as (Hd' & Hb' & Heq).
  destruct (snd (process_outbox_once_metered self max (w, g))) as [v g'].
  cbn [fst snd] in *. rewrite <- Heq in *. by apply IH.
Qed.
End accounts.

(** ** The facade *)

Definition cart_command_operation (cmd : CartCommand) : string :=
  match cmd with
  | CreateCart _ => "cart_create"
  | AddItem _ => "cart_add_item"
  | UpdateItemQty _ => "cart_update_qty"
  | RemoveItem _ => "cart_remove_item"
  | ApplyAdjustment _ => "cart_apply_adjustment"
  | GetCart _ => "cart_get"
  | StartCheckout _ => "cart_start_checkout"
  | CancelCart _ => "cart_cancel"
  | SetFulfillmentSelection _ => "cart_set_fulfillment"
  end.

Definition checkout_status_label (res : TransactionResult) : string :=
  match tr_status res with
  | TxnCompleted => "completed"
  | TxnRejected => "rejected"
  | TxnAuthFailed => "auth_failed"
  | TxnCommitFailed => "commit_failed"
  | TxnTimedOut => "timed_out"
  end.

Section facade.
Context {P : PromClient} {B : Backend} (env : Env) (parse_proof : string -> option ConsentProof)
  (trusted_issuers : option string) (self : OrchestratorFacade B) (elapsed : F64).
Implicit Types g : MetricsRegistry P.

(** An operation whose status is recorded when it is over. *)
Definition recorded {A} (op : string) (status : result A FacadeError -> string)
    (m : ST (World B) FacadeError A) : ST (World B * MetricsRegistry P) FacadeError A := fun s =>
  let '(r, v) := m (fst s) in (r, (v, observe_operation op (status r) elapsed (snd s))).

Definition success_or_error {A} (r : result A FacadeError) : string :=
  if is_ok r then "success" else "error".

Definition facade_dispatch_metered (cmd : CartCommand) (cart_id : option CartId)
  : ST (World B * MetricsRegistry P) FacadeError CartProjection :=
  recorded (cart_command_operation cmd) success_or_error (facade_dispatch env self cmd cart_id).

Definition checkout_label (r : result TransactionResult FacadeError) : string :=
  match r with Ok res => checkout_status_label res | Err _ => "error" end.

Definition spend_mandate_metered (request : CheckoutRequest)
  : ST (World B * MetricsRegistry P) FacadeError unit :=
  let trusted := trusted_issuers_from_env trusted_issuers in
  t1 ← silent (from_runner (now env));
  t2 ← silent (from_runner (now env));
  _ ← st_lift (map_err FAp2Verification (verify_ap2_strict parse_proof trusted t1 t2 request));
  record ← st_lift (map_err FAp2Verification (extract_ap2_mandate_record parse_proof request));
  accepted ← silent (from_runner
    (runner_record_mandate env (mr_mandate_id record) (mr_expires_at record)));
  if negb (accepted : bool) then
    _ ← meter (observe_operation "checkout_execute" "rejected" elapsed);
    st_fail replay_error
  else mret tt.

Definition facade_execute_checkout_metered (request : CheckoutRequest)
  : ST (World B * MetricsRegistry P) FacadeError TransactionResult :=
  _ ← (if fc_ap2_strict self then spend_mandate_metered request else mret tt);
  recorded "checkout_execute" checkout_label
    (from_runner (execute_checkout env (fc_runner self) request)).

Lemma mandate_counted request w g r v g' :
  spend_mandate_metered request (w, g) = (r, (v, g')) ->
  (g' = g /\ (r = Ok tt \/ is_ok r = false))
  \/ (r = Err replay_error /\ g' = observe_operation "checkout_execute" "rejected" elapsed g).
Proof.
  unfold spend_mandate_metered. cbv zeta. intros H.
  repeat (first [ rewrite run_silent in H | rewrite run_lift in H | rewrite run_meter in H ];
    cbv beta in H; repeat (case_match; simplify_eq/=)).
  all: unfold mret, ST_ret, st_fail in *; simplify_eq; eauto 6.
Qed.

Lemma erases_recorded {A} op status (m : ST (World B) FacadeError A) :
  erases (recorded op status m) m.
Proof. intros w g. unfold recorded. cbn. by destruct (m w). Qed.

Lemma erases_checkout request :
  erases (facade_execute_checkout_metered request)
    (facade_execute_checkout env parse_proof trusted_issuers self request).
Proof.
  apply erases_bind; [|intros _; apply erases_recorded].
  case_match; [unfold spend_mandate_metered, spend_mandate; erases|apply erases_ret].
Qed.
End facade.

(** ** The circuit breaker *)

Section breaker.
Context {P : PromClient} (provider : string) (config : CircuitBreakerConfig).
Implicit Types (s : Internal) (g : MetricsRegistry P).

Definition record_state (st : CircuitState) g : MetricsRegistry P :=
  set_provider_circuit_state provider (as_metric st) g.

Definition rejected g : MetricsRegistry P := incr "provider_circuit_rejected_total" g.

Definition acquire_metered (now : Z) s g : result unit AdapterError * Internal * MetricsRegistry P :=
  if negb (cb_enabled config) then (Ok tt, s, g)
  else
    match s with
    | Closed _ => (Ok tt, s, g)
    | HalfOpen until =>
        if (until <=? now)%Z
        then (Ok tt, HalfOpen (now + probe_timeout config),
              incr "provider_circuit_probe_expired_total" g)
        else (Err (AdCircuitOpen provider), s, rejected g)
    | Open until =>
        if (until <=? now)%Z
        then (Ok tt, HalfOpen (now + probe_timeout config), record_state StHalfOpen g)
        else (Err (AdCircuitOpen provider), s, rejected g)
    end.

Definition on_success_metered s g : Internal * MetricsRegistry P :=
  if negb (cb_enabled config) then (s, g)
  else
    let was_recovering := match s with Closed k => negb (k =? 0)%Z | _ => true end in
    (Closed 0,
     if was_recovering then incr "provider_circuit_close_total" (record_state StClosed g) else g).

(** The part of [on_failure] under the lock, and whether the circuit opens; the part after it. *)
Definition on_failure_locked (now : Z) s : Internal * bool :=
  if negb (cb_enabled config) then (s, false)
  else
    match s with
    | HalfOpen _ | Open _ => (Open (now + open_duration config), true)
    | Closed consecutive_failures =>
        let failures := u32_saturating_add consecutive_failures 1 in
        if (failure_threshold config <=? failures)%Z
        then (Open (now + open_duration config), true) else (Closed failures, false)
    end.

Definition on_failure_unlocked (opened : bool) g : MetricsRegistry P :=
  if opened then incr "provider_circuit_open_total" (record_state StOpen g) else g.

Definition on_failure_metered (now : Z) s g : Internal * MetricsRegistry P :=
  let '(s, opened) := on_failure_locked now s in (s, on_failure_unlocked opened g).

Definition breaker_step_metered (now : Z) (op : BreakerOp) (x : Internal * MetricsRegistry P)
  : Internal * MetricsRegistry P :=
  match op with
  | OpAcquire => let '(_, s, g) := acquire_metered now (fst x) (snd x) in (s, g)
  | OpSuccess => on_success_metered (fst x) (snd x)
  | OpFailure => on_failure_metered now (fst x) (snd x)
  end.

Definition breaker_run (ops : list (Z * BreakerOp)) (x : Internal * MetricsRegistry P)
  : Internal * MetricsRegistry P :=
  foldl (fun x op => breaker_step_metered (fst op) (snd op) x) x ops.

(** What the gauge is to show of a state. *)
Definition shown s : Z :=
  match s with Closed _ => 0 | HalfOpen _ => 1 | Open _ => 2 end.

Lemma breaker_step_erases now op s g :
  fst (breaker_step_metered now op (s, g)) = breaker_step provider config now op s.
Proof.
  destruct op; cbn; unfold acquire_metered, acquire, on_success_metered, on_success,
    on_failure_metered, on_failure_locked, on_failure; repeat case_match; simplify_eq; done.
Qed.

Context {PL : PromClientLaws P}.

Lemma gauge_incr name g : circuit_gauge provider (incr name g) = circuit_gauge provider g.
Proof. done. Qed.

Lemma gauge_record st g : circuit_gauge provider (record_state st g) = as_metric st.
Proof.
  unfold circuit_gauge, record_state. cbn. rewrite family_update, decide_True by done.
  apply gauge_holds.
Qed.

Lemma gauge_new : circuit_gauge provider metrics_registry_new = 0%Z.
Proof. unfold circuit_gauge. cbn. rewrite family_starts. apply gauge_starts. Qed.

Lemma breaker_step_gauge now op x :
  circuit_gauge provider (snd x) = shown (fst x) ->
  circuit_gauge provider (snd (breaker_step_metered now op x))
  = shown (fst (breaker_step_metered now op x)).
Proof.
  destruct x as [s g]. cbn [fst snd]. intros H. destruct op; cbn; unfold acquire_metered,
    on_success_metered, on_failure_metered, on_failure_locked, on_failure_unlocked, rejected.
  all: repeat case_match; simplify_eq; cbn [fst snd] in *;
    rewrite ?gauge_incr, ?gauge_record, ?H; cbn; try done.
Qed.
End breaker.

(** ** Properties *)

(** Counters without overflow account for the outbox: over any number of steps, on stores that do
    not fail, what was counted as delivered and as dead-lettered and what is still queued add up to
    what they did at the start. *)
Theorem outbox_counters_balance {P : PromClient} {PL : PromClientLaws P}
  (self : RunnerConfig memory_backend) max n w (g : MetricsRegistry P) :
  (0 <= delivered g)%Z -> (0 <= dead_lettered g)%Z ->
  (delivered g + dead_lettered g + queued w <= u64_max)%Z ->
  let s := metered_steps self max n (w, g) in
  (delivered (snd s) + dead_lettered (snd s) + queued (fst s)
   = delivered g + dead_lettered g + queued w)%Z.
Proof. apply steps_account. Qed.

(** Metrics change nothing: a batch with its metrics handles as many messages and leaves the same
    state, and when it is over the gauges show the depth of both queues. *)
Theorem batch_publishes_depth {P : PromClient} {PL : PromClientLaws P} {B : Backend}
  (self : RunnerConfig B) config w (g : MetricsRegistry P) :
  let '(handled, (v, g')) := process_batch_metered self config (w, g) in
  (handled, v) = (fst (fst (process_batch self config w)), snd (process_batch self config w))
  /\ get_queue_depth "outbox" g' = i64_wrap (Z.of_nat (runner_outbox_len v))
  /\ get_queue_depth "dead_letter" g' = i64_wrap (Z.of_nat (dead_letter_len v)).
Proof.
  unfold process_batch_metered, process_batch.
  pose proof (batch_loop_erases self config (batch_size config) w g) as He.
  destruct (batch_loop_metered self config (batch_size config) (w, g)) as [h [v g']].
  cbn [fst snd] in He. split; [done|]. unfold get_queue_depth, record_depth. cbn.
  rewrite !family_update. split; repeat (case_decide; try congruence); apply gauge_holds.
Qed.

(** A checkout is counted once, under the status it was answered with, and the metrics leave its
    result and its state alone; the exception are the checkouts of strict mode that are refused
    before their mandate is looked up, which leave no trace in the registry. *)
Theorem checkout_counted_once {P : PromClient} {B : Backend} env parse_proof trusted_issuers
  (self : OrchestratorFacade B) elapsed request w (g : MetricsRegistry P) :
  let '(r, (v, g')) := facade_execute_checkout_metered env parse_proof trusted_issuers self elapsed
                         request (w, g) in
  (r, v) = facade_execute_checkout env parse_proof trusted_issuers self request w
  /\ ((exists status, g' = observe_operation "checkout_execute" status elapsed g
        /\ (status = checkout_label r \/ (r = Err replay_error /\ status = "rejected")))
      \/ (g' = g /\ fc_ap2_strict self = true /\ is_ok r = false)).
Proof.
  pose proof (erases_checkout (P:=P) env parse_proof trusted_issuers self elapsed request w g) as He.
  destruct (facade_execute_checkout_metered _ _ _ _ _ _ (w, g)) as [r [v g']] eqn:Hr.
  split; [done|]. clear He. unfold facade_execute_checkout_metered in Hr.
  assert (forall u g1 r' s', recorded elapsed "checkout_execute" checkout_label
      (from_runner (execute_checkout env (fc_runner self) request)) (u, g1) = (r', s') ->
      snd s' = observe_operation "checkout_execute" (checkout_label r') elapsed g1) as Hrec.
  { intros u g1 r' s'. unfold recorded. cbn [fst snd].
    destruct (from_runner _ u) as [r1 v1]. by intros [= <- <-]. }
  unfold mbind at 1, ST_bind in Hr. destruct (fc_ap2_strict self).
  - destruct (spend_mandate_metered _ _ _ _ _ (w, g)) as [r1 [v1 g1]] eqn:Hg.
    apply mandate_counted in Hg as [[-> [-> | Hf]]|[-> ->]].
    + left. apply Hrec in Hr. cbn in Hr. by eauto.
    + right. destruct r1 as [|e]; [done|]. by injection Hr as <- <- <-.
    + left. injection Hr as <- <- <-. by eauto.
  - left. apply Hrec in Hr. cbn in Hr. by eauto.
Qed.

(** However the calls on a breaker follow each other, its gauge shows its state after each. *)
Theorem gauge_tracks_breaker {P : PromClient} {PL : PromClientLaws P} provider config ops :
  let x := breaker_run provider config ops (breaker_new, metrics_registry_new) in
  circuit_gauge provider (snd x) = shown (fst x).
Proof.
  unfold breaker_run. assert (circuit_gauge provider (snd (breaker_new, metrics_registry_new))
    = shown (fst (breaker_new, metrics_registry_new))) as H by exact (gauge_new provider).
  revert H. generalize (breaker_new, metrics_registry_new).
  induction ops as [|[now op] ops IH]; intros x H; [done|]. cbn. apply IH.
  by apply breaker_step_gauge.
Qed.

(** Unless they overlap: a failure records its state only after it has given up the lock.  When a
    success comes in between, the breaker is closed and the gauge shows it open, and no later
    success puts that right. *)
Theorem gauge_can_stay_open {P : PromClient} {PL : PromClientLaws P} provider config now s
  (g : MetricsRegistry P) n :
  cb_enabled config = true ->
  let '(s1, opened) := on_failure_locked config now s in
  let '(s2, g1) := on_success_metered provider config s1 g in
  let g2 := on_failure_unlocked provider opened g1 in
  opened = true ->
  breaker_run provider config (repeat (now, OpSuccess) n) (s2, g2) = (Closed 0, g2)
  /\ circuit_gauge provider g2 = 2%Z.
Proof.
  intros He. destruct (on_failure_locked config now s) as [s1 opened].
  destruct (on_success_metered provider config s1 g) as [s2 g1] eqn:Hs. cbv zeta. intros ->.
  assert (s2 = Closed 0) as -> by (unfold on_success_metered in Hs; rewrite He in Hs; by injection Hs).
  split; [|cbn; by rewrite gauge_incr, gauge_record].
  induction n as [|n IH]; [done|]. cbn. unfold on_success_metered at 1. by rewrite He.
Qed.

(** ** Witnesses *)

(** A client whose families are functions of their labels. *)
Definition plain_client : PromClient := {|
  Family L M := L -> M; Counter := Z; Gauge := Z; Histogram := list Z; F64 := Z;
  f64_literal _ := 0%Z; f64_of x := x; counter_default := 0%Z;
  counter_inc c := u64_wrap (c + 1); counter_get c := c; gauge_default := 0%Z;
  gauge_set x _ := x; gauge_get x := x; exponential_buckets _ _ _ := []; histogram_new _ := [];
  observe x h := x :: h; new_with_constructor L M _ m := fun _ => m;
  get_or_create L M _ l F := F l;
  update_metric L M _ l f F := fun l' => if decide (l' = l) then f (F l') else F l' |}.

#[export] Instance plain_client_laws : PromClientLaws plain_client.
Proof. by constructor. Qed.

Lemma outbox_counters_balance_witness :
  let s := metered_steps (P:=plain_client) accepting_runner 5 3 (queued_world, metrics_registry_new) in
  (delivered (snd s) + dead_lettered (snd s) + queued (fst s) = 1)%Z.
Proof.
  refine (outbox_counters_balance (P:=plain_client) accepting_runner 5 3 queued_world
    metrics_registry_new _ _ _); vm_compute; discriminate.
Defined.

Lemma batch_publishes_depth_witness :
  get_queue_depth "outbox" (snd (snd (process_batch_metered (P:=plain_client) demo_runner
    (MkOutboxConfig 1 1 5 1 1 1) (queued_world, metrics_registry_new)))) = 1%Z.
Proof.
  pose proof (batch_publishes_depth (P:=plain_client) demo_runner (MkOutboxConfig 1 1 5 1 1 1)
    queued_world metrics_registry_new) as H.
  destruct (process_batch_metered _ _ _) as [h [v g]] eqn:Hb. destruct H as (Hv & Hq & _).
  cbn [snd]. rewrite Hq. injection Hv as _ ->. vm_compute. reflexivity.
Defined.

Definition sharp_breaker : CircuitBreakerConfig := MkBreakerConfig true 1 10 10.

Lemma gauge_tracks_breaker_witness :
  circuit_gauge "p" (snd (breaker_run (P:=plain_client) "p" sharp_breaker
    [(0%Z, OpFailure); (20%Z, OpAcquire)] (breaker_new, metrics_registry_new))) = 1%Z.
Proof. rewrite gauge_tracks_breaker. reflexivity. Defined.

Lemma gauge_can_stay_open_witness :
  let g := on_failure_unlocked "p" true (snd (on_success_metered "p" sharp_breaker
             (fst (on_failure_locked sharp_breaker 0 (Closed 0)))
             (metrics_registry_new (P:=plain_client)))) in
  circuit_gauge "p" g = 2%Z.
Proof.
  exact (proj2 (gauge_can_stay_open (P:=plain_client) "p" sharp_breaker 0 (Closed 0)
    metrics_registry_new 1 eq_refl eq_refl)).
Defined.
