(* ===== verification/Transport.v ===== *)
(** * The client behind the adapters ([crates/integration-adapters/src/client.rs]:
    [RequestOptions], [build_client], [observe_call])

    How a client is built from its configuration, and what every request it sends leaves in the
    metrics.  [reqwest] and [url] belong to other crates: builders, certificates and the parsing of
    a URL are arguments. *)

From S2P Require Export HttpClient Metrics.

(** ** Options and defaults *)

Definition with_correlation_id (id : option string) (o : RequestOptions) : RequestOptions :=
  MkRequestOptions id (idempotency_key o) (extra_headers o).
Definition with_idempotency_key (key : string) (o : RequestOptions) : RequestOptions :=
  MkRequestOptions (correlation_id o) (Some key) (extra_headers o).
Definition with_headers (headers : list (string * string)) (o : RequestOptions) : RequestOptions :=
  MkRequestOptions (correlation_id o) (idempotency_key o) headers.

Definition tls_is_empty (t : TlsConfig) : bool :=
  negb (is_some (client_identity_pem t)) && negb (is_some (ca_bundle_pem t)).

Definition default_client_config : ClientConfig :=
  MkClientConfig 5000 30000 3 100 AuthNone (MkTls None None) None.

(** ** [build_client] *)

Class Reqwest := {
  ClientBuilder : Type;
  Client : Type;
  Identity : Type;
  Certificate : Type;
  client_builder : ClientBuilder;
  set_connect_timeout : Z -> ClientBuilder -> ClientBuilder;
  set_timeout : Z -> ClientBuilder -> ClientBuilder;
  set_identity : Identity -> ClientBuilder -> ClientBuilder;
  add_root_certificate : Certificate -> ClientBuilder -> ClientBuilder;
  identity_from_pem : string -> result Identity string;
  certificates_from_pem : string -> result (list Certificate) string;
  builder_build : ClientBuilder -> result Client string
}.

Section build.
Context {reqwest : Reqwest}.

Definition build_client (config : ClientConfig) : result Client AdapterError :=
  let builder := set_timeout (cc_timeout config)
                   (set_connect_timeout (cc_connect_timeout config) client_builder) in
  let? builder :=
    match client_identity_pem (cc_tls config) with
    | None => Ok builder
    | Some pem =>
        let? identity := map_err (fun e => AdConfig
          ("invalid TLS client identity (expected concatenated certificate and private key PEM): "
           +:+ e)) (identity_from_pem pem) in
        Ok (set_identity identity builder)
    end in
  let? builder :=
    match ca_bundle_pem (cc_tls config) with
    | None => Ok builder
    | Some pem =>
        let? certificates := map_err (fun e => AdConfig
          ("invalid TLS CA bundle (expected PEM): " +:+ e)) (certificates_from_pem pem) in
        match certificates with
        | [] => Err (AdConfig "invalid TLS CA bundle (expected PEM): no certificates found")
        | _ => Ok (fold_left (fun b c => add_root_certificate c b) certificates builder)
        end
    end in
  map_err AdHttp (builder_build builder).

(** What the configuration says of the two sides of TLS. *)
Definition presents (pem : option string) (identity : option Identity) : Prop :=
  match pem with
  | None => identity = None
  | Some pem => exists i, identity_from_pem pem = Ok i /\ identity = Some i
  end.

Definition trusts (pem : option string) (roots : list Certificate) : Prop :=
  match pem with
  | None => roots = []
  | Some pem => certificates_from_pem pem = Ok roots /\ roots <> []
  end.

(** A client is built exactly when all the TLS material it is configured with can be read: it then
    presents the client certificate and trusts every certificate of the bundle, of which there is
    at least one, and has both timeouts.  Material that cannot be read is never left out. *)
Theorem client_built_iff config c :
  build_client config = Ok c <->
  exists identity roots,
    presents (client_identity_pem (cc_tls config)) identity
    /\ trusts (ca_bundle_pem (cc_tls config)) roots
    /\ let base := set_timeout (cc_timeout config)
                     (set_connect_timeout (cc_connect_timeout config) client_builder) in
       let own := match identity with Some i => set_identity i base | None => base end in
       builder_build (fold_left (fun b c => add_root_certificate c b) roots own) = Ok c.
Proof.
  unfold build_client, presents, trusts. cbv zeta. split.
  - destruct (client_identity_pem _) as [pem|]; [destruct (identity_from_pem pem) as [i|] eqn:Hi|];
      try done; cbn [result_bind map_err].
    all: destruct (ca_bundle_pem _) as [ca|];
      [destruct (certificates_from_pem ca) as [[|r rs]|] eqn:Hc|]; try done; cbn [result_bind map_err].
    all: destruct (builder_build _) as [c'|] eqn:Hb; [intros [= ->]|done].
    all: first
      [ by eexists (Some i), (r :: rs); split_and!; [eexists|..] | by eexists (Some i), [];
        split_and!; [eexists|..] | by eexists None, (r :: rs); split_and! | by eexists None, [];
        split_and! ].
  - intros (identity & roots & Hi & Hr & Hb).
    destruct (client_identity_pem _) as [pem|]; [destruct Hi as (i & -> & ->)|subst identity];
      (destruct (ca_bundle_pem _) as [ca|]; [destruct Hr as [-> Hne]|subst roots]);
      try (destruct roots as [|r rs]; [done|]); cbn in Hb |- *; by rewrite Hb.
Qed.
End build.

(** ** What is counted of the calls *)

Section observed.
Context {P : PromClient} (url_host : string -> option string) (net : Net) (config : ClientConfig)
  (seconds : F64).
Implicit Types (s t : HttpState) (g : MetricsRegistry P).

(** [Url::parse(url)] and its host. *)
Definition provider_from_url (url : string) : string := unwrap_or (url_host url) "unknown".

Definition observe_call (method url : string) (status : Z) g : MetricsRegistry P :=
  observe_provider_http_call method (provider_from_url url) (pretty status) seconds g.

(** The status an attempt is counted under. *)
Definition shown_status (o : SendOutcome) : Z :=
  match o with
  | GotResponse r => rs_status r
  | SendFailed e => if is_timeout e then 408 else 599
  end.

(** The loop of [execute_with_retry] with its metrics; those of the breaker are in [Metrics]. *)
Fixpoint attempt_loop_metered (policy : RetryPolicy) (request : HttpRequest) (attempt : Z)
    (remaining : nat) : ST (HttpState * MetricsRegistry P) AdapterError Response :=
  _ ← silent (breaker_acquire net config);
  authed ← st_catch (silent (apply_auth net config request)) mret
             (fun e => _ ← silent (breaker_failure net config);
                       _ ← meter (incr "provider_outbound_auth_error_total");
                       st_fail e);
  outcome ← silent (send net authed);
  _ ← meter (observe_call (rq_method request) (rq_url request) (shown_status outcome));
  verdict ← silent (judge net config policy outcome);
  match verdict with
  | Return r => mret r
  | Stop e => st_fail e
  | Again e retry_after =>
      match remaining with
      | O => st_fail e
      | S remaining =>
          _ ← silent (pause net config retry_after attempt);
          attempt_loop_metered policy request (attempt + 1) remaining
      end
  end.

Lemma erases_catch {S E A} (p : ST (S * MetricsRegistry P) E A) m h h' :
  erases p m -> (forall e, erases (A:=A) (h e) (h' e)) ->
  erases (st_catch p mret h) (st_catch m mret h').
Proof.
  intros Hp Hh w g. specialize (Hp w g). unfold st_catch. rewrite <- Hp.
  destruct (p (w, g)) as [[a|e] [v g']]; [done|apply Hh].
Qed.

(** Without the registry it is the loop of [HttpClient]. *)
Lemma erases_attempt_loop policy request remaining attempt :
  erases (attempt_loop_metered policy request attempt remaining)
    (attempt_loop net config policy request attempt remaining).
Proof.
  revert attempt. induction remaining as [|n IH]; intros attempt; cbn [attempt_loop_metered attempt_loop].
  all: apply erases_bind; [apply erases_silent|intros _].
  all: apply erases_bind; [apply erases_catch; [apply erases_silent|]|intros authed].
  all: try (intros e; apply erases_bind; [apply erases_silent|intros _];
            apply erases_meter, erases_fail).
  all: apply erases_bind; [apply erases_silent|intros o]; apply erases_meter.
  all: apply erases_bind; [apply erases_silent|intros [r|e|e d]];
    [apply erases_ret|apply erases_fail|].
  - apply erases_fail.
  - apply erases_bind; [apply erases_silent|intros _]. apply IH.
Qed.
(** *** Every attempt is counted *)

Lemma wp_silent {S E A} (m : ST S E A) Q w g :
  wp (silent m) Q (w, g) <-> wp m (fun r v => Q r (v, g)) w.
Proof. done. Qed.

Lemma wp_meter {S E} f (Q : result unit E -> S * MetricsRegistry P -> Prop) w g :
  wp (meter f) Q (w, g) <-> Q (Ok tt) (w, f g).
Proof. done. Qed.

Definition observed (request : HttpRequest) (reqs : list (HttpRequest * SendOutcome)) g
  : MetricsRegistry P :=
  fold_left (fun g x => observe_call (rq_method request) (rq_url request) (shown_status x.2) g)
    reqs g.

(** The requests sent so far, and the calls counted so far. *)
Definition sent_and_counted request s g (x : HttpState * MetricsRegistry P) : Prop :=
  exists reqs, h_sent x.1 = h_sent s ++ reqs
    /\ provider_calls x.2 = provider_calls (observed request reqs g).

Lemma counted_unsent request s g t u g' :
  sent_and_counted request s g (t, g') -> unsent t u -> sent_and_counted request s g (u, g').
Proof. intros (reqs & Hs & Hg) [Hu _]. exists reqs. by rewrite <- Hs. Qed.

Lemma counted_calls request s g t g' g'' :
  sent_and_counted request s g (t, g') -> provider_calls g'' = provider_calls g' ->
  sent_and_counted request s g (t, g'').
Proof. intros (reqs & Hs & Hg) He. exists reqs. split; [done|]. cbn. by rewrite He. Qed.

Lemma counted_attempt request s g t u g' q o :
  sent_and_counted request s g (t, g') -> h_sent u = h_sent t ++ [(q, o)] ->
  sent_and_counted request s g
    (u, observe_call (rq_method request) (rq_url request) (shown_status o) g').
Proof.
  intros (reqs & Hs & Hg) Hu. exists (reqs ++ [(q, o)]). cbn [fst snd] in *. split.
  - by rewrite Hu, Hs, app_assoc.
  - unfold observed in *. rewrite fold_left_app. cbn. by rewrite Hg.
Qed.

Lemma loop_counted policy request remaining attempt s g t g' :
  sent_and_counted request s g (t, g') ->
  wp (attempt_loop_metered policy request attempt remaining)
    (fun _ x => sent_and_counted request s g x) (t, g').
Proof.
  revert attempt t g'. induction remaining as [|n IH]; intros attempt t g' H; cbn [attempt_loop_metered].
  all: wp_step; rewrite wp_silent; eapply wp_mono; [apply on_breaker_unsent|];
    intros [[]|e] t1 H1; pose proof (counted_unsent _ _ _ _ _ _ H H1) as H1'; [|done].
  all: wp_step; wp_step; rewrite wp_silent; eapply wp_mono; [apply apply_auth_unsent|];
    intros [q|e] t2 H2; pose proof (counted_unsent _ _ _ _ _ _ H1' H2) as H2'; wp_steps.
  2,4: rewrite wp_silent; eapply wp_mono; [apply on_breaker_unsent|]; intros [[]|x] t3 H3;
    pose proof (counted_unsent _ _ _ _ _ _ H2' H3) as H3'; [|done];
    wp_step; rewrite wp_meter; wp_steps; by eapply counted_calls.
  all: rewrite wp_silent; unfold send at 1, wp at 1; cbn [fst snd]; set (o := net_send _ _ _);
    set (t3 := MkHttpState _ _ _ _ _);
    assert (h_sent t3 = h_sent t2 ++ [(q, o)]) as H3 by done; clearbody o t3;
    pose proof (counted_attempt _ _ _ _ _ _ _ _ H2' H3) as H3'.
  all: wp_step; rewrite wp_meter; wp_step; rewrite wp_silent; eapply wp_mono; [apply judge_spec|];
    intros [v|x] t4 [H4 _]; pose proof (counted_unsent _ _ _ _ _ _ H3' H4) as H4'; [|done].
  all: destruct v as [r|e|e d]; wp_steps; try done.
  rewrite wp_silent. unfold pause, wp at 1. cbn [fst snd]. apply IH.
  destruct H4' as (reqs & Hs & Hg). by exists reqs.
Qed.

Definition status_count (method host status : string) g : Z :=
  counter_get (get_or_create (MkProviderCallLabels method host status) (provider_calls g)).

Lemma observed_count {PL : PromClientLaws P} request reqs g status :
  (0 <= status_count (rq_method request) (provider_from_url (rq_url request)) status g)%Z ->
  (status_count (rq_method request) (provider_from_url (rq_url request)) status g
   + Z.of_nat (length reqs) <= u64_max)%Z ->
  status_count (rq_method request) (provider_from_url (rq_url request)) status (observed request reqs g)
  = (status_count (rq_method request) (provider_from_url (rq_url request)) status g
     + Z.of_nat (length (List.filter (fun x => String.eqb (pretty (shown_status x.2)) status) reqs)))%Z.
Proof.
  set (m := rq_method request). set (host := provider_from_url _). revert g.
  induction reqs as [|[q o] reqs IH]; intros g Hlo Hhi; cbn [observed fold_left List.filter length];
    [lia|]. fold (observed request reqs). cbn [length] in Hhi.
  assert (status_count m host status (observe_call m (rq_url request) (shown_status o) g)
    = if String.eqb (pretty (shown_status o)) status then (status_count m host status g + 1)%Z
      else status_count m host status g) as Hone.
  { unfold status_count, observe_call. cbn. rewrite family_update. fold host.
    destruct (String.eqb_spec (pretty (shown_status o)) status) as [<-|Hne].
    - rewrite decide_True, counter_counts by done. unfold u64_wrap. apply Z.mod_small.
      unfold status_count, u64_max in Hlo, Hhi. lia.
    - rewrite decide_False by congruence. done. }
  subst m host. cbn [snd]. unfold observed in *. rewrite IH; rewrite Hone; destruct (String.eqb _ _); cbn [length]; lia.
Qed.
End observed.

(** What the registry shows of a provider is what was sent to it: however a logical request ends,
    and however often it is repeated, each of its attempts is counted once, under the provider's
    host and the status of its answer, 408 when it timed out and 599 when it failed otherwise. *)
Theorem every_attempt_is_counted {P : PromClient} {PL : PromClientLaws P} url_host net config seconds
  policy request s (g : MetricsRegistry P) status :
  let host := provider_from_url url_host (rq_url request) in
  let count := status_count (rq_method request) host status in
  (0 <= count g)%Z -> (count g + max_retries config + 1 <= u64_max)%Z -> (0 <= max_retries config)%Z ->
  let '(r, (t, g')) := attempt_loop_metered url_host net config seconds policy request 0
                         (Z.to_nat (max_retries config)) (s, g) in
  (r, t) = attempt_loop net config policy request 0 (Z.to_nat (max_retries config)) s
  /\ exists reqs, h_sent t = h_sent s ++ reqs
       /\ count g' = (count g + Z.of_nat (length (List.filter
            (fun x => String.eqb (pretty (shown_status x.2)) status) reqs)))%Z.
Proof.
  intros host count Hlo Hhi Hmax.
  pose proof (erases_attempt_loop (P:=P) url_host net config seconds policy request
    (Z.to_nat (max_retries config)) 0 s g) as He.
  pose proof (loop_counted url_host net config seconds policy request
    (Z.to_nat (max_retries config)) 0 s g s g) as Hc.
  pose proof (attempt_loop_spec net config policy request (Z.to_nat (max_retries config)) 0 s) as Hl.
  unfold wp in Hc, Hl. destruct (attempt_loop_metered _ _ _ _ _ _ _ _ (s, g)) as [r [t g']].
  cbn [fst snd] in He, Hc. split; [done|]. rewrite <- He in Hl. cbn [fst snd] in Hl.
  destruct Hc as (reqs & Hs & Hg).
  { exists []. by rewrite app_nil_r. }
  cbn [fst snd] in Hs, Hg. exists reqs. split; [done|].
  destruct Hl as (reqs' & Hs' & (Hlen & _) & _). rewrite Hs in Hs'. apply app_inv_head in Hs' as <-.
  unfold count, status_count. rewrite Hg. apply observed_count; [done|unfold count, status_count, host in *; lia..].
Qed.

(** A request that is answered after one failure: the host is counted under both. *)
Definition counted_run :=
  attempt_loop_metered (P:=plain_client) Some (flaky_net busy) demo_client 0%Z Idempotent
    (MkHttpRequest "GET" "pay" [] None) 0 3 (fresh_http, metrics_registry_new).

Lemma every_attempt_is_counted_witness :
  status_count (P:=plain_client) "GET" "pay" "200" (snd (snd counted_run)) = 1%Z
  /\ exists reqs, h_sent (fst (snd counted_run)) = reqs
       /\ status_count (P:=plain_client) "GET" "pay" "503" (snd (snd counted_run))
          = Z.of_nat (length (List.filter
              (fun x => String.eqb (pretty (shown_status x.2)) "503") reqs)).
Proof.
  split; [vm_compute; reflexivity|].
  pose proof (every_attempt_is_counted (P:=plain_client) Some (flaky_net busy) demo_client 0%Z
    Idempotent (MkHttpRequest "GET" "pay" [] None) fresh_http metrics_registry_new "503") as H.
  cbv zeta in H. cbn [max_retries demo_client rq_method rq_url] in H.
  change (attempt_loop_metered _ _ _ _ _ _ _ _ _) with counted_run in H.
  destruct counted_run as [r [t g]]. cbn [fst snd].
  destruct H as (_ & reqs & Hs & Hg); [vm_compute; discriminate..|].
  exists reqs. split; [exact Hs|exact Hg].
Defined.
