(* ===== verification/Telemetry.v ===== *)
(** * What the process tells of its requests ([orchestrator-http/src]: [observability.rs],
    [signing.rs], [error.rs]; [orchestrator-observability/src]: [context.rs], [tracing_ext.rs],
    [audit.rs]; [orchestrator-api/src/signing.rs]: [metric_suffix])

    The counters in front of the handlers, the id that a request carries to the services it calls,
    and the audit sink.  What a handler records on its own is an argument. *)

From S2P Require Export Adapters Transport RouterLogic.
From S2P Require Import Signing SignedHttp.

(** ** Counters of the signature layers *)

(** [SignatureError::metric_suffix]. *)
Definition metric_suffix (e : SignatureError) : string :=
  match e with
  | Missing => "missing"
  | Malformed _ => "malformed"
  | CoverageInsufficient _ => "coverage"
  | Stale _ | Expired_ => "stale"
  | KeyNotFound _ => "unknown_kid"
  | AlgorithmUnsupported _ => "algorithm"
  | DigestMismatch => "digest"
  | VerificationFailed => "invalid"
  end.

Definition rejected_counter (suffix : string) : string :=
  "ucp_signature_rejected_" +:+ suffix +:+ "_total".

Section layers.
Context {P : PromClient} {crypto : Crypto} (elapsed : F64).
Implicit Types g : MetricsRegistry P.

Definition verify_request_signature_metered (inbound_keys : option (list (string * PublicKey)))
    (r : HttpRequest) (now : Z) g : Gate * MetricsRegistry P :=
  match inbound_keys with
  | None => (Passed None, g)
  | Some ring =>
      if negb (starts_with SIGNED_PATH_PREFIX (rq_path r)) then (Passed None, g)
      else if (MAX_SIGNED_BODY_BYTES <? Z.of_nat (String.length (rq_body r)))%Z then
        (Rejected 413 "request body is too large to verify" "SIGNATURE_BODY_TOO_LARGE",
         incr "ucp_signature_rejected_body_total" g)
      else
        let outcome := verified ring r now in
        let g := observe_operation "ucp_signature_verify"
                   (if is_ok outcome then "success" else "error") elapsed g in
        match outcome with
        | Ok kid => (Passed (Some kid), incr "ucp_signature_verified_total" g)
        | Err e => (Rejected (signature_error_status e) (signature_error_text e)
                      (signature_error_code e),
                    incr (rejected_counter (metric_suffix e)) (incr "ucp_signature_rejected_total" g))
        end
  end.

Definition sign_response_metered (signing : option SigningKeyring) (p : HttpResponse) (now : Z) g
  : Outgoing * MetricsRegistry P :=
  match signing with
  | None => (Sent p, g)
  | Some ring =>
      if (MAX_SIGNED_BODY_BYTES <? Z.of_nat (String.length (rp_body p)))%Z then
        (SignFailed 500 "Internal server error" "INTERNAL_ERROR",
         incr "ucp_response_sign_error_total" g)
      else
        let '(c, covered, headers) := response_components p in
        let signed :=
          match sign_message ring c covered now with
          | Ok s => match header_value (sm_input s), header_value (sm_signature s) with
                    | Some i, Some g => Some (i, g)
                    | _, _ => None
                    end
          | Err _ => None
          end in
        let headers := match signed with
                       | Some (i, g) => header_insert SIGNATURE_HEADER g
                                          (header_insert SIGNATURE_INPUT_HEADER i headers)
                       | None => headers
                       end in
        (Sent (MkResponse (rp_status p) headers (rp_body p)),
         incr (if is_some signed then "ucp_response_signed_total"
               else "ucp_response_sign_error_total") g)
  end.

Lemma gate_unmetered keys r now g :
  fst (verify_request_signature_metered keys r now g) = verify_request_signature keys r now.
Proof.
  unfold verify_request_signature_metered, verify_request_signature.
  repeat case_match; try done; cbn in *; congruence.
Qed.

Lemma sign_unmetered signing p now g :
  fst (sign_response_metered signing p now g) = sign_response signing p now.
Proof.
  unfold sign_response_metered, sign_response. destruct signing; [|done].
  destruct (_ <? _)%Z; [done|]. by destruct (response_components p) as [[c covered] headers].
Qed.
End layers.

(** ** From a request to its answer, with the counters *)

Section serve.
Context {P : PromClient} {B : Backend} {crypto : Crypto} {http : WebFramework}
  {mcp_serde : McpSerde} {a2a_serde : A2aSerde}
  (env : Env) (parse_proof : string -> option ConsentProof) (issuers : option string)
  (uuid_from_str : string -> result Uuid string) (to_rfc3339 : Z -> string)
  (value_to_string : Value -> string)
  (url_with_query : string -> list (string * string) -> result string string)
  (crate_version : string) (cart_text checkout_text order_text identity_text : string)
  (metrics_text openapi_text : result string string)
  (self : OrchestratorFacade B) (state : AppState)
  (elapsed : F64)
  (handler_records : HttpRequest -> World B -> MetricsRegistry P -> MetricsRegistry P).
Implicit Types g : MetricsRegistry P.

Abbreviation serve_request := (serve env parse_proof issuers uuid_from_str to_rfc3339
  value_to_string url_with_query crate_version cart_text checkout_text order_text identity_text
  metrics_text openapi_text self state).
Abbreviation receive_request := (receive env parse_proof issuers uuid_from_str to_rfc3339
  value_to_string url_with_query crate_version cart_text checkout_text order_text identity_text
  metrics_text openapi_text self state).

(** [IntoResponse] of an answer: an [ApiError] is counted. *)
Definition into_response_metered (render : Answer -> HttpResponse) (a : Answer) g
  : HttpResponse * MetricsRegistry P :=
  (render a, match a with Refused _ => incr "http_errors_total" g | _ => g end).

(** [request_id_middleware] around the handlers. *)
Definition request_id_middleware_metered (render : Answer -> HttpResponse)
    (r : HttpRequest) (fresh : string) (x : World B * MetricsRegistry P)
  : HttpResponse * (World B * MetricsRegistry P) :=
  let g := incr "http_requests_total" (snd x) in
  let '(a, v) := serve_request r (fst x) in
  let g := handler_records r (fst x) g in
  let '(p, g) := into_response_metered render a g in
  (with_request_id (request_id r fresh) p, (v, g)).

Definition receive_metered (render : Answer -> HttpResponse)
    (refusal : Z -> string -> string -> HttpResponse) (r : HttpRequest) (now now' : Z)
    (fresh : string) (x : World B * MetricsRegistry P) : Outgoing * (World B * MetricsRegistry P) :=
  let '(gate, g) := verify_request_signature_metered elapsed (st_inbound_keys state) r now (snd x) in
  let '(p, (v, g)) :=
    match gate with
    | Rejected status text code => (refusal status text code, (fst x, g))
    | Passed _ => request_id_middleware_metered render r fresh (fst x, g)
    end in
  let '(o, g) := sign_response_metered (st_signing state) p now' g in
  (o, (v, g)).

(** The counters change nothing of what is answered and of what the stores hold. *)
Lemma receive_unmetered render refusal r now now' fresh w g :
  let '(o, (v, _)) := receive_metered render refusal r now now' fresh (w, g) in
  (o, v) = receive_request render refusal r now now' fresh w.
Proof.
  unfold receive_metered, receive, gated. cbn [fst snd].
  pose proof (gate_unmetered elapsed (st_inbound_keys state) r now g) as Hg.
  destruct (verify_request_signature_metered _ _ _ _ g) as [gate g1]. cbn [fst] in Hg. subst gate.
  destruct (verify_request_signature _ _ _) as [kid|status text code].
  - unfold request_id_middleware_metered, into_response_metered. cbn [fst snd].
    destruct (serve_request r w) as [a v].
    match goal with |- context [sign_response_metered ?s ?p ?n ?g] =>
      pose proof (sign_unmetered s p n g) as Hs; destruct (sign_response_metered s p n g) as [o g2] end.
    cbn [fst] in Hs. by subst o.
  - match goal with |- context [sign_response_metered ?s ?p ?n ?g] =>
      pose proof (sign_unmetered s p n g) as Hs; destruct (sign_response_metered s p n g) as [o g2] end.
    cbn [fst] in Hs. by subst o.
Qed.

(** *** Every request is in the counters once *)

Definition suffixes : list string :=
  ["missing"; "malformed"; "coverage"; "stale"; "unknown_kid"; "algorithm"; "digest"; "invalid"].

Definition watched : list string :=
  [ "http_requests_total"; "http_errors_total"; "ucp_signature_rejected_total";
    "ucp_signature_rejected_body_total"; "ucp_signature_verified_total";
    "ucp_response_signed_total"; "ucp_response_sign_error_total" ]
  ++ map rejected_counter suffixes.

(** The refusals of the gate by their cause. *)
Definition refusals_by_cause g : Z :=
  foldr (fun suffix n => get_count (rejected_counter suffix) g + n)%Z 0%Z suffixes.

(** The books after [n] requests. *)
Record balanced (n : Z) g : Prop := {
  bal_requests : (get_count "http_requests_total" g + get_count "ucp_signature_rejected_total" g
                  + get_count "ucp_signature_rejected_body_total" g = n)%Z;
  bal_errors : (get_count "http_errors_total" g <= get_count "http_requests_total" g)%Z;
  bal_verified : (get_count "ucp_signature_verified_total" g
                  <= get_count "http_requests_total" g)%Z;
  bal_causes : get_count "ucp_signature_rejected_total" g = refusals_by_cause g;
  bal_signed : (get_count "ucp_response_signed_total" g
                + get_count "ucp_response_sign_error_total" g
                = if is_some (st_signing state) then n else 0)%Z;
  bal_counts : Forall (fun name => 0 <= get_count name g)%Z watched
}.

Lemma get_count_incr_eqb {PL : PromClientLaws P} name name' g :
  get_count name' (incr name g)
  = if String.eqb name' name then u64_wrap (get_count name' g + 1) else get_count name' g.
Proof. rewrite get_count_incr. destruct (String.eqb_spec name' name); by case_decide. Qed.

Lemma get_count_operation name o st x g :
  get_count name (observe_operation o st x g) = get_count name g.
Proof. done. Qed.
End serve.

(** Compares the names of two counters. *)
Ltac eqb_names :=
  repeat match goal with
  | |- context [String.eqb ?x ?y] =>
      let b := eval vm_compute in (String.eqb x y) in change (String.eqb x y) with b; cbv iota
  end.

Section traffic.
Context {P : PromClient} {PL : PromClientLaws P} {B : Backend} {crypto : Crypto} {http : WebFramework}
  {mcp_serde : McpSerde} {a2a_serde : A2aSerde}
  (env : Env) (parse_proof : string -> option ConsentProof) (issuers : option string)
  (uuid_from_str : string -> result Uuid string) (to_rfc3339 : Z -> string)
  (value_to_string : Value -> string)
  (url_with_query : string -> list (string * string) -> result string string)
  (crate_version : string) (cart_text checkout_text order_text identity_text : string)
  (metrics_text openapi_text : result string string)
  (self : OrchestratorFacade B) (state : AppState)
  (elapsed : F64)
  (handler_records : HttpRequest -> World B -> MetricsRegistry P -> MetricsRegistry P)
  (Hrecords : forall r w g name, name ∈ watched ->
     get_count name (handler_records r w g) = get_count name g).
Implicit Types g : MetricsRegistry P.

Abbreviation receive_counted := (receive_metered env parse_proof issuers uuid_from_str to_rfc3339
  value_to_string url_with_query crate_version cart_text checkout_text order_text identity_text
  metrics_text openapi_text self state elapsed handler_records).

(** One more on the counters whose names are among these, if none is full. *)
Definition raise (names : list string) (name : string) : Z :=
  if str_contains names name then 1 else 0.

Definition bumped (names : list string) g g' : Prop :=
  Forall (fun name => get_count name g' = (get_count name g + raise names name)%Z) watched.

Lemma bumped_refl g : bumped [] g g.
Proof. apply Forall_forall. intros name _. unfold raise. cbn. lia. Qed.

Definition fits (n : Z) g : Prop :=
  (n < u64_max)%Z /\ Forall (fun name => 0 <= get_count name g <= n)%Z watched.

Lemma bumped_incr n names name g g' :
  fits n g -> str_contains names name = false ->
  bumped names g g' -> bumped (name :: names) g (incr name g').
Proof.
  intros [Hn Hg] Hnew H. unfold bumped in *. rewrite Forall_forall in *.
  intros x Hx. specialize (H x Hx). specialize (Hg x Hx). rewrite get_count_incr_eqb by done.
  unfold raise, str_contains in *. cbn. destruct (String.eqb_spec x name) as [->|]; [|done].
  rewrite Hnew in H. cbn. rewrite H, Z.add_0_r. unfold u64_wrap. apply Z.mod_small. unfold u64_max in Hn. lia.
Qed.

Lemma bumped_records names r w g g' :
  bumped names g g' -> bumped names g (handler_records r w g').
Proof.
  unfold bumped. rewrite !Forall_forall. intros H x Hx. rewrite Hrecords by done. by apply H.
Qed.

(** The counters of a request in front of the handlers, and behind them. *)
Definition fronts : list (list string) :=
  [ ["http_requests_total"]; ["http_errors_total"; "http_requests_total"];
    ["http_requests_total"; "ucp_signature_verified_total"];
    ["http_errors_total"; "http_requests_total"; "ucp_signature_verified_total"];
    ["ucp_signature_rejected_body_total"] ]
  ++ map (fun suffix => [rejected_counter suffix; "ucp_signature_rejected_total"]) suffixes.

Definition backs : list (list string) :=
  if is_some (st_signing state)
  then [["ucp_response_signed_total"]; ["ucp_response_sign_error_total"]] else [[]].

Ltac listed := apply (bool_decide_eq_true_1 _); vm_compute; reflexivity.

Lemma sign_bumped front p now g g1 n :
  fits n g -> front ∈ fronts -> bumped front g g1 ->
  exists back, back ∈ backs
    /\ bumped (back ++ front) g (snd (sign_response_metered (st_signing state) p now g1)).
Proof.
  intros Hg Hf H1. unfold sign_response_metered, backs.
  destruct (st_signing state) as [ring|]; [|exists []; split; [by left|done]].
  assert (Forall (fun f => str_contains f "ucp_response_signed_total" = false
    /\ str_contains f "ucp_response_sign_error_total" = false) fronts) as Hnew.
  { repeat constructor. }
  rewrite Forall_forall in Hnew. destruct (Hnew front Hf) as [Hs He].
  destruct (_ <? _)%Z.
  { exists ["ucp_response_sign_error_total"]. split; [listed|exact (bumped_incr n _ _ g g1 Hg He H1)]. }
  destruct (response_components p) as [[c covered] headers]. cbn [snd is_some].
  match goal with |- context [incr (if ?b then _ else _)] => destruct b end.
  - exists ["ucp_response_signed_total"]. split; [listed|exact (bumped_incr n _ _ g g1 Hg Hs H1)].
  - exists ["ucp_response_sign_error_total"]. split; [listed|exact (bumped_incr n _ _ g g1 Hg He H1)].
Qed.

(** What the gate may have counted of a request it lets through. *)
Definition passing : list (list string) := [[]; ["ucp_signature_verified_total"]].

Lemma gate_bumped r now g n :
  fits n g ->
  let run := verify_request_signature_metered elapsed (st_inbound_keys state) r now g in
  exists front, bumped front g (snd run)
    /\ front ∈ match fst run with Passed _ => passing | Rejected _ _ _ => fronts end.
Proof.
  intros Hg. unfold verify_request_signature_metered.
  destruct (st_inbound_keys state) as [ring|]; [|exists []; split; [apply bumped_refl|listed]].
  destruct (starts_with _ _); cbn [negb]; [|exists []; split; [apply bumped_refl|listed]].
  destruct (_ <? _)%Z.
  - exists ["ucp_signature_rejected_body_total"]. split; [|listed].
    eapply bumped_incr; [done..|apply bumped_refl].
  - destruct (verified ring r now) as [kid|e]; cbn [fst snd].
    + exists ["ucp_signature_verified_total"]. split; [|listed].
      eapply bumped_incr; [done..|apply (bumped_refl g)].
    + exists [rejected_counter (metric_suffix e); "ucp_signature_rejected_total"]. split.
      * eapply bumped_incr; [done|by destruct e|]. eapply bumped_incr; [done..|apply (bumped_refl g)].
      * destruct e; listed.
Qed.

Abbreviation middleware_counted := (request_id_middleware_metered env parse_proof issuers
  uuid_from_str to_rfc3339 value_to_string url_with_query crate_version cart_text checkout_text
  order_text identity_text metrics_text openapi_text self state handler_records).

Lemma middleware_bumped render front r fresh w g g1 n :
  fits n g -> front ∈ passing -> bumped front g g1 ->
  exists front', front' ∈ fronts
    /\ bumped front' g (snd (snd (middleware_counted render r fresh (w, g1)))).
Proof.
  intros Hg Hf H1. unfold request_id_middleware_metered, into_response_metered. cbn [fst snd].
  destruct (serve _ _ _ _ _ _ _ _ _ _ _ _ _ _ _ _ _ _) as [a v]. cbn [snd].
  assert (Forall (fun f => str_contains f "http_requests_total" = false
    /\ str_contains ("http_requests_total" :: f) "http_errors_total" = false
    /\ "http_requests_total" :: f ∈ fronts
    /\ "http_errors_total" :: "http_requests_total" :: f ∈ fronts) passing) as Hnew.
  { repeat constructor; listed. }
  rewrite Forall_forall in Hnew. destruct (Hnew front Hf) as (Hr & He & Hin & Hin').
  assert (bumped ("http_requests_total" :: front) g (incr "http_requests_total" g1)) as H2
    by exact (bumped_incr n _ _ g g1 Hg Hr H1).
  apply (bumped_records _ r w) in H2.
  destruct a; try (eexists; split; [exact Hin|exact H2]). eexists. split; [exact Hin'|].
  exact (bumped_incr n _ _ g _ Hg He H2).
Qed.

Lemma receive_bumped render refusal r now now' fresh w g n :
  fits n g ->
  exists front back, front ∈ fronts /\ back ∈ backs
    /\ bumped (back ++ front) g (snd (snd (receive_counted render refusal r now now' fresh (w, g)))).
Proof.
  intros Hg. unfold receive_metered. cbn [fst snd].
  pose proof (gate_bumped r now g n Hg) as (front & H1 & Hf).
  destruct (verify_request_signature_metered _ _ _ _ g) as [gate g1]. cbn [fst snd] in *.
  set (run := match gate with
              | Passed _ => middleware_counted render r fresh (w, g1)
              | Rejected status text code => (refusal status text code, (w, g1))
              end).
  assert (exists front', front' ∈ fronts /\ bumped front' g (snd (snd run))) as (front' & Hf' & H2).
  { destruct gate; [by eapply middleware_bumped|by exists front]. }
  destruct run as [p [v g2]].
  cbn [snd] in H2. destruct (sign_bumped front' p now' g g2 n Hg Hf' H2) as (back & Hb & H3).
  exists front', back. split; [done|]. split; [done|].
  by destruct (sign_response_metered _ _ _ _).
Qed.

Lemma balanced_new : balanced state 0 (metrics_registry_new (P:=P)).
Proof.
  assert (forall name, get_count name (metrics_registry_new (P:=P)) = 0%Z) as Hz.
  { intros name. unfold get_count. cbn. rewrite family_starts. apply counter_starts. }
  split; unfold refusals_by_cause; cbn; rewrite ?Hz; try lia.
  - by destruct (is_some _).
  - repeat constructor; by rewrite Hz.
Qed.

(** Counts as numbers. *)
Ltac as_numbers :=
  repeat match goal with
  | |- context [get_count ?name ?g] => generalize (get_count name g); intro
  end.

Fixpoint each {A} (p : A -> Prop) (xs : list A) : Prop :=
  match xs with [] => True | x :: xs => p x /\ each p xs end.

Lemma Forall_each {A} (p : A -> Prop) xs : Forall p xs <-> each p xs.
Proof. induction xs as [|x xs IH]; cbn; [done|]. by rewrite Forall_cons, IH. Qed.

Lemma balanced_fits n g : balanced state n g -> (n < u64_max)%Z -> fits n g.
Proof.
  intros [Hr He Hv Hc Hs Hn] Hlt. split; [done|]. apply Forall_each. apply Forall_each in Hn.
  revert Hr He Hv Hc Hs Hn. unfold refusals_by_cause, watched, suffixes.
  cbn [map app foldr each]. as_numbers. intros Hr He Hv Hc Hs Hn. decompose [and] Hn. clear Hn.
  destruct (is_some (st_signing state)); (split_and!; [lia..|constructor]).
Qed.

(** Whatever the layers count of a request keeps the books. *)
Definition keeps_books (signing : bool) (names : list string) : bool :=
  ((raise names "http_requests_total" + raise names "ucp_signature_rejected_total"
    + raise names "ucp_signature_rejected_body_total" =? 1)
   && (raise names "http_errors_total" <=? raise names "http_requests_total")
   && (raise names "ucp_signature_verified_total" <=? raise names "http_requests_total")
   && (raise names "ucp_signature_rejected_total"
       =? foldr (fun suffix n => raise names (rejected_counter suffix) + n) 0 suffixes)
   && (raise names "ucp_response_signed_total" + raise names "ucp_response_sign_error_total"
       =? (if signing then 1 else 0)))%Z.

Lemma layers_keep_books front back :
  front ∈ fronts -> back ∈ backs -> keeps_books (is_some (st_signing state)) (back ++ front) = true.
Proof.
  intros Hf Hb. unfold backs in Hb.
  assert (forallb (fun front => forallb (fun back => keeps_books true (back ++ front))
      [["ucp_response_signed_total"]; ["ucp_response_sign_error_total"]]
    && keeps_books false front) fronts = true) as H by (vm_compute; reflexivity).
  rewrite forallb_forall in H. specialize (H front (proj1 (list_elem_of_In _ _) Hf)).
  apply andb_true_iff in H as [Ht Hn]. rewrite forallb_forall in Ht.
  destruct (is_some (st_signing state)).
  - by apply Ht, list_elem_of_In.
  - by apply list_elem_of_singleton in Hb as ->.
Qed.

Lemma balanced_step n g g' front back :
  balanced state n g -> front ∈ fronts -> back ∈ backs -> bumped (back ++ front) g g' ->
  balanced state (n + 1) g'.
Proof.
  intros [Hr He Hv Hc Hs Hn] Hf Hb H. pose proof (layers_keep_books _ _ Hf Hb) as Hk.
  unfold bumped in H. revert Hk H. generalize (back ++ front) as names. intros names Hk H.
  assert (forall name, 0 <= raise names name)%Z as Hpos by (intros name; unfold raise; destruct (str_contains names name); lia).
  unfold keeps_books in Hk. rewrite !andb_true_iff, !Z.eqb_eq, !Z.leb_le in Hk.
  destruct Hk as ((((K1 & K2) & K3) & K4) & K5).
  assert (refusals_by_cause g'
    = refusals_by_cause g + foldr (fun suffix n => raise names (rejected_counter suffix) + n) 0 suffixes)%Z
    as Hcause.
  { apply Forall_each in H. unfold refusals_by_cause, watched, suffixes in *.
    cbn [map app foldr each] in *. decompose [and] H. lia. }
  assert (Forall (fun name => 0 <= get_count name g')%Z watched) as Hn'.
  { rewrite Forall_forall in *. intros name Hin. specialize (H name Hin). specialize (Hn name Hin).
    specialize (Hpos name). cbn in *. lia. }
  apply Forall_each in H. unfold watched in H. cbn [map app each] in H. decompose [and] H.
  split; try done; destruct (is_some (st_signing state)); lia.
Qed.

(** *** Traffic *)

Record Arrival := MkArrival {
  ar_request : HttpRequest; ar_now : Z; ar_signed_at : Z; ar_fresh : string }.

Fixpoint traffic render refusal (ts : list Arrival) (x : World B * MetricsRegistry P)
  : World B * MetricsRegistry P :=
  match ts with
  | [] => x
  | t :: ts => traffic render refusal ts
      (snd (receive_counted render refusal (ar_request t) (ar_now t) (ar_signed_at t) (ar_fresh t) x))
  end.

Lemma traffic_balanced render refusal ts n x :
  balanced state n (snd x) -> (n + Z.of_nat (length ts) <= u64_max)%Z ->
  balanced state (n + Z.of_nat (length ts)) (snd (traffic render refusal ts x)).
Proof.
  revert n x. induction ts as [|t ts IH]; intros n [w g] Hb Hlt; cbn [length traffic] in *.
  - by rewrite Z.add_0_r.
  - destruct (receive_bumped render refusal (ar_request t) (ar_now t) (ar_signed_at t) (ar_fresh t) w g n)
      as (front & back & Hf & Hbk & Hs); [apply balanced_fits; [done|lia]|].
    pose proof (balanced_step _ _ _ _ _ Hb Hf Hbk Hs) as Hb'.
    replace (n + Z.of_nat (S (length ts)))%Z with (n + 1 + Z.of_nat (length ts))%Z by lia.
    apply IH; [done|lia].
Qed.
End traffic.

(** ** The id of a request on its way to other services *)

(** The task-local of [context.rs]: set for the future it is given, absent outside. *)
Definition Scoped (A : Type) : Type := option string -> A.
Definition current_correlation_id : Scoped (option string) := fun id => id.
Definition with_correlation_id {A} (id : string) (future : Scoped A) : Scoped A := fun _ => future (Some id).

(** What a client draws from outside, in the task it runs in. *)
Definition net_in (net : Net) : Scoped Net := fun id =>
  MkNet (net_send net) (net_now net) (net_nanos net) (form_encode net) (base64 net)
    (parse_token net) (current_correlation_id id).

(** ** [audit.rs] and [tracing_ext.rs] *)

Record AuditEvent := MkAuditEvent {
  ae_id : Uuid; ae_correlation_id : Uuid; ae_event_type : string; ae_occurred_at : Z;
  ae_message : string }.

Definition InMemoryAuditSink : Type := list AuditEvent.
Definition audit_record (event : AuditEvent) (s : InMemoryAuditSink) : InMemoryAuditSink := s ++ [event].
Definition audit_list (s : InMemoryAuditSink) : list AuditEvent := s.

Definition metrics_snapshot {P : PromClient} (g : MetricsRegistry P) : gmap string Z :=
  <["http_errors_total" := get_count "http_errors_total" g]>
    (<["http_requests_total" := get_count "http_requests_total" g]> ∅).

(** ** Properties *)

(** Every request is in the books once.  From the start of the process on, whatever is sent and
    whatever the handlers record besides: each request was either refused by the signature gate,
    and is then under exactly one cause, or was too large for it, or is counted as a request; every
    counted error and every verified signature belongs to a counted request; and where responses
    are signed, each is counted as signed or as not signed. *)
Theorem requests_are_accounted_for {P : PromClient} {PL : PromClientLaws P} {B : Backend}
  {crypto : Crypto} {http : WebFramework} {mcp_serde : McpSerde} {a2a_serde : A2aSerde} env parse_proof
  issuers uuid_from_str to_rfc3339 value_to_string url_with_query crate_version cart_text
  checkout_text order_text identity_text metrics_text openapi_text (self : OrchestratorFacade B) state
  elapsed handler_records render refusal ts w :
  (forall r w g name, name ∈ watched ->
     get_count name (handler_records r w g) = get_count (P:=P) name g) ->
  (Z.of_nat (length ts) <= u64_max)%Z ->
  let g := snd (traffic env parse_proof issuers uuid_from_str to_rfc3339 value_to_string url_with_query
    crate_version cart_text checkout_text order_text identity_text metrics_text openapi_text self state
    elapsed handler_records render refusal ts (w, metrics_registry_new)) in
  (get_count "http_requests_total" g + get_count "ucp_signature_rejected_total" g
     + get_count "ucp_signature_rejected_body_total" g = Z.of_nat (length ts))%Z
  /\ (get_count "http_errors_total" g <= get_count "http_requests_total" g)%Z
  /\ (get_count "ucp_signature_verified_total" g <= get_count "http_requests_total" g)%Z
  /\ get_count "ucp_signature_rejected_total" g = refusals_by_cause g
  /\ (get_count "ucp_response_signed_total" g + get_count "ucp_response_sign_error_total" g
       = if is_some (st_signing state) then Z.of_nat (length ts) else 0)%Z.
Proof.
  intros Hrecords Hlt g.
  pose proof (traffic_balanced env parse_proof issuers uuid_from_str to_rfc3339 value_to_string
    url_with_query crate_version cart_text checkout_text order_text identity_text metrics_text
    openapi_text self state elapsed handler_records Hrecords render refusal ts 0
    (w, metrics_registry_new) (balanced_new state) Hlt) as [H1 H2 H3 H4 H5 _].
  done.
Qed.

(** A service is told which request it is called for: whatever an adapter sends while a request is
    being served carries the request's id, the caller's own or the fresh one, in every attempt. *)
Theorem calls_carry_the_request_id net codec json config base_url r fresh op s :
  let id := request_id r fresh in
  let net := with_correlation_id id (net_in net) None in
  exists reqs,
    h_sent (snd (run_operation net codec json config base_url op s)) = h_sent s ++ reqs
    /\ Forall (fun x => ("X-Correlation-ID", id) ∈ HttpClient.rq_headers (fst x)) reqs.
Proof.
  intros id net'. assert (ambient_correlation net' = Some id) as Hid by done.
  destruct (operation_spec net' codec json config base_url op s) as (reqs & Hs & Ho).
  exists reqs. split; [done|]. unfold operation_attempts in Ho.
  destruct (operation_request json op) as [[[path body] key]|]; [|by destruct Ho as [-> _]].
  destruct Ho as (_ & Hall & _). eapply Forall_impl; [exact Hall|].
  intros x (_ & _ & _ & _ & Hx). by apply Hx.
Qed.

(** ** Witness *)

(** One visitor without a token, one with. *)
Definition two_visits : list Arrival :=
  [MkArrival (as_agent "nobody" "POST" "/api/v1/ucp/carts") 0 0 "r1";
   MkArrival (as_agent "one" "POST" "/api/v1/ucp/carts") 0 0 "r2"].

Abbreviation demo_traffic := (@traffic plain_client memory_backend demo_crypto demo_http demo_serde
  demo_a2a_serde demo_env no_proofs None demo_uuid (fun z => pretty z) (fun _ => "") demo_query "1.0.0"
  "" "" "" "" (Ok "") (Ok "") (demo_facade false) demo_app 0%Z (fun _ _ g => g)
  (fun _ => SignedHttp.MkResponse "200" [] "") (fun _ _ _ => SignedHttp.MkResponse "401" [] "")).

Lemma requests_are_accounted_for_witness :
  let g := snd (demo_traffic two_visits (filled_world, metrics_registry_new)) in
  get_count (P:=plain_client) "http_requests_total" g = 2%Z
  /\ get_count (P:=plain_client) "http_errors_total" g = 1%Z
  /\ (get_count (P:=plain_client) "http_requests_total" g
       + get_count (P:=plain_client) "ucp_signature_rejected_total" g
       + get_count (P:=plain_client) "ucp_signature_rejected_body_total" g = 2)%Z.
Proof.
  split; [vm_compute; reflexivity|]. split; [vm_compute; reflexivity|].
  refine (proj1 (@requests_are_accounted_for plain_client plain_client_laws memory_backend demo_crypto
    demo_http demo_serde demo_a2a_serde demo_env no_proofs None demo_uuid (fun z => pretty z)
    (fun _ => "") demo_query "1.0.0" "" "" "" "" (Ok "") (Ok "") (demo_facade false) demo_app 0%Z
    (fun _ _ g => g) (fun _ => SignedHttp.MkResponse "200" [] "")
    (fun _ _ _ => SignedHttp.MkResponse "401" [] "") two_visits filled_world _ _)); [done|].
  vm_compute. discriminate.
Defined.

(** Only the errors of the handlers and of the caller's credentials are counted: a request for a page
    that is not there is answered with 404, counted as a request, and not as an error. *)
Theorem rejections_are_not_counted_as_errors :
  let lost := MkRequest "GET" "/nowhere" None None [] "" in
  let g := snd (demo_traffic [MkArrival lost 0 0 "r1"] (filled_world, metrics_registry_new)) in
  fst (demo_gated lost 0 filled_world) = inl (Rejection 404)
  /\ get_count (P:=plain_client) "http_requests_total" g = 1%Z
  /\ get_count (P:=plain_client) "http_errors_total" g = 0%Z.
Proof. vm_compute. repeat split. Qed.
